(* ===== verification/_CoqProject ===== *)
-Q . S2P
Prelude.v
Mem.v
Pmm.v
Heap.v
HeapList.v
HeapFit.v
HeapInv.v
HeapProps.v
Paging.v
PagingProps.v
PagingMmu.v
Process.v
ProcessProps.v
ProcessRun.v
Io.v
Keyboard.v
KeyboardProps.v
Vga.v
VgaProps.v
Args.v
ArgsProps.v
Fat32.v
Fat32Names.v
Fat32Dir.v
Fat32Props.v
Fat32Volume.v
Fat32List.v
Ide.v
IdeProps.v
Gdt.v
Idt.v
IdtProps.v
Isr.v
IsrProps.v
Serial.v
Elf.v
ElfProps.v
Syscall.v
SyscallProps.v
SyscallTypes.v
IsrKernel.v
Kernel.v
KernelProps.v
KernelRun.v
Boot.v
LineEdit.v
KernelShell.v
KernelExample.v
User.v
UserRun.v
UserOs.v
UserProps.v
UserPrograms.v
UserTests.v
UserShell.v
UserKernel.v
UserSim.v
UserTop.v
UserExample.v
UserBoot.v
UserBootExample.v
