(* ===== verification/Prelude.v ===== *)
(** * A verification library for the MagnOS kernel

    MagnOS is a small x86 kernel in C (src/kernel) with a FAT32 file system on
    an IDE disk, a text console, a keyboard and a serial port, physical pages,
    a heap, paging, processes and ring-3 programs that call the kernel by
    [int 0x80] (src/userspace).  This library models the kernel, its assembler
    and its programs as Rocq functions, one file or a few per component, and
    proves what makes each component correct and what they do together, from
    the boot sector to the output of a program.

    ** Parts and files

    - Integers, lists, strings, automation: Prelude (this file).  A C integer
      of [w] bits is a [Z] in [0 <= z < 2^w]; [w8], [w16], [w32] are the
      wrap-arounds, [⊕ ⊖ ⊗] the wrapping 32-bit operations, [s8] and [s32] the
      signed readings.  [nthZ] and [updZ] are array accesses.
    - Physical memory as bytes: Mem ([load32], [store32], [memcpy], [memset]).
    - Physical pages (pmm.c): Pmm.  The bitmap is the list of its bytes; its
      abstraction is the set of free pages.  [PageAllocator] is the interface
      that the heap, paging and the processes use.
    - Kernel heap (heap.c): Heap (the code, with block headers in memory),
      HeapList, HeapFit, HeapInv (the abstract list of blocks and its
      invariant), HeapProps (theorems).
    - Paging (paging.c): Paging (tables in memory, CR3, CR0, TLB and the walk
      of the processor), PagingProps, PagingMmu (the same functions with every
      access to a table going through the mapping in force).
    - Processes (process.c, switch.asm): Process (table, scheduler, the
      context switch down to its pushes), ProcessProps, ProcessRun (runs of
      the scheduler).
    - Port I/O (io.h): Io.  Hardware is a type [D] with the class [PortIO]; a
      driver is a computation of the state monad [io D].  [script] is a device
      that answers from a list and logs the writes.
    - Keyboard (keyboard.c): Keyboard, KeyboardProps.
    - Console (vga.c): Vga, VgaProps.
    - Command lines (args.c): Args, ArgsProps.
    - FAT32 (fat32.c): Fat32 (the driver over the class [BlockDevice]),
      Fat32Names (8.3 names), Fat32Dir (cluster chains and walks), Fat32Props
      (theorems), Fat32Volume (a small volume), Fat32List ([fat32_list_root]).
    - IDE disk (ide.c): Ide (the driver; it is a [BlockDevice]), IdeProps (the
      ATA protocol as the class [AtaDevice] and the theorems).
    - Segments and TSS (gdt.c, gdt_flush.asm): Gdt.
    - Interrupts and timer (idt.c): Idt, IdtProps.
    - Interrupt stubs (isr.asm): Isr (the listing of the stubs, executed on a
      processor with segments and its stack in memory, around [isr_handler]),
      IsrProps, IsrKernel (with [schedule] and [syscall_handler] of the kernel).
    - Serial port (serial.c): Serial.
    - ELF loader (elf.c, setjmp.asm): Elf, ElfProps.
    - System calls (syscall.c): Syscall, SyscallProps, SyscallTypes (what
      a call keeps: the memory outside the program's, and the types of the C
      declarations).
    - Kernel start and shell (kernel.c): Kernel ([kernel_main] as statements on
      one state that holds all globals), KernelProps (each component started in
      its invariant), KernelRun (mounting, commands, [kernel_main] as a whole),
      LineEdit and KernelShell (the line editor and the kernel's shell),
      KernelExample (a machine with a disk).
    - Boot sector and entry code (boot.asm, kernel_entry.asm): Boot, over the
      BIOS as a parameter.
    - User programs (userspace/*.c, libmagnos.h, crt0.c): User (the library and
      every program as interaction trees whose events are memory accesses and
      [int 0x80]), UserRun (running a tree against an environment and the rules
      for it), UserOs (the specification of the system calls: an abstract
      console, directory and file), UserProps, UserPrograms, UserTests,
      UserShell (each program on that specification), UserKernel (the kernel
      as an environment, with the page tables deciding what ring 3 reaches),
      UserSim (every call of the kernel simulates the specification), UserTop
      (the programs on the kernel), UserBoot (the programs on the kernel that
      [kernel_main] has started), UserExample and UserBootExample (instances).

    ** How they interact

    The heap, paging and the processes take pages from any [PageAllocator],
    of which Pmm gives the instance.  The file system reads any [BlockDevice];
    the IDE driver is one on every port device, and on an ATA disk it is the
    one that the theorems of the file system assume
    ([ide_implements_image]).  The drivers run on any [PortIO].  The interrupt
    dispatcher calls the keyboard handler, [schedule] and [syscall_handler];
    the last two are parameters of its section, which IsrKernel instantiates
    with the functions of process.c and syscall.c.  The ELF loader writes the
    memory that Paging translates, maps pages through [paging_map] and sets the
    kernel stack of Gdt.  The system-call handler calls the console, the serial
    port, the keyboard, the file system, the ELF loader and the statistics of
    pages and heap.  [kernel_main] puts them together over one memory and one
    page allocator, and enters the user shell; a program is an interaction tree
    whose [int 0x80] is answered by [syscall_handler] and whose memory accesses
    go through the page tables.

    ** Theorems

    - Pages: allocation refines taking the least element of the free set;
      which pages [pmm_init] frees; free after alloc restores the bitmap.
    - Heap: every reachable state keeps the live blocks apart and untouched;
      [kmalloc] is first fit on the abstract list and total; [kfree] gives the
      memory of the block back and coalesces it with a free neighbour; the
      statistics are those of the abstract heap.
    - Paging: [paging_map] and [paging_unmap] change one page of the
      translation; ring 3 reaches only what was mapped for it; the TLB is
      never stale.  These hold with the tables reached through the very mapping
      that the calls change, as long as the calls leave the pages of the page
      allocator mapped to themselves; the calls of the ELF loader do
      ([map_user_pages_mmu]).
    - Processes: round robin, liveness, exactly one running process, and a
      process that is switched out and in again sees nothing of it.
    - Drivers: the keyboard buffer is a FIFO under every interleaving; each
      character of the console does what it should, in bounds; the parser is
      the reference split; the serial port sends the string.
    - File system: listing, opening and reading are functions of the image of
      the disk; reading terminates and stays in bounds on every disk with a
      cluster size that is not 0; the name
      conversions are inverse to each other; a failed mount refuses requests.
    - IDE: reads return the addressed sectors, writes are read back, and no
      device makes a read overrun its buffer.
    - Interrupts: the gates, the controllers and the timer are set up as
      intended, every interrupt is acknowledged exactly once, and [sleep_ms]
      sleeps for the time asked for.
    - Programs: loading a program leaves the image of its file in memory, opens
      exactly its pages to ring 3 and enters it; nested programs return in the
      reverse order, at most eight deep.
    - System calls: reads in pieces deliver the file, arguments stay in their
      buffer, and requests with bad arguments are refused without effect; a call
      with its buffer in the program's memory, with any disk, writes nothing of
      the kernel's memory and keeps words, arrays and indices in their types.
    - Stubs: code that is interrupted, in ring 0 or 3, goes on as if nothing had
      happened when no other process is ready, and a system call passes its
      arguments and its result in the registers; an exception reports the code
      that raised it.
    - Start: the boot sector loads the 53 sectors after it; [kernel_main] brings
      every component into its invariant, in one memory without overlap, mounts
      the disk and enters the SHELL program in ring 3, with exactly its pages
      accessible; commands that cannot be run say why; the kernel's shell edits
      and executes lines.
    - Programs on the kernel: the kernel refines the specification of its
      system calls ([kernel_refines_os]), also the kernel that has just booted
      ([boot_serves_programs]); so cat prints the file on the disk (each piece
      of 1023 bytes up to its first NUL), ls the directory, uptime the time, and
      a session of the shell that starts no program echoes, edits and answers
      each line; ring3 and pftest are stopped by the page tables.

    ** Bounds and fuel

    Loops with a bound in the code recur on that bound.  The list walks of the
    heap take fuel, and the theorems show that the number of blocks is enough.
    Walks of cluster chains, the loop of [fat32_read] and the polling loops of
    the serial port have no bound in the code; they take fuel and answer
    [None] when it runs out, and the theorems say how much is enough: more
    than the clusters of the chain, more than the bytes requested, more than
    the polls the device needs.  Programs may loop for ever, and are ITrees;
    the theorems on them are about runs that end and bound no number of steps:
    the run of a program on the specification is a finite derivation, and the
    kernel's run is built from it.  Theorems about hardware (the ATA drive, the
    UART) are stated on classes of laws with a concrete instance each.

    ** Not modelled

    Programs are modelled as their C source says: what the compiler makes of
    it, and the instructions between two system calls, are not.  The code under
    the three feature flags of kernel.c, which are 0, is not compiled.  The
    linker script is a set of addresses, and its sizes are hypotheses.  An
    interrupt comes between whole operations: in the keyboard queue, in the runs
    of the scheduler, at each [hlt], and in Isr at any instruction of code that
    does not share memory with the handler; races inside a C function are not
    modelled.  Supervisor write protection is not, since the kernel maps nothing
    read-only.  SYSCALL_EXEC of a program that starts is modelled in the kernel
    (Syscall, Elf), and in the specification of UserOs only when it fails: a
    child's run is a run of its own, and no theorem is about a program started
    by the user shell.

    ** Assumptions of the model

    - The statics of the kernel are fields of records beside the memory.  The
      handler of system calls stores through pointers of the program that it
      does not check, and could hit them; the theorems on its stores ask for
      buffers in the program's memory, 0x200000-0x301000, which no static is in.
    - The kernel reaches memory by physical addresses, as the identity map of
      the first 16 MB has it.  For the page tables themselves PagingMmu.v shows
      when this is so.
    - [saved_program], in which SYSCALL_EXEC keeps the caller's memory, is taken
      for memory.  The linker script makes it cover the hole of the PC below
      1 MB ([saved_program_in_hole]), and an exec within an exec overwrites it;
      [sys_exec_restores] says under which conditions it serves.
    - The .bss section is zero at the start ([at_reset]), and no interrupt comes
      between the [sti] of [idt_init] and the first program.
    - C functions use no memory but what their source names: the stack frames of
      the compiled kernel are not in the model. *)

From Stdlib Require Import Ascii String.
From stdpp Require Export prelude.

#[global] Open Scope Z_scope.

(** ** Machine integers

    A C value of an unsigned type of [w] bits is a [Z] kept in
    [0 <= z < 2^w]; every C operation that can leave the range is followed by
    the wrap-around of its type. *)

Definition w8 (x : Z) : Z := x mod 256.
Definition w16 (x : Z) : Z := x mod 65536.
Definition w32 (x : Z) : Z := x mod 4294967296.

(** [(int)x] of a [uint32_t] value. *)
Definition s32 (x : Z) : Z :=
  if w32 x <? 2147483648 then w32 x else w32 x - 4294967296.

(** [(char)x] of an integer, [char] being signed on this target. *)
Definition s8 (x : Z) : Z := if w8 x <? 128 then w8 x else w8 x - 256.

(** An integer used as a C condition. *)
Definition c_true (x : Z) : bool := negb (x =? 0).

Declare Scope c_scope.
Delimit Scope c_scope with C.
Notation "x ⊕ y" := (w32 (x + y)) (at level 50, left associativity) : c_scope.
Notation "x ⊖ y" := (w32 (x - y)) (at level 50, left associativity) : c_scope.
Notation "x ⊗ y" := (w32 (x * y)) (at level 40, left associativity) : c_scope.
Notation "x .& y" := (Z.land x y) (at level 40, left associativity) : c_scope.
Notation "x .| y" := (Z.lor x y) (at level 50, left associativity) : c_scope.
#[global] Open Scope c_scope.

Definition u8 (x : Z) : Prop := 0 <= x < 256.
Definition u16 (x : Z) : Prop := 0 <= x < 65536.
Definition u32 (x : Z) : Prop := 0 <= x < 4294967296.

#[export] Instance u8_dec x : Decision (u8 x).
Proof. unfold u8. apply _. Defined.
#[export] Instance u32_dec x : Decision (u32 x).
Proof. unfold u32. apply _. Defined.

(** ** Automation *)

(** Integer goals with division and remainder by constants. *)
Ltac zdm := Z.div_mod_to_equations; lia.

(** Split every boolean test of the code into the comparison it decides. *)
Ltac bdestr e :=
  lazymatch e with
  | andb ?a ?b => bdestr a; [ bdestr b | ]; cbn [andb]
  | orb ?a ?b => bdestr a; [ | bdestr b ]; cbn [orb]
  | negb ?a => bdestr a; cbn [negb]
  | Z.eqb ?x ?y => destruct (Z.eqb_spec x y)
  | Z.ltb ?x ?y => destruct (Z.ltb_spec x y)
  | Z.leb ?x ?y => destruct (Z.leb_spec x y)
  | _ => let E := fresh "E" in destruct e eqn:E
  end.
Ltac bcase :=
  match goal with
  | |- context [ if ?e then _ else _ ] =>
      lazymatch type of e with bool => bdestr e end
  end.
Ltac bcase_in H :=
  match type of H with
  | context [ if ?e then _ else _ ] =>
      lazymatch type of e with bool => bdestr e end
  end.

Create HintDb magnos.
Create Rewrite HintDb wrap.
Create Rewrite HintDb magnos.

Lemma w8_range x : 0 <= w8 x < 256.
Proof. apply Z.mod_pos_bound. lia. Qed.
Lemma w16_range x : 0 <= w16 x < 65536.
Proof. apply Z.mod_pos_bound. lia. Qed.
Lemma w32_range x : 0 <= w32 x < 4294967296.
Proof. apply Z.mod_pos_bound. lia. Qed.
#[export] Hint Resolve w8_range w16_range w32_range : magnos.

Lemma w8_small x : 0 <= x < 256 → w8 x = x.
Proof. apply Z.mod_small. Qed.
Lemma w16_small x : 0 <= x < 65536 → w16 x = x.
Proof. apply Z.mod_small. Qed.
Lemma w32_small x : 0 <= x < 4294967296 → w32 x = x.
Proof. apply Z.mod_small. Qed.
#[export] Hint Rewrite w8_small w16_small w32_small using lia : wrap.

Lemma w32_idemp x : w32 (w32 x) = w32 x.
Proof. apply w32_small, w32_range. Qed.
Lemma w8_idemp x : w8 (w8 x) = w8 x.
Proof. apply w8_small, w8_range. Qed.
#[export] Hint Rewrite w32_idemp w8_idemp : wrap.

(** Remove the wrap-arounds that do not wrap, innermost first. *)
Ltac wsmall :=
  repeat match goal with
  | |- context [ w32 ?x ] =>
      lazymatch x with
      | context [ w32 _ ] => fail
      | _ => rewrite (w32_small x) by (try assumption; lia)
      end
  end.
Tactic Notation "wsmall" "by" tactic3(tac) :=
  repeat match goal with
  | |- context [ w32 ?x ] =>
      lazymatch x with
      | context [ w32 _ ] => fail
      | _ => rewrite (w32_small x) by tac
      end
  end.
Ltac wsmall_in H :=
  repeat match type of H with
  | context [ w32 ?x ] =>
      lazymatch x with
      | context [ w32 _ ] => fail
      | _ => rewrite (w32_small x) in H by (try assumption; lia)
      end
  end.
Ltac unwrap := autorewrite with wrap in *.

Lemma c_true_spec x : c_true x = true ↔ x ≠ 0.
Proof. unfold c_true. destruct (Z.eqb_spec x 0); simpl; naive_solver. Qed.
Lemma c_true_false x : c_true x = false ↔ x = 0.
Proof. unfold c_true. destruct (Z.eqb_spec x 0); simpl; naive_solver. Qed.

(** ** Bits *)

(** A number below [2^n] has no bit at or above [n]. *)
Lemma testbit_high n x i : 0 <= n → 0 <= x < 2 ^ n → n <= i → Z.testbit x i = false.
Proof.
  intros Hn Hx Hi. rewrite <-(Z.mod_small x (2 ^ n)) by lia.
  apply Z.mod_pow2_bits_high. lia.
Qed.

(** [x & (1 << k)] as a condition is the test of bit [k]. *)
Lemma land_bit x k : 0 <= k → c_true (x .& (1 ≪ k)) = Z.testbit x k.
Proof.
  intros Hk. unfold c_true.
  rewrite Z.shiftl_1_l.
  assert (Z.land x (2 ^ k) = if Z.testbit x k then 2 ^ k else 0) as ->.
  { apply Z.bits_inj_iff'. intros i Hi. rewrite Z.land_spec.
    destruct (decide (i = k)) as [->|Hne].
    - rewrite Z.pow2_bits_true by lia. destruct (Z.testbit x k) eqn:E.
      + by rewrite Z.pow2_bits_true by lia.
      + by rewrite Z.testbit_0_l.
    - rewrite Z.pow2_bits_false by lia. rewrite andb_false_r.
      destruct (Z.testbit x k); [by rewrite Z.pow2_bits_false by lia | by rewrite Z.testbit_0_l]. }
  pose proof (Z.pow_pos_nonneg 2 k ltac:(lia) Hk).
  destruct (Z.testbit x k); bdestr (2 ^ k =? 0) || idtac; try done; lia.
Qed.

(** Wrapping to eight bits keeps the low bits and clears the others. *)
Lemma w8_testbit x i : 0 <= i → Z.testbit (w8 x) i = (i <? 8) && Z.testbit x i.
Proof.
  intros Hi. unfold w8. change 256 with (2 ^ 8).
  destruct (Z.ltb_spec i 8); simpl.
  - by rewrite Z.mod_pow2_bits_low by lia.
  - by rewrite Z.mod_pow2_bits_high by lia.
Qed.

(** ** Lists *)

(** [a[i]] of a C array, [i] an index the code keeps in range. *)
Definition nthZ {A} (d : A) (l : list A) (i : Z) : A :=
  if decide (0 <= i) then default d (l !! Z.to_nat i) else d.

(** [a[i] = x]; no effect out of range (the callers prove the index in range). *)
Definition updZ {A} (l : list A) (i : Z) (x : A) : list A :=
  if decide (0 <= i) then <[Z.to_nat i := x]> l else l.

Lemma length_updZ {A} (l : list A) i x : length (updZ l i x) = length l.
Proof. unfold updZ. case_decide; [apply length_insert | done]. Qed.
#[export] Hint Rewrite @length_updZ : magnos.

Lemma nthZ_updZ_eq {A} (d : A) l i x :
  0 <= i < Z.of_nat (length l) → nthZ d (updZ l i x) i = x.
Proof.
  intros Hi. unfold nthZ, updZ. rewrite !decide_True by lia.
  by rewrite list_lookup_insert_eq by lia.
Qed.
Lemma nthZ_updZ_ne {A} (d : A) l i j x :
  i ≠ j → nthZ d (updZ l i x) j = nthZ d l j.
Proof.
  intros Hne. unfold nthZ, updZ. case_decide; [|done]. case_decide; [|done].
  by rewrite list_lookup_insert_ne by lia.
Qed.
Lemma nthZ_Forall {A} (P : A → Prop) d l i : Forall P l → P d → P (nthZ d l i).
Proof.
  intros Hl Hd. unfold nthZ. case_decide; [|done].
  destruct (l !! _) eqn:E; simpl; [|done]. eapply Forall_lookup_1; eauto.
Qed.
Lemma Forall_updZ {A} (P : A → Prop) l i x : Forall P l → P x → Forall P (updZ l i x).
Proof. intros. unfold updZ. case_decide; [by apply Forall_insert | done]. Qed.
Lemma updZ_id {A} (d : A) l i : 0 <= i < Z.of_nat (length l) → updZ l i (nthZ d l i) = l.
Proof.
  intros Hi. unfold updZ, nthZ. rewrite !decide_True by lia.
  destruct (lookup_lt_is_Some_2 l (Z.to_nat i)) as [y Hy]; [lia|].
  rewrite Hy. simpl. by apply list_insert_id.
Qed.
Lemma updZ_updZ {A} (l : list A) i x y : updZ (updZ l i x) i y = updZ l i y.
Proof. unfold updZ. case_decide; [apply list_insert_insert_eq | done]. Qed.

Lemma list_eq_nthZ {A} (d : A) (l k : list A) :
  length l = length k →
  (∀ i, 0 <= i < Z.of_nat (length l) → nthZ d l i = nthZ d k i) → l = k.
Proof.
  intros Hlen H. apply list_eq_same_length with (length l); [done..|].
  intros i x y Hi Hx Hy. specialize (H (Z.of_nat i) ltac:(lia)).
  unfold nthZ in H. rewrite !decide_True, Nat2Z.id, Hx, Hy in H by lia. done.
Qed.

(** ** Masks *)

(** Masking a 32-bit value with [2^32 - 2^n] clears its low [n] bits. *)
Lemma land_high_mask n x :
  0 <= n <= 32 → 0 <= x < 4294967296 → x .& (4294967296 - 2 ^ n) = x - x mod 2 ^ n.
Proof.
  intros Hn Hx.
  assert (4294967296 - 2 ^ n = Z.ones (32 - n) ≪ n) as ->.
  { rewrite Z.shiftl_mul_pow2, Z.ones_equiv by lia.
    change 4294967296 with (2 ^ 32). replace 32 with ((32 - n) + n) at 1 by lia.
    rewrite Z.pow_add_r by lia. lia. }
  transitivity ((x ≫ n) ≪ n).
  - apply Z.bits_inj_iff'. intros i Hi. rewrite Z.land_spec, !Z.shiftl_spec by lia.
    destruct (decide (i < n)).
    { rewrite !(Z.testbit_neg_r _ (i - n)) by lia. apply andb_false_r. }
    rewrite Z.shiftr_spec by lia. replace (i - n + n) with i by lia.
    destruct (decide (i < 32)).
    + rewrite Z.ones_spec_low by lia. apply andb_true_r.
    + rewrite (testbit_high 32) by (try lia; exact Hx). done.
  - pose proof (Z.pow_pos_nonneg 2 n ltac:(lia) ltac:(lia)).
    rewrite Z.shiftl_mul_pow2, Z.shiftr_div_pow2 by lia.
    rewrite (Z.div_mod x (2 ^ n)) at 2 by lia. lia.
Qed.

Lemma land_low_mask n x : 0 <= n → x .& (2 ^ n - 1) = x mod 2 ^ n.
Proof. intros. rewrite <-Z.land_ones by lia. f_equal. rewrite Z.ones_equiv. lia. Qed.

(** Disjoint bits: [|] is [+]. *)
Lemma lor_low n x y : 0 <= n → 0 <= y < 2 ^ n → x mod 2 ^ n = 0 → x .| y = x + y.
Proof.
  intros Hn Hy Hx. rewrite <-Z.add_lor_land.
  enough (Z.land x y = 0) by lia.
  apply Z.bits_inj_iff'. intros i Hi. rewrite Z.land_spec, Z.testbit_0_l.
  destruct (decide (i < n)).
  - rewrite <-(Z.mod_pow2_bits_low x n) by lia. by rewrite Hx, Z.testbit_0_l.
  - rewrite (testbit_high n y) by lia. apply andb_false_r.
Qed.

(** [|] and [&] stay in the 32-bit range. *)
Lemma lor_u32 x y : u32 x → u32 y → u32 (x .| y).
Proof.
  unfold u32. intros Hx Hy. assert (0 <= Z.lor x y) by (apply Z.lor_nonneg; lia).
  split; [done|]. destruct (decide (Z.lor x y = 0)) as [->|]; [lia|].
  apply (Z.log2_lt_pow2 _ 32); [lia|]. rewrite Z.log2_lor by lia.
  apply Z.max_lub_lt.
  - destruct (decide (x = 0)) as [->|]; [done|]. apply Z.log2_lt_pow2; lia.
  - destruct (decide (y = 0)) as [->|]; [done|]. apply Z.log2_lt_pow2; lia.
Qed.
Lemma land_u32 x y : 0 <= x → u32 y → u32 (x .& y).
Proof.
  unfold u32. intros Hx Hy. rewrite Z.land_nonneg. split; [lia|].
  assert (Z.land x y <= y); [|lia].
  assert (y - Z.land x y = Z.land y (Z.lnot x)) as E.
  { rewrite <-Z.ldiff_land. rewrite Z.land_comm. rewrite Z.sub_nocarry_ldiff.
    - apply Z.bits_inj_iff'. intros i _. rewrite !Z.ldiff_spec, Z.land_spec.
      by destruct (Z.testbit y i), (Z.testbit x i).
    - apply Z.bits_inj_iff'. intros i _. rewrite Z.ldiff_spec, Z.land_spec, Z.testbit_0_l.
      by destruct (Z.testbit y i), (Z.testbit x i). }
  assert (0 <= Z.land y (Z.lnot x)); [|lia]. apply Z.land_nonneg. lia.
Qed.
#[export] Hint Resolve lor_u32 land_u32 : magnos.

(** ** Strings *)

(** The characters of a C string: those before the first NUL. *)
Fixpoint c_string (l : list Z) : list Z :=
  match l with
  | [] => []
  | x :: l => if x =? 0 then [] else x :: c_string l
  end.

Lemma c_string_nonzero l : Forall (λ x, x ≠ 0) (c_string l).
Proof.
  induction l as [|x l IH]; simpl; [constructor|].
  destruct (Z.eqb_spec x 0); [constructor|by constructor].
Qed.
Lemma c_string_app l r : Forall (λ x, x ≠ 0) l → c_string (l ++ 0 :: r) = l.
Proof.
  induction 1 as [|x l Hx Hl IH]; simpl; [done|].
  destruct (Z.eqb_spec x 0); [done|]. by rewrite IH.
Qed.
Lemma c_string_id l : Forall (λ x, x ≠ 0) l → c_string l = l.
Proof.
  induction 1 as [|x l Hx Hl IH]; simpl; [done|].
  destruct (Z.eqb_spec x 0); [done|]. by rewrite IH.
Qed.

(** The bytes of a string literal; [line s] ends it with a new line. *)
Definition chars (s : string) : list Z := (λ c, Z.of_N (N_of_ascii c)) <$> list_ascii_of_string s.
Definition line (s : string) : list Z := chars s ++ [10].
