(* ===== verification/Mem.v ===== *)
(** * Physical memory

    The kernel runs identity-mapped, so every pointer it follows is a physical
    address.  Memory is a finite map from 32-bit addresses to bytes; an address
    that was never written holds zero in the map's reading (the contents of
    fresh RAM are never relied on: every theorem is stated for an arbitrary
    initial map).  A [uint32_t] access is four bytes, little-endian, as on
    the x86. *)

From stdpp Require Import gmap.
From S2P Require Import Prelude.

Abbreviation mem := (gmap Z Z).

Definition load8 (m : mem) (a : Z) : Z := w8 (default 0 (m !! w32 a)).
Definition store8 (m : mem) (a v : Z) : mem := <[w32 a := w8 v]> m.

Definition load32 (m : mem) (a : Z) : Z :=
  load8 m a + 256 * load8 m (a + 1) + 65536 * load8 m (a + 2) +
  16777216 * load8 m (a + 3).
Definition store32 (m : mem) (a v : Z) : mem :=
  store8 (store8 (store8 (store8 m a v) (a + 1) (v / 256))
            (a + 2) (v / 65536)) (a + 3) (v / 16777216).

(** [while (n--) *d++ = *s++;] of [memcpy], bytes in increasing order. *)
Fixpoint memcpy (m : mem) (d s : Z) (n : nat) : mem :=
  match n with
  | O => m
  | S n => memcpy (store8 m d (load8 m s)) (d + 1) (s + 1) n
  end.

(** [while (n--) *p++ = (uint8_t)c;] of [memset]. *)
Fixpoint memset (m : mem) (p c : Z) (n : nat) : mem :=
  match n with
  | O => m
  | S n => memset (store8 m p c) (p + 1) c n
  end.

(** Two memories are the same when no load tells them apart. *)
Definition mem_eq (m1 m2 : mem) : Prop := ∀ a, load8 m1 a = load8 m2 a.

(** An address range that does not wrap around. *)
Definition addr_ok (a n : Z) : Prop := 0 <= a ∧ a + n <= 4294967296.

(** ** Laws of the byte accesses *)

Lemma load8_range m a : 0 <= load8 m a < 256.
Proof. apply w8_range. Qed.
#[export] Hint Resolve load8_range : magnos.

Lemma load8_store8_eq m a v : load8 (store8 m a v) a = w8 v.
Proof. unfold load8, store8. rewrite lookup_insert_eq. simpl. apply w8_idemp. Qed.

Lemma load8_store8_ne m a b v : w32 a ≠ w32 b → load8 (store8 m a v) b = load8 m b.
Proof. intros. unfold load8, store8. by rewrite lookup_insert_ne. Qed.

Lemma load8_store8_far m a b v :
  addr_ok a 1 → addr_ok b 1 → a ≠ b → load8 (store8 m a v) b = load8 m b.
Proof. unfold addr_ok. intros. apply load8_store8_ne. rewrite !w32_small by lia. done. Qed.

#[export] Instance mem_eq_equiv : Equivalence mem_eq.
Proof. split; [by intros m a | intros m n H a; by rewrite H | intros m n k H K a; by rewrite H, K]. Qed.
#[export] Instance load8_proper : Proper (mem_eq ==> eq ==> eq) load8.
Proof. intros m n H a b ->. apply H. Qed.
#[export] Instance store8_proper : Proper (mem_eq ==> eq ==> eq ==> mem_eq) store8.
Proof.
  intros m n H a b -> v w -> x. destruct (decide (w32 b = w32 x)) as [E|E].
  - unfold load8, store8. by rewrite E, !lookup_insert_eq.
  - by rewrite !load8_store8_ne, H.
Qed.
#[export] Instance load32_proper : Proper (mem_eq ==> eq ==> eq) load32.
Proof. intros m n H a b ->. unfold load32. by rewrite !H. Qed.
#[export] Instance store32_proper : Proper (mem_eq ==> eq ==> eq ==> mem_eq) store32.
Proof. intros m n H a b -> v w ->. unfold store32. by rewrite H. Qed.

(** ** Laws of the word accesses *)

Lemma load32_range m a : 0 <= load32 m a < 4294967296.
Proof.
  unfold load32. pose proof (load8_range m a). pose proof (load8_range m (a + 1)).
  pose proof (load8_range m (a + 2)). pose proof (load8_range m (a + 3)). lia.
Qed.
#[export] Hint Resolve load32_range : magnos.

(** A byte of a stored word. *)
Lemma load8_store32 m a b v :
  addr_ok a 4 → addr_ok b 1 →
  load8 (store32 m a v) b =
    if decide (a <= b < a + 4) then w8 (v / 2 ^ (8 * (b - a))) else load8 m b.
Proof.
  intros Ha Hb. unfold store32, addr_ok in *.
  destruct (decide (b = a + 3)) as [->|?].
  { rewrite decide_True, load8_store8_eq by lia.
    by replace (8 * (a + 3 - a)) with 24 by lia. }
  rewrite load8_store8_far by (unfold addr_ok; lia).
  destruct (decide (b = a + 2)) as [->|?].
  { rewrite decide_True, load8_store8_eq by lia.
    by replace (8 * (a + 2 - a)) with 16 by lia. }
  rewrite load8_store8_far by (unfold addr_ok; lia).
  destruct (decide (b = a + 1)) as [->|?].
  { rewrite decide_True, load8_store8_eq by lia.
    by replace (8 * (a + 1 - a)) with 8 by lia. }
  rewrite load8_store8_far by (unfold addr_ok; lia).
  destruct (decide (b = a)) as [->|?].
  { rewrite decide_True, load8_store8_eq, Z.sub_diag by lia.
    simpl. by rewrite Z.div_1_r. }
  rewrite load8_store8_far by (unfold addr_ok; lia).
  rewrite decide_False by lia. done.
Qed.

Lemma load8_store32_far m a b v :
  addr_ok a 4 → addr_ok b 1 → ¬ (a <= b < a + 4) → load8 (store32 m a v) b = load8 m b.
Proof. intros. by rewrite load8_store32, decide_False. Qed.

Lemma load32_store32_eq m a v : addr_ok a 4 → load32 (store32 m a v) a = w32 v.
Proof.
  intros Ha. unfold load32, addr_ok in *.
  rewrite !load8_store32 by (unfold addr_ok; lia).
  rewrite !decide_True by lia.
  replace (8 * (a - a)) with 0 by lia. replace (8 * (a + 1 - a)) with 8 by lia.
  replace (8 * (a + 2 - a)) with 16 by lia. replace (8 * (a + 3 - a)) with 24 by lia.
  change (2 ^ 0) with 1. change (2 ^ 8) with 256. change (2 ^ 16) with 65536.
  change (2 ^ 24) with 16777216. unfold w8, w32. zdm.
Qed.

Lemma load32_store32_ne m a b v :
  addr_ok a 4 → addr_ok b 4 → a + 4 <= b ∨ b + 4 <= a →
  load32 (store32 m a v) b = load32 m b.
Proof.
  unfold addr_ok. intros. unfold load32.
  rewrite !load8_store32_far by (unfold addr_ok; lia). done.
Qed.

(** Loads that agree byte by byte agree as words. *)
Lemma load32_ext m n a :
  (∀ i, a <= i < a + 4 → load8 m i = load8 n i) → load32 m a = load32 n a.
Proof. intros H. unfold load32. rewrite !H by lia. done. Qed.

(** ** [memset] and [memcpy] *)

Lemma load8_memset n : ∀ m p c b,
  addr_ok p (Z.of_nat n) → addr_ok b 1 →
  load8 (memset m p c n) b =
    if decide (p <= b < p + Z.of_nat n) then w8 c else load8 m b.
Proof.
  induction n as [|n IH]; intros m p c b Hp Hb; simpl; unfold addr_ok in *.
  { rewrite decide_False by lia. done. }
  rewrite IH by (unfold addr_ok; lia).
  destruct (decide (b = p)) as [->|Hne].
  - rewrite decide_False, decide_True, load8_store8_eq by lia. done.
  - rewrite load8_store8_far by (unfold addr_ok; lia).
    repeat case_decide; (done || lia).
Qed.

Lemma load8_memcpy n : ∀ m d s b,
  addr_ok d (Z.of_nat n) → addr_ok s (Z.of_nat n) → addr_ok b 1 →
  d + Z.of_nat n <= s ∨ s + Z.of_nat n <= d →
  load8 (memcpy m d s n) b =
    if decide (d <= b < d + Z.of_nat n) then load8 m (s + (b - d)) else load8 m b.
Proof.
  induction n as [|n IH]; intros m d s b Hd Hs Hb Hdis; simpl; unfold addr_ok in *.
  { rewrite decide_False by lia. done. }
  rewrite IH by (unfold addr_ok; lia).
  destruct (decide (b = d)) as [->|Hne].
  - rewrite decide_False, decide_True, load8_store8_eq by lia.
    replace (s + (d - d)) with s by lia. by rewrite w8_small by apply load8_range.
  - rewrite (load8_store8_far _ _ b) by (unfold addr_ok; lia).
    repeat case_decide; try (done || lia).
    rewrite load8_store8_far by (unfold addr_ok; lia). f_equal. lia.
Qed.

(** The bytes of a range, as the list a block device or a file would hold. *)
Definition load_bytes (m : mem) (a n : Z) : list Z := (λ i, load8 m (a + i)) <$> seqZ 0 n.

Fixpoint store_bytes (m : mem) (a : Z) (bs : list Z) : mem :=
  match bs with
  | [] => m
  | b :: bs => store_bytes (store8 m a b) (a + 1) bs
  end.

(** Two copies one after the other are one. *)
Lemma store_bytes_app l : ∀ r m a,
  store_bytes m a (l ++ r) = store_bytes (store_bytes m a l) (a + Z.of_nat (length l)) r.
Proof.
  induction l as [|x l IH]; intros r m a; cbn [app store_bytes length]; [by rewrite Z.add_0_r|].
  rewrite IH. f_equal. lia.
Qed.

Lemma load8_store_bytes bs : ∀ m a b,
  addr_ok a (Z.of_nat (length bs)) → addr_ok b 1 →
  load8 (store_bytes m a bs) b =
    if decide (a <= b < a + Z.of_nat (length bs))
    then w8 (nthZ 0 bs (b - a)) else load8 m b.
Proof.
  induction bs as [|x bs IH]; intros m a b Ha Hb; simpl in *; unfold addr_ok in *.
  { rewrite decide_False by lia. done. }
  rewrite IH by (unfold addr_ok; lia).
  destruct (decide (b = a)) as [->|Hne].
  - rewrite decide_False, decide_True, load8_store8_eq by lia.
    by rewrite Z.sub_diag.
  - rewrite load8_store8_far by (unfold addr_ok; lia).
    repeat case_decide; try (done || lia).
    f_equal. unfold nthZ. rewrite !decide_True by lia.
    replace (Z.to_nat (b - a)) with (S (Z.to_nat (b - (a + 1)))) by lia. done.
Qed.
