(* ===== verification/Pmm.v ===== *)
(** * Physical memory manager (kernel/pmm.c, kernel/pmm.h)

    The bitmap allocator of 4 KB pages: the array [bitmap] is a list of 512
    bytes, one bit per page, 1 for a used page.  Its abstract specification is
    the set of free page numbers ([free_pages]); the class [PageAllocator] is
    what the heap, the paging code and the process table rely on, and this
    file discharges it. *)

From stdpp Require Import gmap.
From S2P Require Import Prelude.

Definition PAGE_SIZE : Z := 4096.
Definition TOTAL_MEMORY : Z := 16 * 1024 * 1024.
Definition TOTAL_PAGES : Z := TOTAL_MEMORY / PAGE_SIZE.

(** ** The code *)

Definition BITMAP_SET (bitmap : list Z) (p : Z) : list Z :=
  updZ bitmap (p / 8) (w8 (nthZ 0 bitmap (p / 8) .| (1 ≪ (p mod 8)))).
Definition BITMAP_CLEAR (bitmap : list Z) (p : Z) : list Z :=
  updZ bitmap (p / 8) (w8 (nthZ 0 bitmap (p / 8) .& Z.lnot (1 ≪ (p mod 8)))).
Definition BITMAP_TEST (bitmap : list Z) (p : Z) : bool :=
  c_true (nthZ 0 bitmap (p / 8) .& (1 ≪ (p mod 8))).

(** [kend] is the address of the linker symbol [_kernel_end]. *)
Definition pmm_init (kend : Z) (bitmap : list Z) : list Z :=
  let bitmap := fold_left (λ bm i, updZ bm i 255) (seqZ 0 (TOTAL_PAGES / 8)) bitmap in
  let kend_page := (kend ⊕ (PAGE_SIZE - 1)) / PAGE_SIZE in
  let bitmap :=
    fold_left (λ bm p,
        if (0xA0000 / PAGE_SIZE <=? p) && (p <=? 0xFFFFF / PAGE_SIZE) then bm
        else BITMAP_CLEAR bm p)
      (seqZ kend_page (0x1F0000 / PAGE_SIZE - kend_page)) bitmap in
  fold_left BITMAP_CLEAR
    (seqZ (0x300000 / PAGE_SIZE) (TOTAL_PAGES - 0x300000 / PAGE_SIZE)) bitmap.

(** The inner loop of [pmm_alloc]: the first clear bit from [bit] on. *)
Fixpoint alloc_bits (b bit : Z) (n : nat) : option Z :=
  match n with
  | O => None
  | S n => if negb (c_true (b .& (1 ≪ bit))) then Some bit else alloc_bits b (bit + 1) n
  end.
(** The outer loop, over the bytes of the array from index [i] on: the first
    one that is not 0xFF and has a clear bit. *)
Fixpoint alloc_bytes (bytes : list Z) (i : Z) : option (Z * Z) :=
  match bytes with
  | [] => None
  | b :: bytes =>
      if b =? 255 then alloc_bytes bytes (i + 1)
      else match alloc_bits b 0 8 with
           | Some bit => Some (i, bit)
           | None => alloc_bytes bytes (i + 1)
           end
  end.
Definition pmm_alloc (bitmap : list Z) : Z * list Z :=
  match alloc_bytes bitmap 0 with
  | Some (i, bit) =>
      (((i ⊗ 8) ⊕ bit) ⊗ PAGE_SIZE, updZ bitmap i (w8 (nthZ 0 bitmap i .| (1 ≪ bit))))
  | None => (0, bitmap)
  end.

Definition pmm_free (bitmap : list Z) (addr : Z) : list Z :=
  let page := addr / PAGE_SIZE in
  if (0 <? page) && (page <? TOTAL_PAGES) then BITMAP_CLEAR bitmap page else bitmap.

Definition count_bits (b count : Z) : Z :=
  fold_left (λ count bit, if negb (c_true (b .& (1 ≪ bit))) then count ⊕ 1 else count)
    (seqZ 0 8) count.
Definition pmm_get_free_count (bitmap : list Z) : Z :=
  fold_left (λ count b, count_bits b count) bitmap 0.
Definition pmm_get_total_count : Z := TOTAL_PAGES.

(** ** Abstract state and invariant *)

Definition page_used (bitmap : list Z) (p : Z) : bool :=
  Z.testbit (nthZ 0 bitmap (p / 8)) (p mod 8).

(** The set of free page numbers: what the bitmap stands for. *)
Definition free_pages (bitmap : list Z) : gset Z :=
  list_to_set (filter (λ p, page_used bitmap p = false) (seqZ 0 TOTAL_PAGES)).

Record pmm_inv (bitmap : list Z) : Prop := {
  pmm_len : length bitmap = 512%nat;
  pmm_bytes : Forall u8 bitmap;
  pmm_page0 : page_used bitmap 0 = true
}.

(** A page in physical memory that is not page 0. *)
Definition page_ok (a : Z) : Prop :=
  a mod PAGE_SIZE = 0 ∧ PAGE_SIZE <= a ∧ a + PAGE_SIZE <= TOTAL_MEMORY.

(** Byte [a] is in one of the pages [U]. *)
Definition in_pages (U : gset Z) (a : Z) : Prop := ∃ p, p ∈ U ∧ p <= a < p + PAGE_SIZE.

(** The interface of a page allocator, as its clients use it: [pa_free] are the
    addresses of the pages it may hand out. *)
Class PageAllocator (S : Type) := {
  pa_alloc : S → Z * S;
  pa_inv : S → Prop;
  pa_free : S → gset Z;
  pa_page s a : pa_inv s → a ∈ pa_free s → page_ok a;
  pa_alloc_ok s a s' : pa_inv s → pa_alloc s = (a, s') → a ≠ 0 →
    pa_inv s' ∧ a ∈ pa_free s ∧ pa_free s' = pa_free s ∖ {[a]};
  pa_alloc_fail s s' : pa_inv s → pa_alloc s = (0, s') →
    s' = s ∧ pa_free s = ∅
}.

(** A page is taken. *)
Definition takes {S} `{PageAllocator S} (s s' : S) : Prop := ∃ a, a ≠ 0 ∧ pa_alloc s = (a, s').

Lemma takes_alloc {S} `{PageAllocator S} s a s' : pa_inv s → pa_alloc s = (a, s') → pa_inv s' ∧ rtc takes s s'.
Proof.
  intros Hi Ha. destruct (decide (a = 0)) as [->|Hne].
  - destruct (pa_alloc_fail _ _ Hi Ha) as [-> _]. by split.
  - destruct (pa_alloc_ok _ _ _ Hi Ha Hne) as (Hi' & _ & _). split; [exact Hi'|]. apply rtc_once. by exists a.
Qed.

(** ** Reading and changing one page *)

Lemma page_index p : 0 <= p < TOTAL_PAGES → 0 <= p / 8 < 512.
Proof. unfold TOTAL_PAGES, TOTAL_MEMORY, PAGE_SIZE. intros. zdm. Qed.

Lemma BITMAP_TEST_used bm p : BITMAP_TEST bm p = page_used bm p.
Proof. unfold BITMAP_TEST, page_used. apply land_bit. zdm. Qed.

Lemma testbit_bit k j : 0 <= k → Z.testbit (1 ≪ k) j = bool_decide (k = j).
Proof.
  intros. rewrite Z.shiftl_1_l, Z.pow2_bits_eqb by lia.
  case_bool_decide; subst; [apply Z.eqb_refl | by apply Z.eqb_neq].
Qed.

(** Rewriting one byte of the bitmap through a bit function [f]. *)
Lemma page_used_upd bm p q f :
  length bm = 512%nat → 0 <= p < TOTAL_PAGES → 0 <= q < TOTAL_PAGES →
  page_used (updZ bm (q / 8) (w8 (f (nthZ 0 bm (q / 8))))) p =
    if decide (p / 8 = q / 8) then Z.testbit (f (nthZ 0 bm (p / 8))) (p mod 8)
    else page_used bm p.
Proof.
  intros Hl Hp Hq. unfold page_used. pose proof (page_index q Hq).
  destruct (decide (p / 8 = q / 8)) as [->|Hne].
  - rewrite nthZ_updZ_eq by (rewrite Hl; lia).
    rewrite w8_testbit by zdm. replace (p mod 8 <? 8) with true by (symmetry; apply Z.ltb_lt; zdm).
    done.
  - by rewrite nthZ_updZ_ne.
Qed.

Lemma same_bit p q : p / 8 = q / 8 → (p mod 8 = q mod 8 ↔ p = q).
Proof. intros. split; [zdm | by intros ->]. Qed.

Lemma page_used_clear bm p q :
  length bm = 512%nat → 0 <= p < TOTAL_PAGES → 0 <= q < TOTAL_PAGES →
  page_used (BITMAP_CLEAR bm q) p = page_used bm p && negb (bool_decide (p = q)).
Proof.
  intros Hl Hp Hq. unfold BITMAP_CLEAR.
  rewrite (page_used_upd bm p q (λ b, b .& Z.lnot (1 ≪ (q mod 8)))) by done.
  assert (0 <= p mod 8) by zdm. assert (0 <= q mod 8) by zdm.
  case_decide as E.
  - rewrite Z.land_spec, Z.lnot_spec, testbit_bit by lia. unfold page_used.
    do 2 f_equal. apply bool_decide_ext. rewrite <-(same_bit p q E). split; congruence.
  - rewrite bool_decide_false by (intros ->; done). by rewrite andb_true_r.
Qed.

Lemma page_used_set bm p q :
  length bm = 512%nat → 0 <= p < TOTAL_PAGES → 0 <= q < TOTAL_PAGES →
  page_used (BITMAP_SET bm q) p = page_used bm p || bool_decide (p = q).
Proof.
  intros Hl Hp Hq. unfold BITMAP_SET.
  rewrite (page_used_upd bm p q (λ b, b .| (1 ≪ (q mod 8)))) by done.
  assert (0 <= p mod 8) by zdm. assert (0 <= q mod 8) by zdm.
  case_decide as E.
  - rewrite Z.lor_spec, testbit_bit by lia. unfold page_used.
    f_equal. apply bool_decide_ext. rewrite <-(same_bit p q E). split; congruence.
  - rewrite bool_decide_false by (intros ->; done). by rewrite orb_false_r.
Qed.

Lemma elem_of_free_pages bm p :
  p ∈ free_pages bm ↔ 0 <= p < TOTAL_PAGES ∧ page_used bm p = false.
Proof.
  unfold free_pages. rewrite elem_of_list_to_set, list_elem_of_filter, elem_of_seqZ.
  split; intros; destruct_and?; split_and?; (done || lia).
Qed.

(** Two bitmaps that mark the same pages are the same bitmap. *)
Lemma bitmap_ext bm bm' :
  length bm = 512%nat → length bm' = 512%nat → Forall u8 bm → Forall u8 bm' →
  (∀ p, 0 <= p < TOTAL_PAGES → page_used bm p = page_used bm' p) → bm = bm'.
Proof.
  intros Hl Hl' Hb Hb' H. apply (list_eq_nthZ 0); [congruence|].
  intros i Hi. rewrite Hl in Hi.
  assert (u8 (nthZ 0 bm i)) by (apply nthZ_Forall; [done | unfold u8; lia]).
  assert (u8 (nthZ 0 bm' i)) by (apply nthZ_Forall; [done | unfold u8; lia]).
  unfold u8 in *. apply Z.bits_inj_iff'. intros n Hn.
  destruct (decide (n < 8)).
  - specialize (H (8 * i + n)). change TOTAL_PAGES with 4096 in H. unfold page_used in H.
    replace ((8 * i + n) / 8) with i in H by zdm.
    replace ((8 * i + n) mod 8) with n in H by zdm. apply H. lia.
  - rewrite !(testbit_high 8) by lia. done.
Qed.

(** ** Loops over pages *)

Lemma clear_len bm p : length (BITMAP_CLEAR bm p) = length bm.
Proof. apply length_updZ. Qed.

Lemma fold_clear_len l bm : length (fold_left BITMAP_CLEAR l bm) = length bm.
Proof. revert bm. induction l as [|p l IH]; intros bm; simpl; [done|]. by rewrite IH, clear_len. Qed.

Lemma clear_bytes bm p : Forall u8 bm → Forall u8 (BITMAP_CLEAR bm p).
Proof. intros. apply Forall_updZ; [done | apply w8_range]. Qed.

Lemma fold_clear_bytes l bm : Forall u8 bm → Forall u8 (fold_left BITMAP_CLEAR l bm).
Proof. revert bm. induction l as [|p l IH]; intros bm H; simpl; [done|]. apply IH, clear_bytes, H. Qed.

Lemma page_used_fold_clear l bm p :
  length bm = 512%nat → 0 <= p < TOTAL_PAGES → (∀ q, q ∈ l → 0 <= q < TOTAL_PAGES) →
  page_used (fold_left BITMAP_CLEAR l bm) p = page_used bm p && negb (bool_decide (p ∈ l)).
Proof.
  revert bm. induction l as [|q l IH]; intros bm Hl Hp Hin; cbn [fold_left].
  { rewrite bool_decide_false by apply not_elem_of_nil. by rewrite andb_true_r. }
  rewrite IH by (rewrite ?clear_len; set_solver).
  rewrite page_used_clear by (try done; apply Hin; set_solver).
  rewrite <-andb_assoc, <-negb_orb. do 2 f_equal.
  repeat case_bool_decide; set_solver.
Qed.

Lemma fold_skip_filter (f : list Z → Z → list Z) (sk : Z → bool) l bm :
  fold_left (λ bm p, if sk p then bm else f bm p) l bm =
  fold_left f (filter (λ p, sk p = false) l) bm.
Proof.
  revert bm. induction l as [|p l IH]; intros bm; simpl; [done|].
  rewrite filter_cons. destruct (sk p); case_decide; simpl; try done; apply IH.
Qed.

Lemma fold_fill bm n :
  length bm = n → fold_left (λ bm i, updZ bm i 255) (seqZ 0 (Z.of_nat n)) bm = replicate n 255.
Proof.
  intros Hl.
  assert (∀ k bm, length bm = n → (k <= n)%nat →
    length (fold_left (λ bm i, updZ bm i 255) (seqZ 0 (Z.of_nat k)) bm) = n ∧
    ∀ i, 0 <= i < Z.of_nat k →
      nthZ 0 (fold_left (λ bm i, updZ bm i 255) (seqZ 0 (Z.of_nat k)) bm) i = 255) as H.
  { clear. induction k as [|k IH]; intros bm Hl Hk; simpl; [split; [done|lia]|].
    replace (Z.of_nat (S k)) with (Z.of_nat k + 1) by lia.
    rewrite seqZ_app, fold_left_app by lia. change (seqZ (0 + Z.of_nat k) 1) with [Z.of_nat k].
    simpl. destruct (IH bm Hl) as [IH1 IH2]; [lia|]. rewrite length_updZ. split; [done|].
    intros i Hi. destruct (decide (i = Z.of_nat k)) as [->|].
    - apply nthZ_updZ_eq. lia.
    - rewrite nthZ_updZ_ne by lia. apply IH2. lia. }
  destruct (H n bm Hl) as [H1 H2]; [lia|].
  apply (list_eq_nthZ 0); [by rewrite length_replicate|].
  intros i Hi. rewrite H2 by lia. unfold nthZ. rewrite decide_True by lia.
  rewrite lookup_replicate_2 by lia. done.
Qed.

(** ** The search of [pmm_alloc] *)

Lemma alloc_bits_spec n : ∀ b bit, 0 <= bit →
  match alloc_bits b bit n with
  | Some k => bit <= k < bit + Z.of_nat n ∧ Z.testbit b k = false ∧
              ∀ j, bit <= j < k → Z.testbit b j = true
  | None => ∀ j, bit <= j < bit + Z.of_nat n → Z.testbit b j = true
  end.
Proof.
  induction n as [|n IH]; intros b bit Hbit; cbn [alloc_bits]; [lia|].
  rewrite land_bit by lia. destruct (Z.testbit b bit) eqn:E; simpl.
  - specialize (IH b (bit + 1) ltac:(lia)). destruct (alloc_bits b (bit + 1) n).
    + destruct IH as (? & ? & IH). split_and!; [lia..|done|].
      intros j Hj. destruct (decide (j = bit)) as [->|]; [done | apply IH; lia].
    + intros j Hj. destruct (decide (j = bit)) as [->|]; [done | apply IH; lia].
  - split_and!; [lia..|done|lia].
Qed.

Lemma testbit_255 j : 0 <= j < 8 → Z.testbit 255 j = true.
Proof. intros. change 255 with (Z.ones 8). apply Z.ones_spec_low. lia. Qed.

(** The page at bit [k] of byte [i]. *)
Lemma page_used_at bm i k : 0 <= k < 8 → page_used bm (8 * i + k) = Z.testbit (nthZ 0 bm i) k.
Proof.
  intros. unfold page_used. replace ((8 * i + k) / 8) with i by zdm.
  by replace ((8 * i + k) mod 8) with k by zdm.
Qed.

Lemma nthZ_middle {A} (d : A) pre x l : nthZ d (pre ++ x :: l) (Z.of_nat (length pre)) = x.
Proof. unfold nthZ. rewrite decide_True, Nat2Z.id, list_lookup_middle by (done || lia). done. Qed.

Lemma alloc_bytes_spec bs : ∀ pre,
  let n := Z.of_nat (length pre) in
  match alloc_bytes bs n with
  | Some (j, k) => n <= j < n + Z.of_nat (length bs) ∧ 0 <= k < 8 ∧
      page_used (pre ++ bs) (8 * j + k) = false ∧
      ∀ p, 8 * n <= p < 8 * j + k → page_used (pre ++ bs) p = true
  | None => ∀ p, 8 * n <= p < 8 * (n + Z.of_nat (length bs)) → page_used (pre ++ bs) p = true
  end.
Proof.
  induction bs as [|b bs IH]; intros pre n; cbn [alloc_bytes length]; [lia|].
  specialize (IH (pre ++ [b])). rewrite <-app_assoc, length_app in IH. cbn [app length] in IH.
  cbv zeta in IH. replace (Z.of_nat (length pre + 1)) with (n + 1) in IH by lia.
  assert (∀ j, 0 <= j < 8 → page_used (pre ++ b :: bs) (8 * n + j) = Z.testbit b j) as Hb.
  { intros j Hj. rewrite page_used_at by done. unfold n. by rewrite nthZ_middle. }
  assert (∀ p, 8 * n <= p < 8 * (n + 1) → p = 8 * n + (p - 8 * n) ∧ 0 <= p - 8 * n < 8) as Hp
    by lia.
  set (bm := pre ++ b :: bs) in *.
  assert ((∀ j, 0 <= j < 8 → Z.testbit b j = true) →
    match alloc_bytes bs (n + 1) with
    | Some (j, k) => n <= j < n + Z.of_nat (S (length bs)) ∧ 0 <= k < 8 ∧
        page_used bm (8 * j + k) = false ∧ ∀ p, 8 * n <= p < 8 * j + k → page_used bm p = true
    | None => ∀ p, 8 * n <= p < 8 * (n + Z.of_nat (S (length bs))) → page_used bm p = true
    end) as Hnext.
  { intros Hall.
    assert (∀ p, 8 * n <= p < 8 * (n + 1) → page_used bm p = true) as Hfull.
    { intros p [E ?]%Hp. rewrite E, Hb by lia. auto. }
    destruct (alloc_bytes bs (n + 1)) as [[j k]|].
    - destruct IH as (? & ? & ? & IH). split_and!; [lia..|done|].
      intros p ?. destruct (decide (p < 8 * (n + 1))); [apply Hfull; lia | apply IH; lia].
    - intros p ?. destruct (decide (p < 8 * (n + 1))); [apply Hfull; lia | apply IH; lia]. }
  destruct (Z.eqb_spec b 255) as [E|E].
  - apply Hnext. rewrite E. apply testbit_255.
  - pose proof (alloc_bits_spec 8 b 0 ltac:(lia)) as Hbits.
    destruct (alloc_bits b 0 8) as [k|]; [|apply Hnext; intros; apply Hbits; lia].
    destruct Hbits as (? & ? & Hlow). split_and!; [lia..| |].
    + by rewrite Hb by lia.
    + intros p ?. destruct (Hp p) as [-> ?]; [lia|]. rewrite Hb by lia. apply Hlow. lia.
Qed.

(** The outcome of [pmm_alloc]: the lowest free page, marked used, or failure
    with every page used. *)
Lemma pmm_alloc_cases bm a bm' :
  pmm_inv bm → pmm_alloc bm = (a, bm') →
  (∃ p, 0 < p < TOTAL_PAGES ∧ page_used bm p = false ∧ a = p * PAGE_SIZE ∧
        bm' = BITMAP_SET bm p ∧ ∀ q, 0 <= q < p → page_used bm q = true) ∨
  (a = 0 ∧ bm' = bm ∧ ∀ q, 0 <= q < TOTAL_PAGES → page_used bm q = true).
Proof.
  intros [Hl Hb H0] Ha. unfold pmm_alloc in Ha. change TOTAL_PAGES with 4096.
  pose proof (alloc_bytes_spec bm []) as Hs.
  cbv zeta in Hs. cbn [length app] in Hs. change (Z.of_nat 0) with 0 in Hs. rewrite Hl in Hs.
  destruct (alloc_bytes bm 0) as [[i k]|]; injection Ha as <- <-.
  - left. destruct Hs as (Hi & Hk & Hf & Hlow). exists (8 * i + k).
    split_and!; [|lia|done| | |].
    + destruct (decide (8 * i + k = 0)) as [E|]; [congruence | lia].
    + unfold PAGE_SIZE. wsmall. lia.
    + unfold BITMAP_SET. replace ((8 * i + k) / 8) with i by zdm.
      by replace ((8 * i + k) mod 8) with k by zdm.
    + intros q Hq. apply Hlow. lia.
  - right. split_and!; [done..|]. intros q Hq. apply Hs. lia.
Qed.

(** ** Invariant preservation *)

Lemma free_pages_set bm p :
  length bm = 512%nat → 0 <= p < TOTAL_PAGES →
  free_pages (BITMAP_SET bm p) = free_pages bm ∖ {[p]}.
Proof.
  intros. apply set_eq. intros q.
  rewrite elem_of_difference, elem_of_singleton, !elem_of_free_pages.
  split.
  - intros [? Hq]. rewrite page_used_set in Hq by done.
    apply orb_false_iff in Hq as [? ?%bool_decide_eq_false]. done.
  - intros [[? Hq] ?]. rewrite page_used_set, Hq, bool_decide_false by done. done.
Qed.

Lemma free_pages_clear bm p :
  length bm = 512%nat → 0 <= p < TOTAL_PAGES →
  free_pages (BITMAP_CLEAR bm p) = free_pages bm ∪ {[p]}.
Proof.
  intros. apply set_eq. intros q.
  rewrite elem_of_union, elem_of_singleton, !elem_of_free_pages.
  split.
  - intros [? Hq]. rewrite page_used_clear in Hq by done.
    apply andb_false_iff in Hq as [Hq|Hq%negb_false_iff%bool_decide_eq_true]; auto.
  - intros [[? Hq] | -> ]; (split; [done|]); rewrite page_used_clear by done.
    + by rewrite Hq.
    + rewrite bool_decide_true by done. apply andb_false_r.
Qed.

Lemma pmm_inv_set bm p : pmm_inv bm → 0 <= p < TOTAL_PAGES → pmm_inv (BITMAP_SET bm p).
Proof.
  intros [Hl Hb H0] Hp. split.
  - by unfold BITMAP_SET; rewrite length_updZ.
  - apply Forall_updZ; [done | apply w8_range].
  - rewrite page_used_set, H0 by (try done; change TOTAL_PAGES with 4096; lia). done.
Qed.

Lemma pmm_inv_clear bm p : pmm_inv bm → 0 < p < TOTAL_PAGES → pmm_inv (BITMAP_CLEAR bm p).
Proof.
  intros [Hl Hb H0] Hp. split.
  - by rewrite clear_len.
  - by apply clear_bytes.
  - rewrite page_used_clear, H0, bool_decide_false by (try done; change TOTAL_PAGES with 4096 in *; lia). done.
Qed.

Lemma pmm_alloc_inv bm a bm' : pmm_inv bm → pmm_alloc bm = (a, bm') → pmm_inv bm'.
Proof.
  intros Hi Ha. destruct (pmm_alloc_cases _ _ _ Hi Ha) as [(p & ? & _ & _ & -> & _)|(_ & -> & _)];
    [apply pmm_inv_set; [done | lia] | done].
Qed.

Lemma pmm_free_inv bm a : pmm_inv bm → pmm_inv (pmm_free bm a).
Proof. intros Hi. unfold pmm_free. bcase; auto. apply pmm_inv_clear; [done|lia]. Qed.
#[export] Hint Resolve pmm_alloc_inv pmm_free_inv pmm_inv_set : magnos.

(** ** Initialisation *)

Definition init_free (kend p : Z) : Prop :=
  ((kend ⊕ 4095) / 4096 <= p < 0x1F0 ∧ ¬ (0xA0 <= p <= 0xFF)) ∨ 0x300 <= p < 4096.
#[export] Instance init_free_dec kend p : Decision (init_free kend p).
Proof. unfold init_free. apply _. Defined.

Lemma pmm_init_body kend bm :
  length bm = 512%nat →
  pmm_init kend bm =
    fold_left BITMAP_CLEAR (seqZ 0x300 (4096 - 0x300))
      (fold_left BITMAP_CLEAR
         (filter (λ p, (0xA0 <=? p) && (p <=? 0xFF) = false)
            (seqZ ((kend ⊕ 4095) / 4096) (0x1F0 - (kend ⊕ 4095) / 4096)))
         (replicate 512 255)).
Proof.
  intros Hl. unfold pmm_init. rewrite fold_skip_filter.
  change (TOTAL_PAGES / 8) with (Z.of_nat 512). rewrite fold_fill by done.
  reflexivity.
Qed.

Lemma used_replicate p : 0 <= p < 4096 → page_used (replicate 512 255) p = true.
Proof.
  intros. unfold page_used, nthZ. rewrite decide_True by zdm.
  rewrite lookup_replicate_2 by zdm. apply testbit_255. zdm.
Qed.

Lemma pmm_init_used kend bm p :
  length bm = 512%nat → 0 <= p < 4096 →
  page_used (pmm_init kend bm) p = negb (bool_decide (init_free kend p)).
Proof.
  intros Hl Hp. rewrite pmm_init_body by done.
  pose proof (w32_range (kend + 4095)).
  change TOTAL_PAGES with 4096 in *.
  assert (∀ q, q ∈ seqZ 0x300 (4096 - 0x300) ↔ 0x300 <= q < 4096) as E1
    by (intros; rewrite elem_of_seqZ; lia).
  assert (∀ q, q ∈ filter (λ p, (0xA0 <=? p) && (p <=? 0xFF) = false)
      (seqZ ((kend ⊕ 4095) / 4096) (0x1F0 - (kend ⊕ 4095) / 4096)) ↔
      (kend ⊕ 4095) / 4096 <= q < 0x1F0 ∧ ¬ (0xA0 <= q <= 0xFF)) as E2.
  { intros q. rewrite list_elem_of_filter, elem_of_seqZ, andb_false_iff, !Z.leb_gt. lia. }
  rewrite !page_used_fold_clear; rewrite ?fold_clear_len, ?length_replicate; try done.
  - rewrite used_replicate by done. rewrite andb_true_l, <-negb_orb. f_equal.
    unfold init_free. rewrite (bool_decide_ext _ _ (E1 p)), (bool_decide_ext _ _ (E2 p)).
    repeat case_bool_decide; (done || lia).
  - intros q Hq%E2. change TOTAL_PAGES with 4096. split; [|lia].
    assert (0 <= (kend ⊕ 4095) / 4096) by zdm. lia.
  - intros q Hq%E1. change TOTAL_PAGES with 4096. lia.
Qed.

Lemma pmm_init_inv kend bm : length bm = 512%nat → 1 <= kend <= 0xFFFFF000 → pmm_inv (pmm_init kend bm).
Proof.
  intros Hl Hk. split.
  - by rewrite pmm_init_body, !fold_clear_len, length_replicate.
  - rewrite pmm_init_body by done. do 2 apply fold_clear_bytes.
    apply Forall_replicate. unfold u8. lia.
  - rewrite pmm_init_used by (done || lia).
    rewrite bool_decide_false; [done|]. unfold init_free.
    rewrite w32_small by lia. intros [[? _]|?]; [zdm | lia].
Qed.

(** ** Counting *)

Lemma fold_count (P : Z → bool) l c :
  0 <= c → c + Z.of_nat (length l) < 4294967296 →
  fold_left (λ c j, if P j then c ⊕ 1 else c) l c =
  c + Z.of_nat (length (filter (λ j, P j = true) l)).
Proof.
  revert c. induction l as [|j l IH]; intros c H0 Hl; simpl in *; [lia|].
  rewrite filter_cons. destruct (P j); case_decide; try done; simpl.
  - rewrite w32_small by lia. rewrite IH by lia. lia.
  - rewrite IH by lia. lia.
Qed.

Lemma length_filter_fmap {A B} (f : A → B) (P : B → Prop) `{∀ x, Decision (P x)} l :
  length (filter P (f <$> l)) = length (filter (λ x, P (f x)) l).
Proof.
  induction l as [|x l IH]; [done|]. rewrite fmap_cons, !filter_cons.
  case_decide; simpl; by rewrite IH.
Qed.
Lemma length_filter_ext {A} (P Q : A → Prop) `{∀ x, Decision (P x), ∀ x, Decision (Q x)} l :
  (∀ x, x ∈ l → P x ↔ Q x) → length (filter P l) = length (filter Q l).
Proof.
  induction l as [|x l IH]; intros Heq; [done|]. rewrite !filter_cons.
  assert (P x ↔ Q x) as E by (apply Heq; set_solver).
  assert (length (filter P l) = length (filter Q l)) by (apply IH; set_solver).
  do 2 case_decide; simpl; try tauto; lia.
Qed.

Lemma count_bits_spec b c :
  0 <= c < 4294967288 →
  count_bits b c = c + Z.of_nat (length (filter (λ j, Z.testbit b j = false) (seqZ 0 8))).
Proof.
  intros Hc. unfold count_bits. rewrite fold_count by (rewrite ?length_seqZ; lia).
  do 2 f_equal. apply length_filter_ext. intros j Hj%elem_of_seqZ.
  rewrite land_bit by lia. destruct (Z.testbit b j); naive_solver.
Qed.

Lemma count_loop bs : ∀ pre c,
  0 <= c → c + 8 * Z.of_nat (length bs) < 4294967288 →
  fold_left (λ count b, count_bits b count) bs c =
  c + Z.of_nat (length (filter (λ p, page_used (pre ++ bs) p = false)
                          (seqZ (8 * Z.of_nat (length pre)) (8 * Z.of_nat (length bs))))).
Proof.
  induction bs as [|b bs IH]; intros pre c H0 Hc; cbn [fold_left length] in *.
  { rewrite seqZ_nil by lia. simpl. lia. }
  rewrite count_bits_spec by lia.
  assert (length (filter (λ j, Z.testbit b j = false) (seqZ 0 8)) =
          length (filter (λ p, page_used (pre ++ b :: bs) p = false)
                    (seqZ (8 * Z.of_nat (length pre)) 8))) as ->.
  { rewrite <-(Z.add_0_r (8 * Z.of_nat (length pre))) at 1.
    rewrite <-fmap_add_seqZ, length_filter_fmap. apply length_filter_ext.
    intros j Hj%elem_of_seqZ. by rewrite page_used_at, nthZ_middle by lia. }
  set (n0 := length (filter _ (seqZ (8 * Z.of_nat (length pre)) 8))).
  assert (n0 <= 8)%nat.
  { unfold n0. etrans; [apply length_filter|]. rewrite length_seqZ. lia. }
  rewrite (IH (pre ++ [b])) by lia. rewrite <-app_assoc, length_app. cbn [app length].
  replace (8 * Z.of_nat (S (length bs))) with (8 + 8 * Z.of_nat (length bs)) by lia.
  rewrite seqZ_app, filter_app, length_app by lia.
  replace (8 * Z.of_nat (length pre + 1)) with (8 * Z.of_nat (length pre) + 8) by lia.
  unfold n0. lia.
Qed.

Lemma size_free_pages bm :
  size (free_pages bm) = length (filter (λ p, page_used bm p = false) (seqZ 0 TOTAL_PAGES)).
Proof. apply size_list_to_set, NoDup_filter, NoDup_seqZ. Qed.

(** ** The interface, discharged *)

Definition pmm_free_addrs (bm : list Z) : gset Z := set_map (λ p, p * PAGE_SIZE) (free_pages bm).

Lemma elem_of_free_addrs bm a :
  a ∈ pmm_free_addrs bm ↔ ∃ p, a = p * PAGE_SIZE ∧ p ∈ free_pages bm.
Proof. unfold pmm_free_addrs. rewrite elem_of_map. done. Qed.

Lemma size_free_addrs bm :
  size (pmm_free_addrs bm) = length (filter (λ p, page_used bm p = false) (seqZ 0 TOTAL_PAGES)).
Proof.
  set (l := filter _ _).
  assert (pmm_free_addrs bm = list_to_set ((λ p, p * PAGE_SIZE) <$> l)) as ->.
  { apply set_eq. intros a. rewrite elem_of_free_addrs, elem_of_list_to_set, list_elem_of_fmap.
    unfold free_pages. by setoid_rewrite elem_of_list_to_set. }
  rewrite size_list_to_set, length_fmap; [done|].
  apply NoDup_fmap; [|apply NoDup_filter, NoDup_seqZ]. intros x y. unfold PAGE_SIZE. lia.
Qed.

Lemma free_addrs_set bm p :
  length bm = 512%nat → 0 <= p < TOTAL_PAGES →
  pmm_free_addrs (BITMAP_SET bm p) = pmm_free_addrs bm ∖ {[p * PAGE_SIZE]}.
Proof.
  intros. apply set_eq. intros a.
  rewrite elem_of_difference, elem_of_singleton, !elem_of_free_addrs, free_pages_set by done.
  split.
  - intros (q & -> & Hq). split; [set_solver|]. unfold PAGE_SIZE. intros ?.
    assert (q = p) as -> by lia. set_solver.
  - intros [(q & -> & Hq) Hne]. exists q. split; [done|]. set_solver.
Qed.

#[export] Program Instance pmm_allocator : PageAllocator (list Z) := {|
  pa_alloc := pmm_alloc;
  pa_inv := pmm_inv;
  pa_free := pmm_free_addrs
|}.
Next Obligation.
  intros bm a [Hl Hb H0] (p & -> & [Hp Hu]%elem_of_free_pages)%elem_of_free_addrs.
  change TOTAL_PAGES with 4096 in Hp. change TOTAL_MEMORY with 16777216. unfold PAGE_SIZE.
  assert (p ≠ 0) by congruence. unfold page_ok, PAGE_SIZE. change TOTAL_MEMORY with 16777216.
  split_and!; [apply Z.mod_mul; lia | lia..].
Qed.
Next Obligation.
  intros bm a bm' Hi Ha Hne. pose proof (pmm_alloc_inv _ _ _ Hi Ha).
  destruct (pmm_alloc_cases _ _ _ Hi Ha) as [(p & Hp & Hu & -> & -> & _)|(-> & _)]; [|done].
  split_and!; [done| |].
  - apply elem_of_free_addrs. exists p. split; [done|]. apply elem_of_free_pages. split; [lia|done].
  - apply free_addrs_set; [apply Hi | lia].
Qed.
Next Obligation.
  intros bm bm' Hi Ha.
  destruct (pmm_alloc_cases _ _ _ Hi Ha) as [(p & Hp & Hu & E & _)|(_ & -> & Hall)].
  - unfold PAGE_SIZE in E. lia.
  - split; [done|]. apply set_eq. intros a. split; [|set_solver].
    intros (p & -> & [Hp Hu]%elem_of_free_pages)%elem_of_free_addrs.
    rewrite Hall in Hu by done. done.
Qed.

(** Whatever number of pages is taken, they are the lowest ones. *)
Lemma pmm_alloc_least bm a bm' b : pmm_inv bm → pmm_alloc bm = (a, bm') → a ≠ 0 → b ∈ pmm_free_addrs bm → a <= b.
Proof.
  intros Hi Ha Hne (q & -> & [Hq Hu]%elem_of_free_pages)%elem_of_free_addrs.
  destruct (pmm_alloc_cases _ _ _ Hi Ha) as [(p & Hp & _ & -> & _ & Hlow)|(-> & _)]; [|done].
  destruct (decide (q < p)) as [Hlt|]; [|unfold PAGE_SIZE; lia]. rewrite Hlow in Hu by lia. done.
Qed.

Lemma pmm_takes_lowest (bm bm' : list Z) : rtc takes bm bm' → pmm_inv bm →
  pmm_free_addrs bm' ⊆ pmm_free_addrs bm ∧
  ∀ a b, a ∈ pmm_free_addrs bm → a ∉ pmm_free_addrs bm' → b ∈ pmm_free_addrs bm' → a < b.
Proof.
  induction 1 as [bm|bm bm1 bm' (p & Hp & Ha) _ IH]; intros Hi; [done|].
  destruct (@pa_alloc_ok _ pmm_allocator bm p bm1 Hi Ha Hp) as (Hi1 & Hpin & Hfree). cbn in Hi1, Hpin, Hfree, Ha.
  destruct (IH Hi1) as [Hsub Hlow]. rewrite Hfree in *. split; [set_solver|]. intros a b Hin Hout Hb.
  assert (p <= b) by (apply (pmm_alloc_least bm p bm1); set_solver).
  destruct (decide (a = p)) as [->|Hap]; [|apply Hlow; set_solver].
  assert (b ≠ p) by set_solver. lia.
Qed.
Lemma takes_lowest (bm bm' : list Z) : rtc takes bm bm' → pa_inv bm →
  pa_free bm' ⊆ pa_free bm ∧ ∀ a b, a ∈ pa_free bm → a ∉ pa_free bm' → b ∈ pa_free bm' → a < b.
Proof. exact (pmm_takes_lowest bm bm'). Qed.

(** ** Properties *)

(** A bitmap as the loader leaves it in .bss, and the state after boot with a
    kernel image that ends at 0x127000. *)
Definition bitmap0 : list Z := replicate 512 0.
Definition boot_pmm : list Z := Eval vm_compute in pmm_init 0x127000 bitmap0.
Definition boot_pmm1 : list Z := Eval vm_compute in snd (pmm_alloc boot_pmm).

(** [pmm_init] frees exactly the pages between the (rounded-up) end of the
    kernel image and 0x1F0000 outside the BIOS/VGA hole 0xA0000-0xFFFFF, and
    the pages from 0x300000 to the end of memory. *)
Theorem pmm_init_correct kend bm :
  length bm = 512%nat →
  ∀ p, p ∈ free_pages (pmm_init kend bm) ↔ 0 <= p ∧ init_free kend p.
Proof.
  intros Hl p. pose proof (w32_range (kend + 4095)).
  rewrite elem_of_free_pages. change TOTAL_PAGES with 4096.
  assert (init_free kend p → p < 4096) by (unfold init_free; lia).
  split.
  - intros [Hp Hu]. rewrite pmm_init_used in Hu by done.
    apply negb_false_iff, bool_decide_eq_true in Hu. split; [lia|done].
  - intros [Hp Hi]. split; [auto with lia|]. rewrite pmm_init_used by auto with lia.
    by rewrite bool_decide_true.
Qed.

Lemma pmm_init_correct_witness : 0x300 ∈ free_pages (pmm_init 0x127000 bitmap0).
Proof. apply pmm_init_correct; [reflexivity | split; [lia | right; lia]]. Defined.

(** C4: [pmm_alloc] refines choosing the least element of the free set: it
    returns the address of the lowest free page and removes exactly that page
    from the free set, and it returns 0, changing nothing, only when the free
    set is empty. *)
Theorem pmm_alloc_refines bm a bm' :
  pmm_inv bm → pmm_alloc bm = (a, bm') →
  pmm_inv bm' ∧
  ((free_pages bm = ∅ ∧ a = 0 ∧ bm' = bm) ∨
   (∃ p, a = p * PAGE_SIZE ∧ 0 < p ∧ p ∈ free_pages bm ∧
      (∀ q, q ∈ free_pages bm → p <= q) ∧ free_pages bm' = free_pages bm ∖ {[p]})).
Proof.
  intros Hi Ha. split; [eauto with magnos|].
  destruct (pmm_alloc_cases _ _ _ Hi Ha) as [(p & Hp & Hu & -> & -> & Hlow)|(-> & -> & Hall)].
  - assert (p ∈ free_pages bm) by (apply elem_of_free_pages; split; [lia|done]).
    right. exists p. split_and!; [done|lia|done| |].
    + intros q [Hq Hq']%elem_of_free_pages. destruct (decide (q < p)); [|lia].
      rewrite Hlow in Hq' by lia. done.
    + apply free_pages_set; [apply Hi | lia].
  - left. split; [|done]. apply set_eq. intros q. split; [|set_solver].
    intros [Hq Hq']%elem_of_free_pages. rewrite Hall in Hq' by done. done.
Qed.

Lemma boot_pmm_inv : pmm_inv boot_pmm.
Proof.
  assert (boot_pmm = pmm_init 0x127000 bitmap0) as -> by (vm_compute; reflexivity).
  apply pmm_init_inv; [reflexivity | lia].
Qed.

Lemma boot_pmm_alloc : pmm_alloc boot_pmm = (0x127000, boot_pmm1).
Proof. vm_compute. reflexivity. Qed.

Lemma pmm_alloc_refines_witness : pmm_inv boot_pmm1.
Proof.
  destruct (pmm_alloc_refines boot_pmm 0x127000 boot_pmm1) as [H _];
    [apply boot_pmm_inv | apply boot_pmm_alloc | exact H].
Defined.

(** Freeing the page that [pmm_alloc] just returned restores the bitmap
    bit for bit. *)
Theorem pmm_free_alloc bm a bm' :
  pmm_inv bm → pmm_alloc bm = (a, bm') → a ≠ 0 → pmm_free bm' a = bm.
Proof.
  intros Hi Ha Hne.
  destruct (pmm_alloc_cases _ _ _ Hi Ha) as [(p & Hp & Hu & -> & -> & _)|(-> & _)]; [|done].
  unfold pmm_free. rewrite Z.div_mul by done.
  bcase; [|lia..]. pose proof Hi as [Hl Hb _].
  assert (length (BITMAP_SET bm p) = 512%nat) by (unfold BITMAP_SET; by rewrite length_updZ).
  apply bitmap_ext; [by rewrite clear_len|done| |done|].
  - apply clear_bytes, (pmm_inv_set bm p Hi). lia.
  - intros q Hq. rewrite page_used_clear, page_used_set by (done || lia).
    case_bool_decide; simpl; [by subst; rewrite andb_false_r | by rewrite orb_false_r, andb_true_r].
Qed.

Lemma pmm_free_alloc_witness : pmm_free boot_pmm1 0x127000 = boot_pmm.
Proof.
  apply (pmm_free_alloc boot_pmm 0x127000 boot_pmm1);
    [apply boot_pmm_inv | apply boot_pmm_alloc | lia].
Defined.

(** [pmm_get_free_count] is the cardinality of the free set. *)
Theorem pmm_get_free_count_correct bm :
  length bm = 512%nat → pmm_get_free_count bm = Z.of_nat (size (free_pages bm)).
Proof.
  intros Hl. unfold pmm_get_free_count. rewrite (count_loop bm [] 0) by lia.
  rewrite size_free_pages, Hl. reflexivity.
Qed.

Lemma pmm_get_free_count_correct_witness :
  pmm_get_free_count boot_pmm = 3529 ∧
  pmm_get_free_count boot_pmm = Z.of_nat (size (free_pages boot_pmm)).
Proof. split; [vm_compute; reflexivity | apply pmm_get_free_count_correct; reflexivity]. Defined.
