(* ===== verification/Heap.v ===== *)
(** * Kernel heap (kernel/heap.c, kernel/heap.h)

    [kmalloc]/[kfree] over a singly linked, address-sorted list of free blocks.
    The 16-byte block headers live in physical memory ([Mem.mem]) exactly where
    the code puts them: [size] at +0, [is_free] at +4, [next] at +8, padding at
    +12.  The abstract state is the list of free segments [(address, size)] and
    the map [live] from the addresses of allocated blocks to their sizes;
    [heap_inv] relates them to the memory.  Pages come from any [PageAllocator].

    A list walk takes [fuel] steps at most and answers [None] when they run
    out.  A well-formed list has fewer than 524288 nodes (a block is at least
    32 bytes of a 16 MB memory), so no operation runs out of any fuel that is
    [fuel_ok], which the theorems prove. *)

From stdpp Require Import gmap.
From S2P Require Import Prelude Mem Pmm.

Definition HEADER_SIZE : Z := 16.
Definition MIN_ALLOC : Z := 16.
Definition ALIGN : Z := 16.
Definition INITIAL_PAGES : nat := 16.

(** Enough steps for a walk of any well-formed list. *)
Definition fuel_ok (fuel : nat) : Prop := 524288 <= Z.of_nat fuel.
Definition LIST_FUEL : nat := Z.to_nat 524288.

(** ** The code *)

(** The fields of [block_header_t]. *)
Definition b_size (m : mem) (b : Z) : Z := load32 m b.
Definition b_free (m : mem) (b : Z) : Z := load32 m (b + 4).
Definition b_next (m : mem) (b : Z) : Z := load32 m (b + 8).
Definition set_size (m : mem) (b v : Z) : mem := store32 m b v.
Definition set_free (m : mem) (b v : Z) : mem := store32 m (b + 4) v.
Definition set_next (m : mem) (b v : Z) : mem := store32 m (b + 8) v.

(** The [while] of [list_insert]: the last node before [block], from [cur]. *)
Fixpoint insert_walk (m : mem) (block cur : Z) (fuel : nat) : option Z :=
  match fuel with
  | O => None
  | S fuel =>
      if c_true (b_next m cur) && (b_next m cur <? block)
      then insert_walk m block (b_next m cur) fuel
      else Some cur
  end.

Definition list_insert (fuel : nat) (m : mem) (free_list block : Z) : option (mem * Z) :=
  let m := set_free m block 1 in
  if (free_list =? 0) || (block <? free_list)
  then Some (set_next m block free_list, block)
  else
    cur ← insert_walk m block free_list fuel;
    let m := set_next m block (b_next m cur) in
    Some (set_next m cur block, free_list).

Definition coalesce_forward (m : mem) (block : Z) : mem :=
  if b_next m block =? 0 then m
  else
    let end_ := (block ⊕ HEADER_SIZE) ⊕ b_size m block in
    if (end_ =? b_next m block) && c_true (b_free m (b_next m block)) then
      let m := set_size m block
                 (b_size m block ⊕ (HEADER_SIZE ⊕ b_size m (b_next m block))) in
      set_next m block (b_next m (b_next m block))
    else m.

(** [while (cur) { coalesce_forward(cur); cur = cur->next; }] *)
Fixpoint coalesce_pass (m : mem) (cur : Z) (fuel : nat) : option mem :=
  match fuel with
  | O => None
  | S fuel =>
      if cur =? 0 then Some m
      else let m := coalesce_forward m cur in coalesce_pass m (b_next m cur) fuel
  end.

(** The search loop of [kmalloc]: the first block that fits, with the node
    before it (0 for none). *)
Fixpoint first_fit (m : mem) (size prev cur : Z) (fuel : nat) : option (option (Z * Z)) :=
  match fuel with
  | O => None
  | S fuel =>
      if cur =? 0 then Some None
      else if c_true (b_free m cur) && (size <=? b_size m cur) then Some (Some (prev, cur))
      else first_fit m size cur (b_next m cur) fuel
  end.

(** The body of the search loop of [kmalloc] on the block found: split it if
    the rest can hold a block, unlink it; the returned pointer is
    [cur + HEADER_SIZE]. *)
Definition take_block (m : mem) (free_list size prev cur : Z) : mem * Z :=
  let m :=
    if ((size ⊕ HEADER_SIZE) ⊕ MIN_ALLOC) <=? b_size m cur then
      let new_block := (cur ⊕ HEADER_SIZE) ⊕ size in
      let m := set_size m new_block ((b_size m cur ⊖ size) ⊖ HEADER_SIZE) in
      let m := set_free m new_block 1 in
      let m := set_next m new_block (b_next m cur) in
      let m := set_next m cur new_block in
      set_size m cur size
    else m in
  let m := set_free m cur 0 in
  if c_true prev
  then let m := set_next m prev (b_next m cur) in (set_next m cur 0, free_list)
  else let fl := b_next m cur in (set_next m cur 0, fl).

(** [size] rounded up as [kmalloc] does. *)
Definition round_size (size : Z) : Z :=
  let size := ((size ⊕ ALIGN) ⊖ 1) .& w32 (Z.lnot (ALIGN - 1)) in
  if size <? MIN_ALLOC then MIN_ALLOC else size.

Section Heap.
Context {S : Type} `{PA : PageAllocator S} (fuel : nat).

Record heap := Heap {
  h_mem : mem;
  free_list : Z;
  heap_pages : Z;
  h_pa : S
}.

(** Returns the new block (0 for NULL) and the heap. *)
Definition heap_add_page (st : heap) : option (Z * heap) :=
  let '(page, pa) := pa_alloc (h_pa st) in
  if page =? 0 then Some (0, Heap (h_mem st) (free_list st) (heap_pages st) pa)
  else
    let m := set_size (h_mem st) page (PAGE_SIZE - HEADER_SIZE) in
    let m := set_free m page 1 in
    let m := set_next m page 0 in
    '(m, fl) ← list_insert fuel m (free_list st) page;
    m ← coalesce_pass m fl fuel;
    Some (page, Heap m fl (heap_pages st ⊕ 1) pa).

Fixpoint heap_init_loop (n : nat) (st : heap) : option heap :=
  match n with
  | O => Some st
  | Datatypes.S n => '(_, st) ← heap_add_page st; heap_init_loop n st
  end.
Definition heap_init (st : heap) : option heap := heap_init_loop INITIAL_PAGES st.

(** The growth loop: false when a page could not be had. *)
Fixpoint grow (n : nat) (st : heap) : option (bool * heap) :=
  match n with
  | O => Some (true, st)
  | Datatypes.S n =>
      '(b, st) ← heap_add_page st;
      if b =? 0 then Some (false, st) else grow n st
  end.

Definition kmalloc (st : heap) (size : Z) : option (Z * heap) :=
  if size =? 0 then Some (0, st)
  else
    let size := round_size size in
    r ← first_fit (h_mem st) size 0 (free_list st) fuel;
    match r with
    | Some (prev, cur) =>
        let '(m, fl) := take_block (h_mem st) (free_list st) size prev cur in
        Some (cur ⊕ HEADER_SIZE, Heap m fl (heap_pages st) (h_pa st))
    | None =>
        let pages_needed := (((size ⊕ HEADER_SIZE) ⊕ PAGE_SIZE) ⊖ 1) / PAGE_SIZE in
        '(ok, st) ← grow (Z.to_nat pages_needed) st;
        if (ok : bool) then
          r ← first_fit (h_mem st) size 0 (free_list st) fuel;
          match r with
          | Some (prev, cur) =>
              let '(m, fl) := take_block (h_mem st) (free_list st) size prev cur in
              Some (cur ⊕ HEADER_SIZE, Heap m fl (heap_pages st) (h_pa st))
          | None => Some (0, st)
          end
        else Some (0, st)
    end.

Definition kfree (st : heap) (ptr : Z) : option heap :=
  if ptr =? 0 then Some st
  else
    let block := ptr ⊖ HEADER_SIZE in
    '(m, fl) ← list_insert fuel (h_mem st) (free_list st) block;
    m ← coalesce_pass m fl fuel;
    Some (Heap m fl (heap_pages st) (h_pa st)).

Record heap_stats_t := {
  total_bytes : Z; free_bytes : Z; used_bytes : Z; num_free_blocks : Z; num_pages : Z
}.

Fixpoint stats_loop (m : mem) (cur fb nb : Z) (fuel : nat) : option (Z * Z) :=
  match fuel with
  | O => None
  | Datatypes.S fuel =>
      if cur =? 0 then Some (fb, nb)
      else if c_true (b_free m cur)
      then stats_loop m (b_next m cur) (fb ⊕ b_size m cur) (nb ⊕ 1) fuel
      else stats_loop m (b_next m cur) fb nb fuel
  end.

Definition heap_get_stats (st : heap) : option heap_stats_t :=
  '(fb, nb) ← stats_loop (h_mem st) (free_list st) 0 0 fuel;
  let total := heap_pages st ⊗ PAGE_SIZE in
  Some {| total_bytes := total; free_bytes := fb; used_bytes := total ⊖ fb;
          num_free_blocks := nb; num_pages := heap_pages st |}.

End Heap.
Arguments heap : clear implicits.

(** ** Abstract free lists *)

Abbreviation seg := (Z * Z)%type.
Definition seg_end (x : seg) : Z := x.1 + HEADER_SIZE + x.2.

(** Sorted, disjoint, 16-aligned segments in [lo, TOTAL_MEMORY). *)
Fixpoint wf_segs (lo : Z) (l : list seg) : Prop :=
  match l with
  | [] => True
  | x :: l => lo <= x.1 ∧ x.1 mod 16 = 0 ∧ x.2 mod 16 = 0 ∧ MIN_ALLOC <= x.2 ∧
              seg_end x <= TOTAL_MEMORY ∧ wf_segs (seg_end x) l
  end.

(** [p] points to a linked list of free headers in [m] that holds [l]. *)
Fixpoint freelist (m : mem) (p : Z) (l : list seg) : Prop :=
  match l with
  | [] => p = 0
  | x :: l => p = x.1 ∧ b_size m p = x.2 ∧ b_free m p = 1 ∧ freelist m (b_next m p) l
  end.

(** Address [x] lies in a segment of [l] (header included). *)
Definition in_seg (a s x : Z) : Prop := a <= x < a + HEADER_SIZE + s.
Definition covers (l : list seg) (x : Z) : Prop := ∃ y, y ∈ l ∧ in_seg y.1 y.2 x.

(** The specifications of the list operations. *)
Fixpoint seg_insert (x : seg) (l : list seg) : list seg :=
  match l with
  | [] => [x]
  | y :: l => if x.1 <? y.1 then x :: y :: l else y :: seg_insert x l
  end.

(** One coalescing pass: a block absorbs its neighbour, then the walk goes on
    after it. *)
Fixpoint seg_pass (l : list seg) : list seg :=
  match l with
  | x :: ((y :: r) as l') =>
      if seg_end x =? y.1 then (x.1, x.2 + HEADER_SIZE + y.2) :: seg_pass r
      else x :: seg_pass l'
  | _ => l
  end.

(** The first segment of at least [size] bytes: the block taken from it, and
    what is left of the list. *)
Fixpoint seg_take (size : Z) (l : list seg) : option (seg * list seg) :=
  match l with
  | [] => None
  | x :: l =>
      if size <=? x.2 then
        if size + HEADER_SIZE + MIN_ALLOC <=? x.2
        then Some ((x.1, size), (x.1 + HEADER_SIZE + size, x.2 - size - HEADER_SIZE) :: l)
        else Some (x, l)
      else '(b, r) ← seg_take size l; Some (b, x :: r)
  end.

Definition seg_total (l : list seg) : Z := foldr (λ x t, HEADER_SIZE + x.2 + t) 0 l.
