(* ===== verification/HeapList.v ===== *)
(** * Kernel heap: the list operations

    The header fields as words of memory, well-formed free lists, and the
    refinement of [list_insert], [coalesce_pass], [first_fit] and [take_block]
    (Heap.v) to their specifications on lists of segments. *)

From stdpp Require Import gmap.
From S2P Require Import Prelude Mem Pmm Heap.

(** ** Header fields *)

(** An address where a block header may be. *)
Definition node_ok (a : Z) : Prop := a mod 16 = 0 ∧ 0 < a ∧ a + 16 <= TOTAL_MEMORY.

Ltac node := unfold node_ok, addr_ok, TOTAL_MEMORY in *; zdm.

Lemma b_size_set_size m a b v : node_ok a → node_ok b →
  b_size (set_size m a v) b = if decide (a = b) then w32 v else b_size m b.
Proof.
  intros. unfold b_size, set_size. case_decide as E; subst.
  - apply load32_store32_eq; node.
  - apply load32_store32_ne; node.
Qed.
Lemma b_free_set_free m a b v : node_ok a → node_ok b →
  b_free (set_free m a v) b = if decide (a = b) then w32 v else b_free m b.
Proof.
  intros. unfold b_free, set_free. case_decide as E; subst.
  - apply load32_store32_eq; node.
  - apply load32_store32_ne; node.
Qed.
Lemma b_next_set_next m a b v : node_ok a → node_ok b →
  b_next (set_next m a v) b = if decide (a = b) then w32 v else b_next m b.
Proof.
  intros. unfold b_next, set_next. case_decide as E; subst.
  - apply load32_store32_eq; node.
  - apply load32_store32_ne; node.
Qed.

Ltac other_field :=
  intros; unfold b_size, b_free, b_next, set_size, set_free, set_next;
  apply load32_store32_ne; node.
Lemma b_size_set_free m a b v : node_ok a → node_ok b → b_size (set_free m a v) b = b_size m b.
Proof. other_field. Qed.
Lemma b_size_set_next m a b v : node_ok a → node_ok b → b_size (set_next m a v) b = b_size m b.
Proof. other_field. Qed.
Lemma b_free_set_size m a b v : node_ok a → node_ok b → b_free (set_size m a v) b = b_free m b.
Proof. other_field. Qed.
Lemma b_free_set_next m a b v : node_ok a → node_ok b → b_free (set_next m a v) b = b_free m b.
Proof. other_field. Qed.
Lemma b_next_set_size m a b v : node_ok a → node_ok b → b_next (set_size m a v) b = b_next m b.
Proof. other_field. Qed.
Lemma b_next_set_free m a b v : node_ok a → node_ok b → b_next (set_free m a v) b = b_next m b.
Proof. other_field. Qed.

Create Rewrite HintDb hdr.
#[export] Hint Rewrite b_size_set_size b_free_set_free b_next_set_next
  b_size_set_free b_size_set_next b_free_set_size b_free_set_next
  b_next_set_size b_next_set_free using assumption : hdr.

(** Compute the header fields after a sequence of stores. *)
Ltac hdr :=
  autorewrite with hdr;
  repeat first [ rewrite decide_True by (reflexivity || congruence)
               | rewrite decide_False by congruence ].

(** What an operation may write: only bytes of the segments [l]. *)
Definition seg_frame (l : list seg) (m m' : mem) : Prop :=
  ∀ x, addr_ok x 1 → ¬ covers l x → load8 m' x = load8 m x.

(** The three fields of the header at [a] are the same in both memories. *)
Definition same_hdr (m m' : mem) (a : Z) : Prop :=
  b_size m' a = b_size m a ∧ b_free m' a = b_free m a ∧ b_next m' a = b_next m a.

Lemma same_hdr_refl m a : same_hdr m m a.
Proof. done. Qed.
Lemma same_hdr_trans m1 m2 m3 a : same_hdr m1 m2 a → same_hdr m2 m3 a → same_hdr m1 m3 a.
Proof. unfold same_hdr. naive_solver congruence. Qed.
Lemma same_hdr_set_size m a b v : node_ok a → node_ok b → a ≠ b → same_hdr m (set_size m a v) b.
Proof. intros. split_and!; by hdr. Qed.
Lemma same_hdr_set_free m a b v : node_ok a → node_ok b → a ≠ b → same_hdr m (set_free m a v) b.
Proof. intros. split_and!; by hdr. Qed.
Lemma same_hdr_set_next m a b v : node_ok a → node_ok b → a ≠ b → same_hdr m (set_next m a v) b.
Proof. intros. split_and!; by hdr. Qed.
#[export] Hint Resolve same_hdr_refl same_hdr_set_size same_hdr_set_free same_hdr_set_next : magnos.

Lemma covers_cons y l x : covers (y :: l) x ↔ in_seg y.1 y.2 x ∨ covers l x.
Proof. unfold covers. set_solver. Qed.
Lemma covers_nil x : covers [] x ↔ False.
Proof. unfold covers. set_solver. Qed.
Lemma covers_app l k x : covers (l ++ k) x ↔ covers l x ∨ covers k x.
Proof. unfold covers. set_solver. Qed.

Lemma seg_frame_refl l m : seg_frame l m m.
Proof. done. Qed.
Lemma seg_frame_trans l l' m1 m2 m3 :
  seg_frame l m1 m2 → seg_frame l' m2 m3 → (∀ x, covers l' x → covers l x) → seg_frame l m1 m3.
Proof. intros H1 H2 Hsub x Hx Hc. rewrite H2, H1; auto. Qed.
Lemma seg_frame_weaken l l' m1 m2 :
  seg_frame l m1 m2 → (∀ x, covers l x → covers l' x) → seg_frame l' m1 m2.
Proof. intros H Hsub x Hx Hc. auto. Qed.

(** A store into a word of a segment stays in the segment. *)
Lemma seg_frame_store m a v y l :
  y ∈ l → y.1 <= a → a + 4 <= seg_end y → addr_ok a 4 → seg_frame l m (store32 m a v).
Proof.
  intros Hy H1 H2 Ha x Hx Hc. apply load8_store32_far; [done..|].
  intros ?. apply Hc. exists y. unfold in_seg, seg_end, HEADER_SIZE in *. split; [done|lia].
Qed.

(** ** Well-formed lists *)

Lemma wf_segs_weaken lo lo' l : lo' <= lo → wf_segs lo l → wf_segs lo' l.
Proof. destruct l; simpl; [done|]. intros; destruct_and!; split_and!; (done || lia). Qed.

Lemma wf_segs_lower lo l y : wf_segs lo l → y ∈ l → lo <= y.1.
Proof.
  revert lo. induction l as [|x l IH]; intros lo Hwf Hy; [set_solver|].
  destruct Hwf as (? & ? & ? & ? & ? & Hwf). apply elem_of_cons in Hy as [->|Hy]; [done|].
  specialize (IH _ Hwf Hy). unfold seg_end, HEADER_SIZE, MIN_ALLOC in *. lia.
Qed.

Lemma wf_segs_covers lo l x : wf_segs lo l → covers l x → lo <= x < TOTAL_MEMORY.
Proof.
  revert lo. induction l as [|y l IH]; intros lo Hwf Hc; [by apply covers_nil in Hc|].
  destruct Hwf as (? & ? & ? & ? & ? & Hwf). apply covers_cons in Hc as [Hc|Hc].
  - unfold in_seg, seg_end in *. lia.
  - specialize (IH _ Hwf Hc). unfold seg_end, HEADER_SIZE, MIN_ALLOC in *. lia.
Qed.

Lemma wf_segs_node lo l y : 0 < lo → wf_segs lo l → y ∈ l → node_ok y.1.
Proof.
  intros Hlo Hwf Hy. pose proof (wf_segs_lower _ _ _ Hwf Hy).
  revert lo Hlo Hwf H. induction l as [|x l IH]; intros lo Hlo Hwf Hl; [set_solver|].
  destruct Hwf as (? & ? & ? & ? & ? & Hwf). apply elem_of_cons in Hy as [->|Hy].
  - unfold node_ok, seg_end, HEADER_SIZE, MIN_ALLOC in *. lia.
  - eapply (IH Hy (seg_end x)); [|done|].
    + unfold seg_end, HEADER_SIZE, MIN_ALLOC in *. lia.
    + by eapply wf_segs_lower.
Qed.

Lemma wf_segs_ne lo x l y : wf_segs lo (x :: l) → y ∈ l → x.1 ≠ y.1.
Proof.
  intros (? & ? & ? & ? & ? & Hwf) Hy. pose proof (wf_segs_lower _ _ _ Hwf Hy).
  unfold seg_end, HEADER_SIZE, MIN_ALLOC in *. lia.
Qed.

Lemma wf_segs_mid_ne lo l1 x l2 y : wf_segs lo (l1 ++ x :: l2) → y ∈ l1 ++ l2 → x.1 ≠ y.1.
Proof.
  revert lo. induction l1 as [|z l1 IH]; intros lo Hwf Hy; [by eapply wf_segs_ne|].
  cbn [app] in Hy. apply elem_of_cons in Hy as [->|Hy].
  - symmetry. eapply wf_segs_ne; [exact Hwf|]. set_solver.
  - destruct Hwf as (_ & _ & _ & _ & _ & Hwf). by eapply IH.
Qed.

(** A list of segments of a 16 MB memory is short. *)
Lemma wf_segs_length lo l : wf_segs lo l → lo <= TOTAL_MEMORY →
  lo + 32 * Z.of_nat (length l) <= TOTAL_MEMORY.
Proof.
  revert lo. induction l as [|x l IH]; intros lo Hwf Hlo; simpl; [lia|].
  destruct Hwf as (? & ? & ? & ? & ? & Hwf). specialize (IH _ Hwf ltac:(done)).
  unfold seg_end, HEADER_SIZE, MIN_ALLOC in *. lia.
Qed.

Lemma wf_segs_fuel fuel l : fuel_ok fuel → wf_segs PAGE_SIZE l → (length l < fuel)%nat.
Proof.
  intros Hf Hwf%wf_segs_length; [|done]. unfold fuel_ok in Hf.
  change TOTAL_MEMORY with 16777216 in *. unfold PAGE_SIZE in *. lia.
Qed.

Lemma freelist_ext m m' p l :
  (∀ y, y ∈ l → same_hdr m m' y.1) → freelist m p l → freelist m' p l.
Proof.
  revert p. induction l as [|x l IH]; intros p H; [done|].
  intros (-> & Hs & Hf & Hl). destruct (H x) as (E1 & E2 & E3); [set_solver|].
  split_and!; [done|congruence..|]. rewrite E3. apply IH; [set_solver|done].
Qed.

(** A header that is not at [c]. *)
Definition node_ne (c : Z) (y : seg) : Prop := node_ok y.1 ∧ c ≠ y.1.

(** Relinking the tail of a list after node [c]. *)
Lemma freelist_relink m p l1 c sc l2 q l2' :
  node_ok c → Forall (node_ne c) l1 → u32 q →
  freelist m p (l1 ++ (c, sc) :: l2) →
  freelist (set_next m c q) q l2' →
  freelist (set_next m c q) p (l1 ++ (c, sc) :: l2').
Proof.
  intros Hc Hne Hq. revert p. induction Hne as [|x l1 [Hx Hxc] _ IH]; intros p Hl Hl';
    destruct Hl as (-> & Hs & Hf & Hl); cbn [app freelist fst snd] in *.
  - split_and!; [done|by hdr..|]. hdr. by rewrite w32_small.
  - split_and!; [done|by hdr..|]. hdr. by apply IH.
Qed.

(** Changing the recorded size of node [c]. *)
Lemma freelist_resize m p l1 c s s' l2 :
  node_ok c → Forall (node_ne c) (l1 ++ l2) → u32 s' →
  freelist m p (l1 ++ (c, s) :: l2) → freelist (set_size m c s') p (l1 ++ (c, s') :: l2).
Proof.
  intros Hc Hne Hs'. revert p. induction l1 as [|x l1 IH]; intros p Hl;
    destruct Hl as (-> & Hs & Hf & Hl); cbn [app freelist fst snd] in *.
  - split_and!; [done|hdr; by apply w32_small|by hdr|]. hdr.
    eapply freelist_ext; [|done]. intros y Hy.
    eapply Forall_forall in Hne as [? ?]; [|done]. auto with magnos.
  - apply Forall_cons in Hne as [[Hx Hxc] Hne].
    split_and!; [done|by hdr..|]. hdr. by apply IH.
Qed.

(** The node [c] in the middle of a list. *)
Lemma freelist_node m p l1 c s l2 :
  freelist m p (l1 ++ (c, s) :: l2) →
  b_size m c = s ∧ b_free m c = 1 ∧ freelist m (b_next m c) l2.
Proof.
  revert p. induction l1 as [|x l1 IH]; intros p; intros (E & Hs & Hf & Hl);
    [simpl in *; by subst | by eapply IH].
Qed.

(** ** The specifications keep lists well formed *)

Definition seg_ok (x : seg) : Prop :=
  PAGE_SIZE <= x.1 ∧ x.1 mod 16 = 0 ∧ x.2 mod 16 = 0 ∧ MIN_ALLOC <= x.2 ∧
  seg_end x <= TOTAL_MEMORY.

Ltac seg_lia :=
  unfold seg_ok, seg_end, in_seg, HEADER_SIZE, MIN_ALLOC, PAGE_SIZE, TOTAL_MEMORY in *;
  cbn [fst snd] in *; zdm.

Lemma seg_ok_node x : seg_ok x → node_ok x.1.
Proof. unfold node_ok. seg_lia. Qed.
Lemma wf_segs_ok lo l x : PAGE_SIZE <= lo → wf_segs lo l → x ∈ l → seg_ok x.
Proof.
  revert lo. induction l as [|y l IH]; intros lo Hlo Hwf Hx; [set_solver|].
  destruct Hwf as (? & ? & ? & ? & ? & Hwf).
  apply elem_of_cons in Hx as [->|Hx]; [split_and!; (done || lia)|].
  eapply (IH (seg_end y)); [seg_lia|done..].
Qed.

(** Any word of a valid segment may be written under its frame. *)
Lemma seg_frame_in x l m a v :
  seg_ok x → x ∈ l → x.1 <= a → a + 4 <= seg_end x → seg_frame l m (store32 m a v).
Proof. intros. apply seg_frame_store with x; try done. unfold addr_ok. seg_lia. Qed.

Lemma seg_total_nonneg lo l : wf_segs lo l → 0 <= seg_total l.
Proof.
  revert lo. induction l as [|x l IH]; intros lo; simpl; [lia|].
  intros (? & ? & ? & ? & ? & Hwf). specialize (IH _ Hwf). seg_lia.
Qed.

Definition disjoint_from (x : seg) (l : list seg) : Prop :=
  ∀ z, in_seg x.1 x.2 z → ¬ covers l z.

Lemma disjoint_tail x y l : disjoint_from x (y :: l) → disjoint_from x l.
Proof. intros H z Hz Hc. apply (H z Hz), covers_cons. auto. Qed.

(** Disjoint segments are ordered. *)
Lemma disjoint_order x y l :
  seg_ok x → MIN_ALLOC <= y.2 → disjoint_from x (y :: l) →
  if x.1 <? y.1 then seg_end x <= y.1 else seg_end y <= x.1 ∧ y.1 ≠ x.1.
Proof.
  intros Hx Hy H. bcase.
  - destruct (decide (seg_end x <= y.1)); [done|]. exfalso.
    apply (H y.1); [seg_lia|]. apply covers_cons. left. seg_lia.
  - destruct (decide (seg_end y <= x.1)); [split; [done|seg_lia]|]. exfalso.
    apply (H x.1); [seg_lia|]. apply covers_cons. left. seg_lia.
Qed.

Lemma seg_insert_wf lo x l :
  seg_ok x → lo <= x.1 → wf_segs lo l → disjoint_from x l → wf_segs lo (seg_insert x l).
Proof.
  intros Hx. revert lo. induction l as [|y l IH]; intros lo Hlo Hwf Hd.
  { unfold seg_ok in Hx. simpl. destruct_and!. by split_and!. }
  destruct Hwf as (? & ? & ? & ? & ? & Hwf).
  pose proof (disjoint_order x y l Hx ltac:(done) Hd) as Ho. cbn [seg_insert].
  destruct (x.1 <? y.1).
  - unfold seg_ok in Hx. destruct_and! Hx. simpl. by split_and!.
  - simpl. split_and!; try done. apply IH; [lia|done|by eapply disjoint_tail].
Qed.

Lemma seg_insert_perm x l : seg_insert x l ≡ₚ x :: l.
Proof.
  induction l as [|y l IH]; simpl; [done|]. destruct (x.1 <? y.1); [done|].
  rewrite IH. apply Permutation_swap.
Qed.
Lemma covers_perm l k x : l ≡ₚ k → covers l x ↔ covers k x.
Proof. intros E. unfold covers. by setoid_rewrite E. Qed.
Lemma seg_total_perm l k : l ≡ₚ k → seg_total l = seg_total k.
Proof. intros E. induction E; simpl; lia. Qed.

Lemma seg_pass_cons2 x y r :
  seg_pass (x :: y :: r) =
    if seg_end x =? y.1 then (x.1, x.2 + HEADER_SIZE + y.2) :: seg_pass r
    else x :: seg_pass (y :: r).
Proof. done. Qed.

(** Induction along a coalescing pass. *)
Lemma seg_pass_ind (P : list seg → Prop) :
  P [] → (∀ x, P [x]) → (∀ x y r, P r → P (y :: r) → P (x :: y :: r)) → ∀ l, P l.
Proof.
  intros H0 H1 H2 l. assert (P l ∧ ∀ x, P (x :: l)) as [? _]; [|done].
  induction l as [|y l [IH1 IH2]]; [by split|]. split; [apply IH2|]. intros x. apply H2; auto.
Qed.

Lemma seg_pass_wf l : ∀ lo, wf_segs lo l → wf_segs lo (seg_pass l).
Proof.
  induction l as [| x | x y r IH1 IH2] using seg_pass_ind; intros lo Hwf; [done..|].
  rewrite seg_pass_cons2. destruct Hwf as (? & ? & ? & ? & ? & Hwf).
  bdestr (seg_end x =? y.1).
  - destruct Hwf as (? & ? & ? & ? & ? & Hwf). specialize (IH1 _ Hwf).
    cbn [wf_segs fst snd]. split_and!; [done..| | | |].
    1-3: seg_lia. eapply wf_segs_weaken; [|done]. seg_lia.
  - cbn [wf_segs]. split_and!; try done. by apply IH2.
Qed.

Lemma seg_pass_covers l z : ∀ lo, wf_segs lo l → covers (seg_pass l) z ↔ covers l z.
Proof.
  induction l as [| x | x y r IH1 IH2] using seg_pass_ind; intros lo Hwf; [done..|].
  rewrite seg_pass_cons2. destruct Hwf as (? & ? & ? & ? & ? & Hwf).
  bdestr (seg_end x =? y.1).
  - destruct Hwf as (? & ? & ? & ? & ? & Hwf).
    rewrite !covers_cons, (IH1 _ Hwf). cbn [fst snd].
    assert (in_seg x.1 (x.2 + HEADER_SIZE + y.2) z ↔ in_seg x.1 x.2 z ∨ in_seg y.1 y.2 z)
      by seg_lia. tauto.
  - by rewrite !(covers_cons x), (IH2 _ Hwf).
Qed.

Lemma seg_pass_total l : seg_total (seg_pass l) = seg_total l.
Proof.
  induction l as [| x | x y r IH1 IH2] using seg_pass_ind; [done..|].
  rewrite seg_pass_cons2. bcase; unfold seg_total in *; simpl in *; lia.
Qed.

Lemma seg_pass_head l x : x ∈ seg_pass l → ∃ y, y ∈ l ∧ y.1 = x.1.
Proof.
  induction l as [| y | y z r IH1 IH2] using seg_pass_ind; [set_solver..|].
  rewrite seg_pass_cons2. bcase.
  - intros [->|Hx]%elem_of_cons; [exists y; set_solver|].
    destruct (IH1 Hx) as (w & ? & ?). exists w. set_solver.
  - intros [->|Hx]%elem_of_cons; [exists y; set_solver|].
    destruct (IH2 Hx) as (w & ? & ?). exists w. set_solver.
Qed.

(** ** [list_insert] refines [seg_insert] *)

Lemma insert_walk_spec m a l : ∀ c0 s0 fuel lo,
  0 < lo → wf_segs lo ((c0, s0) :: l) → freelist m c0 ((c0, s0) :: l) → c0 < a →
  (∀ y, y ∈ l → y.1 ≠ a) → (length l < fuel)%nat →
  ∃ l1 c sc l2, (c0, s0) :: l = l1 ++ (c, sc) :: l2 ∧
    insert_walk m a c0 fuel = Some c ∧ freelist m (b_next m c) l2 ∧
    (∀ s, seg_insert (a, s) ((c0, s0) :: l) = l1 ++ (c, sc) :: (a, s) :: l2).
Proof.
  induction l as [|y l IH]; intros c0 s0 fuel lo Hlo Hwf Hl Hc Hne Hf;
    (destruct fuel as [|fuel]; [simpl in Hf; lia|]); cbn [insert_walk].
  - destruct Hl as (_ & _ & _ & Hn). simpl in Hn. rewrite Hn. simpl.
    exists [], c0, s0, []. split_and!; [done..|by rewrite Hn|].
    intros s. simpl. bcase; [lia|done].
  - destruct Hl as (_ & _ & _ & Hl). pose proof Hl as (Hn & _).
    assert (node_ok y.1) as [_ [Hy _]]
      by (apply (wf_segs_node lo _ _ Hlo Hwf); set_solver).
    rewrite Hn. unfold c_true. destruct (Z.eqb_spec y.1 0); [lia|]. cbn [negb andb].
    destruct Hwf as (? & _ & _ & ? & _ & Hwf).
    destruct (Z.ltb_spec y.1 a) as [Hlt|Hge].
    + destruct y as [y1 y2]. cbn [fst] in *. rewrite Hn in Hl.
      destruct (IH y1 y2 fuel (seg_end (c0, s0))) as (l1 & c & sc & l2 & E & Hw & Hl2 & Hi);
        [seg_lia|done|done|done|set_solver|simpl in Hf; lia|].
      exists ((c0, s0) :: l1), c, sc, l2. split_and!; [by rewrite E|done|done|].
      intros s. cbn [seg_insert]. cbn [fst]. bdestr (a <? c0); [lia|].
      change (if a <? y1 then _ else _) with (seg_insert (a, s) ((y1, y2) :: l)).
      by rewrite Hi.
    + exists [], c0, s0, (y :: l). split_and!; [done..|].
      intros s. cbn [seg_insert fst]. assert (y.1 ≠ a) by (apply Hne; set_solver).
      bdestr (a <? c0); [lia|]. bdestr (a <? y.1); [done|lia].
Qed.

(** Loads of the headers of well-formed lists are words. *)
Lemma freelist_u32 m p l : freelist m p l → wf_segs PAGE_SIZE l → u32 p.
Proof.
  unfold u32. destruct l as [|x l]; [intros ->; lia|]. intros [-> _] Hwf.
  assert (seg_ok x) by (eapply (wf_segs_ok PAGE_SIZE); [done|done|set_solver]).
  seg_lia.
Qed.

Lemma list_insert_spec fuel m fl l a s :
  (length l < fuel)%nat → wf_segs PAGE_SIZE l → freelist m fl l → seg_ok (a, s) → disjoint_from (a, s) l →
  b_size m a = s →
  ∃ m' fl', list_insert fuel m fl a = Some (m', fl') ∧
    freelist m' fl' (seg_insert (a, s) l) ∧ seg_frame ((a, s) :: l) m m'.
Proof.
  intros Hfuel Hwf Hl Hok Hd Hs.
  assert (node_ok a) as Ha by apply (seg_ok_node _ Hok).
  assert (∀ y, y ∈ l → y.1 ≠ a ∧ node_ok y.1) as Hne.
  { intros y Hy. pose proof (wf_segs_ok _ _ _ ltac:(done) Hwf Hy) as Hy'.
    split; [|by apply seg_ok_node]. intros E. apply (Hd a); [seg_lia|].
    exists y. split; [done|seg_lia]. }
  assert (∀ m v, seg_frame ((a, s) :: l) m (set_free m a v)) as Ff.
  { intros. apply seg_frame_store with (a, s); [set_solver|seg_lia..|node]. }
  assert (∀ m y v, y ∈ (a, s) :: l → seg_frame ((a, s) :: l) m (set_next m y.1 v)) as Fn.
  { intros m0 y v Hy. assert (seg_ok y) as Hyok.
    { apply elem_of_cons in Hy as [->|Hy]; [done|by eapply (wf_segs_ok PAGE_SIZE)]. }
    pose proof (seg_ok_node _ Hyok).
    apply seg_frame_store with y; [done|seg_lia..|node]. }
  pose proof (freelist_u32 _ _ _ Hl Hwf) as Hfl.
  assert (u32 a) as Hua by (unfold u32; node).
  assert (freelist (set_free m a 1) fl l) as Hl1.
  { eapply freelist_ext; [|done]. intros y [? ?]%Hne. auto with magnos. }
  unfold list_insert.
  destruct l as [|[c0 s0] l]; [|destruct Hl as [-> Hl]].
  - simpl in Hl. subst fl. cbn [Z.eqb orb]. do 2 eexists. split_and!; [done| |].
    + simpl. split_and!; [done|by hdr..].
    + eapply seg_frame_trans; [apply Ff | apply (Fn _ (a, s)); set_solver | done].
  - cbn [fst] in *. destruct (Hne (c0, s0)) as [Hc0 Hn0]; [set_solver|]. cbn [fst] in *.
    destruct (Z.eqb_spec c0 0); [node|]. cbn [orb seg_insert fst].
    destruct (Z.ltb_spec a c0) as [Hlt|Hge].
    + do 2 eexists. split_and!; [done| |].
      * split_and!; [done|by hdr..|]. hdr. rewrite w32_small by done.
        eapply freelist_ext; [|exact Hl1]. intros y [? ?]%Hne. auto with magnos.
      * eapply seg_frame_trans; [apply Ff | apply (Fn _ (a, s)); set_solver | done].
    + destruct (insert_walk_spec (set_free m a 1) a l c0 s0 fuel PAGE_SIZE)
        as (l1 & c & sc & l2 & E & Hw & Hl2 & Hi); try done; [lia|set_solver|..].
      { simpl in Hfuel. lia. }
      rewrite Hw. cbn [mbind option_bind]. do 2 eexists. split_and!; [done| |].
      * specialize (Hi s). cbn [seg_insert fst] in Hi. bcase_in Hi; [lia|]. rewrite Hi.
        destruct (Hne (c, sc)) as [? ?]; [rewrite E; set_solver|]. cbn [fst] in *.
        rewrite E in Hl1, Hwf, Hne.
        assert (∀ y, y ∈ l1 ++ l2 → node_ne c y) as Hc.
        { intros y Hy. split; [apply Hne; set_solver|]. by eapply (wf_segs_mid_ne PAGE_SIZE l1 (c, sc)). }
        apply freelist_relink with (l2 := l2); try done.
        -- apply Forall_forall. intros. apply Hc. set_solver.
        -- eapply freelist_ext; [|exact Hl1]. intros y [? ?]%Hne. auto with magnos.
        -- pose proof (load32_range m (c + 8)) as Hr.
           assert (b_next (set_free m a 1) c = b_next m c) as En by by hdr.
           rewrite En in *.
           split_and!; [done|by hdr..|]. hdr. rewrite w32_small by done.
           eapply freelist_ext; [|exact Hl2]. intros y Hy.
           destruct (Hne y) as [? ?]; [set_solver|].
           apply same_hdr_trans with (set_next (set_free m a 1) a (b_next m c));
             [auto with magnos|]. apply same_hdr_set_next; [done..|]. apply Hc. set_solver.
      * eapply seg_frame_trans with (l' := (a, s) :: (c0, s0) :: l); [|apply (Fn _ (c, sc))|done].
        -- eapply seg_frame_trans; [apply Ff | apply (Fn _ (a, s)); set_solver | done].
        -- rewrite E. set_solver.
Qed.
