(* ===== verification/HeapFit.v ===== *)
(** * Kernel heap: coalescing and allocation on lists

    [coalesce_pass] refines [seg_pass]; [first_fit] and [take_block] refine
    [seg_take]. *)

From stdpp Require Import gmap.
From S2P Require Import Prelude Mem Pmm Heap HeapList.

(** ** [coalesce_pass] refines [seg_pass] *)

Lemma coalesce_forward_merge lo m x y r :
  PAGE_SIZE <= lo → wf_segs lo (x :: y :: r) → freelist m x.1 (x :: y :: r) →
  seg_end x = y.1 →
  let m' := coalesce_forward m x.1 in
  b_size m' x.1 = x.2 + HEADER_SIZE + y.2 ∧ b_free m' x.1 = 1 ∧
  b_next m' x.1 = b_next m y.1 ∧
  (∀ z, node_ok z → z ≠ x.1 → same_hdr m m' z) ∧ seg_frame [x] m m'.
Proof.
  intros Hlo Hwf (_ & Hs & Hf & Hn & Hs' & Hf' & _) He m'.
  assert (seg_ok x) as Hx by (eapply wf_segs_ok; [done..|set_solver]).
  assert (seg_ok y) as Hy by (eapply wf_segs_ok; [done..|set_solver]).
  assert (node_ok x.1) by by apply seg_ok_node. assert (node_ok y.1) by by apply seg_ok_node.
  assert (y.1 ≠ x.1) by seg_lia.
  assert (m' = set_next (set_size m x.1 (x.2 + HEADER_SIZE + y.2)) x.1 (b_next m y.1)) as ->.
  { unfold m', coalesce_forward. rewrite Hn in *. rewrite Hs, Hf', Hs'.
    destruct (Z.eqb_spec y.1 0); [node|]. unfold HEADER_SIZE.
    wsmall by seg_lia. fold HEADER_SIZE.
    destruct (Z.eqb_spec (x.1 + HEADER_SIZE + x.2) y.1); [|seg_lia]. cbn [andb c_true negb Z.eqb].
    replace (x.2 + (HEADER_SIZE + y.2)) with (x.2 + HEADER_SIZE + y.2) by lia.
    by rewrite (b_next_set_size _ x.1 x.1), Hn, b_next_set_size. }
  pose proof (load32_range m (y.1 + 8)).
  split_and!.
  - hdr. rewrite w32_small by seg_lia. done.
  - by hdr.
  - hdr. by apply w32_small.
  - intros z Hz Hne. eapply same_hdr_trans; [|apply same_hdr_set_next; done].
    apply same_hdr_set_size; done.
  - eapply seg_frame_trans; [apply seg_frame_store with x | apply seg_frame_store with x | done];
      (set_solver || seg_lia || node).
Qed.

Lemma coalesce_forward_skip lo m x r :
  PAGE_SIZE <= lo → wf_segs lo (x :: r) → freelist m x.1 (x :: r) →
  (∀ y r', r = y :: r' → seg_end x ≠ y.1) → coalesce_forward m x.1 = m.
Proof.
  intros Hlo Hwf (_ & Hs & Hf & Hl) Hne. unfold coalesce_forward.
  assert (seg_ok x) by (eapply wf_segs_ok; [done..|set_solver]).
  destruct r as [|y r]; simpl in Hl.
  - by rewrite Hl.
  - destruct Hl as [Hn _]. rewrite Hn, Hs. destruct (Z.eqb_spec y.1 0); [done|].
    unfold HEADER_SIZE. wsmall by seg_lia.
    destruct (Z.eqb_spec (x.1 + 16 + x.2) y.1) as [E|]; [|done].
    by destruct (Hne y r).
Qed.

Lemma coalesce_pass_spec l : ∀ lo m p fuel,
  PAGE_SIZE <= lo → wf_segs lo l → freelist m p l → (length l < fuel)%nat →
  ∃ m', coalesce_pass m p fuel = Some m' ∧ freelist m' p (seg_pass l) ∧
    (∀ z, node_ok z → (∀ y, y ∈ l → y.1 ≠ z) → same_hdr m m' z) ∧ seg_frame l m m'.
Proof.
  induction l as [| x | x y r IH1 IH2] using seg_pass_ind; intros lo m p fuel Hlo Hwf Hl Hfuel;
    (destruct fuel as [|fuel]; [simpl in Hfuel; lia|]); cbn [coalesce_pass].
  - simpl in Hl. subst p. exists m. by split_and!.
  - pose proof Hl as [-> Hl'].
    assert (node_ok x.1) by (eapply seg_ok_node, wf_segs_ok; [done..|set_solver]).
    destruct (Z.eqb_spec x.1 0); [node|].
    rewrite (coalesce_forward_skip lo m x []) by done.
    destruct Hl' as (_ & _ & Hn). simpl in Hn. rewrite Hn.
    destruct fuel; [simpl in Hfuel; lia|]. exists m. by split_and!.
  - pose proof Hl as [-> Hl'].
    assert (node_ok x.1) as Hx by (eapply seg_ok_node, wf_segs_ok; [done..|set_solver]).
    destruct (Z.eqb_spec x.1 0); [node|].
    rewrite seg_pass_cons2. destruct (Z.eqb_spec (seg_end x) y.1) as [E|E].
    + destruct (coalesce_forward_merge lo m x y r) as (Es & Ef & En & Hsame & Hfr); [done..|].
      set (m1 := coalesce_forward m x.1) in *.
      pose proof Hwf as (_ & _ & _ & _ & _ & _ & _ & _ & ? & _ & Hwf2).
      assert (seg_ok y) by (eapply wf_segs_ok; [done..|set_solver]).
      assert (∀ z, z ∈ r → z.1 ≠ x.1 ∧ node_ok z.1) as Hr.
      { intros z Hz. split; [symmetry; eapply wf_segs_ne; [done|set_solver]|].
        eapply seg_ok_node, wf_segs_ok; [done..|set_solver]. }
      destruct (IH1 (seg_end y) m1 (b_next m1 x.1) fuel) as (m' & Hp & Hl2 & Hs2 & Hf2);
        [seg_lia|done| |simpl in Hfuel; lia|].
      { destruct Hl' as (_ & _ & Hn & _ & _ & Hl'). rewrite Hn in Hl'. rewrite En.
        eapply freelist_ext; [|exact Hl']. intros z [? ?]%Hr. auto. }
      exists m'. split_and!; [done| | |].
      * destruct (Hs2 x.1) as (F1 & F2 & F3); [done|intros z [? ?]%Hr; done|].
        split_and!; [done|cbn [fst snd]; congruence..|]. by rewrite F3.
      * intros z Hz Hne. eapply same_hdr_trans; [apply Hsame|apply Hs2]; try done; set_solver.
      * eapply seg_frame_trans; [eapply seg_frame_weaken; [exact Hfr|]|exact Hf2|];
          intros w; rewrite !covers_cons, ?covers_nil; tauto.
    + rewrite (coalesce_forward_skip lo m x (y :: r)) by (try done; congruence).
      destruct Hl' as (Hs & Hf & Hl'). destruct Hwf as (? & ? & ? & ? & ? & Hwf').
      destruct (IH2 (seg_end x) m (b_next m x.1) fuel) as (m' & Hp & Hl2 & Hs2 & Hf2);
        [seg_lia|done|done|simpl in Hfuel |- *; lia|].
      exists m'. split_and!; [done| | |].
      * destruct (Hs2 x.1) as (F1 & F2 & F3); [done| |].
        { intros z Hz. pose proof (wf_segs_lower _ _ _ Hwf' Hz). seg_lia. }
        split_and!; [done|congruence..|]. by rewrite F3.
      * intros z Hz Hne. apply Hs2; [done|set_solver].
      * eapply seg_frame_weaken; [exact Hf2|]. intros w. rewrite (covers_cons x). tauto.
Qed.

(** ** [first_fit] and [take_block] refine [seg_take] *)

(** The segment [seg_take] finds, and what it makes of it. *)
Lemma seg_take_split size l :
  match seg_take size l with
  | None => Forall (λ x, x.2 < size) l
  | Some (b, r) => ∃ l1 x l2, l = l1 ++ x :: l2 ∧ Forall (λ x, x.2 < size) l1 ∧ size <= x.2 ∧
      if size + HEADER_SIZE + MIN_ALLOC <=? x.2
      then b = (x.1, size) ∧
           r = l1 ++ (x.1 + HEADER_SIZE + size, x.2 - size - HEADER_SIZE) :: l2
      else b = x ∧ r = l1 ++ l2
  end.
Proof.
  induction l as [|y l IH]; simpl; [done|].
  destruct (Z.leb_spec size y.2) as [Hle|Hlt].
  - destruct (size + HEADER_SIZE + MIN_ALLOC <=? y.2) eqn:E; exists [], y, l; rewrite E;
      split_and!; try done; constructor.
  - destruct (seg_take size l) as [[b r]|]; simpl; [|by constructor].
    destruct IH as (l1 & x & l2 & -> & Hall & Hle & Hb). exists (y :: l1), x, l2.
    split_and!; [done|by constructor|done|].
    destruct (_ <=? x.2); destruct Hb as [-> ->]; done.
Qed.

Definition last_addr (prev : Z) (l : list seg) : Z := default prev (fst <$> last l).

Lemma last_addr_cons prev x l : last_addr prev (x :: l) = last_addr x.1 l.
Proof. unfold last_addr. destruct l as [|y l]; [done|]. rewrite last_cons_cons.
  destruct (last (y :: l)) eqn:E; [done|]. by apply last_None in E. Qed.

Lemma first_fit_found size l1 x l2 : ∀ lo m p prev fuel,
  PAGE_SIZE <= lo → wf_segs lo (l1 ++ x :: l2) → freelist m p (l1 ++ x :: l2) →
  (length l1 < fuel)%nat → Forall (λ x, x.2 < size) l1 → size <= x.2 →
  first_fit m size prev p fuel = Some (Some (last_addr prev l1, x.1)).
Proof.
  induction l1 as [|y l1 IH]; intros lo m p prev fuel Hlo Hwf Hl Hfuel Hall Hx;
    (destruct fuel as [|fuel]; [simpl in Hfuel; lia|]); cbn [first_fit app] in *;
    destruct Hl as (-> & Hs & Hf & Hl); rewrite Hs, Hf.
  - assert (seg_ok x) by (eapply wf_segs_ok; [done..|set_solver]).
    destruct (Z.eqb_spec x.1 0); [seg_lia|]. cbn [c_true Z.eqb negb andb].
    destruct (Z.leb_spec size x.2); [done|lia].
  - assert (seg_ok y) by (eapply wf_segs_ok; [done..|set_solver]).
    apply Forall_cons in Hall as [Hy Hall].
    destruct (Z.eqb_spec y.1 0); [seg_lia|]. cbn [c_true Z.eqb negb andb].
    destruct (Z.leb_spec size y.2); [lia|]. rewrite last_addr_cons.
    destruct Hwf as (? & ? & ? & ? & ? & Hwf).
    apply (IH (seg_end y)); [seg_lia|done|done|simpl in Hfuel; lia|done..].
Qed.

Lemma first_fit_none size l : ∀ lo m p prev fuel,
  PAGE_SIZE <= lo → wf_segs lo l → freelist m p l → (length l < fuel)%nat →
  Forall (λ x, x.2 < size) l → first_fit m size prev p fuel = Some None.
Proof.
  induction l as [|y l IH]; intros lo m p prev fuel Hlo Hwf Hl Hfuel Hall;
    (destruct fuel as [|fuel]; [simpl in Hfuel; lia|]); cbn [first_fit].
  - simpl in Hl. by subst p.
  - destruct Hl as (-> & Hs & Hf & Hl). rewrite Hs, Hf.
    assert (seg_ok y) by (eapply wf_segs_ok; [done..|set_solver]).
    apply Forall_cons in Hall as [Hy Hall].
    destruct (Z.eqb_spec y.1 0); [done|]. cbn [c_true Z.eqb negb andb].
    destruct (Z.leb_spec size y.2); [lia|].
    destruct Hwf as (? & ? & ? & ? & ? & Hwf).
    apply (IH (seg_end y)); [seg_lia|done|done|simpl in Hfuel; lia|done].
Qed.

Lemma wf_segs_suffix l1 l2 : ∀ lo, PAGE_SIZE <= lo → wf_segs lo (l1 ++ l2) →
  ∃ lo', PAGE_SIZE <= lo' ∧ wf_segs lo' l2 ∧ ∀ y, y ∈ l1 → seg_end y <= lo'.
Proof.
  induction l1 as [|x l1 IH]; intros lo Hlo Hwf.
  { exists lo. set_solver. }
  destruct Hwf as (? & ? & ? & ? & ? & Hwf).
  destruct (IH (seg_end x)) as (lo' & Hlo' & Hwf' & Hall); [seg_lia|done|].
  assert (seg_end x <= Z.max lo' (seg_end x)) by lia.
  exists (Z.max lo' (seg_end x)). split_and!; [lia| |].
  - destruct l1 as [|y l1]; simpl in Hwf.
    + destruct l2 as [|z l2]; [done|]. simpl in *. destruct_and!. split_and!; (done || lia).
    + assert (seg_end y <= lo') by (apply Hall; set_solver).
      replace (Z.max lo' (seg_end x)) with lo' by (destruct_and!; seg_lia). done.
  - intros y [->|Hy]%elem_of_cons; [lia|]. specialize (Hall y Hy). lia.
Qed.

(** Nodes of a well-formed list: valid, and different from node [x]. *)
Lemma wf_segs_others lo l1 x l2 y :
  PAGE_SIZE <= lo → wf_segs lo (l1 ++ x :: l2) → y ∈ l1 ++ l2 →
  seg_ok y ∧ (seg_end y <= x.1 ∨ seg_end x <= y.1).
Proof.
  intros Hlo Hwf Hy. split; [eapply wf_segs_ok; [done..|set_solver]|].
  destruct (wf_segs_suffix _ _ _ Hlo Hwf) as (lo' & Hlo' & (? & ? & ? & ? & ? & Hwf') & Hall).
  apply elem_of_app in Hy as [Hy|Hy].
  - left. specialize (Hall y Hy). lia.
  - right. by eapply wf_segs_lower.
Qed.

(** The split of [take_block]: the list with the block found cut in two. *)
Definition split_stores (m : mem) (size cur : Z) : mem :=
  let new_block := (cur ⊕ HEADER_SIZE) ⊕ size in
  let m := set_size m new_block ((b_size m cur ⊖ size) ⊖ HEADER_SIZE) in
  let m := set_free m new_block 1 in
  let m := set_next m new_block (b_next m cur) in
  let m := set_next m cur new_block in
  set_size m cur size.

(** The unlinking of [take_block]. *)
Definition unlink_stores (m : mem) (fl prev cur : Z) : mem * Z :=
  let m := set_free m cur 0 in
  if c_true prev
  then let m := set_next m prev (b_next m cur) in (set_next m cur 0, fl)
  else let fl := b_next m cur in (set_next m cur 0, fl).

Lemma take_block_eq m fl size prev cur :
  take_block m fl size prev cur =
  unlink_stores (if ((size ⊕ HEADER_SIZE) ⊕ MIN_ALLOC) <=? b_size m cur
                 then split_stores m size cur else m) fl prev cur.
Proof. done. Qed.

Lemma split_wf l1 x l2 size : ∀ lo,
  wf_segs lo (l1 ++ x :: l2) → size mod 16 = 0 → MIN_ALLOC <= size →
  size + HEADER_SIZE + MIN_ALLOC <= x.2 →
  wf_segs lo (l1 ++ (x.1, size) ::
    (x.1 + HEADER_SIZE + size, x.2 - size - HEADER_SIZE) :: l2).
Proof.
  induction l1 as [|y l1 IH]; intros lo Hwf Hm Hmin Hle; cbn [app wf_segs] in *.
  - destruct Hwf as (? & ? & ? & ? & ? & Hwf). cbn [fst snd].
    split_and!; [done..|seg_lia|seg_lia|seg_lia|seg_lia|seg_lia|seg_lia|].
    eapply wf_segs_weaken; [|done]. seg_lia.
  - destruct_and! Hwf. split_and!; try done. by apply IH.
Qed.

Lemma split_stores_spec lo m fl l1 x l2 size :
  PAGE_SIZE <= lo → wf_segs lo (l1 ++ x :: l2) → freelist m fl (l1 ++ x :: l2) →
  size mod 16 = 0 → MIN_ALLOC <= size → size + HEADER_SIZE + MIN_ALLOC <= x.2 →
  freelist (split_stores m size x.1) fl (l1 ++ (x.1, size) ::
    (x.1 + HEADER_SIZE + size, x.2 - size - HEADER_SIZE) :: l2) ∧
  seg_frame [x] m (split_stores m size x.1).
Proof.
  intros Hlo Hwf Hl Hm Hmin Hle. destruct x as [c s]. cbn [fst snd] in *.
  assert (seg_ok (c, s)) as Hx by (eapply wf_segs_ok; [done..|set_solver]).
  set (new := c + HEADER_SIZE + size).
  assert (node_ok c) by apply (seg_ok_node _ Hx).
  assert (node_ok new) by (unfold node_ok, new; seg_lia).
  assert (c ≠ new) by (unfold new; seg_lia).
  assert (∀ y, y ∈ l1 ++ l2 → node_ok y.1 ∧ new ≠ y.1 ∧ c ≠ y.1) as Ho.
  { intros y [? ?]%(wf_segs_others lo l1 (c, s)); [|done..].
    split; [by apply seg_ok_node|]. unfold new. seg_lia. }
  destruct (freelist_node _ _ _ _ _ _ Hl) as (Hs & _ & Hn).
  pose proof (load32_range m (c + 8)) as Hr.
  unfold split_stores. rewrite Hs.
  replace (w32 (w32 (c + HEADER_SIZE) + size)) with new by (unfold new; wsmall by seg_lia; done).
  replace (w32 (w32 (s - size) - HEADER_SIZE)) with (s - size - HEADER_SIZE)
    by (wsmall by seg_lia; done).
  rewrite b_next_set_free, b_next_set_size by done.
  set (m3 := set_next _ new (b_next m c)).
  assert (∀ z, node_ok z → new ≠ z → same_hdr m m3 z) as Hsame.
  { intros z ? ?. unfold m3. split_and!; by hdr. }
  split.
  - apply freelist_resize with s; [done| |unfold u32; seg_lia|].
    { apply Forall_app. split; [|constructor; [done|]]; apply Forall_forall;
        intros y Hy; (split; apply Ho; set_solver). }
    apply freelist_relink with l2; [done| |unfold u32, new; seg_lia| |].
    + apply Forall_forall. intros y Hy. split; apply Ho; set_solver.
    + eapply freelist_ext; [|exact Hl]. intros y Hy.
      assert (y = (c, s) ∨ y ∈ l1 ++ l2) as [->|Hy'] by set_solver; [by apply Hsame|].
      apply Hsame; by apply Ho.
    + unfold m3. cbn [freelist fst snd]. split_and!; [done| | |]; hdr.
      * apply w32_small. seg_lia.
      * done.
      * rewrite w32_small by done. eapply freelist_ext; [|exact Hn]. intros y Hy.
        destruct (Ho y) as (? & ? & ?); [set_solver|]. split_and!; by hdr.
  - assert (∀ m a v, c <= a → a + 4 <= c + HEADER_SIZE + s → seg_frame [(c, s)] m (store32 m a v)) as Hst.
    { intros. apply (seg_frame_in (c, s)); (done || set_solver). }
    unfold m3. do 4 (eapply seg_frame_trans; [|apply Hst; unfold new; seg_lia|done]).
    apply Hst; unfold new; seg_lia.
Qed.

(** The list after unlinking the block found. *)
Lemma unlink_stores_spec lo m fl l1 x l2 m' fl' :
  PAGE_SIZE <= lo → wf_segs lo (l1 ++ x :: l2) → freelist m fl (l1 ++ x :: l2) →
  unlink_stores m fl (last_addr 0 l1) x.1 = (m', fl') →
  freelist m' fl' (l1 ++ l2) ∧ b_size m' x.1 = x.2 ∧ seg_frame (l1 ++ [x]) m m'.
Proof.
  intros Hlo Hwf Hl Hu. destruct x as [c s]. cbn [fst snd] in *.
  assert (seg_ok (c, s)) as Hx by (eapply wf_segs_ok; [done..|set_solver]).
  assert (node_ok c) by apply (seg_ok_node _ Hx).
  assert (∀ y, y ∈ l1 ++ l2 → seg_ok y ∧ node_ne c y) as Ho.
  { intros y Hy. pose proof Hy as [? ?]%(wf_segs_others lo l1 (c, s)); [|done..].
    split; [done|]. split; [by apply seg_ok_node|].
    eapply (wf_segs_mid_ne lo l1 (c, s)); done. }
  destruct (freelist_node _ _ _ _ _ _ Hl) as (Hs & _ & Hn).
  pose proof (load32_range m (c + 8)) as Hr.
  assert (∀ m a v, c <= a → a + 4 <= c + HEADER_SIZE + s → seg_frame (l1 ++ [(c, s)]) m (store32 m a v)) as Hst.
  { intros. apply (seg_frame_in (c, s)); (done || set_solver). }
  unfold unlink_stores in Hu. rewrite b_next_set_free in Hu by done.
  destruct l1 as [|[d t] l1 _] using rev_ind.
  - unfold last_addr in Hu. simpl in Hu. injection Hu as <- <-. split_and!.
    + eapply freelist_ext; [|exact Hn]. intros y [? [? ?]]%Ho. split_and!; by hdr.
    + by hdr.
    + eapply seg_frame_trans; [|apply Hst; seg_lia|done]. apply Hst; seg_lia.
  - assert (last_addr 0 (l1 ++ [(d, t)]) = d) as E by (unfold last_addr; by rewrite last_snoc).
    rewrite E in Hu. clear E.
    assert (seg_ok (d, t) ∧ node_ne c (d, t)) as [Hd [? ?]] by (apply Ho; set_solver).
    cbn [fst] in *. unfold c_true in Hu. destruct (Z.eqb_spec d 0); [seg_lia|].
    cbn [negb] in Hu. injection Hu as <- <-. rewrite <-!app_assoc in *. cbn [app] in *.
    assert (∀ y, y ∈ l1 ++ l2 → d ≠ y.1).
    { intros y Hy. eapply (wf_segs_mid_ne lo l1 (d, t)); [done|set_solver]. }
    split_and!.
    + apply freelist_ext with (set_next m d (b_next m c)).
      { intros y Hy. assert (y = (d, t) ∨ y ∈ l1 ++ l2) as [->|Hy'] by set_solver;
          [cbn [fst]; split_and!; by hdr|].
        destruct (Ho y) as [? [? ?]]; [set_solver|]. assert (d ≠ y.1) by auto.
        split_and!; by hdr. }
      apply freelist_relink with ((c, s) :: l2); [done| |done|done|].
      * apply Forall_forall. intros y Hy. split; [apply Ho; set_solver|]. set_solver.
      * eapply freelist_ext; [|exact Hn]. intros y Hy. destruct (Ho y) as [? [? ?]]; [set_solver|].
        assert (d ≠ y.1) by set_solver. auto with magnos.
    + by hdr.
    + eapply seg_frame_trans; [|apply Hst; seg_lia|done].
      eapply seg_frame_trans with (m2 := set_free m c 0); [apply Hst; seg_lia| |].
      * apply (seg_frame_in (d, t) [(d, t)]); [done|set_solver|seg_lia..].
      * intros z. rewrite !covers_app, !covers_cons. tauto.
Qed.

(** What [take_block] needs of its arguments and what it does, against
    [seg_take]. *)
Lemma seg_take_wf lo size l b r :
  PAGE_SIZE <= lo → wf_segs lo l → size mod 16 = 0 → MIN_ALLOC <= size →
  seg_take size l = Some (b, r) →
  ∃ l1 l2, r = l1 ++ l2 ∧ wf_segs lo (l1 ++ b :: l2) ∧
    (∀ z, covers (l1 ++ b :: l2) z ↔ covers l z) ∧ seg_total (l1 ++ b :: l2) = seg_total l.
Proof.
  intros Hlo Hwf Hm Hmin Ht. pose proof (seg_take_split size l) as Hs. rewrite Ht in Hs.
  destruct Hs as (l1 & x & l2 & -> & _ & Hle & Hb).
  bcase_in Hb; destruct Hb as [-> ->].
  - exists l1. eexists. split_and!; [done|by apply split_wf| |].
    + intros z. rewrite !covers_app, !covers_cons. cbn [fst snd].
      assert (in_seg x.1 x.2 z ↔ in_seg x.1 size z ∨
        in_seg (x.1 + HEADER_SIZE + size) (x.2 - size - HEADER_SIZE) z) by seg_lia. tauto.
    + unfold seg_total. rewrite !foldr_app. simpl. f_equal. unfold HEADER_SIZE. lia.
  - exists l1, l2. by split_and!.
Qed.

Lemma take_block_spec fuel m fl l size b r :
  (length l < fuel)%nat → wf_segs PAGE_SIZE l → freelist m fl l → size mod 16 = 0 → MIN_ALLOC <= size →
  seg_take size l = Some (b, r) →
  ∃ prev m' fl',
    first_fit m size 0 fl fuel = Some (Some (prev, b.1)) ∧
    take_block m fl size prev b.1 = (m', fl') ∧
    freelist m' fl' r ∧ b_size m' b.1 = b.2 ∧ seg_frame l m m'.
Proof.
  intros Hfuel Hwf Hl Hm Hmin Ht. pose proof (seg_take_split size l) as Hs. rewrite Ht in Hs.
  destruct Hs as (l1 & x & l2 & -> & Hall & Hle & Hb). rewrite length_app in Hfuel.
  assert (seg_ok x) as Hx by (eapply wf_segs_ok; [done..|set_solver]).
  exists (last_addr 0 l1).
  assert (b.1 = x.1) as Eb by (bcase_in Hb; destruct Hb as [-> _]; done). rewrite Eb.
  rewrite (first_fit_found size l1 x l2 PAGE_SIZE) by (done || lia).
  rewrite take_block_eq. destruct (freelist_node m fl l1 x.1 x.2 l2) as (Hsz & _ & _).
  { by destruct x. }
  rewrite Hsz. replace (w32 (w32 (size + HEADER_SIZE) + MIN_ALLOC)) with (size + HEADER_SIZE + MIN_ALLOC)
    by (wsmall by seg_lia; done).
  bcase_in Hb; destruct Hb as [-> ->]; cbn [fst snd] in *.
  - destruct (split_stores_spec PAGE_SIZE m fl l1 x l2 size) as [Hl1 Hf1]; [done..|].
    destruct (unlink_stores _ _ _ _) as [m' fl'] eqn:Hu. exists m', fl'.
    eapply (unlink_stores_spec PAGE_SIZE _ _ l1 (x.1, size)) in Hu as (? & ? & Hf2);
      [|done|by apply split_wf|done].
    split_and!; try done. eapply seg_frame_trans; [eapply seg_frame_weaken; [exact Hf1|]|exact Hf2|];
      intros z; rewrite !covers_app, !covers_cons, ?covers_nil; [tauto|]. cbn [fst snd].
    assert (in_seg x.1 size z → in_seg x.1 x.2 z) by seg_lia. tauto.
  - destruct (unlink_stores _ _ _ _) as [m' fl'] eqn:Hu. exists m', fl'.
    eapply (unlink_stores_spec PAGE_SIZE _ _ l1 x) in Hu as (? & ? & Hf2); [|done..].
    split_and!; try done. eapply seg_frame_weaken; [exact Hf2|].
    intros z. rewrite !covers_app, !covers_cons, covers_nil. tauto.
Qed.

Lemma wf_drop_mid l1 b l2 : ∀ lo, wf_segs lo (l1 ++ b :: l2) → wf_segs lo (l1 ++ l2).
Proof.
  induction l1 as [|x l1 IH]; intros lo Hwf; cbn [app wf_segs] in *.
  - destruct Hwf as (? & ? & ? & ? & ? & Hwf). eapply wf_segs_weaken; [|done]. seg_lia.
  - destruct_and! Hwf. split_and!; try done. by apply IH.
Qed.

Lemma seg_total_app l k : seg_total (l ++ k) = seg_total l + seg_total k.
Proof. induction l as [|x l IH]; [done|]. unfold seg_total in *. simpl. lia. Qed.
