(* ===== verification/HeapInv.v ===== *)
(** * Kernel heap: invariant and properties

    [heap_inv st l live]: the heap [st] holds the free segments [l] and the
    allocated blocks [live].  Every operation is total on states that satisfy
    it, preserves it, and leaves the bytes of the other allocated blocks
    alone. *)

From stdpp Require Import gmap.
From S2P Require Import Prelude Mem Pmm Heap HeapList HeapFit.

Definition lcovers (live : gmap Z Z) (z : Z) : Prop :=
  ∃ a s, live !! a = Some s ∧ in_seg a s z.
Definition live_total (live : gmap Z Z) : Z :=
  map_fold (λ _ s t, HEADER_SIZE + s + t) 0 live.

(** ** Statistics of a list *)

Definition sum_sizes (l : list seg) : Z := foldr (λ x t, x.2 + t) 0 l.

Lemma seg_total_sizes l : seg_total l = sum_sizes l + HEADER_SIZE * Z.of_nat (length l).
Proof. induction l as [|x l IH]; simpl; unfold HEADER_SIZE in *; [done|]. rewrite IH. lia. Qed.

Lemma sum_sizes_nonneg lo l : wf_segs lo l → 0 <= sum_sizes l.
Proof.
  revert lo. induction l as [|y l IH]; intros lo; simpl; [lia|].
  intros (? & ? & ? & ? & ? & Hwf). specialize (IH _ Hwf). seg_lia.
Qed.

Lemma stats_loop_spec l : ∀ lo m p fb nb n,
  PAGE_SIZE <= lo → wf_segs lo l → freelist m p l → (length l < n)%nat →
  0 <= fb → 0 <= nb → fb + sum_sizes l < 4294967296 → nb + Z.of_nat (length l) < 4294967296 →
  stats_loop m p fb nb n = Some (fb + sum_sizes l, nb + Z.of_nat (length l)).
Proof.
  induction l as [|x l IH]; intros lo m p fb nb n Hlo Hwf Hl Hn H0 H1 Hfb Hnb;
    (destruct n as [|n]; [simpl in Hn; lia|]); cbn [stats_loop].
  - simpl in Hl. subst p. simpl. by rewrite !Z.add_0_r.
  - destruct Hl as (-> & Hs & Hf & Hl). rewrite Hs, Hf. simpl in Hfb, Hnb, Hn.
    assert (seg_ok x) by (eapply wf_segs_ok; [done..|set_solver]).
    destruct Hwf as (? & ? & ? & ? & ? & Hwf).
    pose proof (sum_sizes_nonneg _ _ Hwf).
    destruct (Z.eqb_spec x.1 0); [seg_lia|]. cbn [c_true Z.eqb negb].
    rewrite !w32_small by seg_lia.
    rewrite (IH (seg_end x)); [|seg_lia|done|done|lia|seg_lia|lia|lia|lia].
    simpl. do 2 f_equal; lia.
Qed.

(** The memory determines the list. *)
Lemma freelist_inj lo m p l l' :
  PAGE_SIZE <= lo → wf_segs lo l → wf_segs lo l' → freelist m p l → freelist m p l' → l = l'.
Proof.
  revert lo p l'. induction l as [|[a s] l IH]; intros lo p [|[b t] l'] Hlo Hwf Hwf' Hl Hl';
    [done|..].
  - destruct Hl' as [-> _]. simpl in Hl. destruct Hwf' as [? _]. seg_lia.
  - destruct Hl as [-> _]. simpl in Hl'. destruct Hwf as [? _]. seg_lia.
  - destruct Hl as (-> & Hs & _ & Hl), Hl' as (E & Hs' & _ & Hl'). cbn [fst snd] in *. subst.
    f_equal. destruct Hwf as (? & ? & ? & ? & ? & Hwf), Hwf' as (_ & _ & _ & _ & _ & Hwf').
    eapply (IH _ _ l'); [|exact Hwf|exact Hwf'|done..]. seg_lia.
Qed.

Section Inv.
Context {S : Type} `{PA : PageAllocator S} (fuel : nat) (Hfuel : fuel_ok fuel).
Implicit Types st : heap S.

Record heap_inv st (l : list seg) (live : gmap Z Z) : Prop := {
  hi_pa : pa_inv (h_pa st);
  hi_list : freelist (h_mem st) (free_list st) l;
  hi_wf : wf_segs PAGE_SIZE l;
  hi_live a s : live !! a = Some s → seg_ok (a, s) ∧ b_size (h_mem st) a = s;
  hi_disj a s b t z : live !! a = Some s → live !! b = Some t →
    in_seg a s z → in_seg b t z → a = b;
  hi_free z : covers l z → ¬ lcovers live z;
  hi_page pg z : pg ∈ pa_free (h_pa st) → pg <= z < pg + PAGE_SIZE →
    ¬ covers l z ∧ ¬ lcovers live z;
  hi_total : seg_total l + live_total live = PAGE_SIZE * heap_pages st;
  hi_count : 0 <= heap_pages st ∧
    heap_pages st + Z.of_nat (size (pa_free (h_pa st))) <= TOTAL_PAGES
}.

(** The bytes of the blocks [live], headers included, are the same. *)
Definition keeps (live : gmap Z Z) (m m' : mem) : Prop :=
  ∀ z, lcovers live z → load8 m' z = load8 m z.

Lemma keeps_refl live m : keeps live m m.
Proof. done. Qed.
Lemma keeps_trans live m1 m2 m3 : keeps live m1 m2 → keeps live m2 m3 → keeps live m1 m3.
Proof. intros H1 H2 z Hz. by rewrite H2, H1. Qed.

(** ** Sums and regions of allocated blocks *)

Lemma live_total_insert a s live :
  live !! a = None → live_total (<[a := s]> live) = HEADER_SIZE + s + live_total live.
Proof. intros. unfold live_total. rewrite map_fold_insert_L; [done | intros; lia | done]. Qed.
Lemma live_total_delete a s live :
  live !! a = Some s → live_total live = HEADER_SIZE + s + live_total (delete a live).
Proof. intros. unfold live_total.
  by rewrite (map_fold_delete_L _ _ a s live) by (done || (intros; lia)). Qed.

Lemma lcovers_insert a s live z :
  live !! a = None → lcovers (<[a := s]> live) z ↔ in_seg a s z ∨ lcovers live z.
Proof.
  intros Ha. unfold lcovers. split.
  - intros (b & t & [[-> ->]|[? ?]]%lookup_insert_Some & Hz); eauto.
  - intros [?|(b & t & Hb & Hz)].
    + exists a, s. by rewrite lookup_insert_eq.
    + exists b, t. rewrite lookup_insert_ne by congruence. done.
Qed.
Lemma lcovers_delete a live z : lcovers (delete a live) z → lcovers live z.
Proof. intros (b & t & [? ?]%lookup_delete_Some & Hz). by exists b, t. Qed.

Lemma lcovers_addr st l live z : heap_inv st l live → lcovers live z → addr_ok z 1.
Proof.
  intros Hi (a & s & Ha & Hz). destruct (hi_live _ _ _ Hi _ _ Ha) as [Hok _].
  unfold addr_ok. seg_lia.
Qed.

(** A frame of free segments keeps the allocated blocks. *)
Lemma frame_keeps st l live k m m' :
  heap_inv st l live → seg_frame k m m' → (∀ z, covers k z → ¬ lcovers live z) → keeps live m m'.
Proof.
  intros Hi Hf Hk z Hz. apply Hf; [by eapply lcovers_addr|]. intros Hc. by eapply Hk.
Qed.

Lemma keeps_size live m m' a s :
  keeps live m m' → live !! a = Some s → 16 <= s → b_size m' a = b_size m a.
Proof.
  intros Hk Ha Hs. apply load32_ext. intros i Hi. apply Hk.
  exists a, s. split; [done|]. unfold in_seg, HEADER_SIZE. lia.
Qed.

(** ** Putting a block on the free list: [list_insert], then a pass *)

Definition put_seg (x : seg) (l : list seg) : list seg := seg_pass (seg_insert x l).

Lemma put_wf x l :
  seg_ok x → wf_segs PAGE_SIZE l → disjoint_from x l → wf_segs PAGE_SIZE (put_seg x l).
Proof. intros. apply seg_pass_wf, seg_insert_wf; try done. unfold seg_ok in *. tauto. Qed.
Lemma put_covers x l z :
  seg_ok x → wf_segs PAGE_SIZE l → disjoint_from x l →
  covers (put_seg x l) z ↔ in_seg x.1 x.2 z ∨ covers l z.
Proof.
  intros. unfold put_seg. rewrite (seg_pass_covers _ z PAGE_SIZE).
  - by rewrite (covers_perm _ _ _ (seg_insert_perm x l)), covers_cons.
  - apply seg_insert_wf; try done. unfold seg_ok in *. tauto.
Qed.
Lemma put_total x l : seg_total (put_seg x l) = HEADER_SIZE + x.2 + seg_total l.
Proof. unfold put_seg. rewrite seg_pass_total, (seg_total_perm _ _ (seg_insert_perm x l)). done. Qed.

Lemma put_spec m fl l a s :
  wf_segs PAGE_SIZE l → freelist m fl l → seg_ok (a, s) → disjoint_from (a, s) l →
  b_size m a = s →
  ∃ m1 fl' m', list_insert fuel m fl a = Some (m1, fl') ∧
    coalesce_pass m1 fl' fuel = Some m' ∧
    freelist m' fl' (put_seg (a, s) l) ∧ seg_frame ((a, s) :: l) m m'.
Proof.
  intros Hwf Hl Hok Hd Hs.
  destruct (list_insert_spec fuel m fl l a s) as (m1 & fl' & H1 & Hl1 & Hf1);
    [by apply wf_segs_fuel|done..|].
  assert (wf_segs PAGE_SIZE (seg_insert (a, s) l)) as Hwf1.
  { apply seg_insert_wf; try done. unfold seg_ok in Hok. tauto. }
  destruct (coalesce_pass_spec (seg_insert (a, s) l) PAGE_SIZE m1 fl' fuel)
    as (m' & H2 & Hl2 & _ & Hf2); [done..|by apply wf_segs_fuel|].
  exists m1, fl', m'. split_and!; try done.
  eapply seg_frame_trans; [exact Hf1|exact Hf2|].
  intros z. by rewrite (covers_perm _ _ _ (seg_insert_perm _ _)).
Qed.

(** ** [heap_add_page] *)

Lemma size_remove (X : gset Z) a : a ∈ X → size X = Datatypes.S (size (X ∖ {[a]})).
Proof.
  intros Ha. rewrite (union_difference_singleton_L a X) at 1 by done.
  rewrite size_union by set_solver. by rewrite size_singleton.
Qed.

Lemma add_page_spec st l live :
  heap_inv st l live →
  ∃ pg st', heap_add_page fuel st = Some (pg, st') ∧ keeps live (h_mem st) (h_mem st') ∧
    ((pg = 0 ∧ st' = st) ∨
     (pg ≠ 0 ∧ heap_inv st' (put_seg (pg, PAGE_SIZE - HEADER_SIZE) l) live)).
Proof.
  intros Hi. unfold heap_add_page. destruct (pa_alloc (h_pa st)) as [pg pa'] eqn:Ha.
  destruct (Z.eqb_spec pg 0) as [->|Hpg].
  { destruct (pa_alloc_fail _ _ (hi_pa _ _ _ Hi) Ha) as [-> _].
    exists 0, st. split_and!; [by destruct st|done|by left]. }
  destruct (pa_alloc_ok _ _ _ (hi_pa _ _ _ Hi) Ha Hpg) as (Hpa & Hin & Hfree).
  destruct (pa_page _ _ (hi_pa _ _ _ Hi) Hin) as (Hal & Hlo & Hhi).
  set (x := (pg, PAGE_SIZE - HEADER_SIZE)).
  assert (seg_ok x) as Hx by (unfold x; seg_lia).
  assert (node_ok pg) as Hn by apply (seg_ok_node _ Hx).
  assert (∀ z, in_seg x.1 x.2 z → ¬ covers l z ∧ ¬ lcovers live z) as Hnew.
  { intros z Hz. apply (hi_page _ _ _ Hi pg); [done|]. unfold x in Hz. seg_lia. }
  assert (disjoint_from x l) as Hd by (intros z Hz; by apply Hnew).
  set (m3 := set_next (set_free (set_size (h_mem st) pg (PAGE_SIZE - HEADER_SIZE)) pg 1) pg 0).
  assert (seg_frame [x] (h_mem st) m3) as Hf3.
  { assert (∀ m a v, pg <= a <= pg + 12 → seg_frame [x] m (store32 m a v)) as Hst
      by (intros; apply (seg_frame_in x); [done|set_solver|unfold x; seg_lia..]).
    unfold m3. do 2 (eapply seg_frame_trans; [|apply Hst; lia|done]). apply Hst. lia. }
  destruct (put_spec m3 (free_list st) l pg (PAGE_SIZE - HEADER_SIZE))
    as (m1 & fl' & m' & E1 & E2 & Hl' & Hf'); [apply Hi| |done|done| |].
  { eapply freelist_ext; [|apply Hi]. intros y Hy.
    assert (node_ok y.1) by (eapply seg_ok_node, wf_segs_ok; [|apply Hi|]; done).
    assert (pg ≠ y.1).
    { intros E. assert (seg_ok y) by (eapply wf_segs_ok; [|apply Hi|]; done).
      apply (Hd pg); [unfold x; seg_lia|]. exists y. split; [done|]. seg_lia. }
    unfold m3. split_and!; by hdr. }
  { unfold m3. hdr. done. }
  rewrite E1. cbn [mbind option_bind]. rewrite E2. cbn [mbind option_bind].
  assert (keeps live (h_mem st) m') as Hk.
  { eapply (frame_keeps st l live (x :: l)); [done| |].
    - eapply seg_frame_trans; [eapply seg_frame_weaken; [exact Hf3|]|exact Hf'|done].
      intros z. rewrite !covers_cons, covers_nil. tauto.
    - intros z [Hz|Hz]%covers_cons; [by apply Hnew|by apply (hi_free _ _ _ Hi)]. }
  pose proof (size_remove _ _ Hin) as Hsz. rewrite <-Hfree in Hsz.
  pose proof (hi_count _ _ _ Hi) as [Hc0 Hc]. change TOTAL_PAGES with 4096 in *.
  eexists _, _. split_and!; [done|done|]. right. split; [done|]. split; simpl; try done.
  - apply put_wf; [done|apply Hi|done].
  - intros a s Has. destruct (hi_live _ _ _ Hi _ _ Has) as [Hok <-]. split; [done|].
    eapply keeps_size; [done..|]. seg_lia.
  - apply Hi.
  - intros z [Hz|Hz]%put_covers; [by apply Hnew|by apply (hi_free _ _ _ Hi)|done|apply Hi|done].
  - intros p z Hp Hz. rewrite Hfree in Hp. apply elem_of_difference in Hp as [Hp Hne].
    rewrite put_covers by (done || apply Hi).
    destruct (hi_page _ _ _ Hi p z Hp Hz). split; [|done]. intros [Hz'|?]; [|done].
    destruct (pa_page _ _ (hi_pa _ _ _ Hi) Hp) as (Hal' & _ & _).
    apply Hne, elem_of_singleton. unfold x in Hz'. seg_lia.
  - rewrite put_total. pose proof (hi_total _ _ _ Hi). cbn [snd x].
    rewrite w32_small by lia. unfold x. cbn [snd]. lia.
  - change TOTAL_PAGES with 4096. rewrite w32_small by lia. lia.
Qed.

(** ** Growing, taking and freeing *)

Lemma grow_spec n : ∀ st l live,
  heap_inv st l live →
  ∃ ok st' l', grow fuel n st = Some (ok, st') ∧ heap_inv st' l' live ∧
    keeps live (h_mem st) (h_mem st').
Proof.
  induction n as [|n IH]; intros st l live Hi; cbn [grow]; [by eauto 10 using keeps_refl|].
  destruct (add_page_spec st l live Hi) as (pg & st' & -> & Hk & [[-> ->]|[Hne Hi']]);
    cbn [mbind option_bind].
  - simpl. eauto 10.
  - destruct (Z.eqb_spec pg 0); [done|].
    destruct (IH _ _ _ Hi') as (ok & st2 & l2 & -> & Hi2 & Hk2).
    eauto 10 using keeps_trans.
Qed.

(** Moving the block [b] from the free list to the allocated blocks. *)
Lemma take_inv st l live size b r m' fl' :
  heap_inv st l live → size mod 16 = 0 → MIN_ALLOC <= size →
  seg_take size l = Some (b, r) →
  freelist m' fl' r → b_size m' b.1 = b.2 → seg_frame l (h_mem st) m' →
  keeps live (h_mem st) m' ∧ live !! b.1 = None ∧ seg_ok b ∧
  heap_inv (Heap m' fl' (heap_pages st) (h_pa st)) r (<[b.1 := b.2]> live).
Proof.
  intros Hi Hm Hmin Ht Hl' Hs Hf.
  assert (keeps live (h_mem st) m') as Hk
    by (eapply frame_keeps; [done..|apply Hi]).
  destruct (seg_take_wf PAGE_SIZE size l b r) as (l1 & l2 & -> & Hwf & Hc & Htot);
    [done|apply Hi|done..|].
  assert (seg_ok b) as Hb by (eapply wf_segs_ok; [|done|set_solver]; done).
  assert (∀ z, in_seg b.1 b.2 z → covers l z) as Hbl
    by (intros z Hz; apply Hc, covers_app; right; apply covers_cons; by left).
  assert (∀ z, covers (l1 ++ l2) z → covers l z ∧ ¬ in_seg b.1 b.2 z) as Hrl.
  { intros z Hz. split.
    - apply Hc. rewrite covers_app, covers_cons. rewrite covers_app in Hz. tauto.
    - destruct Hz as (y & Hy & Hz). intros Hz'.
      destruct (wf_segs_others PAGE_SIZE l1 b l2 y) as [? ?]; [done..|]. seg_lia. }
  assert (live !! b.1 = None) as Hnone.
  { apply eq_None_not_Some. intros [s Has]. destruct (hi_live _ _ _ Hi _ _ Has) as [? _].
    apply (hi_free _ _ _ Hi b.1); [apply Hbl; seg_lia|]. exists b.1, s. split; [done|seg_lia]. }
  split_and!; try done. split; simpl; try done.
  - apply Hi.
  - eapply wf_drop_mid, Hwf.
  - intros a s [[<- <-]|[Hne Has]]%lookup_insert_Some; [by destruct b|].
    destruct (hi_live _ _ _ Hi _ _ Has) as [Hok <-]. split; [done|].
    eapply keeps_size; [done..|]. seg_lia.
  - assert (∀ a s z, live !! a = Some s → in_seg a s z → in_seg b.1 b.2 z → False).
    { intros a s z Has Hz Hz'. apply (hi_free _ _ _ Hi z); [by apply Hbl|]. by exists a, s. }
    intros a s c t z [[<- <-]|[? Has]]%lookup_insert_Some [[<- <-]|[? Hct]]%lookup_insert_Some Hz Hz';
      [done|exfalso; eauto..|by eapply (hi_disj _ _ _ Hi)].
  - intros z [Hz Hnz]%Hrl [?|Hlc]%lcovers_insert; [done|by eapply (hi_free _ _ _ Hi)|done].
  - intros p z Hp Hz. destruct (hi_page _ _ _ Hi p z Hp Hz) as [Hn1 Hn2].
    rewrite lcovers_insert by done. split; [by intros [? _]%Hrl|].
    intros [?|?]; [by apply Hn1, Hbl|done].
  - rewrite live_total_insert by done. pose proof (hi_total _ _ _ Hi).
    rewrite <-Htot, !seg_total_app in *. unfold seg_total in *. simpl in *. lia.
  - apply Hi.
Qed.

(** ** [kmalloc] and [kfree] *)

Lemma round_size_val size :
  0 <= size < 4294967296 → round_size size = Z.max 16 (w32 (size + 15) - w32 (size + 15) mod 16).
Proof.
  intros Hs. unfold round_size, ALIGN, MIN_ALLOC.
  replace (w32 (w32 (size + 16) - 1)) with (w32 (size + 15)) by (unfold w32; zdm).
  change (w32 (Z.lnot (16 - 1))) with (4294967296 - 2 ^ 4).
  rewrite land_high_mask by (lia || apply w32_range). change (2 ^ 4) with 16.
  bcase; lia.
Qed.

Lemma round_size_ok size :
  0 <= size < 4294967296 →
  round_size size mod 16 = 0 ∧ MIN_ALLOC <= round_size size < 4294967296.
Proof.
  intros Hs. rewrite round_size_val by done. pose proof (w32_range (size + 15)).
  unfold MIN_ALLOC. split; [|zdm].
  destruct (Z.max_spec 16 (w32 (size + 15) - w32 (size + 15) mod 16)) as [[_ ->]|[_ ->]]; zdm.
Qed.

Lemma round_size_le size : 0 < size <= 4294967280 → size <= round_size size.
Proof. intros Hs. rewrite round_size_val, w32_small by lia. zdm. Qed.

Lemma seg_take_ge size l b r : seg_take size l = Some (b, r) → size <= b.2.
Proof.
  intros Ht. pose proof (seg_take_split size l) as Hs. rewrite Ht in Hs.
  destruct Hs as (l1 & x & l2 & _ & _ & Hle & Hb). bcase_in Hb; destruct Hb as [-> _]; simpl; lia.
Qed.

(** The search and removal that both loops of [kmalloc] do. *)
Lemma try_fit st l live size :
  heap_inv st l live → size mod 16 = 0 → MIN_ALLOC <= size →
  match seg_take size l with
  | None => first_fit (h_mem st) size 0 (free_list st) fuel = Some None
  | Some (b, r) => ∃ prev m' fl',
      first_fit (h_mem st) size 0 (free_list st) fuel = Some (Some (prev, b.1)) ∧
      take_block (h_mem st) (free_list st) size prev b.1 = (m', fl') ∧
      b.1 ⊕ HEADER_SIZE = b.1 + HEADER_SIZE ∧
      keeps live (h_mem st) m' ∧ live !! b.1 = None ∧ seg_ok b ∧
      heap_inv (Heap m' fl' (heap_pages st) (h_pa st)) r (<[b.1 := b.2]> live)
  end.
Proof.
  intros Hi Hm Hmin. pose proof (wf_segs_fuel _ _ Hfuel (hi_wf _ _ _ Hi)) as Hlen.
  destruct (seg_take size l) as [[b r]|] eqn:Ht.
  - destruct (take_block_spec fuel (h_mem st) (free_list st) l size b r)
      as (prev & m' & fl' & H1 & H2 & H3 & H4 & H5); [done|apply Hi|apply Hi|done..|].
    destruct (take_inv st l live size b r m' fl') as (? & ? & Hb & ?); [done..|].
    exists prev, m', fl'. split_and!; try done. apply w32_small. seg_lia.
  - pose proof (seg_take_split size l) as Hs. rewrite Ht in Hs.
    by eapply (first_fit_none size l PAGE_SIZE); [| apply Hi | apply Hi | |].
Qed.

Lemma kmalloc_spec st l live n :
  heap_inv st l live → 0 < n < 4294967296 →
  ∃ p st', kmalloc fuel st n = Some (p, st') ∧ keeps live (h_mem st) (h_mem st') ∧
    ((p = 0 ∧ seg_take (round_size n) l = None ∧ ∃ l', heap_inv st' l' live) ∨
     ∃ b r, p = b.1 + HEADER_SIZE ∧ live !! b.1 = None ∧ seg_ok b ∧ round_size n <= b.2 ∧
       heap_inv st' r (<[b.1 := b.2]> live) ∧
       (∀ b' r', seg_take (round_size n) l = Some (b', r') →
          b' = b ∧ r' = r ∧ heap_pages st' = heap_pages st ∧ h_pa st' = h_pa st)).
Proof.
  intros Hi Hn. unfold kmalloc. destruct (Z.eqb_spec n 0); [lia|].
  destruct (round_size_ok n) as [Hm Hmin]; [lia|].
  pose proof (try_fit st l live (round_size n) Hi Hm ltac:(lia)) as Hfit.
  destruct (seg_take (round_size n) l) as [[b r]|] eqn:Ht.
  - destruct Hfit as (prev & m' & fl' & -> & Htb & Hw & Hk & Hnone & Hok & Hi').
    cbn [mbind option_bind]. rewrite Htb, Hw. do 2 eexists. split_and!; [done|done|].
    right. exists b, r. split_and!; try done; [by eapply seg_take_ge|].
    intros b' r' [= <- <-]. done.
  - rewrite Hfit. cbn [mbind option_bind].
    destruct (grow_spec (Z.to_nat ((((round_size n ⊕ HEADER_SIZE) ⊕ PAGE_SIZE) ⊖ 1) / PAGE_SIZE))
      st l live Hi) as (ok & st2 & l2 & -> & Hi2 & Hk2).
    cbn [mbind option_bind]. destruct ok.
    + pose proof (try_fit st2 l2 live (round_size n) Hi2 Hm ltac:(lia)) as Hfit2.
      destruct (seg_take (round_size n) l2) as [[b r]|] eqn:Ht2.
      * destruct Hfit2 as (prev & m' & fl' & -> & Htb & Hw & Hk & Hnone & Hok & Hi').
        cbn [mbind option_bind]. rewrite Htb, Hw. do 2 eexists.
        split_and!; [done|by eapply keeps_trans|].
        right. exists b, r. split_and!; try done. by eapply seg_take_ge.
      * rewrite Hfit2. cbn [mbind option_bind]. do 2 eexists. split_and!; [done|done|]. left. eauto.
    + do 2 eexists. split_and!; [done|done|]. left. eauto.
Qed.

Lemma kfree_spec st l live a s :
  heap_inv st l live → live !! a = Some s →
  ∃ st', kfree fuel st (a + HEADER_SIZE) = Some st' ∧
    heap_inv st' (put_seg (a, s) l) (delete a live) ∧
    keeps (delete a live) (h_mem st) (h_mem st') ∧
    heap_pages st' = heap_pages st.
Proof.
  intros Hi Ha. destruct (hi_live _ _ _ Hi _ _ Ha) as [Hok Hs].
  assert (disjoint_from (a, s) l) as Hd.
  { intros z Hz Hc. apply (hi_free _ _ _ Hi z Hc). by exists a, s. }
  assert (∀ z, in_seg a s z → ¬ lcovers (delete a live) z) as Hdel.
  { intros z Hz (b & t & [? Hb]%lookup_delete_Some & Hz'). by eapply (hi_disj _ _ _ Hi) in Hz'. }
  unfold kfree. destruct (Z.eqb_spec (a + HEADER_SIZE) 0); [seg_lia|].
  replace (w32 (a + HEADER_SIZE - HEADER_SIZE)) with a
    by (rewrite w32_small by seg_lia; lia).
  destruct (put_spec (h_mem st) (free_list st) l a s)
    as (m1 & fl' & m' & -> & E2 & Hl' & Hf'); [apply Hi|apply Hi|done..|].
  cbn [mbind option_bind]. rewrite E2. cbn [mbind option_bind].
  assert (keeps (delete a live) (h_mem st) m') as Hk.
  { intros z Hz. apply Hf'; [eapply lcovers_addr, lcovers_delete; done|].
    intros [Hc|Hc]%covers_cons; [by eapply Hdel|].
    eapply (hi_free _ _ _ Hi), lcovers_delete; done. }
  eexists. split_and!; [done| |done|done]. split; simpl; try done.
  - apply Hi.
  - apply put_wf; [done|apply Hi|done].
  - intros b t [Hne Hb]%lookup_delete_Some. destruct (hi_live _ _ _ Hi _ _ Hb) as [Hok' <-].
    split; [done|]. eapply keeps_size; [done|by apply lookup_delete_Some|]. seg_lia.
  - intros b t c u z [_ Hb]%lookup_delete_Some [_ Hc]%lookup_delete_Some.
    by eapply (hi_disj _ _ _ Hi).
  - intros z [Hz|Hz]%put_covers; [by apply Hdel| |done|apply Hi|done].
    intros ?%lcovers_delete. by eapply (hi_free _ _ _ Hi).
  - intros pg z Hp Hz. destruct (hi_page _ _ _ Hi pg z Hp Hz) as [Hn1 Hn2].
    rewrite put_covers by (done || apply Hi). split; [|by intros ?%lcovers_delete].
    intros [?|?]; [|done]. apply Hn2. by exists a, s.
  - rewrite put_total. pose proof (hi_total _ _ _ Hi).
    rewrite (live_total_delete a s live Ha) in *. cbn [snd]. lia.
  - apply Hi.
Qed.

(** ** Initialisation *)

(** A page that [heap_add_page] takes comes from the allocator. *)
Lemma add_page_pa st l live pg st' :
  heap_inv st l live → heap_add_page fuel st = Some (pg, st') → pg ≠ 0 →
  pg ∈ pa_free (h_pa st) ∧ pa_free (h_pa st') = pa_free (h_pa st) ∖ {[pg]} ∧ heap_pages st' = heap_pages st + 1.
Proof.
  intros Hi Hadd Hne. unfold heap_add_page in Hadd. destruct (pa_alloc (h_pa st)) as [p pa'] eqn:Ha.
  destruct (Z.eqb_spec p 0) as [->|Hp]; [by injection Hadd as <- _|].
  destruct (pa_alloc_ok _ _ _ (hi_pa _ _ _ Hi) Ha Hp) as (_ & Hin & Hfree).
  destruct (list_insert fuel _ _ _) as [[? ?]|]; [|done]. cbn [mbind option_bind] in Hadd.
  destruct (coalesce_pass _ _ _) as [?|]; [|done]. injection Hadd as <- <-. split_and!; [done..|].
  pose proof (size_remove _ _ Hin). pose proof (hi_count _ _ _ Hi) as [? Hc].
  change TOTAL_PAGES with 4096 in Hc. cbn [heap_pages]. apply w32_small. lia.
Qed.

(** The loop takes a page each round while there is one, and the free list is
    in the pages [U] when it was and the allocator's pages are. *)
Lemma heap_init_loop_spec (U : gset Z) n : ∀ st l,
  heap_inv st l ∅ → pa_free (h_pa st) ⊆ U → (∀ z, covers l z → in_pages U z) →
  ∃ st' l', heap_init_loop fuel n st = Some st' ∧ heap_inv st' l' ∅ ∧
    heap_pages st' = heap_pages st + Z.min (Z.of_nat n) (Z.of_nat (size (pa_free (h_pa st)))) ∧
    pa_free (h_pa st') ⊆ pa_free (h_pa st) ∧
    size (pa_free (h_pa st')) = (size (pa_free (h_pa st)) - n)%nat ∧ (∀ z, covers l' z → in_pages U z).
Proof.
  induction n as [|n IH]; intros st l Hi HU Hl; cbn [heap_init_loop].
  { exists st, l. split_and!; [done|done|lia|done|lia|done]. }
  destruct (add_page_spec st l ∅ Hi) as (pg & st' & Hadd & _ & Hcase). rewrite Hadd. cbn [mbind option_bind].
  destruct Hcase as [[-> ->]|[Hne Hi']].
  - assert (pa_free (h_pa st) = ∅) as Hempty.
    { unfold heap_add_page in Hadd. destruct (pa_alloc (h_pa st)) as [p pa'] eqn:Ha.
      destruct (Z.eqb_spec p 0) as [->|Hp]; [by apply (pa_alloc_fail _ _ (hi_pa _ _ _ Hi) Ha)|].
      destruct (list_insert fuel _ _ _) as [[? ?]|]; [|done]. cbn [mbind option_bind] in Hadd.
      destruct (coalesce_pass _ _ _) as [?|]; [|done]. injection Hadd as ? _. done. }
    destruct (IH st l Hi HU Hl) as (st2 & l2 & ? & ? & Hp & ? & Hs & ?). exists st2, l2.
    rewrite Hempty, size_empty in *. split_and!; try done; lia.
  - destruct (add_page_pa st l ∅ pg st' Hi Hadd Hne) as (Hin & Hfree & Hpg).
    pose proof (size_remove _ _ Hin) as Hsz. rewrite <-Hfree in Hsz.
    destruct (pa_page _ _ (hi_pa _ _ _ Hi) Hin) as (Hal & Hlo & Hhi).
    destruct (IH _ _ Hi') as (st2 & l2 & ? & ? & Hp & ? & Hs & ?); [set_solver| |].
    { intros z [Hz|Hz]%put_covers; [|by apply Hl|seg_lia|apply Hi|].
      - exists pg. split; [by apply HU|]. cbn in Hz. seg_lia.
      - intros z2 Hz2. apply (hi_page _ _ _ Hi pg); [done|]. cbn in Hz2. seg_lia. }
    exists st2, l2. split_and!; [done|done|lia|set_solver|lia|done].
Qed.

Lemma heap_add_page_takes st b st' : pa_inv (h_pa st) → heap_add_page fuel st = Some (b, st') →
  pa_inv (h_pa st') ∧ rtc takes (h_pa st) (h_pa st').
Proof.
  clear Hfuel. unfold heap_add_page. destruct (pa_alloc (h_pa st)) as [p pa'] eqn:Ha. intros Hi Hadd.
  pose proof (takes_alloc _ _ _ Hi Ha) as Ht. destruct (p =? 0); [by injection Hadd as <- <-|].
  destruct (list_insert fuel _ _ _) as [[? ?]|]; [|done]. cbn [mbind option_bind] in Hadd.
  destruct (coalesce_pass _ _ _) as [?|]; [|done]. by injection Hadd as <- <-.
Qed.
Lemma heap_init_loop_takes n : ∀ st st', pa_inv (h_pa st) → heap_init_loop fuel n st = Some st' →
  pa_inv (h_pa st') ∧ rtc takes (h_pa st) (h_pa st').
Proof.
  clear Hfuel. induction n as [|n IH]; intros st st' Hi E; cbn [heap_init_loop] in E; [by injection E as <-|].
  apply bind_Some in E as ([b st1] & Hadd & E). destruct (heap_add_page_takes _ _ _ Hi Hadd) as [Hi1 H1].
  destruct (IH _ _ Hi1 E) as [Hi2 H2]. split; [exact Hi2|]. by etransitivity.
Qed.

(** The heap as the loader leaves it: no list, no pages. *)
Definition heap0 (m : mem) (pa : S) : heap S := Heap m 0 0 pa.

Lemma pa_free_size pa : pa_inv pa → Z.of_nat (size (pa_free pa)) <= TOTAL_PAGES.
Proof.
  intros Hp.
  assert (pa_free pa ⊆ list_to_set ((λ i, i * PAGE_SIZE) <$> seqZ 0 TOTAL_PAGES)) as Hsub.
  { intros a Ha. destruct (pa_page _ _ Hp Ha) as (? & ? & ?). change TOTAL_PAGES with 4096.
    rewrite elem_of_list_to_set, list_elem_of_fmap. exists (a / 4096).
    rewrite elem_of_seqZ. unfold PAGE_SIZE, TOTAL_MEMORY in *. split; zdm. }
  apply subseteq_size in Hsub. rewrite size_list_to_set in Hsub.
  - rewrite length_fmap, length_seqZ in Hsub. change TOTAL_PAGES with 4096 in *. lia.
  - apply NoDup_fmap_2_strong; [|apply NoDup_seqZ]. unfold PAGE_SIZE. intros; lia.
Qed.

Lemma heap0_inv m pa : pa_inv pa → heap_inv (heap0 m pa) [] ∅.
Proof.
  intros Hp. split; simpl; try done.
  - intros z (y & Hy & _). by apply not_elem_of_nil in Hy.
  - intros pg z _ _. split; [by intros ?%covers_nil|].
    intros (a & s & Hl & _). by rewrite lookup_empty in Hl.
  - pose proof (pa_free_size pa Hp). lia.
Qed.

Lemma live_total_nonneg st l live : heap_inv st l live → 0 <= live_total live.
Proof.
  intros Hi. assert (∀ a s, live !! a = Some s → 0 <= s) as Hpos.
  { intros a s Ha. destruct (hi_live _ _ _ Hi _ _ Ha) as [? _]. seg_lia. }
  clear -Hpos. unfold live_total. induction live as [|a s live Ha IH] using map_ind.
  - rewrite map_fold_empty. lia.
  - rewrite map_fold_insert_L by (done || (intros; lia)).
    assert (0 <= s) by (eapply Hpos, lookup_insert_eq).
    unfold HEADER_SIZE at 1. cut (0 <= map_fold (λ _ s t : Z, HEADER_SIZE + s + t) 0 live); [lia|].
    apply IH. intros b t Hb. eapply Hpos. rewrite lookup_insert_ne; [done|congruence].
Qed.

(** ** The payload belongs to the caller *)

Lemma client_write st l live a s x v :
  heap_inv st l live → live !! a = Some s → a + HEADER_SIZE <= x < a + HEADER_SIZE + s →
  heap_inv (Heap (store8 (h_mem st) x v) (free_list st) (heap_pages st) (h_pa st)) l live.
Proof.
  intros Hi Ha Hx. destruct (hi_live _ _ _ Hi _ _ Ha) as [Hok _].
  assert (∀ b, node_ok b → ¬ (b <= x < b + 16) → same_hdr (h_mem st) (store8 (h_mem st) x v) b) as Hsame.
  { intros b Hb Hne. unfold same_hdr, b_size, b_free, b_next.
    split_and!; apply load32_ext; intros i Hi'; apply load8_store8_far; unfold addr_ok;
      unfold node_ok in Hb; seg_lia. }
  split; simpl; try apply Hi.
  - eapply freelist_ext; [|apply Hi]. intros y Hy.
    assert (seg_ok y) by (eapply wf_segs_ok; [|apply Hi|]; done).
    apply Hsame; [by apply seg_ok_node|]. intros ?.
    apply (hi_free _ _ _ Hi x); [exists y; split; [done|seg_lia]|].
    exists a, s. split; [done|]. seg_lia.
  - intros b t Hb. destruct (hi_live _ _ _ Hi _ _ Hb) as [Hok' Hs]. split; [done|].
    rewrite <-Hs. apply Hsame; [apply (seg_ok_node _ Hok')|]. intros ?.
    assert (a = b) as -> by (eapply (hi_disj _ _ _ Hi a s b t x); try done; seg_lia).
    seg_lia.
Qed.
End Inv.
