(* ===== verification/HeapProps.v ===== *)
(** * Kernel heap: properties

    The client-facing theorems on [kmalloc], [kfree], [heap_init] and
    [heap_get_stats], the transition system of a heap and its clients, and
    two behaviours of the code that its comments do not lead one to expect. *)

From stdpp Require Import gmap relations.
From S2P Require Import Prelude Mem Pmm Heap HeapList HeapFit HeapInv.

(** ** A heap and its clients *)

Section Trace.
Context {S : Type} `{PA : PageAllocator S} (fuel : nat).

(** One call of the allocator, or one byte a client writes in a block it
    holds.  The second component records the blocks handed out. *)
Inductive heap_step : heap S * gmap Z Z → heap S * gmap Z Z → Prop :=
  | step_malloc st live n p st' :
      0 <= n < 4294967296 → kmalloc fuel st n = Some (p, st') → p ≠ 0 →
      heap_step (st, live)
        (st', <[p - HEADER_SIZE := b_size (h_mem st') (p - HEADER_SIZE)]> live)
  | step_malloc_null st live n st' :
      0 <= n < 4294967296 → kmalloc fuel st n = Some (0, st') → heap_step (st, live) (st', live)
  | step_free st live a s st' :
      live !! a = Some s → kfree fuel st (a + HEADER_SIZE) = Some st' →
      heap_step (st, live) (st', delete a live)
  | step_write st live a s x v :
      live !! a = Some s → a + HEADER_SIZE <= x < a + HEADER_SIZE + s →
      heap_step (st, live)
        (Heap (store8 (h_mem st) x v) (free_list st) (heap_pages st) (h_pa st), live).

Lemma heap_step_inv st live st' live' l :
  fuel_ok fuel → heap_inv st l live → heap_step (st, live) (st', live') →
  ∃ l', heap_inv st' l' live'.
Proof.
  intros Hf Hi Hstep. inversion Hstep as [? ? n p ? Hn Hk Hp|? ? n ? Hn Hk|? ? a s ? Ha Hk|? ? a s x v Ha Hx]; subst.
  - destruct (decide (n = 0)) as [->|]; [unfold kmalloc in Hk; by injection Hk as <- <-|].
    destruct (kmalloc_spec fuel Hf _ _ _ n Hi) as (p' & st2 & Hk' & _ & Hcase); [lia|].
    rewrite Hk in Hk'. injection Hk' as <- <-.
    destruct Hcase as [[? _]|(b & r & -> & _ & _ & _ & Hi' & _)]; [done|].
    exists r. replace (b.1 + HEADER_SIZE - HEADER_SIZE) with b.1 by lia.
    destruct (hi_live _ _ _ Hi' b.1 b.2) as [_ ->]; [apply lookup_insert_eq|done].
  - destruct (decide (n = 0)) as [->|]; [unfold kmalloc in Hk; injection Hk as <-; eauto|].
    destruct (kmalloc_spec fuel Hf _ _ _ n Hi) as (p' & st2 & Hk' & _ & Hcase); [lia|].
    rewrite Hk in Hk'. injection Hk' as <- <-.
    destruct Hcase as [(_ & _ & ?)|(b & r & E & _ & Hb & _)]; [done|]. exfalso. seg_lia.
  - destruct (kfree_spec fuel Hf _ _ _ a s Hi Ha) as (st2 & Hk' & Hi' & _).
    rewrite Hk in Hk'. injection Hk' as <-. eauto.
  - eexists. by eapply client_write.
Qed.

Lemma heap_steps_inv c c' :
  fuel_ok fuel → rtc heap_step c c' → ∀ l, heap_inv c.1 l c.2 → ∃ l', heap_inv c'.1 l' c'.2.
Proof.
  intros Hf. induction 1 as [|[st live] [st1 live1] c' Hs _ IH]; intros l Hi; [eauto|].
  destruct (heap_step_inv _ _ _ _ _ Hf Hi Hs) as [l1 Hi1]. eauto.
Qed.

Lemma kmalloc_first_fit_spec st l live n b r :
  fuel_ok fuel → heap_inv st l live → 0 < n < 4294967296 → seg_take (round_size n) l = Some (b, r) →
  ∃ st', kmalloc fuel st n = Some (b.1 + HEADER_SIZE, st') ∧
    heap_inv st' r (<[b.1 := b.2]> live) ∧ heap_pages st' = heap_pages st.
Proof.
  intros Hf Hi Hn Ht. destruct (kmalloc_spec fuel Hf st l live n) as (p & st' & Hk & _ & Hcase); [done..|].
  destruct Hcase as [(_ & ? & _)|(b' & r' & -> & _ & _ & _ & Hi' & Hfit)]; [congruence|].
  destruct (Hfit _ _ Ht) as (-> & -> & ? & _). eauto.
Qed.
End Trace.

(** ** Touching blocks *)

(** No two neighbours of the list touch. *)
Fixpoint coalesced (l : list seg) : Prop :=
  match l with
  | x :: ((y :: _) as r) => seg_end x ≠ y.1 ∧ coalesced r
  | _ => True
  end.
(** The block touches a segment below and one above it. *)
Definition between (x : seg) (l : list seg) : Prop :=
  ∃ y z, y ∈ l ∧ z ∈ l ∧ seg_end y = x.1 ∧ seg_end x = z.1.

Lemma pass_coalesced l : coalesced l → seg_pass l = l.
Proof.
  induction l as [|x|x y r _ IH] using seg_pass_ind; [done..|]. intros [Hne Hr]. rewrite seg_pass_cons2.
  destruct (Z.eqb_spec (seg_end x) y.1); [done|]. by rewrite IH.
Qed.
Lemma coalesced_cons x l : coalesced (x :: l) ↔ (∀ y, head l = Some y → seg_end x ≠ y.1) ∧ coalesced l.
Proof. destruct l as [|y l]; cbn; [naive_solver|]. split; [intros [? ?]; split; [by intros ? [= <-]|done]|naive_solver]. Qed.
Lemma pass_head l y : head (seg_pass l) = Some y → ∃ x, head l = Some x ∧ x.1 = y.1.
Proof.
  destruct l as [|x [|z r]]; [done|naive_solver|]. rewrite seg_pass_cons2. intros H. exists x. split; [done|].
  destruct (_ =? _); by injection H as <-.
Qed.
(** The block at the head. *)
Lemma pass_front x l : coalesced l → coalesced (seg_pass (x :: l)).
Proof.
  destruct l as [|y r]; [done|]. intros Hy. rewrite seg_pass_cons2.
  destruct (Z.eqb_spec (seg_end x) y.1) as [E|E].
  - apply coalesced_cons in Hy as [Hh Hr]. rewrite (pass_coalesced r Hr). apply coalesced_cons. split; [|done].
    intros z Hz. specialize (Hh z Hz). unfold seg_end in *. cbn. lia.
  - rewrite (pass_coalesced _ Hy). by apply coalesced_cons; split; [intros ? [= <-]|].
Qed.
Lemma put_coalesced x l : coalesced l → ¬ between x l → coalesced (put_seg x l).
Proof.
  unfold put_seg. induction l as [|y r IH]; intros Hl Hn; [done|]. cbn [seg_insert]. bcase; [by apply pass_front|].
  apply coalesced_cons in Hl as [Hh Hr]. assert (¬ between x r) as Hnr.
  { intros (u & w & Hu & Hw & E). apply Hn. exists u, w. set_solver. }
  destruct (seg_insert x r) as [|h t] eqn:Eh; [done|]. rewrite seg_pass_cons2.
  destruct r as [|h' r']; [injection Eh as <- <-; by bcase|]. cbn [seg_insert] in Eh. bcase_in Eh; injection Eh as <- <-.
  - destruct (Z.eqb_spec (seg_end y) x.1) as [E|E].
    + rewrite (pass_coalesced _ Hr). apply coalesced_cons. split; [|done]. intros ? [= <-] E2. apply Hn.
      exists y, h'. split_and!; [set_solver..|done|]. unfold seg_end in *. cbn in *. lia.
    + apply coalesced_cons. split; [|by apply pass_front]. intros z (u & [= <-] & <-)%pass_head. done.
  - specialize (IH Hr Hnr). specialize (Hh h' eq_refl). destruct (Z.eqb_spec (seg_end y) h'.1); [done|].
    apply coalesced_cons. cbn [seg_insert] in IH. destruct (x.1 <? h'.1) eqn:El; [lia|]. split; [|done].
    intros z (u & [= <-] & <-)%pass_head. done.
Qed.

(** ** A concrete heap *)

Definition boot_heap : heap (list Z) := heap0 ∅ boot_pmm.
#[global] Opaque boot_pmm.

Lemma LIST_FUEL_ok : fuel_ok LIST_FUEL.
Proof. unfold fuel_ok, LIST_FUEL. lia. Qed.

Lemma boot_heap_inv : heap_inv boot_heap [] ∅.
Proof. apply heap0_inv, boot_pmm_inv. Qed.

(** The heap after [kmalloc(100)] on it, and after [heap_init]. *)
Definition boot_heap1 : heap (list Z) :=
  Eval vm_compute in from_option snd boot_heap (kmalloc LIST_FUEL boot_heap 100).
Definition boot_heap16 : heap (list Z) :=
  Eval vm_compute in default boot_heap (heap_init LIST_FUEL boot_heap).

Lemma boot_kmalloc : kmalloc LIST_FUEL boot_heap 100 = Some (0x127010, boot_heap1).
Proof. vm_compute. reflexivity. Qed.
Lemma boot_init : heap_init LIST_FUEL boot_heap = Some boot_heap16.
Proof. vm_compute. reflexivity. Qed.

Definition boot_free1 : list seg := [(0x127080, 3952)].
Definition boot_live1 : gmap Z Z := <[0x127000 := 112]> ∅.

Lemma boot_heap1_inv : heap_inv boot_heap1 boot_free1 boot_live1.
Proof.
  destruct (kmalloc_spec LIST_FUEL LIST_FUEL_ok boot_heap [] ∅ 100) as (p & st & Hk & _ & Hcase);
    [apply boot_heap_inv|lia|].
  rewrite boot_kmalloc in Hk. injection Hk as <- <-.
  destruct Hcase as [[? _]|([a s] & r & E & _ & _ & _ & Hi & _)]; [done|].
  cbn [fst snd] in *. assert (a = 0x127000) as -> by (unfold HEADER_SIZE in E; lia).
  assert (s = 112) as ->.
  { destruct (hi_live _ _ _ Hi 0x127000 s) as [_ <-]; [apply lookup_insert_eq|]. vm_compute. done. }
  assert (r = boot_free1) as ->; [|exact Hi].
  eapply (freelist_inj PAGE_SIZE); [done|apply Hi| |apply Hi|].
  - vm_compute. split_and!; done.
  - vm_compute. done.
Qed.

(** Allocate three blocks of 16 bytes and free the first, the last, and the
    one between them. *)
Definition three_blocks : option (heap (list Z)) :=
  st ← heap_init LIST_FUEL boot_heap;
  '(p1, st) ← kmalloc LIST_FUEL st 16;
  '(p2, st) ← kmalloc LIST_FUEL st 16;
  '(p3, st) ← kmalloc LIST_FUEL st 16;
  st ← kfree LIST_FUEL st p1;
  st ← kfree LIST_FUEL st p3;
  kfree LIST_FUEL st p2.

(** ** Properties *)

(** C6: [kmalloc] is total on a heap that satisfies the invariant and either
    returns NULL, keeping the invariant, for a request of 0 bytes or one that no
    free segment can hold, or a 16-byte-aligned pointer to a block that was
    not allocated and lies apart from every allocated block and free segment;
    the bytes of the blocks already allocated do not change.  The block holds
    the requested number of bytes when that is at most 0xFFFFFFF0; above, where
    rounding up wraps, it holds 16 bytes at least ([kmalloc_wraps]). *)
Theorem kmalloc_correct {S} `{PageAllocator S} fuel (st : heap S) l live n :
  fuel_ok fuel → heap_inv st l live → 0 <= n < 4294967296 →
  ∃ p st', kmalloc fuel st n = Some (p, st') ∧ keeps live (h_mem st) (h_mem st') ∧
    ((p = 0 ∧ (n = 0 ∨ seg_take (round_size n) l = None) ∧ ∃ l', heap_inv st' l' live) ∨
     (∃ a s r, p = a + HEADER_SIZE ∧ p mod ALIGN = 0 ∧ live !! a = None ∧
        (if n <=? 0xFFFFFFF0 then n <= s else 16 <= s) ∧ heap_inv st' r (<[a := s]> live))).
Proof.
  intros Hf Hi Hn. destruct (decide (n = 0)) as [->|].
  { exists 0, st. split_and!; [done|done|]. left. eauto 6. }
  destruct (kmalloc_spec fuel Hf st l live n) as (p & st' & Hk & Hkeep & Hcase); [done|lia|].
  exists p, st'. split_and!; [done..|].
  destruct Hcase as [(? & ? & ?)|(b & r & -> & ? & Hb & Hr & ? & _)]; [left; eauto|right].
  exists b.1, b.2, r. split_and!; try done.
  - unfold ALIGN. seg_lia.
  - destruct (Z.leb_spec n 0xFFFFFFF0); [pose proof (round_size_le n ltac:(lia)); lia|]. revert Hb. seg_lia.
Qed.

Lemma kmalloc_correct_witness :
  ∃ p st', kmalloc LIST_FUEL boot_heap 100 = Some (p, st') ∧ keeps ∅ ∅ (h_mem st').
Proof.
  destruct (kmalloc_correct LIST_FUEL boot_heap [] ∅ 100) as (p & st' & Hk & Hkeep & _);
    [apply LIST_FUEL_ok | apply boot_heap_inv | lia | exists p, st'; split; [exact Hk | exact Hkeep]].
Defined.

(** When a free segment is large enough, [kmalloc] refines the first-fit
    specification [seg_take]: it takes the first such segment in address
    order, splits off the remainder when it can hold a block, and does not ask
    the page allocator for memory. *)
Theorem kmalloc_first_fit {S} `{PageAllocator S} fuel (st : heap S) l live n b r :
  fuel_ok fuel → heap_inv st l live → 0 < n < 4294967296 → seg_take (round_size n) l = Some (b, r) →
  ∃ st', kmalloc fuel st n = Some (b.1 + HEADER_SIZE, st') ∧
    heap_inv st' r (<[b.1 := b.2]> live) ∧ heap_pages st' = heap_pages st.
Proof. apply kmalloc_first_fit_spec. Qed.

Lemma kmalloc_first_fit_witness :
  ∃ st', kmalloc LIST_FUEL boot_heap1 200 = Some (0x127090, st') ∧
    heap_inv st' [(0x127160, 3728)] (<[0x127080 := 208]> boot_live1) ∧
    heap_pages st' = heap_pages boot_heap1.
Proof.
  apply (kmalloc_first_fit LIST_FUEL boot_heap1 boot_free1 boot_live1 200
           (0x127080, 208) [(0x127160, 3728)]);
    [apply LIST_FUEL_ok | apply boot_heap1_inv | lia | reflexivity].
Defined.

(** C7: [kfree] of an allocated block is total and gives its memory back: the
    free list then covers exactly what it covered before and the block, with the
    invariant kept and no byte of the other allocated blocks changed.  When no
    two free blocks touched before and the block has a free neighbour on one side
    at most, it is coalesced with it, and again no two free blocks touch.  (With
    free neighbours on both sides one pass of the code merges only the lower:
    [kfree_leaves_adjacent].) *)
Theorem kfree_correct {S} `{PageAllocator S} fuel (st : heap S) l live a s :
  fuel_ok fuel → heap_inv st l live → live !! a = Some s →
  ∃ st' l', kfree fuel st (a + HEADER_SIZE) = Some st' ∧
    heap_inv st' l' (delete a live) ∧ keeps (delete a live) (h_mem st) (h_mem st') ∧
    (∀ z, covers l' z ↔ covers l z ∨ in_seg a s z) ∧
    (coalesced l → ¬ between (a, s) l → coalesced l').
Proof.
  intros Hf Hi Ha. destruct (kfree_spec fuel Hf st l live a s Hi Ha) as (st' & Hk & Hi' & Hkeep & _).
  exists st', (put_seg (a, s) l). split_and!; [done..| |].
  - intros z. destruct (hi_live _ _ _ Hi _ _ Ha) as [Hok _]. rewrite put_covers; [tauto|done|apply Hi|].
    intros y Hy Hc. apply (hi_free _ _ _ Hi y Hc). by exists a, s.
  - apply put_coalesced.
Qed.

Lemma kfree_correct_witness :
  ∃ st' l', kfree LIST_FUEL boot_heap1 0x127010 = Some st' ∧ heap_inv st' l' (delete 0x127000 boot_live1) ∧ coalesced l'.
Proof.
  destruct (kfree_correct LIST_FUEL boot_heap1 boot_free1 boot_live1 0x127000 112)
    as (st' & l' & E & Hi & _ & _ & Hap); [apply LIST_FUEL_ok | apply boot_heap1_inv | reflexivity|].
  exists st', l'. split; [exact E|]. split; [exact Hi|]. apply Hap; [exact I|].
  intros (y & z & Hy & _ & He & _). revert He. apply list_elem_of_singleton in Hy. subst y. vm_compute. discriminate.
Defined.

(** C5: in every state that any sequence of [kmalloc], [kfree] and client
    writes inside allocated blocks reaches from the heap [heap_init] leaves,
    the blocks handed out are pairwise disjoint, 16-byte aligned, inside
    physical memory, disjoint from the free list and from every page the
    page allocator still owns, and the free and allocated bytes add up to the
    pages taken ([heap_inv]). *)
Theorem heap_reachable {S} `{PageAllocator S} fuel m pa st0 st live :
  fuel_ok fuel → pa_inv pa → heap_init fuel (heap0 m pa) = Some st0 →
  rtc (heap_step fuel) (st0, ∅) (st, live) → ∃ l, heap_inv st l live.
Proof.
  intros Hf Hp Hinit Hsteps.
  destruct (heap_init_loop_spec fuel Hf (pa_free pa) INITIAL_PAGES (heap0 m pa) []) as (st1 & l & H1 & Hi & _);
    [by apply heap0_inv|done|by intros z ?%covers_nil|].
  unfold heap_init in Hinit. rewrite H1 in Hinit. injection Hinit as ->.
  by eapply (heap_steps_inv fuel (st0, ∅) (st, live)).
Qed.

Lemma heap_reachable_witness : ∃ l, heap_inv boot_heap16 l ∅.
Proof.
  apply (heap_reachable LIST_FUEL ∅ boot_pmm boot_heap16 boot_heap16 ∅);
    [apply LIST_FUEL_ok | apply boot_pmm_inv | apply boot_init | apply rtc_refl].
Defined.

(** [heap_init] is total and takes 16 pages, or as many as there are. *)
Theorem heap_init_correct {S} `{PageAllocator S} fuel m pa :
  fuel_ok fuel → pa_inv pa →
  ∃ st l, heap_init fuel (heap0 m pa) = Some st ∧ heap_inv st l ∅ ∧
    heap_pages st = Z.min 16 (Z.of_nat (size (pa_free pa))).
Proof.
  intros Hf Hp.
  destruct (heap_init_loop_spec fuel Hf (pa_free pa) INITIAL_PAGES (heap0 m pa) []) as (st & l & ? & ? & E & _);
    [by apply heap0_inv|done|by intros z ?%covers_nil|]. exists st, l. split_and!; done.
Qed.

Lemma heap_init_correct_witness :
  ∃ st l, heap_init LIST_FUEL boot_heap = Some st ∧ heap_inv st l ∅ ∧
    heap_pages st = Z.min 16 (Z.of_nat (size (pa_free boot_pmm))).
Proof. apply (heap_init_correct LIST_FUEL ∅ boot_pmm); [apply LIST_FUEL_ok | apply boot_pmm_inv]. Defined.

(** [heap_get_stats] is total and exact: [total_bytes] is 4096 times the
    pages taken, [free_bytes] the sum of the sizes of the free segments,
    [num_free_blocks] their number, and [used_bytes] the bytes of the allocated
    blocks with their headers plus the headers of the free ones. *)
Theorem heap_get_stats_correct {S} `{PageAllocator S} fuel (st : heap S) l live :
  fuel_ok fuel → heap_inv st l live →
  heap_get_stats fuel st = Some {|
    total_bytes := PAGE_SIZE * heap_pages st;
    free_bytes := sum_sizes l;
    used_bytes := live_total live + HEADER_SIZE * Z.of_nat (length l);
    num_free_blocks := Z.of_nat (length l);
    num_pages := heap_pages st |}.
Proof.
  intros Hf Hi. pose proof (hi_count _ _ _ Hi) as [Hc0 Hc]. change TOTAL_PAGES with 4096 in Hc.
  pose proof (hi_total _ _ _ Hi) as Ht. rewrite seg_total_sizes in Ht.
  pose proof (wf_segs_fuel _ _ Hf (hi_wf _ _ _ Hi)) as Hlen.
  pose proof (wf_segs_length _ _ (hi_wf _ _ _ Hi) ltac:(done)) as Hlen2.
  change TOTAL_MEMORY with 16777216 in *. unfold PAGE_SIZE, HEADER_SIZE in *.
  pose proof (live_total_nonneg _ _ _ Hi). pose proof (sum_sizes_nonneg _ _ (hi_wf _ _ _ Hi)).
  unfold heap_get_stats.
  rewrite (stats_loop_spec l 4096 _ _ 0 0 fuel) by (apply Hi || done || lia).
  cbn [mbind option_bind]. rewrite !Z.add_0_l. unfold PAGE_SIZE.
  rewrite (w32_small (heap_pages st * 4096)), w32_small by lia. do 2 f_equal; lia.
Qed.

Lemma heap_get_stats_correct_witness :
  heap_get_stats LIST_FUEL boot_heap1 = Some {|
    total_bytes := 4096; free_bytes := 3952; used_bytes := 144;
    num_free_blocks := 1; num_pages := 1 |}.
Proof.
  exact (heap_get_stats_correct LIST_FUEL boot_heap1 boot_free1 boot_live1 LIST_FUEL_ok boot_heap1_inv).
Defined.

(** The rounding of [kmalloc] wraps: a request of more than 0xFFFFFFF0
    bytes is served as a request of 16 bytes. *)
Theorem kmalloc_wraps {S} `{PageAllocator S} fuel (st : heap S) n :
  0xFFFFFFF1 <= n < 4294967296 → kmalloc fuel st n = kmalloc fuel st 16.
Proof.
  intros Hn. unfold kmalloc.
  assert (round_size n = 16) as ->.
  { rewrite round_size_val by lia. unfold w32. zdm. }
  destruct (Z.eqb_spec n 0); [lia|]. reflexivity.
Qed.

Lemma kmalloc_wraps_witness :
  kmalloc LIST_FUEL boot_heap1 0xFFFFFFFF = kmalloc LIST_FUEL boot_heap1 16.
Proof. apply kmalloc_wraps. lia. Defined.

(** One coalescing pass is not enough: after three adjacent blocks are
    freed, the middle one last, the free list holds two segments that touch,
    [0x127000, 0x127040) and the one that starts at 0x127040. *)
Theorem kfree_leaves_adjacent :
  ∃ st x y, three_blocks = Some st ∧
    freelist (h_mem st) (free_list st) [x; y] ∧ seg_end x = y.1.
Proof.
  eexists _, (0x127000, 48), (0x127040, 65456). split; [vm_compute; reflexivity|].
  split; [|reflexivity]. vm_compute. done.
Qed.
