(* ===== verification/Paging.v ===== *)
(** * Paging (kernel/paging.c, kernel/paging.h)

    The two-level page tables, held in physical memory ([Mem.mem]) as the code
    builds them, with the registers the code loads (CR3, CR0) and the TLB that
    [invlpg] and a load of CR3 act on.  Pages for the tables come from any
    [PageAllocator].  The abstract state is the partial function [mapping]
    from virtual addresses to page-table entries, which is what the x86 walks
    to; the theorems say how each operation changes it.

    Pointers are taken for physical addresses, which paging.h promises
    ("physical = virtual under identity mapping"); PagingMmu.v has the same
    functions with every access translated by the tables of the moment and
    proves that they are these as long as the identity mapping holds of the
    pages that the functions reach. *)

From stdpp Require Import gmap relations.
From S2P Require Import Prelude Mem Pmm.

Definition PAGE_PRESENT : Z := 0x01.
Definition PAGE_WRITABLE : Z := 0x02.
Definition PAGE_USER : Z := 0x04.
Definition PD_INDEX (virt : Z) : Z := (virt ≫ 22) .& 0x3FF.
Definition PT_INDEX (virt : Z) : Z := (virt ≫ 12) .& 0x3FF.
Definition PAGE_FRAME (entry : Z) : Z := entry .& 0xFFFFF000.
Definition IDENTITY_MAP_ENTRIES : Z := 4.

(** ** The code *)

(** [p[i]] of a [uint32_t *]. *)
Definition tbl (m : mem) (p i : Z) : Z := load32 m (p + 4 * i).
Definition set_tbl (m : mem) (p i v : Z) : mem := store32 m (p + 4 * i) v.

(** [for (i = 0; i < n; i++) p[i] = f(i);] *)
Definition fill (m : mem) (p : Z) (f : Z → Z) (n : Z) : mem :=
  fold_left (λ m i, set_tbl m p i (f i)) (seqZ 0 n) m.

Definition zero_page (m : mem) (page : Z) : mem := fill m page (λ _, 0) 1024.

Section Paging.
Context {S : Type} `{PA : PageAllocator S}.

Record paging := Paging {
  pg_mem : mem;
  kernel_page_directory : Z;
  cr3 : Z;
  cr0 : Z;
  tlb : gmap Z Z;   (** cached translations: virtual page number to entry *)
  pg_pa : S
}.

Definition set_mem (st : paging) (m : mem) : paging :=
  Paging m (kernel_page_directory st) (cr3 st) (cr0 st) (tlb st) (pg_pa st).
Definition set_pa (st : paging) (pa : S) : paging :=
  Paging (pg_mem st) (kernel_page_directory st) (cr3 st) (cr0 st) (tlb st) pa.

(** The instructions [mov %cr3], [mov %cr0] and [invlpg]. *)
Definition load_cr3 (st : paging) (v : Z) : paging :=
  Paging (pg_mem st) (kernel_page_directory st) v (cr0 st) ∅ (pg_pa st).
Definition load_cr0 (st : paging) (v : Z) : paging :=
  Paging (pg_mem st) (kernel_page_directory st) (cr3 st) v (tlb st) (pg_pa st).
Definition invlpg (st : paging) (virt : Z) : paging :=
  Paging (pg_mem st) (kernel_page_directory st) (cr3 st) (cr0 st)
    (delete (virt / PAGE_SIZE) (tlb st)) (pg_pa st).

(** The body of the identity-mapping loop. *)
Definition init_entry (st : paging) (i : Z) : paging :=
  let '(pt, pa) := pa_alloc (pg_pa st) in
  let m := zero_page (pg_mem st) pt in
  let m := fill m pt
    (λ j, (w32 ((i * 1024 + j) * PAGE_SIZE) .| PAGE_PRESENT) .| PAGE_WRITABLE) 1024 in
  let m := set_tbl m (kernel_page_directory st) i ((pt .| PAGE_PRESENT) .| PAGE_WRITABLE) in
  set_pa (set_mem st m) pa.

Definition paging_init (st : paging) : paging :=
  let '(pd, pa) := pa_alloc (pg_pa st) in
  let st := Paging (zero_page (pg_mem st) pd) pd (cr3 st) (cr0 st) (tlb st) pa in
  let st := fold_left init_entry (seqZ 0 IDENTITY_MAP_ENTRIES) st in
  let st := load_cr3 st (kernel_page_directory st) in
  load_cr0 st (cr0 st .| 0x80000000).

Definition pde (st : paging) (i : Z) : Z := tbl (pg_mem st) (kernel_page_directory st) i.

(** The first step of [paging_map]: a page table for directory entry [i]; false
    when the function returns because there is no page for it. *)
Definition map_table (st : paging) (i : Z) : bool * paging :=
  if negb (c_true (pde st i .& PAGE_PRESENT)) then
    let '(pt, pa) := pa_alloc (pg_pa st) in
    if pt =? 0 then (false, set_pa st pa)
    else
      let m := zero_page (pg_mem st) pt in
      let m := set_tbl m (kernel_page_directory st) i ((pt .| PAGE_PRESENT) .| PAGE_WRITABLE) in
      (true, set_pa (set_mem st m) pa)
  else (true, st).

(** The second: [PAGE_USER] goes to the directory entry too. *)
Definition map_user (st : paging) (i flags : Z) : paging :=
  if c_true (flags .& PAGE_USER) then
    set_mem st (set_tbl (pg_mem st) (kernel_page_directory st) i (pde st i .| PAGE_USER))
  else st.

Definition map_entry (phys flags : Z) : Z :=
  ((phys .& 0xFFFFF000) .| (flags .& 0xFFF)) .| PAGE_PRESENT.

Definition set_pte (st : paging) (i j v : Z) : paging :=
  set_mem st (set_tbl (pg_mem st) (PAGE_FRAME (pde st i)) j v).

Definition paging_map (st : paging) (virt phys flags : Z) : paging :=
  let pd_idx := PD_INDEX virt in
  let pt_idx := PT_INDEX virt in
  let '(ok, st) := map_table st pd_idx in
  if (ok : bool) then
    let st := map_user st pd_idx flags in
    invlpg (set_pte st pd_idx pt_idx (map_entry phys flags)) virt
  else st.

Definition paging_unmap (st : paging) (virt : Z) : paging :=
  let pd_idx := PD_INDEX virt in
  let pt_idx := PT_INDEX virt in
  if negb (c_true (pde st pd_idx .& PAGE_PRESENT)) then st
  else invlpg (set_pte st pd_idx pt_idx 0) virt.

Definition paging_get_phys (st : paging) (virt : Z) : Z :=
  let pd_idx := PD_INDEX virt in
  let pt_idx := PT_INDEX virt in
  if negb (c_true (pde st pd_idx .& PAGE_PRESENT)) then 0
  else
    let pt := PAGE_FRAME (pde st pd_idx) in
    if negb (c_true (tbl (pg_mem st) pt pt_idx .& PAGE_PRESENT)) then 0
    else PAGE_FRAME (tbl (pg_mem st) pt pt_idx) .| (virt .& 0xFFF).

(** ** The specification *)

Definition present (e : Z) : bool := Z.testbit e 0.
Definition user_bit (e : Z) : bool := Z.testbit e 2.

(** The entry the x86 finds for a virtual address. *)
Definition mapping (st : paging) (virt : Z) : option Z :=
  if present (pde st (PD_INDEX virt)) then
    let e := tbl (pg_mem st) (PAGE_FRAME (pde st (PD_INDEX virt))) (PT_INDEX virt) in
    if present e then Some e else None
  else None.

(** Ring 3 may use a page when both levels allow it. *)
Definition user_accessible (st : paging) (virt : Z) : bool :=
  match mapping st virt with
  | Some e => user_bit e && user_bit (pde st (PD_INDEX virt))
  | None => false
  end.

(** Page [f] holds the table of directory entry [i]. *)
Definition table_at (st : paging) (i f : Z) : Prop :=
  0 <= i < 1024 ∧ present (pde st i) = true ∧ PAGE_FRAME (pde st i) = f.

Record paging_inv (st : paging) : Prop := {
  pi_pa : pa_inv (pg_pa st);
  pi_pd : page_ok (kernel_page_directory st);
  pi_pd_used : kernel_page_directory st ∉ pa_free (pg_pa st);
  pi_table i f : table_at st i f →
    page_ok f ∧ f ∉ pa_free (pg_pa st) ∧ f ≠ kernel_page_directory st;
  pi_inj i j f : table_at st i f → table_at st j f → i = j;
  pi_user virt e : u32 virt → mapping st virt = Some e → user_bit e = true →
    user_bit (pde st (PD_INDEX virt)) = true
}.

(** Byte [a] belongs to the directory or to a page table. *)
Definition table_byte (st : paging) (a : Z) : Prop :=
  ∃ p, (p = kernel_page_directory st ∨ ∃ i, table_at st i p) ∧ p <= a < p + PAGE_SIZE.

(** From [st] to [st'] only bytes of tables change, tables stay tables, and
    the registers keep their values. *)
Record pg_frame (st st' : paging) : Prop := {
  fr_bytes a : addr_ok a 1 → ¬ table_byte st' a → load8 (pg_mem st') a = load8 (pg_mem st) a;
  fr_tables i f : table_at st i f → table_at st' i f;
  fr_pd : kernel_page_directory st' = kernel_page_directory st;
  fr_cr3 : cr3 st' = cr3 st;
  fr_cr0 : cr0 st' = cr0 st;
  fr_free : pa_free (pg_pa st') ⊆ pa_free (pg_pa st)
}.

(** The TLB holds nothing the tables do not say. *)
Definition tlb_coherent (st : paging) : Prop :=
  ∀ virt e, u32 virt → tlb st !! (virt / PAGE_SIZE) = Some e → mapping st virt = Some e.
End Paging.
Arguments paging : clear implicits.

(** ** Words of tables *)

Ltac pg_lia :=
  unfold page_ok, addr_ok, u32 in *; change TOTAL_MEMORY with 16777216 in *;
  change PAGE_SIZE with 4096 in *; Z.div_mod_to_equations; lia.

Lemma tbl_set_tbl m p i v q j :
  page_ok p → page_ok q → 0 <= i < 1024 → 0 <= j < 1024 →
  tbl (set_tbl m p i v) q j = if decide (p = q ∧ i = j) then w32 v else tbl m q j.
Proof.
  intros Hp Hq Hi Hj. unfold tbl, set_tbl. case_decide as E.
  - destruct E as [-> ->]. apply load32_store32_eq. pg_lia.
  - apply load32_store32_ne; [pg_lia..|]. destruct (decide (p = q)) as [->|]; [lia|pg_lia].
Qed.

Lemma load8_set_tbl m p i v a :
  page_ok p → 0 <= i < 1024 → addr_ok a 1 → ¬ (p <= a < p + PAGE_SIZE) →
  load8 (set_tbl m p i v) a = load8 m a.
Proof. intros. unfold set_tbl. apply load8_store32_far; pg_lia. Qed.

Lemma fill_list m p f l q j :
  page_ok p → page_ok q → Forall (λ i, 0 <= i < 1024) l → 0 <= j < 1024 →
  tbl (fold_left (λ m i, set_tbl m p i (f i)) l m) q j =
    if decide (p = q ∧ j ∈ l) then w32 (f j) else tbl m q j.
Proof.
  intros Hp Hq Hl Hj. revert m. induction Hl as [|i l Hi Hl IH]; intros m; simpl.
  { rewrite decide_False; [done|]. set_solver. }
  rewrite IH, tbl_set_tbl by done. repeat case_decide; set_solver.
Qed.

Lemma seqZ_index n : n <= 1024 → Forall (λ i, 0 <= i < 1024) (seqZ 0 n).
Proof. intros. apply Forall_forall. intros i ?%elem_of_seqZ. lia. Qed.

Lemma tbl_fill m p f q j :
  page_ok p → page_ok q → 0 <= j < 1024 →
  tbl (fill m p f 1024) q j = if decide (p = q) then w32 (f j) else tbl m q j.
Proof.
  intros. unfold fill. rewrite fill_list by (done || by apply seqZ_index).
  rewrite (decide_ext (p = q ∧ j ∈ seqZ 0 1024) (p = q)); [done|].
  rewrite elem_of_seqZ. naive_solver lia.
Qed.

Lemma load8_fill m p f a :
  page_ok p → addr_ok a 1 → ¬ (p <= a < p + PAGE_SIZE) → load8 (fill m p f 1024) a = load8 m a.
Proof.
  intros Hp Ha Hn. unfold fill. pose proof (seqZ_index 1024 ltac:(done)) as Hl. revert m.
  induction Hl as [|i l Hi Hl IH]; intros m; simpl; [done|].
  by rewrite IH, load8_set_tbl.
Qed.

Lemma tbl_zero_page m p q j :
  page_ok p → page_ok q → 0 <= j < 1024 →
  tbl (zero_page m p) q j = if decide (p = q) then 0 else tbl m q j.
Proof. apply tbl_fill. Qed.
Lemma load8_zero_page m p a :
  page_ok p → addr_ok a 1 → ¬ (p <= a < p + PAGE_SIZE) → load8 (zero_page m p) a = load8 m a.
Proof. apply load8_fill. Qed.
#[global] Opaque fill zero_page.

Lemma tbl_range m p i : u32 (tbl m p i).
Proof. apply load32_range. Qed.
#[export] Hint Resolve tbl_range : magnos.

(** ** Bits of entries *)

Lemma present_land e : c_true (e .& PAGE_PRESENT) = present e.
Proof. apply (land_bit e 0). done. Qed.
Lemma user_land e : c_true (e .& PAGE_USER) = user_bit e.
Proof. apply (land_bit e 2). done. Qed.
#[export] Hint Rewrite present_land user_land : magnos.

Lemma PAGE_FRAME_page p : page_ok p → PAGE_FRAME p = p.
Proof.
  intros Hp. unfold PAGE_FRAME. change 0xFFFFF000 with (4294967296 - 2 ^ 12).
  rewrite land_high_mask by pg_lia. pg_lia.
Qed.

Lemma PAGE_FRAME_low e b : PAGE_FRAME b = 0 → PAGE_FRAME (e .| b) = PAGE_FRAME e.
Proof. intros Hb. unfold PAGE_FRAME in *. rewrite Z.land_lor_distr_l, Hb. apply Z.lor_0_r. Qed.

Lemma aligned_bit p k : p mod 4096 = 0 → 0 <= k < 12 → Z.testbit p k = false.
Proof.
  intros Hp Hk. rewrite <-(Z.mod_pow2_bits_low p 12) by lia.
  change (2 ^ 12) with 4096. by rewrite Hp, Z.testbit_0_l.
Qed.

(** The entry for a fresh table. *)
Definition table_entry (pt : Z) : Z := (pt .| PAGE_PRESENT) .| PAGE_WRITABLE.

Lemma table_entry_spec p :
  page_ok p → u32 (table_entry p) ∧ present (table_entry p) = true ∧
    user_bit (table_entry p) = false ∧ PAGE_FRAME (table_entry p) = p.
Proof.
  intros Hp. unfold table_entry. split_and!.
  - repeat apply lor_u32; [pg_lia|done..].
  - unfold present. by rewrite !Z.lor_spec, !orb_true_r.
  - unfold user_bit. rewrite !Z.lor_spec, aligned_bit; [done|apply Hp|lia].
  - rewrite !PAGE_FRAME_low by done. by apply PAGE_FRAME_page.
Qed.

Lemma map_entry_spec phys flags :
  u32 phys → 0 <= flags → u32 (map_entry phys flags) ∧ present (map_entry phys flags) = true ∧
    user_bit (map_entry phys flags) = user_bit flags ∧
    PAGE_FRAME (map_entry phys flags) = phys - phys mod PAGE_SIZE.
Proof.
  intros Hp Hf. unfold map_entry. split_and!.
  - repeat apply lor_u32; try done; apply land_u32; pg_lia.
  - unfold present. by rewrite !Z.lor_spec, orb_true_r.
  - unfold user_bit. rewrite !Z.lor_spec, !Z.land_spec.
    change (Z.testbit 0xFFFFF000 2) with false. change (Z.testbit 0xFFF 2) with true.
    change (Z.testbit PAGE_PRESENT 2) with false.
    by rewrite andb_false_r, andb_true_r, orb_false_r.
  - rewrite !PAGE_FRAME_low; [|by unfold PAGE_FRAME; rewrite <-Z.land_assoc; apply Z.land_0_r|done].
    unfold PAGE_FRAME. rewrite <-Z.land_assoc. change (0xFFFFF000 .& 0xFFFFF000) with (4294967296 - 2 ^ 12).
    rewrite land_high_mask by (done || lia). done.
Qed.

(** ** Indices of virtual addresses *)

Lemma PD_INDEX_val v : u32 v → PD_INDEX v = v / 4194304.
Proof.
  intros Hv. unfold PD_INDEX. change 0x3FF with (2 ^ 10 - 1).
  rewrite land_low_mask, Z.shiftr_div_pow2 by lia. change (2 ^ 22) with 4194304.
  change (2 ^ 10) with 1024. pg_lia.
Qed.
Lemma PT_INDEX_val v : u32 v → PT_INDEX v = (v / 4096) mod 1024.
Proof.
  intros Hv. unfold PT_INDEX. change 0x3FF with (2 ^ 10 - 1).
  rewrite land_low_mask, Z.shiftr_div_pow2 by lia. done.
Qed.
Lemma PD_INDEX_range v : u32 v → 0 <= PD_INDEX v < 1024.
Proof. intros. rewrite PD_INDEX_val by done. pg_lia. Qed.
Lemma PT_INDEX_range v : u32 v → 0 <= PT_INDEX v < 1024.
Proof. intros. rewrite PT_INDEX_val by done. pg_lia. Qed.
#[export] Hint Resolve PD_INDEX_range PT_INDEX_range : magnos.

Lemma same_page v w :
  u32 v → u32 w → (PD_INDEX v = PD_INDEX w ∧ PT_INDEX v = PT_INDEX w) ↔ v / PAGE_SIZE = w / PAGE_SIZE.
Proof. intros. rewrite !PD_INDEX_val, !PT_INDEX_val by done. split; pg_lia. Qed.

Lemma PAGE_FRAME_offset e v : u32 e → PAGE_FRAME e .| (v .& 0xFFF) = e - e mod 4096 + v mod 4096.
Proof.
  intros He. unfold PAGE_FRAME. change 0xFFFFF000 with (4294967296 - 2 ^ 12).
  change 0xFFF with (2 ^ 12 - 1). rewrite land_high_mask, land_low_mask by (done || lia).
  apply (lor_low 12); change (2 ^ 12) with 4096; pg_lia.
Qed.
