(* ===== verification/PagingProps.v ===== *)
(** * Paging: the invariant and the operations

    Each step of [paging_map], [paging_unmap] and [paging_init] on the
    abstract [mapping], with the invariant that the directory and the page
    tables are distinct pages the allocator does not own. *)

From stdpp Require Import gmap relations.
From S2P Require Import Prelude Mem Pmm Paging.

Section Steps.
Context {S : Type} `{PA : PageAllocator S}.
Implicit Types st : paging S.

Lemma pde_set_pd st i e k :
  page_ok (kernel_page_directory st) → 0 <= i < 1024 → 0 <= k < 1024 → u32 e →
  pde (set_mem st (set_tbl (pg_mem st) (kernel_page_directory st) i e)) k =
    if decide (i = k) then e else pde st k.
Proof.
  intros. unfold pde. cbn [pg_mem set_mem kernel_page_directory].
  rewrite tbl_set_tbl by done. rewrite w32_small by done.
  repeat case_decide; naive_solver.
Qed.

Lemma table_at_pde st st' i f :
  pde st' i = pde st i → table_at st' i f ↔ table_at st i f.
Proof. unfold table_at. by intros ->. Qed.

Lemma table_at_intro st i :
  0 <= i < 1024 → present (pde st i) = true → table_at st i (PAGE_FRAME (pde st i)).
Proof. done. Qed.

Lemma table_byte_pd st a :
  ¬ table_byte st a → ¬ (kernel_page_directory st <= a < kernel_page_directory st + PAGE_SIZE).
Proof. intros H ?. apply H. exists (kernel_page_directory st). auto. Qed.
Lemma table_byte_pt st i f a : table_at st i f → ¬ table_byte st a → ¬ (f <= a < f + PAGE_SIZE).
Proof. intros Ht H ?. apply H. exists f. eauto. Qed.

Lemma pg_frame_refl st : pg_frame st st.
Proof. split; auto. Qed.
Lemma pg_frame_trans st1 st2 st3 : pg_frame st1 st2 → pg_frame st2 st3 → pg_frame st1 st3.
Proof.
  intros [Hb Ht Hp H3 H0 Hf] [Hb' Ht' Hp' H3' H0' Hf']. split; try congruence; eauto; [|set_solver].
  intros a Ha Hn. rewrite Hb' by done. apply Hb; [done|].
  intros (p & [->|[i Hi]] & Hr); apply Hn; [exists (kernel_page_directory st2)|exists p]; eauto.
Qed.

(** A mapping seen through the table that holds it. *)
Lemma mapping_table st v f :
  table_at st (PD_INDEX v) f →
  mapping st v = let e := tbl (pg_mem st) f (PT_INDEX v) in if present e then Some e else None.
Proof. unfold mapping. by intros (_ & -> & ->). Qed.
Lemma mapping_absent st v : present (pde st (PD_INDEX v)) = false → mapping st v = None.
Proof. unfold mapping. by intros ->. Qed.

(** Two states with the same directory and the same words in its tables have
    the same mappings. *)
Lemma mapping_ext st st' v :
  pde st' (PD_INDEX v) = pde st (PD_INDEX v) →
  (present (pde st (PD_INDEX v)) = true →
   tbl (pg_mem st') (PAGE_FRAME (pde st (PD_INDEX v))) (PT_INDEX v) =
   tbl (pg_mem st) (PAGE_FRAME (pde st (PD_INDEX v))) (PT_INDEX v)) →
  mapping st' v = mapping st v.
Proof. unfold mapping. intros ->. destruct (present _); [|done]. by intros ->. Qed.

(** *** Writing an entry of a page table *)

Section SetPte.
Context (st : paging S) (i j v f : Z).
Context (Hi : paging_inv st) (Hf : table_at st i f) (Hj : 0 <= j < 1024) (Hv : u32 v).
Let st' := set_pte st i j v.

Lemma set_pte_pde k : 0 <= k < 1024 → pde st' k = pde st k.
Proof.
  intros Hk. destruct (pi_table st Hi i f Hf) as (Hp & _ & Hne). destruct Hf as (_ & _ & E).
  unfold st', set_pte, pde. cbn [pg_mem set_mem kernel_page_directory]. fold (pde st i). rewrite E.
  rewrite tbl_set_tbl by (done || apply Hi). rewrite decide_False; naive_solver.
Qed.

Lemma set_pte_mapping w :
  u32 w → mapping st' w =
    if decide (PD_INDEX w = i ∧ PT_INDEX w = j) then (if present v then Some v else None)
    else mapping st w.
Proof.
  intros Hw. destruct (pi_table st Hi i f Hf) as (Hp & _ & Hne). pose proof Hf as (Hi0 & Hpr & E).
  unfold mapping. rewrite set_pte_pde by auto with magnos.
  destruct (present (pde st (PD_INDEX w))) eqn:Hpw; [|rewrite decide_False; [done|intros [Ew _]; congruence]].
  assert (table_at st (PD_INDEX w) (PAGE_FRAME (pde st (PD_INDEX w)))) as Htw
    by auto using table_at_intro with magnos.
  destruct (pi_table st Hi _ _ Htw) as (Hpw' & _ & _).
  unfold st', set_pte. cbn [pg_mem set_mem]. rewrite E, tbl_set_tbl, w32_small by auto with magnos.
  destruct (decide (PD_INDEX w = i ∧ PT_INDEX w = j)) as [[-> ->]|Hne']; [by rewrite decide_True|].
  rewrite decide_False; [done|]. intros [Ef ->]. apply Hne'. split; [|done].
  apply (pi_inj st Hi _ _ f); [by rewrite Ef|done].
Qed.

Lemma set_pte_table_at k g : table_at st' k g ↔ table_at st k g.
Proof.
  split; intros Hk; (eapply table_at_pde; [|exact Hk]); [symmetry|]; apply set_pte_pde; apply Hk.
Qed.

Lemma set_pte_inv :
  (present v = true → user_bit v = true → user_bit (pde st i) = true) → paging_inv st'.
Proof.
  intros Hu. split; try apply Hi.
  - intros k g ?%set_pte_table_at. by apply (pi_table st Hi k).
  - intros k l g ?%set_pte_table_at ?%set_pte_table_at. by apply (pi_inj st Hi k l g).
  - intros w e Hw. rewrite set_pte_mapping, set_pte_pde by auto with magnos.
    case_decide as Hd; [|by apply (pi_user st Hi)].
    destruct Hd as [-> _]. destruct (present v); [|done]. intros [= <-]. auto.
Qed.

Lemma set_pte_frame : pg_frame st st'.
Proof.
  destruct (pi_table st Hi i f Hf) as (Hp & _ & Hne). split; try done.
  - intros a Ha Hn. pose proof Hf as (_ & _ & E). unfold st', set_pte. cbn [pg_mem set_mem]. rewrite E.
    apply load8_set_tbl; try done. eapply table_byte_pt; [|exact Hn]. by apply set_pte_table_at.
  - intros k g. by rewrite set_pte_table_at.
Qed.
End SetPte.

(** *** Giving the directory entry the user bit *)

Lemma map_user_spec st i flags f :
  paging_inv st → table_at st i f →
  let st' := map_user st i flags in
  paging_inv st' ∧ pg_frame st st' ∧ table_at st' i f ∧
  (∀ w, u32 w → mapping st' w = mapping st w) ∧
  (user_bit flags = true → user_bit (pde st' i) = true).
Proof.
  intros Hi Hf. unfold map_user. rewrite user_land.
  destruct (user_bit flags); [|by split_and!; auto using pg_frame_refl].
  set (e := pde st i .| PAGE_USER). set (st' := set_mem _ _). pose proof Hf as (Hi0 & Hpr & E).
  assert (u32 e) as He by (apply lor_u32; [apply tbl_range|done]).
  assert (∀ k, 0 <= k < 1024 → pde st' k = if decide (i = k) then e else pde st k) as Hpde.
  { intros. apply pde_set_pd; try done. apply Hi. }
  assert (∀ k, 0 <= k < 1024 → present (pde st' k) = present (pde st k) ∧
            PAGE_FRAME (pde st' k) = PAGE_FRAME (pde st k)) as Hsame.
  { intros k Hk. rewrite Hpde by done. case_decide as Hd; [subst k|done]. unfold e. split.
    - unfold present. rewrite Z.lor_spec. apply orb_false_r.
    - by apply PAGE_FRAME_low. }
  assert (∀ k g, table_at st' k g ↔ table_at st k g) as Htab.
  { intros k g. unfold table_at. split; intros (Hk & ?); destruct (Hsame k Hk) as [-> ->] || destruct (Hsame k Hk) as [<- <-]; auto. }
  assert (∀ w, u32 w → mapping st' w = mapping st w) as Hmap.
  { intros w Hw. unfold mapping. destruct (Hsame (PD_INDEX w)) as [-> ->]; [auto with magnos|].
    destruct (present (pde st (PD_INDEX w))) eqn:Hp; [|done].
    destruct (pi_table st Hi (PD_INDEX w) (PAGE_FRAME (pde st (PD_INDEX w)))) as (Hpg & _ & Hne);
      [auto using table_at_intro with magnos|].
    unfold st'. cbn [pg_mem set_mem]. rewrite tbl_set_tbl by (apply Hi || auto with magnos).
    rewrite decide_False; [done|]. naive_solver. }
  split_and!; try done.
  - split; try apply Hi.
    + intros k g ?%Htab. by apply (pi_table st Hi k).
    + intros k l g ?%Htab ?%Htab. by apply (pi_inj st Hi k l g).
    + intros w x Hw. rewrite Hmap, Hpde by auto with magnos. intros Hm Hu.
      pose proof (pi_user st Hi w x Hw Hm Hu). case_decide; [|done].
      unfold e, user_bit. rewrite Z.lor_spec. apply orb_true_r.
  - split; try done; [|intros; by apply Htab].
    intros a Ha Hn. unfold st'. cbn [pg_mem set_mem].
    apply load8_set_tbl; try done; [apply Hi|]. by apply table_byte_pd in Hn.
  - by apply Htab.
  - intros _. rewrite Hpde, decide_True by done. unfold e, user_bit. rewrite Z.lor_spec. apply orb_true_r.
Qed.

(** *** A new page table *)

Section AddTable.
Context (st : paging S) (i pt : Z) (pa' : S) (m1 : mem) (g : Z → Z).
Context (Hi : paging_inv st) (Hi0 : 0 <= i < 1024) (Habs : present (pde st i) = false).
Context (Ha : pa_alloc (pg_pa st) = (pt, pa')) (Hpt0 : pt ≠ 0).
Context (Hm1 : ∀ q j, page_ok q → 0 <= j < 1024 →
  tbl m1 q j = if decide (pt = q) then g j else tbl (pg_mem st) q j).
Context (Hm1' : ∀ a, addr_ok a 1 → ¬ (pt <= a < pt + PAGE_SIZE) → load8 m1 a = load8 (pg_mem st) a).
Context (Hg : ∀ j, 0 <= j < 1024 → user_bit (g j) = false).
Let st' := set_pa (set_mem st (set_tbl m1 (kernel_page_directory st) i (table_entry pt))) pa'.

Lemma add_table_page :
  page_ok pt ∧ pa_inv pa' ∧ pt ∈ pa_free (pg_pa st) ∧ pa_free pa' = pa_free (pg_pa st) ∖ {[pt]}.
Proof.
  destruct (pa_alloc_ok (pg_pa st) pt pa') as (? & Hin & ?); [apply Hi|done..|].
  split; [|done]. apply (pa_page (pg_pa st)); [apply Hi|done].
Qed.

Lemma add_table_pd_ne : kernel_page_directory st ≠ pt.
Proof. destruct add_table_page as (_ & _ & Hin & _). pose proof (pi_pd_used st Hi). set_solver. Qed.

Lemma add_table_pde k :
  0 <= k < 1024 → pde st' k = if decide (i = k) then table_entry pt else pde st k.
Proof.
  intros Hk. destruct add_table_page as (Hp & _). pose proof add_table_pd_ne.
  unfold st', pde. cbn [pg_mem set_mem set_pa kernel_page_directory].
  rewrite tbl_set_tbl by (apply Hi || done).
  rewrite w32_small by (apply table_entry_spec; done).
  rewrite Hm1 by (apply Hi || done). rewrite (decide_False (P := pt = _)) by congruence.
  repeat case_decide; naive_solver.
Qed.

Lemma add_table_at k f : table_at st' k f ↔ (k = i ∧ f = pt) ∨ table_at st k f.
Proof.
  destruct add_table_page as (Hp & _). destruct (table_entry_spec pt Hp) as (_ & Hpr & _ & Hfr).
  unfold table_at. split.
  - intros (Hk & H1 & H2). rewrite add_table_pde in H1, H2 by done. case_decide; [left|right]; auto.
    split; congruence.
  - intros [[-> ->]|(Hk & H1 & H2)]; rewrite add_table_pde by done; case_decide; auto; congruence.
Qed.

Lemma add_table_fresh k : ¬ table_at st k pt.
Proof.
  intros Hk. destruct (pi_table st Hi k pt Hk) as (_ & Hn & _).
  destruct add_table_page as (_ & _ & Hin & _). done.
Qed.

Lemma add_table_mapping w :
  u32 w → mapping st' w =
    if decide (PD_INDEX w = i) then (let e := g (PT_INDEX w) in if present e then Some e else None)
    else mapping st w.
Proof.
  intros Hw. destruct add_table_page as (Hp & _). pose proof add_table_pd_ne as Hne.
  assert (∀ q, page_ok q → q ≠ kernel_page_directory st →
            tbl (pg_mem st') q (PT_INDEX w) = tbl m1 q (PT_INDEX w)) as Hq.
  { intros q Hq Hqn. unfold st'. cbn [pg_mem set_mem set_pa].
    rewrite tbl_set_tbl by (apply Hi || auto with magnos).
    rewrite decide_False; [done|]. intros [? _]. congruence. }
  case_decide as Hd.
  - rewrite (mapping_table st' w pt) by (apply add_table_at; rewrite Hd; auto).
    rewrite Hq by congruence. by rewrite Hm1, decide_True by auto with magnos.
  - apply mapping_ext.
    { rewrite add_table_pde by auto with magnos. by rewrite decide_False by congruence. }
    intros Hpr. pose proof (table_at_intro st (PD_INDEX w) ltac:(auto with magnos) Hpr) as Ht.
    destruct (pi_table st Hi _ _ Ht) as (Hpg & _ & Hpn). rewrite Hq by done.
    rewrite Hm1 by auto with magnos. rewrite decide_False; [done|].
    intros E. rewrite <-E in Ht. by apply add_table_fresh in Ht.
Qed.

Lemma add_table_inv : paging_inv st'.
Proof.
  destruct add_table_page as (Hp & Hpa & Hin & Hfree). pose proof add_table_pd_ne as Hne.
  pose proof (pi_pd_used st Hi). split; try apply Hi.
  - done.
  - unfold st'. cbn [pg_pa set_pa kernel_page_directory set_mem]. rewrite Hfree. set_solver.
  - intros k f [[-> ->]|Hk]%add_table_at; unfold st'; cbn [pg_pa set_pa kernel_page_directory set_mem]; rewrite Hfree.
    + split_and!; [apply Hp..|set_solver|congruence].
    + destruct (pi_table st Hi k f Hk) as (? & ? & ?). set_solver.
  - intros k l f [[-> ->]|Hk]%add_table_at [[-> Ef]|Hl]%add_table_at; try done.
    + by apply add_table_fresh in Hl.
    + subst f. by apply add_table_fresh in Hk.
    + by apply (pi_inj st Hi k l f).
  - intros w e Hw. rewrite add_table_mapping, add_table_pde by auto with magnos.
    case_decide as Hd.
    + intros Hm Hu. pose proof (Hg (PT_INDEX w) ltac:(auto with magnos)) as Hgu. cbv zeta in Hm.
      destruct (present (g _)); [|done]. injection Hm as <-. congruence.
    + rewrite decide_False by congruence. by apply (pi_user st Hi).
Qed.

Lemma add_table_frame : pg_frame st st'.
Proof.
  destruct add_table_page as (Hp & Hpa & Hin & Hfree). split; try done.
  - intros a Haok Hn. unfold st'. cbn [pg_mem set_mem set_pa].
    pose proof (table_byte_pd _ _ Hn) as Hn1. change (kernel_page_directory st') with (kernel_page_directory st) in Hn1.
    rewrite load8_set_tbl by (done || apply Hi). apply Hm1'; [done|].
    eapply (table_byte_pt st' i); [|exact Hn]. apply add_table_at. auto.
  - intros k f Hk. apply add_table_at. auto.
  - unfold st'. cbn [pg_pa set_pa]. set_solver.
Qed.
End AddTable.

Lemma map_table_spec st i :
  paging_inv st → 0 <= i < 1024 →
  ∃ ok st', map_table st i = (ok, st') ∧ paging_inv st' ∧ pg_frame st st' ∧ tlb st' = tlb st ∧
    (∀ w, u32 w → mapping st' w = mapping st w) ∧
    (if (ok : bool) then ∃ f, table_at st' i f
     else st' = st ∧ present (pde st i) = false ∧ pa_free (pg_pa st) = ∅).
Proof.
  intros Hi Hi0. unfold map_table. rewrite present_land.
  destruct (present (pde st i)) eqn:Hp; cbn [negb].
  { exists true, st. split_and!; try done. eauto using table_at_intro. }
  destruct (pa_alloc (pg_pa st)) as [pt pa'] eqn:Ha. destruct (Z.eqb_spec pt 0) as [->|Hpt].
  - destruct (pa_alloc_fail (pg_pa st) pa') as [-> Hf]; [apply Hi|done|].
    exists false, st. replace (set_pa st (pg_pa st)) with st by (by destruct st).
    split_and!; done.
  - assert (page_ok pt) as Hpg by (by destruct (add_table_page st pt pa' Hi Ha Hpt)).
    assert (∀ q j, page_ok q → 0 <= j < 1024 → tbl (zero_page (pg_mem st) pt) q j =
             if decide (pt = q) then 0 else tbl (pg_mem st) q j) as Hz
      by (intros; by apply tbl_zero_page).
    assert (∀ a, addr_ok a 1 → ¬ (pt <= a < pt + PAGE_SIZE) →
             load8 (zero_page (pg_mem st) pt) a = load8 (pg_mem st) a) as Hz'
      by (intros; by apply load8_zero_page).
    eexists true, _. split; [done|]. split_and!.
    + by eapply (add_table_inv st i pt pa' _ (λ _, 0)).
    + eapply (add_table_frame st i pt pa' _ (λ _, 0)); done.
    + done.
    + intros w Hw. erewrite (add_table_mapping st i pt pa' _ (λ _, 0)) by done.
      case_decide as Hd; [|done]. symmetry. apply mapping_absent. by rewrite Hd.
    + exists pt. eapply (add_table_at st i pt pa' _ (λ _, 0)); auto.
Qed.

(** *** The identity map *)

Lemma table_entry_val p : p mod 4096 = 0 → table_entry p = p + 3.
Proof.
  intros Hp. unfold table_entry. rewrite <-Z.lor_assoc. change (PAGE_PRESENT .| PAGE_WRITABLE) with 3.
  apply (lor_low 12); [done..|]. exact Hp.
Qed.

Lemma table_entry_bits p :
  p mod 4096 = 0 → present (table_entry p) = true ∧ user_bit (table_entry p) = false.
Proof.
  intros Hp. unfold present, user_bit, table_entry. rewrite !Z.lor_spec. split.
  - by rewrite orb_true_r.
  - by rewrite aligned_bit.
Qed.

Lemma pa_alloc_some (pa : S) :
  pa_inv pa → (0 < size (pa_free pa))%nat →
  ∃ pt pa', pa_alloc pa = (pt, pa') ∧ pt ≠ 0 ∧ size (pa_free pa') = (size (pa_free pa) - 1)%nat.
Proof.
  intros Hp Hs. destruct (pa_alloc pa) as [pt pa'] eqn:Ha. exists pt, pa'. split; [done|].
  assert (pt ≠ 0) as Hn.
  { intros ->. destruct (pa_alloc_fail _ _ Hp Ha) as [_ E]. rewrite E, size_empty in Hs. lia. }
  split; [done|]. destruct (pa_alloc_ok _ _ _ Hp Ha Hn) as (_ & Hin & ->).
  rewrite size_difference by set_solver. by rewrite size_singleton.
Qed.

(** The state of [paging_init] after [k] page tables. *)
Record init_state (k : Z) (st : paging S) : Prop := {
  is_inv : paging_inv st;
  is_mapped v : u32 v → v < 4194304 * k → mapping st v = Some (v - v mod PAGE_SIZE + 3);
  is_unmapped v : u32 v → 4194304 * k <= v → mapping st v = None;
  is_pde i : k <= i < 1024 → present (pde st i) = false
}.

Lemma init_state_zero pd pa' m c3 c0 t (pa : S) :
  pa_inv pa → pa_alloc pa = (pd, pa') → pd ≠ 0 →
  init_state 0 (Paging (zero_page m pd) pd c3 c0 t pa').
Proof.
  intros Hp Ha Hn. destruct (pa_alloc_ok _ _ _ Hp Ha Hn) as (Hp' & Hin & Hfree).
  assert (page_ok pd) as Hpd by (by apply (pa_page pa)).
  set (st := Paging _ _ _ _ _ _).
  assert (∀ i, 0 <= i < 1024 → pde st i = 0) as Hz.
  { intros i Hi. unfold pde, st. cbn [pg_mem kernel_page_directory].
    by rewrite tbl_zero_page, decide_True by done. }
  assert (∀ v, u32 v → mapping st v = None) as Hm.
  { intros v Hv. apply mapping_absent. by rewrite Hz by auto with magnos. }
  assert (∀ i f, ¬ table_at st i f) as Ht.
  { intros i f (Hi & Hpr & _). by rewrite Hz in Hpr. }
  split; [|unfold u32; lia|auto|intros i Hi; by rewrite Hz].
  split; cbn [pg_pa kernel_page_directory st]; [exact Hp'|exact Hpd|..].
  - rewrite Hfree. set_solver.
  - intros i f ?%Ht. done.
  - intros i j f ?%Ht. done.
  - intros v e Hv. by rewrite Hm.
Qed.

Lemma init_entry_spec k st :
  init_state k st → 0 <= k < 4 → (0 < size (pa_free (pg_pa st)))%nat →
  let st' := init_entry st k in
  init_state (k + 1) st' ∧ pg_frame st st' ∧
  size (pa_free (pg_pa st')) = (size (pa_free (pg_pa st)) - 1)%nat ∧
  (∀ i f, table_at st' i f → table_at st i f ∨ f ∈ pa_free (pg_pa st)).
Proof.
  intros Hs Hk Hfree. pose proof (is_inv _ _ Hs) as Hi.
  destruct (pa_alloc_some (pg_pa st) (pi_pa _ Hi) Hfree) as (pt & pa' & Ha & Hpt & Hsz).
  assert (page_ok pt) as Hpg by (by destruct (add_table_page st pt pa' Hi Ha Hpt)).
  unfold init_entry. rewrite Ha. cbv zeta. fold (table_entry pt).
  set (g := λ j, table_entry (w32 ((k * 1024 + j) * PAGE_SIZE))).
  set (m1 := fill _ pt _ 1024).
  assert (∀ j, 0 <= j < 1024 → g j = (k * 1024 + j) * 4096 + 3) as Hg.
  { intros j Hj. unfold g. change PAGE_SIZE with 4096. rewrite w32_small by lia.
    apply table_entry_val. apply Z.mod_mul. lia. }
  assert (∀ j, 0 <= j < 1024 → present (g j) = true ∧ user_bit (g j) = false) as Hbits.
  { intros j Hj. apply table_entry_bits. change PAGE_SIZE with 4096. rewrite w32_small by lia.
    apply Z.mod_mul. lia. }
  assert (∀ q j, page_ok q → 0 <= j < 1024 →
    tbl m1 q j = if decide (pt = q) then g j else tbl (pg_mem st) q j) as Hm1.
  { intros q j Hq Hj. unfold m1. rewrite tbl_fill, tbl_zero_page by done.
    case_decide; [|done]. change (_ .| PAGE_WRITABLE) with (g j). rewrite Hg by done. apply w32_small. lia. }
  assert (∀ a, addr_ok a 1 → ¬ (pt <= a < pt + PAGE_SIZE) → load8 m1 a = load8 (pg_mem st) a) as Hm1'.
  { intros. unfold m1. by rewrite load8_fill, load8_zero_page. }
  assert (0 <= k < 1024) as Hk' by lia.
  pose proof (is_pde _ _ Hs k ltac:(lia)) as Habs.
  assert (∀ j, 0 <= j < 1024 → user_bit (g j) = false) as Hgu by (intros; by apply Hbits).
  pose proof (λ w, add_table_mapping st k pt pa' m1 g Hi Hk' Habs Ha Hpt Hm1 Hm1' Hgu w) as Hmap.
  pose proof (λ w, add_table_pde st k pt pa' m1 g Hi Hk' Habs Ha Hpt Hm1 Hm1' Hgu w) as Hpde.
  split_and!; [split| |done|].
  - by apply (add_table_inv st k pt pa' m1 g).
  - intros v Hv Hlt. rewrite Hmap by done. rewrite PD_INDEX_val, PT_INDEX_val by done.
    case_decide as Hd.
    + cbv zeta. destruct (Hbits ((v / 4096) mod 1024)) as [-> _]; [zdm|].
      rewrite Hg by zdm. f_equal. pg_lia.
    + apply (is_mapped _ _ Hs); [done|]. pg_lia.
  - intros v Hv Hle. rewrite Hmap by done. rewrite PD_INDEX_val by done.
    rewrite decide_False by pg_lia. apply (is_unmapped _ _ Hs); [done|lia].
  - intros i Hr. rewrite Hpde by lia. rewrite decide_False by lia. apply (is_pde _ _ Hs). lia.
  - by apply (add_table_frame st k pt pa' m1 g).
  - intros i f (Hr & Hpr & Hf). rewrite Hpde in Hpr, Hf by done. case_decide; [right|by left].
    destruct (add_table_page st pt pa' Hi Ha Hpt) as (_ & _ & Hin & _). rewrite <-Hf.
    destruct (table_entry_spec pt Hpg) as (_ & _ & _ & ->). done.
Qed.

Lemma init_loop_spec n : ∀ k st,
  init_state k st → 0 <= k → k + Z.of_nat n <= 4 → (n <= size (pa_free (pg_pa st)))%nat →
  let st' := fold_left init_entry (seqZ k (Z.of_nat n)) st in
  init_state (k + Z.of_nat n) st' ∧ pg_frame st st' ∧
  size (pa_free (pg_pa st')) = (size (pa_free (pg_pa st)) - n)%nat ∧
  (∀ i f, table_at st' i f → table_at st i f ∨ f ∈ pa_free (pg_pa st)).
Proof.
  induction n as [|n IH]; intros k st Hs H0 Hn Hfree.
  { rewrite Z.add_0_r. split_and!; [done|apply pg_frame_refl|by rewrite Nat.sub_0_r|by left]. }
  rewrite seqZ_cons by lia. cbn [fold_left].
  destruct (init_entry_spec k st Hs) as (Hs' & Hfr & Hsz & Ht); [lia..|].
  replace (Z.pred (Z.of_nat (Datatypes.S n))) with (Z.of_nat n) by lia.
  destruct (IH (Z.succ k) (init_entry st k)) as (Hs2 & Hfr2 & Hsz2 & Ht2); [exact Hs'|lia..|].
  replace (k + Z.of_nat (Datatypes.S n)) with (Z.succ k + Z.of_nat n) by lia.
  split_and!; [done|by eapply pg_frame_trans|lia|].
  intros i f [Hta|Hin]%Ht2; [by apply Ht|right]. by apply (fr_free _ _ Hfr).
Qed.

(** Pages are taken from the allocator, one for the directory and one for each
    table. *)
Lemma init_loop_takes l : ∀ st : paging S, pa_inv (pg_pa st) →
  pa_inv (pg_pa (fold_left init_entry l st)) ∧ rtc takes (pg_pa st) (pg_pa (fold_left init_entry l st)).
Proof.
  induction l as [|i l IH]; intros st Hi; cbn [fold_left]; [done|].
  assert (pa_inv (pg_pa (init_entry st i)) ∧ rtc takes (pg_pa st) (pg_pa (init_entry st i))) as [Hi1 H1].
  { unfold init_entry. destruct (pa_alloc (pg_pa st)) as [pt pa'] eqn:Ha. exact (takes_alloc _ _ _ Hi Ha). }
  destruct (IH _ Hi1) as [Hi2 H2]. split; [exact Hi2|]. by etransitivity.
Qed.
Lemma paging_init_takes (st : paging S) : pa_inv (pg_pa st) → rtc takes (pg_pa st) (pg_pa (paging_init st)).
Proof.
  intros Hi. unfold paging_init. destruct (pa_alloc (pg_pa st)) as [pd pa'] eqn:Ha.
  destruct (takes_alloc _ _ _ Hi Ha) as [Hi1 H1]. set (st0 := Paging (zero_page _ _) _ _ _ _ _).
  destruct (init_loop_takes (seqZ 0 IDENTITY_MAP_ENTRIES) st0 Hi1) as [_ H2]. etransitivity; [exact H1|exact H2].
Qed.

Lemma paging_init_spec st :
  pa_inv (pg_pa st) → (5 <= size (pa_free (pg_pa st)))%nat →
  let st' := paging_init st in
  init_state 4 st' ∧ cr3 st' = kernel_page_directory st' ∧
  cr0 st' = cr0 st .| 0x80000000 ∧ tlb st' = ∅ ∧
  (∀ a, addr_ok a 1 → ¬ table_byte st' a → load8 (pg_mem st') a = load8 (pg_mem st) a) ∧
  pa_free (pg_pa st') ⊆ pa_free (pg_pa st) ∧
  size (pa_free (pg_pa st')) = (size (pa_free (pg_pa st)) - 5)%nat ∧
  (∀ a, table_byte st' a → in_pages (pa_free (pg_pa st)) a).
Proof.
  intros Hp Hfree. destruct (pa_alloc_some (pg_pa st) Hp) as (pd & pa' & Ha & Hpd & Hsz); [lia|].
  destruct (pa_alloc_ok _ _ _ Hp Ha Hpd) as (_ & Hin & Hrest).
  unfold paging_init. rewrite Ha. set (st0 := Paging (zero_page _ _) _ _ _ _ _).
  assert (init_state 0 st0) as Hs0 by (by eapply init_state_zero).
  destruct (init_loop_spec 4 0 st0 Hs0) as (Hs & [Hb _ Hkpd Hc3 Hc0 Hsub] & Hsz1 & Htab); [lia|lia|cbn; lia|].
  change (Z.of_nat 4) with IDENTITY_MAP_ENTRIES in *.
  set (st1 := fold_left _ _ _) in *. cbv zeta. split_and!.
  - destruct Hs as [[] ? ? ?]. by split.
  - done.
  - cbn. by rewrite Hc0.
  - done.
  - intros a Haok Hn. change (load8 (pg_mem st1) a = load8 (pg_mem st) a).
    change (¬ table_byte st1 a) in Hn. rewrite Hb by done.
    cbn [st0 pg_mem]. apply load8_zero_page; [|done|].
    + apply (pi_pd _ (is_inv _ _ Hs0)).
    + apply table_byte_pd in Hn. by rewrite Hkpd in Hn.
  - change (pa_free (pg_pa st1) ⊆ pa_free (pg_pa st)). cbn in Hsub. set_solver.
  - change (size (pa_free (pg_pa st1)) = (size (pa_free (pg_pa st)) - 5)%nat). cbn in Hsz1. lia.
  - intros a (p & Hpt & Hr). exists p. split; [|done]. destruct Hpt as [->|[i Hpt]].
    + change (kernel_page_directory st1 ∈ pa_free (pg_pa st)). by rewrite Hkpd.
    + destruct (Htab i p Hpt) as [Hpt0|Hfr]; [|cbn in Hfr; set_solver].
      destruct Hpt0 as (Hi0 & Hpr & _). by rewrite (is_pde _ _ Hs0) in Hpr by lia.
Qed.

(** *** [paging_map], [paging_unmap], [paging_get_phys] *)

Lemma invlpg_inv st v : paging_inv st → paging_inv (invlpg st v).
Proof. intros []. by split. Qed.
Lemma invlpg_frame st st' v : pg_frame st st' → pg_frame st (invlpg st' v).
Proof. intros []. by split. Qed.

(** A mapping in a table that is there takes no page and makes no table. *)
Lemma map_user_pde st i flags k : paging_inv st → 0 <= i < 1024 → 0 <= k < 1024 → k ≠ i →
  pde (map_user st i flags) k = pde st k.
Proof.
  intros Hi Hi0 Hk Hne. unfold map_user. destruct (c_true _); [|done].
  rewrite pde_set_pd by (done || apply Hi || (apply lor_u32; [apply tbl_range|done])). by rewrite decide_False.
Qed.
Lemma paging_map_keeps (st : paging S) virt phys flags :
  paging_inv st → u32 virt → u32 phys → 0 <= flags → present (pde st (PD_INDEX virt)) = true →
  pg_pa (paging_map st virt phys flags) = pg_pa st ∧
  ∀ i f, table_at (paging_map st virt phys flags) i f → table_at st i f.
Proof.
  intros Hi Hv Hph Hfl Hp. pose proof (table_at_intro st (PD_INDEX virt) (PD_INDEX_range virt Hv) Hp) as Ht.
  destruct (map_user_spec st _ flags _ Hi Ht) as (Hi2 & Hfr & Ht2 & _).
  destruct (map_entry_spec phys flags) as (He & _); [done..|].
  assert (∀ k, 0 <= k < 1024 → pde (paging_map st virt phys flags) k = pde (map_user st (PD_INDEX virt) flags) k) as Hpde.
  { intros k Hk. unfold paging_map, map_table. rewrite present_land, Hp. cbn [negb].
    apply (set_pte_pde _ _ _ _ _ Hi2 Ht2); auto with magnos. }
  split.
  - unfold paging_map, map_table. rewrite present_land, Hp. cbn [negb]. unfold map_user. by destruct (c_true _).
  - intros i f Hif. pose proof Hif as (Hr & _). apply (table_at_pde _ _ i f (Hpde i Hr)) in Hif.
    destruct (decide (i = PD_INDEX virt)) as [->|Hne].
    + destruct Ht2 as (_ & _ & E2). destruct Hif as (_ & _ & <-). rewrite E2. exact Ht.
    + apply (table_at_pde st (map_user st (PD_INDEX virt) flags) i f) in Hif; [exact Hif|].
      apply map_user_pde; auto with magnos.
Qed.

Lemma paging_map_spec st virt phys flags :
  paging_inv st → u32 virt → u32 phys → 0 <= flags →
  let st' := paging_map st virt phys flags in
  paging_inv st' ∧ pg_frame st st' ∧
  ((pa_free (pg_pa st) = ∅ ∧ present (pde st (PD_INDEX virt)) = false ∧ st' = st) ∨
   (tlb st' = delete (virt / PAGE_SIZE) (tlb st) ∧
    ∀ w, u32 w → mapping st' w =
      if decide (w / PAGE_SIZE = virt / PAGE_SIZE) then Some (map_entry phys flags)
      else mapping st w)).
Proof.
  intros Hi Hv Hp Hf. unfold paging_map.
  destruct (map_table_spec st (PD_INDEX virt)) as (ok & st1 & -> & Hi1 & Hfr1 & Ht1 & Hm1 & Hok);
    [done|auto with magnos|]. destruct ok.
  2: { destruct Hok as (-> & ? & ?). split_and!; try done. by left. }
  destruct Hok as [f Hf1].
  destruct (map_user_spec st1 _ flags f Hi1 Hf1) as (Hi2 & Hfr2 & Hf2 & Hm2 & Hu).
  assert (tlb (map_user st1 (PD_INDEX virt) flags) = tlb st1) as Ht2
    by (unfold map_user; by destruct (c_true _)).
  destruct (map_entry_spec phys flags) as (He & Hpr & Hub & _); [done..|].
  split_and!.
  - eapply invlpg_inv, set_pte_inv; eauto with magnos.
  - eapply invlpg_frame, pg_frame_trans; [exact Hfr1|]. eapply pg_frame_trans; [exact Hfr2|].
    eapply set_pte_frame; eauto with magnos.
  - right. split; [cbn; by rewrite Ht2, Ht1|]. intros w Hw.
    etransitivity; [eapply (set_pte_mapping _ _ _ _ f); eauto with magnos|].
    rewrite Hpr, Hm2, Hm1 by done. apply decide_ext. by apply same_page.
Qed.

Lemma paging_unmap_spec st virt :
  paging_inv st → u32 virt →
  let st' := paging_unmap st virt in
  paging_inv st' ∧ pg_frame st st' ∧
  (tlb st' = delete (virt / PAGE_SIZE) (tlb st) ∨ (st' = st ∧ mapping st virt = None)) ∧
  ∀ w, u32 w → mapping st' w =
    if decide (w / PAGE_SIZE = virt / PAGE_SIZE) then None else mapping st w.
Proof.
  intros Hi Hv. unfold paging_unmap. rewrite present_land.
  destruct (present (pde st (PD_INDEX virt))) eqn:Hp; cbn [negb].
  - pose proof (table_at_intro st (PD_INDEX virt) (PD_INDEX_range virt Hv) Hp) as Ht. split_and!.
    + apply invlpg_inv, (set_pte_inv st _ _ 0 _ Hi Ht); [auto with magnos|done|done].
    + apply invlpg_frame, (set_pte_frame st _ _ 0 _ Hi Ht); auto with magnos.
    + by left.
    + intros w Hw. etransitivity; [apply (set_pte_mapping st _ _ 0 _ Hi Ht); [auto with magnos|done|done]|].
      apply decide_ext. by apply same_page.
  - assert (∀ w, u32 w → w / PAGE_SIZE = virt / PAGE_SIZE → mapping st w = None) as Hn.
    { intros w Hw E. apply mapping_absent. apply same_page in E as [-> _]; done. }
    split_and!; try done; [right; auto|]. intros w Hw. case_decide; auto.
Qed.

Lemma paging_get_phys_spec st virt :
  paging_get_phys st virt =
    match mapping st virt with
    | Some e => PAGE_FRAME e .| (virt .& 0xFFF)
    | None => 0
    end.
Proof.
  unfold paging_get_phys, mapping. rewrite !present_land.
  destruct (present (pde _ _)); [|done]. cbn [negb]. by destruct (present (tbl _ _ _)).
Qed.

(** With the invariant, the user bit of the entry decides. *)
Lemma user_accessible_spec st virt :
  paging_inv st → u32 virt →
  user_accessible st virt = match mapping st virt with Some e => user_bit e | None => false end.
Proof.
  intros Hi Hv. unfold user_accessible. destruct (mapping st virt) as [e|] eqn:Hm; [|done].
  destruct (user_bit e) eqn:Hu; [|done]. by rewrite (pi_user st Hi virt e).
Qed.

Lemma mapping_same_page st v w :
  u32 v → u32 w → v / PAGE_SIZE = w / PAGE_SIZE → mapping st v = mapping st w.
Proof. intros Hv Hw E. unfold mapping. by apply same_page in E as [-> ->]. Qed.

(** *** Other memory *)

(** Memory that agrees on the tables gives the same translation. *)
Lemma tables_ext st m :
  paging_inv st → (∀ a, addr_ok a 1 → table_byte st a → load8 m a = load8 (pg_mem st) a) →
  (∀ i, 0 <= i < 1024 → pde (set_mem st m) i = pde st i) ∧
  (∀ w, u32 w → mapping (set_mem st m) w = mapping st w) ∧ paging_inv (set_mem st m).
Proof.
  intros Hi Hm.
  assert (∀ p i, page_ok p → (∀ a, p <= a < p + PAGE_SIZE → table_byte st a) → 0 <= i < 1024 →
    tbl m p i = tbl (pg_mem st) p i) as Ht.
  { intros p i Hp Hb Hr. apply load32_ext. intros a Ha. apply Hm; [pg_lia|]. apply Hb. pg_lia. }
  assert (∀ i, 0 <= i < 1024 → pde (set_mem st m) i = pde st i) as Hpde.
  { intros i Hr. apply Ht; [apply Hi| |done]. intros a Ha. exists (kernel_page_directory st). auto. }
  assert (∀ w, u32 w → mapping (set_mem st m) w = mapping st w) as Hmap.
  { intros w Hw. apply mapping_ext; [apply Hpde; auto with magnos|]. intros Hpr.
    assert (table_at st (PD_INDEX w) (PAGE_FRAME (pde st (PD_INDEX w)))) as Hta by
      (apply table_at_intro; auto with magnos).
    apply Ht; [apply (pi_table _ Hi _ _ Hta)| |auto with magnos]. intros a Ha. eexists. eauto. }
  split; [done|]. split; [done|].
  assert (∀ i f, table_at (set_mem st m) i f ↔ table_at st i f) as Hta.
  { intros i f. split; intros H; (eapply table_at_pde; [|exact H]); [symmetry|]; apply Hpde, H. }
  split; try apply Hi.
  - intros i f ?%Hta. by apply (pi_table _ Hi i).
  - intros i j f ?%Hta ?%Hta. by apply (pi_inj _ Hi i j f).
  - intros w e Hw. rewrite Hmap, Hpde by auto with magnos. by apply (pi_user _ Hi).
Qed.

End Steps.

(** ** After the start *)

Section Started.
Context {S : Type} `{PA : PageAllocator S}.
Implicit Types st : paging S.

Lemma init_user st v : init_state 4 st → u32 v → user_accessible st v = false.
Proof.
  intros Hs Hv. rewrite user_accessible_spec by (apply Hs || done).
  destruct (decide (v < 4194304 * 4)).
  - rewrite (is_mapped _ _ Hs) by done. rewrite <-table_entry_val by pg_lia.
    apply table_entry_bits. pg_lia.
  - by rewrite (is_unmapped _ _ Hs) by (done || lia).
Qed.

Lemma init_table st v : init_state 4 st → 0 <= v < 16777216 → present (pde st (PD_INDEX v)) = true.
Proof.
  intros Hs Hv. pose proof (is_mapped _ _ Hs v ltac:(unfold u32; lia) ltac:(lia)) as Hm.
  unfold mapping in Hm. by destruct (present (pde st (PD_INDEX v))).
Qed.
End Started.
#[global] Opaque paging_init.

(** A machine at power-on whose pages [boot_pmm] holds. *)
Definition paging0 : paging (list Z) := Paging ∅ 0 0 0x11 ∅ boot_pmm.

Lemma boot_pmm_pages : (5 <= size (pa_free boot_pmm))%nat.
Proof. cbn [pa_free pmm_allocator]. rewrite size_free_addrs. apply Nat.leb_le. vm_compute. reflexivity. Qed.

Lemma paging0_init : init_state 4 (paging_init paging0).
Proof. apply paging_init_spec; [apply boot_pmm_inv|apply boot_pmm_pages]. Qed.

Lemma paging0_table v : 0 <= v < 16777216 → present (pde (paging_init paging0) (PD_INDEX v)) = true.
Proof. apply init_table, paging0_init. Qed.

Lemma range_800000 : 0 <= 0x800000 < 16777216.
Proof. lia. Qed.

(** ** Properties *)

(** C8: with five free pages, [paging_init] identity-maps exactly the first
    16 MB, present and writable and closed to ring 3; [paging_get_phys] is the
    identity there and 0 elsewhere; CR3 holds the directory, the paging bit of CR0
    is set, and no byte outside the directory and the four tables changes. *)
Theorem paging_init_correct {S} `{PageAllocator S} (st : paging S) :
  pa_inv (pg_pa st) → (5 <= size (pa_free (pg_pa st)))%nat →
  let st' := paging_init st in
  paging_inv st' ∧ cr3 st' = kernel_page_directory st' ∧ Z.testbit (cr0 st') 31 = true ∧
  (∀ v, 0 <= v < TOTAL_MEMORY → mapping st' v = Some (v - v mod PAGE_SIZE + 3) ∧
        paging_get_phys st' v = v) ∧
  (∀ v, TOTAL_MEMORY <= v < 4294967296 → mapping st' v = None ∧ paging_get_phys st' v = 0) ∧
  (∀ v, u32 v → user_accessible st' v = false) ∧
  (∀ a, addr_ok a 1 → ¬ table_byte st' a → load8 (pg_mem st') a = load8 (pg_mem st) a).
Proof.
  intros Hp Hfree. destruct (paging_init_spec st Hp Hfree) as (Hs & H3 & H0 & _ & Hb & _).
  cbv zeta. change TOTAL_MEMORY with 16777216. split_and!; try done.
  - apply Hs.
  - rewrite H0, Z.lor_spec. apply orb_true_r.
  - intros v Hv. assert (u32 v) by (unfold u32; lia).
    assert (mapping (paging_init st) v = Some (v - v mod PAGE_SIZE + 3)) as Hm
      by (apply (is_mapped _ _ Hs); [done|lia]).
    split; [done|]. rewrite paging_get_phys_spec, Hm, PAGE_FRAME_offset by pg_lia. pg_lia.
  - intros v Hv. assert (mapping (paging_init st) v = None) as Hm
      by (apply (is_unmapped _ _ Hs); [unfold u32; lia|lia]).
    by rewrite paging_get_phys_spec, Hm.
  - intros v Hv. by apply init_user.
Qed.

Lemma paging_init_correct_witness :
  paging_get_phys (paging_init paging0) 0x2ABCDE = 0x2ABCDE.
Proof.
  destruct (paging_init_correct paging0) as (_ & _ & _ & Hm & _);
    [apply boot_pmm_inv|apply boot_pmm_pages|].
  apply (Hm 0x2ABCDE). split; [discriminate|reflexivity].
Defined.

(** [paging_map] maps exactly the page of [virt] to the frame of [phys]
    with the flags given and present, and no other page; [paging_get_phys] then
    translates every address of the page.  It changes no byte outside the tables,
    keeps the invariant, and does nothing when it needs a page table and no page is free. *)
Theorem paging_map_correct {S} `{PageAllocator S} (st : paging S) virt phys flags :
  paging_inv st → u32 virt → u32 phys → 0 <= flags →
  let st' := paging_map st virt phys flags in
  paging_inv st' ∧ pg_frame st st' ∧
  ((pa_free (pg_pa st) = ∅ ∧ present (pde st (PD_INDEX virt)) = false ∧ st' = st) ∨
   ((∀ w, u32 w → w / PAGE_SIZE = virt / PAGE_SIZE →
       mapping st' w = Some (map_entry phys flags) ∧
       user_accessible st' w = user_bit flags ∧
       paging_get_phys st' w = phys - phys mod PAGE_SIZE + w mod PAGE_SIZE) ∧
    (∀ w, u32 w → w / PAGE_SIZE ≠ virt / PAGE_SIZE →
       mapping st' w = mapping st w ∧ user_accessible st' w = user_accessible st w ∧
       paging_get_phys st' w = paging_get_phys st w))).
Proof.
  intros Hi Hv Hp Hf. destruct (paging_map_spec st virt phys flags) as (Hi' & Hfr & Hcase); [done..|].
  cbv zeta. split_and!; try done. destruct Hcase as [?|[_ Hm]]; [by left|right].
  destruct (map_entry_spec phys flags) as (He & _ & Hub & Hpf); [done..|].
  split; intros w Hw Hd; rewrite !user_accessible_spec, !paging_get_phys_spec, !Hm by done.
  - rewrite decide_True by done. split_and!; [done..|].
    rewrite PAGE_FRAME_offset by done. unfold PAGE_FRAME in Hpf.
    change 0xFFFFF000 with (4294967296 - 2 ^ 12) in Hpf. rewrite land_high_mask in Hpf by (done || lia).
    change (2 ^ 12) with PAGE_SIZE in Hpf. change 4096 with PAGE_SIZE. lia.
  - by rewrite decide_False.
Qed.

Lemma paging_map_correct_witness :
  let st' := paging_map (paging_init paging0) 0x800000 0x345000 (PAGE_WRITABLE .| PAGE_USER) in
  user_accessible st' 0x800123 = true ∧ paging_get_phys st' 0x800123 = 0x345123.
Proof.
  destruct (paging_map_correct (paging_init paging0) 0x800000 0x345000 (PAGE_WRITABLE .| PAGE_USER))
    as (_ & _ & [(_ & Habs & _)|[Hm _]]); [apply paging0_init|done..| |].
  - destruct (eq_true_false_abs _ (paging0_table 0x800000 range_800000) Habs).
  - destruct (Hm 0x800123) as (_ & Hu & Hg); [done..|]. split; [exact Hu|exact Hg].
Defined.

(** [paging_unmap] removes exactly the mapping of the page of [virt]:
    [paging_get_phys] answers 0 on it and as before elsewhere. *)
Theorem paging_unmap_correct {S} `{PageAllocator S} (st : paging S) virt :
  paging_inv st → u32 virt →
  let st' := paging_unmap st virt in
  paging_inv st' ∧ pg_frame st st' ∧
  (∀ w, u32 w → w / PAGE_SIZE = virt / PAGE_SIZE → mapping st' w = None ∧ paging_get_phys st' w = 0) ∧
  (∀ w, u32 w → w / PAGE_SIZE ≠ virt / PAGE_SIZE →
     mapping st' w = mapping st w ∧ paging_get_phys st' w = paging_get_phys st w).
Proof.
  intros Hi Hv. destruct (paging_unmap_spec st virt) as (Hi' & Hfr & _ & Hm); [done..|].
  cbv zeta. split_and!; try done; intros w Hw Hd; rewrite !paging_get_phys_spec, !Hm by done.
  - by rewrite decide_True.
  - by rewrite decide_False.
Qed.

Lemma paging_unmap_correct_witness :
  paging_get_phys (paging_unmap (paging_init paging0) 0x5000) 0x5FFF = 0.
Proof.
  destruct (paging_unmap_correct (paging_init paging0) 0x5000) as (_ & _ & Hm & _);
    [apply paging0_init|done|]. apply (Hm 0x5FFF); done.
Defined.
