(* ===== verification/PagingMmu.v ===== *)
(** * Paging through the processor (kernel/paging.c)

    Once paging is on, the pointers of paging.c are virtual addresses: the
    directory and the tables are themselves reached through the tables, or
    through what the TLB holds of them.  [mmu] is that translation, and the
    functions of paging.c are given here with every access going through it,
    [None] being a page fault of the kernel.  paging.h says "physical =
    virtual under identity mapping": while the pages of the directory, of the
    tables and of the allocator are mapped to themselves these functions are
    those of Paging.v, and they keep it so unless they are called to map such
    a page elsewhere. *)

From stdpp Require Import gmap relations.
From S2P Require Import Prelude Mem Pmm Paging PagingProps.

(** ** The code, by virtual addresses *)

Section Mmu.
Context {S : Type} `{PA : PageAllocator S}.
Implicit Types st : paging S.

(** The walk of the processor, from CR3. *)
Definition walk (st : paging S) (a : Z) : option Z :=
  let d := tbl (pg_mem st) (PAGE_FRAME (cr3 st)) (PD_INDEX a) in
  if present d then
    let e := tbl (pg_mem st) (PAGE_FRAME d) (PT_INDEX a) in
    if present e then Some e else None
  else None.

(** The physical address of an access of ring 0 to [a].  The kernel never sets
    the write-protect bit of CR0, so ring 0 may write every page that is
    present. *)
Definition mmu (st : paging S) (a : Z) : option Z :=
  if Z.testbit (cr0 st) 31 then
    e ← match tlb st !! (a / PAGE_SIZE) with Some e => Some e | None => walk st a end;
    Some (PAGE_FRAME e .| (a .& 0xFFF))
  else Some a.

(** [p[i]] of a [uint32_t *], read and written. *)
Definition mmu_tbl (st : paging S) (p i : Z) : option Z :=
  a ← mmu st (p + 4 * i); Some (load32 (pg_mem st) a).
Definition mmu_set_tbl (st : paging S) (p i v : Z) : option (paging S) :=
  a ← mmu st (p + 4 * i); Some (set_mem st (store32 (pg_mem st) a v)).

Fixpoint mmu_zero (st : paging S) (page : Z) (l : list Z) : option (paging S) :=
  match l with
  | [] => Some st
  | i :: l => st ← mmu_set_tbl st page i 0; mmu_zero st page l
  end.
Definition mmu_zero_page (st : paging S) (page : Z) : option (paging S) := mmu_zero st page (seqZ 0 1024).

Definition mmu_map_table (st : paging S) (i : Z) : option (bool * paging S) :=
  e ← mmu_tbl st (kernel_page_directory st) i;
  if negb (c_true (e .& PAGE_PRESENT)) then
    let '(pt, pa) := pa_alloc (pg_pa st) in
    if pt =? 0 then Some (false, set_pa st pa)
    else
      st ← mmu_zero_page (set_pa st pa) pt;
      st ← mmu_set_tbl st (kernel_page_directory st) i ((pt .| PAGE_PRESENT) .| PAGE_WRITABLE);
      Some (true, st)
  else Some (true, st).

Definition mmu_map_user (st : paging S) (i flags : Z) : option (paging S) :=
  if c_true (flags .& PAGE_USER) then
    e ← mmu_tbl st (kernel_page_directory st) i;
    mmu_set_tbl st (kernel_page_directory st) i (e .| PAGE_USER)
  else Some st.

Definition mmu_set_pte (st : paging S) (i j v : Z) : option (paging S) :=
  e ← mmu_tbl st (kernel_page_directory st) i;
  mmu_set_tbl st (PAGE_FRAME e) j v.

Definition mmu_paging_map (st : paging S) (virt phys flags : Z) : option (paging S) :=
  let pd_idx := PD_INDEX virt in
  let pt_idx := PT_INDEX virt in
  p ← mmu_map_table st pd_idx;
  if (p.1 : bool) then
    st ← mmu_map_user p.2 pd_idx flags;
    st ← mmu_set_pte st pd_idx pt_idx (map_entry phys flags);
    Some (invlpg st virt)
  else Some p.2.

Definition mmu_paging_unmap (st : paging S) (virt : Z) : option (paging S) :=
  let pd_idx := PD_INDEX virt in
  let pt_idx := PT_INDEX virt in
  e ← mmu_tbl st (kernel_page_directory st) pd_idx;
  if negb (c_true (e .& PAGE_PRESENT)) then Some st
  else
    st ← mmu_set_pte st pd_idx pt_idx 0;
    Some (invlpg st virt).

Definition mmu_paging_get_phys (st : paging S) (virt : Z) : option Z :=
  let pd_idx := PD_INDEX virt in
  let pt_idx := PT_INDEX virt in
  d ← mmu_tbl st (kernel_page_directory st) pd_idx;
  if negb (c_true (d .& PAGE_PRESENT)) then Some 0
  else
    e ← mmu_tbl st (PAGE_FRAME d) pt_idx;
    if negb (c_true (e .& PAGE_PRESENT)) then Some 0
    else Some (PAGE_FRAME e .| (virt .& 0xFFF)).

(** ** The identity map of the tables *)

(** The pages that paging.c reaches by their physical addresses: the
    directory, the tables, and the pages that can become tables. *)
Definition owned (st : paging S) (p : Z) : Prop :=
  p = kernel_page_directory st ∨ (∃ i, table_at st i p) ∨ p ∈ pa_free (pg_pa st).

Record mmu_ok (F : gset Z) (st : paging S) : Prop := {
  mo_inv : paging_inv st;
  mo_tlb : tlb_coherent st;
  mo_cr3 : cr3 st = kernel_page_directory st;
  mo_on : Z.testbit (cr0 st) 31 = true;
  mo_owned p : owned st p → p ∈ F;
  mo_self p : owned st p → ∃ e, mapping st p = Some e ∧ PAGE_FRAME e = p
}.

Lemma owned_page st p : paging_inv st → owned st p → page_ok p.
Proof.
  intros Hi [->|[[i Hp]|Hp]]; [apply Hi|by apply (pi_table st Hi i)|]. by apply (pa_page (pg_pa st)); [apply Hi|].
Qed.

Lemma walk_mapping st a : cr3 st = kernel_page_directory st → page_ok (kernel_page_directory st) → walk st a = mapping st a.
Proof. intros E Hp. unfold walk, mapping, pde. by rewrite E, PAGE_FRAME_page. Qed.

(** With a coherent TLB the processor translates as the tables say. *)
Lemma mmu_mapping F st a : mmu_ok F st → u32 a →
  mmu st a = (λ e, PAGE_FRAME e .| (a .& 0xFFF)) <$> mapping st a.
Proof.
  intros [Hi Hc E3 E0 _ _] Ha. unfold mmu. rewrite E0, (walk_mapping st a E3 (pi_pd _ Hi)).
  destruct (tlb st !! (a / PAGE_SIZE)) as [e|] eqn:Et; [by rewrite (Hc a e Ha Et)|]. by destruct (mapping st a).
Qed.

Lemma mmu_self F st p a : mmu_ok F st → owned st p → p <= a < p + PAGE_SIZE → mmu st a = Some a.
Proof.
  intros Hok Hp Ha. pose proof (owned_page st p (mo_inv _ _ Hok) Hp) as Hpg. assert (u32 a) as Hu by pg_lia.
  rewrite (mmu_mapping F) by done. destruct (mo_self _ _ Hok p Hp) as (e & He & Hf).
  rewrite (mapping_same_page st a p), He by pg_lia. cbn. f_equal. rewrite Hf. change 0xFFF with (2 ^ 12 - 1).
  rewrite land_low_mask by lia. rewrite (lor_low 12) by pg_lia. change (2 ^ 12) with 4096. pg_lia.
Qed.

(** What the translation depends on. *)
Lemma mmu_ext F st st' a : mmu_ok F st → paging_inv st' → kernel_page_directory st' = kernel_page_directory st →
  cr3 st' = cr3 st → cr0 st' = cr0 st → tlb st' = tlb st → mapping st' a = mapping st a → mmu st' a = mmu st a.
Proof.
  intros [Hi _ E3 E0 _ _] Hi' Ek E3' E0' Et Em. unfold mmu. rewrite E0', Et, !walk_mapping, Em; try done;
    [apply Hi|congruence|apply Hi'].
Qed.

(** ** While they are mapped to themselves the calls are those of Paging.v *)

Section Calls.
Context (F : gset Z) (st : paging S) (Hok : mmu_ok F st).
#[local] Notation pd := (kernel_page_directory st).

(** A state of a call, before the entry is written. *)
Record within (st' : paging S) : Prop := {
  wi_inv : paging_inv st';
  wi_pd : kernel_page_directory st' = pd;
  wi_cr3 : cr3 st' = cr3 st;
  wi_cr0 : cr0 st' = cr0 st;
  wi_tlb : tlb st' = tlb st;
  wi_map a : u32 a → mapping st' a = mapping st a;
  wi_owned p : owned st' p → owned st p
}.

Lemma within_refl : within st.
Proof using Hok. split; try done. apply Hok. Qed.

Lemma within_mmu st' p a : within st' → owned st p → p <= a < p + PAGE_SIZE → mmu st' a = Some a.
Proof using Hok.
  intros [Hi Ek E3 E0 Et Hm _] Hp Ha. pose proof (owned_page st p (mo_inv _ _ Hok) Hp).
  rewrite (mmu_ext F st st' a) by (done || apply Hm; pg_lia). by apply (mmu_self F st p).
Qed.

Lemma within_tbl st' p i : within st' → owned st p → 0 <= i < 1024 → mmu_tbl st' p i = Some (tbl (pg_mem st') p i).
Proof using Hok. intros Hw Hp Hi. unfold mmu_tbl. by rewrite (within_mmu st' p) by (done || change PAGE_SIZE with 4096; lia). Qed.
Lemma within_set_tbl st' p i v : within st' → owned st p → 0 <= i < 1024 →
  mmu_set_tbl st' p i v = Some (set_mem st' (set_tbl (pg_mem st') p i v)).
Proof using Hok. intros Hw Hp Hi. unfold mmu_set_tbl. by rewrite (within_mmu st' p) by (done || change PAGE_SIZE with 4096; lia). Qed.
Lemma within_pde st' i : within st' → 0 <= i < 1024 → mmu_tbl st' (kernel_page_directory st') i = Some (pde st' i).
Proof using Hok. intros Hw Hi. rewrite within_tbl; [done|done| |done]. rewrite (wi_pd _ Hw). by left. Qed.

(** Bytes of tables are not bytes of free pages. *)
Lemma free_not_table pt a : pt ∈ pa_free (pg_pa st) → table_byte st a → ¬ pt <= a < pt + PAGE_SIZE.
Proof using Hok.
  intros Hpt (p & Hp & Ha) Hr. pose proof (mo_inv _ _ Hok) as Hi.
  assert (page_ok pt) as Hpg by (by apply (pa_page (pg_pa st)); [apply Hi|]).
  assert (page_ok p ∧ p ∉ pa_free (pg_pa st)) as [Hpp Hn].
  { destruct Hp as [->|[i Hp]]; [split; apply Hi|]. by destruct (pi_table st Hi i p Hp) as (? & ? & _). }
  assert (p = pt) as -> by pg_lia. done.
Qed.

(** Memory outside the tables may change. *)
Lemma within_mem m : (∀ a, addr_ok a 1 → table_byte st a → load8 m a = load8 (pg_mem st) a) → within (set_mem st m).
Proof using Hok.
  intros Hm. destruct (tables_ext st m (mo_inv _ _ Hok) Hm) as (Hpde & Hmap & Hi). split; try done.
  intros p [->|[[i Hp]|Hp]]; [by left| |by right; right]. right; left. exists i.
  eapply table_at_pde; [|exact Hp]. symmetry. apply Hpde, Hp.
Qed.

Lemma within_set_tbl_pa m pa p i v : within (set_mem st m) → owned st p → 0 <= i < 1024 →
  mmu_set_tbl (set_pa (set_mem st m) pa) p i v = Some (set_pa (set_mem st (set_tbl m p i v)) pa).
Proof using Hok.
  intros Hw Hp Hi. unfold mmu_set_tbl. change (mmu (set_pa (set_mem st m) pa)) with (mmu (set_mem st m)).
  by rewrite (within_mmu (set_mem st m) p) by (done || change PAGE_SIZE with 4096; lia).
Qed.

Lemma mmu_zero_spec pt pa l : pt ∈ pa_free (pg_pa st) → Forall (λ i, 0 <= i < 1024) l → ∀ m,
  (∀ a, addr_ok a 1 → table_byte st a → load8 m a = load8 (pg_mem st) a) →
  mmu_zero (set_pa (set_mem st m) pa) pt l =
    Some (set_pa (set_mem st (fold_left (λ m i, set_tbl m pt i 0) l m)) pa).
Proof using Hok.
  intros Hpt Hl. assert (owned st pt) as Ho by (by right; right).
  pose proof (owned_page st pt (mo_inv _ _ Hok) Ho) as Hpg.
  induction Hl as [|i l Hi Hl IH]; intros m Hm; [done|]. cbn [mmu_zero fold_left].
  rewrite (within_set_tbl_pa m pa pt i 0 (within_mem m Hm) Ho Hi). cbn. apply IH. intros a Ha Ht. rewrite load8_set_tbl; [by apply Hm|done|done|done|by apply free_not_table].
Qed.
Lemma mmu_zero_page_spec pt pa : pt ∈ pa_free (pg_pa st) →
  mmu_zero_page (set_pa st pa) pt = Some (set_pa (set_mem st (zero_page (pg_mem st) pt)) pa).
Proof using Hok.
  intros Hpt. pose proof (mmu_zero_spec pt pa (seqZ 0 1024) Hpt (seqZ_index 1024 ltac:(done)) (pg_mem st)) as E.
  replace (set_mem st (pg_mem st)) with st in E by (by destruct st).
  unfold mmu_zero_page. rewrite E by done. with_strategy transparent [fill zero_page] reflexivity.
Qed.

(** A new table is a page of the allocator. *)
Lemma map_table_owned i p : 0 <= i < 1024 → owned (map_table st i).2 p → owned st p.
Proof using Hok.
  intros Hi0. pose proof (mo_inv _ _ Hok) as Hi. unfold map_table. rewrite present_land.
  destruct (present (pde st i)) eqn:Hp; [done|]. cbn [negb].
  destruct (pa_alloc (pg_pa st)) as [pt pa'] eqn:Ha. destruct (Z.eqb_spec pt 0) as [->|Hpt]; cbn [snd].
  { destruct (pa_alloc_fail (pg_pa st) pa') as [-> _]; [apply Hi|done|]. done. }
  destruct (add_table_page st pt pa' Hi Ha Hpt) as (Hpg & _ & Hin & Hfree).
  intros [->|[[k Hk]|Hf]]; [by left| |right; right; cbn in Hf; set_solver].
  eapply (add_table_at st i pt pa' _ (λ _, 0)) in Hk; try done; cycle 1.
  { intros. by apply tbl_zero_page. }
  { intros. by apply load8_zero_page. }
  right. destruct Hk as [[_ ->]|Hk]; [by right|left; by exists k].
Qed.

Lemma mmu_map_table_spec i : 0 <= i < 1024 →
  mmu_map_table st i = Some (map_table st i) ∧ within (map_table st i).2.
Proof using Hok.
  intros Hi0. pose proof (mo_inv _ _ Hok) as Hi. split.
  - unfold mmu_map_table, map_table. rewrite (within_pde st i within_refl Hi0). cbn. rewrite present_land.
    destruct (present (pde st i)) eqn:Hp; [done|]. cbn [negb].
    destruct (pa_alloc (pg_pa st)) as [pt pa'] eqn:Ha. destruct (Z.eqb_spec pt 0) as [->|Hpt]; [done|].
    destruct (add_table_page st pt pa' Hi Ha Hpt) as (Hpg & _ & Hin & _).
    rewrite mmu_zero_page_spec by done. cbn. set (m := zero_page _ _).
    assert (within (set_mem st m)) as Hw.
    { apply within_mem. intros a Haok Ht. apply load8_zero_page; [done|done|]. by apply free_not_table. }
    by rewrite (within_set_tbl_pa m pa' pd i _ Hw ltac:(by left) Hi0).
  - pose proof (λ p, map_table_owned i p Hi0) as Ho.
    destruct (map_table_spec st i Hi Hi0) as (ok & st' & E & Hi' & Hfr & Ht & Hm & _). rewrite E in Ho |- *.
    split; try done; apply Hfr.
Qed.

Lemma mmu_map_user_spec st1 i flags f : within st1 → table_at st1 i f →
  mmu_map_user st1 i flags = Some (map_user st1 i flags) ∧ within (map_user st1 i flags).
Proof using Hok.
  intros Hw Hf. pose proof Hf as (Hi0 & _). split.
  - unfold mmu_map_user, map_user. destruct (c_true _); [|done]. rewrite within_pde by done. cbn.
    rewrite (wi_pd _ Hw). by rewrite within_set_tbl by (done || by left).
  - destruct (map_user_spec st1 i flags f (wi_inv _ Hw) Hf) as (Hi' & Hfr & Hf' & Hm & _).
    assert (tlb (map_user st1 i flags) = tlb st1 ∧ pg_pa (map_user st1 i flags) = pg_pa st1) as [Et Epa]
      by (unfold map_user; by destruct (c_true _)).
    destruct Hw as [Hi1 Ek E3 E0 Et1 Hm1 Ho]. split; try done.
    + by rewrite (fr_pd _ _ Hfr).
    + by rewrite (fr_cr3 _ _ Hfr).
    + by rewrite (fr_cr0 _ _ Hfr).
    + by rewrite Et.
    + intros a Ha. by rewrite Hm, Hm1.
    + intros p [->|[[k Hk]|Hp]]; apply Ho; [left; apply (fr_pd _ _ Hfr)| |right; right; by rewrite Epa in Hp].
      right; left. exists k. destruct (decide (k = i)) as [->|Hne].
      * destruct Hk as (_ & _ & <-). destruct Hf' as (_ & _ & ->). exact Hf.
      * eapply table_at_pde; [|exact Hk]. symmetry. apply map_user_pde; [done|done|apply Hk|done].
Qed.

Lemma mmu_set_pte_spec st1 i j v f : within st1 → table_at st1 i f → 0 <= j < 1024 →
  mmu_set_pte st1 i j v = Some (set_pte st1 i j v).
Proof using Hok.
  intros Hw Hf Hj. pose proof Hf as (Hi0 & _ & E). unfold mmu_set_pte. rewrite within_pde by done. cbn.
  rewrite E. rewrite within_set_tbl; [|done| |done]; [by unfold set_pte; rewrite E|].
  apply (wi_owned _ Hw). right; left. by exists i.
Qed.

(** The calls through the processor are those of Paging.v. *)
Lemma mmu_map_spec virt phys flags : u32 virt → mmu_paging_map st virt phys flags = Some (paging_map st virt phys flags).
Proof using Hok.
  intros Hv. pose proof (PD_INDEX_range _ Hv) as Hi0. pose proof (PT_INDEX_range _ Hv) as Hj0.
  unfold mmu_paging_map, paging_map. destruct (mmu_map_table_spec (PD_INDEX virt) Hi0) as [-> Hw].
  destruct (map_table_spec st (PD_INDEX virt) (mo_inv _ _ Hok) Hi0) as (ok & st1 & E & _ & _ & _ & _ & Hc).
  rewrite E in *. cbn in *. destruct ok; [|done]. destruct Hc as [f Hf].
  destruct (mmu_map_user_spec st1 (PD_INDEX virt) flags f Hw Hf) as [-> Hw2]. cbn.
  destruct (map_user_spec st1 (PD_INDEX virt) flags f (wi_inv _ Hw) Hf) as (_ & _ & Hf2 & _).
  by rewrite (mmu_set_pte_spec _ _ _ _ f Hw2 Hf2 Hj0).
Qed.
Lemma mmu_unmap_spec virt : u32 virt → mmu_paging_unmap st virt = Some (paging_unmap st virt).
Proof using Hok.
  intros Hv. pose proof (PD_INDEX_range _ Hv) as Hi0. pose proof (PT_INDEX_range _ Hv) as Hj0.
  unfold mmu_paging_unmap, paging_unmap. rewrite (within_pde st _ within_refl Hi0). cbn. rewrite present_land.
  destruct (present _) eqn:Hp; [|done]. cbn [negb].
  by rewrite (mmu_set_pte_spec st _ _ _ _ within_refl (table_at_intro st _ Hi0 Hp) Hj0).
Qed.
Lemma mmu_get_phys_spec virt : u32 virt → mmu_paging_get_phys st virt = Some (paging_get_phys st virt).
Proof using Hok.
  intros Hv. pose proof (PD_INDEX_range _ Hv) as Hi0. pose proof (PT_INDEX_range _ Hv) as Hj0.
  unfold mmu_paging_get_phys, paging_get_phys. rewrite (within_pde st _ within_refl Hi0). cbn. rewrite present_land.
  destruct (present _) eqn:Hp; [|done]. cbn [negb].
  rewrite (within_tbl st); [|exact within_refl|right; left; eexists; by apply (table_at_intro st)|exact Hj0].
  cbn. by destruct (negb _).
Qed.

(** The tables stay pages of the directory, the tables or the allocator. *)
Lemma set_pte_owned st1 i j v f p : within st1 → table_at st1 i f → 0 <= j < 1024 → u32 v →
  owned (set_pte st1 i j v) p → owned st p.
Proof using Hok.
  intros Hw Hf Hj Hv Hp. apply (wi_owned _ Hw). destruct Hp as [->|[[k Hk]|Hp]]; [by left| |by right; right].
  right; left. exists k. by apply (set_pte_table_at st1 i j v f (wi_inv _ Hw) Hf Hj).
Qed.
Lemma map_owned virt phys flags p : u32 virt → u32 phys → 0 <= flags →
  owned (paging_map st virt phys flags) p → owned st p.
Proof using Hok.
  intros Hv Hph Hfl. pose proof (PD_INDEX_range _ Hv) as Hi0. unfold paging_map.
  destruct (mmu_map_table_spec (PD_INDEX virt) Hi0) as [_ Hw].
  destruct (map_table_spec st (PD_INDEX virt) (mo_inv _ _ Hok) Hi0) as (ok & st1 & E & _ & _ & _ & _ & Hc).
  rewrite E in *. cbn in Hw. destruct ok; [|apply (wi_owned _ Hw)]. destruct Hc as [f Hf].
  destruct (mmu_map_user_spec st1 (PD_INDEX virt) flags f Hw Hf) as [_ Hw2].
  destruct (map_user_spec st1 (PD_INDEX virt) flags f (wi_inv _ Hw) Hf) as (_ & _ & Hf2 & _).
  apply (set_pte_owned _ _ _ _ f p Hw2 Hf2); [by apply PT_INDEX_range|]. by apply map_entry_spec.
Qed.
Lemma unmap_owned virt p : u32 virt → owned (paging_unmap st virt) p → owned st p.
Proof using Hok.
  intros Hv. pose proof (PD_INDEX_range _ Hv) as Hi0. unfold paging_unmap. rewrite present_land.
  destruct (present _) eqn:Hp; [|done]. cbn [negb].
  apply (set_pte_owned st _ _ 0 _ p within_refl (table_at_intro st _ Hi0 Hp)); [by apply PT_INDEX_range|done].
Qed.
End Calls.
End Mmu.

(** ** Sequences of calls *)

Inductive pg_op : Type := OpMap (virt phys flags : Z) | OpUnmap (virt : Z).

Definition page_of (a : Z) : Z := a - a mod PAGE_SIZE.

(** The call leaves the pages of [F] mapped to themselves. *)
Definition op_ok (F : gset Z) (o : pg_op) : Prop :=
  match o with
  | OpMap virt phys flags => u32 virt ∧ u32 phys ∧ 0 <= flags ∧ (page_of virt ∈ F → page_of phys = page_of virt)
  | OpUnmap virt => u32 virt ∧ page_of virt ∉ F
  end.
Definition run_op {S} `{PageAllocator S} (st : paging S) (o : pg_op) : option (paging S) :=
  match o with
  | OpMap virt phys flags => mmu_paging_map st virt phys flags
  | OpUnmap virt => mmu_paging_unmap st virt
  end.
Fixpoint run_ops {S} `{PageAllocator S} (st : paging S) (ops : list pg_op) : option (paging S) :=
  match ops with
  | [] => Some st
  | o :: ops => st ← run_op st o; run_ops st ops
  end.

(** The call opens the page of [w] to ring 3. *)
Definition opens (w : Z) (o : pg_op) : Prop :=
  match o with
  | OpMap virt phys flags => virt / PAGE_SIZE = w / PAGE_SIZE ∧ user_bit flags = true
  | OpUnmap _ => False
  end.

Section Ops.
Context {S : Type} `{PA : PageAllocator S} (F : gset Z).
Implicit Types st : paging S.

(** One call of the paging code, or the processor caching a translation. *)
Inductive paging_step : paging S → paging S → Prop :=
  | step_call st o st' : op_ok F o → run_op st o = Some st' → paging_step st st'
  | step_fill st virt e :
      u32 virt → walk st virt = Some e →
      paging_step st (Paging (pg_mem st) (kernel_page_directory st) (cr3 st) (cr0 st)
                        (<[virt / PAGE_SIZE := e]> (tlb st)) (pg_pa st)).

Lemma tlb_update st st' virt :
  tlb_coherent st → u32 virt → tlb st' = delete (virt / PAGE_SIZE) (tlb st) →
  (∀ w, u32 w → w / PAGE_SIZE ≠ virt / PAGE_SIZE → mapping st' w = mapping st w) →
  tlb_coherent st'.
Proof.
  intros Hc Hv Ht Hm w e Hw. rewrite Ht. rewrite lookup_delete_Some. intros [Hne Hl].
  rewrite Hm by (done || congruence). by apply Hc.
Qed.

Lemma page_of_eq p v : p mod PAGE_SIZE = 0 → p / PAGE_SIZE = v / PAGE_SIZE → page_of v = p.
Proof. unfold page_of. change PAGE_SIZE with 4096. intros. zdm. Qed.

Lemma map_mmu_ok st virt phys flags : mmu_ok F st → op_ok F (OpMap virt phys flags) → mmu_ok F (paging_map st virt phys flags).
Proof.
  intros Hok (Hv & Hp & Hf & Hself). pose proof (λ p, map_owned F st Hok virt phys flags p Hv Hp Hf) as Ho.
  destruct (paging_map_spec st virt phys flags (mo_inv _ _ Hok) Hv Hp Hf) as (Hi' & Hfr & Hcase).
  destruct Hcase as [(_ & _ & E)|[Ht Hm]]; [by rewrite E|].
  split; [done| |by rewrite (fr_cr3 _ _ Hfr), (fr_pd _ _ Hfr); apply Hok|by rewrite (fr_cr0 _ _ Hfr); apply Hok| |].
  - apply (tlb_update st _ virt (mo_tlb _ _ Hok) Hv Ht). intros w Hw Hne. rewrite Hm by done. by rewrite decide_False.
  - intros p Hpo. by apply (mo_owned _ _ Hok), Ho.
  - intros p Hpo%Ho. pose proof (owned_page st p (mo_inv _ _ Hok) Hpo) as Hpg. rewrite Hm by pg_lia.
    case_decide as Hd; [|by apply (mo_self _ _ Hok)]. eexists. split; [done|].
    destruct (map_entry_spec phys flags Hp Hf) as (_ & _ & _ & ->). fold (page_of phys).
    assert (page_of virt = p) as Ev by (by apply page_of_eq; [apply Hpg|]).
    rewrite Hself, Ev; [done|]. rewrite Ev. by apply (mo_owned _ _ Hok).
Qed.
Lemma unmap_mmu_ok st virt : mmu_ok F st → op_ok F (OpUnmap virt) → mmu_ok F (paging_unmap st virt).
Proof.
  intros Hok (Hv & Hn). pose proof (λ p, unmap_owned F st Hok virt p Hv) as Ho.
  destruct (paging_unmap_spec st virt (mo_inv _ _ Hok) Hv) as (Hi' & Hfr & Ht & Hm).
  destruct Ht as [Ht|[E _]]; [|by rewrite E].
  split; [done| |by rewrite (fr_cr3 _ _ Hfr), (fr_pd _ _ Hfr); apply Hok|by rewrite (fr_cr0 _ _ Hfr); apply Hok| |].
  - apply (tlb_update st _ virt (mo_tlb _ _ Hok) Hv Ht). intros w Hw Hne. rewrite Hm by done. by rewrite decide_False.
  - intros p Hpo. by apply (mo_owned _ _ Hok), Ho.
  - intros p Hpo%Ho. pose proof (owned_page st p (mo_inv _ _ Hok) Hpo) as Hpg. rewrite Hm by pg_lia.
    rewrite decide_False; [by apply (mo_self _ _ Hok)|]. intros Hd. apply Hn.
    rewrite (page_of_eq p virt) by (done || apply Hpg). by apply (mo_owned _ _ Hok).
Qed.

(** A call never faults, keeps the invariant, and opens no page but its own. *)
Lemma run_op_spec st o : mmu_ok F st → op_ok F o →
  ∃ st', run_op st o = Some st' ∧ mmu_ok F st' ∧ cr3 st' = cr3 st ∧
    ∀ w, u32 w → user_accessible st' w = true → opens w o ∨ user_accessible st w = true.
Proof.
  intros Hok Ho. pose proof (mo_inv _ _ Hok) as Hi. destruct o as [virt phys flags|virt]; cbn [run_op opens].
  - exists (paging_map st virt phys flags). pose proof Ho as (Hv & Hp & Hf & _). split; [by apply (mmu_map_spec F)|].
    destruct (paging_map_spec st virt phys flags Hi Hv Hp Hf) as (Hi' & Hfr & Hcase).
    split; [by apply map_mmu_ok|]. split; [apply Hfr|]. intros w Hw.
    destruct Hcase as [(_ & _ & ->)|[_ Hm]]; [auto|]. rewrite !user_accessible_spec, Hm by done.
    case_decide as Hd; [|auto]. destruct (map_entry_spec phys flags) as (_ & _ & -> & _); auto.
  - exists (paging_unmap st virt). pose proof Ho as (Hv & _). split; [by apply (mmu_unmap_spec F)|].
    destruct (paging_unmap_spec st virt Hi Hv) as (Hi' & Hfr & _ & Hm).
    split; [by apply unmap_mmu_ok|]. split; [apply Hfr|]. intros w Hw.
    rewrite !user_accessible_spec, Hm by done. case_decide; [done|auto].
Qed.

Lemma run_ops_spec ops : ∀ st, mmu_ok F st → Forall (op_ok F) ops →
  ∃ st', run_ops st ops = Some st' ∧ mmu_ok F st' ∧ cr3 st' = cr3 st ∧
    ∀ w, u32 w → user_accessible st' w = true → Exists (opens w) ops ∨ user_accessible st w = true.
Proof.
  induction ops as [|o ops IH]; intros st Hok HF; [exists st; auto|]. inversion_clear HF as [|? ? Ho HF'].
  destruct (run_op_spec st o Hok Ho) as (st1 & E1 & Hok1 & H3 & Hu1). destruct (IH st1 Hok1 HF') as (st2 & E2 & Hok2 & H3' & Hu2).
  exists st2. cbn [run_ops]. rewrite E1. split; [done|]. split; [done|]. split; [congruence|]. intros w Hw Hu.
  destruct (Hu2 w Hw Hu) as [|Hacc]; [left; by constructor|]. destruct (Hu1 w Hw Hacc); [left; by constructor|auto].
Qed.

Lemma paging_steps_ok st st' : rtc paging_step st st' → mmu_ok F st → mmu_ok F st' ∧ cr3 st' = cr3 st.
Proof.
  induction 1 as [|st1 st2 st3 Hs _ IH]; intros Hok; [done|]. enough (mmu_ok F st2 ∧ cr3 st2 = cr3 st1) as [Hok2 <-] by auto.
  clear IH. destruct Hs as [st o st' Ho E|st virt e Hv Hw].
  - destruct (run_op_spec st o Hok Ho) as (st2 & E2 & ? & ? & _). rewrite E in E2. by injection E2 as <-.
  - split; [|done]. destruct Hok as [Hi Hc E3 E0 Ho Hs]. rewrite (walk_mapping st virt E3 (pi_pd _ Hi)) in Hw.
    split; try done; [by destruct Hi; split|]. intros a x Ha. cbn [tlb]. rewrite lookup_insert_Some.
    intros [[E <-]|[_ Hl]]; [|by apply Hc]. change (mapping st a = Some e). by rewrite (mapping_same_page st a virt).
Qed.

(** The state [paging_init] leaves. *)
Lemma init_mmu_ok st : pa_inv (pg_pa st) → (5 <= size (pa_free (pg_pa st)))%nat → F = pa_free (pg_pa st) →
  mmu_ok F (paging_init st).
Proof.
  intros Hp Hfree ->. destruct (paging_init_spec st Hp Hfree) as (Hs & H3 & H0 & Ht & _ & Hsub & _ & Htab).
  pose proof (is_inv _ _ Hs) as Hi. split; [done| |done| | |].
  - intros v e _. by rewrite Ht.
  - rewrite H0, Z.lor_spec. apply orb_true_r.
  - intros p Ho. pose proof (owned_page _ p Hi Ho) as Hpg.
    assert (in_pages (pa_free (pg_pa st)) p → p ∈ pa_free (pg_pa st)) as Hin.
    { intros (x & Hx & Hr). pose proof (pa_page (pg_pa st) x Hp Hx). assert (x = p) as <- by pg_lia. done. }
    destruct Ho as [E|[[i Hi']|Hf]]; [| |by apply Hsub]; (apply Hin, Htab; exists p).
    + split; [by left|pg_lia].
    + split; [right; by exists i|pg_lia].
  - intros p Ho. pose proof (owned_page _ p Hi Ho) as Hpg. exists (p + 3). split.
    + rewrite (is_mapped _ _ Hs p) by pg_lia. f_equal. pg_lia.
    + unfold PAGE_FRAME. change 0xFFFFF000 with (4294967296 - 2 ^ 12). rewrite land_high_mask by pg_lia.
      change (2 ^ 12) with 4096. pg_lia.
Qed.
End Ops.

Lemma paging0_mmu : mmu_ok (pa_free (pg_pa paging0)) (paging_init paging0).
Proof. apply init_mmu_ok; [apply boot_pmm_inv|apply boot_pmm_pages|reflexivity]. Qed.

(** ** Properties *)

(** C3: isolation: after [paging_init], calls of [paging_map] and [paging_unmap]
    that leave the pages of the page allocator mapped to themselves (as the
    kernel's own do, and as paging.h requires of its "identity mapping") never
    fault on a page table, and whatever their order and number, ring 3 can use
    a page only if one of them mapped that very page with [PAGE_USER]. *)
Theorem user_isolation {S} `{PageAllocator S} (st : paging S) ops :
  pa_inv (pg_pa st) → (5 <= size (pa_free (pg_pa st)))%nat → Forall (op_ok (pa_free (pg_pa st))) ops →
  ∃ st', run_ops (paging_init st) ops = Some st' ∧ cr3 st' = kernel_page_directory st' ∧
    ∀ w, u32 w → user_accessible st' w = true → Exists (opens w) ops.
Proof.
  intros Hp Hfree Hops. destruct (paging_init_spec st Hp Hfree) as (Hs & _).
  destruct (run_ops_spec _ ops _ (init_mmu_ok _ st Hp Hfree eq_refl) Hops) as (st' & E & Hok & _ & Hu).
  exists st'. split; [done|]. split; [apply Hok|]. intros w Hw Hacc. destruct (Hu w Hw Hacc) as [|Hi]; [done|].
  by rewrite init_user in Hi.
Qed.

Lemma user_isolation_witness :
  ∃ st', run_ops (paging_init paging0) [OpMap 0x200000 0x200000 6; OpMap 0x1400000 0x345000 2; OpUnmap 0x1400000] = Some st' ∧
    user_accessible st' 0x1400000 = false.
Proof.
  destruct (user_isolation paging0 [OpMap 0x200000 0x200000 6; OpMap 0x1400000 0x345000 2; OpUnmap 0x1400000])
    as (st' & E & _ & Hu).
  - apply boot_pmm_inv.
  - apply boot_pmm_pages.
  - assert (page_of 0x1400000 ∉ pa_free (pg_pa paging0)) as Hn.
    { intros Hin. pose proof (pa_page _ _ boot_pmm_inv Hin) as Hpg. change (page_of 0x1400000) with 0x1400000 in Hpg. pg_lia. }
    revert Hn. generalize (pa_free (pg_pa paging0)). intros F Hn.
    constructor; [|constructor; [|constructor; [|constructor]]]; unfold op_ok, u32.
    + split_and!; [lia..|reflexivity].
    + split_and!; [lia..|]. intros Hin. destruct (Hn Hin).
    + split; [lia|exact Hn].
  - exists st'. split; [exact E|]. destruct (user_accessible st' 0x1400000) eqn:Ha; [|reflexivity].
    specialize (Hu 0x1400000 ltac:(split; [discriminate|reflexivity]) Ha). exfalso. revert Hu.
    rewrite !Exists_cons, Exists_nil. cbn [opens]. intros [[H _]|[[_ H]|[[]|[]]]]; [revert H; vm_compute; discriminate|].
    revert H. vm_compute. discriminate.
Defined.

(** C9: the TLB never holds a stale translation: in every state reached from
    [paging_init] by calls that leave the pages of the page allocator mapped to
    themselves and by translations the processor caches in between, each cached
    entry is the entry the tables hold, and CR3 still points to the kernel's
    directory. *)
Theorem tlb_never_stale {S} `{PageAllocator S} (st st' : paging S) :
  pa_inv (pg_pa st) → (5 <= size (pa_free (pg_pa st)))%nat →
  rtc (paging_step (pa_free (pg_pa st))) (paging_init st) st' →
  paging_inv st' ∧ (∀ virt e, u32 virt → tlb st' !! (virt / PAGE_SIZE) = Some e → walk st' virt = Some e) ∧
  cr3 st' = kernel_page_directory st' ∧ cr3 st' = cr3 (paging_init st).
Proof.
  intros Hp Hfree Hst. destruct (paging_steps_ok _ _ _ Hst (init_mmu_ok _ st Hp Hfree eq_refl)) as [[Hi Hc E3 _ _ _] E].
  split_and!; try done. intros virt e Hv Ht. rewrite (walk_mapping st' virt E3 (pi_pd _ Hi)). by apply Hc.
Qed.

Lemma tlb_never_stale_witness :
  ∃ st', run_op (paging_init paging0) (OpMap 0x200000 0x200000 6) = Some st' ∧
    ∀ virt e, u32 virt → tlb st' !! (virt / PAGE_SIZE) = Some e → walk st' virt = Some e.
Proof.
  assert (op_ok (pa_free (pg_pa paging0)) (OpMap 0x200000 0x200000 6)) as Ho
    by (unfold op_ok, u32; split_and!; [lia..|reflexivity]).
  destruct (run_op_spec _ _ _ paging0_mmu Ho) as (st' & E & _).
  destruct (tlb_never_stale paging0 st') as (_ & Hc & _);
    [apply boot_pmm_inv|apply boot_pmm_pages|by eapply rtc_once, step_call|]. exists st'. split; [exact E|exact Hc].
Defined.


