(* ===== verification/Process.v ===== *)
(** * Processes (kernel/process.c, kernel/process.h, kernel/switch.asm)

    The process table, the round-robin scheduler and the context switch.  The
    processor is its eight general registers, the instruction pointer and the
    interrupt flag; stacks are in physical memory, and so is the [esp] field of
    each table entry, the one field whose address the code takes
    ([&old->esp]): entry [i] keeps it at [proc_table + 40 * i + 24].  The other
    fields are in the record [process_t].  Stack pages come from any
    [PageAllocator].

    The abstract view is a map from the slots that do not run to the registers
    and the address where they will go on ([frames]). *)

From stdpp Require Import gmap.
From S2P Require Import Prelude Mem Pmm.

Definition MAX_PROCESSES : Z := 16.

Inductive proc_state_t : Type :=
  PROC_UNUSED | PROC_READY | PROC_RUNNING | PROC_BLOCKED | PROC_TERMINATED.
#[export] Instance proc_state_t_eq_dec : EqDecision proc_state_t.
Proof. solve_decision. Defined.

(** [esp] is in memory; [name] holds the 16 characters of the array. *)
Record process_t := Process {
  pid : Z;
  name : list Z;
  state : proc_state_t;
  eip : Z;
  page_directory : Z;
  kernel_stack : Z
}.
Definition sizeof_process : Z := 40.
Definition offset_esp : Z := 24.

(** ** The processor *)

Record regs := Regs {
  r_edi : Z; r_esi : Z; r_ebp : Z; r_ebx : Z; r_edx : Z; r_ecx : Z; r_eax : Z
}.
Record cpu := Cpu { c_regs : regs; c_esp : Z; c_eip : Z; c_if : bool }.

Definition push (x : cpu * mem) (v : Z) : cpu * mem :=
  let '(c, m) := x in
  let sp := c_esp c ⊖ 4 in
  (Cpu (c_regs c) sp (c_eip c) (c_if c), store32 m sp v).

Definition pusha (x : cpu * mem) : cpu * mem :=
  let r := c_regs x.1 in
  let esp := c_esp x.1 in
  push (push (push (push (push (push (push (push x (r_eax r)) (r_ecx r)) (r_edx r)) (r_ebx r))
    esp) (r_ebp r)) (r_esi r)) (r_edi r).

(** The word for [esp] is skipped. *)
Definition popa (c : cpu) (m : mem) : cpu :=
  let sp := c_esp c in
  Cpu {| r_edi := load32 m sp; r_esi := load32 m (sp ⊕ 4); r_ebp := load32 m (sp ⊕ 8);
         r_ebx := load32 m (sp ⊕ 16); r_edx := load32 m (sp ⊕ 20);
         r_ecx := load32 m (sp ⊕ 24); r_eax := load32 m (sp ⊕ 28) |}
      (sp ⊕ 32) (c_eip c) (c_if c).

Definition ret (c : cpu) (m : mem) : cpu :=
  Cpu (c_regs c) (c_esp c ⊕ 4) (load32 m (c_esp c)) (c_if c).

(** The instructions of switch.asm; the return address is on the top of the
    stack and the two arguments below it. *)
Definition context_switch (x : cpu * mem) : cpu * mem :=
  let '(c, m) := pusha x in
  let eax := load32 m (c_esp c ⊕ 36) in
  let ecx := load32 m (c_esp c ⊕ 40) in
  let m := store32 m eax (c_esp c) in
  let r := c_regs c in
  let c := Cpu (Regs (r_edi r) (r_esi r) (r_ebp r) (r_ebx r) (r_edx r) ecx eax)
             ecx (c_eip c) (c_if c) in
  let c := popa c m in
  let c := Cpu (c_regs c) (c_esp c) (c_eip c) true in  (* sti *)
  (ret c m, m).

(** A C call with two arguments that will return to [ra]. *)
Definition call2 (x : cpu * mem) (a1 a2 ra : Z) : cpu * mem := push (push (push x a2) a1) ra.

(** ** The process table *)

Fixpoint find_first (p : Z → bool) (l : list Z) : option Z :=
  match l with
  | [] => None
  | i :: l => if p i then Some i else find_first p l
  end.

(** [for (i = 0; name[i] && i < 15; i++) p->name[i] = name[i]; p->name[i] = 0;]
    with [n] characters of room from index [i] on; [src] is what is left of
    the source string. *)
Fixpoint copy_name (dst src : list Z) (i : Z) (n : nat) : list Z :=
  match src, n with
  | ch :: src, S n => if ch =? 0 then updZ dst i 0 else copy_name (updZ dst i ch) src (i + 1) n
  | _, _ => updZ dst i 0
  end.

Definition proc0 : process_t := Process 0 (replicate 16 0) PROC_UNUSED 0 0 0.

(** The string literal "kernel". *)
Definition kernel_name : list Z := [107; 101; 114; 110; 101; 108].

Section Process.
Context {S : Type} `{PA : PageAllocator S}.
(** The address of the array [proc_table]. *)
Context (table_base : Z).

(** [current_proc] is NULL or points to a slot of the table. *)
Record procs := Procs {
  proc_table : list process_t;
  current_proc : option Z;
  next_pid : Z;
  pr_mem : mem;
  pr_pa : S
}.

Definition slot (st : procs) (i : Z) : process_t := nthZ proc0 (proc_table st) i.
Definition esp_addr (i : Z) : Z := table_base + sizeof_process * i + offset_esp.
Definition proc_esp (m : mem) (i : Z) : Z := load32 m (esp_addr i).
Definition set_esp (m : mem) (i v : Z) : mem := store32 m (esp_addr i) v.

Definition set_state (p : process_t) (s : proc_state_t) : process_t :=
  Process (pid p) (name p) s (eip p) (page_directory p) (kernel_stack p).
Definition update (t : list process_t) (i : Z) (f : process_t → process_t) : list process_t :=
  updZ t i (f (nthZ proc0 t i)).

Definition process_init (st : procs) : procs :=
  let t := fold_left (λ t i, update t i (λ p,
      Process 0 (name p) PROC_UNUSED (eip p) (page_directory p) (kernel_stack p)))
    (seqZ 0 MAX_PROCESSES) (proc_table st) in
  let t := update t 0 (λ p,
      Process (next_pid st) (copy_name (name p) kernel_name 0 15) PROC_RUNNING (eip p) 0 0x1F0000) in
  Procs t (Some 0) (next_pid st ⊕ 1) (set_esp (pr_mem st) 0 0x1F0000) (pr_pa st).

(** The initial frame: [*(--sp) = v] for the entry point and eight zeros. *)
Definition init_frame (m : mem) (top entry : Z) : mem * Z :=
  fold_left (λ '(m, sp) v, let sp := sp ⊖ 4 in (store32 m sp v, sp))
    [entry; 0; 0; 0; 0; 0; 0; 0; 0] (m, top).

(** Returns the pid (-1 on failure) and the new state. *)
Definition process_create (st : procs) (nm : list Z) (entry : Z) : Z * procs :=
  match find_first (λ i, bool_decide (state (slot st i) = PROC_UNUSED)) (seqZ 0 MAX_PROCESSES) with
  | None => (-1, st)
  | Some i =>
      let '(stack_page, pa) := pa_alloc (pr_pa st) in
      if stack_page =? 0
      then (-1, Procs (proc_table st) (current_proc st) (next_pid st) (pr_mem st) pa)
      else
        let '(m, sp) := init_frame (pr_mem st) (stack_page ⊕ PAGE_SIZE) entry in
        let t := update (proc_table st) i (λ p,
          Process (next_pid st) (copy_name (name p) nm 0 15) PROC_READY entry 0 stack_page) in
        (s32 (next_pid st), Procs t (current_proc st) (next_pid st ⊕ 1) (set_esp m i sp) pa)
  end.

Definition process_get_current (st : procs) : option Z := current_proc st.

Definition process_get (st : procs) (p : Z) : option Z :=
  find_first (λ i, negb (bool_decide (state (slot st i) = PROC_UNUSED)) && (pid (slot st i) =? p))
    (seqZ 0 MAX_PROCESSES).

(** The slot to switch to, -1 for none. *)
Definition next_slot (st : procs) (current_slot : Z) : Z :=
  default (-1) (find_first (λ idx, bool_decide (state (slot st idx) = PROC_READY))
    ((λ i, Z.rem (current_slot + i) MAX_PROCESSES) <$> seqZ 1 MAX_PROCESSES)).

(** [schedule] as called with the processor in state [c]; [ra] is the address
    its call of [context_switch] returns to. *)
Definition schedule (c : cpu) (st : procs) (ra : Z) : cpu * procs :=
  match current_proc st with
  | None => (c, st)
  | Some old =>
      let current_slot := default (-1) (find_first (λ i, i =? old) (seqZ 0 MAX_PROCESSES)) in
      let next := next_slot st current_slot in
      if (next <? 0) || (next =? current_slot) then (c, st)
      else
        let t := proc_table st in
        let t := if bool_decide (state (slot st old) = PROC_RUNNING)
                 then update t old (λ p, set_state p PROC_READY) else t in
        let t := update t next (λ p, set_state p PROC_RUNNING) in
        let '(c, m) := context_switch
                         (call2 (c, pr_mem st) (esp_addr old) (proc_esp (pr_mem st) next) ra) in
        (c, Procs t (Some next) (next_pid st) m (pr_pa st))
  end.
End Process.
Arguments procs : clear implicits.
