(* ===== verification/ProcessProps.v ===== *)
(** * Processes: context switch, invariant and scheduler

    The context switch saves the registers of the process that calls
    [schedule] on its own stack and restores those of the next one; the
    invariant ties the frames on the stacks of all processes that do not run
    to the abstract map [frames]; the scheduler is round-robin over the
    processes created. *)

From stdpp Require Import gmap relations.
From S2P Require Import Prelude Mem Pmm Process.

(** ** Frames on stacks *)

Definition regs_ok (r : regs) : Prop :=
  u32 (r_edi r) ∧ u32 (r_esi r) ∧ u32 (r_ebp r) ∧ u32 (r_ebx r) ∧ u32 (r_edx r) ∧
  u32 (r_ecx r) ∧ u32 (r_eax r).

(** The 36 bytes at [sp] that [popa; ret] consumes: [r] and the address [ra]. *)
Definition saved_frame (m : mem) (sp : Z) (r : regs) (ra : Z) : Prop :=
  load32 m sp = r_edi r ∧ load32 m (sp + 4) = r_esi r ∧ load32 m (sp + 8) = r_ebp r ∧
  load32 m (sp + 16) = r_ebx r ∧ load32 m (sp + 20) = r_edx r ∧
  load32 m (sp + 24) = r_ecx r ∧ load32 m (sp + 28) = r_eax r ∧ load32 m (sp + 32) = ra.

Definition apart (a n b k : Z) : Prop := a + n <= b ∨ b + k <= a.

Lemma saved_frame_ext m m' sp r ra :
  (∀ a, sp <= a < sp + 36 → load8 m' a = load8 m a) → saved_frame m sp r ra → saved_frame m' sp r ra.
Proof.
  intros H. unfold saved_frame.
  by rewrite !(load32_ext m' m) by (intros; apply H; lia).
Qed.

Lemma push_val c m v :
  4 <= c_esp c < 4294967296 →
  push (c, m) v = (Cpu (c_regs c) (c_esp c - 4) (c_eip c) (c_if c), store32 m (c_esp c - 4) v).
Proof. intros. unfold push. by rewrite w32_small by lia. Qed.

#[local] Opaque push.

(** Read a word through stores at other addresses. *)
Ltac through_stores :=
  repeat first
    [ rewrite load32_store32_eq by (unfold addr_ok in *; lia)
    | rewrite load32_store32_ne by (unfold addr_ok, apart in *; lia) ];
  rewrite ?w32_small by assumption.

(** The stack of the caller once [context_switch] has saved its registers. *)
Definition saved_mem (c : cpu) (m : mem) (a1 a2 ra : Z) : mem := snd (pusha (call2 (c, m) a1 a2 ra)).

(** Run the pushes of the call and of [pusha]. *)
Ltac run_pushes :=
  unfold saved_mem, call2, pusha; cbv zeta;
  repeat (rewrite push_val by (cbn [c_esp]; lia); cbn [fst snd c_esp c_regs c_eip c_if]).

Section Switch.
Context (c : cpu) (m : mem) (a1 a2 ra : Z).
Context (Hsp : 44 <= c_esp c < 4294967296) (Hr : regs_ok (c_regs c)) (Hra : u32 ra).
Context (Ha1 : u32 a1) (Ha2 : u32 a2).

Lemma saved_state :
  pusha (call2 (c, m) a1 a2 ra) =
    (Cpu (c_regs c) (c_esp c - 44) (c_eip c) (c_if c), saved_mem c m a1 a2 ra).
Proof.
  run_pushes. f_equal. f_equal. lia.
Qed.

Lemma saved_mem_words :
  let sp := c_esp c - 44 in let m' := saved_mem c m a1 a2 ra in
  saved_frame m' sp (c_regs c) ra ∧ load32 m' (sp + 36) = a1 ∧ load32 m' (sp + 40) = a2.
Proof.
  run_pushes.
  destruct Hr as (? & ? & ? & ? & ? & ? & ?). cbv zeta. unfold saved_frame.
  split_and!.
  all: repeat match goal with |- context [c_esp c - 44 + ?k] =>
         replace (c_esp c - 44 + k) with (c_esp c - (44 - k)) by lia end.
  all: repeat match goal with |- context [c_esp c - ?a - ?b] =>
         replace (c_esp c - a - b) with (c_esp c - (a + b)) by lia end.
  all: by through_stores.
Qed.

Lemma saved_mem_far b :
  addr_ok b 1 → ¬ (c_esp c - 44 <= b < c_esp c) → load8 (saved_mem c m a1 a2 ra) b = load8 m b.
Proof.
  intros Hb Hn. run_pushes.
  rewrite !load8_store32_far by (unfold addr_ok in *; lia). done.
Qed.

(** [context_switch(a1, a2)]: the frame at [a2] comes back to life, the
    caller's own frame is on its stack, [*a1] points to it, and nothing else
    changes. *)
Lemma context_switch_spec r' ra' :
  addr_ok a1 4 → apart a1 4 (c_esp c - 44) 44 →
  a2 + 36 < 4294967296 → apart a2 36 (c_esp c - 44) 44 → apart a2 36 a1 4 →
  saved_frame m a2 r' ra' →
  ∃ m', context_switch (call2 (c, m) a1 a2 ra) = (Cpu r' (a2 + 36) ra' true, m') ∧
    load32 m' a1 = c_esp c - 44 ∧ saved_frame m' (c_esp c - 44) (c_regs c) ra ∧
    (∀ b, addr_ok b 1 → ¬ (c_esp c - 44 <= b < c_esp c) → ¬ (a1 <= b < a1 + 4) →
       load8 m' b = load8 m b).
Proof.
  intros Ha1' Hap1 Hb2 Hap2 Hap3 Hf. destruct saved_mem_words as (Hown & Harg1 & Harg2).
  pose proof saved_mem_far as Hfar. unfold context_switch. rewrite saved_state.
  set (m1 := saved_mem c m a1 a2 ra) in *. cbn [c_esp c_regs c_eip c_if].
  rewrite !(w32_small (c_esp c - 44 + _)) by lia. rewrite Harg1, Harg2.
  set (m2 := store32 m1 a1 (c_esp c - 44)).
  assert (∀ b, addr_ok b 1 → ¬ (a1 <= b < a1 + 4) → load8 m2 b = load8 m1 b) as Hm2.
  { intros. by apply load8_store32_far. }
  assert (saved_frame m2 a2 r' ra') as (E0 & E1 & E2 & E3 & E4 & E5 & E6 & E7).
  { eapply saved_frame_ext; [|exact Hf]. intros b Hb. unfold apart, addr_ok, u32 in *.
    rewrite Hm2, Hfar by (unfold addr_ok; lia). done. }
  exists m2. split_and!.
  - unfold ret, popa. cbn [c_esp c_regs c_eip c_if]. unfold u32 in *.
    rewrite !(w32_small (a2 + _)) by lia. rewrite E0, E1, E2, E3, E4, E5, E6, E7.
    rewrite (w32_small (a2 + 32 + 4)) by lia. replace (a2 + 32 + 4) with (a2 + 36) by lia.
    by destruct r'.
  - unfold m2. rewrite load32_store32_eq by done. apply w32_small. lia.
  - eapply saved_frame_ext; [|exact Hown]. intros b Hb. unfold apart, addr_ok, u32 in *.
    apply Hm2; unfold addr_ok; lia.
  - intros b Hb Hn1 Hn2. rewrite Hm2, Hfar by done. done.
Qed.
End Switch.
#[local] Opaque context_switch.

(** ** The invariant *)

Section Inv.
Context {S : Type} `{PA : PageAllocator S}.
(** The process table is at [base]; the boot stack is [k0, 0x1F0000). *)
Context (base k0 : Z).
Implicit Types st : procs S.

Definition TABLE_BYTES : Z := sizeof_process * MAX_PROCESSES.

Definition layout_ok : Prop :=
  0 <= base ∧ base + TABLE_BYTES <= 4294967296 ∧ 0 <= k0 ∧ apart base TABLE_BYTES k0 (0x1F0000 - k0).

(** The stack of slot [i]: its first byte and its size. *)
Definition stack_lo st (i : Z) : Z := if i =? 0 then k0 else kernel_stack (slot st i).
Definition stack_len (i : Z) : Z := if i =? 0 then 0x1F0000 - k0 else PAGE_SIZE.
Definition in_stack st (i a n : Z) : Prop :=
  stack_lo st i <= a ∧ a + n <= stack_lo st i + stack_len i.

Record proc_inv st (frames : gmap Z (regs * Z)) : Prop := {
  pv_len : length (proc_table st) = 16%nat;
  pv_pa : pa_inv (pr_pa st);
  pv_n : 1 <= next_pid st <= MAX_PROCESSES;
  pv_cur : ∃ c, current_proc st = Some c ∧ 0 <= c < next_pid st ∧ state (slot st c) = PROC_RUNNING;
  pv_pid i : 0 <= i < next_pid st → pid (slot st i) = i;
  pv_ready i : 0 <= i < next_pid st → current_proc st ≠ Some i → state (slot st i) = PROC_READY;
  pv_unused i : next_pid st <= i < MAX_PROCESSES → state (slot st i) = PROC_UNUSED;
  pv_stack i : 1 <= i < next_pid st →
    page_ok (kernel_stack (slot st i)) ∧ (kernel_stack (slot st i) ∉ pa_free (pr_pa st)) ∧
    apart (kernel_stack (slot st i)) PAGE_SIZE base TABLE_BYTES ∧
    apart (kernel_stack (slot st i)) PAGE_SIZE k0 (0x1F0000 - k0);
  pv_stack_ne i j : 1 <= i < next_pid st → 1 <= j < next_pid st →
    kernel_stack (slot st i) = kernel_stack (slot st j) → i = j;
  pv_free a : a ∈ pa_free (pr_pa st) → apart a PAGE_SIZE base TABLE_BYTES;
  pv_frame i r ra : frames !! i = Some (r, ra) →
    saved_frame (pr_mem st) (proc_esp base (pr_mem st) i) r ra ∧
    in_stack st i (proc_esp base (pr_mem st) i) 36;
  pv_dom i : is_Some (frames !! i) ↔ 0 <= i < next_pid st ∧ current_proc st ≠ Some i
}.

Ltac pr_lia :=
  unfold in_stack, stack_lo, stack_len, apart, page_ok, addr_ok, u32, esp_addr, layout_ok,
    TABLE_BYTES, sizeof_process, offset_esp, MAX_PROCESSES in *;
  change TOTAL_MEMORY with 16777216 in *; change PAGE_SIZE with 4096 in *; lia.

Lemma esp_addr_ok i : layout_ok → 0 <= i < MAX_PROCESSES → addr_ok (esp_addr base i) 4.
Proof. intros. pr_lia. Qed.

(** The stacks of two processes are apart, and apart from the table. *)
Lemma stacks_apart st frames i j :
  proc_inv st frames → 0 <= i < next_pid st → 0 <= j < next_pid st → i ≠ j →
  apart (stack_lo st i) (stack_len i) (stack_lo st j) (stack_len j).
Proof.
  intros Hi Hri Hrj Hne. unfold stack_lo, stack_len.
  destruct (Z.eqb_spec i 0), (Z.eqb_spec j 0); try lia.
  - destruct (pv_stack _ _ Hi j ltac:(lia)) as (_ & _ & _ & Hj). pr_lia.
  - destruct (pv_stack _ _ Hi i ltac:(lia)) as (_ & _ & _ & Hj). pr_lia.
  - destruct (pv_stack _ _ Hi j ltac:(lia)) as (Hpj & _).
    destruct (pv_stack _ _ Hi i ltac:(lia)) as (Hpi & _).
    assert (kernel_stack (slot st i) ≠ kernel_stack (slot st j)).
    { intros E. apply Hne. apply (pv_stack_ne _ _ Hi); [lia..|done]. }
    destruct Hpi as (Hmi & _), Hpj as (Hmj & _). unfold apart. change PAGE_SIZE with 4096 in *. zdm.
Qed.

Lemma stack_table st frames i :
  layout_ok → proc_inv st frames → 0 <= i < next_pid st →
  apart (stack_lo st i) (stack_len i) base TABLE_BYTES ∧
  0 <= stack_lo st i ∧ stack_lo st i + stack_len i <= 16777216.
Proof.
  intros Hl Hi Hr. unfold stack_lo, stack_len. destruct (Z.eqb_spec i 0); [|].
  - destruct Hl as (? & ? & ? & ?). pose proof (pv_n _ _ Hi).
    split_and!; [|done|lia]. unfold apart in *. lia.
  - destruct (pv_stack _ _ Hi i ltac:(lia)) as (Hp & _ & Hb & _). split; [done|]. pr_lia.
Qed.

Lemma slot_update t i j f :
  length t = 16%nat → 0 <= i < MAX_PROCESSES →
  nthZ proc0 (update t i f) j = if decide (j = i) then f (nthZ proc0 t i) else nthZ proc0 t j.
Proof.
  intros Hl Hi. unfold update. case_decide as Hd.
  - subst. apply nthZ_updZ_eq. rewrite Hl. unfold MAX_PROCESSES in *. lia.
  - by apply nthZ_updZ_ne.
Qed.

(** ** Searching the table *)

Lemma find_first_Some p l i : find_first p l = Some i → i ∈ l ∧ p i = true.
Proof.
  induction l as [|x l IH]; simpl; [done|]. destruct (p x) eqn:E.
  - intros [= <-]. split; [by left|done].
  - intros [? ?]%IH. split; [by right|done].
Qed.
Lemma find_first_None p l : find_first p l = None → ∀ i, i ∈ l → p i = false.
Proof.
  induction l as [|x l IH]; simpl; [set_solver|]. destruct (p x) eqn:E; [done|].
  intros H i [->|]%elem_of_cons; auto.
Qed.
Lemma find_first_app p l1 x l2 :
  (∀ i, i ∈ l1 → p i = false) → p x = true → find_first p (l1 ++ x :: l2) = Some x.
Proof.
  intros Hl Hx. induction l1 as [|y l1 IH]; simpl; [by rewrite Hx|].
  rewrite Hl by set_solver. apply IH. set_solver.
Qed.

(** The first hit in an integer range, seen through [f]. *)
Lemma find_first_range p (f : Z → Z) a n k :
  a <= k < a + n → p (f k) = true → (∀ i, a <= i < k → p (f i) = false) →
  find_first p (f <$> seqZ a n) = Some (f k).
Proof.
  intros Hk Hp Hn. replace n with ((k - a) + (n - (k - a))) by lia.
  rewrite seqZ_app by lia. replace (a + (k - a)) with k by lia.
  rewrite (seqZ_cons k) by lia. rewrite fmap_app, fmap_cons. apply find_first_app; [|done]. intros i (j & -> & Hj%elem_of_seqZ)%list_elem_of_fmap. apply Hn. lia.
Qed.
Lemma find_first_seqZ p a n k :
  a <= k < a + n → p k = true → (∀ i, a <= i < k → p i = false) → find_first p (seqZ a n) = Some k.
Proof.
  intros. rewrite <-(list_fmap_id (seqZ a n)). by apply (find_first_range p id).
Qed.

(** The processes form a ring of [next_pid] slots. *)
Lemma next_slot_spec st frames c :
  proc_inv st frames → current_proc st = Some c → 1 < next_pid st →
  next_slot st c = (c + 1) mod next_pid st.
Proof.
  intros Hi Hc Hn. destruct (pv_cur _ _ Hi) as (c' & Hc' & Hr & Hrun).
  assert (c' = c) as -> by congruence. pose proof (pv_n _ _ Hi). unfold MAX_PROCESSES in *.
  unfold next_slot. change MAX_PROCESSES with 16.
  assert (∀ i, 0 <= i < next_pid st → i ≠ c →
            bool_decide (state (slot st i) = PROC_READY) = true) as Hready.
  { intros i Hri Hne. apply bool_decide_true. apply (pv_ready _ _ Hi); [done|congruence]. }
  destruct (decide (c + 1 < next_pid st)).
  - rewrite (find_first_range _ (λ i, Z.rem (c + i) 16) 1 16 1); [|lia| |lia].
    + simpl. rewrite Z.rem_small, Z.mod_small by lia. done.
    + rewrite Z.rem_small by lia. apply Hready; lia.
  - assert (next_pid st = c + 1) as E by lia. rewrite E, Z.mod_same by lia.
    rewrite (find_first_range _ (λ i, Z.rem (c + i) 16) 1 16 (16 - c)); [|lia| |].
    + simpl. replace (c + (16 - c)) with 16 by lia. done.
    + replace (c + (16 - c)) with 16 by lia. apply (Hready 0); lia.
    + intros i Hri. rewrite Z.rem_small by lia. apply bool_decide_false.
      by rewrite (pv_unused _ _ Hi) by (unfold MAX_PROCESSES; lia).
Qed.

Lemma next_slot_none st frames c :
  proc_inv st frames → current_proc st = Some c → next_pid st = 1 → next_slot st c = -1.
Proof.
  intros Hi Hc Hn. destruct (pv_cur _ _ Hi) as (c' & Hc' & Hr & Hrun).
  assert (c' = c) as -> by congruence. assert (c = 0) as -> by lia.
  unfold next_slot. destruct (find_first _ _) as [i|] eqn:E; [|done]. exfalso.
  apply find_first_Some in E as [(j & -> & Hj%elem_of_seqZ)%list_elem_of_fmap Hp%bool_decide_eq_true].
  unfold MAX_PROCESSES in *.
  destruct (decide (j = 16)) as [->|]; [change (Z.rem (0 + 16) 16) with 0 in Hp; congruence|].
  rewrite Z.rem_small in Hp by lia. rewrite (pv_unused _ _ Hi) in Hp by (unfold MAX_PROCESSES; lia). done.
Qed.

Lemma find_current c : 0 <= c < MAX_PROCESSES → find_first (λ i, i =? c) (seqZ 0 MAX_PROCESSES) = Some c.
Proof.
  intros Hc. apply find_first_seqZ; [lia|apply Z.eqb_refl|]. intros i Hi. apply Z.eqb_neq. lia.
Qed.

(** ** The scheduler *)

(** Process [i] cannot tell [st'] from [st]: its stack, all of it, and its
    saved stack pointer are the same. *)
Definition undisturbed st st' (i : Z) : Prop :=
  stack_lo st' i = stack_lo st i ∧
  proc_esp base (pr_mem st') i = proc_esp base (pr_mem st) i ∧
  ∀ b, stack_lo st i <= b < stack_lo st i + stack_len i →
    load8 (pr_mem st') b = load8 (pr_mem st) b.

Lemma undisturbed_trans st1 st2 st3 i :
  undisturbed st1 st2 i → undisturbed st2 st3 i → undisturbed st1 st3 i.
Proof.
  intros (L & E & B) (L' & E' & B'). split_and!; try congruence.
  intros b Hb. rewrite B' by (rewrite L; done). by apply B.
Qed.

Lemma undisturbed_frame st st' frames i r ra :
  proc_inv st frames → frames !! i = Some (r, ra) → undisturbed st st' i →
  saved_frame (pr_mem st') (proc_esp base (pr_mem st') i) r ra ∧
  in_stack st' i (proc_esp base (pr_mem st') i) 36.
Proof.
  intros Hi Hf (Hlo & He & Hb). destruct (pv_frame _ _ Hi i r ra Hf) as [Hfr Hin]. rewrite He.
  split; [|unfold in_stack in *; rewrite Hlo; exact Hin].
  eapply saved_frame_ext; [|exact Hfr]. intros b Hr. apply Hb. unfold in_stack in Hin. lia.
Qed.

Section Schedule.
Context (c : cpu) (st : procs S) (frames : gmap Z (regs * Z)) (ra cur : Z).
Context (Hl : layout_ok) (Hi : proc_inv st frames) (Hcur : current_proc st = Some cur).
Context (Hst : in_stack st cur (c_esp c - 44) 44) (Hr : regs_ok (c_regs c)) (Hra : u32 ra).
Context (Hn : 1 < next_pid st).
Let nx := (cur + 1) mod next_pid st.

Lemma sched_ranges : 0 <= cur < next_pid st ∧ 0 <= nx < next_pid st ∧ nx ≠ cur ∧ next_pid st <= 16.
Proof.
  destruct (pv_cur _ _ Hi) as (c' & Hc' & Hrc & _). assert (c' = cur) as -> by congruence.
  pose proof (pv_n _ _ Hi). unfold MAX_PROCESSES in *. unfold nx.
  destruct (decide (cur + 1 = next_pid st)) as [E|].
  - rewrite E, Z.mod_same by lia. lia.
  - rewrite Z.mod_small by lia. lia.
Qed.

Lemma sched_next : ∃ r' ra', frames !! nx = Some (r', ra').
Proof.
  destruct sched_ranges as (? & ? & ? & _). destruct (pv_dom _ _ Hi nx) as [_ [[r' ra'] E]]; [|eauto].
  split; [done|congruence].
Qed.

(** The switch itself, on memory. *)
Lemma sched_switch r' ra' :
  frames !! nx = Some (r', ra') →
  ∃ m', context_switch (call2 (c, pr_mem st) (esp_addr base cur) (proc_esp base (pr_mem st) nx) ra) =
          (Cpu r' (proc_esp base (pr_mem st) nx + 36) ra' true, m') ∧
    proc_esp base m' cur = c_esp c - 44 ∧ saved_frame m' (c_esp c - 44) (c_regs c) ra ∧
    (∀ b, addr_ok b 1 → ¬ (c_esp c - 44 <= b < c_esp c) →
       ¬ (esp_addr base cur <= b < esp_addr base cur + 4) → load8 m' b = load8 (pr_mem st) b).
Proof.
  intros Hf. destruct sched_ranges as (Hrc & Hrn & Hne & H16).
  destruct (pv_frame _ _ Hi nx r' ra' Hf) as [Hfr Hin].
  destruct (stack_table st frames cur Hl Hi Hrc) as (Htc & Hc0 & Hc1).
  destruct (stack_table st frames nx Hl Hi Hrn) as (Htn & Hn0 & Hn1).
  pose proof (stacks_apart st frames nx cur Hi Hrn Hrc Hne) as Hap.
  unfold in_stack in Hst, Hin.
  destruct (context_switch_spec c (pr_mem st) (esp_addr base cur) (proc_esp base (pr_mem st) nx) ra)
    with (r' := r') (ra' := ra') as (m' & E & Hesp & Hown & Hfar).
  all: try assumption. all: try apply load32_range.
  all: try (clear Hfr Hi; set (e := proc_esp _ _ _) in *; pr_lia).
  exists m'. split_and!; assumption.
Qed.

(** The table after the two state changes, and the state with memory [m']. *)
Let t1 := update (proc_table st) cur (λ p, set_state p PROC_READY).
Let st1 m' := Procs (update t1 nx (λ p, set_state p PROC_RUNNING)) (Some nx) (next_pid st) m' (pr_pa st).

Lemma sched_slot m' j :
  slot (st1 m') j =
    if decide (j = nx) then set_state (slot st j) PROC_RUNNING
    else if decide (j = cur) then set_state (slot st j) PROC_READY else slot st j.
Proof.
  destruct sched_ranges as (Hrc & Hrn & Hne & H16).
  assert (length t1 = 16%nat) as Hl1 by (unfold t1, update; rewrite length_updZ; apply Hi).
  unfold slot at 1. cbn [proc_table st1].
  rewrite slot_update by (exact Hl1 || unfold MAX_PROCESSES; lia).
  unfold t1. rewrite !slot_update by (exact (pv_len _ _ Hi) || unfold MAX_PROCESSES; lia).
  unfold slot. repeat case_decide; congruence.
Qed.

Lemma sched_same m' j :
  pid (slot (st1 m') j) = pid (slot st j) ∧ kernel_stack (slot (st1 m') j) = kernel_stack (slot st j).
Proof. rewrite sched_slot. by repeat case_decide. Qed.

(** [schedule] is that state change and the switch. *)
Lemma sched_code c' m' :
  context_switch (call2 (c, pr_mem st) (esp_addr base cur) (proc_esp base (pr_mem st) nx) ra) = (c', m') →
  schedule base c st ra = (c', st1 m').
Proof.
  intros Hsw. destruct sched_ranges as (Hrc & Hrn & Hne & H16).
  destruct (pv_cur _ _ Hi) as (cu & Hcu & _ & Hrun). assert (cu = cur) as -> by congruence.
  unfold schedule. rewrite Hcur, find_current by (unfold MAX_PROCESSES; lia).
  change (default (-1) (Some cur)) with cur.
  rewrite (next_slot_spec st frames) by assumption. fold nx.
  bdestr (nx <? 0); [lia|]. bdestr (nx =? cur); [lia|]. cbn [orb].
  rewrite bool_decide_true by assumption. fold t1. rewrite Hsw. reflexivity.
Qed.

Section Result.
Context (m' : mem).
Context (Hesp : proc_esp base m' cur = c_esp c - 44).
Context (Hown : saved_frame m' (c_esp c - 44) (c_regs c) ra).
Context (Hfar : ∀ b, addr_ok b 1 → ¬ (c_esp c - 44 <= b < c_esp c) →
  ¬ (esp_addr base cur <= b < esp_addr base cur + 4) → load8 m' b = load8 (pr_mem st) b).

Lemma sched_undisturbed i : 0 <= i < next_pid st → i ≠ cur → undisturbed st (st1 m') i.
Proof.
  intros Hri Hic. destruct sched_ranges as (Hrc & Hrn & Hne & H16).
  destruct (stack_table st frames cur Hl Hi Hrc) as (Htc & Hc0 & Hc1).
  pose proof (stacks_apart st frames i cur Hi Hri Hrc Hic) as Hap.
  destruct (stack_table st frames i Hl Hi Hri) as (Hti & Hi0 & Hi1). split_and!.
  - unfold stack_lo. by destruct (sched_same m' i) as [_ ->].
  - apply load32_ext. intros b Hb. apply Hfar; clear Hi; pr_lia.
  - intros b Hb. apply Hfar; clear Hi; pr_lia.
Qed.

Lemma sched_inv : proc_inv (st1 m') (<[cur := (c_regs c, ra)]> (delete nx frames)).
Proof.
  destruct sched_ranges as (Hrc & Hrn & Hne & H16).
  split; cbn [st1 pr_pa next_pid pr_mem current_proc]; try apply Hi.
  - unfold st1, update. cbn [proc_table]. rewrite length_updZ. unfold t1, update.
    rewrite length_updZ. apply Hi.
  - exists nx. split_and!; try done; try lia. rewrite sched_slot. by rewrite decide_True.
  - intros i Hri. destruct (sched_same m' i) as [-> _]. by apply (pv_pid _ _ Hi).
  - intros i Hri Hin. rewrite sched_slot. rewrite decide_False by congruence. case_decide; [done|].
    apply (pv_ready _ _ Hi); [done|congruence].
  - intros i Hri. rewrite sched_slot. rewrite !decide_False by lia. by apply (pv_unused _ _ Hi).
  - intros i Hri. destruct (sched_same m' i) as [_ ->]. by apply (pv_stack _ _ Hi).
  - intros i j Hri Hrj. destruct (sched_same m' i) as [_ ->], (sched_same m' j) as [_ ->].
    by apply (pv_stack_ne _ _ Hi).
  - intros i r x. rewrite lookup_insert_Some, lookup_delete_Some.
    intros [[<- [= <- <-]]|(Hic & Hin & Hfi)].
    { rewrite Hesp. split; [done|]. destruct Hst as [? ?]. unfold in_stack, stack_lo in *.
      destruct (sched_same m' cur) as [_ ->]. lia. }
    destruct (proj1 (pv_dom _ _ Hi i)) as [Hri _]; [eauto|].
    eapply (undisturbed_frame st (st1 m')); [done|done|]. apply sched_undisturbed; [done|congruence].
  - intros i. destruct (decide (i = cur)) as [->|Hic].
    + rewrite lookup_insert_eq. split; [intros _; split; [done|congruence]|eauto].
    + rewrite lookup_insert_ne by done. destruct (decide (i = nx)) as [->|Hin].
      * rewrite lookup_delete_eq. split; [intros [? ?]; done|intros [_ ?]; done].
      * rewrite lookup_delete_ne by done. rewrite (pv_dom _ _ Hi). split; intros [? ?]; split; congruence || done.
Qed.
End Result.

Lemma schedule_spec :
  ∃ r' ra' st', frames !! nx = Some (r', ra') ∧
    schedule base c st ra = (Cpu r' (proc_esp base (pr_mem st) nx + 36) ra' true, st') ∧
    current_proc st' = Some nx ∧ next_pid st' = next_pid st ∧ stack_lo st' cur = stack_lo st cur ∧
    (∀ i, 0 <= i < next_pid st → i ≠ cur → undisturbed st st' i) ∧
    proc_esp base (pr_mem st') cur = c_esp c - 44 ∧
    (∀ b, stack_lo st cur <= b < stack_lo st cur + stack_len cur → ¬ (c_esp c - 44 <= b < c_esp c) →
       load8 (pr_mem st') b = load8 (pr_mem st) b) ∧
    proc_inv st' (<[cur := (c_regs c, ra)]> (delete nx frames)).
Proof.
  destruct sched_next as (r' & ra' & Hf). destruct (sched_switch r' ra' Hf) as (m' & Hsw & Hesp & Hown & Hfar).
  destruct sched_ranges as (Hrc & Hrn & Hne & H16).
  exists r', ra', (st1 m'). split_and!; try assumption; try reflexivity.
  - by apply sched_code.
  - unfold stack_lo. by destruct (sched_same m' cur) as [_ ->].
  - intros i Hri Hic. by apply sched_undisturbed.
  - intros b Hb Hnb. destruct (stack_table st frames cur Hl Hi Hrc) as (Htc & Hc0 & Hc1).
    apply Hfar; clear Hi Hsw; pr_lia.
  - by apply sched_inv.
Qed.
End Schedule.

Lemma schedule_idle c st frames ra :
  proc_inv st frames → next_pid st = 1 → schedule base c st ra = (c, st).
Proof.
  intros Hi Hn. destruct (pv_cur _ _ Hi) as (cur & Hcur & Hr & _). unfold schedule.
  rewrite Hcur, find_current by (unfold MAX_PROCESSES; lia).
    change (default (-1) (Some cur)) with cur.
  by rewrite (next_slot_none st frames).
Qed.
End Inv.
