(* ===== verification/ProcessRun.v ===== *)
(** * Processes: creation, runs and properties

    [process_init] and [process_create] establish and keep the invariant; a
    run of the system interleaves the running process, [process_create] and
    [schedule], and the theorems on runs are at the end of the file. *)

From stdpp Require Import gmap relations.
From S2P Require Import Prelude Mem Pmm Process ProcessProps.

(** ** The initial frame and the name *)

Definition zero_regs : regs := Regs 0 0 0 0 0 0 0.

Lemma init_frame_spec m top entry :
  36 <= top < 4294967296 → u32 entry →
  ∃ m', init_frame m top entry = (m', top - 36) ∧ saved_frame m' (top - 36) zero_regs entry ∧
    (∀ b, addr_ok b 1 → ¬ (top - 36 <= b < top) → load8 m' b = load8 m b).
Proof.
  intros Ht He. unfold init_frame. cbn [fold_left]. rewrite !(w32_small (_ - 4)) by lia.
  eexists. split; [f_equal; lia|].
  repeat match goal with |- context [top - ?a - ?b] =>
    replace (top - a - b) with (top - (a + b)) by lia end.
  split.
  - unfold saved_frame, zero_regs; cbn [r_edi r_esi r_ebp r_ebx r_edx r_ecx r_eax].
    repeat match goal with |- context [top - 36 + ?k] =>
      replace (top - 36 + k) with (top - (36 - k)) by lia end.
    split_and!; by through_stores.
  - intros b Hb Hn. rewrite !load8_store32_far by (unfold addr_ok in *; lia). done.
Qed.

Lemma copy_name_shape src : ∀ dst n k,
  (k + n < length dst)%nat →
  ∃ rest, copy_name dst src (Z.of_nat k) n = take k dst ++ take n (c_string src) ++ 0 :: rest.
Proof.
  assert (∀ (dst : list Z) (k : nat) x, (k < length dst)%nat →
            ∃ rest, updZ dst (Z.of_nat k) x = take k dst ++ x :: rest) as Hupd.
  { intros dst k x Hk. exists (drop (S k) dst). unfold updZ. rewrite decide_True by lia.
    rewrite Nat2Z.id. by apply insert_take_drop. }
  induction src as [|ch src IH]; intros dst n k Hk; simpl.
  { rewrite take_nil. apply Hupd. lia. }
  destruct n as [|n]; [apply Hupd; lia|].
  destruct (Z.eqb_spec ch 0); [rewrite take_nil; apply Hupd; lia|].
  replace (Z.of_nat k + 1) with (Z.of_nat (S k)) by lia.
  destruct (IH (updZ dst (Z.of_nat k) ch) n (S k)) as [rest ->]; [rewrite length_updZ; lia|].
  exists rest. unfold updZ. rewrite decide_True, Nat2Z.id by lia.
  rewrite insert_take_drop by lia.
  rewrite take_app, length_take_le, take_take by lia.
  replace (S k - k)%nat with 1%nat by lia. rewrite Nat.min_r by lia. simpl. by rewrite <-app_assoc.
Qed.

(** A name is kept up to 15 characters. *)
Lemma copy_name_string dst src :
  length dst = 16%nat → c_string (copy_name dst src 0 15) = take 15 (c_string src).
Proof.
  intros Hl. destruct (copy_name_shape src dst 15 0) as [rest E]; [lia|].
  change (Z.of_nat 0) with 0 in E. rewrite E. cbn [take app].
  apply c_string_app. apply Forall_take, c_string_nonzero.
Qed.

Section Create.
Context {S : Type} `{PA : PageAllocator S}.
Context (base k0 : Z).
Implicit Types st : procs S.
Ltac pr_lia :=
  unfold in_stack, stack_lo, stack_len, apart, page_ok, addr_ok, u32, esp_addr, layout_ok,
    TABLE_BYTES, sizeof_process, offset_esp, MAX_PROCESSES in *;
  change TOTAL_MEMORY with 16777216 in *; change PAGE_SIZE with 4096 in *; lia.

Lemma free_slot st frames :
  proc_inv base k0 st frames → next_pid st < MAX_PROCESSES →
  find_first (λ i, bool_decide (state (slot st i) = PROC_UNUSED)) (seqZ 0 MAX_PROCESSES) =
    Some (next_pid st).
Proof.
  intros Hi Hn. pose proof (pv_n _ _ _ _ Hi). apply find_first_seqZ; [lia| |].
  - apply bool_decide_true, (pv_unused _ _ _ _ Hi). lia.
  - intros i Hri. apply bool_decide_false. destruct (pv_cur _ _ _ _ Hi) as (c & Hc & _ & Hrun).
    destruct (decide (current_proc st = Some i)) as [E|E].
    + assert (c = i) as <- by congruence. congruence.
    + by rewrite (pv_ready _ _ _ _ Hi) by (done || lia).
Qed.

Lemma no_free_slot st frames :
  proc_inv base k0 st frames → next_pid st = MAX_PROCESSES →
  find_first (λ i, bool_decide (state (slot st i) = PROC_UNUSED)) (seqZ 0 MAX_PROCESSES) = None.
Proof.
  intros Hi Hn. destruct (find_first _ _) as [i|] eqn:E; [|done]. exfalso.
  apply find_first_Some in E as [Hri%elem_of_seqZ Hu%bool_decide_eq_true].
  destruct (pv_cur _ _ _ _ Hi) as (c & Hc & _ & Hrun).
  destruct (decide (current_proc st = Some i)) as [E|E].
  - assert (c = i) as <- by congruence. congruence.
  - rewrite (pv_ready _ _ _ _ Hi) in Hu by (done || lia). done.
Qed.

(** *** A new process *)

Section New.
Context (st : procs S) (frames : gmap Z (regs * Z)) (nm : list Z) (entry pg : Z) (pa' : S).
Context (Hl : layout_ok base k0) (Hi : proc_inv base k0 st frames) (Hn : next_pid st < MAX_PROCESSES).
Context (He : u32 entry) (Ha : pa_alloc (pr_pa st) = (pg, pa')) (Hpg : pg ≠ 0).
(** The page is not part of the boot stack. *)
Context (Hk : apart pg PAGE_SIZE k0 (0x1F0000 - k0)).
Let n := next_pid st.
Let t' := update (proc_table st) n (λ p,
  Process n (copy_name (name p) nm 0 15) PROC_READY entry 0 pg).

Lemma new_page :
  page_ok pg ∧ pa_inv pa' ∧ pg ∈ pa_free (pr_pa st) ∧ pa_free pa' = pa_free (pr_pa st) ∖ {[pg]} ∧
  apart pg PAGE_SIZE base TABLE_BYTES.
Proof.
  destruct (pa_alloc_ok (pr_pa st) pg pa') as (? & Hin & ?); [apply Hi|done..|].
  split_and!; try done. 1: by apply (pa_page (pr_pa st)); [apply Hi|]. by apply (pv_free _ _ _ _ Hi).
Qed.

Lemma new_slot m j :
  slot (Procs t' (current_proc st) (n + 1) m pa') j =
    if decide (j = n) then Process n (copy_name (name (slot st n)) nm 0 15) PROC_READY entry 0 pg
    else slot st j.
Proof.
  pose proof (pv_n _ _ _ _ Hi). unfold slot at 1. cbn [proc_table]. unfold t'.
  rewrite slot_update by (apply Hi || unfold n; lia). done.
Qed.

Lemma new_stack_ne i : 1 <= i < n → kernel_stack (slot st i) ≠ pg.
Proof.
  intros Hri E. destruct (pv_stack _ _ _ _ Hi i Hri) as (_ & Hfree & _).
  destruct new_page as (_ & _ & Hin & _). by rewrite E in Hfree.
Qed.

(** The memory with the initial frame and the saved stack pointer. *)
Context (m1 m' : mem).
Context (Hm1 : ∀ b, addr_ok b 1 → ¬ (pg + 4060 <= b < pg + 4096) → load8 m1 b = load8 (pr_mem st) b).
Context (Hfr : saved_frame m1 (pg + 4060) zero_regs entry).
Context (Hm' : m' = set_esp base m1 n (pg + 4060)).
Let st' := Procs t' (current_proc st) (n + 1) m' pa'.

Lemma new_mem b :
  addr_ok b 1 → ¬ (pg + 4060 <= b < pg + 4096) → ¬ (esp_addr base n <= b < esp_addr base n + 4) →
  load8 m' b = load8 (pr_mem st) b.
Proof.
  intros Hb H1 H2. pose proof (pv_n _ _ _ _ Hi). rewrite Hm'. unfold set_esp.
  rewrite load8_store32_far; [by apply Hm1| |done|done]. apply esp_addr_ok with k0; [done|unfold n; lia].
Qed.

Lemma new_undisturbed i : 0 <= i < n → undisturbed base k0 st st' i.
Proof.
  intros Hri. pose proof (pv_n _ _ _ _ Hi) as Hn'.
  destruct new_page as (Hpok & _ & _ & _ & Hpt).
  destruct (stack_table base k0 st frames i Hl Hi Hri) as (Hti & Hi0 & Hi1).
  assert (apart (stack_lo k0 st i) (stack_len k0 i) pg PAGE_SIZE) as Hap.
  { unfold stack_lo, stack_len. destruct (Z.eqb_spec i 0); [pr_lia|].
    destruct (pv_stack _ _ _ _ Hi i ltac:(unfold n in *; lia)) as ((Hmod & _) & _).
    pose proof (new_stack_ne i ltac:(lia)). destruct Hpok as (Hmod' & _).
    unfold apart. change PAGE_SIZE with 4096 in *. zdm. }
  split_and!.
  - unfold stack_lo, st'. by rewrite new_slot, decide_False by lia.
  - apply load32_ext. intros b Hb. apply new_mem; clear Hi; unfold n in *; pr_lia.
  - intros b Hb. apply new_mem; clear Hi; unfold n in *; pr_lia.
Qed.

Lemma new_inv : proc_inv base k0 st' (<[n := (zero_regs, entry)]> frames).
Proof.
  pose proof (pv_n _ _ _ _ Hi) as Hn'. destruct new_page as (Hpok & Hpa & Hin & Hfree & Hpt).
  assert (proc_esp base m' n = pg + 4060) as Hesp.
  { rewrite Hm'. unfold proc_esp, set_esp. rewrite load32_store32_eq by (apply esp_addr_ok with k0; [done|unfold n; lia]).
    apply w32_small. pr_lia. }
  split; cbn [st' pr_pa next_pid pr_mem current_proc]; try done.
  - change (length t' = 16%nat). unfold t', update. rewrite length_updZ. apply Hi.
  - unfold n, MAX_PROCESSES in *. lia.
  - destruct (pv_cur _ _ _ _ Hi) as (c & Hc & Hrc & Hrun). exists c. split_and!; try done; try (unfold n; lia).
    unfold st'. by rewrite new_slot, decide_False by (unfold n; lia).
  - intros i Hri. unfold st'. rewrite new_slot. case_decide as Hd; [by subst i|].
    apply (pv_pid _ _ _ _ Hi). unfold n in *. lia.
  - intros i Hri Hc. unfold st'. rewrite new_slot. case_decide as Hd; [done|].
    apply (pv_ready _ _ _ _ Hi); [unfold n in *; lia|done].
  - intros i Hri. unfold st'. rewrite new_slot, decide_False by lia.
    apply (pv_unused _ _ _ _ Hi). unfold n in *. lia.
  - intros i Hri. unfold st'. rewrite new_slot, Hfree. case_decide as Hd; cbn [kernel_stack].
    + split_and!; try apply Hpok; [set_solver|done|done].
    + destruct (pv_stack _ _ _ _ Hi i) as (? & ? & ? & ?); [unfold n in *; lia|]. set_solver.
  - intros i j Hri Hrj. unfold st'. rewrite !new_slot. do 2 case_decide; cbn [kernel_stack]; try congruence.
    + intros E. destruct (new_stack_ne j); [lia|done].
    + intros E. destruct (new_stack_ne i); [lia|done].
    + apply (pv_stack_ne _ _ _ _ Hi); unfold n in *; lia.
  - intros a. rewrite Hfree. intros [Hain _]%elem_of_difference. by apply (pv_free _ _ _ _ Hi).
  - intros i r x. rewrite lookup_insert_Some. intros [[<- [= <- <-]]|(Hne & Hfi)].
    + rewrite Hesp. split.
      * eapply saved_frame_ext; [|exact Hfr]. intros b Hb. rewrite Hm'.
        apply load8_store32_far; clear Hi; unfold n in *; pr_lia.
      * unfold in_stack, stack_lo, stack_len, st'. rewrite new_slot, decide_True by done.
        destruct (Z.eqb_spec n 0); [unfold n in *; lia|]. cbn [kernel_stack]. change PAGE_SIZE with 4096. lia.
    + destruct (proj1 (pv_dom _ _ _ _ Hi i)) as [Hri _]; [eauto|].
      eapply (undisturbed_frame base k0 st st'); [done|done|]. by apply new_undisturbed.
  - intros i. destruct (decide (i = n)) as [->|Hne].
    + rewrite lookup_insert_eq. destruct (pv_cur _ _ _ _ Hi) as (c & Hc & Hrc & _).
      split; [intros _|by eauto]. split; [unfold n in *; lia|]. rewrite Hc. intros [= ->]. unfold n in *. lia.
    + rewrite lookup_insert_ne by done. rewrite (pv_dom _ _ _ _ Hi). unfold n in *. split; intros [? ?]; (split; [lia|done]).
Qed.
End New.

Lemma process_create_spec st frames nm entry pg pa' :
  layout_ok base k0 → proc_inv base k0 st frames → next_pid st < MAX_PROCESSES → u32 entry →
  pa_alloc (pr_pa st) = (pg, pa') → pg ≠ 0 → apart pg PAGE_SIZE k0 (0x1F0000 - k0) →
  ∃ st', process_create base st nm entry = (next_pid st, st') ∧
    proc_inv base k0 st' (<[next_pid st := (zero_regs, entry)]> frames) ∧
    next_pid st' = next_pid st + 1 ∧ current_proc st' = current_proc st ∧
    name (slot st' (next_pid st)) = copy_name (name (slot st (next_pid st))) nm 0 15 ∧
    proc_esp base (pr_mem st') (next_pid st) = pg + 4060 ∧
    (∀ i, 0 <= i < next_pid st → undisturbed base k0 st st' i).
Proof.
  intros Hl Hi Hn He Ha Hpg Hk. pose proof (pv_n _ _ _ _ Hi) as Hn'.
  destruct (new_page st frames pg pa' Hi Ha Hpg) as (Hpok & _ & _ & _ & Hpt).
  unfold process_create. rewrite (free_slot st frames), Ha by done.
  bdestr (pg =? 0); [done|]. rewrite (w32_small (pg + PAGE_SIZE)) by pr_lia.
  destruct (init_frame_spec (pr_mem st) (pg + PAGE_SIZE) entry) as (m1 & -> & Hfr & Hm1);
    [pr_lia|done|].
  change PAGE_SIZE with 4096 in *. replace (pg + 4096 - 36) with (pg + 4060) in * by lia.
  unfold MAX_PROCESSES in *. rewrite (w32_small (next_pid st + 1)) by lia.
  replace (s32 (next_pid st)) with (next_pid st)
    by (unfold s32; rewrite w32_small by lia; bdestr (next_pid st <? 2147483648); lia).
  eexists. split; [reflexivity|]. split_and!; try reflexivity.
  - by eapply (new_inv st frames nm entry pg pa').
  - erewrite (new_slot st frames nm entry pg pa') by done. by rewrite decide_True.
  - unfold proc_esp, set_esp. cbn [pr_mem].
    rewrite load32_store32_eq by (apply esp_addr_ok with k0; [done|unfold MAX_PROCESSES; lia]).
    apply w32_small. pr_lia.
  - intros i Hri. by eapply (new_undisturbed st frames nm entry pg pa').
Qed.

Lemma process_create_fail st frames nm entry :
  proc_inv base k0 st frames →
  next_pid st = MAX_PROCESSES ∨ (pa_alloc (pr_pa st)).1 = 0 → process_create base st nm entry = (-1, st).
Proof.
  intros Hi Hf. unfold process_create. pose proof (pv_n _ _ _ _ Hi).
  destruct (decide (next_pid st = MAX_PROCESSES)); [by rewrite (no_free_slot st frames)|].
  rewrite (free_slot st frames) by (done || lia). destruct Hf as [|Hf]; [done|].
  destruct (pa_alloc (pr_pa st)) as [pg pa'] eqn:Ha. cbn [fst] in Hf. subst pg.
  destruct (pa_alloc_fail (pr_pa st) pa') as [-> _]; [apply Hi|done|]. by destruct st.
Qed.

(** ** Boot *)

Lemma init_table_loop (f : process_t → process_t) l : ∀ t,
  length t = 16%nat → Forall (λ i, 0 <= i < MAX_PROCESSES) l → NoDup l →
  length (fold_left (λ t i, update t i f) l t) = 16%nat ∧
  ∀ j, nthZ proc0 (fold_left (λ t i, update t i f) l t) j =
    if decide (j ∈ l) then f (nthZ proc0 t j) else nthZ proc0 t j.
Proof.
  induction l as [|i l IH]; intros t Ht Hl Hnd; cbn [fold_left].
  { split; [done|]. intros j. case_decide; [set_solver|done]. }
  inversion_clear Hl as [|? ? Hri Hl']. apply NoDup_cons in Hnd as [Hni Hnd].
  destruct (IH (update t i f)) as [Hlen Hj]; [unfold update; by rewrite length_updZ|done|done|].
  split; [done|]. intros j. rewrite Hj, slot_update by done.
  repeat case_decide; set_solver.
Qed.

Lemma process_init_spec st :
  layout_ok base k0 → length (proc_table st) = 16%nat → next_pid st = 0 → pa_inv (pr_pa st) →
  (∀ a, a ∈ pa_free (pr_pa st) → apart a PAGE_SIZE base TABLE_BYTES) →
  proc_inv base k0 (process_init base st) ∅ ∧ next_pid (process_init base st) = 1 ∧
  current_proc (process_init base st) = Some 0.
Proof.
  intros Hl Ht Hn Hp Hfree. unfold process_init. rewrite Hn.
  destruct (init_table_loop (λ p, Process 0 (name p) PROC_UNUSED (eip p) (page_directory p) (kernel_stack p))
    (seqZ 0 MAX_PROCESSES) (proc_table st)) as [Hlen Hslot];
    [done|apply Forall_forall; intros i ?%elem_of_seqZ; lia|apply NoDup_seqZ|].
  set (t := fold_left _ _ _) in *. set (f0 := λ p : process_t, Process _ _ PROC_RUNNING _ _ _).
  change (0 ⊕ 1) with 1. set (st' := Procs _ _ _ _ _).
  assert (∀ j, slot st' j = if decide (j = 0) then f0 (nthZ proc0 t 0) else nthZ proc0 t j) as Hs.
  { intros j. unfold slot. cbn [st' proc_table]. by rewrite slot_update. }
  split_and!; [|done|done].
  split; cbn [st' next_pid current_proc pr_pa pr_mem]; try done.
  - change (length (update t 0 f0) = 16%nat). unfold update. by rewrite length_updZ.
  - exists 0. split_and!; try done. rewrite Hs. by rewrite decide_True.
  - intros i Hi. rewrite Hs, decide_True by lia. cbn. lia.
  - intros i Hi Hc. assert (i = 0) as -> by lia. done.
  - intros i Hi. rewrite Hs, decide_False, Hslot by lia.
    rewrite decide_True; [done|]. apply elem_of_seqZ. lia.
  - intros i Hi. lia.
  - intros i j Hi. lia.
  - intros i. rewrite lookup_empty. split; [by intros [? ?]|]. intros [? Hc].
    assert (i = 0) as -> by lia. done.
Qed.

Lemma process_get_spec st frames p :
  proc_inv base k0 st frames →
  process_get st p = if decide (0 <= p < next_pid st) then Some p else None.
Proof.
  intros Hi. pose proof (pv_n _ _ _ _ Hi). destruct (pv_cur _ _ _ _ Hi) as (c & Hc & Hrc & Hrun).
  assert (∀ i, 0 <= i < next_pid st → state (slot st i) ≠ PROC_UNUSED) as Hu.
  { intros i Hri. destruct (decide (current_proc st = Some i)) as [E|E].
    - assert (c = i) as <- by congruence. congruence.
    - by rewrite (pv_ready _ _ _ _ Hi). }
  unfold process_get. case_decide as Hp.
  - apply find_first_seqZ; [lia| |].
    + rewrite bool_decide_false by auto. rewrite (pv_pid _ _ _ _ Hi) by done. cbn. apply Z.eqb_refl.
    + intros i Hri. rewrite (pv_pid _ _ _ _ Hi) by lia.
      destruct (Z.eqb_spec i p); [lia|apply andb_false_r].
  - destruct (find_first _ _) as [i|] eqn:E; [|done]. exfalso.
    apply find_first_Some in E as [Hri%elem_of_seqZ Hp2].
    apply andb_true_iff in Hp2 as [Hst Hpid%Z.eqb_eq].
    destruct (decide (i < next_pid st)).
    + rewrite (pv_pid _ _ _ _ Hi) in Hpid by lia. lia.
    + rewrite bool_decide_true in Hst by (apply (pv_unused _ _ _ _ Hi); lia). done.
Qed.

(** ** Runs *)

(** One step of the machine: the running process computes, leaving the table
    and the stacks of the others alone; a process is created; the scheduler
    runs, with room for its frame on the stack of the running process. *)
Inductive proc_step : cpu * procs S → cpu * procs S → Prop :=
  | step_run c c' st cur m' :
      current_proc st = Some cur →
      (∀ b, base <= b < base + TABLE_BYTES → load8 m' b = load8 (pr_mem st) b) →
      (∀ i b, 0 <= i < next_pid st → i ≠ cur →
         stack_lo k0 st i <= b < stack_lo k0 st i + stack_len k0 i → load8 m' b = load8 (pr_mem st) b) →
      proc_step (c, st) (c', Procs (proc_table st) (current_proc st) (next_pid st) m' (pr_pa st))
  | step_create c st nm entry :
      u32 entry →
      apart (pa_alloc (pr_pa st)).1 PAGE_SIZE k0 (0x1F0000 - k0) →
      proc_step (c, st) (c, (process_create base st nm entry).2)
  | step_schedule c st cur ra :
      current_proc st = Some cur → in_stack k0 st cur (c_esp c - 44) 44 →
      regs_ok (c_regs c) → u32 ra →
      proc_step (c, st) (schedule base c st ra).

Lemma run_undisturbed st m' cur i frames :
  layout_ok base k0 → proc_inv base k0 st frames → 0 <= i < next_pid st → i ≠ cur →
  (∀ b, base <= b < base + TABLE_BYTES → load8 m' b = load8 (pr_mem st) b) →
  (∀ i b, 0 <= i < next_pid st → i ≠ cur →
     stack_lo k0 st i <= b < stack_lo k0 st i + stack_len k0 i → load8 m' b = load8 (pr_mem st) b) →
  undisturbed base k0 st (Procs (proc_table st) (current_proc st) (next_pid st) m' (pr_pa st)) i.
Proof.
  intros Hl Hi Hri Hne Ht Hs. pose proof (pv_n _ _ _ _ Hi). split_and!.
  - done.
  - apply load32_ext. intros b Hb. apply Ht. clear Hi. pr_lia.
  - intros b Hb. by eapply Hs.
Qed.

Lemma run_inv st m' cur frames :
  layout_ok base k0 → proc_inv base k0 st frames → current_proc st = Some cur →
  (∀ b, base <= b < base + TABLE_BYTES → load8 m' b = load8 (pr_mem st) b) →
  (∀ i b, 0 <= i < next_pid st → i ≠ cur →
     stack_lo k0 st i <= b < stack_lo k0 st i + stack_len k0 i → load8 m' b = load8 (pr_mem st) b) →
  proc_inv base k0 (Procs (proc_table st) (current_proc st) (next_pid st) m' (pr_pa st)) frames.
Proof.
  intros Hl Hi Hc Ht Hs. set (st' := Procs _ _ _ _ _).
  split; try apply Hi. intros i r ra Hf.
  destruct (proj1 (pv_dom _ _ _ _ Hi i)) as [Hri Hne]; [eauto|].
  apply (undisturbed_frame base k0 st st' frames); [done|done|].
  apply (run_undisturbed st m' cur i frames); [done|done|done|congruence|done|done].
Qed.

(** What one step does to a process that waits: if it does not become the
    current one, it keeps its frame; if it does, it goes on from it. *)
Lemma step_waiting c st c' st' frames i r ra :
  layout_ok base k0 → proc_inv base k0 st frames → frames !! i = Some (r, ra) →
  proc_step (c, st) (c', st') →
  ∃ frames', proc_inv base k0 st' frames' ∧ undisturbed base k0 st st' i ∧
    ((current_proc st' ≠ Some i ∧ frames' !! i = Some (r, ra)) ∨
     (current_proc st' = Some i ∧ c' = Cpu r (proc_esp base (pr_mem st) i + 36) ra true)).
Proof.
  intros Hl Hi Hf Hs. destruct (proj1 (pv_dom _ _ _ _ Hi i)) as [Hri Hne]; [eauto|].
  inversion Hs as [? ? ? cur m' Hc Ht Hst E1 E2|? ? nm entry He Hap E1 E2|? ? cur ra' Hc Hst Hr Hra E1 E2];
    clear Hs; subst.
  - exists frames. split_and!; [by apply run_inv with cur| |by left].
    apply run_undisturbed with cur frames; try done. congruence.
  - destruct (decide (next_pid st = MAX_PROCESSES ∨ (pa_alloc (pr_pa st)).1 = 0)) as [Hfail|Hok].
    + rewrite (process_create_fail st frames) by done. exists frames. split_and!; [done|done|by left].
    + destruct (pa_alloc (pr_pa st)) as [pg pa'] eqn:Ha. cbn [fst] in *.
      pose proof (pv_n _ _ _ _ Hi).
      destruct (process_create_spec st frames nm entry pg pa') as (st' & -> & Hi' & _ & Hcur & _ & _ & Hund);
        [done|done|lia|done|done|lia|done|].
      eexists. split; [exact Hi'|]. split; [by apply Hund|]. left. cbn [snd]. rewrite Hcur.
      split; [done|]. rewrite lookup_insert_ne; [done|lia].
  - destruct (decide (next_pid st = 1)) as [E|E].
    { rewrite (schedule_idle base k0 c st frames) in * by done. simplify_eq.
      exists frames. split_and!; [done|done|by left]. }
    pose proof (pv_n _ _ _ _ Hi).
    destruct (schedule_spec base k0 c st frames ra' cur) as (r1 & ra1 & st1 & Hf1 & E1 & Hc1 & _ & _ & Hund & _ & _ & Hi1);
      [done..|lia|].
    rewrite E1 in *. simplify_eq. eexists. split; [exact Hi1|].
    split; [apply Hund; [done|congruence]|]. rewrite Hc1.
    destruct (decide (i = (cur + 1) mod next_pid st)) as [->|Hn].
    + right. split; [done|]. by simplify_eq.
    + left. split; [congruence|]. rewrite lookup_insert_ne, lookup_delete_ne by congruence. done.
Qed.
End Create.

Section Runs.
Context {S : Type} `{PA : PageAllocator S}.
Context (base k0 : Z) (Hl : layout_ok base k0).

Lemma step_inv x y frames :
  proc_inv base k0 x.2 frames → proc_step base k0 x y → ∃ frames', proc_inv base k0 (S := S) y.2 frames'.
Proof.
  intros Hi Hs. destruct Hs as [c c' st cur m' Hc Ht Hst|c st nm entry He Hap|c st cur ra Hc Hst Hr Hra];
    cbn [snd] in *.
  - exists frames. by apply run_inv with cur.
  - destruct (decide (next_pid st = MAX_PROCESSES ∨ (pa_alloc (pr_pa st)).1 = 0)) as [Hfail|Hok].
    + rewrite (process_create_fail base k0 st frames) by done. eauto.
    + destruct (pa_alloc (pr_pa st)) as [pg pa'] eqn:Ha. cbn [fst] in *. pose proof (pv_n _ _ _ _ Hi).
      destruct (process_create_spec base k0 st frames nm entry pg pa') as (st' & -> & Hi' & _);
        [done|done|lia|done|done|lia|done|]. eauto.
  - destruct (decide (next_pid st = 1)) as [E|E].
    { rewrite (schedule_idle base k0 c st frames) by done. eauto. }
    pose proof (pv_n _ _ _ _ Hi).
    destruct (schedule_spec base k0 c st frames ra cur) as (r1 & ra1 & st1 & _ & -> & _ & _ & _ & _ & _ & _ & Hi1);
      [done..|lia|]. eauto.
Qed.

Lemma steps_inv x y frames :
  proc_inv base k0 x.2 frames → rtc (proc_step base k0) x y → ∃ frames', proc_inv base k0 (S := S) y.2 frames'.
Proof.
  intros Hi Hs. revert frames Hi. induction Hs as [|x y z Hxy _ IH]; intros frames Hi; [eauto|].
  destruct (step_inv x y frames Hi Hxy) as [f' Hi']. eauto.
Qed.

(** Steps after which process [i] is still waiting. *)
Definition step_past (i : Z) (x y : cpu * procs S) : Prop :=
  proc_step base k0 x y ∧ current_proc y.2 ≠ Some i.

Lemma waiting_past i r ra x y frames :
  proc_inv base k0 x.2 frames → frames !! i = Some (r, ra) → rtc (step_past i) x y →
  ∃ frames', proc_inv base k0 y.2 frames' ∧ frames' !! i = Some (r, ra) ∧ undisturbed base k0 x.2 y.2 i.
Proof.
  intros Hi Hf Hs. revert frames Hi Hf.
  induction Hs as [x|[c st] [c1 st1] z [Hxy Hne] _ IH]; intros frames Hi Hf; [by exists frames|].
  cbn [snd] in *. destruct (step_waiting base k0 c st c1 st1 frames i r ra) as (f1 & Hi1 & Hu & Hcase); [done..|].
  destruct Hcase as [[_ Hf1]|[? _]]; [|done].
  destruct (IH f1 Hi1 Hf1) as (f2 & Hi2 & Hf2 & Hu2). exists f2. split_and!; try done.
  by eapply undisturbed_trans.
Qed.

(** [k] calls of [schedule], with the running processes computing between
    them. *)
Inductive sched_run : Z → cpu * procs S → cpu * procs S → Prop :=
  | run_nil x : sched_run 0 x x
  | run_compute k c c' st cur m' y :
      current_proc st = Some cur →
      (∀ b, base <= b < base + TABLE_BYTES → load8 m' b = load8 (pr_mem st) b) →
      (∀ i b, 0 <= i < next_pid st → i ≠ cur →
         stack_lo k0 st i <= b < stack_lo k0 st i + stack_len k0 i → load8 m' b = load8 (pr_mem st) b) →
      sched_run k (c', Procs (proc_table st) (current_proc st) (next_pid st) m' (pr_pa st)) y →
      sched_run k (c, st) y
  | run_sched k c st cur ra y :
      current_proc st = Some cur → in_stack k0 st cur (c_esp c - 44) 44 →
      regs_ok (c_regs c) → u32 ra →
      sched_run k (schedule base c st ra) y → sched_run (k + 1) (c, st) y.

Lemma sched_run_current k x y : sched_run k x y → ∀ frames cur,
  proc_inv base k0 x.2 frames → current_proc x.2 = Some cur →
  current_proc y.2 = Some ((cur + k) mod next_pid x.2) ∧ next_pid y.2 = next_pid x.2.
Proof.
  induction 1 as [x|k c c' st cu m' y Hc Ht Hs _ IH|k c st cu ra y Hc Hst Hr Hra _ IH];
    intros frames cur Hi Hcur; cbn [snd] in *.
  - destruct (pv_cur _ _ _ _ Hi) as (c & Hc & Hrc & _). assert (c = cur) as -> by congruence.
    rewrite Z.add_0_r, Z.mod_small by lia. done.
  - apply (IH frames); [|done]. by apply run_inv with cu.
  - assert (cu = cur) as -> by congruence. pose proof (pv_n _ _ _ _ Hi).
    destruct (decide (next_pid st = 1)) as [E|E].
    + rewrite (schedule_idle base k0 c st frames) in IH by done. destruct (IH frames cur) as [-> ->]; [done..|].
      cbn [snd]. split; [|done]. by rewrite E, !Z.mod_1_r.
    + destruct (schedule_spec base k0 c st frames ra cur) as (r1 & ra1 & st1 & _ & Es & Hc1 & Hn1 & _ & _ & _ & _ & Hi1);
        [done..|lia|].
      rewrite Es in IH. cbn [snd] in IH.
      destruct (IH _ _ Hi1 Hc1) as [-> ->]. rewrite Hn1. split; [|done].
      rewrite Zplus_mod_idemp_l. do 2 f_equal. lia.
Qed.
End Runs.

(** ** A concrete system *)

(** The process table at 0x110000 in the kernel image, the boot stack above
    0x1E0000, and one process created after boot. *)
Definition TABLE0 : Z := 0x110000.
Definition STACK0 : Z := 0x1E0000.
Definition procs0 : procs (list Z) := Procs (replicate 16 proc0) None 0 ∅ boot_pmm.
Definition procs1 : procs (list Z) := process_init TABLE0 procs0.
Definition procs2 : procs (list Z) := (process_create TABLE0 procs1 [97] 0x2000).2.

Lemma layout0 : layout_ok TABLE0 STACK0.
Proof. unfold layout_ok, apart, TABLE_BYTES, TABLE0, STACK0, sizeof_process, MAX_PROCESSES. lia. Qed.

Definition above (lo : Z) (l : list Z) : bool := forallb (λ p, lo <=? p) l.
Lemma above_spec lo l x : above lo l = true → x ∈ l → lo <= x.
Proof.
  unfold above. intros H Hx%list_elem_of_In. apply Z.leb_le. revert x Hx. by apply forallb_forall.
Qed.

Lemma boot_pmm_low :
  above 0x127 (filter (λ p, page_used boot_pmm p = false) (seqZ 0 TOTAL_PAGES)) = true.
Proof. vm_compute. reflexivity. Qed.

Lemma free_above bm lo a :
  above lo (filter (λ p, page_used bm p = false) (seqZ 0 TOTAL_PAGES)) = true →
  a ∈ pmm_free_addrs bm → lo * 4096 <= a.
Proof.
  intros H (p & -> & Hp)%elem_of_free_addrs. unfold free_pages in Hp.
  apply elem_of_list_to_set in Hp. apply (above_spec _ _ _ H) in Hp. unfold PAGE_SIZE. lia.
Qed.

Lemma boot_pmm_above a : a ∈ pa_free boot_pmm → 0x127000 <= a.
Proof. exact (free_above boot_pmm 0x127 a boot_pmm_low). Qed.

Lemma procs1_inv : proc_inv TABLE0 STACK0 procs1 ∅ ∧ next_pid procs1 = 1 ∧ current_proc procs1 = Some 0.
Proof.
  apply process_init_spec; [apply layout0|done|done|apply boot_pmm_inv|].
  intros a Ha%boot_pmm_above. unfold apart, TABLE_BYTES, TABLE0, sizeof_process, MAX_PROCESSES. lia.
Qed.

Lemma procs1_alloc : pa_alloc (pr_pa procs1) = (0x127000, boot_pmm1).
Proof. apply boot_pmm_alloc. Qed.

Lemma procs2_inv :
  proc_inv TABLE0 STACK0 procs2 (<[1 := (zero_regs, 0x2000)]> ∅) ∧ next_pid procs2 = 2 ∧
  current_proc procs2 = Some 0 ∧ proc_esp TABLE0 (pr_mem procs2) 1 = 0x127FDC.
Proof.
  destruct procs1_inv as (Hi & Hn & Hc).
  destruct (process_create_spec TABLE0 STACK0 procs1 ∅ [97] 0x2000 0x127000 boot_pmm1)
    as (st' & E & Hi' & Hn' & Hc' & _ & He & _);
    [apply layout0|done|by rewrite Hn|done|apply procs1_alloc|done|by left|].
  unfold procs2. rewrite E. cbn [snd]. rewrite Hn in *. split_and!; try done.
Qed.

Definition cpu0 : cpu := Cpu zero_regs 0x1EFF00 0x1234 false.
#[global] Opaque procs1 procs2.

Lemma cpu0_stack : in_stack STACK0 procs2 0 (c_esp cpu0 - 44) 44 ∧ regs_ok (c_regs cpu0).
Proof.
  split; [|repeat split; done]. unfold in_stack, stack_lo, stack_len, STACK0. cbn. lia.
Qed.

(** ** Properties *)

(** C12: with [n > 1] processes, [schedule] switches from the running process
    [cur] to process [(cur + 1) mod n]: the processor goes on with exactly the
    registers, stack and address that process was suspended with, interrupts
    on; the caller's registers and return address are saved in a frame on its
    own stack, and the invariant holds with the two frames exchanged. *)
Theorem schedule_round_robin {S} `{PageAllocator S} base k0 c (st : procs S) frames ra cur :
  layout_ok base k0 → proc_inv base k0 st frames → current_proc st = Some cur →
  in_stack k0 st cur (c_esp c - 44) 44 → regs_ok (c_regs c) → u32 ra → 1 < next_pid st →
  let nx := (cur + 1) mod next_pid st in
  ∃ r' ra' st', frames !! nx = Some (r', ra') ∧
    schedule base c st ra = (Cpu r' (proc_esp base (pr_mem st) nx + 36) ra' true, st') ∧
    current_proc st' = Some nx ∧
    proc_inv base k0 st' (<[cur := (c_regs c, ra)]> (delete nx frames)).
Proof.
  intros Hl Hi Hc Hst Hr Hra Hn.
  destruct (schedule_spec base k0 c st frames ra cur) as (r' & ra' & st' & ? & ? & ? & _ & _ & _ & _ & _ & ?);
    [done..|]. by exists r', ra', st'.
Qed.

Lemma schedule_round_robin_witness :
  ∃ st', schedule TABLE0 cpu0 procs2 0x5678 = (Cpu zero_regs 0x128000 0x2000 true, st') ∧
    current_proc st' = Some 1.
Proof.
  destruct procs2_inv as (Hi & Hn & Hc & He), cpu0_stack as [Hst Hr].
  destruct (schedule_round_robin TABLE0 STACK0 cpu0 procs2 _ 0x5678 0 layout0 Hi Hc Hst Hr)
    as (r' & ra' & st' & Hf & Hs & Hc' & _); [done|by rewrite Hn|].
  rewrite Hn in Hf, Hs, Hc'. cbn in Hf. injection Hf as <- <-.
  exists st'. rewrite Hs. change ((0 + 1) mod 2) with 1. rewrite He. split; [reflexivity|exact Hc'].
Defined.

(** C10: a context switch is transparent: when [schedule] suspends process
    [cur] and, after any run of the system in which it stays suspended, a step
    makes it the current process again, the processor is exactly as if the
    call of [context_switch] had just returned (same registers, its return
    address, its stack pointer past the return address, interrupts on), and no byte
    of its stack outside the 44 bytes of the call has changed. *)
Theorem switch_transparent {S} `{PageAllocator S} base k0 c (st : procs S) frames ra cur y c' st' :
  layout_ok base k0 → proc_inv base k0 st frames → current_proc st = Some cur →
  in_stack k0 st cur (c_esp c - 44) 44 → regs_ok (c_regs c) → u32 ra → 1 < next_pid st →
  rtc (step_past base k0 cur) (schedule base c st ra) y →
  proc_step base k0 y (c', st') → current_proc st' = Some cur →
  c' = Cpu (c_regs c) (c_esp c - 8) ra true ∧
  ∀ b, stack_lo k0 st cur <= b < stack_lo k0 st cur + stack_len k0 cur →
    ¬ (c_esp c - 44 <= b < c_esp c) → load8 (pr_mem st') b = load8 (pr_mem st) b.
Proof.
  intros Hl Hi Hc Hst Hr Hra Hn Hpast Hstep Hback.
  destruct (schedule_spec base k0 c st frames ra cur)
    as (r1 & ra1 & st1 & _ & Es & _ & _ & Hlo & _ & He & Hb & Hi1); [done..|].
  rewrite Es in Hpast. destruct y as [c2 st2]. set (c1 := Cpu r1 _ _ _) in Hpast.
  edestruct (waiting_past base k0 Hl cur (c_regs c) ra (c1, st1) (c2, st2)) as (f2 & Hi2 & Hf2 & (Hlo2 & He2 & Hb2));
    [exact Hi1|apply lookup_insert_eq|exact Hpast|]. cbn [snd] in *.
  destruct (step_waiting base k0 c2 st2 c' st' f2 cur (c_regs c) ra)
    as (f3 & _ & (_ & _ & Hb3) & [[? _]|[_ ->]]); [done..|].
  split; [rewrite He2, He; f_equal; lia|].
  intros b Hr1 Hr2. rewrite Hb3, Hb2, Hb; rewrite ?Hlo2, ?Hlo; done.
Qed.

Lemma switch_transparent_witness :
  ∃ c1 st1, schedule TABLE0 cpu0 procs2 0x5678 = (c1, st1) ∧
    (schedule TABLE0 c1 st1 0x42).1 =
    Cpu zero_regs 0x1EFEF8 0x5678 true.
Proof.
  destruct procs2_inv as (Hi & Hn & Hc & He), cpu0_stack as [Hst Hr].
  assert (u32 0x5678) as Hra by (unfold u32; lia). assert (u32 0x42) as Hrb by (unfold u32; lia).
  assert (1 < next_pid procs2) as H2 by (rewrite Hn; lia).
  destruct (schedule_spec TABLE0 STACK0 cpu0 procs2 _ 0x5678 0 layout0 Hi Hc Hst Hr Hra H2)
    as (r' & ra' & st1 & Hf & Hs & Hc1 & Hn1 & _ & Hund & _ & _ & Hi1).
  rewrite Hn in Hf, Hs, Hc1, Hund, Hi1. change ((0 + 1) mod 2) with 1 in *. rewrite He in Hs.
  rewrite lookup_insert_eq in Hf. injection Hf as <- <-. exists (Cpu zero_regs 0x128000 0x2000 true), st1. split; [exact Hs|].
  assert (in_stack STACK0 st1 1 (0x128000 - 44) 44) as Hst1.
  { assert (kernel_stack (slot st1 1) = 0x127000) as E1.
    { destruct (Hund 1 ltac:(lia) ltac:(lia)) as (E1 & _). exact E1. }
    unfold in_stack, stack_lo, stack_len. cbn [Z.eqb]. rewrite E1. change PAGE_SIZE with 4096. lia. }
  assert (1 < next_pid st1) as Hn2 by (rewrite Hn1, Hn; lia).
  destruct (schedule_spec TABLE0 STACK0 (Cpu zero_regs 0x128000 0x2000 true) st1 _ 0x42 1 layout0 Hi1 Hc1 Hst1 Hr Hrb Hn2)
    as (r2 & ra2 & st2 & _ & Hs2 & Hc2 & _).
  rewrite Hn1, Hn in Hs2, Hc2. change ((1 + 1) mod 2) with 0 in *.
  destruct (switch_transparent TABLE0 STACK0 cpu0 procs2 _ 0x5678 0
    (schedule TABLE0 cpu0 procs2 0x5678) (Cpu r2 (proc_esp TABLE0 (pr_mem st1) 0 + 36) ra2 true) st2
    layout0 Hi Hc Hst Hr Hra H2 (rtc_refl _ _)) as [E _].
  - rewrite Hs, <-Hs2. exact (step_schedule TABLE0 STACK0 (Cpu zero_regs 0x128000 0x2000 true) st1 1 0x42 Hc1 Hst1 Hr Hrb).
  - exact Hc2.
  - rewrite Hs2. exact E.
Defined.

(** C13: round-robin fairness: after [k] calls of [schedule], whatever the
    processes compute between them, process [(cur + k) mod n] runs; so each of
    the [n] processes runs after at most [n - 1] calls, when [k] is
    [(i - cur) mod n]. *)
Theorem schedule_liveness {S} `{PageAllocator S} base k0 k x (y : cpu * procs S) frames cur :
  layout_ok base k0 → proc_inv base k0 x.2 frames → current_proc x.2 = Some cur →
  sched_run base k0 k x y →
  current_proc y.2 = Some ((cur + k) mod next_pid x.2) ∧
  (∀ i, 0 <= i < next_pid x.2 → k = (i - cur) mod next_pid x.2 → current_proc y.2 = Some i).
Proof.
  intros Hl Hi Hc Hrun. destruct (sched_run_current base k0 Hl k x y Hrun frames cur Hi Hc) as [-> _].
  split; [done|]. intros i Hri ->. f_equal.
  rewrite Zplus_mod_idemp_r. replace (cur + (i - cur)) with i by lia. by apply Z.mod_small.
Qed.

Lemma schedule_liveness_witness : current_proc (schedule TABLE0 cpu0 procs2 0x5678).2 = Some 1.
Proof.
  destruct procs2_inv as (Hi & Hn & Hc & He), cpu0_stack as [Hst Hr].
  assert (u32 0x5678) as Hra by (unfold u32; lia).
  destruct (schedule_liveness TABLE0 STACK0 (0 + 1) (cpu0, procs2) (schedule TABLE0 cpu0 procs2 0x5678)
    (<[1 := (zero_regs, 0x2000)]> ∅) 0 layout0 Hi Hc) as [E _].
  - exact (run_sched TABLE0 STACK0 0 cpu0 procs2 0 0x5678 _ Hc Hst Hr Hra (run_nil _ _ _)).
  - cbn [snd] in E. rewrite Hn in E. exact E.
Defined.

(** [process_create] gives the new process the next pid, which is also its
    slot, a stack page no other process has, and a frame with which its first
    switch starts it at [entry] with all registers zero; it keeps the
    name up to 15 characters, and every other process its stack; it fails
    with -1 and changes nothing when the 16 slots are taken or no page is free. *)
Theorem process_create_correct {S} `{PageAllocator S} base k0 (st : procs S) frames nm entry :
  layout_ok base k0 → proc_inv base k0 st frames → u32 entry →
  apart (pa_alloc (pr_pa st)).1 PAGE_SIZE k0 (0x1F0000 - k0) →
  length (name (slot st (next_pid st))) = 16%nat →
  (process_create base st nm entry = (-1, st) ∧
   (next_pid st = MAX_PROCESSES ∨ (pa_alloc (pr_pa st)).1 = 0)) ∨
  (∃ st', process_create base st nm entry = (next_pid st, st') ∧
    proc_inv base k0 st' (<[next_pid st := (zero_regs, entry)]> frames) ∧
    next_pid st' = next_pid st + 1 ∧ current_proc st' = current_proc st ∧
    c_string (name (slot st' (next_pid st))) = take 15 (c_string nm) ∧
    ∀ i, 0 <= i < next_pid st → undisturbed base k0 st st' i).
Proof.
  intros Hl Hi He Hap Hnm.
  destruct (decide (next_pid st = MAX_PROCESSES ∨ (pa_alloc (pr_pa st)).1 = 0)) as [Hf|Hok].
  { left. split; [|done]. by eapply process_create_fail. }
  right. pose proof (pv_n _ _ _ _ Hi). destruct (pa_alloc (pr_pa st)) as [pg pa'] eqn:Ha. cbn [fst] in *.
  destruct (process_create_spec base k0 st frames nm entry pg pa')
    as (st' & ? & ? & ? & ? & Hname & _ & ?); [done|done|lia|done|done|lia|done|].
  exists st'. split_and!; try done. rewrite Hname. by apply copy_name_string.
Qed.

Lemma process_create_correct_witness :
  ∃ st', process_create TABLE0 procs1 [97] 0x2000 = (1, st') ∧ next_pid st' = 2.
Proof.
  destruct procs1_inv as (Hi & Hn & Hc).
  destruct (process_create_correct TABLE0 STACK0 procs1 ∅ [97] 0x2000 layout0 Hi)
    as [[_ [E|E]]|(st' & E & _ & Hn' & _)].
  - unfold u32; lia.
  - rewrite procs1_alloc. left. unfold STACK0, PAGE_SIZE. cbn [fst]. lia.
  - rewrite Hn. vm_compute. reflexivity.
  - rewrite Hn in E. discriminate E.
  - rewrite procs1_alloc in E. discriminate E.
  - exists st'. rewrite Hn in *. split; [exact E|exact Hn'].
Defined.

(** C11: in every state the system reaches from [process_init], by processes
    computing, [process_create] and [schedule], exactly one process runs and
    it is the current one, every other one is ready with an intact frame on its
    own stack, the pids are the slots below [next_pid], and [process_get] finds
    exactly those. *)
Theorem processes_reachable {S} `{PageAllocator S} base k0 (st : procs S) c x :
  layout_ok base k0 → length (proc_table st) = 16%nat → next_pid st = 0 → pa_inv (pr_pa st) →
  (∀ a, a ∈ pa_free (pr_pa st) → apart a PAGE_SIZE base TABLE_BYTES) →
  rtc (proc_step base k0) (c, process_init base st) x →
  (∃ frames, proc_inv base k0 x.2 frames) ∧
  (∀ p, process_get x.2 p = Some p ↔ 0 <= p < next_pid x.2) ∧
  (∀ p i, process_get x.2 p = Some i → i = p).
Proof.
  intros Hl Ht Hn Hp Hfree Hrun. destruct (process_init_spec base k0 st) as (Hi & _); [done..|].
  destruct (steps_inv base k0 Hl (c, process_init base st) x ∅ Hi Hrun) as [frames Hi'].
  split_and!; [eauto| |]; intros p; [|intros i]; rewrite (process_get_spec base k0 _ frames) by done;
    case_decide; naive_solver.
Qed.

Lemma processes_reachable_witness : ∃ frames, proc_inv TABLE0 STACK0 procs1 frames.
Proof.
  destruct (processes_reachable TABLE0 STACK0 procs0 cpu0 (cpu0, procs1)) as (H & _);
    [apply layout0|reflexivity|reflexivity|apply boot_pmm_inv| |apply rtc_refl|exact H].
  intros a Ha%boot_pmm_above. unfold apart, TABLE_BYTES, TABLE0, sizeof_process, MAX_PROCESSES. lia.
Defined.
