(* ===== verification/Io.v ===== *)
(** * Port I/O (kernel/io.h)

    The devices behind the I/O ports are hardware, so their state is a type
    [D] the model does not look into: a program that talks to them is a
    computation of the state monad [io D], and [PortIO D] gives the four port
    instructions of io.h.  The theorems hold for every device; [script] is a
    device that answers reads from a list and logs the writes, for concrete
    runs. *)

From S2P Require Import Prelude.

Definition io (D A : Type) : Type := D → A * D.
#[export] Instance io_ret D : MRet (io D) := λ A a d, (a, d).
#[export] Instance io_bind D : MBind (io D) := λ A B f m d, let '(a, d) := m d in f a d.

(** The computation returns [a] whatever the state of the device. *)
Definition returns {D A} (m : io D A) (a : A) : Prop := ∀ d, (m d).1 = a.

Lemma returns_ret {D A} (a : A) : returns (D := D) (mret a) a.
Proof. done. Qed.
Lemma returns_bind {D A B} (m : io D A) (k : A → io D B) a b :
  returns m a → returns (k a) b → returns (m ≫= k) b.
Proof.
  intros Hm Hk d. unfold mbind, io_bind. specialize (Hm d). destruct (m d) as [x d']. cbn in Hm. subst x.
  apply Hk.
Qed.
#[export] Hint Resolve returns_ret : magnos.

(** What a port instruction does to the device; bytes read are bytes. *)
Class PortIO (D : Type) := {
  inb : Z → io D Z;
  outb : Z → Z → io D unit;
  insw : Z → io D Z;
  outsw : Z → Z → io D unit;
  inb_range p d : u8 (inb p d).1;
  insw_range p d : u16 (insw p d).1
}.

Section Io.
Context {D : Type} `{PortIO D}.

Definition io_wait : io D unit := outb 0x80 0.

(** [rep insw] and [rep outsw] with [count] words. *)
Fixpoint inw_buffer (port : Z) (count : nat) : io D (list Z) :=
  match count with
  | O => mret []
  | S n => w ← insw port; ws ← inw_buffer port n; mret (w :: ws)
  end.
Fixpoint outw_buffer (port : Z) (ws : list Z) : io D unit :=
  match ws with
  | [] => mret tt
  | w :: ws => outsw port w;; outw_buffer port ws
  end.

Lemma inw_buffer_length port n d : length (inw_buffer port n d).1 = n.
Proof.
  revert d. induction n as [|n IH]; intros d; [done|]. cbn. unfold mbind, io_bind.
  destruct (insw port d) as [w d1]. specialize (IH d1). destruct (inw_buffer port n d1) as [ws d2].
  cbn in *. by rewrite IH.
Qed.

Lemma inw_buffer_range port n d : Forall u16 (inw_buffer port n d).1.
Proof.
  revert d. induction n as [|n IH]; intros d; [constructor|]. cbn. unfold mbind, io_bind.
  pose proof (insw_range port d) as Hw. destruct (insw port d) as [w d1].
  specialize (IH d1). destruct (inw_buffer port n d1) as [ws d2]. by constructor.
Qed.
End Io.

(** ** A scripted device *)

Record script := Script { sc_in : list Z; sc_log : list (Z * Z) }.

Definition sc_read (wrap : Z → Z) (p : Z) : io script Z := λ d,
  match sc_in d with
  | [] => (0, d)
  | x :: l => (wrap x, Script l (sc_log d))
  end.
Definition sc_write (wrap : Z → Z) (p v : Z) : io script unit := λ d,
  (tt, Script (sc_in d) (sc_log d ++ [(p, wrap v)])).

#[export] Program Instance script_io : PortIO script := {|
  inb := sc_read w8; outb := sc_write w8; insw := sc_read w16; outsw := sc_write w16
|}.
Next Obligation.
  intros p [[|x l] log]; unfold u8; cbn; [lia|apply w8_range].
Qed.
Next Obligation.
  intros p [[|x l] log]; unfold u16; cbn; [lia|apply w16_range].
Qed.

(** ** What a program writes

    On a scripted device the computation ends with a result and a log of
    writes related by [Q], whatever the device answers. *)
Definition writes {A} (m : io script A) (Q : A → list (Z * Z) → Prop) : Prop :=
  ∀ d, ∃ x inp log, m d = (x, Script inp (sc_log d ++ log)) ∧ Q x log.

Lemma writes_ret {A} (x : A) (Q : A → list (Z * Z) → Prop) : Q x [] → writes (mret x) Q.
Proof. intros H [inp log]. exists x, inp, []. rewrite app_nil_r. done. Qed.
Lemma writes_bind {A B} (m : io script A) (k : A → io script B) P Q :
  writes m P → (∀ x l, P x l → writes (k x) (λ y l', Q y (l ++ l'))) → writes (m ≫= k) Q.
Proof.
  intros Hm Hk d. destruct (Hm d) as (x & inp & l & E & Hx).
  destruct (Hk x l Hx (Script inp (sc_log d ++ l))) as (y & inp' & l' & E' & Hy).
  exists y, inp', (l ++ l'). unfold mbind, io_bind. rewrite E, E'. cbn [sc_log]. by rewrite app_assoc.
Qed.
Lemma writes_outb {A} p v (k : io script A) Q :
  writes k (λ y l, Q y ((p, w8 v) :: l)) → writes (outb p v;; k) Q.
Proof.
  intros Hk d. destruct (Hk (Script (sc_in d) (sc_log d ++ [(p, w8 v)]))) as (y & inp & l & E & Hy).
  exists y, inp, ((p, w8 v) :: l). split; [|done]. unfold mbind, io_bind. cbn [outb script_io sc_write].
  rewrite E. cbn [sc_log]. by rewrite <-app_assoc.
Qed.
Lemma writes_inb {A} p (k : Z → io script A) Q :
  (∀ v, u8 v → writes (k v) Q) → writes (v ← inb p; k v) Q.
Proof.
  intros Hk [inp log]. unfold mbind, io_bind. pose proof (inb_range p (Script inp log)) as Hr.
  cbn [inb script_io] in *. unfold sc_read in *. cbn [sc_in sc_log] in *. destruct inp as [|x inp]; cbn [fst] in Hr.
  - apply (Hk _ Hr (Script [] log)).
  - apply (Hk _ Hr (Script inp log)).
Qed.
Lemma writes_mono {A} (m : io script A) (P Q : A → list (Z * Z) → Prop) :
  writes m P → (∀ x l, P x l → Q x l) → writes m Q.
Proof. intros Hm H d. destruct (Hm d) as (x & inp & l & E & Hx). exists x, inp, l. auto. Qed.

(** ** Computations that may not return *)

(** [None] is a wait that the fuel does not cover. *)
Definition obind {D A B} (m : io D (option A)) (k : A → io D (option B)) : io D (option B) :=
  x ← m; match x with Some a => k a | None => mret None end.
Notation "x ←? m ; k" := (obind m (λ x, k)) (at level 100, m at next level, k at level 200, right associativity).

Lemma returns_obind {D A B} (m : io D (option A)) (k : A → io D (option B)) a b :
  returns m (Some a) → returns (k a) b → returns (obind m k) b.
Proof. intros Hm Hk. eapply returns_bind; [exact Hm|exact Hk]. Qed.
