(* ===== verification/Keyboard.v ===== *)
(** * Keyboard (kernel/keyboard.c, kernel/keyboard.h)

    Scancode translation with its modifier state, and the ring buffer between
    the interrupt handler and [keyboard_getchar].  The abstract specification
    of the ring buffer is a bounded FIFO queue of 255 characters. *)

From stdpp Require Import relations.
From S2P Require Import Prelude Io.

Definition KB_DATA_PORT : Z := 0x60.
Definition KB_STATUS_PORT : Z := 0x64.
Definition KB_CMD_PORT : Z := 0x64.
Definition KB_STATUS_OUTPUT_FULL : Z := 0x01.
Definition KB_STATUS_INPUT_FULL : Z := 0x02.
Definition KEY_ESCAPE : Z := 0x01.
Definition KEY_BACKSPACE : Z := 0x0E.
Definition KEY_LCTRL : Z := 0x1D.
Definition KEY_LSHIFT : Z := 0x2A.
Definition KEY_RSHIFT : Z := 0x36.
Definition KEY_LALT : Z := 0x38.
Definition KEY_CAPSLOCK : Z := 0x3A.
Definition KEY_RELEASE : Z := 0x80.
Definition KB_BUFFER_SIZE : Z := 256.

Definition scancode_to_ascii : list Z := [
  0;  0;  49; 50; 51; 52; 53; 54;
  55; 56; 57; 48; 45; 61; 0;  9;
  113; 119; 101; 114; 116; 121; 117; 105;
  111; 112; 91; 93; 10; 0; 97; 115;
  100; 102; 103; 104; 106; 107; 108; 59;
  39; 96; 0; 92; 122; 120; 99; 118;
  98; 110; 109; 44; 46; 47; 0; 42;
  0;  32; 0;  0;  0;  0;  0;  0;
  0;  0;  0;  0;  0;  0;  0;  55;
  56; 57; 45; 52; 53; 54; 43; 49;
  50; 51; 48; 46; 0;  0;  0;  0 ].

Definition scancode_to_ascii_shift : list Z := [
  0;  0;  33; 64; 35; 36; 37; 94;
  38; 42; 40; 41; 95; 43; 0;  9;
  81; 87; 69; 82; 84; 89; 85; 73;
  79; 80; 123; 125; 10; 0; 65; 83;
  68; 70; 71; 72; 74; 75; 76; 58;
  34; 126; 0; 124; 90; 88; 67; 86;
  66; 78; 77; 60; 62; 63; 0; 42;
  0;  32; 0;  0;  0;  0;  0;  0;
  0;  0;  0;  0;  0;  0;  0;  55;
  56; 57; 45; 52; 53; 54; 43; 49;
  50; 51; 48; 46; 0;  0;  0;  0 ].

(** The [static uint8_t] flags. *)
Record mods := Mods { shift_pressed : Z; ctrl_pressed : Z; alt_pressed : Z; capslock_on : Z }.

Record kbd := Kbd { kb_mods : mods; kb_buffer : list Z; kb_head : Z; kb_tail : Z }.

Definition set_shift (m : mods) (v : Z) : mods := Mods v (ctrl_pressed m) (alt_pressed m) (capslock_on m).
Definition set_ctrl (m : mods) (v : Z) : mods := Mods (shift_pressed m) v (alt_pressed m) (capslock_on m).
Definition set_alt (m : mods) (v : Z) : mods := Mods (shift_pressed m) (ctrl_pressed m) v (capslock_on m).
Definition set_caps (m : mods) (v : Z) : mods := Mods (shift_pressed m) (ctrl_pressed m) (alt_pressed m) v.

(** The keys on which caps lock acts. *)
Definition letter_key (sc : Z) : bool :=
  ((0x10 <=? sc) && (sc <=? 0x19)) || ((0x1E <=? sc) && (sc <=? 0x26)) ||
  ((0x2C <=? sc) && (sc <=? 0x32)).

Definition translate_scancode (m : mods) (scancode : Z) : Z * mods :=
  if c_true (scancode .& KEY_RELEASE) then
    let released := w8 (scancode .& Z.lnot KEY_RELEASE) in
    (0, if (released =? KEY_LSHIFT) || (released =? KEY_RSHIFT) then set_shift m 0
        else if released =? KEY_LCTRL then set_ctrl m 0
        else if released =? KEY_LALT then set_alt m 0
        else m)
  else if (scancode =? KEY_LSHIFT) || (scancode =? KEY_RSHIFT) then (0, set_shift m 1)
  else if scancode =? KEY_LCTRL then (0, set_ctrl m 1)
  else if scancode =? KEY_LALT then (0, set_alt m 1)
  else if scancode =? KEY_CAPSLOCK then (0, set_caps m (if capslock_on m =? 0 then 1 else 0))
  else if scancode =? KEY_BACKSPACE then (8, m)
  else if scancode =? KEY_ESCAPE then (27, m)
  else if scancode <? Z.of_nat (length scancode_to_ascii) then
    let use_shift :=
      if letter_key scancode then Z.lxor (shift_pressed m) (capslock_on m) else shift_pressed m in
    (if c_true use_shift then nthZ 0 scancode_to_ascii_shift scancode
     else nthZ 0 scancode_to_ascii scancode, m)
  else (0, m).

(** The handler once the scancode is read. *)
Definition kb_handle (st : kbd) (scancode : Z) : kbd :=
  let '(c, m) := translate_scancode (kb_mods st) scancode in
  if c_true c then
    let next_head := Z.rem (kb_head st + 1) KB_BUFFER_SIZE in
    if next_head =? kb_tail st then Kbd m (kb_buffer st) (kb_head st) (kb_tail st)
    else Kbd m (updZ (kb_buffer st) (kb_head st) c) next_head (kb_tail st)
  else Kbd m (kb_buffer st) (kb_head st) (kb_tail st).

(** The character (0 for none) and the new state. *)
Definition keyboard_getchar (st : kbd) : Z * kbd :=
  if kb_tail st =? kb_head st then (0, st)
  else (nthZ 0 (kb_buffer st) (kb_tail st),
        Kbd (kb_mods st) (kb_buffer st) (kb_head st) (Z.rem (kb_tail st + 1) KB_BUFFER_SIZE)).

Definition keyboard_shift_pressed (st : kbd) : Z := shift_pressed (kb_mods st).
Definition keyboard_ctrl_pressed (st : kbd) : Z := ctrl_pressed (kb_mods st).
Definition keyboard_alt_pressed (st : kbd) : Z := alt_pressed (kb_mods st).

Section Device.
Context {D : Type} `{PortIO D}.

Definition keyboard_irq_handler (st : kbd) : io D kbd :=
  scancode ← inb KB_DATA_PORT;
  mret (kb_handle st scancode).

(** [while (cond(inb(KB_STATUS_PORT)) && timeout > 0) timeout--;] *)
Fixpoint kb_wait (cond : Z → bool) (timeout : nat) : io D unit :=
  s ← inb KB_STATUS_PORT;
  match timeout with
  | O => mret tt
  | S n => if cond s then kb_wait cond n else mret tt
  end.

(** The loop that drains pending bytes. *)
Fixpoint kb_drain (timeout : nat) : io D unit :=
  s ← inb KB_STATUS_PORT;
  match timeout with
  | O => mret tt
  | S n =>
      if c_true (s .& KB_STATUS_OUTPUT_FULL) then _ ← inb KB_DATA_PORT; kb_drain n
      else mret tt
  end.

Definition input_full (s : Z) : bool := c_true (s .& KB_STATUS_INPUT_FULL).
Definition KB_TIMEOUT : nat := Z.to_nat 10000.

Definition keyboard_init (st : kbd) : io D kbd :=
  kb_wait input_full KB_TIMEOUT;;
  outb KB_CMD_PORT 0x20;;
  kb_wait (λ s, negb (c_true (s .& KB_STATUS_OUTPUT_FULL))) KB_TIMEOUT;;
  config ← inb KB_DATA_PORT;
  let config := config .| 0x01 in
  kb_wait input_full KB_TIMEOUT;;
  outb KB_CMD_PORT 0x60;;
  kb_wait input_full KB_TIMEOUT;;
  outb KB_DATA_PORT config;;
  kb_wait input_full KB_TIMEOUT;;
  outb KB_CMD_PORT 0xAE;;
  kb_drain 100;;
  mret (Kbd (Mods 0 0 0 0) (kb_buffer st) 0 0).
End Device.
