(* ===== verification/KeyboardProps.v ===== *)
(** * Keyboard: the queue refinement and the key map

    The ring buffer with its two indices refines a FIFO queue bounded at 255
    characters, over every interleaving of interrupts and reads; the
    translation tables agree with the layout they are meant to be. *)

From stdpp Require Import sorting.
From S2P Require Import Prelude Io Keyboard.

(** ** Invariant and abstraction *)

Definition flag (x : Z) : Prop := x = 0 ∨ x = 1.
Definition mods_ok (m : mods) : Prop :=
  flag (shift_pressed m) ∧ flag (ctrl_pressed m) ∧ flag (alt_pressed m) ∧ flag (capslock_on m).

Record kb_inv (st : kbd) : Prop := {
  kb_len : length (kb_buffer st) = 256%nat;
  kb_head_range : 0 <= kb_head st < 256;
  kb_tail_range : 0 <= kb_tail st < 256;
  kb_mods_ok : mods_ok (kb_mods st)
}.

(** The number of characters waiting, and the characters, oldest first. *)
Definition kb_count (st : kbd) : Z := (kb_head st - kb_tail st) mod 256.
Definition kb_at (st : kbd) (i : Z) : Z := nthZ 0 (kb_buffer st) ((kb_tail st + i) mod 256).
Definition kb_chars (st : kbd) : list Z := kb_at st <$> seqZ 0 (kb_count st).

(** The queue: what the handler and the reader do to it. *)
Definition q_put (q : list Z) (c : Z) : list Z :=
  if c =? 0 then q else if Z.of_nat (length q) <? 255 then q ++ [c] else q.
Definition q_get (q : list Z) : Z * list Z :=
  match q with [] => (0, []) | c :: q => (c, q) end.

Lemma kb_count_range st : 0 <= kb_count st < 256.
Proof. unfold kb_count. zdm. Qed.

Lemma length_kb_chars st : Z.of_nat (length (kb_chars st)) = kb_count st.
Proof.
  unfold kb_chars. rewrite length_fmap, length_seqZ. pose proof (kb_count_range st). lia.
Qed.

(** ** Modifiers *)

Lemma translate_mods_ok m sc : mods_ok m → mods_ok (translate_scancode m sc).2.
Proof.
  intros (Hs & Hc & Ha & Hp). unfold translate_scancode, mods_ok, flag in *.
  repeat (bcase || case_match); cbn; unfold flag; split_and!; auto; bcase; auto.
Qed.

(** ** One step *)

Lemma rem_mod256 x : 0 <= x → Z.rem x KB_BUFFER_SIZE = x mod 256.
Proof. intros. by apply Z.rem_mod_nonneg. Qed.

Lemma kb_handle_spec st sc :
  kb_inv st →
  kb_inv (kb_handle st sc) ∧
  kb_mods (kb_handle st sc) = (translate_scancode (kb_mods st) sc).2 ∧
  kb_chars (kb_handle st sc) = q_put (kb_chars st) (translate_scancode (kb_mods st) sc).1.
Proof.
  intros [Hl Hh Ht Hm]. unfold kb_handle, q_put.
  pose proof (translate_mods_ok (kb_mods st) sc Hm) as Hm'.
  destruct (translate_scancode (kb_mods st) sc) as [c m]. cbn [fst snd] in *.
  rewrite length_kb_chars. unfold c_true. bdestr (c =? 0); cbn [negb]; [done|].
  rewrite rem_mod256 by lia. set (h' := (kb_head st + 1) mod 256).
  assert (0 <= h' < 256) by (unfold h'; zdm).
  bdestr (h' =? kb_tail st).
  - bdestr (kb_count st <? 255); [exfalso; unfold kb_count, h' in *; zdm|]. done.
  - bdestr (kb_count st <? 255); [|exfalso; unfold kb_count, h' in *; zdm].
    split_and!; [split; cbn; [by rewrite length_updZ|done|done|done]|done|].
    set (st' := Kbd _ _ _ _). pose proof (kb_count_range st).
    assert (kb_count st' = kb_count st + 1) as E by (unfold kb_count, st', h' in *; cbn; zdm).
    unfold kb_chars. rewrite E, seqZ_app, fmap_app by lia. rewrite Z.add_0_l.
    change (seqZ (kb_count st) 1) with [kb_count st]. cbn [fmap list_fmap]. f_equal.
    + apply list_fmap_ext. intros _ i Hi%list_elem_of_lookup_2%elem_of_seqZ.
      unfold kb_at, st'; cbn. apply nthZ_updZ_ne. unfold kb_count in *. zdm.
    + f_equal. unfold kb_at, st'; cbn.
      replace ((kb_tail st + kb_count st) mod 256) with (kb_head st) by (unfold kb_count; zdm).
      apply nthZ_updZ_eq. lia.
Qed.

Lemma getchar_spec st :
  kb_inv st →
  kb_inv (keyboard_getchar st).2 ∧ kb_mods (keyboard_getchar st).2 = kb_mods st ∧
  (keyboard_getchar st).1 = (q_get (kb_chars st)).1 ∧
  kb_chars (keyboard_getchar st).2 = (q_get (kb_chars st)).2.
Proof.
  intros [Hl Hh Ht Hm]. unfold keyboard_getchar. pose proof (kb_count_range st).
  destruct (Z.eqb_spec (kb_tail st) (kb_head st)) as [He|He].
  - assert (kb_chars st = []) as E.
    { unfold kb_chars, kb_count. by rewrite He, Z.sub_diag. }
    cbn [fst snd]. by rewrite E.
  - rewrite rem_mod256 by lia. cbn [fst snd]. set (st' := Kbd _ _ _ _).
    assert (kb_count st = kb_count st' + 1) as E by (unfold kb_count, st' in *; cbn; zdm).
    pose proof (kb_count_range st').
    assert (kb_chars st = nthZ 0 (kb_buffer st) (kb_tail st) :: kb_chars st') as ->.
    { unfold kb_chars at 1. rewrite E, seqZ_cons by lia. rewrite fmap_cons. f_equal.
      - unfold kb_at. by rewrite Z.add_0_r, Z.mod_small.
      - unfold kb_chars. replace (Z.pred (kb_count st' + 1)) with (kb_count st') by lia.
        rewrite <-(fmap_add_seqZ 1 0), <-list_fmap_compose. apply list_fmap_ext.
        intros _ i Hi%list_elem_of_lookup_2%elem_of_seqZ. unfold kb_at, st'; cbn.
        f_equal. zdm. }
    split_and!; try done. split; cbn; try done. zdm.
Qed.

(** ** Interleavings *)

(** An interrupt with a scancode, or a call of [keyboard_getchar]. *)
Inductive kb_event := Irq (scancode : Z) | Get.

(** The answers of the [Get]s and the final state, for the code and for the
    specification. *)
Fixpoint kb_run (st : kbd) (es : list kb_event) : list Z * kbd :=
  match es with
  | [] => ([], st)
  | Irq sc :: es => kb_run (kb_handle st sc) es
  | Get :: es => let '(c, st) := keyboard_getchar st in let '(cs, st) := kb_run st es in (c :: cs, st)
  end.
Fixpoint q_run (m : mods) (q : list Z) (es : list kb_event) : list Z * (mods * list Z) :=
  match es with
  | [] => ([], (m, q))
  | Irq sc :: es => let '(c, m) := translate_scancode m sc in q_run m (q_put q c) es
  | Get :: es => let '(c, q) := q_get q in let '(cs, s) := q_run m q es in (c :: cs, s)
  end.

Lemma kb_run_refines es : ∀ st, kb_inv st →
  kb_inv (kb_run st es).2 ∧
  q_run (kb_mods st) (kb_chars st) es =
    ((kb_run st es).1, (kb_mods (kb_run st es).2, kb_chars (kb_run st es).2)).
Proof.
  induction es as [|[sc|] es IH]; intros st Hi; cbn [kb_run q_run]; [done| |].
  - destruct (kb_handle_spec st sc Hi) as (Hi' & Hm & Hq). destruct (IH _ Hi') as [? E].
    rewrite Hm, Hq in E. by destruct (translate_scancode (kb_mods st) sc).
  - destruct (getchar_spec st Hi) as (Hi' & Hm & Hc & Hq).
    destruct (keyboard_getchar st) as [c st1]. cbn [fst snd] in *.
    destruct (IH _ Hi') as [? E]. rewrite Hm, Hq in E.
    destruct (q_get (kb_chars st)) as [c' q]. cbn [fst snd] in *. subst c'.
    destruct (kb_run st1 es) as [cs st2]. cbn [fst snd] in *. by rewrite E.
Qed.

(** ** The key map *)

(** What a press or release should give: letters in the case shift and caps
    lock ask for, other keys by shift alone, nothing on release. *)
Definition letter_case (m : mods) : bool := xorb (c_true (shift_pressed m)) (c_true (capslock_on m)).
Definition plain (sc : Z) : Z := nthZ 0 scancode_to_ascii sc.
Definition char_ok (c : Z) : bool :=
  ((32 <=? c) && (c <=? 126)) || existsb (Z.eqb c) [0; 8; 9; 10; 27].

Definition mods_eqb (a b : mods) : bool :=
  (shift_pressed a =? shift_pressed b) && (ctrl_pressed a =? ctrl_pressed b) &&
  (alt_pressed a =? alt_pressed b) && (capslock_on a =? capslock_on b).

Definition key_spec (m : mods) (sc : Z) : bool :=
  let '(c, m') := translate_scancode m sc in
  char_ok c &&
  implb (c_true c) (mods_eqb m' m) &&
  implb (128 <=? sc) (c =? 0) &&
  implb (letter_key sc)
    ((97 <=? plain sc) && (plain sc <=? 122) &&
     (c =? if letter_case m then plain sc - 32 else plain sc)) &&
  implb (negb (letter_key sc)) (c =? (translate_scancode (set_caps m 0) sc).1).

Definition all_mods : list mods :=
  s ← [0; 1]; c ← [0; 1]; a ← [0; 1]; p ← [0; 1]; [Mods s c a p].

Lemma all_mods_complete m : mods_ok m → m ∈ all_mods.
Proof.
  destruct m as [s c a p]. unfold mods_ok, flag. cbn.
  intros ([-> | ->] & [-> | ->] & [-> | ->] & [-> | ->]); repeat (left; reflexivity || right); set_solver.
Qed.

Lemma key_spec_all : forallb (λ m, forallb (key_spec m) (seqZ 0 256)) all_mods = true.
Proof. vm_compute. reflexivity. Qed.

Lemma key_spec_true m sc : mods_ok m → u8 sc → key_spec m sc = true.
Proof.
  intros Hm Hs. pose proof (proj1 (forallb_forall _ _) key_spec_all m) as H.
  rewrite <-list_elem_of_In in H. specialize (H (all_mods_complete m Hm)).
  apply (proj1 (forallb_forall _ _) H). apply list_elem_of_In, elem_of_seqZ. unfold u8 in Hs. lia.
Qed.

Lemma mods_eqb_eq a b : mods_eqb a b = true → a = b.
Proof.
  destruct a, b. unfold mods_eqb. cbn. intros [[[?%Z.eqb_eq ?%Z.eqb_eq]%andb_true_iff
    ?%Z.eqb_eq]%andb_true_iff ?%Z.eqb_eq]%andb_true_iff. by subst.
Qed.

(** ** Properties *)

(** An empty keyboard after power-on. *)
Definition kb0 : kbd := Kbd (Mods 0 0 0 0) (replicate 256 0) 0 0.
Lemma kb0_inv : kb_inv kb0.
Proof. split; [done|cbn; lia|cbn; lia|by repeat split; left]. Qed.

(** C14: over every interleaving of keyboard interrupts and calls of
    [keyboard_getchar], the ring buffer behaves as a FIFO queue of at most 255
    characters: the characters read are those of the queue specification, in
    order, 0 standing for an empty queue, and a character that arrives when
    255 wait is dropped. *)
Theorem keyboard_refines_fifo st es :
  kb_inv st →
  kb_inv (kb_run st es).2 ∧
  q_run (kb_mods st) (kb_chars st) es =
    ((kb_run st es).1, (kb_mods (kb_run st es).2, kb_chars (kb_run st es).2)).
Proof. apply kb_run_refines. Qed.

Lemma keyboard_refines_fifo_witness :
  (kb_run kb0 [Irq 0x2A; Irq 0x1E; Irq 0xAA; Get; Irq 0x1E; Get; Get]).1 = [65; 97; 0].
Proof.
  destruct (keyboard_refines_fifo kb0 [Irq 0x2A; Irq 0x1E; Irq 0xAA; Get; Irq 0x1E; Get; Get] kb0_inv) as [_ E].
  apply (f_equal fst) in E. cbn [fst] in E. rewrite <-E. reflexivity.
Defined.

(** [translate_scancode] on each of the 256 scancodes in each modifier
    state: it yields 0, backspace, tab, newline, escape or a printable
    character; a key that yields a character changes no modifier; a release
    yields none; the letter keys yield their letter, upper case exactly when
    one of shift and caps lock is on; caps lock has no effect on other keys;
    and the modifiers stay flags. *)
Theorem translate_correct m sc :
  mods_ok m → u8 sc →
  let '(c, m') := translate_scancode m sc in
  char_ok c = true ∧ mods_ok m' ∧ (c ≠ 0 → m' = m) ∧ (128 <= sc → c = 0) ∧
  (letter_key sc = true →
     97 <= plain sc <= 122 ∧ c = if letter_case m then plain sc - 32 else plain sc) ∧
  (letter_key sc = false → c = (translate_scancode (set_caps m 0) sc).1).
Proof.
  intros Hm Hs. pose proof (key_spec_true m sc Hm Hs) as H. pose proof (translate_mods_ok m sc Hm) as Hm'.
  unfold key_spec in H. destruct (translate_scancode m sc) as [c m']. cbn [snd] in Hm'.
  repeat setoid_rewrite andb_true_iff in H. destruct H as ((((H1 & H2) & H3) & H4) & H5).
  split_and!; try done.
  - intros Hc. rewrite (proj2 (c_true_spec c) Hc) in H2. by apply mods_eqb_eq.
  - intros Hge. rewrite (proj2 (Z.leb_le 128 sc)) in H3 by done. by apply Z.eqb_eq.
  - intros E. rewrite E in H4. cbn [implb] in H4. rewrite !andb_true_iff, !Z.leb_le, Z.eqb_eq in H4. lia.
  - intros E. rewrite E in H5. cbn [negb implb] in H5. by apply Z.eqb_eq.
Qed.

Lemma translate_correct_witness : (translate_scancode (Mods 1 0 0 1) 0x1E).1 = 97.
Proof.
  pose proof (translate_correct (Mods 1 0 0 1) 0x1E) as H.
  destruct (translate_scancode (Mods 1 0 0 1) 0x1E) as [c m'] eqn:E.
  destruct H as (_ & _ & _ & _ & Hl & _).
  - split_and!; (by left) || by right.
  - unfold u8; lia.
  - destruct (Hl eq_refl) as [_ Hc]. cbn [fst]. rewrite Hc. reflexivity.
Defined.

(** [keyboard_init] returns on every device (its loops are bounded), with
    no modifier set and the ring buffer empty. *)
Theorem keyboard_init_resets {D} `{PortIO D} st (d : D) :
  length (kb_buffer st) = 256%nat →
  kb_inv (keyboard_init st d).1 ∧ kb_mods (keyboard_init st d).1 = Mods 0 0 0 0 ∧
  kb_chars (keyboard_init st d).1 = [].
Proof.
  intros Hl. assert ((keyboard_init st d).1 = Kbd (Mods 0 0 0 0) (kb_buffer st) 0 0) as ->.
  { unfold keyboard_init, mbind, io_bind. by repeat case_match. }
  split_and!; [|done|done]. split; cbn; try done. by repeat split; left.
Qed.

Lemma keyboard_init_resets_witness : kb_chars (keyboard_init kb0 (Script [0; 1; 0x44] [])).1 = [].
Proof.
  destruct (keyboard_init_resets kb0 (Script [0; 1; 0x44] [])) as (_ & _ & E); [reflexivity|exact E].
Defined.
