(* ===== verification/Vga.v ===== *)
(** * VGA text console (kernel/vga.c, kernel/vga.h)

    The 80x25 text buffer is a list of 2000 16-bit cells; the hardware cursor
    is set through the ports of the CRT controller.  The specification is the
    screen as a function of row and column ([cell]) with the cursor. *)

From S2P Require Import Prelude Io.

Definition VGA_WIDTH : Z := 80.
Definition VGA_HEIGHT : Z := 25.

Inductive vga_color_t : Type :=
  | VGA_COLOR_BLACK | VGA_COLOR_BLUE | VGA_COLOR_GREEN | VGA_COLOR_CYAN
  | VGA_COLOR_RED | VGA_COLOR_MAGENTA | VGA_COLOR_BROWN | VGA_COLOR_LIGHT_GREY
  | VGA_COLOR_DARK_GREY | VGA_COLOR_LIGHT_BLUE | VGA_COLOR_LIGHT_GREEN | VGA_COLOR_LIGHT_CYAN
  | VGA_COLOR_LIGHT_RED | VGA_COLOR_LIGHT_MAGENTA | VGA_COLOR_YELLOW | VGA_COLOR_WHITE.

Definition color_code (c : vga_color_t) : Z :=
  match c with
  | VGA_COLOR_BLACK => 0 | VGA_COLOR_BLUE => 1 | VGA_COLOR_GREEN => 2 | VGA_COLOR_CYAN => 3
  | VGA_COLOR_RED => 4 | VGA_COLOR_MAGENTA => 5 | VGA_COLOR_BROWN => 6 | VGA_COLOR_LIGHT_GREY => 7
  | VGA_COLOR_DARK_GREY => 8 | VGA_COLOR_LIGHT_BLUE => 9 | VGA_COLOR_LIGHT_GREEN => 10
  | VGA_COLOR_LIGHT_CYAN => 11 | VGA_COLOR_LIGHT_RED => 12 | VGA_COLOR_LIGHT_MAGENTA => 13
  | VGA_COLOR_YELLOW => 14 | VGA_COLOR_WHITE => 15
  end.

(** ** The code *)

Record vga := Vga { vga_buffer : list Z; vga_row : Z; vga_column : Z; vga_color : Z }.

Definition vga_entry_color (fg bg : vga_color_t) : Z := w8 (color_code fg .| (color_code bg ≪ 4)).
(** [c] is a [char]; the parameter of [vga_entry] is [unsigned char]. *)
Definition vga_entry (c color : Z) : Z := w16 (w8 c .| (color ≪ 8)).

Definition set_buffer (st : vga) (b : list Z) : vga := Vga b (vga_row st) (vga_column st) (vga_color st).
Definition set_pos (st : vga) (row column : Z) : vga := Vga (vga_buffer st) row column (vga_color st).

Definition vga_scroll (st : vga) : vga :=
  let b := fold_left (λ b y, fold_left (λ b x,
      let src := (y + 1) * VGA_WIDTH + x in
      let dst := y * VGA_WIDTH + x in
      updZ b dst (nthZ 0 b src)) (seqZ 0 VGA_WIDTH) b)
    (seqZ 0 (VGA_HEIGHT - 1)) (vga_buffer st) in
  let b := fold_left (λ b x,
      updZ b ((VGA_HEIGHT - 1) * VGA_WIDTH + x) (vga_entry 32 (vga_color st)))
    (seqZ 0 VGA_WIDTH) b in
  Vga b (VGA_HEIGHT - 1) (vga_column st) (vga_color st).

(** [vga_column = 0; if (++vga_row >= VGA_HEIGHT) vga_scroll();] *)
Definition vga_newline (st : vga) : vga :=
  let st := set_pos st (vga_row st ⊕ 1) 0 in
  if VGA_HEIGHT <=? vga_row st then vga_scroll st else st.

(** [vga_putchar] up to the update of the hardware cursor. *)
Definition vga_put (st : vga) (c : Z) : vga :=
  if c =? 10 then vga_newline st
  else if c =? 13 then set_pos st (vga_row st) 0
  else if c =? 8 then
    if 0 <? vga_column st then set_pos st (vga_row st) (vga_column st ⊖ 1)
    else if 0 <? vga_row st then set_pos st (vga_row st ⊖ 1) (VGA_WIDTH - 1)
    else st
  else if c =? 9 then
    let st := set_pos st (vga_row st) ((vga_column st ⊕ 4) .& w32 (Z.lnot 3)) in
    if VGA_WIDTH <=? vga_column st then vga_newline st else st
  else
    let index := vga_row st * VGA_WIDTH + vga_column st in
    let st := set_buffer st (updZ (vga_buffer st) index (vga_entry c (vga_color st))) in
    let st := set_pos st (vga_row st) (vga_column st ⊕ 1) in
    if VGA_WIDTH <=? vga_column st then vga_newline st else st.

Definition vga_fill (st : vga) : vga :=
  set_pos (set_buffer st
    (fold_left (λ b y, fold_left (λ b x,
        updZ b (y * VGA_WIDTH + x) (vga_entry 32 (vga_color st))) (seqZ 0 VGA_WIDTH) b)
      (seqZ 0 VGA_HEIGHT) (vga_buffer st))) 0 0.

Definition vga_set_color (st : vga) (fg bg : vga_color_t) : vga :=
  Vga (vga_buffer st) (vga_row st) (vga_column st) (vga_entry_color fg bg).

Section Device.
Context {D : Type} `{PortIO D}.

Definition vga_update_cursor (st : vga) : io D unit :=
  let pos := w16 (vga_row st ⊗ VGA_WIDTH ⊕ vga_column st) in
  outb 0x3D4 0x0F;;
  outb 0x3D5 (w8 (pos .& 0xFF));;
  outb 0x3D4 0x0E;;
  outb 0x3D5 (w8 ((pos ≫ 8) .& 0xFF)).

Definition vga_clear (st : vga) : io D vga :=
  let st := vga_fill st in
  vga_update_cursor st;; mret st.

Definition vga_init (st : vga) : io D vga :=
  vga_clear (Vga (vga_buffer st) 0 0 (vga_entry_color VGA_COLOR_LIGHT_GREY VGA_COLOR_BLACK)).

Definition vga_putchar (st : vga) (c : Z) : io D vga :=
  let st := vga_put st c in
  vga_update_cursor st;; mret st.

(** The string up to its NUL. *)
Fixpoint vga_puts (st : vga) (str : list Z) : io D vga :=
  match str with
  | [] => mret st
  | c :: str => if c =? 0 then mret st else st ← vga_putchar st c; vga_puts st str
  end.

(** "0123456789ABCDEF" *)
Definition hex_digits : list Z := [48; 49; 50; 51; 52; 53; 54; 55; 56; 57; 65; 66; 67; 68; 69; 70].

(** [for (int i = 28; i >= 0; i -= 4) vga_putchar(digits[(n >> i) & 0xF]);] *)
Fixpoint puthex_loop (st : vga) (n : Z) (shifts : list Z) : io D vga :=
  match shifts with
  | [] => mret st
  | i :: shifts =>
      st ← vga_putchar st (nthZ 0 hex_digits ((n ≫ i) .& 0xF));
      puthex_loop st n shifts
  end.
Definition vga_puthex (st : vga) (n : Z) : io D vga :=
  st ← vga_puts st [48; 120];
  puthex_loop st n [28; 24; 20; 16; 12; 8; 4; 0].
End Device.

(** ** Specification *)

Record vga_inv (st : vga) : Prop := {
  vg_len : length (vga_buffer st) = 2000%nat;
  vg_row : 0 <= vga_row st < VGA_HEIGHT;
  vg_col : 0 <= vga_column st < VGA_WIDTH;
  vg_color : u8 (vga_color st)
}.

Definition cell (st : vga) (y x : Z) : Z := nthZ 0 (vga_buffer st) (y * VGA_WIDTH + x).
Definition on_screen (y x : Z) : Prop := 0 <= y < VGA_HEIGHT ∧ 0 <= x < VGA_WIDTH.
Definition blank (st : vga) : Z := vga_entry 32 (vga_color st).

(** ** Loops over the buffer *)

(** Two nested loops over rows and columns are one loop over cells. *)
Lemma fold_rows {A} (f : A → Z → A) (n : nat) : ∀ a,
  fold_left (λ a y, fold_left (λ a x, f a (y * 80 + x)) (seqZ 0 80) a) (seqZ 0 (Z.of_nat n)) a =
  fold_left f (seqZ 0 (80 * Z.of_nat n)) a.
Proof.
  induction n as [|n IH]; intros a; [done|].
  replace (Z.of_nat (S n)) with (Z.of_nat n + 1) by lia.
  rewrite Z.mul_add_distr_l, !seqZ_app, !fold_left_app, IH by lia.
  change (seqZ (0 + Z.of_nat n) 1) with [Z.of_nat n]. cbn [fold_left]. change (80 * 1) with 80.
  assert (seqZ (0 + 80 * Z.of_nat n) 80 = Z.add (Z.of_nat n * 80) <$> seqZ 0 80) as ->
    by (rewrite fmap_add_seqZ; f_equal; lia).
  generalize (fold_left f (seqZ 0 (80 * Z.of_nat n)) a). generalize (seqZ 0 80).
  intros l. induction l as [|x l IHl]; intros b; [done|]. cbn. apply IHl.
Qed.

Lemma fold_upd_length (g : list Z → Z → Z) l b :
  length (fold_left (λ b i, updZ b i (g b i)) l b) = length b.
Proof. revert b. induction l as [|i l IH]; intros b; [done|]. cbn. by rewrite IH, length_updZ. Qed.

(** A loop that overwrites the cells [a, a + n) by values that do not depend on
    the cells already overwritten. *)
Lemma fold_upd_at (g : list Z → Z → Z) (h : Z → Z) (n : nat) : ∀ a b0,
  0 <= a → a + Z.of_nat n <= Z.of_nat (length b0) →
  (∀ b i, a <= i < a + Z.of_nat n → length b = length b0 →
     (∀ j, i <= j → nthZ 0 b j = nthZ 0 b0 j) → g b i = h i) →
  ∀ j, nthZ 0 (fold_left (λ b i, updZ b i (g b i)) (seqZ a (Z.of_nat n)) b0) j =
    if decide (a <= j < a + Z.of_nat n) then h j else nthZ 0 b0 j.
Proof.
  induction n as [|n IH]; intros a b0 Ha Hlen Hg j.
  { rewrite decide_False by lia. done. }
  rewrite seqZ_cons by lia. cbn [fold_left].
  replace (Z.pred (Z.of_nat (S n))) with (Z.of_nat n) by lia.
  assert (g b0 a = h a) as Eh by (apply Hg; (done || lia)).
  rewrite IH.
  - destruct (decide (j = a)) as [->|Hj].
    + rewrite decide_False, decide_True by lia. by rewrite nthZ_updZ_eq by lia.
    + rewrite nthZ_updZ_ne by done.
      destruct (decide (a <= j < a + Z.of_nat (S n))).
      * by rewrite decide_True by lia.
      * by rewrite decide_False by lia.
  - lia.
  - rewrite length_updZ. lia.
  - intros b i Hi Hl Hj'. rewrite length_updZ in Hl. apply Hg; [lia|done|].
    intros k Hk. rewrite Hj' by done. apply nthZ_updZ_ne. lia.
Qed.
