(* ===== verification/VgaProps.v ===== *)
(** * VGA text console: properties

    Every index the console writes is inside the buffer, the screen scrolls
    line by line, each character does to the screen what the specification
    [put_spec] says, and the hexadecimal output reads back. *)

From S2P Require Import Prelude Io Vga.

Ltac vga_lia :=
  unfold on_screen, u8, VGA_WIDTH, VGA_HEIGHT in *; lia.

(** ** Scrolling and clearing *)

Lemma fold_left_ext {A B} (f g : A → B → A) l : ∀ a,
  (∀ a b, f a b = g a b) → fold_left f l a = fold_left g l a.
Proof. induction l as [|x l IH]; intros a H; [done|]. cbn. rewrite H. by apply IH. Qed.

Lemma scroll_lines b0 j :
  length b0 = 2000%nat →
  nthZ 0 (fold_left (λ b y, fold_left (λ b x,
      updZ b (y * VGA_WIDTH + x) (nthZ 0 b ((y + 1) * VGA_WIDTH + x))) (seqZ 0 VGA_WIDTH) b)
    (seqZ 0 (VGA_HEIGHT - 1)) b0) j =
  if decide (0 <= j < 1920) then nthZ 0 b0 (j + 80) else nthZ 0 b0 j.
Proof.
  intros Hl. unfold VGA_WIDTH, VGA_HEIGHT.
  rewrite (fold_left_ext _ (λ b y, fold_left (λ b x,
    updZ b (y * 80 + x) (nthZ 0 b (y * 80 + x + 80))) (seqZ 0 80) b)).
  2: { intros b y. apply fold_left_ext. intros b' x. do 2 f_equal. lia. }
  change (25 - 1) with (Z.of_nat 24).
  rewrite (fold_rows (λ b i, updZ b i (nthZ 0 b (i + 80)))).
  change (80 * Z.of_nat 24) with (Z.of_nat (Z.to_nat 1920)).
  rewrite (fold_upd_at (λ b i, nthZ 0 b (i + 80)) (λ i, nthZ 0 b0 (i + 80))); [|lia|lia|].
  - by change (Z.of_nat (Z.to_nat 1920)) with 1920.
  - intros b i Hi Hlb Hb. apply Hb. lia.
Qed.

Lemma fill_cells a n v b0 j :
  0 <= a → 0 <= n → a + n <= Z.of_nat (length b0) →
  nthZ 0 (fold_left (λ b x, updZ b (a + x) v) (seqZ 0 n) b0) j =
  if decide (a <= j < a + n) then v else nthZ 0 b0 j.
Proof.
  intros Ha Hn Hl.
  assert (∀ l b, fold_left (λ b x, updZ b (a + x) v) l b =
                 fold_left (λ b i, updZ b i v) (Z.add a <$> l) b) as ->.
  { intros l. induction l as [|x l IH]; intros b; [done|]. cbn. apply IH. }
  rewrite fmap_add_seqZ, Z.add_0_r. rewrite <-(Z2Nat.id n) at 1 by lia.
  rewrite (fold_upd_at (λ _ _, v) (λ _, v)); [by rewrite Z2Nat.id by lia|lia|lia|done].
Qed.

Lemma fold_length {A} (f : list Z → A → list Z) l b :
  (∀ b x, length (f b x) = length b) → length (fold_left f l b) = length b.
Proof. intros H. revert b. induction l as [|x l IH]; intros b; [done|]. cbn. by rewrite IH. Qed.

Lemma vga_scroll_len st : length (vga_buffer (vga_scroll st)) = length (vga_buffer st).
Proof.
  unfold vga_scroll. cbn [vga_buffer]. rewrite !fold_length; try done; intros.
  - apply fold_length. intros. apply length_updZ.
  - apply length_updZ.
Qed.

Lemma vga_scroll_spec st y x :
  length (vga_buffer st) = 2000%nat → on_screen y x →
  cell (vga_scroll st) y x = if decide (y < VGA_HEIGHT - 1) then cell st (y + 1) x else blank st.
Proof.
  intros Hl Hs. unfold cell, vga_scroll, blank. cbn [vga_buffer].
  rewrite fill_cells, scroll_lines; [|done|vga_lia|vga_lia|].
  - repeat case_decide; first [done|exfalso; vga_lia|f_equal; vga_lia].
  - rewrite fold_length; [vga_lia|]. intros. apply fold_length. intros. apply length_updZ.
Qed.

Lemma vga_fill_spec st y x :
  length (vga_buffer st) = 2000%nat → on_screen y x →
  length (vga_buffer (vga_fill st)) = 2000%nat ∧ cell (vga_fill st) y x = blank st.
Proof.
  intros Hl Hs. unfold cell, vga_fill, blank. cbn [vga_buffer set_pos set_buffer]. split.
  { rewrite fold_length; [done|]. intros. apply fold_length. intros. apply length_updZ. }
  unfold VGA_WIDTH, VGA_HEIGHT. change 25 with (Z.of_nat 25).
  rewrite (fold_rows (λ b i, updZ b i (vga_entry 32 (vga_color st)))).
  rewrite (fold_left_ext _ (λ b x, updZ b (0 + x) (vga_entry 32 (vga_color st))))
    by (intros; f_equal).
  rewrite fill_cells; [|lia|lia|rewrite Hl; lia]. rewrite decide_True; [done|vga_lia].
Qed.

(** ** New lines *)

(** The screen after the cursor leaves the last column or line: [at_row] is the
    row it was in. *)
Definition line_spec (st st' : vga) : Prop :=
  vga_column st' = 0 ∧ vga_color st' = vga_color st ∧
  ((vga_row st < VGA_HEIGHT - 1 ∧ vga_row st' = vga_row st + 1 ∧
    ∀ y x, on_screen y x → cell st' y x = cell st y x) ∨
   (vga_row st = VGA_HEIGHT - 1 ∧ vga_row st' = VGA_HEIGHT - 1 ∧
    ∀ y x, on_screen y x →
      cell st' y x = if decide (y < VGA_HEIGHT - 1) then cell st (y + 1) x else blank st)).

Lemma vga_newline_spec st :
  length (vga_buffer st) = 2000%nat → 0 <= vga_row st < VGA_HEIGHT → u8 (vga_color st) →
  vga_inv (vga_newline st) ∧ line_spec st (vga_newline st).
Proof.
  intros Hl Hr Hc. unfold vga_newline. cbn [vga_row set_pos].
  rewrite w32_small by vga_lia. bdestr (VGA_HEIGHT <=? vga_row st + 1).
  - assert (vga_row st = VGA_HEIGHT - 1) by lia. split.
    + split; [by rewrite vga_scroll_len|cbn; vga_lia|cbn; vga_lia|done].
    + split_and!; try done. right. split_and!; try done. intros y x Hs.
      by rewrite vga_scroll_spec.
  - split; [split; cbn; try done; vga_lia|]. split_and!; try done. left.
    split_and!; [lia|done|done].
Qed.

(** ** Characters *)

Definition printable (c : Z) : Prop := c ≠ 10 ∧ c ≠ 13 ∧ c ≠ 8 ∧ c ≠ 9.

(** [st] with character [c] in the cell of the cursor. *)
Definition written (st : vga) (c : Z) : vga :=
  set_buffer st (updZ (vga_buffer st) (vga_row st * VGA_WIDTH + vga_column st) (vga_entry c (vga_color st))).

Lemma cell_written st c y x :
  vga_inv st → on_screen y x →
  cell (written st c) y x =
    if decide (y = vga_row st ∧ x = vga_column st) then vga_entry c (vga_color st) else cell st y x.
Proof.
  intros [Hl Hr Hcol _] Hs. unfold cell, written. cbn [vga_buffer set_buffer]. case_decide as Hd.
  - destruct Hd as [-> ->]. apply nthZ_updZ_eq. vga_lia.
  - apply nthZ_updZ_ne. vga_lia.
Qed.

(** The cursor moves to [row, column] and no cell changes. *)
Definition moved (st st' : vga) (row column : Z) : Prop :=
  vga_row st' = row ∧ vga_column st' = column ∧ vga_color st' = vga_color st ∧
  ∀ y x, on_screen y x → cell st' y x = cell st y x.

(** What each character does. *)
Definition put_spec (st : vga) (c : Z) (st' : vga) : Prop :=
  (c = 10 → line_spec st st') ∧
  (c = 13 → moved st st' (vga_row st) 0) ∧
  (c = 8 → if decide (0 < vga_column st) then moved st st' (vga_row st) (vga_column st - 1)
           else if decide (0 < vga_row st) then moved st st' (vga_row st - 1) (VGA_WIDTH - 1)
           else st' = st) ∧
  (c = 9 → let column := vga_column st - vga_column st mod 4 + 4 in
           if decide (column < VGA_WIDTH) then moved st st' (vga_row st) column else line_spec st st') ∧
  (printable c →
     if decide (vga_column st + 1 < VGA_WIDTH)
     then moved (written st c) st' (vga_row st) (vga_column st + 1)
     else line_spec (written st c) st').

Lemma tab_column x : 0 <= x < 80 → (x ⊕ 4) .& w32 (Z.lnot 3) = x - x mod 4 + 4.
Proof.
  intros. rewrite w32_small by lia. change (w32 (Z.lnot 3)) with (4294967296 - 2 ^ 2).
  rewrite land_high_mask by lia. change (2 ^ 2) with 4. zdm.
Qed.

Ltac set_inv := split; cbn; rewrite ?length_updZ; done || vga_lia.

Lemma vga_put_spec st c : vga_inv st → vga_inv (vga_put st c) ∧ put_spec st c (vga_put st c).
Proof.
  intros Hi. pose proof Hi as [Hl Hr Hcol Hc]. unfold vga_put, put_spec, printable.
  destruct (Z.eqb_spec c 10) as [->|].
  { destruct (vga_newline_spec st) as [? ?]; [done..|]. split_and!; try done; lia. }
  destruct (Z.eqb_spec c 13) as [->|].
  { split; [set_inv|]. split_and!; try lia. intros _. by split_and!. }
  destruct (Z.eqb_spec c 8) as [->|].
  { bdestr (0 <? vga_column st).
    - rewrite w32_small by vga_lia. split; [set_inv|]. split_and!; try lia. intros _. rewrite decide_True by lia. by split_and!.
    - bdestr (0 <? vga_row st).
      + rewrite w32_small by vga_lia. split; [set_inv|]. split_and!; try lia. intros _.
        rewrite decide_False, decide_True by lia. by split_and!.
      + split; [done|]. split_and!; try lia. intros _. by rewrite !decide_False by lia. }
  destruct (Z.eqb_spec c 9) as [->|].
  { cbn [vga_column set_pos]. rewrite tab_column by vga_lia. cbv zeta.
    bdestr (VGA_WIDTH <=? vga_column st - vga_column st mod 4 + 4).
    - destruct (vga_newline_spec (set_pos st (vga_row st) (vga_column st - vga_column st mod 4 + 4)))
        as [? ?]; [done..|].
      split; [done|]. split_and!; try lia. intros _. by rewrite decide_False by lia.
    - assert (0 <= vga_column st mod 4 <= vga_column st) by (unfold VGA_WIDTH in *; zdm).
      split; [set_inv|]. split_and!; try lia. intros _. rewrite decide_True by lia. by split_and!. }
  cbn [vga_column set_pos set_buffer vga_row]. rewrite w32_small by vga_lia. fold (written st c).
  assert (length (vga_buffer (written st c)) = 2000%nat) as Hlw by (cbn; by rewrite length_updZ).
  bdestr (VGA_WIDTH <=? vga_column st + 1).
  - destruct (vga_newline_spec (set_pos (written st c) (vga_row st) (vga_column st + 1))) as [? Hspec]; [done..|].
    split; [done|]. split_and!; try lia. intros _. by rewrite decide_False by lia.
  - split; [split; cbn; rewrite ?length_updZ; done || vga_lia|].
    split_and!; try lia. intros _. rewrite decide_True by lia. by split_and!.
Qed.

(** ** Strings *)

(** The screen after a list of characters. *)
Definition put_all (st : vga) (cs : list Z) : vga := fold_left vga_put cs st.

Lemma put_all_inv cs : ∀ st, vga_inv st → vga_inv (put_all st cs).
Proof.
  induction cs as [|c cs IH]; intros st Hi; [done|]. cbn. apply IH. by apply vga_put_spec.
Qed.

Section Output.
Context {D : Type} `{PortIO D}.

Lemma vga_putchar_state st c (d : D) : (vga_putchar st c d).1 = vga_put st c.
Proof. unfold vga_putchar, mbind, io_bind. by destruct (vga_update_cursor _ d). Qed.

Lemma vga_puts_state str : ∀ st (d : D), (vga_puts st str d).1 = put_all st (c_string str).
Proof.
  induction str as [|c str IH]; intros st d; [done|]. cbn [vga_puts c_string].
  destruct (Z.eqb_spec c 0); [done|]. unfold mbind, io_bind.
  pose proof (vga_putchar_state st c d) as E. destruct (vga_putchar st c d) as [st1 d1]. cbn [fst] in E.
  rewrite IH, E. done.
Qed.

Lemma puthex_loop_state n shifts : ∀ st (d : D),
  (puthex_loop st n shifts d).1 =
  put_all st ((λ i, nthZ 0 hex_digits ((n ≫ i) .& 0xF)) <$> shifts).
Proof.
  induction shifts as [|i shifts IH]; intros st d; [done|]. cbn [puthex_loop fmap list_fmap].
  unfold mbind, io_bind. pose proof (vga_putchar_state st (nthZ 0 hex_digits ((n ≫ i) .& 0xF)) d) as E.
  destruct (vga_putchar _ _ d) as [st1 d1]. cbn [fst] in E. rewrite IH, E. done.
Qed.
End Output.

(** ** Hexadecimal *)

Definition hex8 (n : Z) : list Z :=
  (λ i, nthZ 0 hex_digits ((n ≫ i) .& 0xF)) <$> [28; 24; 20; 16; 12; 8; 4; 0].

(** What printing leaves on the screen, as rules on [returns]. *)
Lemma returns_puts {D} `{PortIO D} st str : returns (D := D) (vga_puts st str) (put_all st (c_string str)).
Proof. intros d. apply vga_puts_state. Qed.
Lemma returns_putchar {D} `{PortIO D} st c : returns (D := D) (vga_putchar st c) (vga_put st c).
Proof. intros d. apply vga_putchar_state. Qed.
Lemma returns_puthex {D} `{PortIO D} st n : returns (D := D) (vga_puthex st n) (put_all st (48 :: 120 :: hex8 n)).
Proof. eapply returns_bind; [apply returns_puts|]. intros d. apply puthex_loop_state. Qed.
#[export] Hint Resolve returns_puts returns_putchar returns_puthex : magnos.

Lemma put_all_app st s t : put_all st (s ++ t) = put_all (put_all st s) t.
Proof. apply fold_left_app. Qed.

(** [vga_init] leaves a console whatever the buffer holds. *)
Lemma vga_init_inv {D} `{PortIO D} st (d : D) :
  length (vga_buffer st) = 2000%nat → vga_inv (vga_init st d).1.
Proof.
  intros Hl. set (st0 := Vga (vga_buffer st) 0 0 (vga_entry_color VGA_COLOR_LIGHT_GREY VGA_COLOR_BLACK)).
  assert ((vga_init st d).1 = vga_fill st0) as ->.
  { unfold vga_init, vga_clear, mbind, io_bind. fold st0. by destruct (vga_update_cursor _ d). }
  split; [|cbn; vga_lia|cbn; vga_lia|done]. apply (vga_fill_spec st0 0 0); [exact Hl|]. unfold on_screen. vga_lia.
Qed.

(** The value of a hexadecimal digit, and of a string of them. *)
Definition unhex1 (c : Z) : Z := if c <? 65 then c - 48 else c - 55.
Definition unhex (cs : list Z) : Z := fold_left (λ v c, 16 * v + unhex1 c) cs 0.

Lemma nibble n i : 0 <= i → (n ≫ i) .& 0xF = (n / 2 ^ i) mod 16.
Proof.
  intros. change 0xF with (2 ^ 4 - 1). rewrite land_low_mask by lia.
  rewrite Z.shiftr_div_pow2 by lia. done.
Qed.

Lemma unhex1_digit k : 0 <= k < 16 → unhex1 (nthZ 0 hex_digits k) = k.
Proof.
  intros Hk. assert (Forall (λ k, unhex1 (nthZ 0 hex_digits k) = k) (seqZ 0 16)) as H
    by (vm_compute; repeat constructor).
  apply (proj1 (Forall_forall _ _) H). apply elem_of_seqZ. lia.
Qed.

Lemma unhex_hex8 n : u32 n → unhex (hex8 n) = n.
Proof.
  intros Hn. unfold unhex, hex8. cbn [fmap list_fmap fold_left].
  rewrite !nibble by lia. rewrite !unhex1_digit by (apply Z.mod_pos_bound; lia).
  change (2 ^ 28) with 268435456. change (2 ^ 24) with 16777216. change (2 ^ 20) with 1048576.
  change (2 ^ 16) with 65536. change (2 ^ 12) with 4096. change (2 ^ 8) with 256.
  change (2 ^ 4) with 16. change (2 ^ 0) with 1. unfold u32 in Hn. zdm.
Qed.

(** ** Properties *)

Definition vga0 : vga := Vga (replicate 2000 0x0720) 0 0 7.
Lemma vga0_inv : vga_inv vga0.
Proof. split; [apply length_replicate|cbn; vga_lia..]. Qed.

(** Whatever string is printed, on every device: the cursor stays on the
    screen and the buffer keeps its 2000 cells, so that each cell written was
    one of the 80x25. *)
Theorem vga_puts_in_bounds {D} `{PortIO D} st str (d : D) :
  vga_inv st → vga_inv (vga_puts st str d).1.
Proof. intros Hi. rewrite vga_puts_state. by apply put_all_inv. Qed.

Lemma vga_puts_in_bounds_witness : vga_inv (vga_puts vga0 [72; 9; 10; 8; 8] (Script [] [])).1.
Proof. apply vga_puts_in_bounds, vga0_inv. Defined.

(** C15: what [vga_putchar] does on each character: a new line moves to the
    first column of the next line, scrolling every line up by one and blanking
    the last when there is none; a carriage return goes to the first column; a
    backspace one cell back, to the end of the line above from the first
    column; a tab to the next multiple of 4; any other character is written
    in the cell of the cursor, with the current color, and advances it.  No
    other cell changes, and on a device that logs its writes the cursor
    registers hold the new position. *)
Theorem vga_putchar_correct st c d :
  vga_inv st →
  let '(st', d') := vga_putchar (D := script) st c d in
  vga_inv st' ∧ put_spec st c st' ∧
  ∃ lo hi, sc_log d' = sc_log d ++ [(0x3D4, 0x0F); (0x3D5, lo); (0x3D4, 0x0E); (0x3D5, hi)] ∧
    256 * hi + lo = VGA_WIDTH * vga_row st' + vga_column st'.
Proof.
  intros Hi. destruct (vga_put_spec st c Hi) as [Hi' Hspec].
  unfold vga_putchar, vga_update_cursor, mbind, io_bind. cbn [inb outb script_io sc_write].
  split_and!; try done. cbn [sc_log]. eexists _, _. rewrite <-!app_assoc. split; [reflexivity|].
  destruct Hi' as [_ Hr Hc _]. set (st' := vga_put st c) in *.
  rewrite (w32_small (vga_row st' * VGA_WIDTH)) by vga_lia. rewrite (w32_small (_ + _)) by vga_lia.
  rewrite w16_small by vga_lia. set (pos := vga_row st' * VGA_WIDTH + vga_column st').
  assert (0 <= pos < 2000) by (unfold pos; vga_lia).
  change 0xFF with (2 ^ 8 - 1). rewrite !land_low_mask, Z.shiftr_div_pow2 by lia.
  change (2 ^ 8) with 256. unfold w8. unfold pos in *. rewrite (Z.mul_comm VGA_WIDTH). zdm.
Qed.

Lemma vga_putchar_correct_witness :
  let '(st', d') := vga_putchar vga0 65 (Script [] []) in cell st' 0 0 = 0x741 ∧ vga_column st' = 1.
Proof.
  pose proof (vga_putchar_correct vga0 65 (Script [] []) vga0_inv) as H.
  destruct (vga_putchar vga0 65 (Script [] [])) as [st' d'] eqn:E.
  destruct H as (_ & (_ & _ & _ & _ & Hp) & _).
  destruct (Hp ltac:(unfold printable; lia)) as (_ & Hc & _ & Hcell).
  split; [|exact Hc]. rewrite Hcell by vga_lia. reflexivity.
Defined.

(** [vga_puthex] prints "0x" and eight hexadecimal digits, and reading the
    digits back gives the number. *)
Theorem vga_puthex_roundtrip {D} `{PortIO D} st n (d : D) :
  u32 n → (vga_puthex st n d).1 = put_all st ([48; 120] ++ hex8 n) ∧ unhex (hex8 n) = n.
Proof.
  intros Hn. split; [|by apply unhex_hex8]. unfold vga_puthex, mbind, io_bind.
  pose proof (vga_puts_state [48; 120] st d) as E. destruct (vga_puts st [48; 120] d) as [st1 d1].
  cbn [fst] in E. rewrite puthex_loop_state, E. unfold put_all. rewrite fold_left_app. done.
Qed.

Lemma vga_puthex_roundtrip_witness :
  hex8 0xB8000 = [48; 48; 48; 66; 56; 48; 48; 48] ∧ unhex (hex8 0xB8000) = 0xB8000.
Proof.
  split; [reflexivity|]. apply (vga_puthex_roundtrip vga0 0xB8000 (Script [] [])). unfold u32; lia.
Defined.
