(* ===== verification/Args.v ===== *)
(** * Command lines (kernel/args.c, kernel/args.h)

    [parse_command_line] cuts a command line into a program name and at most
    16 arguments of at most 63 characters.  The reference definition splits
    the line into words at spaces and cuts each word into pieces of 63
    characters ([pieces]); the theorem is that the loops of the code compute
    it, inside the bounds of the arrays. *)

From S2P Require Import Prelude.

Definition MAX_ARGS : Z := 16.
Definition MAX_ARG_LEN : Z := 64.

Record program_args_t := Args { args : list (list Z); count : Z }.

(** ** The code *)

(** A command line is read through what is left of it; the end of the list is
    the terminating NUL. *)

(** [while (cmdline[i] == ' ') i++;] *)
Fixpoint skip_spaces (s : list Z) : list Z :=
  match s with
  | [] => []
  | c :: s' => if c =? 32 then skip_spaces s' else s
  end.

(** [while (cmdline[i] && cmdline[i] != ' ' && idx < MAX_ARG_LEN - 1)
       dst[idx++] = cmdline[i++];] *)
Fixpoint copy_word (s dst : list Z) (idx : Z) : list Z * list Z * Z :=
  match s with
  | [] => (s, dst, idx)
  | c :: s' =>
      if negb (c =? 0) && negb (c =? 32) && (idx <? MAX_ARG_LEN - 1)
      then copy_word s' (updZ dst idx c) (idx + 1)
      else (s, dst, idx)
  end.

Definition at_end (s : list Z) : bool :=
  match s with [] => true | c :: _ => c =? 0 end.

(** The loop over the arguments; each round that goes on uses up a character,
    so [fuel] above the length of the line is enough. *)
Fixpoint parse_args (fuel : nat) (s : list Z) (a : program_args_t) : program_args_t :=
  match fuel with
  | O => a
  | S fuel =>
      if negb (at_end s) && (count a <? MAX_ARGS) then
        let s := skip_spaces s in
        if at_end s then a
        else
          let '(s, arg, idx) := copy_word s (nthZ [] (args a) (count a)) 0 in
          let arg := updZ arg idx 0 in
          let a := Args (updZ (args a) (count a) arg) (count a) in
          parse_args fuel s (if 0 <? idx then Args (args a) (count a + 1) else a)
      else a
  end.

Definition parse_command_line (cmdline program : list Z) (a : program_args_t) : list Z * program_args_t :=
  let a := Args (fold_left (λ l j, updZ l j (updZ (nthZ [] l j) 0 0)) (seqZ 0 MAX_ARGS) (args a)) 0 in
  let s := skip_spaces cmdline in
  let '(s, program, idx) := copy_word s program 0 in
  let program := updZ program idx 0 in
  (program, parse_args (S (length s)) s a).

(** ** The reference *)

(** The words between spaces; [w] is the word being read. *)
Fixpoint words_from (w s : list Z) : list (list Z) :=
  match s with
  | [] => if decide (w = []) then [] else [w]
  | c :: s =>
      if decide (c = 32) then (if decide (w = []) then [] else [w]) ++ words_from [] s
      else words_from (w ++ [c]) s
  end.
Definition words (s : list Z) : list (list Z) := words_from [] s.

(** A word cut into pieces of 63 characters. *)
Fixpoint cut (fuel : nat) (w : list Z) : list (list Z) :=
  match fuel, w with
  | S n, _ :: _ => take 63 w :: cut n (drop 63 w)
  | _, _ => []
  end.
Definition pieces (s : list Z) : list (list Z) := w ← words s; cut (length w) w.

(** ** Words *)

Definition no_space (w : list Z) : Prop := Forall (λ c, c ≠ 32) w.

Lemma words_from_app w s r :
  no_space s → words_from w (s ++ r) = words_from (w ++ s) r.
Proof.
  intros Hs. revert w. induction Hs as [|c s Hc Hs IH]; intros w; [by rewrite app_nil_r|].
  cbn. rewrite decide_False by done. rewrite IH. by rewrite <-app_assoc.
Qed.

Lemma words_skip s : words (skip_spaces s) = words s.
Proof.
  induction s as [|c s IH]; [done|]. cbn [skip_spaces]. destruct (Z.eqb_spec c 32) as [->|]; [|done].
  rewrite IH. done.
Qed.

(** A word followed by a space or the end. *)
Lemma words_cons w r :
  no_space w → w ≠ [] → (r = [] ∨ ∃ r', r = 32 :: r') → words (w ++ r) = w :: words r.
Proof.
  intros Hw Hne Hr. unfold words. rewrite words_from_app by done. cbn [app].
  destruct Hr as [->|[r' ->]]; cbn [words_from].
  - by rewrite decide_False.
  - rewrite (decide_False (P := w = [])) by done. rewrite !decide_True by done. done.
Qed.

Lemma cut_fuel n m w : (length w <= n)%nat → (length w <= m)%nat → cut n w = cut m w.
Proof.
  revert m w. induction n as [|n IH]; intros m w Hn Hm.
  { destruct w; [|cbn in Hn; lia]. by destruct m. }
  destruct w as [|c w]; [by destruct m|]. destruct m as [|m]; [cbn in Hm; lia|].
  cbn [cut]. f_equal. apply IH; rewrite length_drop; cbn in *; lia.
Qed.

(** The maximal prefix without spaces. *)
Lemma split_word s : ∃ w r, s = w ++ r ∧ no_space w ∧ (r = [] ∨ ∃ r', r = 32 :: r').
Proof.
  induction s as [|c s (w & r & -> & Hw & Hr)]; [exists [], []; split_and!; [done|constructor|auto]|].
  destruct (decide (c = 32)) as [->|Hc].
  - exists [], (32 :: w ++ r). split_and!; [done|constructor|eauto].
  - exists (c :: w), r. split_and!; [done|by constructor|done].
Qed.

(** The first piece of a line, and the line after it. *)
Lemma pieces_step w r :
  no_space w → w ≠ [] → (r = [] ∨ ∃ r', r = 32 :: r') →
  pieces (w ++ r) = take 63 w :: pieces (drop 63 w ++ r).
Proof.
  intros Hw Hne Hr. unfold pieces. rewrite words_cons by done. cbn [mbind list_bind].
  destruct w as [|c w]; [done|]. cbn [length cut]. cbn [app]. f_equal.
  destruct (decide (drop 63 (c :: w) = [])) as [E|E].
  - rewrite E. cbn [app]. by destruct (length w).
  - rewrite words_cons; [|by apply Forall_drop|done|done]. cbn [mbind list_bind].
    f_equal. apply cut_fuel; rewrite length_drop; cbn; lia.
Qed.
