(* ===== verification/ArgsProps.v ===== *)
(** * Command lines: properties

    [parse_command_line] computes the reference pieces, inside its arrays. *)

From S2P Require Import Prelude Args.

Definition nul_free (s : list Z) : Prop := Forall (λ c, c ≠ 0) s.

(** ** Copying a word *)

Lemma copy_word_spec w r : ∀ dst (k : nat),
  no_space w → nul_free w → (r = [] ∨ ∃ r', r = 32 :: r') → length dst = 64%nat → (k <= 63)%nat →
  ∃ rest, copy_word (w ++ r) dst (Z.of_nat k) =
    (drop (63 - k) w ++ r, take k dst ++ take (63 - k) w ++ rest,
     Z.of_nat k + Z.of_nat (length (take (63 - k) w))) ∧
    length (take k dst ++ take (63 - k) w ++ rest) = 64%nat.
Proof.
  induction w as [|c w IH]; intros dst k Hs Hn Hr Hd Hk.
  - exists (drop k dst). rewrite take_nil, drop_nil. cbn [app length].
    rewrite take_drop. split; [|done]. rewrite Z.add_0_r.
    destruct Hr as [->|[r' ->]]; [done|]. cbn [copy_word]. by rewrite andb_false_r.
  - inversion_clear Hs as [|? ? Hc Hs']. inversion_clear Hn as [|? ? Hc0 Hn'].
    cbn [app copy_word]. rewrite (proj2 (Z.eqb_neq c 0) Hc0), (proj2 (Z.eqb_neq c 32) Hc). cbn [negb andb].
    unfold MAX_ARG_LEN. bdestr (Z.of_nat k <? 64 - 1).
    + replace (63 - k)%nat with (S (63 - S k)) by lia. cbn [take drop].
      replace (Z.of_nat k + 1) with (Z.of_nat (S k)) by lia.
      destruct (IH (updZ dst (Z.of_nat k) c) (S k)) as (rest & E & Hlen);
        [done|done|done|by rewrite length_updZ|lia|].
      assert (take (S k) (updZ dst (Z.of_nat k) c) = take k dst ++ [c]) as Et.
      { unfold updZ. rewrite decide_True, Nat2Z.id by lia.
        rewrite insert_take_drop by lia. rewrite take_app, length_take_le, take_take by lia.
        replace (S k - k)%nat with 1%nat by lia. by rewrite Nat.min_r by lia. }
      rewrite Et, <-app_assoc in E, Hlen. exists rest. split; [|done].
      etransitivity; [exact E|]. cbn [length app].
      replace (Z.of_nat (S k) + _) with (Z.of_nat k + Z.of_nat (S (length (take (63 - S k) w)))) by lia.
      done.
    + assert (k = 63%nat) as -> by lia. exists (drop 63 dst). cbn [Nat.sub take drop app length].
      rewrite take_drop. split; [|done]. by rewrite Z.add_0_r.
Qed.

(** A word copied to the start of a row, with its NUL. *)
Lemma copy_row w r dst :
  no_space w → nul_free w → (r = [] ∨ ∃ r', r = 32 :: r') → length dst = 64%nat →
  ∃ dst', copy_word (w ++ r) dst 0 = (drop 63 w ++ r, dst', Z.of_nat (length (take 63 w))) ∧
    length (updZ dst' (Z.of_nat (length (take 63 w))) 0) = 64%nat ∧
    c_string (updZ dst' (Z.of_nat (length (take 63 w))) 0) = take 63 w.
Proof.
  intros Hs Hn Hr Hd. destruct (copy_word_spec w r dst 0) as (rest & E & Hlen); [done..|lia|].
  change (Z.of_nat 0) with 0 in E. change (63 - 0)%nat with 63%nat in *.
  rewrite take_0, app_nil_l, Z.add_0_l in *.
  exists (take 63 w ++ rest). split; [exact E|]. rewrite length_updZ. split; [done|].
  assert (length (take 63 w) < 64)%nat by (rewrite length_take; lia).
  unfold updZ. rewrite decide_True, Nat2Z.id by lia.
  destruct rest as [|x rest]; [rewrite app_nil_r in Hlen; lia|].
  rewrite insert_app_r_alt, Nat.sub_diag by lia. cbn [insert list_insert].
  apply c_string_app. by apply Forall_take.
Qed.

(** ** The loop over the arguments *)

Definition rows_ok (l : list (list Z)) : Prop :=
  length l = 16%nat ∧ Forall (λ r, length r = 64%nat) l.
Definition row (a : program_args_t) (i : Z) : list Z := nthZ [] (args a) i.

Lemma row_length l i : rows_ok l → 0 <= i < 16 → length (nthZ [] l i) = 64%nat.
Proof.
  intros [Hl Hr] Hi. unfold nthZ. rewrite decide_True by lia.
  destruct (lookup_lt_is_Some_2 l (Z.to_nat i)) as [x Hx]; [lia|]. rewrite Hx. cbn.
  by eapply Forall_lookup_1 in Hr.
Qed.
Lemma rows_ok_upd l i x : rows_ok l → length x = 64%nat → rows_ok (updZ l i x).
Proof. intros [Hl Hr] Hx. split; [by rewrite length_updZ|by apply Forall_updZ]. Qed.

Lemma skip_shape s : ∃ k, s = replicate k 32 ++ skip_spaces s ∧
  (skip_spaces s = [] ∨ ∃ c s', skip_spaces s = c :: s' ∧ c ≠ 32).
Proof.
  induction s as [|c s (k & E & Hs)]; [exists O; auto|]. cbn [skip_spaces].
  destruct (Z.eqb_spec c 32) as [->|Hc].
  - exists (S k). cbn. split; [by rewrite <-E|done].
  - exists O. split; [done|]. eauto.
Qed.

Lemma nul_free_skip s : nul_free s → nul_free (skip_spaces s).
Proof. destruct (skip_shape s) as (k & E & _). rewrite E at 1. by intros [_ ?]%Forall_app. Qed.

(** After the spaces: the end, or a word and what follows it. *)
Lemma skip_cases s :
  nul_free s →
  (skip_spaces s = [] ∧ pieces s = []) ∨
  (∃ w r, skip_spaces s = w ++ r ∧ w ≠ [] ∧ no_space w ∧ nul_free w ∧ nul_free r ∧
     (r = [] ∨ ∃ r', r = 32 :: r') ∧ (length w + length r <= length s)%nat ∧
     pieces s = take 63 w :: pieces (drop 63 w ++ r)).
Proof.
  intros Hn. pose proof (nul_free_skip s Hn) as Hn'. destruct (skip_shape s) as (k & E & Hs).
  assert (pieces s = pieces (skip_spaces s)) as Ep by (unfold pieces; by rewrite words_skip).
  destruct Hs as [Hs|(c & s' & Hs & Hc)]; [left; rewrite Ep, Hs; done|right].
  destruct (split_word (skip_spaces s)) as (w & r & Ew & Hw & Hr). exists w, r.
  rewrite Ew in Hn'. apply Forall_app in Hn' as [Hnw Hnr].
  assert (w ≠ []) as Hne.
  { intros ->. rewrite Hs in Ew. destruct Hr as [->|[r' ->]]; [done|]. injection Ew as ? ?. done. }
  split_and!; try done.
  - rewrite E, Ew, !length_app. lia.
  - rewrite Ep, Ew. by apply pieces_step.
Qed.

Lemma parse_args_spec fuel : ∀ s a,
  nul_free s → rows_ok (args a) → 0 <= count a <= 16 → (length s < fuel)%nat →
  let a' := parse_args fuel s a in
  let toks := take (Z.to_nat (16 - count a)) (pieces s) in
  rows_ok (args a') ∧ count a' = count a + Z.of_nat (length toks) ∧
  (∀ i, i < count a ∨ count a' <= i → row a' i = row a i) ∧
  (∀ (i : nat) t, toks !! i = Some t → c_string (row a' (count a + Z.of_nat i)) = t).
Proof.
  induction fuel as [|fuel IH]; intros s a Hn Ha Hc Hf; [lia|]. cbn [parse_args].
  assert (at_end s = true ↔ s = []) as Hend.
  { destruct Hn as [|c s Hc0 _]; [done|]. cbn. rewrite Z.eqb_eq. naive_solver. }
  destruct (decide (count a = 16)) as [E16|].
  { replace (count a <? MAX_ARGS) with false by (symmetry; apply Z.ltb_ge; unfold MAX_ARGS; lia).
    rewrite andb_false_r, E16. cbn. split_and!; try done; lia. }
  replace (count a <? MAX_ARGS) with true by (symmetry; apply Z.ltb_lt; unfold MAX_ARGS; lia).
  rewrite andb_true_r. destruct (decide (s = [])) as [->|Hs].
  { change (pieces []) with (@nil (list Z)). rewrite take_nil. cbn. split_and!; try done; lia. }
  destruct (at_end s); [by destruct Hs; apply Hend|]. cbn [negb].
  destruct (skip_cases s Hn) as [[E Ep]|(w & r & E & Hne & Hw & Hnw & Hnr & Hr & Hlen & Ep)]; rewrite E, Ep.
  { cbn [at_end]. rewrite take_nil. cbn [length]. split_and!; try done; lia. }
  assert (at_end (w ++ r) = false) as ->.
  { destruct Hnw as [|c w Hc0 _]; [done|]. cbn. by apply Z.eqb_neq. }
  destruct (copy_row w r (row a (count a))) as (dst' & Ecopy & Hrow & Hstr);
    [done..|apply row_length; [done|lia]|]. unfold row in Ecopy. rewrite Ecopy.
  assert (0 < length (take 63 w))%nat by (rewrite length_take; destruct w; cbn in *; [done|lia]).
  replace (0 <? Z.of_nat (length (take 63 w))) with true by (symmetry; apply Z.ltb_lt; lia).
  cbn [args count]. set (arg := updZ dst' _ 0) in *. set (a1 := Args _ _).
  assert (nul_free (drop 63 w ++ r)) as Hn1 by (apply Forall_app; split; [by apply Forall_drop|done]).
  destruct (IH (drop 63 w ++ r) a1 Hn1) as (H1 & H2 & H3 & H4).
  { by apply rows_ok_upd. } { cbn. lia. }
  { rewrite length_app, length_drop. rewrite length_take in *. lia. }
  cbn [count a1] in H2, H3, H4. replace (16 - count a) with (1 + (16 - (count a + 1))) by lia.
  rewrite Z2Nat.inj_add by lia. change (Z.to_nat 1 + ?x)%nat with (S x). cbn [take length].
  assert (∀ i, row a1 i = if decide (i = count a) then arg else row a i) as Hrow1.
  { intros i. unfold row, a1. cbn [args]. case_decide as Hd.
    - subst i. apply nthZ_updZ_eq. destruct Ha as [-> _]. lia.
    - by apply nthZ_updZ_ne. }
  split_and!; [done|lia| |].
  - intros i Hi. rewrite H3 by lia. rewrite Hrow1, decide_False by lia. done.
  - intros [|i] t; cbn [lookup list_lookup].
    + intros [= <-]. rewrite Z.add_0_r, H3 by lia. rewrite Hrow1, decide_True by done. done.
    + intros Ht. rewrite <-(H4 i t Ht). f_equal. f_equal. lia.
Qed.

(** Clearing the first character of every row. *)
Lemma clear_rows (l : list Z) : ∀ rs, rows_ok rs → Forall (λ j, 0 <= j < 16) l →
  let rs' := fold_left (λ rs j, updZ rs j (updZ (nthZ [] rs j) 0 0)) l rs in
  rows_ok rs' ∧ ∀ j, j ∈ l ∨ c_string (nthZ [] rs j) = [] → c_string (nthZ [] rs' j) = [].
Proof.
  induction l as [|i l IH]; intros rs Hrs Hl; cbn [fold_left].
  { split; [done|]. intros j [?%not_elem_of_nil|?]; done. }
  inversion_clear Hl as [|? ? Hi Hl']. pose proof (row_length rs i Hrs Hi) as Hlen.
  destruct (IH (updZ rs i (updZ (nthZ [] rs i) 0 0))) as [Hok Hj]; [|done|].
  { apply rows_ok_upd; [done|]. by rewrite length_updZ. }
  split; [done|]. intros j Hjl. apply Hj. destruct (decide (j = i)) as [->|Hne].
  - right. rewrite nthZ_updZ_eq by (destruct Hrs as [-> _]; lia).
    destruct (nthZ [] rs i) as [|x t]; [done|]. done.
  - rewrite nthZ_updZ_ne by done. set_solver.
Qed.

Lemma parse_spec cmdline program a :
  nul_free cmdline → length program = 64%nat → rows_ok (args a) →
  let '(program', a') := parse_command_line cmdline program a in
  length program' = 64%nat ∧ rows_ok (args a') ∧
  c_string program' = default [] (head (pieces cmdline)) ∧
  count a' = Z.of_nat (length (take 16 (tail (pieces cmdline)))) ∧
  (∀ (i : nat) t, take 16 (tail (pieces cmdline)) !! i = Some t → c_string (row a' (Z.of_nat i)) = t) ∧
  (∀ i, count a' <= i < 16 → c_string (row a' i) = []).
Proof.
  intros Hn Hp Ha. unfold parse_command_line.
  destruct (clear_rows (seqZ 0 MAX_ARGS) (args a) Ha) as [Hok Hclear].
  { apply Forall_forall. intros j ?%elem_of_seqZ. unfold MAX_ARGS in *. lia. }
  set (rs := fold_left _ _ _) in *.
  assert (∀ i, 0 <= i < 16 → c_string (nthZ [] rs i) = []) as Hempty.
  { intros i Hi. apply Hclear. left. apply elem_of_seqZ. unfold MAX_ARGS. lia. }
  destruct (skip_cases cmdline Hn) as [[E Ep]|(w & r & E & Hne & Hw & Hnw & Hnr & Hr & _ & Ep)]; rewrite E, Ep.
  - cbn [copy_word length parse_args at_end negb andb head tail default].
    split_and!; [by rewrite length_updZ|done| |done|done|].
    + destruct program as [|x t]; done.
    + intros i Hi. apply Hempty. cbn in Hi. lia.
  - destruct (copy_row w r program) as (dst' & Ecopy & Hrow & Hstr); [done..|]. rewrite Ecopy.
    assert (nul_free (drop 63 w ++ r)) as Hn1 by (apply Forall_app; split; [by apply Forall_drop|done]).
    destruct (parse_args_spec (S (length (drop 63 w ++ r))) (drop 63 w ++ r) (Args rs 0) Hn1)
      as (H1 & H2 & H3 & H4); [done|cbn; lia|lia|].
    cbn [count] in H2, H3, H4. change (Z.to_nat (16 - 0)) with 16%nat in *. rewrite Z.add_0_l in H2.
    cbn [head tail default]. split_and!; try done.
    intros i Hi. rewrite H3 by lia. apply Hempty. lia.
Qed.

Definition join (ws : list (list Z)) : list Z := foldr (λ w s, 32 :: w ++ s) [] ws.

Lemma pieces_join ws :
  Forall (λ w, w ≠ [] ∧ no_space w ∧ (length w <= 63)%nat) ws → pieces (join ws) = ws.
Proof.
  unfold join. induction 1 as [|w ws (Hne & Hw & Hlen) _ IH]; [done|]. cbn [foldr].
  set (r := foldr _ [] ws) in *.
  assert (r = [] ∨ ∃ r', r = 32 :: r') as Hr by (unfold r; destruct ws; cbn; eauto).
  assert (pieces (32 :: w ++ r) = pieces (w ++ r)) as -> by done.
  rewrite pieces_step by done. rewrite take_ge, drop_ge by done. cbn [app]. by rewrite IH.
Qed.

Lemma join_nul_free ws : Forall nul_free ws → nul_free (join ws).
Proof.
  induction 1 as [|w ws Hw _ IH]; [constructor|]. cbn. constructor; [done|]. by apply Forall_app.
Qed.

(** ** Properties *)

(** C16: [parse_command_line] computes the reference: the program name is the
    first piece of the line and the arguments are the following ones, 16 at
    most, each NUL-terminated inside its row of 64 characters; the rows past
    [count] are empty strings.  A line of words of at most 63 characters is
    thus split at its spaces; a longer word continues in the next argument. *)
Theorem parse_command_line_correct cmdline program a :
  nul_free cmdline → length program = 64%nat → rows_ok (args a) →
  let '(program', a') := parse_command_line cmdline program a in
  length program' = 64%nat ∧ rows_ok (args a') ∧
  c_string program' = default [] (head (pieces cmdline)) ∧
  count a' = Z.of_nat (length (take 16 (tail (pieces cmdline)))) ∧
  (∀ (i : nat) t, take 16 (tail (pieces cmdline)) !! i = Some t → c_string (row a' (Z.of_nat i)) = t) ∧
  (∀ i, count a' <= i < 16 → c_string (row a' i) = []).
Proof. apply parse_spec. Qed.

Definition args0 : program_args_t := Args (replicate 16 (replicate 64 7)) 5.

(** "  cat  a.txt b" *)
Lemma parse_command_line_correct_witness :
  let '(p, a) := parse_command_line [32; 32; 99; 97; 116; 32; 32; 97; 46; 116; 120; 116; 32; 98]
                   (replicate 64 1) args0 in
  c_string p = [99; 97; 116] ∧ count a = 2 ∧ c_string (row a 0) = [97; 46; 116; 120; 116].
Proof.
  pose proof (parse_command_line_correct [32; 32; 99; 97; 116; 32; 32; 97; 46; 116; 120; 116; 32; 98]
    (replicate 64 1) args0) as H.
  destruct (parse_command_line _ _ _) as [p a].
  destruct H as (_ & _ & Hp & Hc & Hr & _).
  - unfold nul_free. repeat (constructor; [discriminate|]). constructor.
  - reflexivity.
  - split; [reflexivity|]. cbn. repeat constructor.
  - rewrite Hp, Hc. split; [reflexivity|]. split; [reflexivity|]. exact (Hr 0%nat _ eq_refl).
Defined.

(** Words of at most 63 characters joined by spaces parse back into
    themselves: the first is the program name and the others, 16 at most, are
    the arguments. *)
Theorem parse_join_roundtrip w ws program a :
  Forall (λ w, w ≠ [] ∧ no_space w ∧ (length w <= 63)%nat) (w :: ws) → Forall nul_free (w :: ws) →
  (length ws <= 16)%nat → length program = 64%nat → rows_ok (args a) →
  let '(program', a') := parse_command_line (join (w :: ws)) program a in
  c_string program' = w ∧ count a' = Z.of_nat (length ws) ∧
  ∀ (i : nat) t, ws !! i = Some t → c_string (row a' (Z.of_nat i)) = t.
Proof.
  intros Hws Hn Hlen Hp Ha. pose proof (parse_spec (join (w :: ws)) program a) as H.
  rewrite pieces_join in H by done. cbn [head tail default] in H. rewrite take_ge in H by done.
  destruct (parse_command_line _ _ _) as [p' a'].
  destruct H as (_ & _ & ? & ? & ? & _); [by apply join_nul_free|done..].
Qed.

(** " ls a" *)
Lemma parse_join_roundtrip_witness :
  let '(p, a) := parse_command_line [32; 108; 115; 32; 97] (replicate 64 1) args0 in
  c_string p = [108; 115] ∧ count a = 1.
Proof.
  pose proof (parse_join_roundtrip [108; 115] [[97]] (replicate 64 1) args0) as H.
  change (join [[108; 115]; [97]]) with [32; 108; 115; 32; 97] in H.
  destruct (parse_command_line _ _ _) as [p a]. destruct H as (Hp & Hc & _).
  - repeat constructor; try discriminate; cbn; lia.
  - repeat constructor; discriminate.
  - cbn; lia.
  - reflexivity.
  - split; [reflexivity|]. cbn. repeat constructor.
  - split; [exact Hp|exact Hc].
Defined.
