(* ===== verification/Fat32.v ===== *)
(** * FAT32 (kernel/fat32.c, kernel/fat32.h)

    The read-only file system over any [BlockDevice], which is what the driver
    uses of the disk: [read_sector drive lba] is [ide_read_sectors(drive, lba,
    1, sector_buffer)], [None] for an error and the 512 bytes of the sector
    otherwise.  The buffer [sector_buffer] is filled by a read before each use
    and so is the result of the read.  The static [file] that [fat32_open]
    returns a pointer to is part of the state.

    The walks of the root directory have the same loops around different
    bodies; [scan_dir] is those loops.  A walk of a cluster chain has no bound
    in the code (a cyclic chain loops forever); it takes [fuel] here and
    answers [None] when it runs out. *)

From S2P Require Import Prelude Io.

Definition FAT32_SECTOR_SIZE : Z := 512.
Definition FAT32_ATTR_VOLUME_ID : Z := 0x08.
Definition FAT32_ATTR_DIRECTORY : Z := 0x10.
Definition FAT32_ATTR_LONG_NAME : Z := 0x0F.
Definition FAT32_CLUSTER_RESERVED : Z := 0x0FFFFFF0.
Definition FAT32_CLUSTER_EOC : Z := 0x0FFFFFF8.
Definition FAT32_CLUSTER_MASK : Z := 0x0FFFFFFF.

Class BlockDevice (D : Type) := {
  read_sector : Z → Z → io D (option (list Z));
  read_sector_ok drive lba d bs : (read_sector drive lba d).1 = Some bs →
    length bs = 512%nat ∧ Forall u8 bs
}.

(** ** Bytes and structures *)

(** Little-endian fields of a packed structure. *)
Definition le8 (b : list Z) (off : Z) : Z := nthZ 0 b off.
Definition le16 (b : list Z) (off : Z) : Z := le8 b off + 256 * le8 b (off + 1).
Definition le32 (b : list Z) (off : Z) : Z := le16 b off + 65536 * le16 b (off + 2).
Definition slice (b : list Z) (off n : Z) : list Z := take (Z.to_nat n) (drop (Z.to_nat off) b).

(** [fat32_bpb_t] as its 90 bytes. *)
Definition bytes_per_sector (b : list Z) : Z := le16 b 11.
Definition sectors_per_cluster (b : list Z) : Z := le8 b 13.
Definition reserved_sectors (b : list Z) : Z := le16 b 14.
Definition num_fats (b : list Z) : Z := le8 b 16.
Definition fat_size_16 (b : list Z) : Z := le16 b 22.
Definition total_sectors_32 (b : list Z) : Z := le32 b 32.
Definition fat_size_32 (b : list Z) : Z := le32 b 36.
Definition root_cluster (b : list Z) : Z := le32 b 44.
Definition sizeof_bpb : Z := 90.

(** [fat32_direntry_t] as its 32 bytes. *)
Definition entry_name (e : list Z) : list Z := slice e 0 11.
Definition entry_attr (e : list Z) : Z := le8 e 11.
Definition first_cluster_high (e : list Z) : Z := le16 e 20.
Definition first_cluster_low (e : list Z) : Z := le16 e 26.
Definition file_size (e : list Z) : Z := le32 e 28.

Record fat32_fs_t := Fs {
  drive : Z;
  bpb : list Z;
  fat_start_sector : Z;
  data_start_sector : Z;
  root_dir_cluster : Z;
  initialized : Z
}.

Record fat32_file_t := File {
  first_cluster : Z;
  current_cluster : Z;
  f_size : Z;
  position : Z;
  attr : Z;
  valid : Z
}.

Record fat32_dirinfo_t := DirInfo { d_name : list Z; d_size : Z; is_directory : Z }.

(** ** Names *)

(** [for (i = from; i < to && fat_name[i] != ' '; i++) output[j++] = fat_name[i];] *)
Fixpoint until_space (l : list Z) : list Z :=
  match l with
  | [] => []
  | c :: l => if c =? 32 then [] else c :: until_space l
  end.

(** The characters written before the NUL. *)
Definition fat32_name_to_string (fat_name : list Z) : list Z :=
  until_space (slice fat_name 0 8) ++
  (if le8 fat_name 8 =? 32 then [] else 46 :: until_space (slice fat_name 8 3)).

(** [for (i = 0; i < n && input[i] && input[i] != stop; i++) fat_name[i] = input[i];] *)
Fixpoint copy_until (stop : Z → bool) (input dst : list Z) (i : Z) (n : nat) : list Z :=
  match n, input with
  | S n, c :: input =>
      if (c =? 0) || stop c then dst else copy_until stop input (updZ dst i c) (i + 1) n
  | _, _ => dst
  end.

(** The pointer [ext] advanced to the first dot or the end. *)
Fixpoint find_dot (s : list Z) : list Z :=
  match s with
  | [] => []
  | c :: s' => if (c =? 0) || (c =? 46) then s else find_dot s'
  end.

Definition fat32_string_to_name (input : list Z) : list Z :=
  let fat_name := replicate 11 32 in
  let fat_name := copy_until (λ c, c =? 46) input fat_name 0 8 in
  match find_dot input with
  | c :: ext => if c =? 46 then copy_until (λ _, false) ext fat_name 8 3 else fat_name
  | [] => fat_name
  end.

(** [strncmp] on lists that hold at least [n] characters or a NUL. *)
Fixpoint strncmp (s1 s2 : list Z) (n : nat) : Z :=
  match n with
  | O => 0
  | S n =>
      let c1 := le8 s1 0 in
      let c2 := le8 s2 0 in
      if negb (c1 =? 0) && (c1 =? c2) then strncmp (tail s1) (tail s2) n else c1 - c2
  end.

(** ** Directory walks *)

(** A loop body returns from the function or goes on with its variables. *)
Inductive flow (R A : Type) : Type := Return (r : R) | Continue (a : A).
Arguments Return {R A} _.
Arguments Continue {R A} _.

Definition fat32_cluster_to_sector (fs : fat32_fs_t) (cluster : Z) : Z :=
  if cluster <? 2 then 0
  else data_start_sector fs ⊕ ((cluster ⊖ 2) ⊗ sectors_per_cluster (bpb fs)).

(** The 16 entries of a sector. *)
Definition sector_entries (sec : list Z) : list (list Z) :=
  (λ j, slice sec (32 * j) 32) <$> seqZ 0 16.

Section Fat32.
Context {D : Type} `{BD : BlockDevice D}.

Definition fat32_get_next_cluster (fs : fat32_fs_t) (cluster : Z) : io D Z :=
  if (cluster <? 2) || (FAT32_CLUSTER_RESERVED <=? cluster) then mret FAT32_CLUSTER_EOC
  else
    let fat_offset := cluster ⊗ 4 in
    let fat_sector := fat_start_sector fs ⊕ (fat_offset / FAT32_SECTOR_SIZE) in
    let entry_offset := (fat_offset mod FAT32_SECTOR_SIZE) / 4 in
    r ← read_sector (drive fs) fat_sector;
    mret match r with
         | None => FAT32_CLUSTER_EOC
         | Some sec =>
             let next_cluster := le32 sec (4 * entry_offset) .& FAT32_CLUSTER_MASK in
             if FAT32_CLUSTER_EOC <=? next_cluster then FAT32_CLUSTER_EOC else next_cluster
         end.

(** Returns 0 or -1 and the file system state. *)
Definition fat32_init (fs : fat32_fs_t) (drv : Z) : io D (Z * fat32_fs_t) :=
  let fs := Fs drv (bpb fs) (fat_start_sector fs) (data_start_sector fs) (root_dir_cluster fs) 0 in
  r ← read_sector drv 0;
  mret match r with
       | None => (-1, fs)
       | Some sec =>
           let b := slice sec 0 sizeof_bpb in
           let fs := Fs drv b (fat_start_sector fs) (data_start_sector fs) (root_dir_cluster fs) 0 in
           if negb (bytes_per_sector b =? 512) then (-1, fs)
           else if negb (fat_size_16 b =? 0) then (-1, fs)
           else (0, Fs drv b (reserved_sectors b)
                      (reserved_sectors b ⊕ (num_fats b ⊗ fat_size_32 b)) (root_cluster b) 1)
       end.

(** [for (i = 0; i < sectors_per_cluster; i++) { read sector + i; body }];
    [err] is what the function returns on a read error. *)
Fixpoint scan_sectors {R A} (fs : fat32_fs_t) (err : A → R) (body : list Z → A → io D (flow R A))
    (sector : Z) (n : nat) (a : A) : io D (flow R A) :=
  match n with
  | O => mret (Continue a)
  | S n =>
      r ← read_sector (drive fs) sector;
      match r with
      | None => mret (Return (err a))
      | Some sec =>
          b ← body sec a;
          match b with
          | Return x => mret (Return x)
          | Continue a => scan_sectors fs err body (sector ⊕ 1) n a
          end
      end
  end.

(** [while (cluster < FAT32_CLUSTER_EOC && cond) { sectors; cluster = next }];
    [Continue] when the loop ends. *)
Fixpoint scan_dir {R A} (fuel : nat) (fs : fat32_fs_t) (cond : A → bool) (err : A → R)
    (body : list Z → A → io D (flow R A)) (cluster : Z) (a : A) : io D (option (flow R A)) :=
  match fuel with
  | O => mret None
  | S fuel =>
      if (cluster <? FAT32_CLUSTER_EOC) && cond a then
        r ← scan_sectors fs err body (fat32_cluster_to_sector fs cluster)
              (Z.to_nat (sectors_per_cluster (bpb fs))) a;
        match r with
        | Return x => mret (Some (Return x))
        | Continue a =>
            next ← fat32_get_next_cluster fs cluster;
            scan_dir fuel fs cond err body next a
        end
      else mret (Some (Continue a))
  end.

(** *** Listing *)

(** An entry that is neither deleted, part of a long name nor a volume label. *)
Definition listed (e : list Z) : bool :=
  negb (le8 e 0 =? 0xE5) && negb (entry_attr e =? FAT32_ATTR_LONG_NAME) &&
  negb (c_true (entry_attr e .& FAT32_ATTR_VOLUME_ID)).

Definition dirinfo (e : list Z) : fat32_dirinfo_t :=
  DirInfo (fat32_name_to_string (entry_name e)) (file_size e)
    (if c_true (entry_attr e .& FAT32_ATTR_DIRECTORY) then 1 else 0).

(** The loop over the entries of a sector; [acc] are the entries filled so far,
    [entry_count] their number. *)
Fixpoint list_entries (max_entries : Z) (es : list (list Z)) (acc : list fat32_dirinfo_t)
  : flow (Z * list fat32_dirinfo_t) (list fat32_dirinfo_t) :=
  match es with
  | [] => Continue acc
  | e :: es =>
      if Z.of_nat (length acc) <? max_entries then
        if le8 e 0 =? 0 then Return (Z.of_nat (length acc), acc)
        else if listed e then list_entries max_entries es (acc ++ [dirinfo e])
        else list_entries max_entries es acc
      else Continue acc
  end.

(** Returns the number of entries (-1 on error) and the entries filled;
    [non_null] is whether [entries] is not NULL. *)
Definition fat32_list_dir (fuel : nat) (fs : fat32_fs_t) (non_null : bool) (max_entries : Z)
  : io D (option (Z * list fat32_dirinfo_t)) :=
  if (initialized fs =? 0) || negb non_null || (max_entries <=? 0) then mret (Some (-1, []))
  else
    r ← scan_dir fuel fs (λ acc, Z.of_nat (length acc) <? max_entries) (λ acc, (-1, acc))
          (λ sec acc, mret (list_entries max_entries (sector_entries sec) acc)) (root_dir_cluster fs) [];
    mret match r with
         | None => None
         | Some (Return x) => Some x
         | Some (Continue acc) => Some (Z.of_nat (length acc), acc)
         end.

(** *** Opening *)

Definition entry_file (e : list Z) : fat32_file_t :=
  let c := w32 ((first_cluster_high e ≪ 16) .| first_cluster_low e) in
  File c c (file_size e) 0 (entry_attr e) 1.

(** [Return None] for NULL, [Return (Some file)] when the entry is found. *)
Fixpoint open_entries (search_name : list Z) (es : list (list Z)) : flow (option fat32_file_t) unit :=
  match es with
  | [] => Continue tt
  | e :: es =>
      if le8 e 0 =? 0 then Return None
      else if le8 e 0 =? 0xE5 then open_entries search_name es
      else if entry_attr e =? FAT32_ATTR_LONG_NAME then open_entries search_name es
      else if strncmp (entry_name e) search_name 11 =? 0 then Return (Some (entry_file e))
      else open_entries search_name es
  end.

(** [file] is the static handle; the boolean is whether the result is not NULL. *)
Definition fat32_open (fuel : nat) (fs : fat32_fs_t) (file : fat32_file_t) (filename : list Z)
  : io D (option (bool * fat32_file_t)) :=
  if initialized fs =? 0 then mret (Some (false, file))
  else
    let search_name := fat32_string_to_name filename in
    r ← scan_dir fuel fs (λ _, true) (λ _, None)
          (λ sec _, mret (open_entries search_name (sector_entries sec))) (root_dir_cluster fs) tt;
    mret match r with
         | None => None
         | Some (Return (Some f)) => Some (true, f)
         | Some _ => Some (false, file)
         end.

(** *** Reading *)

(** The loop of [fat32_read]: [out] holds the bytes copied to the buffer.
    [None] when the fuel runs out or the processor faults on [% cluster_size]
    with a cluster size of 0. *)
Fixpoint read_loop (fuel : nat) (fs : fat32_fs_t) (file : fat32_file_t) (bytes_to_read : Z) (out : list Z)
  : io D (option (list Z * fat32_file_t)) :=
  match fuel with
  | O => mret None
  | S fuel =>
      if (0 <? bytes_to_read) && (current_cluster file <? FAT32_CLUSTER_EOC) then
        let cluster_size := sectors_per_cluster (bpb fs) * FAT32_SECTOR_SIZE in
        if cluster_size =? 0 then mret None
        else
          let offset_in_cluster := position file mod cluster_size in
          let bytes_in_cluster := cluster_size ⊖ offset_in_cluster in
          let bytes_in_cluster :=
            if bytes_to_read <? bytes_in_cluster then bytes_to_read else bytes_in_cluster in
          let sector := fat32_cluster_to_sector fs (current_cluster file) ⊕
                          (offset_in_cluster / FAT32_SECTOR_SIZE) in
          let offset_in_sector := offset_in_cluster mod FAT32_SECTOR_SIZE in
          r ← read_sector (drive fs) sector;
          match r with
          | None => mret (Some (out, file))
          | Some sec =>
              let bytes_in_sector := FAT32_SECTOR_SIZE ⊖ offset_in_sector in
              let bytes_in_sector :=
                if bytes_in_cluster <? bytes_in_sector then bytes_in_cluster else bytes_in_sector in
              let out := out ++ slice sec offset_in_sector bytes_in_sector in
              let pos := position file ⊕ bytes_in_sector in
              cl ← (if pos mod cluster_size =? 0
                    then fat32_get_next_cluster fs (current_cluster file)
                    else mret (current_cluster file));
              read_loop fuel fs
                (File (first_cluster file) cl (f_size file) pos (attr file) (valid file))
                (bytes_to_read ⊖ bytes_in_sector) out
          end
      else mret (Some (out, file))
  end.

(** Returns the result, the bytes stored in the buffer and the handle;
    [non_null] is whether [file] is not NULL. *)
Definition fat32_read (fuel : nat) (fs : fat32_fs_t) (non_null : bool) (file : fat32_file_t) (size : Z)
  : io D (option (Z * list Z * fat32_file_t)) :=
  if negb non_null || (valid file =? 0) || (initialized fs =? 0) then mret (Some (-1, [], file))
  else
    let bytes_to_read :=
      if f_size file <? (position file ⊕ size) then f_size file ⊖ position file else size in
    r ← read_loop fuel fs file bytes_to_read [];
    mret match r with
         | None => None
         | Some (out, file) => Some (s32 (Z.of_nat (length out)), out, file)
         end.
End Fat32.

Definition fat32_close (file : fat32_file_t) : fat32_file_t :=
  File (first_cluster file) (current_cluster file) (f_size file) (position file) (attr file) 0.

(** [total_sectors] and [free_clusters]. *)
Definition fat32_get_info (fs : fat32_fs_t) : Z * Z := (total_sectors_32 (bpb fs), 0).
