(* ===== verification/Fat32Names.v ===== *)
(** * FAT32: names

    The two conversions between "NAME.EXT" strings and the eleven characters
    of a directory entry, and the comparison of names. *)

From S2P Require Import Prelude Io Fat32.

(** ** Characters of names *)

(** A character that both forms of a name can hold. *)
Definition name_char (c : Z) : Prop := c ≠ 0 ∧ c ≠ 32 ∧ c ≠ 46.

Record name83 (base ext : list Z) : Prop := {
  n8_base : Forall name_char base;
  n8_ext : Forall name_char ext;
  n8_len : (length base <= 8)%nat;
  n8_ext_len : (length ext <= 3)%nat
}.

(** The two forms. *)
Definition pad (n : nat) (l : list Z) : list Z := l ++ replicate (n - length l) 32.
Definition fat_name (base ext : list Z) : list Z := pad 8 base ++ pad 3 ext.
Definition dotted (base ext : list Z) : list Z :=
  base ++ (if decide (ext = []) then [] else 46 :: ext).

Lemma length_pad n l : (length l <= n)%nat → length (pad n l) = n.
Proof. intros. unfold pad. rewrite length_app, length_replicate. lia. Qed.

(** ** From the string *)

(** Copying [w], which stops before [r], over the characters of [dst] from [i] on. *)
Lemma copy_until_spec stop w r : ∀ dst (i n : nat),
  Forall (λ c, c ≠ 0 ∧ stop c = false) w →
  (r = [] ∨ ∃ c r', r = c :: r' ∧ ((c =? 0) || stop c = true) ∨ length w = n) →
  (length w <= n)%nat → (i + length w <= length dst)%nat →
  copy_until stop (w ++ r) dst (Z.of_nat i) n = take i dst ++ w ++ drop (i + length w) dst.
Proof.
  induction w as [|c w IH]; intros dst i n Hw Hr Hn Hi.
  - cbn [app length]. rewrite Nat.add_0_r, take_drop.
    destruct n as [|n]; [by destruct r|]. destruct Hr as [->|(c & r' & [[-> E]|?])]; [done| |done].
    cbn [copy_until]. by rewrite E.
  - inversion_clear Hw as [|? ? [Hc Hs] Hw']. destruct n as [|n]; [cbn in Hn; lia|].
    cbn [app copy_until]. rewrite (proj2 (Z.eqb_neq c 0) Hc), Hs. cbn [orb].
    replace (Z.of_nat i + 1) with (Z.of_nat (S i)) by lia. cbn [length] in *.
    rewrite IH; [|done| |lia|rewrite length_updZ; lia].
    + unfold updZ. rewrite decide_True, Nat2Z.id by lia. rewrite insert_take_drop by lia.
      rewrite take_app, length_take_le, take_take by lia. rewrite drop_app, length_take_le by lia.
      rewrite (drop_ge (take i dst)) by (rewrite length_take; lia).
      replace (S i - i)%nat with 1%nat by lia. rewrite Nat.min_r by lia. cbn [take app]. rewrite take_0.
      rewrite <-app_assoc. cbn [app]. do 3 f_equal.
      replace (S i + length w - i)%nat with (S (length w)) by lia. cbn [drop].
      rewrite drop_drop. f_equal. lia.
    + destruct Hr as [->|(y & r' & [?|?])]; [auto|right; exists y, r'; auto|right; exists y, r'; right; lia].
Qed.

Lemma copy_until_0 stop w r dst n :
  Forall (λ c, c ≠ 0 ∧ stop c = false) w →
  (r = [] ∨ ∃ c r', r = c :: r' ∧ ((c =? 0) || stop c = true) ∨ length w = n) →
  (length w <= n)%nat → (length w <= length dst)%nat →
  copy_until stop (w ++ r) dst 0 n = w ++ drop (length w) dst.
Proof. intros. by apply (copy_until_spec stop w r dst 0 n). Qed.

Lemma find_dot_base base r :
  Forall name_char base → (r = [] ∨ ∃ r', r = 46 :: r') → find_dot (base ++ r) = r.
Proof.
  intros Hb Hr. induction Hb as [|c base (H0 & _ & H46) _ IH]; cbn [app find_dot].
  - destruct Hr as [->|[r' ->]]; done.
  - by rewrite (proj2 (Z.eqb_neq c 0) H0), (proj2 (Z.eqb_neq c 46) H46).
Qed.

Lemma string_to_name_spec base ext :
  name83 base ext → fat32_string_to_name (dotted base ext) = fat_name base ext.
Proof.
  intros [Hb He Hlb Hle]. unfold fat32_string_to_name, dotted.
  set (r := if decide (ext = []) then [] else 46 :: ext).
  assert (r = [] ∨ ∃ r', r = 46 :: r') as Hr by (unfold r; case_decide; eauto).
  rewrite find_dot_base by done.
  rewrite (copy_until_0 (λ c, c =? 46) base r); [| | |done|rewrite length_replicate; lia].
  2: { eapply Forall_impl; [exact Hb|]. intros c (? & _ & ?). split; [done|by apply Z.eqb_neq]. }
  2: { destruct Hr as [->|[r' ->]]; [auto|right]. exists 46, r'. left. done. }
  rewrite drop_replicate. unfold fat_name, pad, r. case_decide as Hext.
  - subst ext. cbn [app length]. rewrite <-app_assoc, <-replicate_add. do 2 f_equal. cbn. lia.
  - cbn [Z.eqb Pos.eqb]. rewrite <-(app_nil_r ext) at 1.
    change 8 with (Z.of_nat 8). rewrite (copy_until_spec (λ _, false) ext []); [|..|auto|done|].
    + set (a := base ++ replicate (8 - length base) 32).
      assert (length a = 8%nat) as Ha by (unfold a; rewrite length_app, length_replicate; lia).
      assert (base ++ replicate (11 - length base) 32 = a ++ replicate 3 32) as ->.
      { unfold a. rewrite <-app_assoc, <-replicate_add. do 2 f_equal. lia. }
      rewrite take_app_length' by done. rewrite drop_app, Ha, drop_ge by lia. cbn [app].
      replace (8 + length ext - 8)%nat with (length ext) by lia. rewrite drop_replicate. done.
    + eapply Forall_impl; [exact He|]. intros c (? & _). done.
    + rewrite length_app, length_replicate. lia.
Qed.

(** ** Back to the string *)

Lemma until_space_pad n l : Forall name_char l → until_space (pad n l) = l.
Proof.
  intros Hl. unfold pad. set (k := (n - length l)%nat). clearbody k.
  induction Hl as [|c l (_ & H & _) _ IH]; cbn [app until_space]; [by destruct k|].
  rewrite (proj2 (Z.eqb_neq c 32) H). by rewrite IH.
Qed.

Lemma fat_name_slices base ext :
  name83 base ext → slice (fat_name base ext) 0 8 = pad 8 base ∧ slice (fat_name base ext) 8 3 = pad 3 ext.
Proof.
  intros [_ _ Hlb Hle]. unfold slice, fat_name. pose proof (length_pad 8 base Hlb) as E8.
  pose proof (length_pad 3 ext Hle) as E3. split.
  - change (Z.to_nat 0) with 0%nat. rewrite drop_0. by apply take_app_length'.
  - rewrite drop_app_length' by done. apply take_ge. rewrite E3. done.
Qed.

Lemma name_to_string_spec base ext :
  name83 base ext → fat32_name_to_string (fat_name base ext) = dotted base ext.
Proof.
  intros Hn. destruct (fat_name_slices base ext Hn) as [E8 E3]. pose proof Hn as [Hb He Hlb Hle].
  unfold fat32_name_to_string, dotted. rewrite E8, E3, !until_space_pad by done. f_equal.
  assert (le8 (fat_name base ext) 8 = nthZ 0 (pad 3 ext) 0) as ->.
  { unfold le8, nthZ, fat_name. rewrite !decide_True by lia.
    rewrite lookup_app_r by (rewrite length_pad by done; done). rewrite length_pad by done. done. }
  destruct ext as [|c ext]; [done|]. inversion_clear He as [|? ? (_ & Hc & _) _].
  change (nthZ 0 (pad 3 (c :: ext)) 0) with c. rewrite (proj2 (Z.eqb_neq c 32) Hc). done.
Qed.

(** A name with its dot and its NUL fits the 13 bytes of the buffers. *)
Lemma name_to_string_length nm : (length (fat32_name_to_string nm) < 13)%nat.
Proof.
  assert (∀ l, length (until_space l) <= length l)%nat as H.
  { induction l as [|c l IH]; cbn; [done|]. destruct (c =? 32); cbn; lia. }
  assert (∀ o n, length (until_space (slice nm o n)) <= Z.to_nat n)%nat as Hs.
  { intros o n. etrans; [apply H|]. unfold slice. rewrite length_take. lia. }
  unfold fat32_name_to_string. rewrite length_app. pose proof (Hs 0 8). pose proof (Hs 8 3).
  destruct (_ =? 32); cbn [length]; lia.
Qed.

Lemma length_string_to_name s : length (fat32_string_to_name s) = 11%nat.
Proof.
  assert (∀ stop inp dst i n, length (copy_until stop inp dst i n) = length dst) as H.
  { intros stop inp. induction inp as [|c inp IH]; intros dst i [|n]; try done. cbn [copy_until].
    destruct (_ || _); [done|]. by rewrite IH, length_updZ. }
  unfold fat32_string_to_name. destruct (find_dot s) as [|c ext]; [by rewrite H|].
  destruct (c =? 46); by rewrite ?H.
Qed.

Lemma string_to_name_nonzero s : Forall (λ c, c ≠ 0) (fat32_string_to_name s).
Proof.
  assert (∀ stop inp dst i n, Forall (λ c, c ≠ 0) dst →
    Forall (λ c, c ≠ 0) (copy_until stop inp dst i n)) as H.
  { intros stop inp. induction inp as [|c inp IH]; intros dst i [|n] Hd; try done. cbn [copy_until].
    destruct (Z.eqb_spec c 0); [done|]. cbn [orb]. destruct (stop c); [done|].
    apply IH. by apply Forall_updZ. }
  assert (Forall (λ c, c ≠ 0) (replicate 11 32)) by (by repeat constructor).
  unfold fat32_string_to_name. destruct (find_dot s) as [|c ext]; [by apply H|].
  destruct (c =? 46); [by apply H, H|by apply H].
Qed.

(** ** Comparing *)

Lemma strncmp_eq n : ∀ s1 s2,
  length s1 = n → length s2 = n → Forall (λ c, c ≠ 0) s2 → strncmp s1 s2 n = 0 ↔ s1 = s2.
Proof.
  induction n as [|n IH]; intros [|c1 s1] [|c2 s2] H1 H2 Hs; try done.
  inversion_clear Hs as [|? ? Hc Hs']. cbn [strncmp tail].
  change (le8 (c1 :: s1) 0) with c1. change (le8 (c2 :: s2) 0) with c2.
  destruct (Z.eqb_spec c1 0) as [->|]; cbn [negb andb].
  { split; [lia|]. intros [= ? ?]. lia. }
  destruct (Z.eqb_spec c1 c2) as [->|].
  - cbn in H1, H2. rewrite IH by (done || lia). split; [by intros ->|by intros [= ->]].
  - split; [lia|]. intros [= ? ?]. lia.
Qed.
