(* ===== verification/Fat32Dir.v ===== *)
(** * FAT32: cluster chains and the root directory

    On a device that reads the sectors of an image without error, the walks
    of the code over cluster chains are functions of the image: listing gives
    the visible entries in order, opening the first entry of that name. *)

From S2P Require Import Prelude Io Fat32 Fat32Names.

(** ** Uniform blocks *)

(** Block [i] of a concatenation of blocks of [L] elements. *)
Lemma lookup_concat {A} (L : nat) (ss : list (list A)) (i o : nat) :
  Forall (λ s, length s = L) ss → (o < L)%nat → concat ss !! (L * i + o)%nat = ss !! i ≫= (.!! o).
Proof.
  intros Hs Ho. revert i. induction Hs as [|s ss Hl Hs IH]; intros i; [done|]. cbn [concat].
  destruct i as [|i].
  - rewrite Nat.mul_0_r, Nat.add_0_l, lookup_app_l by lia. done.
  - rewrite lookup_app_r by lia. replace (L * S i + o - length s)%nat with (L * i + o)%nat by lia. apply IH.
Qed.

Lemma length_concat_uniform {A} (L : nat) (ss : list (list A)) :
  Forall (λ s, length s = L) ss → length (concat ss) = (L * length ss)%nat.
Proof. induction 1 as [|s ss Hl _ IH]; cbn; [lia|]. rewrite length_app, IH, Hl. lia. Qed.

Section Image.
Context {D : Type} `{BD : BlockDevice D}.
(** [img] is what the disk holds; the device of [drv] reads it. *)
Context (drv : Z) (img : Z → list Z).

Definition reads_image : Prop :=
  ∀ lba d, u32 lba → (read_sector (D := D) drv lba d).1 = Some (img lba).
Definition image_ok : Prop := ∀ lba, length (img lba) = 512%nat ∧ Forall u8 (img lba).

(** A mounted volume. *)
Record fs_ok (fs : fat32_fs_t) : Prop := {
  fs_drive : drive fs = drv;
  fs_init : initialized fs ≠ 0;
  fs_spc : 0 < sectors_per_cluster (bpb fs) < 256
}.

(** ** Chains *)

Definition valid_cluster (c : Z) : Prop := 2 <= c < FAT32_CLUSTER_RESERVED.

(** The FAT entry of a cluster, in the image. *)
Definition fat_entry (fs : fat32_fs_t) (c : Z) : Z :=
  le32 (img (fat_start_sector fs ⊕ (c * 4 / 512))) (4 * (c * 4 mod 512 / 4)) .& FAT32_CLUSTER_MASK.

Inductive chain (fs : fat32_fs_t) : Z → list Z → Prop :=
  | chain_last c : valid_cluster c → FAT32_CLUSTER_EOC <= fat_entry fs c → chain fs c [c]
  | chain_next c l : valid_cluster c → fat_entry fs c < FAT32_CLUSTER_EOC →
      chain fs (fat_entry fs c) l → chain fs c (c :: l).

(** The sectors of a cluster and of a chain, and the bytes. *)
Definition cluster_sectors (fs : fat32_fs_t) (c : Z) : list (list Z) :=
  (λ i, img (fat32_cluster_to_sector fs c ⊕ i)) <$> seqZ 0 (sectors_per_cluster (bpb fs)).
Definition chain_sectors (fs : fat32_fs_t) (l : list Z) : list (list Z) :=
  concat (cluster_sectors fs <$> l).

Lemma chain_valid fs c l : chain fs c l → Forall valid_cluster l ∧ head l = Some c.
Proof. induction 1 as [c Hc _|c l Hc _ _ [IH _]]; split; try done; by constructor. Qed.

Context (Hdev : reads_image) (Himg : image_ok).

(** [fat32_get_next_cluster] reads the FAT entry. *)
Lemma get_next_spec fs c d :
  drive fs = drv → valid_cluster c →
  (fat32_get_next_cluster fs c d).1 =
    if decide (FAT32_CLUSTER_EOC <= fat_entry fs c) then FAT32_CLUSTER_EOC else fat_entry fs c.
Proof using Hdev.
  intros Hd [Hlo Hhi]. unfold fat32_get_next_cluster, valid_cluster, FAT32_CLUSTER_RESERVED in *.
  bdestr (c <? 2); [lia|]. bdestr (0x0FFFFFF0 <=? c); [lia|]. cbn [orb].
  rewrite (w32_small (c * 4)) by lia. unfold FAT32_SECTOR_SIZE, mbind, io_bind.
  set (lba := fat_start_sector fs ⊕ (c * 4 / 512)). rewrite Hd.
  pose proof (Hdev lba d ltac:(apply w32_range)) as E.
  destruct (read_sector drv lba d) as [r d']. cbn [fst] in E. rewrite E.
  unfold mret, io_ret. cbn [fst]. fold (fat_entry fs c). unfold fat_entry. fold lba.
  set (x := _ .& _). bdestr (FAT32_CLUSTER_EOC <=? x); case_decide; done || lia.
Qed.

(** ** Walks *)

(** The walk as a function of the sectors. *)
Fixpoint run_sectors {R A} (body : list Z → A → flow R A) (secs : list (list Z)) (a : A) : flow R A :=
  match secs with
  | [] => Continue a
  | sec :: secs =>
      match body sec a with
      | Return x => Return x
      | Continue a => run_sectors body secs a
      end
  end.

Lemma run_sectors_app {R A} (body : list Z → A → flow R A) s1 s2 a :
  run_sectors body (s1 ++ s2) a =
    match run_sectors body s1 a with
    | Return x => Return x
    | Continue a => run_sectors body s2 a
    end.
Proof.
  revert a. induction s1 as [|sec s1 IH]; intros a; [done|]. cbn. destruct (body sec a); [done|apply IH].
Qed.

(** [m] computes [body], whatever the state of the device. *)
Definition computes {R A} (m : list Z → A → io D (flow R A)) (body : list Z → A → flow R A) : Prop :=
  ∀ sec a, returns (m sec a) (body sec a).

Lemma mret_computes {R A} (body : list Z → A → flow R A) : computes (λ sec a, mret (body sec a)) body.
Proof. done. Qed.

Lemma scan_sectors_spec {R A} fs (err : A → R) m body n : computes m body → ∀ sector a d,
  drive fs = drv → u32 sector →
  (scan_sectors fs err m sector n a d).1 =
  run_sectors body ((λ i, img (sector ⊕ i)) <$> seqZ 0 (Z.of_nat n)) a.
Proof using Hdev.
  intros Hm. induction n as [|n IH]; intros sector a d Hd Hs; [done|].
  rewrite seqZ_cons, fmap_cons by lia. cbn [scan_sectors run_sectors]. unfold mbind at 1, io_bind. rewrite Hd.
  pose proof (Hdev sector d Hs) as E. destruct (read_sector drv sector d) as [r d']. cbn [fst] in E. rewrite E.
  rewrite (Z.add_0_r sector), (w32_small sector Hs). unfold mbind, io_bind.
  specialize (Hm (img sector) a d'). destruct (m (img sector) a d') as [b d2]. cbn [fst] in Hm. subst b.
  destruct (body (img sector) a) as [x|a']; [done|].
  rewrite IH by (done || apply w32_range). f_equal.
  replace (Z.pred (Z.of_nat (S n))) with (Z.of_nat n) by lia.
  rewrite <-(fmap_add_seqZ 1 0), <-list_fmap_compose. apply list_fmap_ext. intros k i _. cbn.
  f_equal. unfold w32. rewrite Zplus_mod_idemp_l. f_equal. lia.
Qed.

Lemma cluster_to_sector_range fs c : u32 (fat32_cluster_to_sector fs c).
Proof. unfold fat32_cluster_to_sector. bcase; [unfold u32; lia|apply w32_range]. Qed.

(** A walk of a chain, with enough fuel, is the walk over its sectors, when a
    body that the loop condition would stop does nothing. *)
Lemma scan_dir_spec {R A} fs (cond : A → bool) (err : A → R) m body c l :
  chain fs c l → fs_ok fs → computes m body →
  (∀ a sec, cond a = false → body sec a = Continue a) → ∀ fuel a d,
  (length l < fuel)%nat →
  (scan_dir fuel fs cond err m c a d).1 = Some (run_sectors body (chain_sectors fs l) a).
Proof using Hdev.
  intros Hch [Hd _ Hspc] Hm Hcond.
  assert (∀ ss a, cond a = false → run_sectors body ss a = Continue a) as Hstop.
  { intros ss. induction ss as [|s ss IH]; intros a Ha; [done|]. cbn. rewrite Hcond by done. by apply IH. }
  assert (∀ c a d, (scan_sectors fs err m (fat32_cluster_to_sector fs c)
      (Z.to_nat (sectors_per_cluster (bpb fs))) a d).1 = run_sectors body (cluster_sectors fs c) a) as Hsec.
  { intros c0 a d. rewrite (scan_sectors_spec _ _ m body) by (done || apply cluster_to_sector_range).
    by rewrite Z2Nat.id by lia. }
  induction Hch as [c Hc He|c l Hc He Hch IH]; intros fuel a d Hf; (destruct fuel as [|fuel]; [lia|]);
    cbn [scan_dir]; unfold chain_sectors; cbn [fmap list_fmap concat];
    (bdestr (c <? FAT32_CLUSTER_EOC);
      [|unfold valid_cluster, FAT32_CLUSTER_RESERVED, FAT32_CLUSTER_EOC in *; lia]); cbn [andb];
    (destruct (cond a) eqn:Hca; [|by rewrite Hstop]);
    unfold mbind at 1, io_bind at 1; rewrite run_sectors_app; specialize (Hsec c a d);
    destruct (scan_sectors _ _ _ _ _ _ d) as [fl d1]; cbn [fst] in Hsec; subst fl;
    (destruct (run_sectors body (cluster_sectors fs c) a) as [x|a1]; [done|]);
    unfold mbind, io_bind; pose proof (get_next_spec fs c d1 Hd Hc) as Hnx;
    destruct (fat32_get_next_cluster fs c d1) as [nx d2]; cbn [fst] in Hnx; subst nx.
  - rewrite decide_True by done. destruct fuel as [|fuel]; [cbn in Hf; lia|]. done.
  - rewrite decide_False by lia. apply IH. cbn in Hf. lia.
Qed.

(** ** Entries *)

Definition dir_entries (fs : fat32_fs_t) (l : list Z) : list (list Z) :=
  s ← chain_sectors fs l; sector_entries s.

Lemma chain_sectors_uniform fs l : Forall (λ s, length s = 512%nat) (chain_sectors fs l).
Proof using Himg.
  unfold chain_sectors. apply Forall_concat, Forall_fmap, Forall_true. intros c.
  apply Forall_fmap, Forall_true. intros i. apply Himg.
Qed.

Lemma dir_entries_length fs l : Forall (λ e, length e = 32%nat) (dir_entries fs l).
Proof using Himg.
  unfold dir_entries. apply Forall_forall. intros e (s & He & Hs)%list_elem_of_bind.
  unfold sector_entries in He. apply list_elem_of_fmap in He as (j & -> & Hj%elem_of_seqZ).
  pose proof (chain_sectors_uniform fs l) as HF. rewrite Forall_forall in HF. apply HF in Hs.
  unfold slice. rewrite length_take, length_drop. lia.
Qed.

(** The entries before the end mark. *)
Fixpoint live_entries (es : list (list Z)) : list (list Z) :=
  match es with
  | [] => []
  | e :: es => if le8 e 0 =? 0 then [] else e :: live_entries es
  end.

(** A body that loops over the entries of a sector loops, over a list of
    sectors, over all their entries. *)
Lemma run_entries {R A} (loop : list (list Z) → A → flow R A) secs :
  (∀ a, loop [] a = Continue a) →
  (∀ e1 e2 a, loop (e1 ++ e2) a = match loop e1 a with Return x => Return x | Continue a => loop e2 a end) →
  ∀ a, run_sectors (λ sec, loop (sector_entries sec)) secs a = loop (s ← secs; sector_entries s) a.
Proof.
  intros Hnil Happ. induction secs as [|s secs IH]; intros a; cbn [run_sectors mbind list_bind]; [by rewrite Hnil|].
  rewrite Happ. destruct (loop (sector_entries s) a); [done|]. apply IH.
Qed.

(** *** Listing *)

Lemma list_entries_app max e1 e2 acc :
  list_entries max (e1 ++ e2) acc =
    match list_entries max e1 acc with Return x => Return x | Continue a => list_entries max e2 a end.
Proof.
  revert acc. induction e1 as [|e e1 IH]; intros acc; [done|]. cbn [app list_entries].
  bdestr (Z.of_nat (length acc) <? max).
  - destruct (le8 e 0 =? 0); [done|]. destruct (listed e); apply IH.
  - destruct e2 as [|e' e2]; [done|]. cbn. bdestr (Z.of_nat (length acc) <? max); [lia|done].
Qed.

Definition flow_entries (f : flow (Z * list fat32_dirinfo_t) (list fat32_dirinfo_t))
  : Z * list fat32_dirinfo_t :=
  match f with Return x => x | Continue acc => (Z.of_nat (length acc), acc) end.

Lemma list_entries_spec max es : ∀ acc,
  Z.of_nat (length acc) <= max →
  let r := acc ++ take (Z.to_nat max - length acc) (dirinfo <$> filter (λ e, listed e = true) (live_entries es)) in
  flow_entries (list_entries max es acc) = (Z.of_nat (length r), r).
Proof.
  induction es as [|e es IH]; intros acc Hacc; cbn [list_entries live_entries].
  { rewrite filter_nil. cbn. rewrite take_nil, app_nil_r. done. }
  bdestr (Z.of_nat (length acc) <? max).
  - destruct (Z.eqb_spec (le8 e 0) 0).
    { cbn. rewrite take_nil, app_nil_r. done. }
    rewrite filter_cons. destruct (listed e) eqn:El.
    + rewrite decide_True by done. rewrite IH by (rewrite length_app; cbn; lia). rewrite fmap_cons.
      set (L := dirinfo <$> _).
      assert ((acc ++ [dirinfo e]) ++ take (Z.to_nat max - length (acc ++ [dirinfo e])) L =
              acc ++ take (Z.to_nat max - length acc) (dirinfo e :: L)) as E; [|by rewrite E].
      rewrite length_app. cbn [length].
      replace (Z.to_nat max - length acc)%nat with (S (Z.to_nat max - (length acc + 1))) by lia.
      by rewrite <-app_assoc.
    + rewrite decide_False by done. by apply IH.
  - replace (Z.to_nat max - length acc)%nat with 0%nat by lia. rewrite take_0, app_nil_r. done.
Qed.

(** *** Opening *)

Lemma open_entries_app nm e1 e2 :
  open_entries nm (e1 ++ e2) =
    match open_entries nm e1 with Return x => Return x | Continue _ => open_entries nm e2 end.
Proof.
  induction e1 as [|e e1 IH]; [done|]. cbn [app open_entries]. by repeat case_match.
Qed.

(** The entry is a file of that name. *)
Definition named (nm : list Z) (e : list Z) : Prop :=
  le8 e 0 ≠ 0xE5 ∧ entry_attr e ≠ FAT32_ATTR_LONG_NAME ∧ entry_name e = nm.
#[export] Instance named_dec nm e : Decision (named nm e).
Proof. unfold named. apply _. Defined.

Lemma open_entries_spec nm es :
  length nm = 11%nat → Forall (λ c, c ≠ 0) nm → Forall (λ e, length e = 32%nat) es →
  match open_entries nm es with Return (Some f) => Some f | _ => None end =
  entry_file <$> head (filter (named nm) (live_entries es)).
Proof.
  intros Hl Hn Hes. induction Hes as [|e es He _ IH]; cbn [open_entries live_entries]; [done|].
  destruct (Z.eqb_spec (le8 e 0) 0); [done|]. rewrite filter_cons.
  destruct (Z.eqb_spec (le8 e 0) 0xE5) as [E|].
  { rewrite decide_False; [done|]. intros [? _]. done. }
  destruct (Z.eqb_spec (entry_attr e) FAT32_ATTR_LONG_NAME) as [E|].
  { rewrite decide_False; [done|]. intros (_ & ? & _). done. }
  assert (length (entry_name e) = 11%nat) as Hle.
  { unfold entry_name, slice. rewrite length_take, length_drop. cbn. lia. }
  pose proof (strncmp_eq 11 (entry_name e) nm Hle Hl Hn) as Hcmp.
  destruct (Z.eqb_spec (strncmp (entry_name e) nm 11) 0) as [E|E].
  - rewrite decide_True; [done|]. split_and!; try done. by apply Hcmp.
  - rewrite decide_False; [done|]. intros (_ & _ & ?). by apply E, Hcmp.
Qed.
End Image.
