(* ===== verification/Fat32Props.v ===== *)
(** * FAT32: mounting, listing, opening and reading

    The theorems about the driver over a disk image, and a small volume on
    which they are run. *)

From S2P Require Import Prelude Io Fat32 Fat32Names Fat32Dir.

(** A piece of a concatenation that lies in one block. *)
Lemma slice_concat {A} (L : nat) (ss : list (list A)) (q o m : nat) s :
  Forall (λ s, length s = L) ss → ss !! q = Some s → (o + m <= L)%nat →
  take m (drop (L * q + o) (concat ss)) = take m (drop o s).
Proof.
  intros Hs Hq Hm. pose proof (Forall_lookup_1 _ _ _ _ Hs Hq) as Hl. cbn in Hl.
  rewrite <-(take_drop_middle _ _ _ Hq), concat_app. cbn [concat].
  assert (length (concat (take q ss)) = L * q)%nat as E.
  { rewrite (length_concat_uniform L) by (by apply Forall_take).
    rewrite length_take_le; [done|]. apply lookup_lt_Some in Hq. lia. }
  rewrite drop_app, E, drop_ge by (rewrite E; lia). cbn [app].
  replace (L * q + o - L * q)%nat with o by lia. rewrite drop_app, take_app, length_drop, Hl.
  replace (m - (L - o))%nat with 0%nat by lia. by rewrite take_0, app_nil_r.
Qed.

(** Clusters are whole sectors. *)
Lemma mod_cluster spc pos : 0 < spc → pos mod (spc * 512) mod 512 = pos mod 512.
Proof.
  intros. rewrite (Z.mul_comm spc 512), Z.rem_mul_r, (Z.mul_comm 512), Z.mod_add, Z.mod_mod by lia. done.
Qed.

Section Image.
Context {D : Type} `{BD : BlockDevice D}.
Context (drv : Z) (img : Z → list Z).
Context (Hdev : reads_image (D := D) drv img) (Himg : image_ok img).

(** ** Reading *)

Definition cluster_size (fs : fat32_fs_t) : Z := sectors_per_cluster (bpb fs) * 512.
(** The bytes of a chain of clusters. *)
Definition chain_bytes (fs : fat32_fs_t) (l : list Z) : list Z := concat (chain_sectors img fs l).

(** The handle at a position of the chain. *)
Definition seek (fs : fat32_fs_t) (l : list Z) (f : fat32_file_t) (pos : Z) : fat32_file_t :=
  File (first_cluster f) (default FAT32_CLUSTER_EOC (l !! Z.to_nat (pos / cluster_size fs)))
    (f_size f) pos (attr f) (valid f).

(** What [fat32_open] establishes and [fat32_read] keeps. *)
Record file_at (fs : fat32_fs_t) (l : list Z) (f : fat32_file_t) : Prop := {
  fa_chain : chain img fs (first_cluster f) l;
  fa_seek : f = seek fs l f (position f);
  fa_pos : 0 <= position f <= cluster_size fs * Z.of_nat (length l)
}.

Lemma cluster_uniform fs l :
  fs_ok drv fs → Forall (λ s, length s = Z.to_nat (sectors_per_cluster (bpb fs))) (cluster_sectors img fs <$> l).
Proof.
  intros Hfs. apply Forall_fmap, Forall_true. intros c. unfold cluster_sectors. cbn.
  by rewrite length_fmap, length_seqZ.
Qed.

Lemma length_chain_bytes fs l :
  fs_ok drv fs → Z.of_nat (length (chain_bytes fs l)) = cluster_size fs * Z.of_nat (length l).
Proof using Himg.
  intros Hfs. unfold chain_bytes. rewrite (length_concat_uniform 512) by (by apply chain_sectors_uniform).
  unfold chain_sectors. rewrite (length_concat_uniform _ _ (cluster_uniform fs l Hfs)), length_fmap.
  unfold cluster_size. destruct Hfs. lia.
Qed.

Lemma chain_sector fs l i k c :
  fs_ok drv fs → l !! i = Some c → 0 <= k < sectors_per_cluster (bpb fs) →
  chain_sectors img fs l !! (Z.to_nat (sectors_per_cluster (bpb fs)) * i + Z.to_nat k)%nat =
    Some (img (fat32_cluster_to_sector fs c ⊕ k)).
Proof.
  intros Hfs Hi Hk. unfold chain_sectors.
  rewrite (lookup_concat _ _ _ _ (cluster_uniform fs l Hfs)) by lia.
  rewrite list_lookup_fmap, Hi. cbn. unfold cluster_sectors.
  rewrite list_lookup_fmap, (lookup_seqZ_lt _ _ _) by lia. cbn. do 3 f_equal. lia.
Qed.

(** The sector that holds a position. *)
Lemma chain_slice fs l pos m c :
  fs_ok drv fs → 0 <= pos → l !! Z.to_nat (pos / cluster_size fs) = Some c →
  0 <= m → pos mod 512 + m <= 512 →
  slice (chain_bytes fs l) pos m =
  slice (img (fat32_cluster_to_sector fs c ⊕ (pos mod cluster_size fs / 512))) (pos mod cluster_size fs mod 512) m.
Proof using Himg.
  intros Hfs Hpos Hi Hm Hfit. pose proof (fs_spc _ _ Hfs) as Hspc. unfold cluster_size in *.
  set (spc := sectors_per_cluster (bpb fs)) in *. set (i := pos / (spc * 512)) in *.
  set (offs := pos mod (spc * 512)).
  assert (pos = spc * 512 * i + offs) as Ep by (apply Z.div_mod; lia).
  assert (0 <= offs < spc * 512) as Ho by (apply Z.mod_pos_bound; lia).
  assert (0 <= i) by (apply Z.div_pos; lia).
  assert (0 <= offs / 512 < spc) as Hk by zdm.
  assert (offs = 512 * (offs / 512) + offs mod 512) as Eo by (apply Z.div_mod; lia).
  assert (0 <= offs mod 512 < 512) by (apply Z.mod_pos_bound; lia).
  assert (offs mod 512 = pos mod 512) as Em by (apply mod_cluster; lia).
  pose proof (chain_sector fs l (Z.to_nat i) (offs / 512) c Hfs Hi Hk) as Hsec. fold spc in Hsec.
  unfold slice. unfold chain_bytes.
  replace (Z.to_nat pos) with
    (512 * (Z.to_nat spc * Z.to_nat i + Z.to_nat (offs / 512)) + Z.to_nat (offs mod 512))%nat by nia.
  apply slice_concat; [by apply chain_sectors_uniform|done|lia].
Qed.

(** The next cluster of a chain. *)
Lemma chain_step fs c l i ci d :
  fs_ok drv fs → chain img fs c l → l !! i = Some ci →
  (fat32_get_next_cluster fs ci d).1 = default FAT32_CLUSTER_EOC (l !! S i).
Proof using Hdev.
  intros Hfs Hch. revert i. pose proof (fs_drive _ _ Hfs) as Hd.
  induction Hch as [c Hc He|c l Hc He Hch IH]; intros i Hi.
  - destruct i as [|i]; [|done]. injection Hi as ->. rewrite (get_next_spec drv img Hdev) by done.
    by rewrite decide_True.
  - destruct i as [|i]; [|by apply IH]. injection Hi as ->. rewrite (get_next_spec drv img Hdev) by done.
    rewrite decide_False by lia. destruct (chain_valid _ _ _ _ Hch) as [_ Hh]. cbn.
    destruct l as [|x l]; [done|]. injection Hh as ->. done.
Qed.

Lemma slice_add (b : list Z) pos m n :
  0 <= pos → 0 <= m → 0 <= n → slice b pos (m + n) = slice b pos m ++ slice b (pos + m) n.
Proof.
  intros. unfold slice. rewrite Z2Nat.inj_add by lia. rewrite <-take_take_drop. do 2 f_equal.
  rewrite drop_drop. f_equal. lia.
Qed.

Lemma length_slice (b : list Z) pos m :
  0 <= pos → 0 <= m → Z.of_nat (length (slice b pos m)) = Z.max 0 (Z.min m (Z.of_nat (length b) - pos)).
Proof. intros. unfold slice. rewrite length_take, length_drop. lia. Qed.

(** One round of the loop: at most to the end of the sector. *)
Lemma seek_next fs l f pos m c d :
  fs_ok drv fs → chain img fs (first_cluster f) l → 0 <= pos → 0 < m → pos mod 512 + m <= 512 →
  l !! Z.to_nat (pos / cluster_size fs) = Some c →
  ((if (pos + m) mod cluster_size fs =? 0 then fat32_get_next_cluster fs c else mret c) d).1 =
  default FAT32_CLUSTER_EOC (l !! Z.to_nat ((pos + m) / cluster_size fs)).
Proof using Hdev.
  intros Hfs Hch Hp Hm Hfit Hc. pose proof (fs_spc _ _ Hfs) as Hspc. unfold cluster_size in *.
  set (spc := sectors_per_cluster (bpb fs)) in *.
  assert (0 <= pos / (spc * 512)) by (apply Z.div_pos; lia).
  pose proof (mod_cluster spc pos ltac:(lia)) as Em.
  pose proof (Z.div_mod pos (spc * 512) ltac:(lia)) as Ep.
  pose proof (Z.mod_pos_bound pos (spc * 512) ltac:(lia)) as Ho.
  set (o := pos mod (spc * 512)) in *. set (i := pos / (spc * 512)) in *.
  assert (o + m <= spc * 512) as Hle by (rewrite <-Em in Hfit; zdm).
  destruct (decide (o + m = spc * 512)) as [E|E].
  - assert (pos + m = (i + 1) * (spc * 512)) as -> by lia.
    rewrite Z.mod_mul, Z.div_mul by lia. cbn [Z.eqb].
    rewrite (chain_step fs _ l _ c d Hfs Hch Hc). do 2 f_equal. lia.
  - assert (pos + m = i * (spc * 512) + (o + m)) as -> by lia.
    rewrite (Z.add_comm (i * _)), Z.mod_add, Z.mod_small, Z.div_add, Z.div_small, Z.add_0_l by lia.
    destruct (Z.eqb_spec (o + m) 0); [lia|]. by rewrite Hc.
Qed.

(** At the end of the chain nothing is left to read. *)
Lemma end_of_chain fs l f n :
  fs_ok drv fs → file_at fs l f → 0 <= n → l !! Z.to_nat (position f / cluster_size fs) = None →
  current_cluster f = FAT32_CLUSTER_EOC ∧ slice (chain_bytes fs l) (position f) n = [].
Proof using Himg.
  intros Hfs [Hch Hsk Hpos] Hn Hc. split; [rewrite Hsk; cbn; by rewrite Hc|].
  assert (0 < cluster_size fs) as Hcs by (destruct Hfs; unfold cluster_size; lia).
  apply lookup_ge_None in Hc. pose proof (Z.div_pos (position f) (cluster_size fs) ltac:(lia) Hcs).
  assert (Z.of_nat (length l) <= position f / cluster_size fs) as Hq by lia.
  assert (position f = cluster_size fs * Z.of_nat (length l)) as E.
  { pose proof (Z.mul_div_le (position f) (cluster_size fs) Hcs). nia. }
  apply length_zero_iff_nil. pose proof (length_slice (chain_bytes fs l) (position f) n ltac:(lia) Hn).
  pose proof (length_chain_bytes fs l Hfs). lia.
Qed.

(** The bytes copied in one round. *)
Lemma piece_size spc pos n : 0 < spc < 256 → 0 < n →
  (if (if n <? (spc * 512) ⊖ (pos mod (spc * 512)) then n else (spc * 512) ⊖ (pos mod (spc * 512)))
        <? 512 ⊖ (pos mod 512)
   then (if n <? (spc * 512) ⊖ (pos mod (spc * 512)) then n else (spc * 512) ⊖ (pos mod (spc * 512)))
   else 512 ⊖ (pos mod 512)) = Z.min n (512 - pos mod 512).
Proof.
  intros Hspc Hn. pose proof (mod_cluster spc pos ltac:(lia)) as Em.
  pose proof (Z.mod_pos_bound pos (spc * 512) ltac:(lia)). pose proof (Z.mod_pos_bound pos 512 ltac:(lia)).
  assert (pos mod (spc * 512) + (512 - pos mod 512) <= spc * 512) by (rewrite <-Em; zdm).
  rewrite !(w32_small (_ - _)) by lia.
  destruct (Z.ltb_spec n (spc * 512 - pos mod (spc * 512))); bcase; lia.
Qed.

Lemma read_loop_spec fs l : fs_ok drv fs → ∀ fuel f n out d,
  file_at fs l f → 0 <= n → position f + n < 4294967296 → (Z.to_nat n < fuel)%nat →
  let r := slice (chain_bytes fs l) (position f) n in
  (read_loop fuel fs f n out d).1 = Some (out ++ r, seek fs l f (position f + Z.of_nat (length r))).
Proof using Hdev Himg.
  intros Hfs. pose proof (fs_spc _ _ Hfs) as Hspc. pose proof (fs_drive _ _ Hfs) as Hd.
  induction fuel as [|fuel IH]; intros f n out d [Hch Hsk Hpos] Hn Hw Hfuel; [lia|]. cbn zeta.
  pose proof (length_chain_bytes fs l Hfs) as Hlen.
  cbn [read_loop]. destruct (Z.ltb_spec 0 n) as [Hn0|Hn0]; cbn [andb].
  2: { replace n with 0 by lia. change (slice _ _ 0) with (@nil Z). rewrite app_nil_r. cbn [length].
       rewrite Z.add_0_r. by rewrite <-Hsk. }
  assert (0 < cluster_size fs) as Hcs by (unfold cluster_size; lia).
  destruct (l !! Z.to_nat (position f / cluster_size fs)) as [c|] eqn:Hc.
  2: { destruct (end_of_chain fs l f n Hfs (Build_file_at _ _ _ Hch Hsk Hpos) Hn Hc) as [-> ->].
    rewrite app_nil_r. cbn [length]. rewrite Z.add_0_r. by rewrite <-Hsk. }
  assert (current_cluster f = c) as Hcur by (rewrite Hsk; cbn; by rewrite Hc).
  rewrite Hcur. assert (valid_cluster c) as Hvc.
  { apply chain_valid in Hch as [HF _]. exact (Forall_lookup_1 _ _ _ _ HF Hc). }
  assert (c <? FAT32_CLUSTER_EOC = true) as ->.
  { apply Z.ltb_lt. unfold valid_cluster, FAT32_CLUSTER_RESERVED, FAT32_CLUSTER_EOC in *. lia. }
  unfold FAT32_SECTOR_SIZE. fold (cluster_size fs).
  destruct (Z.eqb_spec (cluster_size fs) 0) as [|_]; [lia|]. cbn [andb].
  pose proof (Z.mod_pos_bound (position f) (cluster_size fs) Hcs) as Ho.
  pose proof (mod_cluster (sectors_per_cluster (bpb fs)) (position f) ltac:(lia)) as Em.
  fold (cluster_size fs) in Em. rewrite Em.
  pose proof (Z.mod_pos_bound (position f) 512 ltac:(lia)) as Ho512.
  set (m := if (_ <? 512 ⊖ _) then _ else 512 ⊖ _).
  assert (m = Z.min n (512 - position f mod 512)) as Hm by (apply piece_size; lia).
  clearbody m. unfold mbind at 1, io_bind at 1. set (sec := _ ⊕ _).
  pose proof (Hdev sec d ltac:(apply w32_range)) as Hrd. rewrite Hd.
  destruct (read_sector drv sec d) as [r d1]. cbn [fst] in Hrd. subst r.
  pose proof (chain_slice fs l (position f) m c Hfs ltac:(lia) Hc ltac:(lia) ltac:(lia)) as Hsl.
  fold sec in Hsl. rewrite Em in Hsl. rewrite (w32_small (position f + m)), (w32_small (n - m)) by lia.
  unfold mbind, io_bind. pose proof (seek_next fs l f (position f) m c d1 Hfs Hch
    ltac:(lia) ltac:(lia) ltac:(lia) Hc) as Hnx.
  match type of Hnx with ?x.1 = _ => destruct x as [cl d2] end. cbn [fst] in Hnx. subst cl.
  assert (Z.of_nat (length (slice (chain_bytes fs l) (position f) m)) = m) as Hlm.
  { rewrite Hsl, length_slice, (proj1 (Himg sec)) by lia. lia. }
  pose proof (length_slice (chain_bytes fs l) (position f) m ltac:(lia) ltac:(lia)) as Hlm'.
  fold (seek fs l f (position f + m)).
  rewrite IH; [|split; [exact Hch|done|cbn; lia]|lia|cbn; lia|lia].
  replace n with (m + (n - m)) at 3 4 by lia. rewrite slice_add by lia. rewrite <-Hsl, app_assoc.
  cbn [position seek]. rewrite length_app, Nat2Z.inj_add, Hlm, Z.add_assoc. done.
Qed.

(** The content of a file. *)
Definition content (fs : fat32_fs_t) (l : list Z) (f : fat32_file_t) : list Z :=
  take (Z.to_nat (f_size f)) (chain_bytes fs l).

Lemma slice_content fs l f pos n :
  0 <= pos <= f_size f → 0 <= n →
  slice (chain_bytes fs l) pos (Z.min n (f_size f - pos)) = slice (content fs l f) pos n.
Proof.
  intros. unfold slice, content. rewrite skipn_firstn_comm, take_take. f_equal. lia.
Qed.

Lemma fat32_read_spec fs l f fuel size d :
  fs_ok drv fs → file_at fs l f → valid f ≠ 0 → u32 size → position f <= f_size f < 2147483648 →
  position f + size < 4294967296 → (Z.to_nat size < fuel)%nat →
  let out := slice (content fs l f) (position f) size in
  let n := Z.of_nat (length out) in
  (fat32_read fuel fs true f size d).1 = Some (n, out, seek fs l f (position f + n)) ∧
  file_at fs l (seek fs l f (position f + n)).
Proof using Hdev Himg.
  intros Hfs Hat Hv Hsz Hp Hw Hfuel out n. unfold u32 in Hsz. pose proof (fa_pos _ _ _ Hat) as Hpos.
  set (m := Z.min size (f_size f - position f)).
  assert (slice (chain_bytes fs l) (position f) m = out) as Ho by (apply slice_content; lia).
  assert (0 <= n <= m) as Hn.
  { unfold n. rewrite <-Ho, length_slice by lia. lia. }
  split.
  - unfold fat32_read. destruct (Z.eqb_spec (valid f) 0); [done|].
    destruct (Z.eqb_spec (initialized fs) 0); [by destruct (fs_init _ _ Hfs)|]. cbn [negb orb].
    assert ((if f_size f <? (position f ⊕ size) then f_size f ⊖ position f else size) = m) as ->.
    { rewrite !w32_small by lia. unfold m. bcase; lia. }
    unfold mbind, io_bind. pose proof (read_loop_spec fs l Hfs fuel f m [] d Hat) as H.
    cbn zeta in H. rewrite Ho in H. fold n in H.
    destruct (read_loop fuel fs f m [] d) as [r d1]. cbn [fst] in H. rewrite H by lia. cbn.
    fold n. do 3 f_equal. unfold s32. rewrite w32_small by lia. bcase; lia.
  - split; [apply Hat|done|]. cbn. pose proof (length_slice (chain_bytes fs l) (position f) m ltac:(lia) ltac:(lia)) as H.
    pose proof (length_chain_bytes fs l Hfs). rewrite Ho in H. fold n in H. lia.
Qed.

(** C17: On a mounted volume whose image is read without error, [fat32_read]
    from an open file of less than 2 GB, of a [size] with which the position does
    not pass 2^32, stores exactly the bytes of the file from the position on,
    clipped to the end of the file, returns their number and leaves the handle
    at the position after them; more fuel than bytes is enough for it to
    return.  (Where [position + size] passes 2^32 the sum wraps and the code does
    not clip: [read_wraps] in Fat32Volume.v.) *)
Theorem fat32_read_correct fs l f fuel size d :
  fs_ok drv fs → file_at fs l f → valid f ≠ 0 → u32 size → position f <= f_size f < 2147483648 →
  position f + size < 4294967296 → (Z.to_nat size < fuel)%nat →
  let out := slice (content fs l f) (position f) size in
  let n := Z.of_nat (length out) in
  (fat32_read fuel fs true f size d).1 = Some (n, out, seek fs l f (position f + n)) ∧
  file_at fs l (seek fs l f (position f + n)).
Proof using Hdev Himg. intros. by apply fat32_read_spec. Qed.

(** ** Listing and opening *)

Lemma fat32_list_dir_spec fs l fuel max d :
  fs_ok drv fs → chain img fs (root_dir_cluster fs) l → 0 < max → (length l < fuel)%nat →
  let r := take (Z.to_nat max)
    (dirinfo <$> filter (λ e, listed e = true) (live_entries (dir_entries img fs l))) in
  (fat32_list_dir fuel fs true max d).1 = Some (Z.of_nat (length r), r) ∧
  Forall (λ i, (length (d_name i) < 13)%nat) r.
Proof using Hdev.
  intros Hfs Hch Hmax Hfuel r. split.
  - unfold fat32_list_dir. destruct (Z.eqb_spec (initialized fs) 0); [by destruct (fs_init _ _ Hfs)|].
    destruct (Z.leb_spec max 0) as [|_]; [lia|]. cbn [negb orb]. unfold mbind, io_bind.
    pose proof (scan_dir_spec drv img Hdev fs (λ acc, Z.of_nat (length acc) <? max) (λ acc, (-1, acc))
      _ (λ sec, list_entries max (sector_entries sec)) _ l Hch Hfs (mret_computes _)) as H.
    assert (∀ acc sec, (Z.of_nat (length acc) <? max) = false →
      list_entries max (sector_entries sec) acc = Continue acc) as Hst.
    { intros acc sec E. destruct (sector_entries sec) as [|e es]; cbn [list_entries]; [reflexivity|by rewrite E]. }
    specialize (H Hst fuel [] d Hfuel). destruct (scan_dir _ _ _ _ _ _ _ d) as [fl d1]. cbn [fst] in H. subst fl.
    rewrite (run_entries (list_entries max)) by (done || intros; apply list_entries_app).
    fold (dir_entries img fs l). pose proof (list_entries_spec max (dir_entries img fs l) []) as H. cbn zeta in H.
    rewrite Nat.sub_0_r in H. cbn [app] in H. fold r in H. specialize (H ltac:(cbn; lia)).
    destruct (list_entries max _ []); cbn in *; by rewrite <-H.
  - apply Forall_take, Forall_fmap, Forall_true. intros e. apply name_to_string_length.
Qed.

(** C19: [fat32_list_dir] returns, in the order of the directory, the first
    [max] visible entries before the end mark; every name it writes fits its
    13 bytes; more fuel than clusters in the chain is enough. *)
Theorem fat32_list_dir_correct fs l fuel max d :
  fs_ok drv fs → chain img fs (root_dir_cluster fs) l → 0 < max → (length l < fuel)%nat →
  let r := take (Z.to_nat max)
    (dirinfo <$> filter (λ e, listed e = true) (live_entries (dir_entries img fs l))) in
  (fat32_list_dir fuel fs true max d).1 = Some (Z.of_nat (length r), r) ∧
  Forall (λ i, (length (d_name i) < 13)%nat) r.
Proof using Hdev. apply fat32_list_dir_spec. Qed.

(** The handle of the file a name stands for. *)
Definition lookup_file (fs : fat32_fs_t) (l : list Z) (filename : list Z) : option fat32_file_t :=
  entry_file <$> head (filter (named (fat32_string_to_name filename)) (live_entries (dir_entries img fs l))).

Lemma fat32_open_spec fs l fuel file filename :
  fs_ok drv fs → chain img fs (root_dir_cluster fs) l → (length l < fuel)%nat →
  returns (fat32_open fuel fs file filename)
    (match lookup_file fs l filename with Some f => Some (true, f) | None => Some (false, file) end).
Proof using Hdev Himg.
  intros Hfs Hch Hfuel d. unfold lookup_file. set (nm := fat32_string_to_name filename).
  set (es := dir_entries img fs l).
  unfold fat32_open. destruct (Z.eqb_spec (initialized fs) 0); [by destruct (fs_init _ _ Hfs)|].
  unfold mbind, io_bind.
  pose proof (scan_dir_spec drv img Hdev fs (λ _ : unit, true) (λ _, None)
    _ (λ sec _, open_entries nm (sector_entries sec)) _ l Hch Hfs (mret_computes _) ltac:(done) fuel tt d Hfuel) as H.
  fold nm. destruct (scan_dir _ _ _ _ _ _ _ d) as [fl d1]. cbn [fst] in H. subst fl.
  rewrite (run_entries (λ es _, open_entries nm es)); [|by intros []|intros; apply open_entries_app].
  fold (dir_entries img fs l). fold es. rewrite <-(open_entries_spec nm es).
  - cbn. by destruct (open_entries nm es) as [[]|].
  - apply length_string_to_name.
  - apply string_to_name_nonzero.
  - apply (dir_entries_length img Himg).
Qed.

(** A handle [fat32_open] returns is at the start of its file. *)
Lemma lookup_file_at fs l filename f lf :
  fs_ok drv fs → lookup_file fs l filename = Some f → chain img fs (first_cluster f) lf →
  file_at fs lf f ∧ position f = 0 ∧ valid f = 1.
Proof.
  intros Hfs (e & _ & ->)%fmap_Some Hlf. split; [|done].
  split; [done| |cbn; unfold cluster_size; destruct Hfs; lia].
  destruct (chain_valid _ _ _ _ Hlf) as [_ Hh]. unfold seek, entry_file. cbn. f_equal.
  rewrite Z.div_0_l by (unfold cluster_size; destruct Hfs; lia). cbn.
  destruct lf as [|x lf]; [done|]. by injection Hh as ->.
Qed.

(** C18: [fat32_open] finds the first live entry whose 8.3 name is the
    converted string and sets the handle to its start, from which
    [fat32_read] can read; without such an entry it returns NULL and leaves
    the handle as it was. *)
Theorem fat32_open_correct fs l fuel file filename d :
  fs_ok drv fs → chain img fs (root_dir_cluster fs) l → (length l < fuel)%nat →
  match filter (named (fat32_string_to_name filename)) (live_entries (dir_entries img fs l)) with
  | [] => (fat32_open fuel fs file filename d).1 = Some (false, file)
  | e :: _ =>
      (fat32_open fuel fs file filename d).1 = Some (true, entry_file e) ∧
      ∀ lf, chain img fs (first_cluster (entry_file e)) lf → file_at fs lf (entry_file e)
  end.
Proof using Hdev Himg.
  intros Hfs Hch Hfuel. pose proof (fat32_open_spec fs l fuel file filename Hfs Hch Hfuel d) as E.
  pose proof (lookup_file_at fs l filename) as Hat. unfold lookup_file in *.
  destruct (filter _ _) as [|e es]; [exact E|]. split; [exact E|]. intros lf Hlf. by apply (Hat (entry_file e) lf Hfs).
Qed.

End Image.

(** ** Any disk *)

Section Device.
Context {D : Type} `{BD : BlockDevice D}.

Lemma read_loop_total fs : 0 < sectors_per_cluster (bpb fs) < 256 → ∀ fuel f n out d,
  0 <= n < 4294967296 → (Z.to_nat n < fuel)%nat →
  ∃ o f', (read_loop fuel fs f n out d).1 = Some (out ++ o, f') ∧ Z.of_nat (length o) <= n.
Proof.
  intros Hspc. induction fuel as [|fuel IH]; intros f n out d Hn Hfuel; [lia|]. cbn [read_loop].
  destruct (Z.ltb_spec 0 n) as [Hn0|Hn0]; cbn [andb].
  2: { exists [], f. rewrite app_nil_r. split; [done|cbn; lia]. }
  destruct (current_cluster f <? FAT32_CLUSTER_EOC); [|exists [], f; rewrite app_nil_r; split; [done|cbn; lia]].
  unfold FAT32_SECTOR_SIZE. destruct (Z.eqb_spec (sectors_per_cluster (bpb fs) * 512) 0) as [|_]; [lia|].
  rewrite mod_cluster by lia. set (m := if (_ <? 512 ⊖ _) then _ else 512 ⊖ _).
  assert (m = Z.min n (512 - position f mod 512)) as Hm by (apply piece_size; lia). clearbody m.
  pose proof (Z.mod_pos_bound (position f) 512 ltac:(lia)). unfold mbind at 1, io_bind at 1.
  destruct (read_sector _ _ d) as [[sec|] d1]; [|exists [], f; rewrite app_nil_r; split; [done|cbn; lia]].
  unfold mbind, io_bind. match goal with |- context [let '(_, _) := ?x in _] => destruct x as [cl d2] end.
  rewrite (w32_small (n - m)) by lia.
  match goal with |- context [read_loop fuel fs ?f' _ ?o' _] =>
    destruct (IH f' (n - m) o' d2) as (o & f'' & E & Hl); [lia..|] end.
  eexists _, _. rewrite E, <-app_assoc. split; [reflexivity|]. rewrite length_app. unfold slice.
  rewrite length_take. lia.
Qed.

(** C20: On a mounted volume with at least one sector in a cluster, whatever else
    the disk holds (cyclic chains included) and whichever reads fail,
    [fat32_read] of less than 2 GB from a handle that is not past the end of its
    file returns (with more fuel than requested bytes), returns the number of
    bytes it stored, and stores no more than the caller asked for.  (With a
    cluster size of 0 the code divides by zero, which [read_loop] has as
    [None].) *)
Theorem fat32_read_bounded fs f fuel size d :
  0 < sectors_per_cluster (bpb fs) < 256 → 0 <= position f <= f_size f → f_size f < 4294967296 →
  valid f ≠ 0 → initialized fs ≠ 0 → 0 <= size < 2147483648 → (Z.to_nat size < fuel)%nat →
  ∃ out f', (fat32_read fuel fs true f size d).1 = Some (Z.of_nat (length out), out, f') ∧
    Z.of_nat (length out) <= size.
Proof.
  intros Hspc Hp Hf Hv Hi Hs Hfuel. unfold fat32_read.
  rewrite (proj2 (Z.eqb_neq _ _) Hv), (proj2 (Z.eqb_neq _ _) Hi). cbn [negb orb].
  set (n := if _ <? _ then _ else _).
  assert (0 <= n <= size) as Hn.
  { unfold n. rewrite (w32_small (f_size f - _)) by lia. bcase; [|lia]. split; [lia|].
    unfold w32 in *. zdm. }
  clearbody n. destruct (read_loop_total fs Hspc fuel f n [] d) as (o & f' & E & Hl); [lia..|].
  unfold mbind, io_bind. destruct (read_loop fuel fs f n [] d) as [r d1]. cbn [fst] in E. subst r. cbn.
  exists o, f'. split; [|lia]. do 3 f_equal. unfold s32. rewrite w32_small by lia. bcase; lia.
Qed.

(** [fat32_init] either mounts the volume, whose boot sector then has
    512-byte sectors and no FAT16 table, or returns -1 and leaves the driver
    refusing every request: listing and reading answer -1 and opening NULL,
    with no access to the disk. *)
Theorem fat32_init_correct fs drv d :
  let r := (fat32_init fs drv d).1.1 in
  let fs' := (fat32_init fs drv d).1.2 in
  drive fs' = drv ∧
  ((r = 0 ∧ initialized fs' = 1 ∧ bytes_per_sector (bpb fs') = 512 ∧ fat_size_16 (bpb fs') = 0 ∧
    (∃ sec, (read_sector drv 0 d).1 = Some sec ∧ bpb fs' = slice sec 0 sizeof_bpb) ∧
    fat_start_sector fs' = reserved_sectors (bpb fs') ∧
    data_start_sector fs' = reserved_sectors (bpb fs') ⊕ (num_fats (bpb fs') ⊗ fat_size_32 (bpb fs')) ∧
    root_dir_cluster fs' = root_cluster (bpb fs')) ∨
   (r = -1 ∧ ∀ fuel nn max file name size d',
      fat32_list_dir fuel fs' nn max d' = (Some (-1, []), d') ∧
      fat32_open fuel fs' file name d' = (Some (false, file), d') ∧
      fat32_read fuel fs' nn file size d' = (Some (-1, [], file), d'))).
Proof.
  assert (∀ fs' : fat32_fs_t, initialized fs' = 0 → ∀ fuel nn max file name size d',
      fat32_list_dir fuel fs' nn max d' = (Some (-1, []), d') ∧
      fat32_open fuel fs' file name d' = (Some (false, file), d') ∧
      fat32_read fuel fs' nn file size d' = (Some (-1, [], file), d')) as Hun.
  { intros fs' E fuel nn max file name size d'. unfold fat32_list_dir, fat32_open, fat32_read. rewrite E.
    cbn [Z.eqb orb]. by rewrite !orb_true_r. }
  unfold fat32_init, mbind, io_bind. destruct (read_sector drv 0 d) as [[sec|] d1] eqn:Er; unfold mret, io_ret; cbn [fst snd].
  2: { split; [done|]. right. split; [done|]. by apply Hun. }
  destruct (Z.eqb_spec (bytes_per_sector (slice sec 0 sizeof_bpb)) 512) as [E1|E1]; cbn [negb].
  2: { split; [done|]. right. split; [done|]. by apply Hun. }
  destruct (Z.eqb_spec (fat_size_16 (slice sec 0 sizeof_bpb)) 0) as [E2|E2]; cbn [negb].
  - split; [done|]. left. split_and!; try done; by exists sec.
  - split; [done|]. right. split; [done|]. by apply Hun.
Qed.
End Device.

(** C21: The two name conversions are inverse to each other on names of at
    most eight and three characters without dots, spaces and NULs: the
    string of an entry finds that entry. *)
Theorem fat32_names_roundtrip base ext :
  name83 base ext →
  fat32_string_to_name (fat32_name_to_string (fat_name base ext)) = fat_name base ext ∧
  fat32_name_to_string (fat32_string_to_name (dotted base ext)) = dotted base ext.
Proof.
  intros H. by rewrite (name_to_string_spec _ _ H), (string_to_name_spec _ _ H), (name_to_string_spec _ _ H).
Qed.
