(* ===== verification/Fat32Volume.v ===== *)
(** * FAT32: a small volume

    A disk of one-sector clusters with a root directory and one file of 600
    bytes in two clusters, read by a device without errors: the theorems of
    the driver on concrete data, and what the driver does outside them. *)

From S2P Require Import Prelude Io Fat32 Fat32Names Fat32Dir Fat32Props.

Definition set_bytes (l : list Z) (off : Z) (bs : list Z) : list Z :=
  take (Z.to_nat off) l ++ bs ++ drop (Z.to_nat off + length bs) l.
Definition blank : list Z := replicate 512 0.

(** bytes per sector 512, 1 sector per cluster, 1 reserved, 1 FAT of 1 sector, root 2. *)
Definition boot : list Z :=
  set_bytes (set_bytes (set_bytes blank 11 [0; 2; 1; 1; 0; 1]) 36 [1; 0; 0; 0]) 44 [2; 0; 0; 0].
(** 2 and 4 end chains, 3 goes on to 4. *)
Definition fat : list Z :=
  set_bytes blank 8 [255; 255; 255; 15; 4; 0; 0; 0; 255; 255; 255; 15].

Definition HELLO : list Z := [72; 69; 76; 76; 79].
Definition TXT : list Z := [84; 88; 84].
Definition entry (name : list Z) (a c size : Z) : list Z :=
  name ++ [a] ++ replicate 14 0 ++ [c; 0; size mod 256; size / 256; 0; 0].
Definition hello_entry : list Z := entry (fat_name HELLO TXT) 0x20 3 600.
Definition root : list Z :=
  set_bytes blank 0
    (entry (fat_name [77] []) 8 0 0 ++ entry (0xE5 :: replicate 10 32) 0x20 9 1 ++
     hello_entry ++ entry (fat_name [66; 73; 78] []) 0x10 5 0).

Definition img (lba : Z) : list Z :=
  if lba =? 0 then boot else if lba =? 1 then fat else if lba =? 2 then root
  else if lba =? 3 then replicate 512 3 else if lba =? 4 then replicate 512 4 else blank.

Definition sector_okb (s : list Z) : bool :=
  (length s =? 512)%nat && forallb (λ b, (0 <=? b) && (b <? 256)) s.
Lemma sector_okb_ok s : sector_okb s = true → length s = 512%nat ∧ Forall u8 s.
Proof.
  unfold sector_okb. intros [Hl Hb]%andb_true_iff. split; [by apply Nat.eqb_eq|].
  apply Forall_forall. intros b Hin. rewrite forallb_forall in Hb.
  apply list_elem_of_In in Hin. specialize (Hb b Hin). unfold u8. lia.
Qed.

Lemma img_ok : image_ok img.
Proof. intros lba. unfold img. repeat bcase; by apply sector_okb_ok. Qed.

(** A device of any other state that reads the image. *)
#[program] Definition image_device {D} : BlockDevice D := {| read_sector drv lba := mret (Some (img lba)) |}.
Next Obligation. intros D drv lba d bs [= <-]. apply img_ok. Qed.
#[export] Instance disk : BlockDevice unit := image_device.

Lemma disk_reads : reads_image (D := unit) 0 img.
Proof. done. Qed.

Definition fs0 : fat32_fs_t := Fs 0 [] 0 0 0 0.
Definition file0 : fat32_file_t := File 0 0 0 0 0 0.
Definition vol : fat32_fs_t := Fs 0 (take 90 boot) 1 2 2 1.

(** Mounting gives [vol]. *)
Example mount : fat32_init fs0 0 tt = ((0, vol), tt).
Proof. vm_compute. reflexivity. Qed.

Lemma vol_ok : fs_ok 0 vol.
Proof. split; [done|done|]. vm_compute. done. Qed.
Lemma root_chain : chain img vol 2 [2].
Proof. apply chain_last; vm_compute; done. Qed.
Lemma hello_chain : chain img vol 3 [3; 4].
Proof.
  apply chain_next; [vm_compute; done..|].
  replace (fat_entry img vol 3) with 4 by (vm_compute; reflexivity).
  apply chain_last; vm_compute; done.
Qed.

Lemma hello83 : name83 HELLO TXT.
Proof. split; [repeat constructor; done..| |]; cbn; lia. Qed.

Lemma fat32_names_roundtrip_witness :
  fat32_string_to_name (fat32_name_to_string (fat_name HELLO TXT)) = fat_name HELLO TXT ∧
  fat32_name_to_string (fat32_string_to_name (dotted HELLO TXT)) = dotted HELLO TXT.
Proof. apply fat32_names_roundtrip. exact hello83. Defined.

Lemma fat32_list_dir_correct_witness :
  (fat32_list_dir 2 vol true 8 tt).1 =
  Some (2, [DirInfo (dotted HELLO TXT) 600 0; DirInfo [66; 73; 78] 0 1]).
Proof.
  destruct (fat32_list_dir_correct 0 img disk_reads vol [2] 2 8 tt vol_ok root_chain) as [E _]; [lia|cbn; lia|].
  rewrite E. vm_compute. reflexivity.
Defined.

Definition hello : fat32_file_t := entry_file hello_entry.

Lemma fat32_open_correct_witness :
  (fat32_open 2 vol file0 (dotted HELLO TXT) tt).1 = Some (true, hello) ∧ file_at img vol [3; 4] hello.
Proof.
  pose proof (fat32_open_correct 0 img disk_reads img_ok vol [2] 2 file0 (dotted HELLO TXT) tt
    vol_ok root_chain ltac:(cbn; lia)) as H.
  replace (filter _ _) with [hello_entry] in H by (vm_compute; reflexivity).
  destruct H as [E Hat]. split; [exact E|]. apply Hat. exact hello_chain.
Defined.

(** The last 100 bytes of the first cluster and the first 20 of the second. *)
Lemma fat32_read_correct_witness :
  (fat32_read 121 vol true (seek vol [3; 4] hello 412) 120 tt).1 =
  Some (120, replicate 100 3 ++ replicate 20 4, seek vol [3; 4] hello 532).
Proof.
  destruct (fat32_read_correct 0 img disk_reads img_ok vol [3; 4] (seek vol [3; 4] hello 412) 121 120 tt)
    as [E _].
  - exact vol_ok.
  - split; [exact hello_chain|reflexivity|vm_compute; split; done].
  - done.
  - split; lia.
  - vm_compute. split; done.
  - cbn. lia.
  - lia.
  - rewrite E. vm_compute. reflexivity.
Defined.

Lemma fat32_read_bounded_witness :
  ∃ out f', (fat32_read 1001 vol true hello 1000 tt).1 = Some (Z.of_nat (length out), out, f') ∧
    Z.of_nat (length out) <= 1000.
Proof.
  apply (fat32_read_bounded vol hello 1001 1000 tt); [vm_compute; done|..|done|done|lia|lia];
    vm_compute; split; done.
Defined.

(** [position + size] wraps in the clipping test: a read of [2^32 - 1] bytes
    at position 10 of the 600-byte file returns the 1014 bytes to the end of
    the chain. *)
Example read_wraps :
  fst <$> (fat32_read 100 vol true (seek vol [3; 4] hello 10) 4294967295 tt).1 =
  Some (1014, replicate 502 3 ++ replicate 512 4).
Proof. vm_compute. reflexivity. Qed.
