(* ===== verification/Fat32List.v ===== *)
(** * FAT32: printing the root directory

    [fat32_list_root] of kernel/fat32.c, which walks the root directory like
    [fat32_list_dir] and prints a line for each visible entry, and what it
    leaves on the screen. *)

From Stdlib Require Import String.
From S2P Require Import Prelude Io Vga VgaProps Fat32 Fat32Names Fat32Dir Fat32Volume.


(** The decimal digits of [n]: [temp] is a stack whose top is its first
    element; its 16 places bound the loop. *)
Fixpoint digits (places : nat) (n : Z) (temp : list Z) : list Z :=
  match places with
  | O => temp
  | S places => if 0 <? n then digits places (n / 10) (48 + n mod 10 :: temp) else temp
  end.
Definition num_text (n : Z) : list Z := if n =? 0 then [48] else digits 16 n [].

Section Device.
Context {D : Type} `{PIO : PortIO D} `{BD : BlockDevice D}.

Definition print_total (st : vga) (file_count : Z) : io D vga :=
  st ← vga_puts st ([10] ++ chars "Total files: ");
  st ← vga_puts st (num_text file_count);
  vga_puts st [10].

Definition print_entry (st : vga) (e : list Z) : io D vga :=
  let filename := fat32_name_to_string (entry_name e) in
  st ← (if c_true (entry_attr e .& FAT32_ATTR_DIRECTORY) then vga_puts st (chars "[DIR]  ")
        else vga_puts st (chars "[FILE] "));
  st ← vga_puts st filename;
  st ← vga_puts st (chars " (");
  st ← vga_puthex st (file_size e);
  vga_puts st (line " bytes)").

(** The loop over the entries of a sector, with the screen and [file_count]. *)
Fixpoint root_entries (es : list (list Z)) (st : vga) (file_count : Z) : io D (flow (Z * vga) (vga * Z)) :=
  match es with
  | [] => mret (Continue (st, file_count))
  | e :: es =>
      if le8 e 0 =? 0 then st ← print_total st file_count; mret (Return (file_count, st))
      else if listed e then st ← print_entry st e; root_entries es st (file_count + 1)
      else root_entries es st file_count
  end.

(** Returns the number of files (-1 on error) and the screen. *)
Definition fat32_list_root (fuel : nat) (fs : fat32_fs_t) (st : vga) : io D (option (Z * vga)) :=
  if initialized fs =? 0 then mret (Some (-1, st))
  else
    st ← vga_puts st (line "Files in root directory:");
    st ← vga_puts st (line "------------------------");
    r ← scan_dir fuel fs (λ _, true) (λ a, (-1, a.1))
          (λ sec a, root_entries (sector_entries sec) a.1 a.2) (root_dir_cluster fs) (st, 0);
    match r with
    | None => mret None
    | Some (Return x) => mret (Some x)
    | Some (Continue (st, file_count)) =>
        st ← print_total st file_count;
        mret (Some (file_count, st))
    end.
End Device.

(** ** The text *)

Definition total_text (n : Z) : list Z := [10] ++ chars "Total files: " ++ num_text n ++ [10].
Definition entry_text (e : list Z) : list Z :=
  (if c_true (entry_attr e .& FAT32_ATTR_DIRECTORY) then chars "[DIR]  " else chars "[FILE] ") ++
  c_string (fat32_name_to_string (entry_name e)) ++ chars " (" ++ chars "0x" ++ hex8 (file_size e) ++ line " bytes)".
Definition root_text (es : list (list Z)) : list Z :=
  line "Files in root directory:" ++ line "------------------------" ++
  concat (entry_text <$> es) ++ total_text (Z.of_nat (length es)).

(** *** Decimal numbers *)

Definition undec (cs : list Z) : Z := fold_left (λ v c, 10 * v + (c - 48)) cs 0.

Lemma digits_spec k : ∀ n temp, 0 <= n < 10 ^ Z.of_nat k →
  ∃ ds, digits k n temp = ds ++ temp ∧ undec ds = n ∧ (length ds <= k)%nat ∧ Forall (λ c, 48 <= c <= 57) ds.
Proof.
  induction k as [|k IH]; intros n temp Hn; cbn [digits].
  { exists []. cbn in *. repeat split; [lia|lia|constructor]. }
  destruct (Z.ltb_spec 0 n).
  - destruct (IH (n / 10) (48 + n mod 10 :: temp)) as (ds & E & Hv & Hl & HF).
    { rewrite Nat2Z.inj_succ, Z.pow_succ_r in Hn by lia. zdm. }
    exists (ds ++ [48 + n mod 10]). rewrite E, <-app_assoc. split_and!; [done| | |].
    + unfold undec in *. rewrite fold_left_app, Hv. cbn. zdm.
    + rewrite length_app. cbn. lia.
    + apply Forall_app. split; [done|]. constructor; [|constructor]. pose proof (Z.mod_pos_bound n 10). lia.
  - exists []. repeat split; [cbn; lia|cbn; lia|constructor].
Qed.

(** More places than digits make no difference. *)
Lemma digits_more k : ∀ j n temp, n < 10 ^ Z.of_nat k → digits (k + j) n temp = digits k n temp.
Proof.
  induction k as [|k IH]; intros j n temp Hn.
  - cbn in Hn. destruct j; [done|]. cbn. destruct (Z.ltb_spec 0 n); [lia|done].
  - rewrite Nat2Z.inj_succ, Z.pow_succ_r in Hn by lia. cbn [digits Nat.add].
    destruct (Z.ltb_spec 0 n); [|done]. apply IH. zdm.
Qed.

(** The text of a 32-bit number denotes it and has at most ten digits. *)
Lemma num_text_spec n : u32 n →
  undec (num_text n) = n ∧ (length (num_text n) <= 10)%nat ∧ Forall (λ c, 48 <= c <= 57) (num_text n).
Proof.
  intros Hn. unfold u32 in Hn. unfold num_text. destruct (Z.eqb_spec n 0) as [->|].
  { cbn. repeat split; [lia|]. constructor; [lia|constructor]. }
  change 16%nat with (10 + 6)%nat. rewrite digits_more by (cbn; lia).
  destruct (digits_spec 10 n []) as (ds & E & Hv & Hl & HF); [cbn; lia|].
  rewrite E, app_nil_r. repeat split; [done|lia|done].
Qed.

Lemma num_text_nonzero n : Forall (λ c, c ≠ 0) (num_text n).
Proof.
  assert (∀ k n temp, Forall (λ c, c ≠ 0) temp → Forall (λ c, c ≠ 0) (digits k n temp)) as H.
  { induction k as [|k IH]; intros m temp Ht; cbn [digits]; [done|]. destruct (0 <? m); [|done].
    apply IH. constructor; [|done]. pose proof (Z.mod_pos_bound m 10). lia. }
  unfold num_text. destruct (n =? 0); [by repeat constructor|]. apply H. constructor.
Qed.

(** *** The screen *)

Lemma c_string_line s : Forall (λ c, c ≠ 0) (chars s) → c_string (line s) = line s.
Proof. intros H. apply c_string_id, Forall_app. split; [done|]. by repeat constructor. Qed.

Section Screen.
Context {D : Type} `{PIO : PortIO D} `{BD : BlockDevice D}.

Lemma returns_total st n : returns (D := D) (print_total st n) (put_all st (total_text n)).
Proof.
  pose proof (num_text_nonzero n) as HF. unfold total_text.
  rewrite app_assoc, 2!put_all_app.
  eapply returns_bind; [apply returns_puts|]. eapply returns_bind; [apply returns_puts|].
  rewrite (c_string_id (num_text n)) by exact HF. apply returns_puts.
Qed.

Lemma returns_entry st e : returns (D := D) (print_entry st e) (put_all st (entry_text e)).
Proof.
  unfold print_entry, entry_text. rewrite 3!put_all_app. rewrite (app_assoc (chars "0x")), put_all_app.
  destruct (c_true _);
    do 3 (eapply returns_bind; [apply returns_puts|]); (eapply returns_bind; [apply returns_puthex|]);
    apply returns_puts.
Qed.

(** [root_entries] without the device. *)
Fixpoint root_pure (es : list (list Z)) (a : vga * Z) : flow (Z * vga) (vga * Z) :=
  match es with
  | [] => Continue a
  | e :: es =>
      if le8 e 0 =? 0 then Return (a.2, put_all a.1 (total_text a.2))
      else if listed e then root_pure es (put_all a.1 (entry_text e), a.2 + 1)
      else root_pure es a
  end.

Lemma root_pure_app e1 e2 : ∀ a,
  root_pure (e1 ++ e2) a =
    match root_pure e1 a with Return x => Return x | Continue a => root_pure e2 a end.
Proof.
  induction e1 as [|e e1 IH]; intros a; [reflexivity|]. cbn [app root_pure].
  destruct (_ =? 0); [reflexivity|]. destruct (listed e); apply IH.
Qed.
Lemma returns_root es : ∀ a, returns (D := D) (root_entries es a.1 a.2) (root_pure es a).
Proof.
  induction es as [|e es IH]; intros [st n]; cbn [root_entries root_pure fst snd]; [apply returns_ret|].
  destruct (le8 e 0 =? 0); [eapply returns_bind; [apply returns_total|apply returns_ret]|].
  destruct (listed e); [|apply (IH (st, n))].
  eapply returns_bind; [apply returns_entry|]. apply (IH (_, _)).
Qed.

Definition flow_root (f : flow (Z * vga) (vga * Z)) : Z * vga :=
  match f with Return x => x | Continue (st, n) => (n, put_all st (total_text n)) end.

Lemma root_pure_spec es : ∀ st n,
  let shown := filter (λ e, listed e = true) (live_entries es) in
  let total := n + Z.of_nat (length shown) in
  flow_root (root_pure es (st, n)) = (total, put_all st (concat (entry_text <$> shown) ++ total_text total)).
Proof.
  induction es as [|e es IH]; intros st n; cbn [root_pure live_entries]; cbn zeta.
  { by rewrite Z.add_0_r. }
  destruct (le8 e 0 =? 0); cbn [fst snd]; [by rewrite Z.add_0_r|].
  rewrite filter_cons. destruct (listed e).
  - rewrite decide_True by done. rewrite IH. cbn [length fmap list_fmap concat].
    rewrite <-app_assoc, (put_all_app st).
    by replace (n + 1 + _) with (n + Z.of_nat (S (length (filter (λ e, listed e = true) (live_entries es))))) by lia.
  - rewrite decide_False by done. apply IH.
Qed.

(** [fat32_list_root] prints the heading, one line for each visible entry
    of the root directory in order (kind, name, size in hexadecimal) and the
    decimal total, and returns that total; more fuel than clusters in the
    chain is enough. *)
Theorem fat32_list_root_correct drv img fs l fuel st d :
  reads_image (D := D) drv img → fs_ok drv fs → chain img fs (root_dir_cluster fs) l → (length l < fuel)%nat →
  let shown := filter (λ e, listed e = true) (live_entries (dir_entries img fs l)) in
  (fat32_list_root fuel fs st d).1 = Some (Z.of_nat (length shown), put_all st (root_text shown)).
Proof.
  intros Hdev Hfs Hch Hfuel shown. revert d.
  change (returns (fat32_list_root fuel fs st) (Some (Z.of_nat (length shown), put_all st (root_text shown)))).
  unfold fat32_list_root. destruct (Z.eqb_spec (initialized fs) 0); [by destruct (fs_init _ _ Hfs)|].
  do 2 (eapply returns_bind; [apply returns_puts|]).
  rewrite !c_string_line by (vm_compute; repeat constructor; discriminate). unfold root_text. rewrite 2!put_all_app.
  set (st1 := put_all _ (line "------------------------")).
  eapply returns_bind.
  { intros d. apply (scan_dir_spec drv img Hdev fs _ _ _ (λ sec, root_pure (sector_entries sec)) _ l Hch Hfs);
      [intros sec a; apply returns_root|intros; discriminate|exact Hfuel]. }
  rewrite (run_entries root_pure) by (done || apply root_pure_app). fold (dir_entries img fs l).
  pose proof (root_pure_spec (dir_entries img fs l) st1 0) as H. cbn zeta in H. fold shown in H.
  rewrite Z.add_0_l in H. rewrite <-H.
  destruct (root_pure _ (st1, 0)) as [x|[st2 n']]; [apply returns_ret|].
  eapply returns_bind; [apply returns_total|apply returns_ret].
Qed.
End Screen.

#[local] Instance script_disk : BlockDevice script := image_device.

Lemma fat32_list_root_correct_witness :
  (fat32_list_root 2 vol vga0 (Script [] [])).1 =
  Some (2, put_all vga0
    (line "Files in root directory:" ++ line "------------------------" ++
     line "[FILE] HELLO.TXT (0x00000258 bytes)" ++ line "[DIR]  BIN (0x00000000 bytes)" ++
     [10] ++ line "Total files: 2")).
Proof.
  rewrite (fat32_list_root_correct 0 img vol [2] 2 vga0 (Script [] [])); [| |exact vol_ok|exact root_chain|cbn; lia].
  - replace (filter _ _) with [hello_entry; entry (fat_name [66; 73; 78] []) 0x10 5 0] by (vm_compute; reflexivity).
    do 3 f_equal.
  - intros lba d _. reflexivity.
Defined.
