(* ===== verification/Ide.v ===== *)
(** * IDE disk driver (kernel/ide.c, kernel/ide.h)

    Polled transfers over the ports of the primary bus of any [PortIO] device.
    A wait loop is a structural recursion on its [timeout].  A transfer gives
    the words it stored in the buffer beside the result of the C function.
    The driver is a [BlockDevice], which is what the file system asks for. *)

From S2P Require Import Prelude Io Fat32.

Definition IDE_PRIMARY_BASE : Z := 0x1F0.
Definition IDE_PRIMARY_CTRL : Z := 0x3F6.
Definition IDE_REG_DATA : Z := 0x00.
Definition IDE_REG_SECTOR_CNT : Z := 0x02.
Definition IDE_REG_LBA_LOW : Z := 0x03.
Definition IDE_REG_LBA_MID : Z := 0x04.
Definition IDE_REG_LBA_HIGH : Z := 0x05.
Definition IDE_REG_DRIVE : Z := 0x06.
Definition IDE_REG_STATUS : Z := 0x07.
Definition IDE_REG_COMMAND : Z := 0x07.
Definition IDE_CMD_READ_SECTORS : Z := 0x20.
Definition IDE_CMD_WRITE_SECTORS : Z := 0x30.
Definition IDE_CMD_IDENTIFY : Z := 0xEC.
Definition IDE_STATUS_ERR : Z := 0x01.
Definition IDE_STATUS_DRQ : Z := 0x08.
Definition IDE_STATUS_RDY : Z := 0x40.
Definition IDE_STATUS_BSY : Z := 0x80.

(** [int timeout = 100000;] *)
Definition ide_timeout : nat := Z.to_nat 100000.

Section Ide.
Context {D : Type} `{PIO : PortIO D}.

Definition ide_status : io D Z := inb (IDE_PRIMARY_BASE + IDE_REG_STATUS).

Fixpoint wait_ready_loop (timeout : nat) : io D Z :=
  match timeout with
  | O => mret (-1)
  | S timeout =>
      status ← ide_status;
      if negb (c_true (status .& IDE_STATUS_BSY)) && c_true (status .& IDE_STATUS_RDY) then mret 0
      else wait_ready_loop timeout
  end.
Definition ide_wait_ready : io D Z := wait_ready_loop ide_timeout.

Fixpoint wait_drq_loop (timeout : nat) : io D Z :=
  match timeout with
  | O => mret (-1)
  | S timeout =>
      status ← ide_status;
      if c_true (status .& IDE_STATUS_DRQ) then mret 0
      else if c_true (status .& IDE_STATUS_ERR) then mret (-1)
      else wait_drq_loop timeout
  end.
Definition ide_wait_drq : io D Z := wait_drq_loop ide_timeout.

Definition ide_400ns_delay : io D unit :=
  _ ← inb IDE_PRIMARY_CTRL; _ ← inb IDE_PRIMARY_CTRL;
  _ ← inb IDE_PRIMARY_CTRL; _ ← inb IDE_PRIMARY_CTRL; mret tt.

(** [while (timeout--) { ... break; }]: the value of [timeout] after the loop. *)
Fixpoint init_wait (timeout : nat) : io D Z :=
  match timeout with
  | O => mret (-1)
  | S timeout =>
      status ← ide_status;
      if negb (c_true (status .& IDE_STATUS_BSY)) then mret (Z.of_nat timeout) else init_wait timeout
  end.

Definition ide_init : io D Z :=
  outb IDE_PRIMARY_CTRL 0x02;;
  ide_400ns_delay;;
  status ← ide_status;
  if status =? 0xFF then mret (-1)
  else
    outb (IDE_PRIMARY_BASE + IDE_REG_DRIVE) 0xA0;;
    ide_400ns_delay;;
    timeout ← init_wait ide_timeout;
    if timeout <=? 0 then mret (-1) else mret 0.

(** Drive, LBA and command registers, the same in reads and writes. *)
Definition ide_command (drive lba sector_count cmd : Z) : io D unit :=
  outb (IDE_PRIMARY_BASE + IDE_REG_DRIVE) (w8 ((drive .& 0x10) .| 0xE0 .| ((lba ≫ 24) .& 0x0F)));;
  ide_400ns_delay;;
  outb (IDE_PRIMARY_BASE + IDE_REG_SECTOR_CNT) sector_count;;
  outb (IDE_PRIMARY_BASE + IDE_REG_LBA_LOW) (w8 lba);;
  outb (IDE_PRIMARY_BASE + IDE_REG_LBA_MID) (w8 (lba ≫ 8));;
  outb (IDE_PRIMARY_BASE + IDE_REG_LBA_HIGH) (w8 (lba ≫ 16));;
  outb (IDE_PRIMARY_BASE + IDE_REG_COMMAND) cmd.

(** [for (i = 0; i < sector_count; i++)] of the read; [out] are the words stored. *)
Fixpoint read_sectors_loop (n : nat) (out : list Z) : io D (Z * list Z) :=
  match n with
  | O => mret (0, out)
  | S n =>
      r ← ide_wait_drq;
      if negb (r =? 0) then mret (-1, out)
      else
        ws ← inw_buffer (IDE_PRIMARY_BASE + IDE_REG_DATA) 256;
        read_sectors_loop n (out ++ ws)
  end.

Definition ide_read_sectors (drive lba sector_count : Z) : io D (Z * list Z) :=
  if sector_count =? 0 then mret (-1, [])
  else
    r ← ide_wait_ready;
    if negb (r =? 0) then mret (-1, [])
    else
      ide_command drive lba sector_count IDE_CMD_READ_SECTORS;;
      read_sectors_loop (Z.to_nat sector_count) [].

(** The loop of the write, on the words of the buffer that are left. *)
Fixpoint write_sectors_loop (n : nat) (buffer : list Z) : io D Z :=
  match n with
  | O => mret 0
  | S n =>
      r ← ide_wait_drq;
      if negb (r =? 0) then mret (-1)
      else
        outw_buffer (IDE_PRIMARY_BASE + IDE_REG_DATA) (take 256 buffer);;
        ide_400ns_delay;;
        write_sectors_loop n (drop 256 buffer)
  end.

Definition ide_write_sectors (drive lba sector_count : Z) (buffer : list Z) : io D Z :=
  if sector_count =? 0 then mret (-1)
  else
    r ← ide_wait_ready;
    if negb (r =? 0) then mret (-1)
    else
      ide_command drive lba sector_count IDE_CMD_WRITE_SECTORS;;
      r ← write_sectors_loop (Z.to_nat sector_count) buffer;
      if negb (r =? 0) then mret (-1)
      else
        r ← ide_wait_ready;
        if negb (r =? 0) then mret (-1) else mret 0.

Definition ide_identify (drive : Z) : io D (Z * list Z) :=
  r ← ide_wait_ready;
  if negb (r =? 0) then mret (-1, [])
  else
    outb (IDE_PRIMARY_BASE + IDE_REG_DRIVE) (drive .& 0x10);;
    ide_400ns_delay;;
    outb (IDE_PRIMARY_BASE + IDE_REG_COMMAND) IDE_CMD_IDENTIFY;;
    status ← ide_status;
    if status =? 0 then mret (-1, [])
    else
      r ← ide_wait_drq;
      if negb (r =? 0) then mret (-1, [])
      else ws ← inw_buffer (IDE_PRIMARY_BASE + IDE_REG_DATA) 256; mret (0, ws).

(** ** The block device *)

(** The bytes of the [uint16_t] buffer. *)
Definition word_bytes (ws : list Z) : list Z := w ← ws; [w mod 256; w / 256].

(** [ide_read_sectors(drive, lba, 1, sector_buffer) != 0] is an error. *)
Definition ide_read_sector (drive lba : Z) : io D (option (list Z)) :=
  r ← ide_read_sectors drive lba 1;
  mret (if r.1 =? 0 then Some (word_bytes r.2) else None).

Lemma word_bytes_ok ws : Forall u16 ws → length (word_bytes ws) = (2 * length ws)%nat ∧ Forall u8 (word_bytes ws).
Proof.
  unfold word_bytes, u16, u8. induction 1 as [|w ws Hw _ [IHl IHF]]; [done|].
  rewrite bind_cons, length_app, IHl. cbn [length]. split; [lia|].
  repeat (constructor; [zdm|]). exact IHF.
Qed.

Lemma ide_read_sector_ok drive lba d bs :
  (ide_read_sector drive lba d).1 = Some bs → length bs = 512%nat ∧ Forall u8 bs.
Proof.
  unfold ide_read_sector, ide_read_sectors. cbn [Z.eqb]. unfold mbind, io_bind.
  destruct (ide_wait_ready d) as [r d1]. destruct (negb (r =? 0)); [done|].
  destruct (ide_command _ _ _ _ d1) as [u d2]. change (Z.to_nat 1) with 1%nat.
  cbn [read_sectors_loop app]. unfold mbind, io_bind.
  destruct (ide_wait_drq d2) as [r' d3]. destruct (negb (r' =? 0)); [done|].
  pose proof (inw_buffer_length (IDE_PRIMARY_BASE + IDE_REG_DATA) 256 d3) as Hl.
  pose proof (inw_buffer_range (IDE_PRIMARY_BASE + IDE_REG_DATA) 256 d3) as HF.
  destruct (inw_buffer _ 256 d3) as [ws d4]. cbn [fst] in Hl, HF.
  unfold mret, io_ret. cbn [fst snd Z.eqb]. intros [= <-].
  destruct (word_bytes_ok ws HF) as [-> ?]. rewrite Hl. done.
Qed.

(** The driver keeps what [BlockDevice] promises to the file system. *)
Definition ide_block : BlockDevice D :=
  {| read_sector := ide_read_sector; read_sector_ok := ide_read_sector_ok |}.
End Ide.
