(* ===== verification/IdeProps.v ===== *)
(** * IDE disk driver: transfers on an ATA disk

    The disk is hardware, so what it does on the ports is a class of laws,
    [AtaDevice]: the PIO protocol of an ATA drive, seen through the state
    [ata].  The drive is busy for some polls after a command and between the
    sectors of a transfer.  The theorems hold for every device with these
    laws whose latency is below the time-out of the driver; [ata] itself is
    such a device. *)

From S2P Require Import Prelude Io Fat32 Fat32Dir Ide.

(** ** The ATA protocol *)

Record ata := Ata {
  a_busy : nat;            (* polls until the drive is ready *)
  a_latency : nat;
  a_head : Z; a_cnt : Z; a_lo : Z; a_mid : Z; a_hi : Z;
  a_in : list Z;           (* words the drive holds for the host *)
  a_want : nat;            (* sectors the drive waits for *)
  a_next : Z;              (* where the next of them goes *)
  a_buf : list Z;          (* words of it received *)
  a_disk : Z → Z → list Z  (* the 256 words of each sector of each unit *)
}.

Definition a_unit (a : ata) : Z := a_head a .& 0x10.
Definition a_lba (a : ata) : Z := (a_head a .& 0x0F) * 16777216 + a_hi a * 65536 + a_mid a * 256 + a_lo a.

Definition set_busy (a : ata) (n : nat) : ata :=
  Ata n (a_latency a) (a_head a) (a_cnt a) (a_lo a) (a_mid a) (a_hi a)
    (a_in a) (a_want a) (a_next a) (a_buf a) (a_disk a).
Definition set_regs (a : ata) (head cnt lo mid hi : Z) : ata :=
  Ata (a_busy a) (a_latency a) head cnt lo mid hi (a_in a) (a_want a) (a_next a) (a_buf a) (a_disk a).
Definition set_in (a : ata) (ws : list Z) (busy : nat) : ata :=
  Ata busy (a_latency a) (a_head a) (a_cnt a) (a_lo a) (a_mid a) (a_hi a)
    ws (a_want a) (a_next a) (a_buf a) (a_disk a).
Definition set_out (a : ata) (busy want : nat) (next : Z) (buf : list Z) (disk : Z → Z → list Z) : ata :=
  Ata busy (a_latency a) (a_head a) (a_cnt a) (a_lo a) (a_mid a) (a_hi a) (a_in a) want next buf disk.

(** A write to a register; a command starts a transfer. *)
Definition ata_write (p v : Z) (a : ata) : ata :=
  if p =? 0x1F2 then set_regs a (a_head a) v (a_lo a) (a_mid a) (a_hi a)
  else if p =? 0x1F3 then set_regs a (a_head a) (a_cnt a) v (a_mid a) (a_hi a)
  else if p =? 0x1F4 then set_regs a (a_head a) (a_cnt a) (a_lo a) v (a_hi a)
  else if p =? 0x1F5 then set_regs a (a_head a) (a_cnt a) (a_lo a) (a_mid a) v
  else if p =? 0x1F6 then set_regs a v (a_cnt a) (a_lo a) (a_mid a) (a_hi a)
  else if p =? 0x1F7 then
    if v =? 0x20 then set_in a (concat (a_disk a (a_unit a) <$> seqZ (a_lba a) (a_cnt a))) (a_latency a)
    else if v =? 0x30 then set_out a (a_latency a) (Z.to_nat (a_cnt a)) (a_lba a) [] (a_disk a)
    else a
  else a.

Definition disk_set (disk : Z → Z → list Z) (u l : Z) (s : list Z) : Z → Z → list Z :=
  λ u' l', if decide (u' = u ∧ l' = l) then s else disk u' l'.

(** A word to the host, and a word from it; the drive is busy again at the end
    of each sector but the last. *)
Definition ata_take (a : ata) (ws : list Z) : ata :=
  set_in a ws (if decide (ws ≠ [] ∧ Z.of_nat (length ws) mod 256 = 0) then a_latency a else 0).
Definition ata_give (a : ata) (w : Z) : ata :=
  match a_want a with
  | O => a
  | S want =>
      if decide (length (a_buf a) = 255%nat)
      then set_out a (a_latency a) want (a_next a + 1) []
             (disk_set (a_disk a) (a_unit a) (a_next a) (a_buf a ++ [w]))
      else set_out a 0 (S want) (a_next a) (a_buf a ++ [w]) (a_disk a)
  end.

Definition data_ready (a : ata) : Prop := a_in a ≠ [] ∨ a_want a ≠ O.

Class AtaDevice (D : Type) `{PIO : PortIO D} := {
  ata_of : D → ata;
  (* the status register: busy, or ready with DRQ when there is data to move *)
  ata_status_busy d n : a_busy (ata_of d) = S n →
    ∃ s d', inb 0x1F7 d = (s, d') ∧ ata_of d' = set_busy (ata_of d) n ∧
      c_true (s .& 0x80) = true ∧ c_true (s .& 0x08) = false ∧ c_true (s .& 0x01) = false;
  ata_status_ready d : a_busy (ata_of d) = O →
    ∃ s d', inb 0x1F7 d = (s, d') ∧ ata_of d' = ata_of d ∧
      c_true (s .& 0x80) = false ∧ c_true (s .& 0x40) = true ∧ c_true (s .& 0x01) = false ∧
      (c_true (s .& 0x08) = true ↔ data_ready (ata_of d));
  (* the alternate status has no effect *)
  ata_alternate d : ata_of (inb 0x3F6 d).2 = ata_of d;
  ata_outb p v d : (p ≠ 0x1F7 ∨ v = 0x20 ∨ v = 0x30) → ata_of (outb p v d).2 = ata_write p v (ata_of d);
  (* the data port, when the drive is ready *)
  ata_insw d w ws : a_busy (ata_of d) = O → a_in (ata_of d) = w :: ws → u16 w →
    ∃ d', insw 0x1F0 d = (w, d') ∧ ata_of d' = ata_take (ata_of d) ws;
  ata_outsw d w : a_busy (ata_of d) = O → a_want (ata_of d) ≠ O →
    ata_of (outsw 0x1F0 w d).2 = ata_give (ata_of d) w
}.

Section Ata.
Context {D : Type} `{AD : AtaDevice D}.

(** ** Runs

    From a device in state [a] the computation returns [x] and leaves it in
    state [a']. *)
Definition runs {A} (m : io D A) (a a' : ata) (x : A) : Prop :=
  ∀ d, ata_of d = a → ∃ d', m d = (x, d') ∧ ata_of d' = a'.

Lemma drive_ret {A} (x : A) a : runs (mret x) a a x.
Proof. intros d Hd. exists d. done. Qed.
Lemma drive_bind {A B} (m : io D A) (k : A → io D B) a a' a'' x y :
  runs m a a' x → runs (k x) a' a'' y → runs (m ≫= k) a a'' y.
Proof.
  intros Hm Hk d Hd. destruct (Hm d Hd) as (d1 & E1 & H1). destruct (Hk d1 H1) as (d2 & E2 & H2).
  exists d2. unfold mbind, io_bind. rewrite E1. done.
Qed.
Lemma runs_outb p v a : (p ≠ 0x1F7 ∨ v = 0x20 ∨ v = 0x30) → runs (outb p v) a (ata_write p v a) tt.
Proof.
  intros Hv d <-. exists (outb p v d).2. split; [|by apply ata_outb]. by destruct (outb p v d) as [[] ?].
Qed.

Lemma runs_alternate {A} (k : io D A) a a' x : runs k a a' x → runs (_ ← inb IDE_PRIMARY_CTRL; k) a a' x.
Proof.
  intros Hk d Hd. unfold mbind, io_bind. pose proof (ata_alternate d) as E. fold IDE_PRIMARY_CTRL in E.
  destruct (inb IDE_PRIMARY_CTRL d) as [s d1]. cbn in E. apply Hk. by rewrite E.
Qed.
Lemma runs_delay a : runs ide_400ns_delay a a tt.
Proof. do 4 apply runs_alternate. apply drive_ret. Qed.

(** The waits end when the drive is ready before the time-out. *)
Lemma runs_wait_ready n : ∀ a, (a_busy a < n)%nat → runs (wait_ready_loop n) a (set_busy a 0) 0.
Proof.
  induction n as [|n IH]; intros a Hn d Hd; [lia|]. cbn [wait_ready_loop]. unfold mbind, io_bind.
  unfold ide_status. change (IDE_PRIMARY_BASE + IDE_REG_STATUS) with 0x1F7. destruct (a_busy a) as [|k] eqn:Eb.
  - destruct (ata_status_ready d) as (s & d' & E & Hd' & Hb & Hr & _); [by rewrite Hd|].
    rewrite E. unfold IDE_STATUS_BSY, IDE_STATUS_RDY. rewrite Hb, Hr. exists d'. split; [done|].
    rewrite Hd', Hd. destruct a. cbn in Eb. by subst.
  - destruct (ata_status_busy d k) as (s & d' & E & Hd' & Hb & _); [by rewrite Hd|].
    rewrite E. unfold IDE_STATUS_BSY. rewrite Hb. cbn [negb andb].
    destruct (IH (set_busy a k) ltac:(cbn; lia) d') as (d2 & E2 & H2); [by rewrite Hd', Hd|]. by exists d2.
Qed.

Lemma runs_wait_drq n : ∀ a, (a_busy a < n)%nat → data_ready a → runs (wait_drq_loop n) a (set_busy a 0) 0.
Proof.
  induction n as [|n IH]; intros a Hn Hdr d Hd; [lia|]. cbn [wait_drq_loop]. unfold mbind, io_bind.
  unfold ide_status. change (IDE_PRIMARY_BASE + IDE_REG_STATUS) with 0x1F7. destruct (a_busy a) as [|k] eqn:Eb.
  - destruct (ata_status_ready d) as (s & d' & E & Hd' & _ & _ & _ & Hq); [by rewrite Hd|].
    rewrite E. unfold IDE_STATUS_DRQ. rewrite (proj2 Hq) by (by rewrite Hd). exists d'. split; [done|].
    rewrite Hd', Hd. destruct a. cbn in Eb. by subst.
  - destruct (ata_status_busy d k) as (s & d' & E & Hd' & _ & Hq & He); [by rewrite Hd|].
    rewrite E. unfold IDE_STATUS_DRQ, IDE_STATUS_ERR. rewrite Hq, He.
    destruct (IH (set_busy a k) ltac:(cbn; lia) Hdr d') as (d2 & E2 & H2); [by rewrite Hd', Hd|]. by exists d2.
Qed.
(** ** Commands *)

(** The value of the drive register. *)
Definition drive_reg (drive lba : Z) : Z := w8 ((drive .& 0x10) .| 0xE0 .| ((lba ≫ 24) .& 0x0F)).

(** The registers hold the 28 bits of the address and the unit. *)
Lemma drive_reg_unit drive lba : drive_reg drive lba .& 0x10 = drive .& 0x10.
Proof.
  unfold drive_reg, w8. change 256 with (2 ^ 8). rewrite <-land_low_mask by lia. change (2 ^ 8 - 1) with 255.
  rewrite <-Z.land_assoc, !Z.land_lor_distr_l, <-!Z.land_assoc. change (Z.land 0x0F _) with 0.
  by rewrite Z.land_0_r, !Z.lor_0_r.
Qed.
Lemma drive_reg_lba drive lba : drive_reg drive lba .& 0x0F = (lba / 16777216) mod 16.
Proof.
  unfold drive_reg, w8. change 256 with (2 ^ 8). rewrite <-land_low_mask by lia. change (2 ^ 8 - 1) with 255.
  rewrite <-Z.land_assoc, !Z.land_lor_distr_l, <-!Z.land_assoc. change (Z.land 0x10 _) with 0.
  rewrite Z.land_0_r, !Z.lor_0_l. change (Z.land 15 (Z.land 255 15)) with (2 ^ 4 - 1).
  rewrite land_low_mask, Z.shiftr_div_pow2 by lia. done.
Qed.

Definition addressed (a : ata) (drive lba cnt : Z) : ata :=
  set_regs a (drive_reg drive lba) cnt (w8 lba) (w8 (lba ≫ 8)) (w8 (lba ≫ 16)).

Lemma addressed_unit a drive lba cnt : a_unit (addressed a drive lba cnt) = drive .& 0x10.
Proof. apply drive_reg_unit. Qed.
Lemma addressed_lba a drive lba cnt : a_lba (addressed a drive lba cnt) = lba mod 268435456.
Proof.
  unfold a_lba. cbn [a_head a_hi a_mid a_lo addressed set_regs]. rewrite drive_reg_lba.
  rewrite !Z.shiftr_div_pow2 by lia. change (2 ^ 8) with 256. change (2 ^ 16) with 65536. unfold w8. zdm.
Qed.

Lemma runs_command a drive lba cnt cmd : cmd = 0x20 ∨ cmd = 0x30 →
  runs (ide_command drive lba cnt cmd) a (ata_write 0x1F7 cmd (addressed a drive lba cnt)) tt.
Proof.
  intros Hc. unfold ide_command. fold (drive_reg drive lba).
  eapply drive_bind; [apply runs_outb; by left|]. eapply drive_bind; [apply runs_delay|].
  do 4 (eapply drive_bind; [apply runs_outb; by left|]). by apply runs_outb; right.
Qed.

(** ** Reading *)

(** A sector as words. *)
Definition sector_words (s : list Z) : Prop := length s = 256%nat ∧ Forall u16 s.

Lemma length_concat_words secs : Forall sector_words secs → length (concat secs) = (256 * length secs)%nat.
Proof. intros H. apply length_concat_uniform. eapply Forall_impl; [exact H|]. by intros s []. Qed.

Lemma runs_insw a w ws : a_busy a = O → a_in a = w :: ws → u16 w → runs (insw 0x1F0) a (ata_take a ws) w.
Proof. intros Hb Ha Hu d <-. by apply ata_insw. Qed.

(** The words of one sector, the first [n] of them left to take. *)
Lemma runs_inw n : ∀ a ws rest k,
  length ws = n → Forall u16 ws → (0 < n <= 256)%nat → length rest = (256 * k)%nat → a_in a = ws ++ rest → a_busy a = O →
  runs (inw_buffer (IDE_PRIMARY_BASE + IDE_REG_DATA) n) a
    (set_in a rest (if decide (rest = []) then 0 else a_latency a)) ws.
Proof.
  induction n as [|n IH]; intros a ws rest k Hl Hu Hn Hk Ha Hb; [lia|]. destruct ws as [|w ws]; [done|].
  inversion_clear Hu as [|? ? Hw Hu'].
  cbn [inw_buffer]. change (IDE_PRIMARY_BASE + IDE_REG_DATA) with 0x1F0 in *. cbn in Hl.
  eapply drive_bind; [apply (runs_insw a w (ws ++ rest)); done|].
  destruct ws as [|w' ws].
  - cbn in Hl. assert (n = 0%nat) as -> by lia. cbn [inw_buffer app].
    eapply drive_bind; [apply drive_ret|]. unfold ata_take.
    replace (if decide (rest ≠ [] ∧ _) then a_latency a else 0%nat) with
      (if decide (rest = []) then 0%nat else a_latency a); [apply drive_ret|].
    destruct (decide (rest = [])) as [->|Hr]; [by rewrite decide_False by naive_solver|].
    rewrite decide_True; [done|]. split; [done|]. rewrite Hk. zdm.
  - eapply drive_bind.
    { apply (IH _ (w' :: ws) rest k); [lia|done|cbn in Hl; lia|done|done|].
      unfold ata_take. cbn [a_busy set_in]. rewrite decide_False; [done|].
      intros [_ Hm]. rewrite length_app, Hk in Hm. cbn [length] in *. zdm. }
    apply drive_ret.
Qed.

(** The loop over the sectors of the transfer. *)
Lemma runs_read_loop secs : ∀ a out,
  Forall sector_words secs → a_in a = concat secs → (a_busy a < ide_timeout)%nat →
  (a_latency a < ide_timeout)%nat → (secs = [] → a_busy a = O) →
  runs (read_sectors_loop (length secs) out) a (set_in a [] 0) (0, out ++ concat secs).
Proof.
  induction secs as [|s secs IH]; intros a out HF Ha Hb Hlat Hz; cbn [length read_sectors_loop concat].
  { rewrite app_nil_r. destruct a. cbn in *. rewrite Ha, Hz by done. apply drive_ret. }
  inversion_clear HF as [|? ? [Hs Hu] HF']. cbn [concat] in Ha.
  eapply drive_bind; [apply runs_wait_drq; [done|left; rewrite Ha; by destruct s]|]. cbn [Z.eqb negb].
  pose proof (length_concat_words secs HF') as Hlc.
  eapply drive_bind; [apply (runs_inw 256 _ s (concat secs) (length secs)); [done|done|lia|done|done|done]|].
  rewrite app_assoc. apply (IH (set_in (set_busy a 0) (concat secs) _) (out ++ s)); [done|done| |done|].
  - cbn. case_decide; [|done]. unfold ide_timeout. lia.
  - cbn. intros ->. by rewrite decide_True.
Qed.

(** The drive is idle: no transfer is under way and it is ready in time. *)
Record idle (a : ata) : Prop := {
  id_in : a_in a = [];
  id_want : a_want a = O;
  id_busy : (a_busy a < ide_timeout)%nat;
  id_lat : (a_latency a < ide_timeout)%nat;
  id_disk u l : sector_words (a_disk a u l)
}.

Lemma runs_read a drive lba cnt :
  idle a → 0 < cnt < 256 →
  let a1 := addressed (set_busy a 0) drive lba cnt in
  runs (ide_read_sectors drive lba cnt) a (set_in a1 [] 0)
    (0, concat (a_disk a (drive .& 0x10) <$> seqZ (lba mod 268435456) cnt)).
Proof.
  intros [Hin Hw Hb Hl Hd] Hcnt a1. unfold ide_read_sectors.
  destruct (Z.eqb_spec cnt 0); [lia|].
  eapply drive_bind; [by apply runs_wait_ready|]. cbn [Z.eqb negb].
  eapply drive_bind; [apply runs_command; by left|]. fold a1.
  set (secs := a_disk a (drive .& 0x10) <$> seqZ (lba mod 268435456) cnt).
  assert (ata_write 0x1F7 IDE_CMD_READ_SECTORS a1 = set_in a1 (concat secs) (a_latency a)) as ->.
  { unfold ata_write. cbn [Z.eqb Pos.eqb IDE_CMD_READ_SECTORS]. unfold a1.
    by rewrite addressed_unit, addressed_lba. }
  assert (Z.to_nat cnt = length secs) as -> by (unfold secs; by rewrite length_fmap, length_seqZ).
  pose proof (runs_read_loop secs (set_in a1 (concat secs) (a_latency a)) []) as Hrun.
  change (set_in (set_in a1 (concat secs) (a_latency a)) [] 0) with (set_in a1 [] 0) in Hrun.
  apply Hrun; [|done|done|done|].
  - apply Forall_fmap, Forall_true. intros l. apply Hd.
  - intros E%(f_equal length). unfold secs in E. rewrite length_fmap, length_seqZ in E. cbn in E. lia.
Qed.
(** ** Writing *)

Lemma runs_outsw a w : a_busy a = O → a_want a ≠ O → runs (outsw 0x1F0 w) a (ata_give a w) tt.
Proof.
  intros Hb Hw d <-. exists (outsw 0x1F0 w d).2. split; [|by apply ata_outsw]. by destruct (outsw 0x1F0 w d) as [[] ?].
Qed.

(** The rest of a sector. *)
Lemma runs_outw ws : ∀ a want,
  a_busy a = O → a_want a = S want → (length (a_buf a) + length ws = 256)%nat → ws ≠ [] →
  runs (outw_buffer (IDE_PRIMARY_BASE + IDE_REG_DATA) ws) a
    (set_out a (a_latency a) want (a_next a + 1) []
       (disk_set (a_disk a) (a_unit a) (a_next a) (a_buf a ++ ws))) tt.
Proof.
  change (IDE_PRIMARY_BASE + IDE_REG_DATA) with 0x1F0.
  induction ws as [|w ws IH]; intros a want Hb Hw Hl Hne; [done|]. cbn [outw_buffer].
  eapply drive_bind; [apply runs_outsw; [done|by rewrite Hw]|]. unfold ata_give. rewrite Hw.
  cbn [length] in Hl. destruct ws as [|w' ws].
  - cbn in Hl. rewrite decide_True by lia. apply drive_ret.
  - rewrite decide_False by (cbn in Hl; lia).
    pose proof (IH (set_out a 0 (S want) (a_next a) (a_buf a ++ [w]) (a_disk a)) want) as H.
    cbn [a_buf a_next a_disk a_latency a_busy a_want set_out] in H. rewrite <-app_assoc in H. apply H; try done.
    rewrite length_app. cbn [length] in *. lia.
Qed.

Fixpoint put_sectors (disk : Z → Z → list Z) (u l : Z) (secs : list (list Z)) : Z → Z → list Z :=
  match secs with
  | [] => disk
  | s :: secs => put_sectors (disk_set disk u l s) u (l + 1) secs
  end.

Lemma put_sectors_spec secs : ∀ disk u l u' l',
  put_sectors disk u l secs u' l' =
    if decide (u' = u ∧ l <= l' < l + Z.of_nat (length secs))
    then nthZ [] secs (l' - l) else disk u' l'.
Proof.
  induction secs as [|s secs IH]; intros disk u l u' l'; cbn [put_sectors length].
  { rewrite decide_False by lia. done. }
  rewrite IH. unfold disk_set. destruct (decide (u' = u ∧ l' = l)) as [[-> ->]|Hne].
  - rewrite decide_False, decide_True by lia. by rewrite Z.sub_diag.
  - destruct (decide (u' = u ∧ l <= l' < l + Z.of_nat (S (length secs)))) as [[-> H]|H].
    + rewrite decide_True by (split; [done|]; assert (l' ≠ l) by naive_solver; lia).
      assert (l' ≠ l) by naive_solver. unfold nthZ. rewrite !decide_True by lia.
      replace (Z.to_nat (l' - l)) with (S (Z.to_nat (l' - (l + 1)))) by lia. done.
    + by rewrite decide_False by lia.
Qed.

Lemma runs_write_loop secs : ∀ a,
  Forall (λ s, length s = 256%nat) secs → a_want a = length secs → a_buf a = [] →
  (a_busy a < ide_timeout)%nat → (a_latency a < ide_timeout)%nat →
  ∃ busy, (busy < ide_timeout)%nat ∧
  runs (write_sectors_loop (length secs) (concat secs)) a
    (set_out a busy 0 (a_next a + Z.of_nat (length secs)) []
      (put_sectors (a_disk a) (a_unit a) (a_next a) secs)) 0.
Proof.
  induction secs as [|s secs IH]; intros a HF Hw Hbuf Hb Hlat; cbn [length write_sectors_loop put_sectors concat].
  { exists (a_busy a). split; [done|]. destruct a. cbn in *. subst. rewrite Z.add_0_r. apply drive_ret. }
  inversion_clear HF as [|? ? Hs HF'].
  edestruct (IH (set_out a (a_latency a) (length secs) (a_next a + 1) []
    (disk_set (a_disk a) (a_unit a) (a_next a) s))) as (busy & Hbu & Hrun); [done..|].
  exists busy. split; [done|].
  eapply drive_bind; [apply runs_wait_drq; [done|right; by rewrite Hw]|]. cbn [Z.eqb negb].
  rewrite take_app_length', drop_app_length' by done.
  eapply drive_bind; [apply (runs_outw s _ (length secs)); cbn; rewrite ?Hbuf; try done; by destruct s|].
  eapply drive_bind; [apply runs_delay|]. cbn [a_buf set_busy]. rewrite Hbuf. cbn [app].
  cbn in Hrun |- *. rewrite <-Z.add_assoc in Hrun.
  replace (1 + Z.of_nat (length secs)) with (Z.of_nat (S (length secs))) in Hrun by lia. exact Hrun.
Qed.

Lemma runs_write a drive lba secs :
  idle a → Forall (λ s, length s = 256%nat) secs → (0 < length secs < 256)%nat →
  let cnt := Z.of_nat (length secs) in
  let a1 := addressed a drive lba cnt in
  runs (ide_write_sectors drive lba cnt (concat secs)) a
    (set_out a1 0 0 (lba mod 268435456 + cnt) []
      (put_sectors (a_disk a) (drive .& 0x10) (lba mod 268435456) secs)) 0.
Proof.
  intros [Hin Hw Hb Hl Hd] HF Hlen cnt a1. unfold ide_write_sectors.
  destruct (Z.eqb_spec cnt 0); [lia|].
  eapply drive_bind; [by apply runs_wait_ready|]. cbn [Z.eqb negb].
  eapply drive_bind; [apply runs_command; by right|].
  set (a0 := addressed (set_busy a 0) drive lba cnt).
  assert (ata_write 0x1F7 IDE_CMD_WRITE_SECTORS a0 =
    set_out a0 (a_latency a) (length secs) (lba mod 268435456) [] (a_disk a)) as ->.
  { unfold ata_write. cbn [Z.eqb Pos.eqb IDE_CMD_WRITE_SECTORS]. unfold a0. rewrite addressed_lba.
    cbn [a_cnt addressed set_regs]. unfold cnt. by rewrite Nat2Z.id. }
  unfold cnt. rewrite Nat2Z.id.
  destruct (runs_write_loop secs (set_out a0 (a_latency a) (length secs) (lba mod 268435456) [] (a_disk a)))
    as (busy & Hbu & Hrun); [done..|].
  eapply drive_bind; [exact Hrun|]. cbn [Z.eqb negb].
  eapply drive_bind; [by apply runs_wait_ready|]. cbn [Z.eqb negb].
  replace (put_sectors (a_disk a) (drive .& 0x10)) with
    (put_sectors (a_disk a) (a_unit a0)) by (unfold a0; by rewrite addressed_unit).
  apply drive_ret.
Qed.
End Ata.

(** ** Theorems *)

Section Theorems.
Context {D : Type} `{AD : AtaDevice D}.

(** On a drive that answers within the time-out, [ide_read_sectors]
    returns 0 and the words of the sectors [lba], [lba + 1], ... of the unit
    selected by [drive] (the registers hold 28 bits of [lba]), and leaves the
    drive idle and its contents unchanged. *)
Theorem ide_read_sectors_correct drive lba cnt (d : D) :
  idle (ata_of d) → 0 < cnt < 256 →
  ∃ d', ide_read_sectors drive lba cnt d =
    ((0, concat (a_disk (ata_of d) (drive .& 0x10) <$> seqZ (lba mod 268435456) cnt)), d') ∧
    idle (ata_of d') ∧ a_disk (ata_of d') = a_disk (ata_of d).
Proof.
  intros Hid Hcnt. destruct (runs_read _ drive lba cnt Hid Hcnt d eq_refl) as (d' & E & Hd').
  exists d'. split; [exact E|]. rewrite Hd'. destruct Hid as [Hin Hw Hb Hl Hd].
  split; [|done]. split; [done|exact Hw| |exact Hl|exact Hd]. cbn. unfold ide_timeout. lia.
Qed.

(** C22: Sectors written with [ide_write_sectors] are read back by
    [ide_read_sectors], word for word, and every other sector of the disk is
    as before. *)
Theorem ide_write_read drive lba secs (d : D) :
  idle (ata_of d) → Forall sector_words secs → (0 < length secs < 256)%nat →
  let cnt := Z.of_nat (length secs) in
  ∃ d1 d2, ide_write_sectors drive lba cnt (concat secs) d = (0, d1) ∧
    ide_read_sectors drive lba cnt d1 = ((0, concat secs), d2) ∧ idle (ata_of d2) ∧
    ∀ u l, (u ≠ drive .& 0x10 ∨ l < lba mod 268435456 ∨ lba mod 268435456 + cnt <= l) →
      a_disk (ata_of d2) u l = a_disk (ata_of d) u l.
Proof.
  intros Hid HF Hlen cnt.
  assert (Forall (λ s, length s = 256%nat) secs) as HF' by (eapply Forall_impl; [exact HF|]; by intros s []).
  destruct (runs_write _ drive lba secs Hid HF' Hlen d eq_refl) as (d1 & E1 & H1). exists d1.
  set (l0 := lba mod 268435456) in *.
  assert (∀ u l, a_disk (ata_of d1) u l =
    if decide (u = drive .& 0x10 ∧ l0 <= l < l0 + cnt) then nthZ [] secs (l - l0) else a_disk (ata_of d) u l) as Hdisk.
  { intros u l. rewrite H1. cbn [a_disk set_out]. apply put_sectors_spec. }
  destruct Hid as [Hin Hw Hb Hl Hd].
  assert (idle (ata_of d1)) as Hid1.
  { split; [by rewrite H1|by rewrite H1| | |].
    - rewrite H1. cbn. unfold ide_timeout. lia.
    - by rewrite H1.
    - intros u l. rewrite Hdisk. case_decide as Hc; [|done]. unfold nthZ. rewrite decide_True by lia.
      destruct (secs !! Z.to_nat (l - l0)) as [s|] eqn:Es; [exact (Forall_lookup_1 _ _ _ _ HF Es)|].
      apply lookup_ge_None in Es. lia. }
  destruct (runs_read _ drive lba cnt Hid1 ltac:(lia) d1 eq_refl) as (d2 & E2 & H2). fold l0 in E2.
  exists d2. split; [exact E1|]. rewrite E2. split_and!.
  - do 3 f_equal. apply list_eq. intros i. rewrite list_lookup_fmap.
    destruct (decide (i < length secs)%nat) as [Hi|Hi].
    + rewrite lookup_seqZ_lt by lia. cbn. rewrite Hdisk, decide_True by lia. unfold nthZ.
      rewrite decide_True by lia. replace (Z.to_nat (l0 + Z.of_nat i - l0)) with i by lia.
      destruct (lookup_lt_is_Some_2 secs i Hi) as [s ->]. done.
    + rewrite lookup_seqZ_ge by lia. symmetry. apply lookup_ge_None. lia.
  - rewrite H2. destruct Hid1 as [Hin1 Hw1 Hb1 Hl1 Hd1]. split; [done|exact Hw1| |exact Hl1|exact Hd1].
    cbn. unfold ide_timeout. lia.
  - intros u l Hul. rewrite H2. cbn [a_disk set_in addressed set_regs set_busy]. rewrite Hdisk.
    rewrite decide_False; [done|]. intros [? ?]. destruct Hul as [?|?]; [done|lia].
Qed.
End Theorems.

(** ** Any device *)

(** Whatever the device answers, [ide_read_sectors] returns, with 0
    exactly [256 * sector_count] words in the buffer and with -1 no more than
    that: it never writes past the buffer it was given. *)
Theorem ide_read_bounds {D} `{PIO : PortIO D} drive lba cnt (d : D) :
  0 <= cnt →
  let '(r, ws) := (ide_read_sectors drive lba cnt d).1 in
  Forall u16 ws ∧
  ((r = 0 ∧ 0 < cnt ∧ Z.of_nat (length ws) = 256 * cnt) ∨ (r = -1 ∧ Z.of_nat (length ws) <= 256 * cnt)).
Proof.
  intros Hcnt.
  assert (∀ n out d, Forall u16 out → let '(r, ws) := (read_sectors_loop n out d).1 in
    Forall u16 ws ∧ ((r = 0 ∧ (length ws = length out + 256 * n)%nat) ∨
      (r = -1 ∧ (length ws <= length out + 256 * n)%nat))) as Hloop.
  { clear. induction n as [|n IH]; intros out d HF; cbn [read_sectors_loop].
    { split; [done|]. left. split; [done|lia]. }
    unfold mbind, io_bind. destruct (ide_wait_drq d) as [r d1]. destruct (negb (r =? 0)).
    { split; [done|]. right. split; [done|]. lia. }
    pose proof (inw_buffer_length (IDE_PRIMARY_BASE + IDE_REG_DATA) 256 d1) as Hl.
    pose proof (inw_buffer_range (IDE_PRIMARY_BASE + IDE_REG_DATA) 256 d1) as HF1.
    destruct (inw_buffer _ 256 d1) as [ws d2]. cbn [fst] in *.
    specialize (IH (out ++ ws) d2 ltac:(by apply Forall_app)). rewrite length_app, Hl in IH.
    destruct (read_sectors_loop n (out ++ ws) d2) as [[r' ws'] d3]. cbn [fst] in *.
    destruct IH as [HF' [[-> Hl']|[-> Hl']]]; (split; [done|]); [left|right]; (split; [done|lia]). }
  unfold ide_read_sectors. destruct (Z.eqb_spec cnt 0) as [->|Hne].
  { split; [constructor|]. right. cbn. split; [done|lia]. }
  unfold mbind, io_bind. destruct (ide_wait_ready d) as [r d1]. destruct (negb (r =? 0)).
  { split; [constructor|]. right. cbn [length]. split; [done|lia]. }
  destruct (ide_command _ _ _ _ d1) as [[] d2].
  specialize (Hloop (Z.to_nat cnt) [] d2 ltac:(constructor)).
  destruct (read_sectors_loop _ [] d2) as [[r' ws] d3]. cbn [fst length] in *.
  destruct Hloop as [HF [[-> Hl]|[-> Hl]]]; (split; [done|]); [left|right]; split_and?; (done || lia).
Qed.

(** ** The file system on the disk *)

Section Mounted.
Context {D : Type} `{AD : AtaDevice D} (disk : Z → Z → list Z).

(** The device is idle and holds [disk]. *)
Definition holds (d : D) : Prop := idle (ata_of d) ∧ a_disk (ata_of d) = disk.

Lemma ide_read_sector_holds drive lba d :
  holds d → holds (ide_read_sector drive lba d).2 ∧
  (ide_read_sector drive lba d).1 = Some (word_bytes (disk (drive .& 0x10) (lba mod 268435456))).
Proof.
  intros [Hid <-]. destruct (runs_read _ drive lba 1 Hid ltac:(lia) d eq_refl) as (d' & E & Hd').
  unfold ide_read_sector, mbind, io_bind. rewrite E. rewrite seqZ_cons by lia.
  change (seqZ _ (Z.pred 1)) with (@nil Z). cbn [fmap list_fmap concat fst snd]. rewrite app_nil_r.
  unfold mret, io_ret. cbn [fst snd Z.eqb]. split; [|done]. destruct Hid as [Hin Hw Hb Hl Hd]. split; rewrite Hd'; [|done].
  split; [done|exact Hw| |exact Hl|exact Hd]. cbn. unfold ide_timeout. lia.
Qed.

(** The driver as the block device of the file system, on those devices. *)
#[program] Definition ata_block : BlockDevice {d | holds d} := {|
  read_sector drive lba d :=
    let r := ide_read_sector drive lba (`d) in
    (r.1, r.2 ↾ proj1 (ide_read_sector_holds drive lba (`d) (proj2_sig d)))
|}.
Next Obligation. intros drive lba d bs E. by apply (ide_read_sector_ok drive lba (`d)). Qed.

(** The image of the disk, as bytes. *)
Definition disk_image (drive lba : Z) : list Z := word_bytes (disk (drive .& 0x10) (lba mod 268435456)).

(** C23: The IDE driver on an ATA disk is the block device the theorems on the
    file system ask for: it reads the image of the disk without error, sector
    by sector, and every sector of the image is 512 bytes. *)
Theorem ide_implements_image drive :
  (∃ d : D, holds d) → reads_image (BD := ata_block) drive (disk_image drive) ∧ image_ok (disk_image drive).
Proof.
  intros [d0 [Hid Hdisk]]. split.
  - intros lba [d Hd] _. cbn. apply (ide_read_sector_holds drive lba d Hd).
  - intros lba. destruct Hid as [_ _ _ _ Hd]. rewrite Hdisk in Hd.
    destruct (Hd (drive .& 0x10) (lba mod 268435456)) as [Hl HF].
    unfold disk_image. destruct (word_bytes_ok _ HF) as [-> ?]. rewrite Hl. done.
Qed.
End Mounted.

(** ** A concrete drive *)

#[export] Instance data_ready_dec a : Decision (data_ready a).
Proof. unfold data_ready. apply _. Defined.

Definition ata_status (a : ata) : Z * ata :=
  match a_busy a with
  | S n => (0x80, set_busy a n)
  | O => (if decide (data_ready a) then 0x48 else 0x40, a)
  end.

#[export] Program Instance ata_io : PortIO ata := {|
  inb p a := if p =? 0x1F7 then ata_status a else (0, a);
  outb p v a := (tt, ata_write p v a);
  insw p a := match a_in a with [] => (0, a) | w :: ws => (w16 w, ata_take a ws) end;
  outsw p w a := (tt, ata_give a w)
|}.
Next Obligation.
  intros p a. unfold u8. cbn. destruct (p =? 0x1F7); [|cbn; lia]. unfold ata_status.
  destruct (a_busy a); cbn; [case_decide; lia|lia].
Qed.
Next Obligation. intros p a. unfold u16. cbn. destruct (a_in a); cbn; [lia|apply w16_range]. Qed.

#[export] Program Instance ata_ata : AtaDevice ata := {| ata_of a := a |}.
Next Obligation.
  intros a n Hb. cbn. unfold ata_status. rewrite Hb. eexists _, _. by split_and!.
Qed.
Next Obligation.
  intros a Hb. cbn. unfold ata_status. rewrite Hb.
  destruct (decide (data_ready a)); eexists _, _; split_and!; try reflexivity; by split.
Qed.
Next Obligation. done. Qed.
Next Obligation. done. Qed.
Next Obligation.
  intros a w ws Hb Hin Hw. cbn. rewrite Hin. eexists. by rewrite w16_small by exact Hw.
Qed.
Next Obligation. done. Qed.

(** Busy for three polls; sector [l] of unit 0 holds [l] in all its words. *)
Definition ata0 : ata := Ata 3 3 0 0 0 0 0 [] 0 0 [] (λ _ l, replicate 256 (l mod 65536)).

Lemma ata0_idle : idle (ata_of ata0).
Proof.
  split; [done|done|cbn; unfold ide_timeout; lia..|]. intros u l. split; [apply length_replicate|].
  apply Forall_replicate. unfold u16. apply Z.mod_pos_bound. lia.
Qed.

Lemma ide_read_sectors_correct_witness :
  (ide_read_sectors 0 1000 2 ata0).1 = (0, replicate 256 1000 ++ replicate 256 1001).
Proof.
  destruct (ide_read_sectors_correct 0 1000 2 ata0 ata0_idle ltac:(lia)) as (d' & E & _). rewrite E. reflexivity.
Defined.

Lemma ide_write_read_witness :
  ∃ d1 d2, ide_write_sectors 0 7 1 (replicate 256 5) ata0 = (0, d1) ∧
    ide_read_sectors 0 7 1 d1 = ((0, replicate 256 5), d2) ∧ a_disk (ata_of d2) 0 8 = replicate 256 8.
Proof.
  destruct (ide_write_read 0 7 [replicate 256 5] ata0 ata0_idle) as (d1 & d2 & E1 & E2 & _ & Hr).
  - constructor; [|constructor]. split; [done|]. apply Forall_replicate. split; lia.
  - cbn. lia.
  - exists d1, d2. split; [exact E1|]. split; [exact E2|].
    rewrite Hr by (right; right; vm_compute; discriminate). reflexivity.
Defined.

Lemma ide_read_bounds_witness :
  let '(r, ws) := (ide_read_sectors 0 1000 2 ata0).1 in
  Forall u16 ws ∧
  ((r = 0 ∧ 0 < 2 ∧ Z.of_nat (length ws) = 256 * 2) ∨ (r = -1 ∧ Z.of_nat (length ws) <= 256 * 2)).
Proof. apply (ide_read_bounds 0 1000 2 ata0). lia. Defined.

Lemma ide_implements_image_witness :
  reads_image (BD := ata_block (D := ata) (a_disk ata0)) 0 (disk_image (a_disk ata0) 0) ∧
  image_ok (disk_image (a_disk ata0) 0).
Proof. apply ide_implements_image. exists ata0. split; [exact ata0_idle|reflexivity]. Defined.

(** A drive that is ready at the last poll of [ide_init]'s wait: the loop ends
    by its [break] with [timeout] 0, which the test after it takes for a
    time-out. *)
Example ide_init_last_poll :
  let '(r, a) := ide_init (set_busy ata0 (Z.to_nat 100000)) in r = -1 ∧ a_busy a = O.
Proof. vm_compute. split; reflexivity. Qed.
Example ide_init_earlier_poll :
  let '(r, a) := ide_init (set_busy ata0 (Z.to_nat 99999)) in r = 0 ∧ a_busy a = O.
Proof. vm_compute. split; reflexivity. Qed.
