(* ===== verification/Gdt.v ===== *)
(** * Segments and the task state (kernel/gdt.c, kernel/gdt.h)

    The six descriptors, the task-state segment and the two registers that
    [gdt_flush] and [tss_flush] load.  The addresses of the static [gdt] and
    [tss] are parameters.  [decode] reads a descriptor the way the processor
    does; it is the specification. *)

From S2P Require Import Prelude.

Record gdt_entry := GdtEntry {
  limit_low : Z; base_low : Z; base_mid : Z; access : Z; granularity : Z; base_high : Z
}.
Record gdt_ptr := GdtPtr { gp_limit : Z; gp_base : Z }.

Record tss_entry := Tss {
  prev_tss : Z; esp0 : Z; ss0 : Z; esp1 : Z; ss1 : Z; esp2 : Z; ss2 : Z; tss_cr3 : Z;
  tss_eip : Z; tss_eflags : Z; tss_eax : Z; tss_ecx : Z; tss_edx : Z; tss_ebx : Z;
  tss_esp : Z; tss_ebp : Z; tss_esi : Z; tss_edi : Z;
  tss_es : Z; tss_cs : Z; tss_ss : Z; tss_ds : Z; tss_fs : Z; tss_gs : Z;
  ldt : Z; trap : Z; iomap_base : Z
}.
(** 25 double words and 2 words. *)
Definition sizeof_tss : Z := 104.
Definition sizeof_gdt_entry : Z := 8.

Definition GDT_KERNEL_CODE : Z := 0x08.
Definition GDT_KERNEL_DATA : Z := 0x10.
Definition GDT_USER_CODE : Z := 0x18.
Definition GDT_USER_DATA : Z := 0x20.
Definition GDT_TSS : Z := 0x28.
Definition GDT_ENTRIES : Z := 6.

(** The statics, and what the processor has loaded. *)
Record gdt_state := GdtState {
  gdt : list gdt_entry;
  gdtp : gdt_ptr;
  tss : tss_entry;
  gdtr : gdt_ptr;
  seg_cs : Z;    (* code segment *)
  seg_data : Z;  (* ds, es, fs, gs and ss *)
  task_reg : Z
}.

Definition entry0 : gdt_entry := GdtEntry 0 0 0 0 0 0.

Definition gdt_gate (base limit acc gran : Z) : gdt_entry := {|
  base_low := base .& 0xFFFF;
  base_mid := (base ≫ 16) .& 0xFF;
  base_high := (base ≫ 24) .& 0xFF;
  limit_low := limit .& 0xFFFF;
  granularity := ((limit ≫ 16) .& 0x0F) .| (gran .& 0xF0);
  access := acc
|}.
Definition gdt_set_gate (g : list gdt_entry) (idx base limit acc gran : Z) : list gdt_entry :=
  updZ g idx (gdt_gate base limit acc gran).

(** [p[i] = 0] over all bytes of the structure. *)
Definition tss_zero : tss_entry :=
  Tss 0 0 0 0 0 0 0 0 0 0 0 0 0 0 0 0 0 0 0 0 0 0 0 0 0 0 0.

Definition set_kernel_stack (t : tss_entry) (e s iomap : Z) : tss_entry :=
  Tss (prev_tss t) e s (esp1 t) (ss1 t) (esp2 t) (ss2 t) (tss_cr3 t)
    (tss_eip t) (tss_eflags t) (tss_eax t) (tss_ecx t) (tss_edx t) (tss_ebx t)
    (tss_esp t) (tss_ebp t) (tss_esi t) (tss_edi t)
    (tss_es t) (tss_cs t) (tss_ss t) (tss_ds t) (tss_fs t) (tss_gs t) (ldt t) (trap t) iomap.

(** [lgdt] and the reload of the segment registers; [ltr]. *)
Definition gdt_flush (st : gdt_state) : gdt_state :=
  GdtState (gdt st) (gdtp st) (tss st) (gdtp st) 0x08 0x10 (task_reg st).
Definition tss_flush (st : gdt_state) : gdt_state :=
  GdtState (gdt st) (gdtp st) (tss st) (gdtr st) (seg_cs st) (seg_data st) 0x28.

Section Gdt.
Context (gdt_addr tss_addr : Z).

Definition gdt_init (st : gdt_state) : gdt_state :=
  let t := set_kernel_stack tss_zero 0x1F0000 GDT_KERNEL_DATA sizeof_tss in
  let g := gdt_set_gate (gdt st) 0 0 0 0 0 in
  let g := gdt_set_gate g 1 0 0xFFFFF 0x9A 0xCF in
  let g := gdt_set_gate g 2 0 0xFFFFF 0x92 0xCF in
  let g := gdt_set_gate g 3 0 0xFFFFF 0xFA 0xCF in
  let g := gdt_set_gate g 4 0 0xFFFFF 0xF2 0xCF in
  let tss_limit := sizeof_tss - 1 in
  let g := gdt_set_gate g 5 tss_addr tss_limit 0x89 0x00 in
  let p := GdtPtr (GDT_ENTRIES * sizeof_gdt_entry - 1) gdt_addr in
  tss_flush (gdt_flush (GdtState g p t (gdtr st) (seg_cs st) (seg_data st) (task_reg st))).
End Gdt.

Definition tss_set_kernel_stack (st : gdt_state) (e : Z) : gdt_state :=
  GdtState (gdt st) (gdtp st) (set_kernel_stack (tss st) e (ss0 (tss st)) (iomap_base (tss st)))
    (gdtr st) (seg_cs st) (seg_data st) (task_reg st).

(** ** What the processor reads *)

Inductive seg_kind := SegNull | SegCode | SegData | SegTss.
#[export] Instance seg_kind_eq_dec : EqDecision seg_kind.
Proof. solve_decision. Defined.

(** Kind, privilege level, base, last byte. *)
Record segment := Segment { s_kind : seg_kind; s_dpl : Z; s_base : Z; s_last : Z }.

Definition raw_base (e : gdt_entry) : Z := base_low e + base_mid e * 65536 + base_high e * 16777216.
Definition raw_limit (e : gdt_entry) : Z := limit_low e + (granularity e .& 0x0F) * 65536.

(** [None] for a descriptor that is not present or of another type. *)
Definition decode (e : gdt_entry) : option segment :=
  let limit := raw_limit e in
  let last := if Z.testbit (granularity e) 7 then limit * 4096 + 4095 else limit in
  let dpl := (access e ≫ 5) .& 3 in
  if negb (Z.testbit (access e) 7) then None
  else if Z.testbit (access e) 4
  then Some (Segment (if Z.testbit (access e) 3 then SegCode else SegData) dpl (raw_base e) last)
  else if (access e .& 0x0F) =? 9 then Some (Segment SegTss dpl (raw_base e) last) else None.

(** The descriptor a selector names. *)
Definition select (st : gdt_state) (selector : Z) : option segment :=
  decode (nthZ entry0 (gdt st) (selector ≫ 3)).

(** ** Theorems *)

(** [gdt_set_gate] loses nothing: the descriptor it stores gives back the
    base, the 20 bits of the limit, the access byte and the four flags. *)
Theorem gdt_gate_roundtrip g idx base limit acc gran :
  0 <= idx < Z.of_nat (length g) → u32 base → 0 <= limit < 1048576 → 0 <= gran →
  let e := nthZ entry0 (gdt_set_gate g idx base limit acc gran) idx in
  raw_base e = base ∧ raw_limit e = limit ∧ access e = acc ∧
  granularity e .& 0xF0 = gran .& 0xF0 ∧
  ∀ j, j ≠ idx → nthZ entry0 (gdt_set_gate g idx base limit acc gran) j = nthZ entry0 g j.
Proof.
  intros Hi Hb Hl Hg. unfold gdt_set_gate, u32 in *. rewrite nthZ_updZ_eq by done. cbn zeta.
  unfold raw_base, raw_limit, gdt_gate. cbn.
  change 0xFFFF with (2 ^ 16 - 1). change 0xFF with (2 ^ 8 - 1). rewrite !land_low_mask by lia.
  rewrite !Z.shiftr_div_pow2 by lia. change (2 ^ 16) with 65536. change (2 ^ 24) with 16777216.
  change (2 ^ 8) with 256. rewrite !Z.land_lor_distr_l, <-!Z.land_assoc.
  change (Z.land 240 15) with 0. change (Z.land 15 240) with 0. change (Z.land 15 15) with 15.
  change (Z.land 240 240) with 240. rewrite !Z.land_0_r, Z.lor_0_r, Z.lor_0_l.
  change 15 with (2 ^ 4 - 1). rewrite land_low_mask by lia. change (2 ^ 4) with 16.
  split_and!; [zdm|zdm|done|done|]. intros j Hj. by apply nthZ_updZ_ne.
Qed.

Lemma gdt_gate_roundtrip_witness :
  let e := nthZ entry0 (gdt_set_gate (replicate 6 entry0) 5 0x123456 103 0x89 0) 5 in
  raw_base e = 0x123456 ∧ raw_limit e = 103 ∧ access e = 0x89.
Proof.
  destruct (gdt_gate_roundtrip (replicate 6 entry0) 5 0x123456 103 0x89 0) as (? & ? & ? & _);
    [cbn; lia|split; lia|lia|lia|]. split_and!; assumption.
Defined.

(** After [gdt_init] the selectors of the kernel name flat 4 GB code and
    data segments of ring 0, those of user programs the same of ring 3, the
    task register names the TSS, whose kernel stack is [0x10:0x1F0000] and
    which has no I/O permission map (so that ring 3 has no ports). *)
Theorem gdt_init_correct gdt_addr tss_addr st :
  length (gdt st) = 6%nat → u32 tss_addr →
  let st' := gdt_init gdt_addr tss_addr st in
  select st' GDT_KERNEL_CODE = Some (Segment SegCode 0 0 4294967295) ∧
  select st' GDT_KERNEL_DATA = Some (Segment SegData 0 0 4294967295) ∧
  select st' GDT_USER_CODE = Some (Segment SegCode 3 0 4294967295) ∧
  select st' GDT_USER_DATA = Some (Segment SegData 3 0 4294967295) ∧
  select st' (task_reg st') = Some (Segment SegTss 0 tss_addr 103) ∧
  select st' 0 = None ∧
  gdtr st' = GdtPtr 47 gdt_addr ∧ seg_cs st' = GDT_KERNEL_CODE ∧ seg_data st' = GDT_KERNEL_DATA ∧
  esp0 (tss st') = 0x1F0000 ∧ ss0 (tss st') = GDT_KERNEL_DATA ∧ 103 < iomap_base (tss st').
Proof.
  intros Hl Ht st'.
  assert (gdt st' = [gdt_gate 0 0 0 0; gdt_gate 0 0xFFFFF 0x9A 0xCF; gdt_gate 0 0xFFFFF 0x92 0xCF;
    gdt_gate 0 0xFFFFF 0xFA 0xCF; gdt_gate 0 0xFFFFF 0xF2 0xCF; gdt_gate tss_addr 103 0x89 0]) as Hg.
  { unfold st', gdt_init, tss_flush, gdt_flush. cbn [gdt].
    destruct (gdt st) as [|? [|? [|? [|? [|? [|? [|]]]]]]]; done. }
  unfold select. rewrite Hg. split_and!; try reflexivity.
  change (task_reg st') with 0x28.
  change (nthZ entry0 _ (0x28 ≫ 3)) with (gdt_gate tss_addr 103 0x89 0). unfold decode.
  assert (raw_base (gdt_gate tss_addr 103 0x89 0) = tss_addr) as ->; [|reflexivity].
  unfold raw_base, gdt_gate, u32 in *. cbn. change 0xFFFF with (2 ^ 16 - 1). change 0xFF with (2 ^ 8 - 1).
  rewrite !land_low_mask, !Z.shiftr_div_pow2 by lia. change (2 ^ 16) with 65536. change (2 ^ 24) with 16777216.
  change (2 ^ 8) with 256. zdm.
Qed.

Definition gdt_state0 : gdt_state :=
  GdtState (replicate 6 entry0) (GdtPtr 0 0) tss_zero (GdtPtr 0 0) 0 0 0.

Lemma gdt_init_correct_witness :
  select (gdt_init 0x5000 0x6000 gdt_state0) GDT_USER_CODE = Some (Segment SegCode 3 0 4294967295).
Proof.
  destruct (gdt_init_correct 0x5000 0x6000 gdt_state0) as (_ & _ & H & _); [reflexivity|split; lia|exact H].
Defined.
