(* ===== verification/Idt.v ===== *)
(** * Interrupts (kernel/idt.c, kernel/idt.h)

    The descriptor table, the programming of the interrupt controllers and
    the timer, the C dispatcher and the tick counter.  The addresses of the
    table and of the assembler stubs are parameters.  [schedule] and
    [syscall_handler], which the dispatcher calls, are parameters of its
    section: what they do to the state is their own business, what the
    dispatcher does around them is here.

    [exec_log] reads a log of port writes the way two 8259 controllers and a
    timer channel do; it is the specification of the programming. *)

From Stdlib Require Import String.
From S2P Require Import Prelude Io Vga Keyboard.

Record idt_entry := IdtEntry {
  offset_low : Z; selector : Z; zero : Z; type_attr : Z; offset_high : Z
}.
Record idt_ptr := IdtPtr { ip_limit : Z; ip_base : Z }.

Definition IDT_ENTRIES : Z := 256.
Definition IDT_GATE_INT32 : Z := 0x8E.
Definition IDT_GATE_INT32_USER : Z := 0xEE.
Definition sizeof_idt_entry : Z := 8.

Record isr_regs := IsrRegs {
  i_ds : Z;
  i_edi : Z; i_esi : Z; i_ebp : Z; i_esp : Z; i_ebx : Z; i_edx : Z; i_ecx : Z; i_eax : Z;
  int_no : Z; err_code : Z;
  i_eip : Z; i_cs : Z; i_eflags : Z;
  i_useresp : Z; i_ss : Z
}.
Definition set_eax (r : isr_regs) (v : Z) : isr_regs :=
  IsrRegs (i_ds r) (i_edi r) (i_esi r) (i_ebp r) (i_esp r) (i_ebx r) (i_edx r) (i_ecx r) v
    (int_no r) (err_code r) (i_eip r) (i_cs r) (i_eflags r) (i_useresp r) (i_ss r).

(** ** The table *)

Definition idt_gate (handler sel attr : Z) : idt_entry := {|
  offset_low := handler .& 0xFFFF;
  offset_high := (handler ≫ 16) .& 0xFFFF;
  selector := sel;
  zero := 0;
  type_attr := attr
|}.
Definition idt_set_gate (t : list idt_entry) (num handler sel attr : Z) : list idt_entry :=
  updZ t num (idt_gate handler sel attr).

(** The table, the pointer, what [lidt] loaded, and the interrupt flag. *)
Record idt_state := IdtState { idt : list idt_entry; idtp : idt_ptr; idtr : idt_ptr; if_flag : bool }.

Section Init.
Context {D : Type} `{PIO : PortIO D}.
Context (idt_addr : Z) (isr : Z → Z).

Definition pic_remap : io D unit :=
  mask1 ← inb 0x21;
  mask2 ← inb 0xA1;
  outb 0x20 0x11;; io_wait;;
  outb 0xA0 0x11;; io_wait;;
  outb 0x21 0x20;; io_wait;;
  outb 0xA1 0x28;; io_wait;;
  outb 0x21 0x04;; io_wait;;
  outb 0xA1 0x02;; io_wait;;
  outb 0x21 0x01;; io_wait;;
  outb 0xA1 0x01;; io_wait;;
  outb 0x21 mask1;;
  outb 0xA1 mask2.

Definition pit_init : io D unit :=
  let divisor := 11932 in
  outb 0x43 0x36;;
  outb 0x40 (divisor .& 0xFF);;
  outb 0x40 ((divisor ≫ 8) .& 0xFF).

Definition idt_init (st : idt_state) : io D idt_state :=
  let t := fold_left (λ t i, idt_set_gate t i (isr i) 0x08 IDT_GATE_INT32) (seqZ 0 48) (idt st) in
  let t := idt_set_gate t 128 (isr 128) 0x08 IDT_GATE_INT32_USER in
  let p := IdtPtr (IDT_ENTRIES * sizeof_idt_entry - 1) idt_addr in
  pic_remap;;
  pit_init;;
  outb 0x21 0xFC;;
  outb 0xA1 0xFF;;
  mret (IdtState t p p true).
End Init.

(** ** The dispatcher *)

Definition exception_names : list string := [
  "Division by Zero"; "Debug"; "Non-Maskable Interrupt"; "Breakpoint"; "Overflow";
  "Bound Range Exceeded"; "Invalid Opcode"; "Device Not Available"; "Double Fault";
  "Coprocessor Segment Overrun"; "Invalid TSS"; "Segment Not Present"; "Stack-Segment Fault";
  "General Protection Fault"; "Page Fault"; "Reserved"; "x87 FPU Error"; "Alignment Check";
  "Machine Check"; "SIMD FPU Exception"; "Virtualization Exception"; "Control Protection";
  "Reserved"; "Reserved"; "Reserved"; "Reserved"; "Reserved"; "Reserved"; "Reserved";
  "Reserved"; "Reserved"; "Reserved"]%string.

(** The globals the dispatcher touches, and the rest of the kernel. *)
Record kernel (K : Type) := Kernel { k_vga : vga; k_kbd : kbd; pit_ticks : Z; k_rest : K }.
Arguments Kernel {K} _ _ _ _.
Arguments k_vga {K} _.
Arguments k_kbd {K} _.
Arguments pit_ticks {K} _.
Arguments k_rest {K} _.

Definition on_vga {D K} (f : vga → io D vga) (st : kernel K) : io D (kernel K) :=
  v ← f (k_vga st); mret (Kernel v (k_kbd st) (pit_ticks st) (k_rest st)).

Section Handler.
Context {D : Type} `{PIO : PortIO D} {K : Type}.
Context (schedule : kernel K → io D (kernel K)).
Context (syscall_handler : Z → Z → Z → Z → kernel K → io D (Z * kernel K)).

Definition page_fault_report (cr2 : Z) (r : isr_regs) (v : vga) : io D vga :=
  let v := vga_set_color v VGA_COLOR_LIGHT_RED VGA_COLOR_BLACK in
  v ← vga_puts v ([10] ++ line "*** PAGE FAULT ***");
  let v := vga_set_color v VGA_COLOR_WHITE VGA_COLOR_BLACK in
  v ← vga_puts v (chars "Address: ");
  v ← vga_puthex v cr2;
  v ← vga_puts v ([10] ++ chars "EIP: ");
  v ← vga_puthex v (i_eip r);
  v ← vga_puts v ([10] ++ chars "  ");
  v ← vga_puts v (chars (if c_true (err_code r .& 0x1) then "Page-protection" else "Non-present page"));
  v ← vga_puts v (chars ", ");
  v ← vga_puts v (chars (if c_true (err_code r .& 0x2) then "Write" else "Read"));
  v ← vga_puts v (chars ", ");
  v ← vga_puts v (chars (if c_true (err_code r .& 0x4) then "User-mode" else "Kernel-mode"));
  v ← vga_puts v [10];
  let v := vga_set_color v VGA_COLOR_LIGHT_RED VGA_COLOR_BLACK in
  vga_puts v (line "System halted.").

Definition exception_report (r : isr_regs) (v : vga) : io D vga :=
  let v := vga_set_color v VGA_COLOR_LIGHT_RED VGA_COLOR_BLACK in
  v ← vga_puts v ([10] ++ chars "*** EXCEPTION: ");
  v ← vga_puts v (chars (nthZ EmptyString exception_names (int_no r)));
  v ← vga_puts v (line " ***");
  let v := vga_set_color v VGA_COLOR_WHITE VGA_COLOR_BLACK in
  v ← vga_puts v (chars "EIP: ");
  v ← vga_puthex v (i_eip r);
  v ← vga_puts v (chars "  Error code: ");
  v ← vga_puthex v (err_code r);
  v ← vga_puts v [10];
  let v := vga_set_color v VGA_COLOR_LIGHT_RED VGA_COLOR_BLACK in
  vga_puts v (line "System halted.").

(** [None] when the processor was halted with interrupts off, and otherwise
    the registers to return with; [cr2] is the register of that name. *)
Definition isr_handler (cr2 : Z) (r : isr_regs) (st : kernel K) : io D (option isr_regs * kernel K) :=
  if int_no r <? 32 then
    if int_no r =? 14 then
      st ← on_vga (page_fault_report cr2 r) st; mret (None, st)
    else
      st ← on_vga (exception_report r) st; mret (None, st)
  else if int_no r =? 128 then
    '(v, st) ← syscall_handler (i_eax r) (i_ebx r) (i_ecx r) (i_edx r) st;
    mret (Some (set_eax r v), st)
  else
    let eoi (st : kernel K) : io D (option isr_regs * kernel K) :=
      (if 40 <=? int_no r then outb 0xA0 0x20 else mret tt);;
      (if 32 <=? int_no r then outb 0x20 0x20 else mret tt);;
      mret (Some r, st) in
    if int_no r =? 32 then
      let st := Kernel (k_vga st) (k_kbd st) (pit_ticks st ⊕ 1) (k_rest st) in
      if pit_ticks st mod 10 =? 0 then
        outb 0x20 0x20;;
        st ← schedule st;
        mret (Some r, st)
      else eoi st
    else if int_no r =? 33 then
      k ← keyboard_irq_handler (k_kbd st);
      eoi (Kernel (k_vga st) k (pit_ticks st) (k_rest st))
    else eoi st.
End Handler.

(** ** Time *)

Definition get_uptime_ms (ticks : Z) : Z := ticks ⊗ 10.

(** [sleep_ms]: each [hlt] ends at an interrupt, at which the counter has the
    next value of [wakes]; the counter at the end, [None] when the list is
    over before the loop. *)
Fixpoint sleep_loop (wakes : list Z) (ticks target : Z) : option Z :=
  if ticks <? target then
    match wakes with
    | [] => None
    | t :: wakes => sleep_loop wakes t target
    end
  else Some ticks.
Definition sleep_target (ticks ms : Z) : Z :=
  let ticks_to_wait := ms / 10 in
  let ticks_to_wait := if ticks_to_wait =? 0 then 1 else ticks_to_wait in
  ticks ⊕ ticks_to_wait.
Definition sleep_ms (wakes : list Z) (ticks ms : Z) : option Z :=
  sleep_loop wakes ticks (sleep_target ticks ms).
