(* ===== verification/IdtProps.v ===== *)
(** * Interrupts: theorems

    What the gates of the table send the processor to, how the controllers
    and the timer are left, that every hardware interrupt is acknowledged
    exactly once, and how long [sleep_ms] sleeps. *)

From S2P Require Import Prelude Io Vga VgaProps Keyboard Idt.

(** ** What the processor reads *)

(** Handler, selector and the privilege a program needs to call the gate;
    [None] for a gate that is not a present 32-bit interrupt gate. *)
Definition gate (e : idt_entry) : option (Z * Z * Z) :=
  if negb (Z.testbit (type_attr e) 7) then None
  else if negb ((type_attr e .& 0x1F) =? 0x0E) then None
  else Some (offset_low e + offset_high e * 65536, selector e, (type_attr e ≫ 5) .& 3).

Definition idt_entry0 : idt_entry := IdtEntry 0 0 0 0 0.

Lemma gate_of handler sel attr :
  u32 handler → (attr = IDT_GATE_INT32 ∨ attr = IDT_GATE_INT32_USER) →
  gate (idt_gate handler sel attr) = Some (handler, sel, if decide (attr = IDT_GATE_INT32) then 0 else 3).
Proof.
  intros Hh Ha. assert (handler .& 0xFFFF + ((handler ≫ 16) .& 0xFFFF) * 65536 = handler) as E.
  { change 0xFFFF with (2 ^ 16 - 1). rewrite !land_low_mask, !Z.shiftr_div_pow2 by lia.
    change (2 ^ 16) with 65536. unfold u32 in Hh. zdm. }
  unfold gate, idt_gate. cbn [type_attr offset_low offset_high selector]. rewrite E.
  by destruct Ha as [->| ->].
Qed.

(** ** The controllers and the timer *)

(** An 8259: the next initialisation word it waits for (0 for none), the
    vector of its first interrupt, the wiring of the cascade, the mask. *)
Record pic := Pic { icw : Z; vector : Z; cascade : Z; imask : Z }.
Definition pic_cmd (p : pic) (v : Z) : pic :=
  if Z.testbit v 4 then Pic 2 (vector p) (cascade p) 0 else p.
Definition pic_data (p : pic) (v : Z) : pic :=
  if icw p =? 2 then Pic 3 v (cascade p) (imask p)
  else if icw p =? 3 then Pic 4 (vector p) v (imask p)
  else if icw p =? 4 then Pic 0 (vector p) (cascade p) (imask p)
  else Pic 0 (vector p) (cascade p) v.

(** Channel 0 of the timer in the mode that takes the low byte first. *)
Record pit := Pit { pit_mode : Z; pit_low : option Z; reload : Z }.
Definition pit_cmd (p : pit) (v : Z) : pit := Pit v None (reload p).
Definition pit_data (p : pit) (v : Z) : pit :=
  match pit_low p with
  | None => Pit (pit_mode p) (Some v) (reload p)
  | Some lo => Pit (pit_mode p) None (lo + 256 * v)
  end.

Record board := Board { pic1 : pic; pic2 : pic; timer : pit }.
Definition board_write (b : board) (w : Z * Z) : board :=
  let '(p, v) := w in
  if p =? 0x20 then Board (pic_cmd (pic1 b) v) (pic2 b) (timer b)
  else if p =? 0x21 then Board (pic_data (pic1 b) v) (pic2 b) (timer b)
  else if p =? 0xA0 then Board (pic1 b) (pic_cmd (pic2 b) v) (timer b)
  else if p =? 0xA1 then Board (pic1 b) (pic_data (pic2 b) v) (timer b)
  else if p =? 0x43 then Board (pic1 b) (pic2 b) (pit_cmd (timer b) v)
  else if p =? 0x40 then Board (pic1 b) (pic2 b) (pit_data (timer b) v)
  else b.
Definition exec_log (b : board) (log : list (Z * Z)) : board := fold_left board_write log b.

Lemma idt_gates (isr : Z → Z) t n : length t = 256%nat → (∀ i, u32 (isr i)) → (n <= 256)%nat →
  let t' := fold_left (λ t i, idt_set_gate t i (isr i) 0x08 IDT_GATE_INT32) (seqZ 0 (Z.of_nat n)) t in
  length t' = 256%nat ∧
  ∀ i, nthZ idt_entry0 t' i =
    if decide (0 <= i < Z.of_nat n) then idt_gate (isr i) 0x08 IDT_GATE_INT32 else nthZ idt_entry0 t i.
Proof.
  intros Hl Hi. induction n as [|n IH]; intros Hn; cbn zeta.
  { split; [done|]. intros i. by rewrite decide_False by lia. }
  destruct (IH ltac:(lia)) as [IHl IHg].
  replace (Z.of_nat (S n)) with (Z.of_nat n + 1) by lia. rewrite seqZ_app, fold_left_app by lia.
  change (seqZ (0 + Z.of_nat n) 1) with [Z.of_nat n]. cbn [fold_left]. unfold idt_set_gate at 1 3.
  set (t' := fold_left _ _ t) in *. split; [by rewrite length_updZ|]. intros i.
  destruct (decide (i = Z.of_nat n)) as [->|Hne].
  - rewrite nthZ_updZ_eq, decide_True by lia. done.
  - rewrite nthZ_updZ_ne, IHg by done. destruct (decide (0 <= i < Z.of_nat n)).
    + by rewrite decide_True by lia.
    + by rewrite decide_False by lia.
Qed.

(** The table [idt_init] leaves. *)
Definition idt_table (isr : Z → Z) (t : list idt_entry) : list idt_entry :=
  idt_set_gate (fold_left (λ t i, idt_set_gate t i (isr i) 0x08 IDT_GATE_INT32) (seqZ 0 48) t)
    128 (isr 128) 0x08 IDT_GATE_INT32_USER.

Lemma idt_table_gates isr t : length t = 256%nat → (∀ i, u32 (isr i)) →
  (∀ i, 0 <= i < 48 → gate (nthZ idt_entry0 (idt_table isr t) i) = Some (isr i, 0x08, 0)) ∧
  gate (nthZ idt_entry0 (idt_table isr t) 128) = Some (isr 128, 0x08, 3) ∧
  (∀ i, 48 <= i → i ≠ 128 → nthZ idt_entry0 (idt_table isr t) i = nthZ idt_entry0 t i).
Proof.
  intros Hl Hi. pose proof (idt_gates isr t 48 Hl Hi ltac:(lia)) as [Hl48 Hg48]. unfold idt_table.
  change (Z.of_nat 48) with 48 in *. set (t48 := fold_left _ _ t) in *. unfold idt_set_gate. split_and!.
  - intros i Hr. rewrite nthZ_updZ_ne, Hg48, decide_True by lia. by rewrite gate_of by auto.
  - rewrite nthZ_updZ_eq by lia. by rewrite gate_of by auto.
  - intros i Hr Hne. rewrite nthZ_updZ_ne, Hg48, decide_False by lia. done.
Qed.

Lemma returns_idt_init {D} `{PortIO D} idt_addr isr st :
  returns (D := D) (idt_init idt_addr isr st)
    (IdtState (idt_table isr (idt st)) (IdtPtr 2047 idt_addr) (IdtPtr 2047 idt_addr) true).
Proof.
  intros d. unfold idt_init, mbind, io_bind. destruct (pic_remap d) as [? d1]. destruct (pit_init d1) as [? d2].
  destruct (outb 0x21 0xFC d2) as [? d3]. destruct (outb 0xA1 0xFF d3) as [? d4]. reflexivity.
Qed.

(** How the setup leaves the board. *)
Lemma writes_idt_setup {A} (x : A) b :
  writes (pic_remap;; pit_init;; outb 0x21 0xFC;; outb 0xA1 0xFF;; mret x) (λ y log, y = x ∧
    exec_log b log = Board (Pic 0 32 4 0xFC) (Pic 0 40 2 0xFF) (Pit 0x36 None 11932)).
Proof.
  eapply writes_bind with (P := λ _ log, ∃ m1 m2, log = [(0x20, 0x11); (0x80, 0); (0xA0, 0x11); (0x80, 0);
    (0x21, 0x20); (0x80, 0); (0xA1, 0x28); (0x80, 0); (0x21, 0x04); (0x80, 0); (0xA1, 0x02); (0x80, 0);
    (0x21, 0x01); (0x80, 0); (0xA1, 0x01); (0x80, 0); (0x21, m1); (0xA1, m2)]).
  - unfold pic_remap, io_wait. apply writes_inb. intros m1 _. apply writes_inb. intros m2 _.
    do 17 apply writes_outb. intros d. eexists _, _, [_]. split; [reflexivity|]. eexists _, _. reflexivity.
  - intros _ l (m1 & m2 & ->).
    eapply writes_bind with (P := λ _ log, log = [(0x43, 0x36); (0x40, 156); (0x40, 46)]).
    + do 2 apply writes_outb. intros d. eexists _, _, [_]. split; reflexivity.
    + intros _ l ->. do 2 apply writes_outb. apply writes_ret. split; [done|].
      destruct b as [[] [] []]. reflexivity.
Qed.

(** C26: [idt_init] sends interrupts 0 to 47 to their stubs in ring 0 only,
    interrupt 128 to its stub from ring 3 as well, and leaves every other gate
    as it was; the controllers deliver IRQ 0-7 as interrupts 32-39 and IRQ
    8-15 as 40-47, with only the timer and the keyboard unmasked; the timer
    divides its clock by 11932; interrupts are on. *)
Theorem idt_init_correct idt_addr isr st d b :
  length (idt st) = 256%nat → (∀ i, u32 (isr i)) →
  let '(st', d') := idt_init (D := script) idt_addr isr st d in
  (∀ i, 0 <= i < 48 → gate (nthZ idt_entry0 (idt st') i) = Some (isr i, 0x08, 0)) ∧
  gate (nthZ idt_entry0 (idt st') 128) = Some (isr 128, 0x08, 3) ∧
  (∀ i, 48 <= i → i ≠ 128 → nthZ idt_entry0 (idt st') i = nthZ idt_entry0 (idt st) i) ∧
  idtr st' = IdtPtr 2047 idt_addr ∧ if_flag st' = true ∧
  ∃ log, sc_log d' = sc_log d ++ log ∧
    exec_log b log = Board (Pic 0 32 4 0xFC) (Pic 0 40 2 0xFF) (Pit 0x36 None 11932).
Proof.
  intros Hl Hi. destruct (idt_table_gates isr (idt st) Hl Hi) as (Hg & Hg128 & Hrest).
  destruct (writes_idt_setup (IdtState (idt_table isr (idt st)) (IdtPtr 2047 idt_addr) (IdtPtr 2047 idt_addr) true)
    b d) as (st' & inp & log & Ed & -> & Hb).
  unfold idt_init. change (IdtPtr (IDT_ENTRIES * sizeof_idt_entry - 1) idt_addr) with (IdtPtr 2047 idt_addr).
  fold (idt_table isr (idt st)). rewrite Ed. cbn [idt idtr if_flag]. split_and!; try done. by exists log.
Qed.

Definition idt_state0 : idt_state := IdtState (replicate 256 idt_entry0) (IdtPtr 0 0) (IdtPtr 0 0) false.

Lemma idt_init_correct_witness :
  let '(st', d') := idt_init (D := script) 0x8000 (λ i, 0x2000 + i mod 256) idt_state0 (Script [] []) in
  gate (nthZ idt_entry0 (idt st') 128) = Some (0x2080, 0x08, 3) ∧
  gate (nthZ idt_entry0 (idt st') 33) = Some (0x2021, 0x08, 0) ∧ gate (nthZ idt_entry0 (idt st') 200) = None.
Proof.
  pose proof (idt_init_correct 0x8000 (λ i, 0x2000 + i mod 256) idt_state0 (Script [] [])
    (Board (Pic 0 0 0 0) (Pic 0 0 0 0) (Pit 0 None 0)) (length_replicate _ _)
    ltac:(intros i; pose proof (Z.mod_pos_bound i 256); split; lia)) as H.
  destruct (idt_init _ _ _ _) as [st' d']. destruct H as (H48 & H128 & Hrest & _).
  split; [exact H128|]. split; [apply (H48 33); lia|]. rewrite Hrest by lia. reflexivity.
Defined.

(** ** The dispatcher *)

Definition tick {K} (st : kernel K) : kernel K :=
  Kernel (k_vga st) (k_kbd st) (pit_ticks st ⊕ 1) (k_rest st).

(** The end-of-interrupt commands an interrupt must get. *)
Definition eois (n : Z) : list (Z * Z) := (if 40 <=? n then [(0xA0, 0x20)] else []) ++ [(0x20, 0x20)].

(** C24: Every hardware interrupt is acknowledged exactly once, at both
    controllers when it came through the second, and returns with the
    registers it interrupted; the timer counts, and at every tenth tick the
    acknowledgement is sent before [schedule] runs; the keyboard interrupt
    stores its scancode; nothing else of the kernel changes. *)
Theorem isr_acknowledges {K} schedule syscall_handler cr2 r (st : kernel K) (d : script) :
  32 <= int_no r < 48 →
  (int_no r = 32 → (pit_ticks st ⊕ 1) mod 10 = 0 →
    isr_handler schedule syscall_handler cr2 r st d =
    let '(st', d') := schedule (tick st) (Script (sc_in d) (sc_log d ++ [(0x20, 0x20)])) in ((Some r, st'), d')) ∧
  ((int_no r = 32 → (pit_ticks st ⊕ 1) mod 10 ≠ 0) →
    ∃ st' d', isr_handler schedule syscall_handler cr2 r st d = ((Some r, st'), d') ∧
      sc_log d' = sc_log d ++ eois (int_no r) ∧
      pit_ticks st' = (if int_no r =? 32 then pit_ticks st ⊕ 1 else pit_ticks st) ∧
      k_kbd st' = (if int_no r =? 33 then kb_handle (k_kbd st) (inb KB_DATA_PORT d).1 else k_kbd st) ∧
      k_vga st' = k_vga st ∧ k_rest st' = k_rest st).
Proof.
  intros Hn. unfold isr_handler. destruct (Z.ltb_spec (int_no r) 32); [lia|].
  destruct (Z.eqb_spec (int_no r) 128); [lia|]. destruct (Z.leb_spec 32 (int_no r)); [|lia]. unfold eois.
  split.
  - intros -> Ht. cbn [Z.eqb Pos.eqb]. cbn [pit_ticks]. rewrite Ht. cbn [Z.eqb].
    unfold mbind, io_bind. cbn [outb script_io sc_write]. change (w8 0x20) with 0x20.
    fold (tick st). by destruct (schedule (tick st) _) as [st' d'].
  - intros Ht. destruct (Z.eqb_spec (int_no r) 32) as [E|_].
    + rewrite E in *. cbn [pit_ticks]. destruct (Z.eqb_spec ((pit_ticks st ⊕ 1) mod 10) 0); [by destruct (Ht eq_refl)|].
      eexists _, _. split; [reflexivity|]. done.
    + destruct (Z.eqb_spec (int_no r) 33) as [E|_].
      * rewrite E. unfold keyboard_irq_handler, mbind, io_bind. cbn [inb script_io]. unfold sc_read.
        destruct d as [[|x inp] log]; eexists _, _; (split; [reflexivity|]); done.
      * destruct (Z.leb_spec 40 (int_no r)); eexists _, _; (split; [reflexivity|]); split_and!; try done.
        cbn [sc_log]. by rewrite <-app_assoc.
Qed.

Definition regs0 (n : Z) : isr_regs := IsrRegs 0 0 0 0 0 0 0 0 0 n 0 0 0 0 0 0.
Definition kernel0 : kernel unit := Kernel vga0 (Kbd (Mods 0 0 0 0) (replicate 256 0) 0 0) 8 ().

(** Interrupt 46 comes through the second controller. *)
Lemma isr_acknowledges_witness :
  ∃ st' d', isr_handler (λ st, mret st) (λ _ _ _ _ st, mret (0, st)) 0 (regs0 46) kernel0 (Script [] []) =
    ((Some (regs0 46), st'), d') ∧ sc_log d' = [(0xA0, 0x20); (0x20, 0x20)].
Proof.
  destruct (isr_acknowledges (λ st, mret st) (λ _ _ _ _ st, mret (0, st)) 0 (regs0 46) kernel0 (Script [] []))
    as [_ H]; [cbn; lia|].
  destruct H as (st' & d' & E & Hl & _); [cbn; lia|]. exists st', d'. split; [exact E|exact Hl].
Defined.

(** ** Sleeping *)

(** As long as the tick counter does not wrap, [sleep_ms] returns at the
    first interrupt that finds it advanced by the time asked for, at least one
    tick, and not before. *)
Theorem sleep_ms_correct wakes ticks ms :
  0 <= ticks → 0 <= ms → ticks + Z.max 1 (ms / 10) < 4294967296 →
  sleep_ms wakes ticks ms = head (filter (λ t, ticks + Z.max 1 (ms / 10) <= t) wakes).
Proof.
  intros Ht Hm Hw. pose proof (Z.div_pos ms 10 Hm ltac:(lia)).
  assert (sleep_target ticks ms = ticks + Z.max 1 (ms / 10)) as E.
  { unfold sleep_target. destruct (Z.eqb_spec (ms / 10) 0) as [E|E].
    - rewrite E in *. rewrite w32_small by lia. done.
    - rewrite w32_small by lia. lia. }
  unfold sleep_ms. rewrite E. set (target := ticks + _) in *.
  assert (∀ t, t < target → sleep_loop wakes t target = head (filter (λ t, target <= t) wakes)) as H1;
    [|apply H1; lia].
  induction wakes as [|w wakes IH]; intros t Hlt; cbn [sleep_loop]; (destruct (Z.ltb_spec t target); [|lia]); [done|].
  rewrite filter_cons. destruct (decide (target <= w)).
  - destruct wakes; cbn; destruct (Z.ltb_spec w target); done || lia.
  - apply IH. lia.
Qed.

Lemma sleep_ms_correct_witness : sleep_ms [101; 102; 103; 104] 100 35 = Some 103.
Proof. rewrite (sleep_ms_correct [101; 102; 103; 104] 100 35); [reflexivity|lia|lia|]. vm_compute. reflexivity. Defined.

(** Near the end of the counter the target wraps and the sleep ends at once. *)
Example sleep_wraps : sleep_ms [] 4294967295 1000 = Some 4294967295.
Proof. reflexivity. Qed.
