(* ===== verification/Isr.v ===== *)
(** * Interrupt stubs (kernel/isr.asm)

    The stubs are listed instruction by instruction and executed on a processor
    with its segment registers, its stack in memory.  [deliver] is what the
    processor does when it takes an interrupt through a gate of [idt_init]:
    from ring 3 it goes to the stack of the task state segment, it saves where
    it was, and for some exceptions it pushes an error code.  The stubs are
    straight-line code, so the instruction pointer only changes at the ends.
    Between the two halves of [isr_common_stub] runs the C function
    [isr_handler], which gets a pointer to the words that the first half has
    left on the stack ([frame_at]), and leaves anything in the registers that
    its caller saves. *)

From S2P Require Import Prelude Mem Pmm Process Io Vga Keyboard Idt.

(** ** The processor *)

Record icpu := ICpu {
  ic_regs : regs; ic_esp : Z; ic_eip : Z; ic_eflags : Z;
  ic_cs : Z; ic_ss : Z; ic_ds : Z; ic_es : Z; ic_fs : Z; ic_gs : Z
}.

Definition with_esp (c : icpu) (v : Z) : icpu :=
  ICpu (ic_regs c) v (ic_eip c) (ic_eflags c) (ic_cs c) (ic_ss c) (ic_ds c) (ic_es c) (ic_fs c) (ic_gs c).
Definition with_regs (c : icpu) (r : regs) : icpu :=
  ICpu r (ic_esp c) (ic_eip c) (ic_eflags c) (ic_cs c) (ic_ss c) (ic_ds c) (ic_es c) (ic_fs c) (ic_gs c).
Definition with_eax (c : icpu) (v : Z) : icpu :=
  let r := ic_regs c in
  with_regs c (Regs (r_edi r) (r_esi r) (r_ebp r) (r_ebx r) (r_edx r) (r_ecx r) v).
Definition eax (c : icpu) : Z := r_eax (ic_regs c).

Definition ipush (x : icpu * mem) (v : Z) : icpu * mem :=
  let '(c, m) := x in
  let sp := ic_esp c ⊖ 4 in
  (with_esp c sp, store32 m sp v).

(** The low half of eax, and a write to it. *)
Definition ax (c : icpu) : Z := w16 (eax c).
Definition with_ax (c : icpu) (v : Z) : icpu := with_eax c (eax c - w16 (eax c) + w16 v).

Inductive segreg : Type := DS | ES | FS | GS.
Definition with_seg (c : icpu) (s : segreg) (v : Z) : icpu :=
  let set ds es fs gs :=
    ICpu (ic_regs c) (ic_esp c) (ic_eip c) (ic_eflags c) (ic_cs c) (ic_ss c) ds es fs gs in
  match s with
  | DS => set v (ic_es c) (ic_fs c) (ic_gs c)
  | ES => set (ic_ds c) v (ic_fs c) (ic_gs c)
  | FS => set (ic_ds c) (ic_es c) v (ic_gs c)
  | GS => set (ic_ds c) (ic_es c) (ic_fs c) v
  end.

(** The privilege level of a code segment selector is its low two bits. *)
Definition ring3 (cs : Z) : bool := cs .& 3 =? 3.

(** ** Instructions *)

Inductive insn : Type :=
  | PUSH (v : Z) | PUSH_eax | PUSH_esp | PUSHA | MOV_ax_ds | MOV_ax (v : Z) | MOV_seg_ax (s : segreg)
  | ADD_esp (n : Z) | POP_eax | POPA | IRET.

(** [iret] to an outer ring takes the stack too. *)
Definition iret (c : icpu) (m : mem) : icpu :=
  let sp := ic_esp c in
  let cs := w16 (load32 m (sp ⊕ 4)) in
  let outer := ring3 cs && negb (ring3 (ic_cs c)) in
  ICpu (ic_regs c) (if outer then load32 m (sp ⊕ 12) else sp ⊕ 12) (load32 m sp) (load32 m (sp ⊕ 8)) cs
    (if outer then w16 (load32 m (sp ⊕ 16)) else ic_ss c) (ic_ds c) (ic_es c) (ic_fs c) (ic_gs c).

Definition exec1 (x : icpu * mem) (i : insn) : icpu * mem :=
  let '(c, m) := x in
  match i with
  | PUSH v => ipush x v
  | PUSH_eax => ipush x (eax c)
  | PUSH_esp => ipush x (ic_esp c)
  | PUSHA =>
      let r := ic_regs c in
      fold_left ipush [r_eax r; r_ecx r; r_edx r; r_ebx r; ic_esp c; r_ebp r; r_esi r; r_edi r] x
  | MOV_ax_ds => (with_ax c (ic_ds c), m)
  | MOV_ax v => (with_ax c v, m)
  | MOV_seg_ax s => (with_seg c s (ax c), m)
  | ADD_esp n => (with_esp c (ic_esp c ⊕ n), m)
  | POP_eax => (with_esp (with_eax c (load32 m (ic_esp c))) (ic_esp c ⊕ 4), m)
  | POPA =>
      let sp := ic_esp c in
      (with_esp (with_regs c
        {| r_edi := load32 m sp; r_esi := load32 m (sp ⊕ 4); r_ebp := load32 m (sp ⊕ 8);
           r_ebx := load32 m (sp ⊕ 16); r_edx := load32 m (sp ⊕ 20);
           r_ecx := load32 m (sp ⊕ 24); r_eax := load32 m (sp ⊕ 28) |}) (sp ⊕ 32), m)
  | IRET => (iret c m, m)
  end.
Definition exec_insns (l : list insn) (x : icpu * mem) : icpu * mem := fold_left exec1 l x.

(** ** The listing *)

(** The vectors written with [ISR_ERRCODE]. *)
Definition isr_errcode (n : Z) : bool := bool_decide (n ∈ [8; 10; 11; 12; 13; 14; 17; 21]).
Definition isr_entry (n : Z) : list insn := (if isr_errcode n then [] else [PUSH 0]) ++ [PUSH n].

(** [isr_common_stub] before and after [call isr_handler]. *)
Definition stub_save : list insn :=
  [PUSHA; MOV_ax_ds; PUSH_eax;
   MOV_ax 0x10; MOV_seg_ax DS; MOV_seg_ax ES; MOV_seg_ax FS; MOV_seg_ax GS;
   PUSH_esp].
Definition stub_restore : list insn :=
  [ADD_esp 4;
   POP_eax; MOV_seg_ax DS; MOV_seg_ax ES; MOV_seg_ax FS; MOV_seg_ax GS;
   POPA; ADD_esp 8; IRET].

(** ** The processor takes an interrupt *)

(** The exceptions for which the processor pushes an error code. *)
Definition pushes_error (n : Z) : bool := bool_decide (n ∈ [8; 10; 11; 12; 13; 14; 17; 21]).

(** [esp0] is the kernel stack in the task state segment, [handler] the address
    in the gate; an interrupt gate clears the interrupt flag. *)
Definition deliver (n err esp0 handler : Z) (x : icpu * mem) : icpu * mem :=
  let '(c, m) := x in
  let x :=
    if ring3 (ic_cs c) then
      let k := ICpu (ic_regs c) esp0 (ic_eip c) (ic_eflags c) (ic_cs c) 0x10 (ic_ds c) (ic_es c) (ic_fs c) (ic_gs c) in
      ipush (ipush (k, m) (ic_ss c)) (ic_esp c)
    else x in
  let x := ipush (ipush (ipush x (ic_eflags c)) (ic_cs c)) (ic_eip c) in
  let '(k, m) := if pushes_error n then ipush x err else x in
  (ICpu (ic_regs k) (ic_esp k) handler (ic_eflags k .& 0xFFFFFDFF) 0x08 (ic_ss k) (ic_ds k) (ic_es k) (ic_fs k) (ic_gs k), m).

(** ** The call *)

(** [struct isr_regs] at [a]. *)
Definition frame_at (m : mem) (a : Z) : isr_regs :=
  let w i := load32 m (a + 4 * i) in
  {| i_ds := w 0; i_edi := w 1; i_esi := w 2; i_ebp := w 3; i_esp := w 4; i_ebx := w 5; i_edx := w 6; i_ecx := w 7;
     i_eax := w 8; int_no := w 9; err_code := w 10; i_eip := w 11; i_cs := w 12; i_eflags := w 13;
     i_useresp := w 14; i_ss := w 15 |}.

Section Interrupt.
Context {D : Type} `{PIO : PortIO D} {R : Type}.
(** The kernel is its memory and the rest. *)
Context (schedule : kernel (mem * R) → io D (kernel (mem * R))).
Context (syscall_handler : Z → Z → Z → Z → kernel (mem * R) → io D (Z * kernel (mem * R))).

Definition kmem (st : kernel (mem * R)) : mem := (k_rest st).1.
Definition set_kmem (st : kernel (mem * R)) (m : mem) : kernel (mem * R) :=
  Kernel (Idt.k_vga st) (k_kbd st) (pit_ticks st) (m, (k_rest st).2).

(** An interrupt from its delivery to the instruction after it; [None] when
    the handler has halted the processor.  [ra] is the return address of the
    call and [scratch] what it leaves in the registers.  The one field of the
    frame that [isr_handler] writes is [eax], for a system call. *)
Definition interrupt (n err cr2 esp0 handler ra : Z) (scratch : regs) (c : icpu) (st : kernel (mem * R))
  : io D (option icpu * kernel (mem * R)) :=
  let '(c, m) := exec_insns (isr_entry n ++ stub_save) (deliver n err esp0 handler (c, kmem st)) in
  let '(k, m) := ipush (c, m) ra in
  let a := load32 m (ic_esp k ⊕ 4) in
  '(o, st) ← isr_handler schedule syscall_handler cr2 (frame_at m a) (set_kmem st m);
  match o with
  | None => mret (None, st)
  | Some r =>
      let m := if n =? 128 then store32 (kmem st) (a + 32) (i_eax r) else kmem st in
      let '(c, m) := exec_insns stub_restore (with_regs c scratch, m) in
      mret (Some c, set_kmem st m)
  end.
End Interrupt.
