(* ===== verification/IsrProps.v ===== *)
(** * Interrupt stubs: theorems

    Every stub hands [isr_handler] the registers of the interrupted code, and
    the interrupted code does not notice an interrupt whose handler leaves the
    frame alone: it goes on with its registers, flags, segments and stack as they
    were, in the ring it was in, except that a system call finds its result in
    eax.  IsrKernel.v has this for the handlers of the kernel. *)

From S2P Require Import Prelude Mem Pmm Process ProcessProps Io Vga VgaProps Keyboard Idt Isr.

(** ** Words on the stack *)

Definition words_at (m : mem) (a : Z) (l : list Z) : Prop :=
  ∀ i v, l !! i = Some v → load32 m (a + 4 * Z.of_nat i) = v.

Lemma words_at_ext m m' a l :
  (∀ b, a <= b < a + 4 * Z.of_nat (length l) → load8 m' b = load8 m b) → words_at m a l → words_at m' a l.
Proof.
  intros H Hw i v Hi. rewrite <-(Hw i v Hi). apply lookup_lt_Some in Hi. apply load32_ext. intros b Hb. apply H. lia.
Qed.
Lemma words_at_push m a v l : words_at m a l → u32 v → 4 <= a → a + 4 * Z.of_nat (length l) <= 4294967296 →
  words_at (store32 m (a - 4) v) (a - 4) (v :: l).
Proof.
  intros Hw Hv Ha Hl [|i] w; cbn [lookup list_lookup].
  - intros [= <-]. replace (a - 4 + 4 * Z.of_nat 0) with (a - 4) by lia.
    rewrite load32_store32_eq by (unfold addr_ok; lia). by apply w32_small.
  - intros Hi. replace (a - 4 + 4 * Z.of_nat (S i)) with (a + 4 * Z.of_nat i) by lia. rewrite <-(Hw i w Hi).
    apply lookup_lt_Some in Hi. apply load32_store32_ne; unfold addr_ok; lia.
Qed.
Lemma words_at_upd m a l i v : words_at m a l → (i < length l)%nat → 0 <= a → a + 4 * Z.of_nat (length l) <= 4294967296 →
  words_at (store32 m (a + 4 * Z.of_nat i) v) a (<[i := w32 v]> l).
Proof.
  intros Hw Hi Ha Hl j w. destruct (decide (i = j)) as [->|Hne].
  - rewrite list_lookup_insert_eq by exact Hi. intros [= <-]. apply load32_store32_eq. unfold addr_ok; lia.
  - rewrite list_lookup_insert_ne by exact Hne. intros Hj. rewrite <-(Hw j w Hj). apply lookup_lt_Some in Hj.
    apply load32_store32_ne; unfold addr_ok; lia.
Qed.

Section Stack.
Context (m0 : mem) (lo top : Z) (Hlo : 0 <= lo) (Htop : top <= 4294967296).

(** The words [l] from [a] up to [top], in the memory [m0] otherwise. *)
Record on_stack (m : mem) (a : Z) (l : list Z) : Prop := {
  os_low : lo <= a;
  os_len : a + 4 * Z.of_nat (length l) = top;
  os_words : words_at m a l;
  os_out b : addr_ok b 1 → ¬ lo <= b < top → load8 m b = load8 m0 b
}.

Lemma ipush_on_stack c m v l : on_stack m (ic_esp c) l → lo + 4 <= ic_esp c → u32 v →
  ∃ m', ipush (c, m) v = (with_esp c (ic_esp c - 4), m') ∧ on_stack m' (ic_esp c - 4) (v :: l).
Proof using Hlo Htop.
  intros [Ha Hl Hw Ho] Hr Hv. eexists. split.
  { unfold ipush. rewrite w32_small by lia. reflexivity. }
  split; [lia|cbn [length]; lia|apply words_at_push; [assumption..|lia|lia]|].
  intros b Hb Hn. rewrite load8_store32_far by (unfold addr_ok in *; lia). by apply Ho.
Qed.

Lemma pushes_on_stack vs : ∀ c m l, on_stack m (ic_esp c) l → lo + 4 * Z.of_nat (length vs) <= ic_esp c → Forall u32 vs →
  ∃ m', fold_left ipush vs (c, m) = (with_esp c (ic_esp c - 4 * Z.of_nat (length vs)), m') ∧
    on_stack m' (ic_esp c - 4 * Z.of_nat (length vs)) (reverse vs ++ l).
Proof using Hlo Htop.
  induction vs as [|v vs IH]; intros c m l Hs Hr HF; cbn [length] in *.
  { exists m. cbn [fold_left reverse]. replace (ic_esp c - 4 * Z.of_nat 0) with (ic_esp c) by lia.
    split; [by destruct c|exact Hs]. }
  inversion_clear HF as [|? ? Hv HF']. destruct (ipush_on_stack c m v l) as (m1 & E & Hs1); [exact Hs|lia|exact Hv|].
  cbn [fold_left]. rewrite E. destruct (IH (with_esp c (ic_esp c - 4)) m1 (v :: l)) as (m2 & E2 & Hs2);
    [exact Hs1|cbn; lia|exact HF'|].
  cbn [ic_esp with_esp] in *. exists m2.
  replace (ic_esp c - 4 * Z.of_nat (S (length vs))) with (ic_esp c - 4 - 4 * Z.of_nat (length vs)) by lia.
  split; [exact E2|]. by rewrite reverse_cons, <-app_assoc.
Qed.
End Stack.

(** ** The frame *)

Record icpu_ok (c : icpu) : Prop := {
  io_regs : regs_ok (ic_regs c);
  io_esp : u32 (ic_esp c);
  io_eip : u32 (ic_eip c);
  io_eflags : u32 (ic_eflags c);
  io_cs : u16 (ic_cs c);
  io_ss : u16 (ic_ss c);
  io_ds : u16 (ic_ds c)
}.

Definition from_user (c : icpu) : bool := ring3 (ic_cs c).
(** Where the frame starts: the kernel stack for ring 3. *)
Definition stack_top (esp0 : Z) (c : icpu) : Z := if from_user c then esp0 else ic_esp c.

(** What the processor pushes, in the order of addresses. *)
Definition gate_words (n err : Z) (c : icpu) : list Z :=
  (if pushes_error n then [err] else []) ++
  [ic_eip c; ic_cs c; ic_eflags c] ++ (if from_user c then [ic_esp c; ic_ss c] else []).
(** The frame of [isr_handler]; [sp] is the stack pointer before [pusha]. *)
Definition frame_words (n err sp : Z) (c : icpu) : list Z :=
  let r := ic_regs c in
  [eax c - w16 (eax c) + ic_ds c; r_edi r; r_esi r; r_ebp r; sp; r_ebx r; r_edx r; r_ecx r; r_eax r;
   n; if pushes_error n then err else 0; ic_eip c; ic_cs c; ic_eflags c] ++
  (if from_user c then [ic_esp c; ic_ss c] else []).
Definition frame_size (c : icpu) : Z := if from_user c then 64 else 56.

Lemma frame_words_length n err sp c : 4 * Z.of_nat (length (frame_words n err sp c)) = frame_size c.
Proof. unfold frame_words, frame_size. by destruct (from_user c). Qed.

Lemma u16_u32 x : u16 x → u32 x.
Proof. unfold u16, u32. lia. Qed.

Section Entry.
Context (n err esp0 handler : Z) (c : icpu) (m0 : mem).
Context (Hn : u32 n) (Herr : u32 err) (Hc : icpu_ok c).
Context (Htop : 72 <= stack_top esp0 c <= 4294967295).

(** The processor on the handler's stack. *)
Definition gate_cpu (sp : Z) : icpu :=
  ICpu (ic_regs c) sp handler (ic_eflags c .& 0xFFFFFDFF) 0x08 (if from_user c then 0x10 else ic_ss c)
    (ic_ds c) (ic_es c) (ic_fs c) (ic_gs c).

Lemma deliver_spec :
  let top := stack_top esp0 c in let l := gate_words n err c in
  ∃ m, deliver n err esp0 handler (c, m0) = (gate_cpu (top - 4 * Z.of_nat (length l)), m) ∧
    on_stack m0 (top - 72) top m (top - 4 * Z.of_nat (length l)) l.
Proof using Herr Hc Htop.
  intros top l. destruct Hc as [_ He Hi Hf Hcs%u16_u32 Hss%u16_u32 _].
  set (vs := reverse l). set (k := if from_user c
    then ICpu (ic_regs c) esp0 (ic_eip c) (ic_eflags c) (ic_cs c) 0x10 (ic_ds c) (ic_es c) (ic_fs c) (ic_gs c) else c).
  assert (ic_esp k = top) as Ek by (unfold k, top, stack_top; by destruct (from_user c)).
  destruct (pushes_on_stack m0 (top - 72) top) with (vs := vs) (c := k) (m := m0) (l := @nil Z) as (m & E & Hs).
  - unfold top; lia.
  - unfold top; lia.
  - rewrite Ek. split; [lia|cbn; lia|by intros i v|done].
  - rewrite Ek. unfold vs, l, gate_words. rewrite length_reverse. clear. destruct (pushes_error n), (from_user c); cbn; lia.
  - apply Forall_reverse. unfold l, gate_words. destruct (pushes_error n), (from_user c); cbn; rewrite ?Forall_cons, ?Forall_nil; auto 10.
  - exists m. rewrite app_nil_r in Hs. unfold vs in *. rewrite length_reverse, Ek in E, Hs. rewrite reverse_involutive in Hs.
    split; [|exact Hs]. unfold deliver. cbv beta iota zeta.
    match goal with |- (let '(_, _) := ?X in _) = _ => replace X with (fold_left ipush (reverse l) (k, m0)) end.
    2: { unfold k, l, gate_words, from_user. by destruct (ring3 (ic_cs c)), (pushes_error n). }
    rewrite E. unfold gate_cpu, k. by destruct (from_user c).
Qed.

Lemma exec_app l1 l2 x : exec_insns (l1 ++ l2) x = exec_insns l2 (exec_insns l1 x).
Proof. apply fold_left_app. Qed.

Lemma ds_word : u32 (eax c - w16 (eax c) + ic_ds c).
Proof using Hc.
  destruct Hc as [(_ & _ & _ & _ & _ & _ & Ha) _ _ _ _ _ Hd]. fold (eax c) in Ha. unfold u32, u16, w16 in *. clear -Ha Hd. zdm.
Qed.

(** [isr_common_stub] up to the call, on the stack [l] of the stub of [n]. *)
Lemma save_spec top a k m l :
  72 <= top <= 4294967296 → a - 8 >= top - 72 ∧ a + 36 < 4294967296 →
  ic_esp k = a + 36 → ic_regs k = ic_regs c → ic_ds k = ic_ds c → on_stack m0 (top - 72) top m (a + 36) l →
  ∃ c1 m', exec_insns stub_save (k, m) = (c1, m') ∧
    ic_esp c1 = a - 4 ∧ ic_cs c1 = ic_cs k ∧ ic_ss c1 = ic_ss k ∧
    let r := ic_regs c in
    on_stack m0 (top - 72) top m' (a - 4)
      ([a; eax c - w16 (eax c) + ic_ds c; r_edi r; r_esi r; r_ebp r; a + 36; r_ebx r; r_edx r; r_ecx r; r_eax r] ++ l).
Proof using Hc.
  intros Ht Ha Ek Er Ed Hs. pose proof (io_regs _ Hc) as (R1 & R2 & R3 & R4 & R5 & R6 & R7). pose proof ds_word as Hw.
  unfold stub_save, exec_insns. cbn [fold_left]. assert (0 <= top - 72) as Hlo by lia. destruct Ht as [_ Ht].
  change (exec1 (k, m) PUSHA) with (fold_left ipush [r_eax (ic_regs k); r_ecx (ic_regs k); r_edx (ic_regs k); r_ebx (ic_regs k);
    ic_esp k; r_ebp (ic_regs k); r_esi (ic_regs k); r_edi (ic_regs k)] (k, m)). rewrite Er, Ek.
  edestruct (pushes_on_stack m0 (top - 72) top Hlo Ht) with (c := k) (m := m) (l := l) as (m1 & -> & H1);
    [rewrite Ek; exact Hs|cbn [length]; lia|rewrite ?Forall_cons, ?Forall_nil; unfold u32 in *; auto 12 with lia|].
  rewrite Ek in H1 |- *. cbn [length] in H1 |- *. replace (a + 36 - 4 * Z.of_nat 8) with (a + 4) in * by lia.
  cbn [exec1]. set (k1 := with_ax _ _).
  assert (eax k1 = eax c - w16 (eax c) + ic_ds c) as Eeax.
  { unfold k1, with_ax, with_eax, eax. cbn. rewrite Er, Ed. f_equal. apply w16_small, Hc. }
  destruct (ipush_on_stack m0 (top - 72) top Hlo Ht k1 m1 (eax k1) _ H1) as (m2 & -> & H2);
    [cbn; lia|rewrite Eeax; exact Hw|].
  cbn [exec1]. set (k2 := with_seg _ GS _). assert (ic_esp k2 = a) as Ek2 by (cbn; lia).
  destruct (ipush_on_stack m0 (top - 72) top Hlo Ht k2 m2 (ic_esp k2) _ H2) as (m3 & -> & H3); [lia|unfold u32; lia|].
  eexists _, m3. split; [reflexivity|]. split; [cbn; lia|]. split; [reflexivity|]. split; [reflexivity|].
  rewrite Eeax, Ek2 in H3. exact H3.
Qed.

(** The stub of [n], from the gate to the call. *)
Lemma entry_spec :
  let top := stack_top esp0 c in let a := top - frame_size c in
  ∃ c1 m, exec_insns (isr_entry n ++ stub_save) (deliver n err esp0 handler (c, m0)) = (c1, m) ∧
    ic_esp c1 = a - 4 ∧ ic_cs c1 = 0x08 ∧ ic_ss c1 = (if from_user c then 0x10 else ic_ss c) ∧
    on_stack m0 (top - 72) top m (a - 4) (a :: frame_words n err (a + 36) c).
Proof using Hn Herr Hc Htop.
  intros top a. destruct deliver_spec as (m1 & -> & H1). fold top in H1 |- *. rewrite exec_app.
  set (l := gate_words n err c) in *. set (sp := top - 4 * Z.of_nat (length l)) in *.
  assert (∀ x, exec_insns (isr_entry n) x = fold_left ipush (if pushes_error n then [n] else [0; n]) x) as ->.
  { intros x. unfold exec_insns, isr_entry. change (isr_errcode n) with (pushes_error n). destruct x, (pushes_error n); reflexivity. }
  destruct (pushes_on_stack m0 (top - 72) top) with (vs := if pushes_error n then [n] else [0; n])
    (c := gate_cpu sp) (m := m1) (l := l) as (m2 & -> & H2).
  - unfold top; lia.
  - unfold top; lia.
  - exact H1.
  - unfold sp, l, gate_words. cbn [ic_esp gate_cpu]. clear. destruct (pushes_error n), (from_user c); cbn; lia.
  - destruct (pushes_error n); rewrite ?Forall_cons, ?Forall_nil; unfold u32 in *; auto with lia.
  - cbn [ic_esp gate_cpu] in *.
    assert (sp - 4 * Z.of_nat (length (if pushes_error n then [n] else [0; n])) = a + 36) as Esp.
    { unfold sp, l, a, gate_words, frame_size. clear. destruct (pushes_error n), (from_user c); cbn; lia. }
    rewrite Esp in *. clear Esp.
    assert (a - 8 >= top - 72 ∧ a + 36 < 4294967296) as Ha.
    { unfold a, frame_size, top. clear -Htop. destruct (from_user c); lia. }
    destruct (save_spec top a (with_esp (gate_cpu sp) (a + 36)) m2 _ ltac:(unfold top; lia) Ha eq_refl eq_refl eq_refl H2)
      as (c1 & m & E & E1 & E2 & E3 & H3).
    exists c1, m. split_and!; [exact E|exact E1|exact E2|exact E3|].
    unfold frame_words, l, gate_words in *. destruct (pushes_error n); exact H3.
Qed.
End Entry.

(** ** Back to the interrupted code *)

(** The frame with [v] for eax. *)
Definition frame_with (n err sp v : Z) (c : icpu) : list Z := <[8%nat := v]> (frame_words n err sp c).

Lemma leave_spec n err esp0 sp v c k m :
  icpu_ok c → let top := stack_top esp0 c in let a := top - frame_size c in
  72 <= top <= 4294967295 → words_at m a (frame_with n err sp v c) →
  ic_esp k = a - 4 → ic_cs k = 0x08 → ic_ss k = (if from_user c then 0x10 else ic_ss c) →
  exec_insns stub_restore (k, m) =
    (ICpu (ic_regs (with_eax c v)) (ic_esp c) (ic_eip c) (ic_eflags c) (ic_cs c) (ic_ss c)
       (ic_ds c) (ic_ds c) (ic_ds c) (ic_ds c), m).
Proof.
  intros Hc top a Ht Hw Ek Ecs Ess. assert (0 <= a - 4 ∧ a + frame_size c <= 4294967295 ∧ 56 <= frame_size c) as Ha.
  { unfold a, frame_size. destruct (from_user c); lia. }
  assert (∀ i b w, frame_with n err sp v c !! i = Some w → b = a + 4 * Z.of_nat i → load32 m b = w) as L
    by (intros i b w Hi ->; exact (Hw i w Hi)).
  destruct k as [kr ke ki kf kcs kss kds kes kfs kgs]. cbn in Ek, Ecs, Ess. subst ke kcs kss.
  cbn -[w32 load32 Z.add w16 ring3]. unfold iret, ax, eax. cbn -[w32 load32 Z.add w16 ring3].
  rewrite (w32_small (a - 4 + 4)) by lia. replace (a - 4 + 4) with a by lia.
  rewrite (w32_small (a + 4)), !(w32_small (a + 4 + _)), !(w32_small (a + 4 + 32 + _)), !(w32_small (a + 4 + 32 + 8 + _))
    by (unfold frame_size in *; destruct (from_user c); lia).
  set (r := ic_regs c). pose proof (io_ds _ Hc) as Hds. pose proof (w16_small _ (io_cs _ Hc)) as Hcs.
  rewrite (L 0%nat a (eax c - w16 (eax c) + ic_ds c)), (L 1%nat (a + 4) (r_edi r)), (L 2%nat (a + 4 + 4) (r_esi r)), (L 3%nat (a + 4 + 8) (r_ebp r)),
    (L 5%nat (a + 4 + 16) (r_ebx r)), (L 6%nat (a + 4 + 20) (r_edx r)), (L 7%nat (a + 4 + 24) (r_ecx r)), (L 8%nat (a + 4 + 28) v), (L 12%nat (a + 4 + 32 + 8 + 4) (ic_cs c)),
    (L 11%nat (a + 4 + 32 + 8) (ic_eip c)), (L 13%nat (a + 4 + 32 + 8 + 8) (ic_eflags c)) by (reflexivity || lia).
  assert (w16 (eax c - w16 (eax c) + ic_ds c) = ic_ds c) as -> by (unfold w16, u16 in *; clear -Hds; zdm).
  rewrite Hcs. fold (from_user c). destruct (from_user c) eqn:Eu; cbn [andb negb ring3].
  - change (negb (ring3 8)) with true. cbn iota. rewrite (w32_small (a + 4 + 32 + 8 + 16)) by (unfold frame_size in Ha; rewrite Eu in Ha; lia).
    rewrite (L 14%nat (a + 4 + 32 + 8 + 12) (ic_esp c)), (L 15%nat (a + 4 + 32 + 8 + 16) (ic_ss c)), w16_small by
      (apply Hc || (unfold frame_with, frame_words; by rewrite Eu) || lia). reflexivity.
  - do 2 f_equal. unfold a, top, stack_top, frame_size. rewrite Eu. lia.
Qed.

(** The frame in memory is the record that [isr_handler] reads. *)
Lemma frame_at_words m a n err sp c : words_at m a (frame_words n err sp c) →
  let f := frame_at m a in
  int_no f = n ∧ err_code f = (if pushes_error n then err else 0) ∧ i_eip f = ic_eip c ∧ i_cs f = ic_cs c ∧
  i_eflags f = ic_eflags c ∧
  i_eax f = eax c ∧ i_ebx f = r_ebx (ic_regs c) ∧ i_ecx f = r_ecx (ic_regs c) ∧ i_edx f = r_edx (ic_regs c) ∧
  (from_user c = true → i_useresp f = ic_esp c ∧ i_ss f = ic_ss c).
Proof.
  intros Hw f. split_and!; [apply (Hw 9%nat)|apply (Hw 10%nat)|apply (Hw 11%nat)|apply (Hw 12%nat)|apply (Hw 13%nat)|
    apply (Hw 8%nat)|apply (Hw 5%nat)|apply (Hw 7%nat)|apply (Hw 6%nat)|]; try reflexivity.
  intros Eu. split; [apply (Hw 14%nat)|apply (Hw 15%nat)]; unfold frame_words; by rewrite Eu.
Qed.

(** The call of [isr_handler]: its argument points to the frame. *)
Lemma call_spec m0 top a l c m ra : 72 <= top <= 4294967295 → top - 64 <= a → ic_esp c = a - 4 →
  on_stack m0 (top - 72) top m (a - 4) (a :: l) → u32 ra →
  ∃ m', ipush (c, m) ra = (with_esp c (ic_esp c - 4), m') ∧ load32 m' (ic_esp c - 4 ⊕ 4) = a ∧ words_at m' a l ∧
    ∀ b, addr_ok b 1 → ¬ top - 72 <= b < top → load8 m' b = load8 m0 b.
Proof.
  intros Ht Ha Esp H1 Hra. pose proof (os_len _ _ _ _ _ _ H1) as Hlen.
  destruct (ipush_on_stack m0 (top - 72) top ltac:(lia) ltac:(lia) c m ra _ ltac:(rewrite Esp; exact H1)) as (m' & E & H);
    [lia|exact Hra|]. rewrite Esp in H. exists m'. split; [exact E|]. split; [|split; [|apply H]].
  - rewrite w32_small by lia. etransitivity; [|exact (os_words _ _ _ _ _ _ H 1%nat a eq_refl)]. f_equal. lia.
  - intros i w Hi. rewrite <-(os_words _ _ _ _ _ _ H (S (S i)) w Hi). f_equal. lia.
Qed.

Section Handled.
Context {D : Type} `{PIO : PortIO D} {R : Type}.
Context (schedule : kernel (mem * R) → io D (kernel (mem * R))).
Context (syscall_handler : Z → Z → Z → Z → kernel (mem * R) → io D (Z * kernel (mem * R))).

(** The bytes from [lo] to [hi] are the same. *)
Definition keeps (lo hi : Z) (m m' : mem) : Prop := ∀ b, lo <= b < hi → load8 m' b = load8 m b.

(** The same data segment everywhere, as the kernel and its programs have it. *)
Definition flat (c : icpu) : Prop := ic_es c = ic_ds c ∧ ic_fs c = ic_ds c ∧ ic_gs c = ic_ds c.

(** The interrupted code goes on as it was, with eax from the frame, when the call
    of [isr_handler] on its frame returns and has left the frame alone. *)
Lemma interrupt_spec n err cr2 esp0 handler ra scratch c st d :
  u32 n → icpu_ok c → flat c → u32 err → u32 ra →
  let top := stack_top esp0 c in let a := top - frame_size c in
  72 <= top <= 4294967295 →
  ∃ m, let f := frame_at m a in
    (∀ b, addr_ok b 1 → ¬ top - 72 <= b < top → load8 m b = load8 (kmem st) b) ∧
    int_no f = n ∧ i_eax f = eax c ∧ i_ebx f = r_ebx (ic_regs c) ∧ i_ecx f = r_ecx (ic_regs c) ∧ i_edx f = r_edx (ic_regs c) ∧
    ∀ r' st' d', isr_handler schedule syscall_handler cr2 f (set_kmem st m) d = ((Some r', st'), d') →
      keeps a top m (kmem st') →
      interrupt schedule syscall_handler n err cr2 esp0 handler ra scratch c st d =
        ((Some (with_eax c (if n =? 128 then w32 (i_eax r') else eax c)),
          set_kmem st' (if n =? 128 then store32 (kmem st') (a + 32) (i_eax r') else kmem st')), d').
Proof.
  intros Hn Hc (Hes & Hfs & Hgs) Herr Hra top a Ht.
  assert (56 <= frame_size c <= 64) as Hfz by (unfold frame_size; destruct (from_user c); lia).
  destruct (entry_spec n err esp0 handler c (kmem st)) as (c1 & m1 & E1 & Esp & Ecs & Ess & H1);
    [exact Hn|exact Herr|exact Hc|exact Ht|]. fold top a in Esp, H1.
  destruct (call_spec (kmem st) top a (frame_words n err (a + 36) c) c1 m1 ra) as (m2 & E2 & Earg & Hw & Hout);
    [lia|lia|exact Esp|exact H1|exact Hra|].
  destruct (frame_at_words _ _ _ _ _ _ Hw) as (Fn & _ & _ & _ & _ & Fa & Fb & Fc & Fd & _).
  exists m2. split_and!; [exact Hout|exact Fn|exact Fa|exact Fb|exact Fc|exact Fd|]. intros r' st' d' E3 Hkeep.
  assert (words_at (kmem st') a (frame_words n err (a + 36) c)) as Hw'.
  { eapply words_at_ext; [|exact Hw]. intros b Hb. rewrite frame_words_length in Hb. apply Hkeep. lia. }
  set (v := if n =? 128 then w32 (i_eax r') else eax c).
  assert (words_at (if n =? 128 then store32 (kmem st') (a + 32) (i_eax r') else kmem st') a
    (frame_with n err (a + 36) v c)) as Hw2.
  { unfold v, frame_with. pose proof (frame_words_length n err (a + 36) c) as Hlen. destruct (n =? 128).
    - apply (words_at_upd _ _ _ 8 _ Hw'); [|lia|lia]. unfold frame_words. cbn. lia.
    - rewrite list_insert_id by reflexivity. exact Hw'. }
  unfold interrupt. rewrite E1, E2. cbn [ic_esp with_esp]. rewrite Earg.
  unfold mbind, io_bind. rewrite E3. rewrite (leave_spec n err esp0 (a + 36) v c); [|assumption..].
  unfold mret, io_ret. do 3 f_equal. destruct c as [[] ? ? ? ? ? ds es fs gs]. cbn in Hes, Hfs, Hgs. subst es fs gs.
  unfold v. destruct (n =? 128); reflexivity.
Qed.

(** An exception never returns, and its report is about the code that raised
    it: its instruction pointer, the vector, and the error code of the processor
    where there is one. *)
Theorem exception_reported n err cr2 esp0 handler ra scratch c st d :
  0 <= n < 32 → icpu_ok c → u32 err → u32 ra → 72 <= stack_top esp0 c <= 4294967295 →
  ∃ f st' d', interrupt schedule syscall_handler n err cr2 esp0 handler ra scratch c st d = ((None, st'), d') ∧
    int_no f = n ∧ err_code f = (if pushes_error n then err else 0) ∧ i_eip f = ic_eip c ∧ i_cs f = ic_cs c ∧
    Idt.k_vga st' = ((if n =? 14 then page_fault_report cr2 f (Idt.k_vga st) else exception_report f (Idt.k_vga st)) d).1.
Proof.
  intros Hn Hc Herr Hra Ht. set (top := stack_top esp0 c) in *. set (a := top - frame_size c).
  assert (56 <= frame_size c <= 64) as Hfz by (unfold frame_size; destruct (from_user c); lia).
  destruct (entry_spec n err esp0 handler c (kmem st)) as (c1 & m1 & E1 & Esp & _ & _ & H1);
    [unfold u32; lia|exact Herr|exact Hc|exact Ht|]. fold top a in Esp, H1.
  destruct (call_spec (kmem st) top a (frame_words n err (a + 36) c) c1 m1 ra) as (m2 & E2 & Earg & Hw & _); [lia|lia|exact Esp|exact H1|exact Hra|].
  destruct (frame_at_words _ _ _ _ _ _ Hw) as (Fn & Fe & Fi & Fcs & _).
  unfold interrupt. rewrite E1, E2. cbn [ic_esp with_esp]. rewrite Earg. unfold mbind, io_bind, isr_handler. rewrite Fn.
  destruct (Z.ltb_spec n 32); [|lia]. destruct (n =? 14); unfold on_vga, mbind, io_bind;
    change (Idt.k_vga (set_kmem st m2)) with (Idt.k_vga st);
    (match goal with |- context [?rep (frame_at m2 a) ?v d] => destruct (rep (frame_at m2 a) v d) as [v' d'] eqn:Ev end;
     eexists (frame_at m2 a), _, d'; split; [reflexivity|]; split_and!; [assumption..|]; cbn [Idt.k_vga]; by rewrite Ev).
Qed.
End Handled.

(** ** A system call of a program *)

Definition user_cpu : icpu := ICpu (Regs 7 6 5 4 3 2 1) 0x300FF0 0x200010 0x202 0x1B 0x23 0x23 0x23 0x23 0x23.
Lemma user_cpu_ok : icpu_ok user_cpu.
Proof. split; unfold regs_ok, u32, u16; cbn; lia. Qed.
Definition kernel0 : kernel (mem * unit) := Kernel vga0 (Kbd (Mods 0 0 0 0) (replicate 256 0) 0 0) 0 (∅, ()).
(** A handler that adds its arguments. *)
Definition adder (a b c d : Z) (st : kernel (mem * unit)) : io script (Z * kernel (mem * unit)) := mret (a + b + c + d, st).

Lemma exception_reported_witness :
  ∃ f st' d', interrupt (λ st, mret st) adder 14 4 0xDEADBEEF 0x1F0000 0x101000 0x101234 (Regs 0 0 0 0 0 0 0) user_cpu kernel0
      (Script [] []) = ((None, st'), d') ∧ err_code f = 4 ∧ i_eip f = 0x200010.
Proof.
  destruct (exception_reported (D := script) (λ st, mret st) adder 14 4 0xDEADBEEF 0x1F0000 0x101000 0x101234 (Regs 0 0 0 0 0 0 0)
    user_cpu kernel0 (Script [] [])) as (f & st' & d' & E & _ & He & Hi & _).
  - lia.
  - exact user_cpu_ok.
  - unfold u32. lia.
  - unfold u32. lia.
  - vm_compute. split; congruence.
  - exists f, st', d'. split; [exact E|]. split; [exact He|exact Hi].
Defined.
