(* ===== verification/Serial.v ===== *)
(** * Serial port (kernel/serial.c, kernel/serial.h)

    The polled driver over any [PortIO] device.  The code waits for the
    transmitter and the receiver without bound; the waits take [fuel] here
    and answer [None] when it runs out.  A UART that becomes ready is a class
    of laws, [Uart], and on it the waits end. *)

From S2P Require Import Prelude Io.

Definition SERIAL_DATA : Z := 0.
Definition SERIAL_INT_ENABLE : Z := 1.
Definition SERIAL_FIFO_CTRL : Z := 2.
Definition SERIAL_LINE_CTRL : Z := 3.
Definition SERIAL_MODEM_CTRL : Z := 4.
Definition SERIAL_LINE_STATUS : Z := 5.
Definition SERIAL_COM1 : Z := 0x3F8.

Section Serial.
Context {D : Type} `{PIO : PortIO D}.

Definition serial_init (port : Z) : io D Z :=
  outb (port + SERIAL_INT_ENABLE) 0x00;;
  outb (port + SERIAL_LINE_CTRL) 0x80;;
  outb (port + SERIAL_DATA) 0x03;;
  outb (port + SERIAL_INT_ENABLE) 0x00;;
  outb (port + SERIAL_LINE_CTRL) 0x03;;
  outb (port + SERIAL_FIFO_CTRL) 0xC7;;
  outb (port + SERIAL_MODEM_CTRL) 0x0B;;
  outb (port + SERIAL_MODEM_CTRL) 0x1E;;
  outb (port + SERIAL_DATA) 0xAE;;
  v ← inb (port + SERIAL_DATA);
  if negb (v =? 0xAE) then mret 1
  else outb (port + SERIAL_MODEM_CTRL) 0x0F;; mret 0.

Definition serial_is_transmit_empty (port : Z) : io D Z :=
  s ← inb (port + SERIAL_LINE_STATUS); mret (s .& 0x20).

Definition serial_received (port : Z) : io D Z :=
  s ← inb (port + SERIAL_LINE_STATUS); mret (s .& 1).

(** [while (cond(port) == 0);] *)
Fixpoint serial_wait (fuel : nat) (cond : io D Z) : io D (option unit) :=
  match fuel with
  | O => mret None
  | S fuel => r ← cond; if r =? 0 then serial_wait fuel cond else mret (Some tt)
  end.

Definition serial_putchar (fuel : nat) (port c : Z) : io D (option unit) :=
  r ← serial_wait fuel (serial_is_transmit_empty port);
  match r with
  | None => mret None
  | Some _ => outb (port + SERIAL_DATA) (w8 c);; mret (Some tt)
  end.

Fixpoint serial_puts (fuel : nat) (port : Z) (str : list Z) : io D (option unit) :=
  match str with
  | [] => mret (Some tt)
  | c :: str =>
      if c =? 0 then mret (Some tt)
      else
        r ← (if c =? 10 then serial_putchar fuel port 13 else mret (Some tt));
        match r with
        | None => mret None
        | Some _ =>
            r ← serial_putchar fuel port c;
            match r with
            | None => mret None
            | Some _ => serial_puts fuel port str
            end
        end
  end.

(** The character is a signed [char]. *)
Definition serial_getchar (fuel : nat) (port : Z) : io D (option Z) :=
  r ← serial_wait fuel (serial_received port);
  match r with
  | None => mret None
  | Some _ => v ← inb (port + SERIAL_DATA); mret (Some (s8 v))
  end.
End Serial.

(** ** The UART *)

(** What the port has sent, what it has received, and the polls until its
    transmitter is empty. *)
Record uart := Uart_ { u_sent : list Z; u_rx : list Z; u_wait : nat; u_latency : nat }.

Class Uart (D : Type) `{PIO : PortIO D} (port : Z) := {
  uart_of : D → uart;
  uart_status d : ∃ s d', inb (port + SERIAL_LINE_STATUS) d = (s, d') ∧
    (c_true (s .& 0x20) = true ↔ u_wait (uart_of d) = O) ∧
    (c_true (s .& 1) = true ↔ u_rx (uart_of d) ≠ []) ∧
    uart_of d' = Uart_ (u_sent (uart_of d)) (u_rx (uart_of d)) (pred (u_wait (uart_of d))) (u_latency (uart_of d));
  uart_send d v : u_wait (uart_of d) = O →
    uart_of (outb (port + SERIAL_DATA) v d).2 =
    Uart_ (u_sent (uart_of d) ++ [v]) (u_rx (uart_of d)) (u_latency (uart_of d)) (u_latency (uart_of d));
  uart_receive d c rx : u_rx (uart_of d) = c :: rx → u8 c →
    ∃ d', inb (port + SERIAL_DATA) d = (c, d') ∧
      uart_of d' = Uart_ (u_sent (uart_of d)) rx (u_wait (uart_of d)) (u_latency (uart_of d))
}.

(** The bytes that go out for a string: a carriage return before each new line. *)
Definition crlf (s : list Z) : list Z := c ← s; if c =? 10 then [13; 10] else [w8 c].

Section Uart.
Context {D : Type} {port : Z} `{U : Uart D port}.

Definition in_time (fuel : nat) (d : D) : Prop :=
  (u_wait (uart_of d) < fuel)%nat ∧ (u_latency (uart_of d) < fuel)%nat.

(** The wait for the transmitter ends, and leaves it empty. *)
Lemma wait_transmit fuel : ∀ d, (u_wait (uart_of d) < fuel)%nat →
  ∃ d', serial_wait fuel (serial_is_transmit_empty port) d = (Some tt, d') ∧
    uart_of d' = Uart_ (u_sent (uart_of d)) (u_rx (uart_of d)) 0 (u_latency (uart_of d)).
Proof.
  induction fuel as [|fuel IH]; intros d Hw; [lia|]. cbn [serial_wait].
  destruct (uart_status d) as (s & d1 & E & Ht & _ & Hd1).
  assert (serial_is_transmit_empty port d = (s .& 32, d1)) as Ep.
  { unfold serial_is_transmit_empty, mbind, io_bind. by rewrite E. }
  unfold mbind at 1, io_bind at 1. rewrite Ep.
  destruct (u_wait (uart_of d)) as [|k] eqn:Ek.
  - assert (c_true (s .& 32) = true) as Hc by (by apply Ht). unfold c_true in Hc.
    destruct (s .& 32 =? 0); [done|]. exists d1. done.
  - destruct (Z.eqb_spec (s .& 32) 0) as [_|Hne].
    + destruct (IH d1) as (d2 & E2 & Hd2); [rewrite Hd1; cbn; lia|]. exists d2.
      split; [exact E2|]. rewrite Hd2, Hd1. done.
    + assert (c_true (s .& 32) = true) as Hc by (unfold c_true; by rewrite (proj2 (Z.eqb_neq _ _) Hne)).
      apply Ht in Hc. done.
Qed.

Lemma putchar_sends fuel c d : in_time fuel d →
  ∃ d', serial_putchar fuel port c d = (Some tt, d') ∧ in_time fuel d' ∧
    u_sent (uart_of d') = u_sent (uart_of d) ++ [w8 c] ∧ u_rx (uart_of d') = u_rx (uart_of d).
Proof.
  intros [Hw Hl]. destruct (wait_transmit fuel d Hw) as (d1 & E & Hd1).
  unfold serial_putchar, mbind, io_bind. rewrite E.
  pose proof (uart_send d1 (w8 c)) as Hs. rewrite Hd1 in Hs. specialize (Hs eq_refl).
  destruct (outb (port + SERIAL_DATA) (w8 c) d1) as [u d2]. cbn [snd] in Hs. exists d2.
  split; [done|]. unfold in_time. rewrite Hs. done.
Qed.

(** On a UART whose transmitter empties within the fuel, [serial_puts]
    returns and the port has sent the string up to its NUL, each new line
    preceded by a carriage return, after what it had sent before. *)
Theorem serial_puts_correct fuel str d :
  in_time fuel d →
  ∃ d', serial_puts fuel port str d = (Some tt, d') ∧ in_time fuel d' ∧
    u_sent (uart_of d') = u_sent (uart_of d) ++ crlf (c_string str) ∧ u_rx (uart_of d') = u_rx (uart_of d).
Proof.
  revert d. induction str as [|c str IH]; intros d Ht; cbn [serial_puts c_string].
  { exists d. by rewrite app_nil_r. }
  destruct (Z.eqb_spec c 0) as [->|Hc]; [exists d; by rewrite app_nil_r|].
  unfold mbind, io_bind. unfold crlf. rewrite bind_cons. fold (crlf (c_string str)).
  destruct (Z.eqb_spec c 10) as [->|Hn].
  - destruct (putchar_sends fuel 13 d Ht) as (d1 & E1 & Ht1 & Hs1 & Hr1). rewrite E1.
    destruct (putchar_sends fuel 10 d1 Ht1) as (d2 & E2 & Ht2 & Hs2 & Hr2). rewrite E2.
    destruct (IH d2 Ht2) as (d3 & E3 & Ht3 & Hs3 & Hr3). exists d3. split; [exact E3|]. split; [exact Ht3|].
    rewrite Hs3, Hs2, Hs1, Hr3, Hr2, Hr1. change (w8 13) with 13. change (w8 10) with 10. by rewrite <-!app_assoc.
  - unfold mret, io_ret. destruct (putchar_sends fuel c d Ht) as (d2 & E2 & Ht2 & Hs2 & Hr2). rewrite E2.
    destruct (IH d2 Ht2) as (d3 & E3 & Ht3 & Hs3 & Hr3). exists d3. split; [exact E3|]. split; [exact Ht3|].
    rewrite Hs3, Hs2, Hr3, Hr2. by rewrite <-!app_assoc.
Qed.

(** A character that has arrived is read at the first poll. *)
Lemma getchar_receives fuel c rx d :
  u_rx (uart_of d) = c :: rx → u8 c →
  ∃ d', serial_getchar (S fuel) port d = (Some (s8 c), d') ∧ u_rx (uart_of d') = rx ∧
    u_sent (uart_of d') = u_sent (uart_of d).
Proof.
  intros Hrx Hc. unfold serial_getchar. cbn [serial_wait].
  destruct (uart_status d) as (s & d1 & E & _ & Hr & Hd1).
  assert (serial_received port d = (s .& 1, d1)) as Ep.
  { unfold serial_received, mbind, io_bind. by rewrite E. }
  unfold mbind, io_bind. rewrite Ep.
  assert (c_true (s .& 1) = true) as Ht by (apply Hr; by rewrite Hrx). unfold c_true in Ht.
  destruct (s .& 1 =? 0); [done|]. unfold mret, io_ret.
  destruct (uart_receive d1 c rx) as (d2 & E2 & Hd2); [by rewrite Hd1|done|].
  rewrite E2. exists d2. split; [done|]. rewrite Hd2, Hd1. done.
Qed.
End Uart.

(** ** A concrete UART *)

Definition uart_data (u : uart) : Z * uart :=
  match u_rx u with
  | [] => (0, u)
  | c :: rx => (w8 c, Uart_ (u_sent u) rx (u_wait u) (u_latency u))
  end.
Definition uart_line (u : uart) : Z :=
  (match u_wait u with O => 0x20 | _ => 0 end) + (match u_rx u with [] => 0 | _ => 1 end).
#[export] Program Instance uart_io : PortIO uart := {|
  inb p u := if p =? SERIAL_COM1 + SERIAL_LINE_STATUS
             then (uart_line u, Uart_ (u_sent u) (u_rx u) (pred (u_wait u)) (u_latency u))
             else uart_data u;
  outb p v u := (tt, Uart_ (u_sent u ++ [v]) (u_rx u) (u_latency u) (u_latency u));
  insw p u := (0, u);
  outsw p v u := (tt, u)
|}.
Next Obligation.
  intros p u. unfold u8. cbv beta. destruct (p =? SERIAL_COM1 + SERIAL_LINE_STATUS).
  - cbn [fst]. unfold uart_line. destruct (u_wait u), (u_rx u); lia.
  - unfold uart_data. destruct (u_rx u); cbn [fst]; [lia|apply w8_range].
Qed.
Next Obligation. intros p u. unfold u16. cbn. lia. Qed.

#[export] Program Instance uart_uart : Uart uart SERIAL_COM1 := {| uart_of u := u |}.
Next Obligation.
  intros u. cbn [inb uart_io]. rewrite Z.eqb_refl. eexists _, _. split; [reflexivity|].
  unfold uart_line. destruct (u_wait u), (u_rx u); cbn; (split; [done|]); (split; [|done]); done.
Qed.
Next Obligation. done. Qed.
Next Obligation.
  intros u c rx Hrx Hc. cbn. unfold uart_data. rewrite Hrx. eexists. by rewrite w8_small by exact Hc.
Qed.

Lemma serial_puts_correct_witness :
  ∃ u', serial_puts 4 SERIAL_COM1 [72; 105; 10; 0; 7] (Uart_ [1] [] 2 3) = (Some tt, u') ∧
    u_sent u' = [1; 72; 105; 13; 10].
Proof.
  destruct (serial_puts_correct (D := uart) (port := SERIAL_COM1) 4 [72; 105; 10; 0; 7] (Uart_ [1] [] 2 3))
    as (u' & E & _ & Hs & _); [split; cbn; lia|]. exists u'. split; [exact E|exact Hs].
Defined.
