(* ===== verification/Elf.v ===== *)
(** * ELF loader (kernel/elf.c, kernel/elf.h, kernel/setjmp.asm)

    The file is in physical memory at [elf_data], the segments are copied to
    their addresses in the same memory, and every field is read from memory at
    the time the code reads it.  [elf_load_and_exec] leaves the kernel by
    [iret] and comes back through [exec_longjmp]: the model gives the context
    of ring 3 it enters, and [elf_return_to_kernel] the context that
    [exec_longjmp] restores and the effects of the code after [exec_setjmp].
    The registers at the call of [exec_setjmp] and the two reads of [esp] are
    the compiler's, and parameters. *)

From Stdlib Require Import String.
From S2P Require Import Prelude Mem Pmm Paging Io Vga Gdt.

Definition EI_CLASS : Z := 4.
Definition EI_DATA : Z := 5.
Definition ELFCLASS32 : Z := 1.
Definition ELFDATA2LSB : Z := 1.
Definition ET_EXEC : Z := 2.
Definition ET_DYN : Z := 3.
Definition EM_386 : Z := 3.
Definition PT_LOAD : Z := 1.
Definition MAX_EXEC_DEPTH : Z := 8.

Definition load16 (m : mem) (a : Z) : Z := load8 m a + 256 * load8 m (a + 1).

(** ** Headers *)

(** [elf32_ehdr_t] at [h]. *)
Definition e_ident (m : mem) (h i : Z) : Z := load8 m (h + i).
Definition e_type (m : mem) (h : Z) : Z := load16 m (h + 16).
Definition e_machine (m : mem) (h : Z) : Z := load16 m (h + 18).
Definition e_entry (m : mem) (h : Z) : Z := load32 m (h + 24).
Definition e_phoff (m : mem) (h : Z) : Z := load32 m (h + 28).
Definition e_phnum (m : mem) (h : Z) : Z := load16 m (h + 44).

(** [elf32_phdr_t] at [p]. *)
Definition p_type (m : mem) (p : Z) : Z := load32 m p.
Definition p_offset (m : mem) (p : Z) : Z := load32 m (p + 4).
Definition p_vaddr (m : mem) (p : Z) : Z := load32 m (p + 8).
Definition p_filesz (m : mem) (p : Z) : Z := load32 m (p + 16).
Definition p_memsz (m : mem) (p : Z) : Z := load32 m (p + 20).
Definition sizeof_phdr : Z := 32.

(** 0x7f, 'E', 'L', 'F' *)
Definition elf_validate_header (m : mem) (h : Z) : Z :=
  if negb (e_ident m h 0 =? 0x7F) || negb (e_ident m h 1 =? 69) ||
     negb (e_ident m h 2 =? 76) || negb (e_ident m h 3 =? 70) then -1
  else if negb (e_ident m h EI_CLASS =? ELFCLASS32) then -1
  else if negb (e_ident m h EI_DATA =? ELFDATA2LSB) then -1
  else if negb (e_machine m h =? EM_386) then -1
  else if negb (e_type m h =? ET_EXEC) && negb (e_type m h =? ET_DYN) then -1
  else 0.

(** ** Segments *)

(** The body of the loop for the program header at [p]. *)
Definition load_segment (m : mem) (elf_data p : Z) : mem :=
  if p_type m p =? PT_LOAD then
    let dest := p_vaddr m p in
    let m := if 0 <? p_filesz m p
             then memcpy m dest (elf_data ⊕ p_offset m p) (Z.to_nat (p_filesz m p)) else m in
    if p_filesz m p <? p_memsz m p
    then memset m (dest ⊕ p_filesz m p) 0 (Z.to_nat (p_memsz m p - p_filesz m p)) else m
  else m.

(** [for (i = 0; i < elf_header->e_phnum; i++)]; [e_phnum] has 16 bits, which
    bounds the rounds left. *)
Fixpoint load_segments (rounds : nat) (m : mem) (elf_data ph i : Z) : mem :=
  match rounds with
  | O => m
  | S rounds =>
      if i <? e_phnum m elf_data
      then load_segments rounds (load_segment m elf_data (ph + sizeof_phdr * i)) elf_data ph (i + 1)
      else m
  end.

(** ** Contexts *)

Record exec_jmp_buf := JmpBuf { j_ebx : Z; j_esi : Z; j_edi : Z; j_ebp : Z; j_esp : Z; j_eip : Z }.

(** What [iret] loads. *)
Record user_ctx := UserCtx { uc_eip : Z; uc_cs : Z; uc_eflags : Z; uc_esp : Z; uc_ss : Z; uc_ds : Z }.

Section Elf.
Context {S : Type} `{PA : PageAllocator S} {D : Type} `{PIO : PortIO D}.

(** [x_saved] are the locals [saved_esp0] in the frames of the calls that wait
    for their program, innermost first. *)
Record exec_state := ExecState {
  x_pg : paging S;
  x_vga : vga;
  x_gdt : gdt_state;
  exec_stack : list exec_jmp_buf;
  exec_depth : Z;
  x_saved : list Z
}.

Definition map_user_page (pg : paging S) (addr : Z) : paging S :=
  paging_map pg addr addr ((PAGE_PRESENT .| PAGE_WRITABLE) .| PAGE_USER).

(** [for (addr = 0x200000; addr < 0x300000; addr += PAGE_SIZE)] and the stack page. *)
Definition map_user_pages (pg : paging S) : paging S :=
  map_user_page (fold_left map_user_page ((λ k, 0x200000 + PAGE_SIZE * k) <$> seqZ 0 256) pg) 0x300000.

(** [None] when the function returns -1, and the context of ring 3 when it
    enters the program.  [ctx] is what [exec_setjmp] saves. *)
Definition elf_load_and_exec (elf_data eflags : Z) (ctx : exec_jmp_buf) (saved_esp0 current_esp : Z)
    (st : exec_state) : io D (option user_ctx * exec_state) :=
  let m := pg_mem (x_pg st) in
  if negb (elf_validate_header m elf_data =? 0) then
    v ← vga_puts (x_vga st) (line "Invalid ELF header");
    mret (None, ExecState (x_pg st) v (x_gdt st) (exec_stack st) (exec_depth st) (x_saved st))
  else
    let ph := elf_data ⊕ e_phoff m elf_data in
    let m := load_segments (Z.to_nat 65536) m elf_data ph 0 in
    let pg := set_mem (x_pg st) m in
    let entry := e_entry m elf_data in
    v ← vga_puts (x_vga st) (chars "Executing binary at ");
    v ← vga_puthex v entry;
    v ← vga_puts v [10];
    if MAX_EXEC_DEPTH <=? exec_depth st then
      v ← vga_puts v (line "exec: max nesting depth reached");
      mret (None, ExecState pg v (x_gdt st) (exec_stack st) (exec_depth st) (x_saved st))
    else
      let pg := map_user_pages pg in
      let depth := exec_depth st in
      mret (Some (UserCtx entry 0x1B (eflags .| 0x200) 0x301000 0x23 0x23),
        ExecState pg v (tss_set_kernel_stack (x_gdt st) current_esp)
          (updZ (exec_stack st) depth ctx) (depth + 1) (saved_esp0 :: x_saved st)).

(** The context in which [elf_load_and_exec] then returns 0; [None] when there
    is none and the function returns to its caller. *)
Definition elf_return_to_kernel (st : exec_state) : option exec_jmp_buf * exec_state :=
  if 0 <? exec_depth st then
    let ctx := nthZ (JmpBuf 0 0 0 0 0 0) (exec_stack st) (exec_depth st - 1) in
    (Some ctx,
     ExecState (x_pg st) (x_vga st) (tss_set_kernel_stack (x_gdt st) (default 0 (head (x_saved st))))
       (exec_stack st) (exec_depth st - 1) (tail (x_saved st)))
  else (None, st).
End Elf.
Arguments exec_state : clear implicits.
