(* ===== verification/ElfProps.v ===== *)
(** * ELF loader: theorems

    What the loader leaves in memory, what a program it starts can reach, and
    that nested programs return in the reverse of the order they were started
    in. *)

From Stdlib Require Import String.
From S2P Require Import Prelude Mem Pmm Paging PagingProps PagingMmu Io Vga VgaProps Gdt Elf.

(** ** Segments *)

(** A program header of the file. *)
Record seg := Seg { s_load : bool; s_off : Z; s_vaddr : Z; s_filesz : Z; s_memsz : Z }.
Definition seg_at (m : mem) (p : Z) : seg :=
  Seg (p_type m p =? PT_LOAD) (p_offset m p) (p_vaddr m p) (p_filesz m p) (p_memsz m p).
Definition segs (m : mem) (elf_data : Z) : list seg :=
  (λ i, seg_at m (elf_data + e_phoff m elf_data + sizeof_phdr * i)) <$> seqZ 0 (e_phnum m elf_data).

(** The bytes a segment takes in memory. *)
Definition s_size (s : seg) : Z := Z.max (s_filesz s) (s_memsz s).
Definition s_covers (s : seg) (a : Z) : Prop := s_load s = true ∧ s_vaddr s <= a < s_vaddr s + s_size s.

(** The file lies in [elf_data, elf_data + size), the headers and the contents
    of the segments in the file, and no segment overlaps it in memory. *)
Record elf_ok (m : mem) (elf_data size : Z) : Prop := {
  eo_addr : addr_ok elf_data size;
  eo_hdr : 52 <= size;
  eo_phdr : e_phoff m elf_data + sizeof_phdr * e_phnum m elf_data <= size;
  eo_segs : Forall (λ s, s_load s = true →
    s_off s + s_filesz s <= size ∧ addr_ok (s_vaddr s) (s_size s) ∧
    (s_vaddr s + s_size s <= elf_data ∨ elf_data + size <= s_vaddr s)) (segs m elf_data)
}.

(** Byte [a] after loading [s] from the file in [m], [prev] being its value before. *)
Definition seg_byte (m : mem) (elf_data : Z) (a prev : Z) (s : seg) : Z :=
  if s_load s then
    if decide (s_vaddr s <= a < s_vaddr s + s_filesz s) then load8 m (elf_data + s_off s + (a - s_vaddr s))
    else if decide (s_vaddr s + s_filesz s <= a < s_vaddr s + s_memsz s) then 0
    else prev
  else prev.

(** The memory image of the file: later segments win. *)
Definition image_byte (m : mem) (elf_data a : Z) : Z :=
  fold_left (seg_byte m elf_data a) (segs m elf_data) (load8 m a).

(** [m'] has the same file. *)
Definition same_file (m m' : mem) (elf_data size : Z) : Prop :=
  ∀ a, elf_data <= a < elf_data + size → load8 m' a = load8 m a.

Lemma load16_ext m n a : (∀ i, a <= i < a + 2 → load8 m i = load8 n i) → load16 m a = load16 n a.
Proof. intros H. unfold load16. rewrite !H by lia. done. Qed.
Lemma load16_range m a : 0 <= load16 m a < 65536.
Proof. unfold load16. pose proof (load8_range m a). pose proof (load8_range m (a + 1)). lia. Qed.

Lemma seg_at_ext m m' p elf_data size :
  same_file m m' elf_data size → elf_data <= p → p + 32 <= elf_data + size → seg_at m' p = seg_at m p.
Proof.
  intros Hf H1 H2. unfold seg_at, p_type, p_offset, p_vaddr, p_filesz, p_memsz.
  rewrite !(load32_ext m' m) by (intros; apply Hf; lia). done.
Qed.

Lemma load_segment_spec m m0 elf_data size p :
  addr_ok elf_data size → same_file m0 m elf_data size → elf_data <= p → p + 32 <= elf_data + size →
  let s := seg_at m0 p in
  (s_load s = true → s_off s + s_filesz s <= size ∧ addr_ok (s_vaddr s) (s_size s) ∧
    (s_vaddr s + s_size s <= elf_data ∨ elf_data + size <= s_vaddr s)) →
  ∀ a, addr_ok a 1 → load8 (load_segment m elf_data p) a = seg_byte m0 elf_data a (load8 m a) s.
Proof.
  intros Hb Hf Hp1 Hp2 s Hs a Ha. unfold load_segment.
  pose proof (seg_at_ext m0 m p _ _ Hf Hp1 Hp2) as Eseg. fold s in Eseg.
  assert (∀ m', same_file m0 m' elf_data size → p_filesz m' p = s_filesz s ∧ p_memsz m' p = s_memsz s) as Hsz.
  { intros m' Hf'. pose proof (seg_at_ext m0 m' p _ _ Hf' Hp1 Hp2) as E. fold s in E. by rewrite <-E. }
  change (p_type m p =? PT_LOAD) with (s_load (seg_at m p)).
  change (p_offset m p) with (s_off (seg_at m p)). change (p_vaddr m p) with (s_vaddr (seg_at m p)).
  rewrite Eseg. destruct (Hsz m Hf) as [-> _]. unfold seg_byte.
  destruct (s_load s) eqn:El; [|done]. destruct (Hs eq_refl) as (Hoff & Hv & Hdis). clear Hs.
  assert (0 <= s_off s) as Ho by (unfold s; cbn; apply load32_range).
  assert (0 <= s_filesz s < 4294967296) as Hfz by (unfold s; cbn; apply load32_range).
  assert (0 <= s_memsz s < 4294967296) as Hmz by (unfold s; cbn; apply load32_range).
  unfold s_size, addr_ok in *. clearbody s.
  set (m1 := if 0 <? s_filesz s then _ else m).
  assert (∀ b, addr_ok b 1 → load8 m1 b = if decide (s_vaddr s <= b < s_vaddr s + s_filesz s)
    then load8 m0 (elf_data + s_off s + (b - s_vaddr s)) else load8 m b) as Hm1.
  { intros b Hb1. unfold m1. destruct (Z.ltb_spec 0 (s_filesz s)); [|by rewrite decide_False by lia].
    rewrite (w32_small (elf_data + s_off s)) by lia.
    rewrite load8_memcpy by (unfold addr_ok in *; lia). rewrite Z2Nat.id by lia. case_decide; [|done].
    rewrite Hf by lia. done. }
  assert (same_file m0 m1 elf_data size) as Hf1.
  { intros b Hb1. rewrite Hm1 by (unfold addr_ok; lia). rewrite decide_False by lia. by apply Hf. }
  destruct (Hsz m1 Hf1) as [-> ->]. destruct (Z.ltb_spec (s_filesz s) (s_memsz s)) as [Hlt|Hge].
  - rewrite load8_memset by (unfold addr_ok; rewrite ?w32_small; lia). rewrite w32_small by lia.
    rewrite Hm1 by done. repeat case_decide; done || lia.
  - rewrite Hm1 by done. repeat case_decide; done || lia.
Qed.

Lemma segs_ext m m' elf_data size :
  same_file m m' elf_data size → elf_ok m elf_data size → segs m' elf_data = segs m elf_data.
Proof.
  intros Hf [Hb Hsz Hph _]. pose proof (load32_range m (elf_data + 28)) as Ho. fold (e_phoff m elf_data) in Ho.
  assert (e_phnum m' elf_data = e_phnum m elf_data) as E1 by (apply load16_ext; intros; apply Hf; lia).
  assert (e_phoff m' elf_data = e_phoff m elf_data) as E2 by (apply load32_ext; intros; apply Hf; lia).
  unfold segs. rewrite E1, E2. apply list_fmap_ext. intros k i Hk. apply lookup_seqZ in Hk as [-> Hk].
  unfold sizeof_phdr in *. apply (seg_at_ext m m' _ elf_data size Hf); lia.
Qed.

Lemma seg_byte_outside m elf_data a prev s :
  0 <= s_filesz s → (s_load s = true → ¬ (s_vaddr s <= a < s_vaddr s + s_size s)) →
  seg_byte m elf_data a prev s = prev.
Proof.
  intros Hf Hn. unfold seg_byte, s_size in *. destruct (s_load s); [|done]. specialize (Hn eq_refl).
  rewrite !decide_False by lia. done.
Qed.

(** The loop from header [i] on. *)
Lemma load_segments_from m0 elf_data size ph : addr_ok elf_data size → 52 <= size →
  elf_data <= ph → ph + sizeof_phdr * e_phnum m0 elf_data <= elf_data + size →
  ∀ rounds i m, same_file m0 m elf_data size → 0 <= i → e_phnum m0 elf_data - i <= Z.of_nat rounds →
  let l := (λ i, seg_at m0 (ph + sizeof_phdr * i)) <$> seqZ i (e_phnum m0 elf_data - i) in
  Forall (λ s, s_load s = true → s_off s + s_filesz s <= size ∧ addr_ok (s_vaddr s) (s_size s) ∧
    (s_vaddr s + s_size s <= elf_data ∨ elf_data + size <= s_vaddr s)) l →
  ∀ a, addr_ok a 1 →
  load8 (load_segments rounds m elf_data ph i) a = fold_left (seg_byte m0 elf_data a) l (load8 m a).
Proof.
  intros Hb Hsz Hph1 Hph2. induction rounds as [|rounds IH]; intros i m Hf Hi Hr l Hl a Ha.
  { unfold l. rewrite seqZ_nil by lia. done. }
  cbn [load_segments].
  assert (e_phnum m elf_data = e_phnum m0 elf_data) as ->.
  { unfold e_phnum. apply load16_ext. intros b Hb'. apply Hf. lia. }
  destruct (Z.ltb_spec i (e_phnum m0 elf_data)) as [Hlt|Hge].
  2: { unfold l. rewrite seqZ_nil by lia. done. }
  unfold l in *. rewrite seqZ_cons in Hl |- * by lia. rewrite fmap_cons in Hl |- *. cbn [fold_left].
  inversion_clear Hl as [|? ? Hs Hl']. unfold sizeof_phdr in *.
  assert (elf_data <= ph + 32 * i) as Hp1 by lia. assert (ph + 32 * i + 32 <= elf_data + size) as Hp2 by lia.
  pose proof (load_segment_spec m m0 elf_data size (ph + 32 * i) Hb Hf Hp1 Hp2 Hs) as Hseg.
  replace (Z.pred (e_phnum m0 elf_data - i)) with (e_phnum m0 elf_data - Z.succ i) in * by lia.
  rewrite <-Hseg by done. change (i + 1) with (Z.succ i) in *.
  apply IH; [|lia|lia|done|done].
  intros b Hb1. rewrite Hseg by (unfold addr_ok in *; lia). rewrite seg_byte_outside; [by apply Hf| |].
  - cbn. apply load32_range.
  - intros El. destruct (Hs El) as (_ & _ & Hd). lia.
Qed.

Lemma load_segments_spec m elf_data size : elf_ok m elf_data size →
  ∀ a, addr_ok a 1 →
  load8 (load_segments (Z.to_nat 65536) m elf_data (elf_data ⊕ e_phoff m elf_data) 0) a = image_byte m elf_data a.
Proof.
  intros [Hb Hsz Hph Hs] a Ha. pose proof (load16_range m (elf_data + 44)) as Hn. fold (e_phnum m elf_data) in Hn.
  pose proof (load32_range m (elf_data + 28)) as Ho. fold (e_phoff m elf_data) in Ho.
  unfold image_byte, segs in *. destruct (decide (e_phnum m elf_data = 0)) as [E|E].
  { rewrite E. replace (Z.to_nat 65536) with (S (Z.to_nat 65535)) by lia. cbn [load_segments]. rewrite E. done. }
  unfold addr_ok, sizeof_phdr in *. rewrite (w32_small (elf_data + _)) by lia.
  rewrite (load_segments_from m elf_data size (elf_data + e_phoff m elf_data));
    unfold addr_ok, sizeof_phdr in *; rewrite ?Z.sub_0_r; done || lia.
Qed.

(** Bytes that no segment covers keep their values. *)
Lemma image_byte_outside m elf_data a :
  Forall (λ s, s_load s = true → ¬ (s_vaddr s <= a < s_vaddr s + s_size s)) (segs m elf_data) →
  image_byte m elf_data a = load8 m a.
Proof.
  unfold image_byte, segs. generalize (load8 m a) as prev.
  induction (seqZ 0 (e_phnum m elf_data)) as [|i l IH]; intros prev HF; [done|].
  rewrite fmap_cons in *. inversion_clear HF as [|? ? Hs HF']. cbn [fold_left].
  rewrite seg_byte_outside by (done || (cbn; apply load32_range)). by apply IH.
Qed.

(** ** The pages of the program *)

Section Exec.
Context {S : Type} `{PA : PageAllocator S}.
Implicit Types pg : paging S.

Definition user_flags : Z := (PAGE_PRESENT .| PAGE_WRITABLE) .| PAGE_USER.

(** Mapping the pages of a list to themselves for ring 3. *)
Lemma map_pages_spec l : ∀ pg,
  paging_inv pg → Forall (λ a, u32 a ∧ present (pde pg (PD_INDEX a)) = true) l →
  let pg' := fold_left map_user_page l pg in
  paging_inv pg' ∧ pg_frame pg pg' ∧
  ∀ w, u32 w → mapping pg' w =
    match list_find (λ a, w / PAGE_SIZE = a / PAGE_SIZE) (reverse l) with
    | Some (_, a) => Some (map_entry a user_flags)
    | None => mapping pg w
    end.
Proof.
  induction l as [|a l IH] using rev_ind; intros pg Hi Hl.
  { split; [done|]. split; [apply pg_frame_refl|]. done. }
  apply Forall_app in Hl as [Hl [[Ha Hpr] _]%Forall_cons]. destruct (IH pg Hi Hl) as (Hi' & Hfr & Hm).
  rewrite fold_left_app. cbn [fold_left]. set (pg1 := fold_left map_user_page l pg) in *.
  unfold map_user_page at 1. fold user_flags.
  destruct (paging_map_spec pg1 a a user_flags) as (Hi2 & Hfr2 & Hc); [done..|].
  split; [exact Hi2|]. split; [by eapply pg_frame_trans|]. intros w Hw.
  destruct Hc as [(_ & Hno & _)|[_ Hmap]].
  { assert (table_at pg (PD_INDEX a) (PAGE_FRAME (pde pg (PD_INDEX a)))) as Hta
      by (apply table_at_intro; [apply PD_INDEX_range; exact Ha|exact Hpr]).
    destruct (fr_tables _ _ Hfr _ _ Hta) as (_ & H & _). rewrite H in Hno. discriminate Hno. }
  rewrite Hmap by done. rewrite reverse_snoc. cbn [list_find].
  destruct (decide (w / PAGE_SIZE = a / PAGE_SIZE)); [done|]. rewrite Hm by done.
  destruct (list_find _ (reverse l)) as [[k b]|]; done.
Qed.

(** These mappings take no pages, and the tables stay the same. *)
Lemma map_pages_keep l : ∀ pg,
  paging_inv pg → Forall (λ a, u32 a ∧ present (pde pg (PD_INDEX a)) = true) l →
  let pg' := fold_left map_user_page l pg in
  pg_pa pg' = pg_pa pg ∧ ∀ a, table_byte pg' a → table_byte pg a.
Proof.
  induction l as [|a l IH] using rev_ind; intros pg Hi Hl; [done|].
  apply Forall_app in Hl as [Hl [[Ha Hpr] _]%Forall_cons]. destruct (map_pages_spec l pg Hi Hl) as (Hi' & Hfr & _).
  destruct (IH pg Hi Hl) as [Epa Hback]. rewrite fold_left_app. cbn [fold_left]. set (pg1 := fold_left map_user_page l pg) in *.
  unfold map_user_page at 1 2. fold user_flags.
  assert (table_at pg (PD_INDEX a) (PAGE_FRAME (pde pg (PD_INDEX a)))) as Hta
    by (apply table_at_intro; [apply PD_INDEX_range; exact Ha|exact Hpr]).
  destruct (fr_tables _ _ Hfr _ _ Hta) as (_ & H & _).
  destruct (paging_map_keeps pg1 a a user_flags Hi' Ha Ha ltac:(done) H) as [Epa1 Ht1].
  split; [by rewrite Epa1|]. intros b (p & Hp & Hr). apply Hback. exists p. split; [|exact Hr].
  destruct Hp as [->|[i Hp]]; [left|right; exists i; by apply Ht1].
  destruct (paging_map_spec pg1 a a user_flags Hi' Ha Ha ltac:(done)) as (_ & Hfr1 & _). apply (fr_pd _ _ Hfr1).
Qed.

(** The addresses of ring 3: the program and its stack page. *)
Definition user_range (w : Z) : Prop := 0x200000 <= w < 0x301000.
Definition user_pages : list Z := ((λ k, 0x200000 + PAGE_SIZE * k) <$> seqZ 0 256) ++ [0x300000].

Lemma user_pages_elem a : a ∈ user_pages ↔ user_range a ∧ a mod PAGE_SIZE = 0.
Proof.
  unfold user_pages, user_range. rewrite elem_of_app, list_elem_of_fmap, list_elem_of_singleton.
  change PAGE_SIZE with 4096. split.
  - intros [(k & -> & Hk%elem_of_seqZ)| ->]; [zdm|]. split; [lia|reflexivity].
  - intros [H1 H2]. destruct (decide (a = 0x300000)) as [->|]; [auto|left].
    exists ((a - 0x200000) / 4096). split; [zdm|]. apply elem_of_seqZ. zdm.
Qed.

Lemma map_user_pages_fold pg : map_user_pages pg = fold_left map_user_page user_pages pg.
Proof.
  assert (∀ l x, map_user_page (fold_left map_user_page l pg) x = fold_left map_user_page (l ++ [x]) pg) as H
    by (intros l x; by rewrite fold_left_app).
  apply H.
Qed.
(** The calls of [paging_map], each by the virtual addresses that the tables have
    at that moment, are these mappings: they map pages to themselves. *)
Lemma map_user_pages_mmu F pg : mmu_ok F pg →
  run_ops pg ((λ a, OpMap a a user_flags) <$> user_pages) = Some (map_user_pages pg) ∧ mmu_ok F (map_user_pages pg).
Proof.
  rewrite map_user_pages_fold. assert (Forall u32 user_pages) as HF.
  { apply Forall_forall. intros a [Ha _]%user_pages_elem. unfold user_range, u32 in *. lia. }
  revert pg. induction HF as [|a l Ha HF IH]; intros pg Hok; [done|]. cbn [fmap list_fmap run_ops run_op fold_left].
  rewrite (mmu_map_spec F pg Hok) by exact Ha. cbn [mbind option_bind]. apply IH.
  apply map_mmu_ok; [exact Hok|]. by split_and!.
Qed.

(** They are all in the first table. *)
Lemma user_pages_low pg : present (pde pg 0) = true → Forall (λ a, u32 a ∧ present (pde pg (PD_INDEX a)) = true) user_pages.
Proof.
  intros Hpr. apply Forall_forall. intros a [Ha _]%user_pages_elem. unfold user_range in Ha.
  assert (u32 a) as Hu by (unfold u32; lia). split; [exact Hu|]. rewrite PD_INDEX_val by exact Hu.
  replace (a / 4194304) with 0 by zdm. exact Hpr.
Qed.

Lemma map_user_pages_spec pg :
  paging_inv pg → present (pde pg 0) = true →
  let pg' := map_user_pages pg in
  paging_inv pg' ∧ pg_frame pg pg' ∧
  ∀ w, u32 w → mapping pg' w =
    if decide (user_range w) then Some (map_entry (w - w mod PAGE_SIZE) user_flags) else mapping pg w.
Proof.
  intros Hi Hpr pg'. unfold pg'. rewrite map_user_pages_fold.
  destruct (map_pages_spec user_pages pg Hi) as (Hi' & Hfr & Hm); [by apply user_pages_low|].
  split; [exact Hi'|]. split; [exact Hfr|]. intros w Hw. rewrite Hm by exact Hw.
  destruct (list_find _ (reverse user_pages)) as [[k a]|] eqn:E.
  - apply list_find_Some in E as (Hk & Hp & _). apply list_elem_of_lookup_2 in Hk.
    rewrite elem_of_reverse in Hk. apply user_pages_elem in Hk as [Hr Ha]. unfold user_range in *.
    change PAGE_SIZE with 4096 in *.
    rewrite decide_True by zdm. do 2 f_equal. zdm.
  - apply list_find_None in E. rewrite decide_False; [done|]. intros Hr. rewrite Forall_forall in E.
    apply (E (w - w mod PAGE_SIZE)); [|change PAGE_SIZE with 4096; zdm].
    apply elem_of_reverse, user_pages_elem. unfold user_range in *. change PAGE_SIZE with 4096. split; zdm.
Qed.

Lemma map_user_pages_keeps pg :
  paging_inv pg → present (pde pg 0) = true →
  pg_pa (map_user_pages pg) = pg_pa pg ∧ ∀ a, table_byte (map_user_pages pg) a → table_byte pg a.
Proof.
  intros Hi Hpr. rewrite map_user_pages_fold. apply map_pages_keep; [exact Hi|by apply user_pages_low].
Qed.

(** The entry of such a page: itself, open to ring 3. *)
Lemma user_entry w : u32 w →
  let e := map_entry (w - w mod PAGE_SIZE) user_flags in
  user_bit e = true ∧ PAGE_FRAME e .| (w .& 0xFFF) = w.
Proof.
  intros Hw. change PAGE_SIZE with 4096. unfold u32 in Hw.
  assert (map_entry (w - w mod 4096) user_flags = (w - w mod 4096) .| 7) as ->.
  { unfold map_entry. change 0xFFFFF000 with (4294967296 - 2 ^ 12). rewrite land_high_mask by zdm.
    change (user_flags .& 0xFFF) with 7. change PAGE_PRESENT with 1. rewrite <-Z.lor_assoc.
    change (7 .| 1) with 7. f_equal. change (2 ^ 12) with 4096. zdm. }
  split.
  - unfold user_bit. rewrite Z.lor_spec. change (Z.testbit 7 2) with true. apply orb_true_r.
  - rewrite (lor_low 12 (w - w mod 4096) 7) by zdm. unfold PAGE_FRAME.
    change 0xFFFFF000 with (4294967296 - 2 ^ 12). rewrite land_high_mask by zdm.
    change 0xFFF with (2 ^ 12 - 1). rewrite land_low_mask by lia.
    change (2 ^ 12) with 4096. rewrite (lor_low 12) by zdm. zdm.
Qed.
End Exec.

(** ** Starting a program *)

Section Start.
Context {S : Type} `{PA : PageAllocator S} {D : Type} `{PIO : PortIO D}.

(** The kernel can load the file at [elf_data]: the tables are in order and
    cover the first 4 MB, the file is a program for [0x200000, 0x300000), and
    no table lies there. *)
Record loadable (st : exec_state S) (elf_data size : Z) : Prop := {
  ld_inv : paging_inv (x_pg st);
  ld_low : present (pde (x_pg st) 0) = true;
  ld_hdr : elf_validate_header (pg_mem (x_pg st)) elf_data = 0;
  ld_elf : elf_ok (pg_mem (x_pg st)) elf_data size;
  ld_segs : Forall (λ s, s_load s = true → 0x200000 <= s_vaddr s ∧ s_vaddr s + s_size s <= 0x300000)
    (segs (pg_mem (x_pg st)) elf_data);
  ld_tables a : table_byte (x_pg st) a → ¬ 0x200000 <= a < 0x300000
}.

Definition start_text (entry : Z) : list Z :=
  chars "Executing binary at " ++ (48 :: 120 :: hex8 entry) ++ [10].

(** Bytes outside the program's memory survive the loading. *)
Lemma loaded_outside st elf_data size a :
  loadable st elf_data size → addr_ok a 1 → ¬ 0x200000 <= a < 0x300000 →
  load8 (load_segments (Z.to_nat 65536) (pg_mem (x_pg st)) elf_data
    (elf_data ⊕ e_phoff (pg_mem (x_pg st)) elf_data) 0) a = load8 (pg_mem (x_pg st)) a.
Proof.
  intros Hld Ha Hn. rewrite (load_segments_spec _ _ size) by (apply Hld || done).
  apply image_byte_outside. eapply Forall_impl; [exact (ld_segs _ _ _ Hld)|]. cbn. intros s Hs El. specialize (Hs El). lia.
Qed.

(** The loading does not change the file, so the entry point is that of the file. *)
Lemma entry_same st elf_data size :
  loadable st elf_data size →
  let m := pg_mem (x_pg st) in
  e_entry (load_segments (Z.to_nat 65536) m elf_data (elf_data ⊕ e_phoff m elf_data) 0) elf_data = e_entry m elf_data.
Proof.
  intros Hld m. pose proof (ld_elf _ _ _ Hld) as [Hb Hsz _ Hs]. unfold e_entry. apply load32_ext. intros a Ha.
  unfold addr_ok in *. unfold m. rewrite (load_segments_spec _ _ size) by (apply Hld || (unfold addr_ok; lia)).
  apply image_byte_outside. eapply Forall_impl; [exact Hs|]. cbn. intros s Hs' El.
  destruct (Hs' El) as (_ & _ & Hd). lia.
Qed.

(** The state in which ring 3 is entered. *)
Definition started (st : exec_state S) (elf_data : Z) (ctx : exec_jmp_buf) (saved current : Z) : exec_state S :=
  let m := pg_mem (x_pg st) in
  let m' := load_segments (Z.to_nat 65536) m elf_data (elf_data ⊕ e_phoff m elf_data) 0 in
  ExecState (map_user_pages (set_mem (x_pg st) m')) (put_all (x_vga st) (start_text (e_entry m elf_data)))
    (tss_set_kernel_stack (x_gdt st) current) (updZ (exec_stack st) (exec_depth st) ctx)
    (exec_depth st + 1) (saved :: x_saved st).

Lemma elf_exec_returns st elf_data size eflags ctx saved current :
  loadable st elf_data size → exec_depth st < MAX_EXEC_DEPTH →
  returns (D := D) (elf_load_and_exec elf_data eflags ctx saved current st)
    (Some (UserCtx (e_entry (pg_mem (x_pg st)) elf_data) 0x1B (eflags .| 0x200) 0x301000 0x23 0x23),
     started st elf_data ctx saved current).
Proof.
  intros Hld Hdep. pose proof (entry_same st elf_data size Hld) as Hent. cbn zeta in Hent.
  unfold elf_load_and_exec, started. rewrite (ld_hdr _ _ _ Hld). cbn [Z.eqb negb]. rewrite Hent.
  unfold start_text. rewrite !put_all_app.
  eapply returns_bind; [apply returns_puts|]. eapply returns_bind; [apply returns_puthex|].
  eapply returns_bind; [apply returns_puts|]. destruct (Z.leb_spec MAX_EXEC_DEPTH (exec_depth st)); [lia|].
  apply returns_ret.
Qed.

Lemma elf_started_spec st elf_data size eflags ctx saved current :
  loadable st elf_data size → exec_depth st < MAX_EXEC_DEPTH →
  let m := pg_mem (x_pg st) in
  let st' := started st elf_data ctx saved current in
  returns (D := D) (elf_load_and_exec elf_data eflags ctx saved current st)
    (Some (UserCtx (e_entry m elf_data) 0x1B (eflags .| 0x200) 0x301000 0x23 0x23), st') ∧
  paging_inv (x_pg st') ∧
  (∀ a, addr_ok a 1 → ¬ table_byte (x_pg st') a → load8 (pg_mem (x_pg st')) a = image_byte m elf_data a) ∧
  (∀ w, u32 w → user_range w → user_accessible (x_pg st') w = true ∧ paging_get_phys (x_pg st') w = w) ∧
  (∀ w, u32 w → ¬ user_range w → user_accessible (x_pg st') w = user_accessible (x_pg st) w) ∧
  x_vga st' = put_all (x_vga st) (start_text (e_entry m elf_data)).
Proof.
  intros Hld Hdep m st'. set (m' := load_segments (Z.to_nat 65536) m elf_data (elf_data ⊕ e_phoff m elf_data) 0).
  assert (∀ a, addr_ok a 1 → load8 m' a = image_byte m elf_data a) as Himg
    by (apply (load_segments_spec _ _ size), Hld).
  destruct (tables_ext (x_pg st) m') as (Hpde & Hmap & Hinv).
  { apply Hld. }
  { intros a Ha Ht. apply (loaded_outside st elf_data size); [done..|]. by apply Hld. }
  set (pg := set_mem (x_pg st) m') in *.
  destruct (map_user_pages_spec pg Hinv) as (Hinv' & Hfr & Hmap').
  { rewrite Hpde by lia. apply Hld. }
  split; [by eapply elf_exec_returns|]. change (x_pg st') with (map_user_pages pg). split; [exact Hinv'|]. split.
  { intros a Ha Hn. rewrite (fr_bytes _ _ Hfr a Ha Hn). apply Himg, Ha. }
  split; [|split; [|reflexivity]].
  - intros w Hw Hr. destruct (user_entry w Hw) as [Hu Hp].
    rewrite user_accessible_spec, paging_get_phys_spec, Hmap' by done. rewrite decide_True by done. auto.
  - intros w Hw Hr. rewrite !user_accessible_spec, Hmap' by (done || apply Hld).
    rewrite decide_False by done. by rewrite Hmap.
Qed.

Lemma elf_exec_spec st elf_data size eflags ctx saved current :
  loadable st elf_data size → exec_depth st < MAX_EXEC_DEPTH →
  let m := pg_mem (x_pg st) in
  ∃ st', returns (D := D) (elf_load_and_exec elf_data eflags ctx saved current st)
    (Some (UserCtx (e_entry m elf_data) 0x1B (eflags .| 0x200) 0x301000 0x23 0x23), st') ∧
  paging_inv (x_pg st') ∧
  (∀ a, addr_ok a 1 → ¬ table_byte (x_pg st') a → load8 (pg_mem (x_pg st')) a = image_byte m elf_data a) ∧
  (∀ w, u32 w → user_range w → user_accessible (x_pg st') w = true ∧ paging_get_phys (x_pg st') w = w) ∧
  (∀ w, u32 w → ¬ user_range w → user_accessible (x_pg st') w = user_accessible (x_pg st) w) ∧
  x_vga st' = put_all (x_vga st) (start_text (e_entry m elf_data)).
Proof. intros Hld Hdep m. exists (started st elf_data ctx saved current). by apply elf_started_spec with size. Qed.

(** C27: [elf_load_and_exec] on a loadable file enters ring 3 at the entry
    point with the stack at 0x301000; memory outside the page tables is the
    image of the file (segments copied, the rest of each zeroed, everything
    else untouched); ring 3 can use exactly the program's pages, mapped to
    themselves, and the pages it could use before. *)
Theorem elf_exec_correct st elf_data size eflags ctx saved current d :
  loadable st elf_data size → exec_depth st < MAX_EXEC_DEPTH →
  let m := pg_mem (x_pg st) in
  ∃ st', (elf_load_and_exec elf_data eflags ctx saved current st (d : D)).1 =
    (Some (UserCtx (e_entry m elf_data) 0x1B (eflags .| 0x200) 0x301000 0x23 0x23), st') ∧
  paging_inv (x_pg st') ∧
  (∀ a, addr_ok a 1 → ¬ table_byte (x_pg st') a → load8 (pg_mem (x_pg st')) a = image_byte m elf_data a) ∧
  (∀ w, u32 w → user_range w → user_accessible (x_pg st') w = true ∧ paging_get_phys (x_pg st') w = w) ∧
  (∀ w, u32 w → ¬ user_range w → user_accessible (x_pg st') w = user_accessible (x_pg st) w) ∧
  x_vga st' = put_all (x_vga st) (start_text (e_entry m elf_data)).
Proof.
  intros Hld Hdep m. destruct (elf_exec_spec st elf_data size eflags ctx saved current Hld Hdep) as (st' & E & H).
  exists st'. split; [apply E|exact H].
Qed.

(** Another memory with the same file and the same tables. *)
Definition at_mem (st : exec_state S) (m : mem) : exec_state S :=
  ExecState (set_mem (x_pg st) m) (x_vga st) (x_gdt st) (exec_stack st) (exec_depth st) (x_saved st).

(** A program that [elf_load_and_exec] accepts is at [elf_data]: what
    [loadable] says of the file. *)
Record program_in (m : mem) (elf_data size : Z) : Prop := {
  pi_hdr : elf_validate_header m elf_data = 0;
  pi_elf : elf_ok m elf_data size;
  pi_segs : Forall (λ s, s_load s = true → 0x200000 <= s_vaddr s ∧ s_vaddr s + s_size s <= 0x300000) (segs m elf_data)
}.

Lemma program_in_ext m m' elf_data size :
  program_in m elf_data size → same_file m m' elf_data size → program_in m' elf_data size.
Proof.
  intros [Hh He Hs] Hf. pose proof He as [Hb Hsz Hph Hsegs]. pose proof (segs_ext _ _ _ _ Hf He) as Esegs.
  assert (∀ a, elf_data <= a < elf_data + size → load8 m' a = load8 m a) as Hf' by exact Hf. split.
  - rewrite <-Hh. unfold elf_validate_header, e_ident, e_machine, e_type, EI_CLASS, EI_DATA.
    rewrite !(load16_ext m' m) by (intros; apply Hf'; lia). rewrite !Hf' by lia. done.
  - split; [done|done| |by rewrite Esegs].
    unfold e_phoff, e_phnum in *. rewrite (load16_ext m' m) by (intros; apply Hf'; lia).
    rewrite (load32_ext m' m) by (intros; apply Hf'; lia). exact Hph.
  - by rewrite Esegs.
Qed.

Lemma table_byte_ext (pg : paging S) m a :
  (∀ i, 0 <= i < 1024 → pde (set_mem pg m) i = pde pg i) → table_byte (set_mem pg m) a → table_byte pg a.
Proof.
  intros Hpde (p & Hp & Hr). exists p. split; [|exact Hr]. destruct Hp as [Hp|[i Hp]]; [by left|right].
  exists i. eapply table_at_pde; [|exact Hp]. symmetry. apply Hpde, Hp.
Qed.

Lemma loadable_ext st m elf_data size :
  loadable st elf_data size → same_file (pg_mem (x_pg st)) m elf_data size →
  (∀ a, addr_ok a 1 → table_byte (x_pg st) a → load8 m a = load8 (pg_mem (x_pg st)) a) →
  loadable (at_mem st m) elf_data size.
Proof.
  intros [Hi Hlow Hh He Hs Ht] Hf Hm. destruct (tables_ext (x_pg st) m Hi Hm) as (Hpde & _ & Hi').
  destruct (program_in_ext (pg_mem (x_pg st)) m elf_data size) as [Hh' He' Hs']; [by split|done|].
  split; cbn [x_pg at_mem pg_mem set_mem]; [done|by rewrite Hpde|done..|].
  intros a Ha. apply Ht. by eapply table_byte_ext.
Qed.

(** ** Nesting *)

(** The calls that wait for their program, innermost first: the context saved
    and the kernel stack to restore. *)
Definition waiting (st : exec_state S) : list (exec_jmp_buf * Z) :=
  zip (reverse (take (Z.to_nat (exec_depth st)) (exec_stack st))) (x_saved st).
Record exec_inv (st : exec_state S) : Prop := {
  xi_len : length (exec_stack st) = 8%nat;
  xi_depth : 0 <= exec_depth st <= MAX_EXEC_DEPTH;
  xi_saved : length (x_saved st) = Z.to_nat (exec_depth st)
}.

(** C28: The exec contexts are a stack of at most eight: starting a program
    pushes the caller's context and kernel stack pointer, and fails, leaving
    the stack as it is, when there are eight; the end of a program pops the
    innermost, resumes its caller and gives the TSS back its stack pointer;
    with no program running [elf_return_to_kernel] does nothing. *)
Theorem exec_refines_stack st elf_data eflags ctx saved current d :
  exec_inv st →
  (let '(r, st') := (elf_load_and_exec elf_data eflags ctx saved current st (d : D)).1 in
   exec_inv st' ∧
   match r with
   | Some _ => waiting st' = (ctx, saved) :: waiting st ∧ esp0 (tss (x_gdt st')) = current
   | None => waiting st' = waiting st ∧ x_gdt st' = x_gdt st ∧
       (elf_validate_header (pg_mem (x_pg st)) elf_data ≠ 0 ∨ exec_depth st = MAX_EXEC_DEPTH)
   end) ∧
  match waiting st with
  | [] => elf_return_to_kernel st = (None, st)
  | (c, e) :: w => ∃ st', elf_return_to_kernel st = (Some c, st') ∧ exec_inv st' ∧
      waiting st' = w ∧ esp0 (tss (x_gdt st')) = e
  end.
Proof.
  intros [Hl Hd Hs]. unfold MAX_EXEC_DEPTH in *. split.
  - unfold elf_load_and_exec. destruct (Z.eqb_spec (elf_validate_header (pg_mem (x_pg st)) elf_data) 0) as [E|E]; cbn [negb].
    2: { unfold mbind, io_bind. destruct (vga_puts _ _ d) as [v d1]. cbn. split; [split; done|]. auto. }
    unfold mbind, io_bind. destruct (vga_puts _ _ d) as [v d1]. destruct (vga_puthex _ _ d1) as [v2 d2].
    destruct (vga_puts _ _ d2) as [v3 d3]. unfold MAX_EXEC_DEPTH. destruct (Z.leb_spec 8 (exec_depth st)).
    { destruct (vga_puts _ _ d3) as [v4 d4]. unfold mret, io_ret. cbn [fst].
      split; [split; done|]. split; [done|]. split; [done|]. right. lia. }
    unfold mret, io_ret. cbn [fst]. split.
    { split; cbn [exec_stack exec_depth x_saved length]; [by rewrite length_updZ|unfold MAX_EXEC_DEPTH; lia|lia]. }
    split; [|done]. unfold waiting. cbn [exec_stack exec_depth x_saved].
    replace (Z.to_nat (exec_depth st + 1)) with (Datatypes.S (Z.to_nat (exec_depth st))) by lia.
    unfold updZ. rewrite decide_True by lia.
    rewrite (take_S_r _ _ ctx) by (apply list_lookup_insert_eq; lia).
    rewrite take_insert_ge by lia. by rewrite reverse_snoc.
  - unfold elf_return_to_kernel. destruct (Z.ltb_spec 0 (exec_depth st)) as [Hp|Hz].
    2: { assert (x_saved st = []) as Ex by (apply length_zero_iff_nil; lia). unfold waiting. rewrite Ex.
         by destruct (reverse _). }
    destruct (x_saved st) as [|e w] eqn:Ex; [cbn in Hs; lia|].
    destruct (lookup_lt_is_Some_2 (exec_stack st) (Z.to_nat (exec_depth st - 1))) as [c Hc]; [lia|].
    assert (waiting st = (c, e) :: zip (reverse (take (Z.to_nat (exec_depth st - 1)) (exec_stack st))) w) as ->.
    { unfold waiting. rewrite Ex. replace (Z.to_nat (exec_depth st)) with (Datatypes.S (Z.to_nat (exec_depth st - 1))) by lia.
      by rewrite (take_S_r _ _ c Hc), reverse_snoc. }
    assert (nthZ (JmpBuf 0 0 0 0 0 0) (exec_stack st) (exec_depth st - 1) = c) as ->.
    { unfold nthZ. rewrite decide_True by lia. by rewrite Hc. }
    eexists. split; [reflexivity|]. split; [|split; done].
    split; cbn [exec_stack exec_depth x_saved tail]; [done|unfold MAX_EXEC_DEPTH; lia|]. cbn in Hs. lia.
Qed.
End Start.

(** ** A program *)

(** One segment of four bytes and four zeroed ones at 0x200000. *)
Definition elf_file : list Z :=
  [0x7F; 69; 76; 70; 1; 1; 1; 0; 0; 0; 0; 0; 0; 0; 0; 0; 2; 0; 3; 0; 1; 0; 0; 0; 0; 0; 0x20; 0; 52; 0; 0; 0;
   0; 0; 0; 0; 0; 0; 0; 0; 52; 0; 32; 0; 1; 0; 0; 0; 0; 0; 0; 0] ++
  [1; 0; 0; 0; 84; 0; 0; 0; 0; 0; 0x20; 0; 0; 0; 0x20; 0; 4; 0; 0; 0; 8; 0; 0; 0; 5; 0; 0; 0; 0; 16; 0; 0] ++
  [0xEB; 0xFE; 0x90; 0x91].

(** The file at 0x10000, the page directory at 0x1000 with one table at 0x2000. *)
Definition elf_mem : mem := store32 (store_bytes ∅ 0x10000 elf_file) 0x1000 0x2003.
Definition elf_pg : paging (list Z) := Paging elf_mem 0x1000 0x1000 0x80000011 ∅ boot_pmm.
Definition jmp0 : exec_jmp_buf := JmpBuf 0 0 0 0 0 0.
Definition exec0 : exec_state (list Z) :=
  ExecState elf_pg vga0 gdt_state0 (replicate 8 jmp0) 0 [].

Lemma elf_mem_low a : addr_ok a 1 → a < 0x10000 → ¬ 0x1000 <= a < 0x1004 → load8 elf_mem a = 0.
Proof.
  intros Ha Hlt Hn. unfold elf_mem. rewrite load8_store32_far by (unfold addr_ok in *; lia).
  rewrite load8_store_bytes by (done || (unfold addr_ok; cbn; lia)).
  rewrite decide_False by lia. reflexivity.
Qed.

Lemma elf_pde i : 0 <= i < 1024 → pde elf_pg i = if decide (i = 0) then 0x2003 else 0.
Proof.
  intros Hi. unfold pde, tbl, elf_pg. cbn [pg_mem kernel_page_directory]. case_decide as E.
  - subst. unfold elf_mem. apply load32_store32_eq. unfold addr_ok. lia.
  - unfold load32. rewrite !elf_mem_low by (unfold addr_ok; lia). reflexivity.
Qed.

Lemma elf_table_at i f : table_at elf_pg i f → i = 0 ∧ f = 0x2000.
Proof.
  intros (Hi & Hp & Hf). rewrite elf_pde in Hp, Hf by done. case_decide; [subst|discriminate]. split; reflexivity.
Qed.

Lemma not_free p : page_used boot_pmm p = true → p * PAGE_SIZE ∉ pa_free boot_pmm.
Proof.
  intros Hu. cbn [pa_free pmm_allocator]. intros (q & E & [_ Hq]%elem_of_free_pages)%elem_of_free_addrs.
  change PAGE_SIZE with 4096 in E. assert (p = q) as -> by lia. congruence.
Qed.

Lemma elf_pg_inv : paging_inv elf_pg.
Proof.
  split.
  - apply boot_pmm_inv.
  - cbn. split_and!; vm_compute; congruence.
  - apply (not_free 1). vm_compute. reflexivity.
  - intros i f [_ ->]%elf_table_at. split; [split_and!; vm_compute; congruence|].
    split; [apply (not_free 2); vm_compute; reflexivity|]. cbn. lia.
  - intros i j f [-> _]%elf_table_at [-> _]%elf_table_at. done.
  - intros virt e Hv Hm Hu. exfalso. unfold mapping in Hm. rewrite elf_pde in Hm by auto with magnos.
    case_decide; [|discriminate]. change (present 0x2003) with true in Hm. change (PAGE_FRAME 0x2003) with 0x2000 in Hm.
    unfold tbl in Hm. pose proof (PT_INDEX_range virt Hv). unfold load32 in Hm.
    cbn [pg_mem elf_pg] in Hm. rewrite !elf_mem_low in Hm by (unfold addr_ok; lia). discriminate.
Qed.

Lemma elf_segs : segs elf_mem 0x10000 = [Seg true 84 0x200000 4 8].
Proof. vm_compute. reflexivity. Qed.

Lemma exec0_loadable : loadable exec0 0x10000 88.
Proof.
  split; cbn [x_pg exec0 pg_mem elf_pg].
  - exact elf_pg_inv.
  - rewrite elf_pde by lia. reflexivity.
  - vm_compute. reflexivity.
  - split.
    + unfold addr_ok. lia.
    + lia.
    + vm_compute. congruence.
    + rewrite elf_segs. constructor; [|constructor]. intros _. unfold addr_ok, s_size. cbn. lia.
  - rewrite elf_segs. constructor; [|constructor]. intros _. unfold s_size. cbn. lia.
  - intros a (p & [->|[i [_ ->]%elf_table_at]] & Hr); cbn in Hr; change PAGE_SIZE with 4096 in Hr; lia.
Qed.

Lemma elf_exec_correct_witness :
  ∃ st', (elf_load_and_exec 0x10000 0x2 jmp0 7 9 exec0 (Script [] [])).1 =
    (Some (UserCtx 0x200000 0x1B 0x202 0x301000 0x23 0x23), st') ∧
  user_accessible (x_pg st') 0x200000 = true.
Proof.
  destruct (elf_exec_correct exec0 0x10000 88 0x2 jmp0 7 9 (Script [] []) exec0_loadable)
    as (st' & E & _ & _ & Hu & _); [vm_compute; reflexivity|].
  exists st'. split; [exact E|]. apply Hu; [unfold u32; lia|unfold user_range; lia].
Defined.

Lemma exec_refines_stack_witness :
  ∃ st', (elf_load_and_exec 0x10000 0x2 jmp0 7 9 exec0 (Script [] [])).1.2 = st' ∧
    waiting exec0 = [] ∧ elf_return_to_kernel exec0 = (None, exec0).
Proof.
  destruct (exec_refines_stack exec0 0x10000 0x2 jmp0 7 9 (Script [] [])) as [_ Hr].
  - split; [reflexivity|unfold MAX_EXEC_DEPTH; cbn; lia|reflexivity].
  - eexists. split; [reflexivity|]. split; [reflexivity|exact Hr].
Defined.
