(* ===== verification/Syscall.v ===== *)
(** * System calls (kernel/syscall.c, kernel/syscall.h)

    [syscall_handler] over the components it calls.  The state holds the
    globals of the kernel; memory, where the pointers of the caller point, is
    the memory of the page tables.  The two static buffers of [SYSCALL_EXEC]
    are in memory, at addresses that are parameters.  The handler waits for
    the disk, the serial port, the clock and the keyboard: it takes fuel, and
    what happens during its [hlt] instructions is in [waits]; [None] is a wait
    that these do not cover.  A call that leaves the kernel for ring 3 or for
    another context says so in its outcome. *)

From Stdlib Require Import String.
From S2P Require Import Prelude Mem Pmm Heap Paging Process Io Keyboard Vga Args Fat32 Gdt Idt Serial Elf.

Definition SYSCALL_PRINT : Z := 1.
Definition SYSCALL_EXIT : Z := 2.
Definition SYSCALL_FILE_OPEN : Z := 3.
Definition SYSCALL_FILE_READ : Z := 4.
Definition SYSCALL_FILE_CLOSE : Z := 5.
Definition SYSCALL_LIST_DIR : Z := 6.
Definition SYSCALL_GET_ARGS : Z := 7.
Definition SYSCALL_GETCHAR : Z := 8.
Definition SYSCALL_EXEC : Z := 9.
Definition SYSCALL_CLEAR : Z := 10.
Definition SYSCALL_SLEEP : Z := 11.
Definition SYSCALL_UPTIME : Z := 12.
Definition SYSCALL_MEMINFO : Z := 13.
Definition SYSCALL_HEAP_STATS : Z := 14.
Definition SYSCALL_GETPID : Z := 15.

(** [(uint32_t)-k] *)
Definition neg (k : Z) : Z := w32 (- k).

(** The globals; [current_file] is NULL or the address of [y_file], the static
    handle of [fat32_open].  They are apart from the memory: the model is that of
    calls whose pointers do not lead into the statics of the kernel, such as
    those to the program's own memory (SyscallTypes.v shows that these keep all
    other memory). *)
Record sys := Sys {
  y_exec : exec_state (list Z);
  y_kbd : kbd;
  y_ticks : Z;
  y_fs : fat32_fs_t;
  y_file : fat32_file_t;
  current_file : bool;
  current_program_args : program_args_t;
  y_free_list : Z;
  y_heap_pages : Z;
  y_procs : list process_t;
  y_current : option Z
}.

Definition y_pg (st : sys) : paging (list Z) := x_pg (y_exec st).
Definition y_mem (st : sys) : mem := pg_mem (y_pg st).

Definition set_exec (st : sys) (x : exec_state (list Z)) : sys :=
  Sys x (y_kbd st) (y_ticks st) (y_fs st) (y_file st) (current_file st) (current_program_args st)
    (y_free_list st) (y_heap_pages st) (y_procs st) (y_current st).
Definition with_mem (st : sys) (m : mem) : sys :=
  let x := y_exec st in
  set_exec st (ExecState (Paging.set_mem (x_pg x) m) (x_vga x) (x_gdt x) (exec_stack x) (exec_depth x) (x_saved x)).
Definition with_vga (st : sys) (v : vga) : sys :=
  let x := y_exec st in
  set_exec st (ExecState (x_pg x) v (x_gdt x) (exec_stack x) (exec_depth x) (x_saved x)).
Definition with_kbd (st : sys) (k : kbd) : sys :=
  Sys (y_exec st) k (y_ticks st) (y_fs st) (y_file st) (current_file st) (current_program_args st)
    (y_free_list st) (y_heap_pages st) (y_procs st) (y_current st).
Definition with_ticks (st : sys) (t : Z) : sys :=
  Sys (y_exec st) (y_kbd st) t (y_fs st) (y_file st) (current_file st) (current_program_args st)
    (y_free_list st) (y_heap_pages st) (y_procs st) (y_current st).
Definition with_file (st : sys) (f : fat32_file_t) (cur : bool) : sys :=
  Sys (y_exec st) (y_kbd st) (y_ticks st) (y_fs st) f cur (current_program_args st)
    (y_free_list st) (y_heap_pages st) (y_procs st) (y_current st).
Definition with_args (st : sys) (a : program_args_t) : sys :=
  Sys (y_exec st) (y_kbd st) (y_ticks st) (y_fs st) (y_file st) (current_file st) a
    (y_free_list st) (y_heap_pages st) (y_procs st) (y_current st).

(** How a call ends: it returns a value, [SYSCALL_EXIT] resumes the kernel
    context of the program's caller, [SYSCALL_EXEC] enters ring 3. *)
Inductive outcome : Type :=
  | Ret (v : Z)
  | Resume (ctx : exec_jmp_buf)
  | Enter (uc : user_ctx).

(** What happens during the waits: the scancodes of the interrupts of each
    [hlt] of [SYSCALL_GETCHAR], and the values of the tick counter after each
    [hlt] of [sleep_ms]. *)
Record waits := Waits { w_keys : list (list Z); w_ticks : list Z }.

(** ** Helpers *)

(** The string at [a], up to its NUL. *)
Fixpoint load_str (fuel : nat) (m : mem) (a : Z) : option (list Z) :=
  match fuel with
  | O => None
  | S fuel =>
      if load8 m a =? 0 then Some []
      else s ← load_str fuel m (a + 1); Some (load8 m a :: s)
  end.

(** The loops that copy a name in upper case, at most [n] characters. *)
Definition upper (ch : Z) : Z := if (97 <=? ch) && (ch <=? 122) then ch - 32 else ch.
Fixpoint upper_name (s : list Z) (n : nat) : list Z :=
  match s, n with
  | ch :: s, S n => if ch =? 0 then [] else upper ch :: upper_name s n
  | _, _ => []
  end.

(** [fat32_dirinfo_t] in memory: the name with its NUL, the size at 16, the
    flag at 20. *)
Definition sizeof_dirinfo : Z := 24.
Definition store_dirinfo (m : mem) (a : Z) (i : fat32_dirinfo_t) : mem :=
  let m := store_bytes m a (d_name i ++ [0]) in
  let m := store32 m (a + 16) (d_size i) in
  store8 m (a + 20) (is_directory i).
Fixpoint store_dirinfos (m : mem) (a : Z) (l : list fat32_dirinfo_t) : mem :=
  match l with
  | [] => m
  | i :: l => store_dirinfos (store_dirinfo m a i) (a + sizeof_dirinfo) l
  end.

(** [for (i = 0; i < buf_size - 1 && arg[i]; i++) buffer[i] = arg[i];
    buffer[i] = 0;] with [n] characters of room. *)
Fixpoint store_arg (m : mem) (a : Z) (arg : list Z) (n : nat) : mem :=
  match arg, n with
  | ch :: arg, S n => if ch =? 0 then store8 m a 0 else store_arg (store8 m a ch) (a + 1) arg n
  | _, _ => store8 m a 0
  end.

Definition save_size : Z := 1048576 + 4096.
Definition program_base : Z := 0x200000.
Definition sizeof_exec_buffer : Z := 65536.

Section Syscall.
Context {D : Type} `{PIO : PortIO D} `{BD : BlockDevice D}.
(** The addresses of [exec_buffer] and [saved_program]. *)
Context (exec_buffer saved_program : Z).
Context (fuel : nat).

Definition ret {A} (a : A) : io D (option A) := mret (Some a).
Definition lift {A} (m : io D A) : io D (option A) := a ← m; mret (Some a).

Definition sys_print (arg1 : Z) (st : sys) : io D (option (outcome * sys)) :=
  if arg1 =? 0 then ret (Ret 0, st)
  else
    str ←? mret (load_str fuel (y_mem st) arg1);
    v ←? lift (vga_puts (vga_set_color (x_vga (y_exec st)) VGA_COLOR_WHITE VGA_COLOR_BLACK) str);
    _ ←? serial_puts fuel SERIAL_COM1 str;
    ret (Ret 0, with_vga st v).

Definition sys_exit (arg1 : Z) (st : sys) : io D (option (outcome * sys)) :=
  let v := vga_set_color (x_vga (y_exec st)) VGA_COLOR_LIGHT_CYAN VGA_COLOR_BLACK in
  v ←? lift (vga_puts v ([10] ++ chars "[Program exited with code: "));
  v ←? lift (vga_puthex v arg1);
  v ←? lift (vga_puts v (line "]"));
  let st := with_vga st v in
  match elf_return_to_kernel (y_exec st) with
  | (Some ctx, x) => ret (Resume ctx, set_exec st x)
  | (None, x) => ret (Ret 0, set_exec st x)
  end.

Definition sys_file_open (arg1 : Z) (st : sys) : io D (option (outcome * sys)) :=
  if arg1 =? 0 then ret (Ret (neg 1), st)
  else
    let st := if current_file st then with_file st (fat32_close (y_file st)) false else st in
    name ←? mret (load_str fuel (y_mem st) arg1);
    let uppercase_filename := upper_name name 255 in
    p ←? fat32_open fuel (y_fs st) (y_file st) uppercase_filename; let '(found, f) := p in
    let st := with_file st f found in
    ret (Ret (if found then 0 else neg 1), st).

Definition sys_file_read (arg1 arg2 : Z) (st : sys) : io D (option (outcome * sys)) :=
  if (arg1 =? 0) || negb (current_file st) then ret (Ret (neg 1), st)
  else
    p ←? fat32_read fuel (y_fs st) true (y_file st) arg2; let '(r, out, f) := p in
    let st := with_mem (with_file st f (current_file st)) (store_bytes (y_mem st) arg1 out) in
    ret (Ret (if r <? 0 then neg 1 else r), st).

Definition sys_file_close (st : sys) : io D (option (outcome * sys)) :=
  if negb (current_file st) then ret (Ret (neg 1), st)
  else ret (Ret 0, with_file st (fat32_close (y_file st)) false).

Definition sys_list_dir (arg1 arg2 : Z) (st : sys) : io D (option (outcome * sys)) :=
  if (arg1 =? 0) || (arg2 =? 0) then ret (Ret (neg 1), st)
  else
    p ←? fat32_list_dir fuel (y_fs st) true (s32 arg2); let '(count, l) := p in
    let st := with_mem st (store_dirinfos (y_mem st) arg1 l) in
    ret (Ret (if count <? 0 then neg 1 else count), st).

Definition sys_get_args (arg1 arg2 arg3 : Z) (st : sys) : io D (option (outcome * sys)) :=
  let arg_idx := s32 arg1 in
  let a := current_program_args st in
  if arg_idx =? -1 then ret (Ret (w32 (count a)), st)
  else if (arg2 =? 0) || (arg3 =? 0) then ret (Ret (neg 1), st)
  else if (arg_idx <? 0) || (count a <=? arg_idx) then ret (Ret (neg 1), st)
  else
    let m := store_arg (y_mem st) arg2 (nthZ [] (args a) arg_idx) (Z.to_nat (arg3 - 1)) in
    ret (Ret 0, with_mem st m).

(** The loop of [SYSCALL_GETCHAR]; the list are the interrupts of each [hlt]. *)
Fixpoint getchar_loop (wakes : list (list Z)) (st : sys) : io D (option (outcome * sys)) :=
  let '(c, k) := keyboard_getchar (y_kbd st) in
  let st := with_kbd st k in
  c ←? (if c =? 0 then
          r ← serial_received SERIAL_COM1;
          if negb (r =? 0) then
            c ←? serial_getchar fuel SERIAL_COM1;
            ret (if c =? 13 then 10 else c)
          else ret c
        else ret c);
  if negb (c =? 0) then ret (Ret (w8 c), st)
  else
    match wakes with
    | [] => mret None
    | scs :: wakes => getchar_loop wakes (with_kbd st (fold_left kb_handle scs (y_kbd st)))
    end.

(** The part of [SYSCALL_EXEC] that saves the caller's memory and starts the
    program in [exec_buffer].  [saved_program] is memory here; see
    [saved_program_in_hole] for the address that it is linked at. *)
Definition sys_exec_start (eflags : Z) (ctx : exec_jmp_buf) (saved_esp0 current_esp : Z) (st : sys)
  : io D (option (outcome * sys)) :=
  let st := with_mem st (memcpy (y_mem st) saved_program program_base (Z.to_nat save_size)) in
  p ←? lift (elf_load_and_exec exec_buffer eflags ctx saved_esp0 current_esp (y_exec st)); let '(r, x) := p in
  let st := set_exec st x in
  match r with
  | Some uc => ret (Enter uc, st)
  | None => ret (Ret (neg 5), with_mem st (memcpy (y_mem st) program_base saved_program (Z.to_nat save_size)))
  end.

(** [SYSCALL_EXEC] up to the entry into ring 3 or the error. *)
Definition sys_exec (arg1 eflags : Z) (ctx : exec_jmp_buf) (saved_esp0 current_esp : Z)
    (program_name : list Z) (st : sys) : io D (option (outcome * sys)) :=
  if arg1 =? 0 then ret (Ret (neg 1), st)
  else
    cmd ←? mret (load_str fuel (y_mem st) arg1);
    let '(program_name, a) := parse_command_line cmd program_name (current_program_args st) in
    let st := with_args st a in
    let filename := upper_name program_name 11 in
    p ←? fat32_open fuel (y_fs st) (y_file st) filename; let '(found, f) := p in
    let st := with_file st f (current_file st) in
    if negb found then ret (Ret (neg 1), st)
    else if sizeof_exec_buffer <? f_size f
    then ret (Ret (neg 2), with_file st (fat32_close f) (current_file st))
    else
      p ←? fat32_read fuel (y_fs st) true f (f_size f); let '(bytes_read, out, f) := p in
      let m := store_bytes (y_mem st) exec_buffer out in
      let st := with_mem (with_file st (fat32_close f) (current_file st)) m in
      if bytes_read <=? 0 then ret (Ret (neg 3), st)
      else if negb (load8 m exec_buffer =? 0x7F) || negb (load8 m (exec_buffer + 1) =? 69) ||
              negb (load8 m (exec_buffer + 2) =? 76) || negb (load8 m (exec_buffer + 3) =? 70)
      then ret (Ret (neg 4), st)
      else sys_exec_start eflags ctx saved_esp0 current_esp st.

(** The rest of [SYSCALL_EXEC], when [elf_load_and_exec] has returned 0. *)
Definition sys_exec_finish (st : sys) : outcome * sys :=
  (Ret 0, with_mem st (memcpy (y_mem st) program_base saved_program (Z.to_nat save_size))).

Definition sys_meminfo (arg1 : Z) (st : sys) : Z :=
  if arg1 =? 0 then pmm_get_free_count (pg_pa (y_pg st))
  else if arg1 =? 1 then pmm_get_total_count
  else if arg1 =? 2 then PAGE_SIZE
  else neg 1.

Definition sys_heap_stats (arg1 : Z) (st : sys) : option Z :=
  stats ← heap_get_stats fuel (Heap (y_mem st) (y_free_list st) (y_heap_pages st) (pg_pa (y_pg st)));
  Some (if arg1 =? 0 then free_bytes stats
        else if arg1 =? 1 then used_bytes stats
        else if arg1 =? 2 then total_bytes stats
        else neg 1).

Definition sys_getpid (st : sys) : Z :=
  match y_current st with
  | Some i => pid (nthZ proc0 (y_procs st) i)
  | None => 0
  end.

Definition syscall_handler (num arg1 arg2 arg3 eflags : Z) (ctx : exec_jmp_buf)
    (saved_esp0 current_esp : Z) (program_name : list Z) (w : waits) (st : sys)
  : io D (option (outcome * sys)) :=
  if num =? SYSCALL_PRINT then sys_print arg1 st
  else if num =? SYSCALL_EXIT then sys_exit arg1 st
  else if num =? SYSCALL_FILE_OPEN then sys_file_open arg1 st
  else if num =? SYSCALL_FILE_READ then sys_file_read arg1 arg2 st
  else if num =? SYSCALL_FILE_CLOSE then sys_file_close st
  else if num =? SYSCALL_LIST_DIR then sys_list_dir arg1 arg2 st
  else if num =? SYSCALL_GET_ARGS then sys_get_args arg1 arg2 arg3 st
  else if num =? SYSCALL_GETCHAR then getchar_loop (w_keys w) st
  else if num =? SYSCALL_EXEC then sys_exec arg1 eflags ctx saved_esp0 current_esp program_name st
  else if num =? SYSCALL_CLEAR then
    v ←? lift (vga_clear (x_vga (y_exec st)));
    ret (Ret 0, with_vga st v)
  else if num =? SYSCALL_SLEEP then
    t ←? mret (sleep_ms (w_ticks w) (y_ticks st) arg1);
    ret (Ret 0, with_ticks st t)
  else if num =? SYSCALL_UPTIME then ret (Ret (get_uptime_ms (y_ticks st)), st)
  else if num =? SYSCALL_MEMINFO then ret (Ret (sys_meminfo arg1 st), st)
  else if num =? SYSCALL_HEAP_STATS then
    v ←? mret (sys_heap_stats arg1 st);
    ret (Ret v, st)
  else if num =? SYSCALL_GETPID then ret (Ret (sys_getpid st), st)
  else
    v ←? lift (vga_puts (x_vga (y_exec st)) (line "[Unknown syscall]"));
    ret (Ret (neg 1), with_vga st v).
End Syscall.
