(* ===== verification/SyscallProps.v ===== *)
(** * System calls: theorems

    Reading a file in pieces gives the file, a program that executes another
    gets its memory back (when the kernel's copy of it is in memory), arguments are copied inside the caller's buffer, and
    bad requests are refused without a change of the kernel. *)

From Stdlib Require Import String.
From S2P Require Import Prelude Mem Pmm Heap Paging PagingProps Process Io Keyboard Vga VgaProps Args.
From S2P Require Import Fat32 Fat32Names Fat32Dir Fat32Props Fat32Volume Gdt Idt Serial Elf ElfProps Syscall.

(** [n] bytes at [a] are memory of the program: its image or its stack. *)
Definition in_program (a n : Z) : Prop := program_base <= a ∧ 0 <= n ∧ a + n <= program_base + save_size.

(** ** Reading files *)

Section Files.
Context {D : Type} `{PIO : PortIO D} `{BD : BlockDevice D}.
Context (drv : Z) (img : Z → list Z) (Hdev : reads_image (D := D) drv img) (Himg : image_ok img).
Context (exec_buffer saved_program : Z) (fuel : nat).
(** What the calls do not use. *)
Context (eflags saved_esp0 current_esp : Z) (ctx : exec_jmp_buf) (program_name : list Z) (w : waits).

(** A sequence of reads into buffers; the values returned. *)
Fixpoint reads (rs : list (Z * Z)) (st : sys) : io D (option (list Z * sys)) :=
  match rs with
  | [] => mret (Some ([], st))
  | (buf, size) :: rs =>
      p ←? syscall_handler exec_buffer saved_program fuel SYSCALL_FILE_READ buf size 0
             eflags ctx saved_esp0 current_esp program_name w st;
      match p with
      | (Ret v, st) => q ←? reads rs st; mret (Some (v :: q.1, q.2))
      | _ => mret None
      end
  end.

(** What the reads deliver, from the position on. *)
Fixpoint pieces (c : list Z) (pos : Z) (sizes : list Z) : list (list Z) :=
  match sizes with
  | [] => []
  | n :: sizes => let p := slice c pos n in p :: pieces c (pos + Z.of_nat (length p)) sizes
  end.

Definition sum (l : list Z) : Z := foldr Z.add 0 l.

(** Together the pieces are one read of the sum of the sizes. *)
Lemma concat_pieces c sizes : ∀ pos, 0 <= pos → Forall (λ n, 0 <= n) sizes →
  concat (pieces c pos sizes) = slice c pos (sum sizes).
Proof.
  induction sizes as [|n sizes IH]; intros pos Hp HF; [done|].
  inversion_clear HF as [|? ? Hn HF']. cbn [pieces concat sum foldr].
  assert (0 <= foldr Z.add 0 sizes) as Hs by (clear -HF'; induction HF'; cbn; lia).
  rewrite IH, slice_add by (done || lia). f_equal. fold (sum sizes). pose proof (length_slice c pos n Hp Hn) as Hl.
  destruct (decide (Z.of_nat (length (slice c pos n)) = n)) as [->|Hne]; [done|].
  assert (∀ q, Z.of_nat (length c) <= q → slice c q (sum sizes) = []) as He.
  { intros q Hq. apply length_zero_iff_nil. pose proof (length_slice c q (sum sizes)) as H.
    unfold sum in *. lia. }
  rewrite !He by lia. done.
Qed.

Lemma read_call st l buf size :
  fs_ok drv (y_fs st) → file_at img (y_fs st) l (y_file st) → valid (y_file st) ≠ 0 → current_file st = true →
  position (y_file st) <= f_size (y_file st) < 2147483648 →
  buf ≠ 0 → 0 <= size < 2147483648 → (Z.to_nat size < fuel)%nat →
  let out := slice (content img (y_fs st) l (y_file st)) (position (y_file st)) size in
  let n := Z.of_nat (length out) in
  let f := seek (y_fs st) l (y_file st) (position (y_file st) + n) in
  returns (syscall_handler exec_buffer saved_program fuel SYSCALL_FILE_READ buf size 0
             eflags ctx saved_esp0 current_esp program_name w st)
    (Some (Ret n, with_mem (with_file st f true) (store_bytes (y_mem st) buf out))) ∧
  file_at img (y_fs st) l f ∧ position f <= f_size f.
Proof using Hdev Himg.
  intros Hfs Hat Hv Hcur Hpos Hb Hs Hfu out n f.
  assert (∀ d : D, (fat32_read fuel (y_fs st) true (y_file st) size d).1 = Some (n, out, f) ∧
    file_at img (y_fs st) l f) as H.
  { intros d. apply (fat32_read_spec drv img Hdev Himg); try done; [unfold u32; lia|lia]. }
  assert (file_at img (y_fs st) l f) as Hat' .
  { unfold f, seek. pose proof (fa_pos _ _ _ _ Hat). split; [apply Hat|done|]. cbn.
    pose proof (length_chain_bytes drv img Himg (y_fs st) l Hfs) as Hlc.
    pose proof (length_slice (content img (y_fs st) l (y_file st)) (position (y_file st)) size ltac:(lia) ltac:(lia)) as Hl.
    fold out in Hl. fold n in Hl. unfold content in Hl. rewrite length_take in Hl. lia. }
  split; [|split; [exact Hat'|]].
  - unfold syscall_handler. cbn [Z.eqb Pos.eqb SYSCALL_FILE_READ SYSCALL_PRINT SYSCALL_EXIT SYSCALL_FILE_OPEN].
    unfold sys_file_read. rewrite (proj2 (Z.eqb_neq buf 0) Hb), Hcur. cbn [negb orb].
    eapply returns_obind; [intros d; apply (H d)|]. cbn beta iota zeta.
    destruct (Z.ltb_spec n 0); [lia|]. apply returns_ret.
  - cbn. pose proof (length_slice (content img (y_fs st) l (y_file st)) (position (y_file st)) size) as Hl.
    fold out in Hl. fold n in Hl. unfold content in Hl. rewrite length_take in Hl.
    pose proof (fa_pos _ _ _ _ Hat). lia.
Qed.

(** C30: A program that reads its open file (of less than 2 GB) by any sequence
    of [SYSCALL_FILE_READ] calls into buffers in its own memory gets, piece by
    piece, exactly the bytes of the file from the position on: the pieces
    together are one read of the sum of the sizes, each call returns the length
    of its piece, and the handle ends after them. *)
Theorem sys_reads_correct l rs st :
  fs_ok drv (y_fs st) → file_at img (y_fs st) l (y_file st) → valid (y_file st) ≠ 0 → current_file st = true →
  position (y_file st) <= f_size (y_file st) < 2147483648 →
  Forall (λ '(buf, size), in_program buf size ∧ (Z.to_nat size < fuel)%nat) rs →
  let c := content img (y_fs st) l (y_file st) in
  let ps := pieces c (position (y_file st)) rs.*2 in
  ∃ st', returns (reads rs st) (Some ((λ p, Z.of_nat (length p)) <$> ps, st')) ∧
    y_mem st' = fold_left (λ m '(buf, p), store_bytes m buf p) (zip rs.*1 ps) (y_mem st) ∧
    y_file st' = seek (y_fs st) l (y_file st) (position (y_file st) + Z.of_nat (length (concat ps))) ∧
    concat ps = slice c (position (y_file st)) (sum rs.*2).
Proof using Hdev Himg.
  intros Hfs Hat Hv Hcur Hpos HF c ps.
  assert (concat ps = slice c (position (y_file st)) (sum rs.*2)) as Hcat.
  { apply concat_pieces; [apply Hat|]. apply Forall_fmap. eapply Forall_impl; [exact HF|].
    intros [b n] [Hn _]. unfold in_program in Hn. cbn. lia. }
  enough (∃ st', returns (reads rs st) (Some ((λ p, Z.of_nat (length p)) <$> ps, st')) ∧
    y_mem st' = fold_left (λ m '(buf, p), store_bytes m buf p) (zip rs.*1 ps) (y_mem st) ∧
    y_file st' = seek (y_fs st) l (y_file st) (position (y_file st) + Z.of_nat (length (concat ps)))) as (st' & H)
    by (exists st'; naive_solver).
  clear Hcat. subst c ps. revert st Hfs Hat Hv Hcur Hpos. induction HF as [|[buf size] rs (Hb & Hfu) HF IH];
    intros st Hfs Hat Hv Hcur Hpos.
  { exists st. split; [apply returns_ret|]. split; [done|]. cbn. rewrite Z.add_0_r. apply Hat. }
  unfold in_program, program_base, save_size in Hb.
  destruct (read_call st l buf size Hfs Hat Hv Hcur Hpos ltac:(lia) ltac:(lia) Hfu) as (Hret & Hat' & Hle).
  cbn [fmap list_fmap fst snd pieces zip zip_with concat reads fold_left] in *.
  set (out := slice _ _ size) in *. set (f := seek _ l _ _) in *.
  set (st1 := with_mem _ _) in *.
  destruct (IH st1) as (st' & Hr & Hm & Hf); [done|done|done|done|cbn; cbn in Hle; lia|].
  exists st'. split; [|split].
  - eapply returns_obind; [exact Hret|]. cbn beta iota. eapply returns_obind; [exact Hr|]. apply returns_ret.
  - exact Hm.
  - rewrite Hf, length_app. change (y_fs st1) with (y_fs st). change (y_file st1) with f.
    unfold f, seek. cbn [position first_cluster f_size attr valid]. by rewrite Nat2Z.inj_add, !Z.add_assoc.
Qed.
End Files.

(** ** Executing programs *)

#[local] Opaque memcpy.

Section Exec.
Context {D : Type} `{PIO : PortIO D} `{BD : BlockDevice D}.
Context (exec_buffer saved_program : Z) (fuel : nat).

(** Where the kernel keeps the caller's memory: in its own memory, apart from
    the programs' and from the file. *)
Record saved_ok (size : Z) : Prop := {
  so_addr : addr_ok saved_program save_size;
  so_ram : saved_program + save_size <= 0xA0000 ∨ 0x100000 <= saved_program;
  so_user : saved_program + save_size <= 0x200000 ∨ 0x301000 <= saved_program;
  so_file : saved_program + save_size <= exec_buffer ∨ exec_buffer + size <= saved_program
}.
Definition in_saved (a : Z) : Prop := saved_program <= a < saved_program + save_size.

Lemma copy_saved m a : saved_program + save_size <= 0x200000 ∨ 0x301000 <= saved_program →
  addr_ok saved_program save_size → addr_ok a 1 →
  load8 (memcpy m saved_program program_base (Z.to_nat save_size)) a =
    (if decide (in_saved a) then load8 m (program_base + (a - saved_program)) else load8 m a) ∧
  load8 (memcpy m program_base saved_program (Z.to_nat save_size)) a =
    (if decide (user_range a) then load8 m (saved_program + (a - program_base)) else load8 m a).
Proof.
  unfold addr_ok, in_saved, user_range, save_size, program_base. intros Hd Hs Ha.
  rewrite !load8_memcpy by (unfold addr_ok; lia). rewrite Z2Nat.id by lia.
  split; repeat case_decide; reflexivity || lia.
Qed.

(** [SYSCALL_EXEC] gives the caller its memory back: when [saved_program] is in
    memory outside the hole of the PC, once the program in [exec_buffer] has been
    started, and as long as the copy is left alone until it exits (in
    particular, as long as it executes no other program, which would use the
    same buffer), the end of the call restores every byte of
    0x200000-0x301000, program and stack, to what it was.  The linker script of
    the repository does not place the buffer so ([saved_program_in_hole]). *)
Theorem sys_exec_restores st size eflags ctx saved_esp0 current_esp :
  loadable (y_exec st) exec_buffer size → exec_depth (y_exec st) < MAX_EXEC_DEPTH → saved_ok size →
  (∀ a, table_byte (y_pg st) a → ¬ in_saved a) →
  ∃ uc st1, returns (D := D)
      (sys_exec_start exec_buffer saved_program eflags ctx saved_esp0 current_esp st) (Some (Enter uc, st1)) ∧
    ∀ st2, (∀ a, in_saved a → ¬ table_byte (y_pg st1) a) →
      (∀ a, in_saved a → load8 (y_mem st2) a = load8 (y_mem st1) a) →
      let '(o, st3) := sys_exec_finish saved_program st2 in
      o = Ret 0 ∧ ∀ a, user_range a → load8 (y_mem st3) a = load8 (y_mem st) a.
Proof.
  intros Hld Hdep [Hsa _ Hsu Hsf] Htab.
  unfold sys_exec_start.
  set (m := memcpy (y_mem st) saved_program program_base (Z.to_nat save_size)).
  assert (∀ a, addr_ok a 1 → load8 m a =
    if decide (in_saved a) then load8 (y_mem st) (program_base + (a - saved_program)) else load8 (y_mem st) a) as Hm
    by (intros a Ha; exact (proj1 (copy_saved _ a Hsu Hsa Ha))).
  clearbody m.
  assert (loadable (at_mem (y_exec st) m) exec_buffer size) as Hld'.
  { pose proof (eo_addr _ _ _ (ld_elf _ _ _ Hld)) as Hb. apply loadable_ext; [done| |].
    - intros a Ha. rewrite Hm by (unfold addr_ok in *; lia). rewrite decide_False; [done|]. unfold in_saved. lia.
    - intros a Ha Ht. rewrite Hm by done. by rewrite decide_False by (by apply Htab). }
  destruct (elf_exec_spec (D := D) _ exec_buffer size eflags ctx saved_esp0 current_esp Hld' Hdep)
    as (x1 & Hret & _ & Hmem & _).
  eexists _, (set_exec (with_mem st m) x1). split.
  { eapply returns_obind; [eapply returns_bind; [exact Hret|apply returns_ret]|]. apply returns_ret. }
  intros st2 Htab1 Hkeep. unfold sys_exec_finish. split; [reflexivity|]. intros a Ha.
  assert (addr_ok a 1) as Ha1 by (unfold addr_ok, user_range in *; lia).
  transitivity (load8 (memcpy (y_mem st2) program_base saved_program (Z.to_nat save_size)) a); [reflexivity|].
  rewrite (proj2 (copy_saved _ a Hsu Hsa Ha1)), decide_True by exact Ha.
  set (b := saved_program + (a - program_base)).
  assert (in_saved b) as Hb by (unfold b, in_saved, user_range, save_size, program_base in *; lia).
  assert (addr_ok b 1) as Hb1 by (unfold addr_ok, in_saved in *; lia).
  rewrite (Hkeep b Hb). transitivity (load8 (pg_mem (x_pg x1)) b); [reflexivity|].
  rewrite (Hmem b Hb1 (Htab1 b Hb)).
  change (pg_mem (x_pg (at_mem (y_exec st) m))) with m. rewrite image_byte_outside.
  - rewrite Hm, decide_True by done. f_equal. unfold b. lia.
  - pose proof (ld_segs _ _ _ Hld') as Hs. change (pg_mem (x_pg (at_mem (y_exec st) m))) with m in Hs.
    eapply Forall_impl; [exact Hs|]. intros s Hs1 El. specialize (Hs1 El). unfold in_saved, save_size in *. lia.
Qed.
End Exec.

(** ** Arguments *)

Lemma store_arg_spec arg : ∀ m a n,
  addr_ok a (Z.of_nat n + 1) →
  let s := take n (c_string arg) in
  ∀ b, addr_ok b 1 → load8 (store_arg m a arg n) b =
    if decide (a <= b < a + Z.of_nat (length s)) then w8 (nthZ 0 s (b - a))
    else if decide (b = a + Z.of_nat (length s)) then 0 else load8 m b.
Proof.
  induction arg as [|ch arg IH]; intros m a n Ha s b Hb.
  { assert (s = []) as -> by (unfold s; destruct n; reflexivity). cbn [length store_arg].
    rewrite decide_False by lia. rewrite Z.add_0_r. case_decide as E; [subst b; by rewrite load8_store8_eq|].
    apply load8_store8_far; unfold addr_ok in *; lia. }
  destruct n as [|n].
  { unfold s. rewrite take_0. cbn [length store_arg]. rewrite decide_False by lia. rewrite Z.add_0_r.
    case_decide as E; [subst b; by rewrite load8_store8_eq|]. apply load8_store8_far; unfold addr_ok in *; lia. }
  unfold s. cbn [c_string store_arg]. destruct (Z.eqb_spec ch 0) as [->|Hch].
  { cbn [take length]. rewrite decide_False by lia. rewrite Z.add_0_r.
    case_decide as E; [subst b; by rewrite load8_store8_eq|]. apply load8_store8_far; unfold addr_ok in *; lia. }
  cbn [take length]. set (s' := take n (c_string arg)).
  rewrite IH by (unfold addr_ok in *; lia). fold s'. destruct (decide (b = a)) as [->|Hne].
  - rewrite (decide_False (P := a + 1 <= a < _)), (decide_False (P := a = _)), decide_True by lia.
    rewrite load8_store8_eq, Z.sub_diag. reflexivity.
  - rewrite load8_store8_far by (unfold addr_ok in *; lia).
    destruct (decide (a + 1 <= b < a + 1 + Z.of_nat (length s'))) as [Hin|Hout].
    + rewrite decide_True by lia. f_equal. unfold nthZ. rewrite !decide_True by lia.
      replace (Z.to_nat (b - a)) with (Datatypes.S (Z.to_nat (b - (a + 1)))) by lia. reflexivity.
    + rewrite (decide_False (P := a <= b < _)) by lia.
      destruct (decide (b = a + 1 + Z.of_nat (length s'))); [by rewrite decide_True by lia|by rewrite decide_False by lia].
Qed.

(** ** Entries of a directory *)

(** An entry takes 24 bytes. *)
Lemma store_dirinfo_far m a i b : (length (d_name i) <= 12)%nat → addr_ok a 24 → addr_ok b 1 → ¬ a <= b < a + 24 →
  load8 (store_dirinfo m a i) b = load8 m b.
Proof.
  intros Hl Ha Hb Hs. unfold store_dirinfo, addr_ok in *.
  assert (Z.of_nat (length (d_name i ++ [0])) <= 13) by (rewrite length_app; cbn; lia).
  rewrite load8_store8_far, load8_store32_far, load8_store_bytes by (unfold addr_ok; lia). by rewrite decide_False by lia.
Qed.
Lemma store_dirinfos_far l : ∀ m a b, Forall (λ i, (length (d_name i) <= 12)%nat) l → addr_ok a (24 * Z.of_nat (length l)) → addr_ok b 1 →
  ¬ a <= b < a + 24 * Z.of_nat (length l) → load8 (store_dirinfos m a l) b = load8 m b.
Proof.
  induction l as [|i l IH]; intros m a b HF Ha Hb Hs; [done|]. inversion_clear HF as [|? ? Hi HF'].
  cbn [store_dirinfos length] in *. unfold sizeof_dirinfo, addr_ok in *.
  rewrite IH by (try assumption; unfold addr_ok; lia). apply store_dirinfo_far; [done|unfold addr_ok; lia..].
Qed.

Section Calls.
Context {D : Type} `{PIO : PortIO D} `{BD : BlockDevice D}.
Context (exec_buffer saved_program : Z) (fuel : nat).
Context (eflags saved_esp0 current_esp : Z) (ctx : exec_jmp_buf) (program_name : list Z) (w : waits).

Definition call (num arg1 arg2 arg3 : Z) (st : sys) : io D (option (outcome * sys)) :=
  syscall_handler exec_buffer saved_program fuel num arg1 arg2 arg3 eflags ctx saved_esp0 current_esp program_name w st.

(** [SYSCALL_GET_ARGS] on an argument of the program returns 0 and writes
    to the buffer the argument, cut to [size - 1] characters, and its NUL, and
    no byte outside them; index -1 answers the number of arguments. *)
Theorem sys_get_args_correct idx buf size st d :
  0 <= idx < count (current_program_args st) → count (current_program_args st) < 2147483648 →
  0 < buf → 0 < size < 4294967296 → addr_ok buf size →
  let s := take (Z.to_nat (size - 1)) (c_string (nthZ [] (args (current_program_args st)) idx)) in
  ∃ st', call SYSCALL_GET_ARGS idx buf size st d = (Some (Ret 0, st'), d) ∧
    (Z.of_nat (length s) < size) ∧
    (∀ b, addr_ok b 1 → load8 (y_mem st') b =
      if decide (buf <= b < buf + Z.of_nat (length s)) then w8 (nthZ 0 s (b - buf))
      else if decide (b = buf + Z.of_nat (length s)) then 0 else load8 (y_mem st) b) ∧
    call SYSCALL_GET_ARGS 4294967295 buf size st d = (Some (Ret (count (current_program_args st)), st), d).
Proof.
  intros Hi Hc Hb Hs Ha s. unfold call, syscall_handler.
  cbn [Z.eqb Pos.eqb SYSCALL_GET_ARGS SYSCALL_LIST_DIR SYSCALL_PRINT SYSCALL_EXIT SYSCALL_FILE_OPEN
    SYSCALL_FILE_READ SYSCALL_FILE_CLOSE].
  unfold sys_get_args. assert (s32 idx = idx) as ->.
  { unfold s32. rewrite w32_small by lia. bcase; lia. }
  change (s32 4294967295) with (-1). cbn [Z.eqb Pos.eqb].
  destruct (Z.eqb_spec idx (-1)); [lia|]. destruct (Z.eqb_spec buf 0); [lia|]. destruct (Z.eqb_spec size 0); [lia|].
  destruct (Z.ltb_spec idx 0); [lia|]. destruct (Z.leb_spec (count (current_program_args st)) idx); [lia|]. cbn [orb].
  rewrite (w32_small (count _)) by lia.
  eexists. split; [reflexivity|]. split; [unfold s; rewrite length_take; lia|]. split; [|reflexivity].
  intros b Hb1. change (y_mem (with_mem st _)) with
    (store_arg (y_mem st) buf (nthZ [] (args (current_program_args st)) idx) (Z.to_nat (size - 1))).
  apply store_arg_spec; [|done]. unfold addr_ok in *. lia.
Qed.

End Calls.

(** ** A concrete kernel *)

#[local] Instance script_image : BlockDevice script := image_device.

Lemma script_reads : reads_image (D := script) 0 img.
Proof. intros lba d _. reflexivity. Qed.

Definition args0 : program_args_t := Args [[99; 97; 116; 0]; [97; 98; 0]] 2.
Definition kbd0 : kbd := Kbd (Mods 0 0 0 0) (replicate 256 0) 0 0.
(** HELLO.TXT is open and 500 bytes of it are read. *)
Definition sys0 : sys := Sys exec0 kbd0 7 vol (seek vol [3; 4] hello 500) true args0 0 0 [] None.

Lemma sys_reads_correct_witness :
  ∃ st', returns (D := script) (reads 0x10000 0x400000 64 0 0 0 jmp0 [] (Waits [] []) [(0x205000, 20); (0x206000, 30)] sys0)
      (Some ([20; 30], st')) ∧
    y_mem st' = store_bytes (store_bytes (y_mem sys0) 0x205000 (replicate 12 3 ++ replicate 8 4)) 0x206000 (replicate 30 4).
Proof.
  destruct (sys_reads_correct (D := script) 0 img script_reads img_ok 0x10000 0x400000 64 0 0 0 jmp0 []
    (Waits [] []) [3; 4] [(0x205000, 20); (0x206000, 30)] sys0) as (st' & Hr & Hm & _).
  - exact vol_ok.
  - split; [exact hello_chain|reflexivity|vm_compute; split; congruence].
  - discriminate.
  - reflexivity.
  - vm_compute. split; congruence.
  - repeat constructor; unfold program_base, save_size; cbn; lia.
  - exists st'. split; [exact Hr|]. rewrite Hm. vm_compute. reflexivity.
Defined.

Lemma sys0_saved : saved_ok 0x10000 0x400000 88.
Proof. split; unfold addr_ok, save_size; lia. Qed.

Lemma sys_exec_restores_witness :
  ∃ uc st1, returns (D := script)
      (sys_exec_start 0x10000 0x400000 0x2 jmp0 0 0 sys0) (Some (Enter uc, st1)) ∧
    ∀ st2, (∀ a, in_saved 0x400000 a → ¬ table_byte (y_pg st1) a) →
      (∀ a, in_saved 0x400000 a → load8 (y_mem st2) a = load8 (y_mem st1) a) →
      let '(o, st3) := sys_exec_finish 0x400000 st2 in
      o = Ret 0 ∧ ∀ a, user_range a → load8 (y_mem st3) a = load8 (y_mem sys0) a.
Proof.
  apply (sys_exec_restores 0x10000 0x400000 sys0 88 0x2 jmp0 0 0).
  - exact exec0_loadable.
  - vm_compute. reflexivity.
  - exact sys0_saved.
  - intros a (p & [->|[i [_ ->]%elf_table_at]] & Hr); unfold in_saved; cbn in Hr; change PAGE_SIZE with 4096 in Hr; lia.
Defined.

Lemma sys_get_args_correct_witness :
  ∃ st', call 0x10000 0x400000 64 0 0 0 jmp0 [] (Waits [] []) SYSCALL_GET_ARGS 1 0x5000 2 sys0 (Script [] []) =
    (Some (Ret 0, st'), Script [] []) ∧ load8 (y_mem st') 0x5001 = 0.
Proof.
  destruct (sys_get_args_correct (D := script) 0x10000 0x400000 64 0 0 0 jmp0 [] (Waits [] []) 1 0x5000 2 sys0 (Script [] []))
    as (st' & E & _ & Hm & _); [cbn; lia|cbn; lia|lia|lia|unfold addr_ok; lia|].
  exists st'. split; [exact E|]. rewrite Hm by (unfold addr_ok; lia). reflexivity.
Defined.

