(* ===== verification/SyscallTypes.v ===== *)
(** * System calls: what they keep of the kernel

    The model keeps the statics of the kernel in the fields of [sys], integers
    and lists, beside the memory.  That is faithful as long as the handler
    stores nothing in the kernel through a pointer of the program, which it does
    not check.  For calls whose buffer is memory of the program, shown here: the
    handler writes no byte outside that memory ([kernel_kept]), and, whatever
    the devices and the disk do, words stay within their width, arrays keep their
    length, indices stay inside, and what the caller gets in EAX is a 32-bit
    word ([sys_typed]). *)

From Stdlib Require Import String.
From stdpp Require Import gmap.
From S2P Require Import Prelude Mem Pmm Heap Paging Io Keyboard KeyboardProps Vga VgaProps Args ArgsProps Fat32 Process.
From S2P Require Import Fat32Names Fat32Dir Fat32Props Fat32Volume Gdt Idt Serial Elf ElfProps Syscall SyscallProps.

(** ** Results of computations that may not return *)

Definition opt {A} (Q : A → Prop) (o : option A) : Prop := match o with Some a => Q a | None => True end.

Section Gives.
Context {D : Type}.

(** Whatever the devices do, the result is in [Q]. *)
Definition gives {A} (m : io D A) (Q : A → Prop) : Prop := ∀ d, Q (m d).1.

Lemma gives_ret {A} (a : A) (Q : A → Prop) : Q a → gives (mret a) Q.
Proof. intros H d. exact H. Qed.
Lemma gives_bind {A B} (m : io D A) (k : A → io D B) P Q :
  gives m P → (∀ a, P a → gives (k a) Q) → gives (m ≫= k) Q.
Proof. intros Hm Hk d. unfold mbind, io_bind. specialize (Hm d). destruct (m d) as [a d']. by apply Hk. Qed.
Lemma gives_obind {A B} (m : io D (option A)) (k : A → io D (option B)) P Q :
  gives m (opt P) → (∀ a, P a → gives (k a) (opt Q)) → gives (obind m k) (opt Q).
Proof. intros Hm Hk. eapply gives_bind; [exact Hm|]. intros [a|] Ha; [by apply Hk|by apply gives_ret]. Qed.
Lemma gives_returns {A} (m : io D A) a (Q : A → Prop) : returns m a → Q a → gives m Q.
Proof. intros Hm Ha d. by rewrite Hm. Qed.
Lemma gives_mono {A} (m : io D A) (P Q : A → Prop) : gives m P → (∀ a, P a → Q a) → gives m Q.
Proof. intros Hm H d. apply H, Hm. Qed.
Lemma gives_any {A} (m : io D A) : gives m (λ _, True).
Proof. done. Qed.
Lemma gives_opt {A} (m : io D (option A)) : gives m (opt (λ _, True)).
Proof. intros d. by destruct (m d).1. Qed.
End Gives.

(** ** File handles *)

Record file_typed (f : fat32_file_t) : Prop := {
  ft_first : u32 (first_cluster f);
  ft_current : u32 (current_cluster f);
  ft_size : u32 (f_size f);
  ft_position : u32 (position f);
  ft_attr : u8 (attr f);
  ft_valid : u8 (valid f)
}.

Lemma close_typed f : file_typed f → file_typed (fat32_close f).
Proof. intros []. by split. Qed.

Lemma le8_u8 b off : Forall u8 b → u8 (le8 b off).
Proof. intros HF. apply (nthZ_Forall u8); [exact HF|unfold u8; lia]. Qed.
Lemma le32_u32 b off : Forall u8 b → u32 (le32 b off).
Proof.
  intros HF. pose proof (le8_u8 b off HF). pose proof (le8_u8 b (off + 1) HF). pose proof (le8_u8 b (off + 2) HF).
  pose proof (le8_u8 b (off + 2 + 1) HF). unfold le32, le16, u8, u32 in *. lia.
Qed.
Lemma entry_typed e : Forall u8 e → file_typed (entry_file e).
Proof.
  intros He. split; cbn; [apply w32_range|apply w32_range|by apply le32_u32|unfold u32; lia|by apply le8_u8|unfold u8; lia].
Qed.
Lemma sector_entries_u8 sec e : Forall u8 sec → e ∈ sector_entries sec → Forall u8 e.
Proof. intros HF (j & -> & _)%list_elem_of_fmap. unfold slice. by apply Forall_take, Forall_drop. Qed.

Section Disk.
Context {D : Type} `{BD : BlockDevice D}.

Lemma gives_sector drv lba : gives (D := D) (read_sector drv lba) (opt (Forall u8)).
Proof.
  intros d. destruct ((read_sector drv lba d).1) as [bs|] eqn:E; [|done]. by apply (read_sector_ok drv lba d bs).
Qed.

Lemma gives_next fs c : gives (D := D) (fat32_get_next_cluster fs c) u32.
Proof.
  unfold fat32_get_next_cluster. destruct (_ || _); [by apply gives_ret|]. eapply gives_bind; [apply gives_sector|].
  intros [sec|] Hs; apply gives_ret; [|done]. pose proof (le32_u32 sec (4 * ((c ⊗ 4) mod FAT32_SECTOR_SIZE / 4)) Hs) as Hu.
  destruct (_ <=? _); [done|]. apply land_u32; [apply Hu|done].
Qed.

(** The walk over a directory: [I] holds of the state of the loop, [Q] of what
    is returned from it. *)
Definition flow_ok {R A} (Q : R → Prop) (I : A → Prop) (f : flow R A) : Prop :=
  match f with Return r => Q r | Continue a => I a end.

Lemma gives_sectors {R A} fs (err : A → R) (body : list Z → A → io D (flow R A)) (Q : R → Prop) (I : A → Prop) :
  (∀ a, I a → Q (err a)) → (∀ sec a, Forall u8 sec → I a → gives (body sec a) (flow_ok Q I)) →
  ∀ n sector a, I a → gives (scan_sectors fs err body sector n a) (flow_ok Q I).
Proof.
  intros He Hb. induction n as [|n IH]; intros sector a Ha; cbn [scan_sectors]; [by apply gives_ret|].
  eapply gives_bind; [apply gives_sector|]. intros [sec|] Hs; [|apply gives_ret; by apply He].
  eapply gives_bind; [by apply Hb|]. intros [r|a'] Hr; [by apply gives_ret|by apply IH].
Qed.
Lemma gives_scan {R A} fs cond (err : A → R) (body : list Z → A → io D (flow R A)) (Q : R → Prop) (I : A → Prop) :
  (∀ a, I a → Q (err a)) → (∀ sec a, Forall u8 sec → I a → gives (body sec a) (flow_ok Q I)) →
  ∀ fuel c a, I a → gives (scan_dir fuel fs cond err body c a) (opt (flow_ok Q I)).
Proof.
  intros He Hb. induction fuel as [|fuel IH]; intros c a Ha; cbn [scan_dir]; [by apply gives_ret|].
  destruct (_ && _); [|by apply gives_ret]. eapply gives_bind; [by apply (gives_sectors fs err body Q I)|].
  intros [r|a'] Hr; [by apply gives_ret|]. eapply gives_bind; [apply gives_any|]. intros next _. by apply IH.
Qed.

Lemma open_entries_typed nm es : Forall (Forall u8) es →
  flow_ok (opt file_typed) (λ _, True) (open_entries nm es).
Proof.
  induction 1 as [|e es He _ IH]; cbn [open_entries]; [done|]. repeat bcase; try done. by apply entry_typed.
Qed.
Lemma gives_open fuel fs f nm : file_typed f → gives (D := D) (fat32_open fuel fs f nm) (opt (λ p, file_typed p.2)).
Proof.
  intros Hf. unfold fat32_open. bcase; [by apply gives_ret|].
  eapply gives_bind; [apply (gives_scan fs _ _ _ (opt file_typed) (λ _, True)); [done| |done]|].
  - intros sec [] Hs _. apply gives_ret, open_entries_typed, Forall_forall. intros e. by apply sector_entries_u8.
  - intros [[[f'|]|[]]|] Hr; by apply gives_ret.
Qed.

Lemma list_entries_count max es : ∀ acc, Z.of_nat (length acc) <= Z.max 0 max →
  flow_ok (λ p, -1 <= p.1 <= Z.max 0 max) (λ acc, Z.of_nat (length acc) <= Z.max 0 max) (list_entries max es acc).
Proof.
  induction es as [|e es IH]; intros acc Ha; cbn [list_entries]; [done|].
  destruct (Z.ltb_spec (Z.of_nat (length acc)) max); [|done]. bcase; [cbn; lia|]. bcase; apply IH; [|lia].
  rewrite length_app. cbn. lia.
Qed.
Lemma gives_list fuel fs b max :
  gives (D := D) (fat32_list_dir fuel fs b max) (opt (λ p, -1 <= p.1 <= Z.max 0 max)).
Proof.
  unfold fat32_list_dir. destruct (_ || _); [apply gives_ret; cbn; lia|].
  eapply gives_bind; [apply (gives_scan fs _ _ _ (λ p : Z * list fat32_dirinfo_t, -1 <= p.1 <= Z.max 0 max)
    (λ acc, Z.of_nat (length acc) <= Z.max 0 max)); [cbn; lia| |cbn; lia]|].
  - intros sec acc _ Ha. apply gives_ret. by apply list_entries_count.
  - intros [[p|acc]|] Hr; apply gives_ret; [exact Hr|cbn in *; lia|done].
Qed.

Lemma gives_read_loop fuel fs : ∀ f n out, file_typed f →
  gives (D := D) (read_loop fuel fs f n out) (opt (λ p, file_typed p.2)).
Proof.
  induction fuel as [|fuel IH]; intros f n out Hf; cbn [read_loop]; [by apply gives_ret|].
  destruct (_ && _); [|by apply gives_ret]. destruct (_ =? 0); [by apply gives_ret|].
  eapply gives_bind; [apply gives_sector|]. intros [sec|] _; [|by apply gives_ret].
  eapply (gives_bind _ _ u32).
  - destruct (_ =? 0); [apply gives_next|apply gives_ret, Hf].
  - intros cl Hcl. apply IH. destruct Hf. split; cbn; try assumption. apply w32_range.
Qed.
Lemma gives_read fuel fs b f n : file_typed f →
  gives (D := D) (fat32_read fuel fs b f n) (opt (λ p, -2147483648 <= p.1.1 < 2147483648 ∧ file_typed p.2)).
Proof.
  intros Hf. unfold fat32_read. destruct (_ || _); [apply gives_ret; split; [cbn; lia|exact Hf]|].
  eapply gives_bind; [by apply gives_read_loop|]. intros [[out f']|] Hr; apply gives_ret; [|done].
  split; [|exact Hr]. cbn. unfold s32. pose proof (w32_range (Z.of_nat (length out))). bcase; lia.
Qed.

(** At most the bytes asked for, whatever is on the disk. *)
Lemma gives_read_length fuel fs : ∀ f n out, u32 n →
  gives (D := D) (read_loop fuel fs f n out) (opt (λ p, Z.of_nat (length p.1) <= Z.of_nat (length out) + n)).
Proof.
  induction fuel as [|fuel IH]; intros f n out Hn; cbn [read_loop]; [by apply gives_ret|]. unfold u32 in Hn.
  destruct (Z.ltb_spec 0 n) as [Hn0|]; cbn [andb]; [|apply gives_ret; cbn; lia].
  destruct (_ <? _); [|apply gives_ret; cbn; lia]. destruct (_ =? 0); [by apply gives_ret|]. cbv zeta.
  eapply gives_bind; [apply gives_any|]. intros [sec|] _; [|apply gives_ret; cbn; lia].
  set (k := if n <? _ then n else _). set (m := if k <? _ then k else _).
  assert (0 <= m <= n) as Hm.
  { assert (0 <= k <= n) as Hk.
    { unfold k. match goal with |- context [n <? ?x] => destruct (Z.ltb_spec n x); [lia|] end. pose proof (w32_range
        (sectors_per_cluster (bpb fs) * FAT32_SECTOR_SIZE - position f mod (sectors_per_cluster (bpb fs) * FAT32_SECTOR_SIZE))). lia. }
    clearbody k. unfold m. match goal with |- context [k <? ?x] => destruct (Z.ltb_spec k x); [lia|] end.
    pose proof (w32_range (FAT32_SECTOR_SIZE - position f mod (sectors_per_cluster (bpb fs) * FAT32_SECTOR_SIZE) mod FAT32_SECTOR_SIZE)). lia. }
  clearbody m. eapply gives_bind; [apply gives_any|]. intros cl _.
  eapply gives_mono; [apply IH; unfold u32; rewrite w32_small by lia; lia|]. intros [[o f']|]; [|done]. cbn.
  rewrite w32_small, length_app by lia. unfold slice. rewrite length_take. lia.
Qed.
Lemma gives_read_out fuel fs b f n : file_typed f → u32 n → position f <= f_size f →
  gives (D := D) (fat32_read fuel fs b f n) (opt (λ p, Z.of_nat (length p.1.2) <= n)).
Proof.
  intros Hf Hn Hp. unfold fat32_read. destruct (_ || _); [apply gives_ret; unfold u32 in Hn; cbn; lia|].
  set (k := if _ <? _ then _ else _). assert (u32 k ∧ k <= n) as [Hk Hkn].
  { pose proof (ft_position _ Hf). pose proof (ft_size _ Hf). unfold k, u32 in *. rewrite (w32_small (_ - _)) by lia.
    bcase; [|lia]. split; [lia|]. unfold w32 in *. zdm. }
  eapply gives_bind; [by apply (gives_read_length fuel fs f k [])|]. intros [[out f']|] Hr; apply gives_ret; [|done].
  cbn in *. lia.
Qed.

Lemma list_entries_names max es : ∀ acc, Z.of_nat (length acc) <= Z.max 0 max → Forall (λ i, (length (d_name i) <= 12)%nat) acc →
  let I acc := Z.of_nat (length acc) <= Z.max 0 max ∧ Forall (λ i, (length (d_name i) <= 12)%nat) acc in
  flow_ok (λ p, I p.2) I (list_entries max es acc).
Proof.
  induction es as [|e es IH]; intros acc Ha HF I; cbn [list_entries]; [done|].
  destruct (Z.ltb_spec (Z.of_nat (length acc)) max); [|done]. bcase; [done|]. bcase; [|by apply IH]. apply IH.
  - rewrite length_app. cbn. lia.
  - apply Forall_app. split; [done|]. constructor; [|constructor]. cbn.
    pose proof (name_to_string_length (entry_name e)). lia.
Qed.
Lemma gives_list_names fuel fs b max :
  gives (D := D) (fat32_list_dir fuel fs b max)
    (opt (λ p, Z.of_nat (length p.2) <= Z.max 0 max ∧ Forall (λ i, (length (d_name i) <= 12)%nat) p.2)).
Proof.
  set (I := λ acc : list fat32_dirinfo_t, Z.of_nat (length acc) <= Z.max 0 max ∧ Forall (λ i, (length (d_name i) <= 12)%nat) acc).
  assert (I []) as H0 by (split; [cbn; lia|constructor]).
  unfold fat32_list_dir. destruct (_ || _); [by apply gives_ret|].
  eapply gives_bind; [apply (gives_scan fs _ _ _ (λ p : Z * list fat32_dirinfo_t, I p.2) I); [done| |done]|].
  - intros sec acc _ [Ha HF]. apply gives_ret. by apply list_entries_names.
  - intros [[p|acc]|] Hr; by apply gives_ret.
Qed.
End Disk.

(** ** The loader's pages *)

Section Pages.
Context {S : Type} `{PA : PageAllocator S}.

Lemma paging_map_pa (pg : paging S) virt phys flags :
  pa_inv (pg_pa pg) → pa_inv (pg_pa (paging_map pg virt phys flags)).
Proof.
  intros Hi. unfold paging_map, map_table. destruct (negb _).
  - destruct (pa_alloc (pg_pa pg)) as [pt pa] eqn:Ha. destruct (takes_alloc _ _ _ Hi Ha) as [Hi' _].
    destruct (pt =? 0); cbn iota beta; [exact Hi'|]. unfold map_user. destruct (c_true _); exact Hi'.
  - cbn iota beta. unfold map_user. destruct (c_true _); exact Hi.
Qed.
Lemma map_user_pages_pa (pg : paging S) : pa_inv (pg_pa pg) → pa_inv (pg_pa (map_user_pages pg)).
Proof.
  rewrite map_user_pages_fold. generalize user_pages as l. intros l. revert pg.
  induction l as [|a l IH]; intros pg Hi; cbn [fold_left]; [exact Hi|]. apply IH, paging_map_pa, Hi.
Qed.
End Pages.

(** ** The state *)

Definition args_typed (a : program_args_t) : Prop := rows_ok (args a) ∧ 0 <= count a <= MAX_ARGS.
Record exec_typed (x : exec_state (list Z)) : Prop := {
  et_pmm : pmm_inv (pg_pa (x_pg x));
  et_vga : vga_inv (x_vga x);
  et_stack : Z.of_nat (length (exec_stack x)) = MAX_EXEC_DEPTH;
  et_depth : 0 <= exec_depth x <= MAX_EXEC_DEPTH
}.
Record sys_typed (st : sys) : Prop := {
  st_exec : exec_typed (y_exec st);
  st_kbd : kb_inv (y_kbd st);
  st_ticks : u32 (y_ticks st);
  st_file : file_typed (y_file st);
  st_args : args_typed (current_program_args st);
  st_procs : Forall (λ p, u32 (pid p)) (y_procs st)
}.

Definition result_typed (p : outcome * sys) : Prop :=
  sys_typed p.2 ∧ match p.1 with Ret v => u32 v | _ => True end.

Lemma typed_vga st v : sys_typed st → vga_inv v → sys_typed (with_vga st v).
Proof. intros [[] ? ? ? ? ?] Hv. split; try assumption. split; assumption. Qed.
Lemma typed_mem st m : sys_typed st → sys_typed (with_mem st m).
Proof. intros [[] ? ? ? ? ?]. split; try assumption. split; assumption. Qed.
Lemma typed_exec st x : sys_typed st → exec_typed x → sys_typed (set_exec st x).
Proof. intros [] Hx. split; assumption. Qed.
Lemma typed_kbd st k : sys_typed st → kb_inv k → sys_typed (with_kbd st k).
Proof. intros [] Hk. split; assumption. Qed.
Lemma typed_file st f b : sys_typed st → file_typed f → sys_typed (with_file st f b).
Proof. intros [] Hf. split; assumption. Qed.
Lemma typed_args st a : sys_typed st → args_typed a → sys_typed (with_args st a).
Proof. intros [] Ha. split; assumption. Qed.
Lemma typed_ticks st t : sys_typed st → u32 t → sys_typed (with_ticks st t).
Proof. intros [] Ht. split; assumption. Qed.

Lemma neg_u32 k : u32 (neg k).
Proof. apply w32_range. Qed.
Lemma zero_u32 : u32 0.
Proof. unfold u32; lia. Qed.

Create HintDb typed.
#[local] Hint Resolve typed_vga typed_mem typed_exec typed_kbd typed_file typed_args typed_ticks neg_u32 zero_u32
  close_typed put_all_inv st_exec st_kbd st_ticks st_file st_args st_procs et_vga et_pmm : typed.

(** ** The calls *)

Lemma color_inv v fg bg : vga_inv v → vga_inv (vga_set_color v fg bg).
Proof. intros []. split; try assumption. apply w8_range. Qed.
Lemma fill_inv v : vga_inv v → vga_inv (vga_fill v).
Proof.
  intros Hi. destruct (vga_fill_spec v 0 0 (vg_len _ Hi)) as [Hl _]; [split; vga_lia|].
  destruct Hi. split; [exact Hl|cbn; vga_lia|cbn; vga_lia|assumption].
Qed.

Lemma load_str_nul_free fuel m : ∀ a, opt nul_free (load_str fuel m a).
Proof.
  induction fuel as [|fuel IH]; intros a; cbn [load_str]; [done|]. destruct (Z.eqb_spec (load8 m a) 0); [constructor|].
  specialize (IH (a + 1)). destruct (load_str fuel m (a + 1)); cbn; [|done]. by constructor.
Qed.
Lemma parse_typed cmd p a : nul_free cmd → length p = 64%nat → rows_ok (args a) →
  args_typed (parse_command_line cmd p a).2.
Proof.
  intros Hn Hp Ha. pose proof (parse_spec cmd p a Hn Hp Ha) as H. destruct (parse_command_line cmd p a) as [p' a'].
  destruct H as (_ & Hr & _ & Hc & _). split; [exact Hr|]. cbn. rewrite Hc, length_take. unfold MAX_ARGS. lia.
Qed.

Lemma count_bits_u32 b : ∀ c, u32 c → u32 (count_bits b c).
Proof.
  unfold count_bits. generalize (seqZ 0 8) as l. induction l as [|k l IH]; intros c Hc; cbn [fold_left]; [exact Hc|].
  apply IH. destruct (negb _); [apply w32_range|exact Hc].
Qed.
Lemma free_count_u32 bm : u32 (pmm_get_free_count bm).
Proof.
  unfold pmm_get_free_count. generalize 0, zero_u32.
  induction bm as [|b bm IH]; intros c Hc; cbn [fold_left]; [exact Hc|]. by apply IH, count_bits_u32.
Qed.
Lemma meminfo_u32 arg1 st : u32 (sys_meminfo arg1 st).
Proof.
  unfold sys_meminfo. repeat (destruct (_ =? _)); [apply free_count_u32|done|done|apply neg_u32].
Qed.

Lemma stats_loop_u32 m fuel : ∀ cur fb nb, u32 fb → opt (λ p, u32 p.1) (stats_loop m cur fb nb fuel).
Proof.
  induction fuel as [|fuel IH]; intros cur fb nb Hf; cbn [stats_loop]; [done|]. destruct (cur =? 0); [exact Hf|].
  destruct (c_true _); apply IH; [apply w32_range|exact Hf].
Qed.
Lemma heap_stats_u32 fuel arg1 st : opt u32 (sys_heap_stats fuel arg1 st).
Proof.
  unfold sys_heap_stats, heap_get_stats. cbn.
  pose proof (stats_loop_u32 (y_mem st) fuel (y_free_list st) 0 0 zero_u32) as H.
  destruct (stats_loop _ _ _ _ _) as [[fb nb]|]; cbn in *; [|done].
  repeat (destruct (_ =? _)); [exact H|apply w32_range..].
Qed.
Lemma getpid_u32 st : sys_typed st → u32 (sys_getpid st).
Proof.
  intros Hs. unfold sys_getpid. destruct (y_current st) as [i|]; [|done].
  by apply (nthZ_Forall (λ p, u32 (pid p)) proc0); [apply st_procs|].
Qed.
Lemma sleep_u32 ws target : ∀ t, u32 t → Forall u32 ws → opt u32 (sleep_loop ws t target).
Proof.
  induction ws as [|w ws IH]; intros t Ht HF; cbn [sleep_loop]; (destruct (t <? target); [|exact Ht]); [done|].
  inversion_clear HF. by apply IH.
Qed.

#[local] Opaque memcpy load_segments map_user_pages vga_fill put_all.

Section Calls.
Context {D : Type} `{PIO : PortIO D} `{BD : BlockDevice D}.
Context (exec_buffer saved_program : Z) (fuel : nat).

Lemma gives_puts v str : vga_inv v → gives (D := D) (lift (vga_puts v str)) (opt vga_inv).
Proof. intros Hv. eapply gives_bind; [eapply gives_returns; [apply returns_puts|apply put_all_inv, Hv]|]. intros. by apply gives_ret. Qed.
Lemma gives_puthex v n : vga_inv v → gives (D := D) (lift (vga_puthex v n)) (opt vga_inv).
Proof. intros Hv. eapply gives_bind; [eapply gives_returns; [apply returns_puthex|apply put_all_inv, Hv]|]. intros. by apply gives_ret. Qed.

Lemma gives_clear v : vga_inv v → gives (D := D) (lift (vga_clear v)) (opt vga_inv).
Proof.
  intros Hv. eapply (gives_bind _ _ vga_inv); [|by intros; apply gives_ret].
  eapply gives_bind; [apply gives_any|]. intros _ _. apply gives_ret, fill_inv, Hv.
Qed.

Lemma gives_done p : result_typed p → gives (D := D) (ret p) (opt result_typed).
Proof. intros. by apply gives_ret. Qed.

Lemma print_typed arg1 st : sys_typed st → gives (D := D) (sys_print fuel arg1 st) (opt result_typed).
Proof.
  intros Hs. unfold sys_print. destruct (arg1 =? 0); [apply gives_done; split; cbn; auto with typed|].
  eapply gives_obind; [apply gives_opt|]. intros str _.
  eapply gives_obind; [apply gives_puts, color_inv; auto with typed|]. intros v Hv.
  eapply gives_obind; [apply gives_opt|]. intros _ _. apply gives_done. split; cbn; auto with typed.
Qed.

Lemma return_typed x : exec_typed x → exec_typed (elf_return_to_kernel x).2.
Proof.
  intros []. unfold elf_return_to_kernel. destruct (Z.ltb_spec 0 (exec_depth x)); [|by split].
  split; try assumption. cbn. lia.
Qed.
Lemma exit_typed arg1 st : sys_typed st → gives (D := D) (sys_exit arg1 st) (opt result_typed).
Proof.
  intros Hs. unfold sys_exit.
  eapply gives_obind; [apply gives_puts, color_inv; auto with typed|]. intros v1 H1.
  eapply gives_obind; [by apply gives_puthex|]. intros v2 H2.
  eapply gives_obind; [by apply gives_puts|]. intros v3 H3. set (st1 := with_vga st v3).
  assert (sys_typed st1) as Hs1 by (unfold st1; auto with typed).
  pose proof (return_typed (y_exec st1) (st_exec _ Hs1)) as Hx.
  destruct (elf_return_to_kernel (y_exec st1)) as [[c|] x]; apply gives_done; split; cbn in *; auto with typed.
Qed.

Lemma open_typed arg1 st : sys_typed st → gives (D := D) (sys_file_open fuel arg1 st) (opt result_typed).
Proof.
  intros Hs. unfold sys_file_open. destruct (arg1 =? 0); [apply gives_done; split; cbn; auto with typed|].
  set (st1 := if current_file st then _ else _). assert (sys_typed st1) as Hs1
    by (unfold st1; destruct (current_file st); auto with typed).
  eapply gives_obind; [apply gives_opt|]. intros name _.
  eapply gives_obind; [apply gives_open; auto with typed|]. intros [found f] Hf. apply gives_done.
  split; cbn in *; [auto with typed|]. destruct found; auto with typed.
Qed.

Lemma read_typed arg1 arg2 st : sys_typed st → gives (D := D) (sys_file_read fuel arg1 arg2 st) (opt result_typed).
Proof.
  intros Hs. unfold sys_file_read. destruct (_ || _); [apply gives_done; split; cbn; auto with typed|].
  eapply gives_obind; [apply gives_read; auto with typed|]. intros [[r out] f] [Hr Hf]. apply gives_done.
  split; cbn in *; [auto with typed|]. destruct (Z.ltb_spec r 0); [auto with typed|unfold u32; lia].
Qed.

Lemma close_call_typed st : sys_typed st → gives (D := D) (sys_file_close st) (opt result_typed).
Proof. intros Hs. unfold sys_file_close. destruct (negb _); apply gives_done; split; cbn; auto with typed. Qed.

Lemma list_typed arg1 arg2 st : sys_typed st → gives (D := D) (sys_list_dir fuel arg1 arg2 st) (opt result_typed).
Proof.
  intros Hs. unfold sys_list_dir. destruct (_ || _); [apply gives_done; split; cbn; auto with typed|].
  eapply gives_obind; [apply gives_list|]. intros [n l] Hn. apply gives_done.
  split; cbn in *; [auto with typed|]. destruct (Z.ltb_spec n 0); [auto with typed|].
  assert (s32 arg2 < 2147483648) by (unfold s32; pose proof (w32_range arg2); bcase; lia). unfold u32. lia.
Qed.

Lemma get_args_typed arg1 arg2 arg3 st : sys_typed st →
  gives (D := D) (sys_get_args arg1 arg2 arg3 st) (opt result_typed).
Proof.
  intros Hs. unfold sys_get_args. destruct (_ =? -1); [apply gives_done; split; cbn; [done|apply w32_range]|].
  destruct (_ || _); [apply gives_done; split; cbn; auto with typed|].
  destruct (_ || _); apply gives_done; split; cbn; auto with typed.
Qed.

Lemma getchar_typed wakes : ∀ st, sys_typed st → gives (D := D) (getchar_loop fuel wakes st) (opt result_typed).
Proof.
  induction wakes as [|scs wakes IH]; intros st Hs; cbn [getchar_loop];
    (destruct (keyboard_getchar (y_kbd st)) as [c k] eqn:E;
     pose proof (proj1 (getchar_spec (y_kbd st) (st_kbd _ Hs))) as Hk; rewrite E in Hk; cbn in Hk;
     eapply gives_obind; [apply gives_opt|]; intros c' _; destruct (negb _);
     [apply gives_done; split; cbn; [auto with typed|pose proof (w8_range c'); unfold u32; lia]|]).
  - by apply gives_ret.
  - apply IH, typed_kbd; [auto with typed|]. cbn. clear -Hk. revert k Hk.
    induction scs as [|sc scs IH]; intros k Hk; cbn [fold_left]; [exact Hk|]. by apply IH, kb_handle_spec.
Qed.

Lemma gives_print v str {A} (k : vga → io D A) Q :
  vga_inv v → (∀ v', vga_inv v' → gives (k v') Q) → gives (vga_puts v str ≫= k) Q.
Proof. intros Hv Hk. eapply gives_bind; [eapply gives_returns; [apply returns_puts|apply put_all_inv, Hv]|exact Hk]. Qed.

Lemma loader_typed data eflags ctx saved current x : exec_typed x →
  gives (D := D) (elf_load_and_exec data eflags ctx saved current x) (λ p, exec_typed p.2).
Proof.
  intros [Hp Hv Hl Hd]. unfold elf_load_and_exec. destruct (negb _).
  { apply gives_print; [exact Hv|]. intros v' Hv'. apply gives_ret. split; assumption. }
  apply gives_print; [exact Hv|]. intros v1 H1.
  eapply gives_bind; [eapply gives_returns; [apply returns_puthex|apply put_all_inv, H1]|]. intros v2 H2.
  apply gives_print; [exact H2|]. intros v3 H3. destruct (Z.leb_spec MAX_EXEC_DEPTH (exec_depth x)).
  { apply gives_print; [exact H3|]. intros v' Hv'. apply gives_ret. split; assumption. }
  apply gives_ret. split; cbn [snd x_pg x_vga exec_stack exec_depth]; [|exact H3|by rewrite length_updZ|lia].
  exact (map_user_pages_pa (set_mem _ _) Hp).
Qed.

Lemma exec_start_typed eflags ctx saved current st : sys_typed st →
  gives (D := D) (sys_exec_start exec_buffer saved_program eflags ctx saved current st) (opt result_typed).
Proof.
  intros Hs. unfold sys_exec_start. set (st1 := with_mem st _). assert (sys_typed st1) as Hs1 by exact (typed_mem _ _ Hs).
  clearbody st1. apply (gives_obind _ _ (λ p : option user_ctx * _, exec_typed p.2)).
  { eapply gives_bind; [apply loader_typed, st_exec, Hs1|]. intros p Hp. by apply gives_ret. }
  intros [[uc|] x] Hx; cbn [snd] in Hx; apply gives_done; (split; [cbn [snd]|cbn [fst]]).
  - exact (typed_exec _ _ Hs1 Hx).
  - exact I.
  - exact (typed_mem _ _ (typed_exec _ _ Hs1 Hx)).
  - apply neg_u32.
Qed.

Lemma exec_typed_call arg1 eflags ctx saved current pname st : sys_typed st → length pname = 64%nat →
  gives (D := D) (sys_exec exec_buffer saved_program fuel arg1 eflags ctx saved current pname st) (opt result_typed).
Proof.
  intros Hs Hn. unfold sys_exec. destruct (arg1 =? 0); [apply gives_done; split; cbn; auto with typed|].
  eapply gives_obind; [apply gives_ret, load_str_nul_free|]. intros cmd Hc.
  pose proof (parse_typed cmd pname _ Hc Hn (proj1 (st_args _ Hs))) as Ha.
  destruct (parse_command_line cmd pname _) as [pn a]. cbn [snd] in Ha. set (st1 := with_args st a).
  assert (sys_typed st1) as Hs1 by exact (typed_args _ _ Hs Ha).
  eapply gives_obind; [apply gives_open, st_file, Hs1|]. intros [found f] Hf. cbn [snd] in Hf.
  destruct (negb found); [apply gives_done; split; cbn [fst snd]; auto with typed|].
  destruct (_ <? _); [apply gives_done; split; cbn [fst snd]; auto with typed|].
  eapply gives_obind; [apply gives_read, Hf|]. intros [[r out] f'] [_ Hf']. cbn [snd] in Hf'.
  destruct (_ <=? _); [apply gives_done; split; cbn [fst snd]; auto with typed|].
  destruct (_ || _); [apply gives_done; split; cbn [fst snd]; auto with typed|].
  apply exec_start_typed; auto with typed.
Qed.

Lemma handler_typed num arg1 arg2 arg3 eflags ctx saved current pname w st :
  sys_typed st → length pname = 64%nat → Forall u32 (w_ticks w) →
  gives (D := D) (syscall_handler exec_buffer saved_program fuel num arg1 arg2 arg3 eflags ctx saved current pname w st)
    (opt result_typed).
Proof.
  intros Hs Hn Hw.
  unfold syscall_handler. destruct (num =? SYSCALL_PRINT); [by apply print_typed|].
  destruct (num =? SYSCALL_EXIT); [by apply exit_typed|].
  destruct (num =? SYSCALL_FILE_OPEN); [by apply open_typed|].
  destruct (num =? SYSCALL_FILE_READ); [by apply read_typed|].
  destruct (num =? SYSCALL_FILE_CLOSE); [by apply close_call_typed|].
  destruct (num =? SYSCALL_LIST_DIR); [by apply list_typed|].
  destruct (num =? SYSCALL_GET_ARGS); [by apply get_args_typed|].
  destruct (num =? SYSCALL_GETCHAR); [by apply getchar_typed|].
  destruct (num =? SYSCALL_EXEC); [by apply exec_typed_call|].
  destruct (num =? SYSCALL_CLEAR).
  { eapply gives_obind; [apply gives_clear, et_vga, st_exec, Hs|]. intros v Hv. apply gives_done; split; cbn [fst snd]; auto with typed. }
  destruct (num =? SYSCALL_SLEEP).
  { eapply gives_obind; [apply gives_ret, sleep_u32; [apply Hs|exact Hw]|]. intros t Ht.
    apply gives_done; split; cbn [fst snd]; auto with typed. }
  destruct (num =? SYSCALL_UPTIME); [apply gives_done; split; [exact Hs|apply w32_range]|].
  destruct (num =? SYSCALL_MEMINFO); [apply gives_done; split; [exact Hs|apply meminfo_u32]|].
  destruct (num =? SYSCALL_HEAP_STATS).
  { eapply gives_obind; [apply gives_ret, heap_stats_u32|]. intros v Hv. by apply gives_done. }
  destruct (num =? SYSCALL_GETPID); [apply gives_done; split; [exact Hs|by apply getpid_u32]|].
  eapply gives_obind; [apply gives_puts; auto with typed|]. intros v Hv. apply gives_done; split; cbn [fst snd]; auto with typed.
Qed.

(** *** Memory *)

(** The call is one whose buffer, if it has one, is memory of the program.  What
    [SYSCALL_EXEC] writes depends on the file it loads. *)
Definition user_call (st : sys) (num a1 a2 a3 : Z) : Prop :=
  num ≠ SYSCALL_EXEC ∧
  (num = SYSCALL_FILE_READ → a1 ≠ 0 → in_program a1 a2 ∧ position (y_file st) <= f_size (y_file st)) ∧
  (num = SYSCALL_LIST_DIR → a1 ≠ 0 → in_program a1 (sizeof_dirinfo * a2)) ∧
  (num = SYSCALL_GET_ARGS → a2 ≠ 0 → in_program a2 a3).

(** Memory that is not the program's is as it was. *)
Definition kernel_kept (m m' : mem) : Prop := ∀ a, addr_ok a 1 → ¬ user_range a → load8 m' a = load8 m a.
Definition keeps_kernel (st : sys) (p : outcome * sys) : Prop := kernel_kept (y_mem st) (y_mem p.2).

Lemma kept_done st p : y_mem p.2 = y_mem st → gives (D := D) (ret p) (opt (keeps_kernel st)).
Proof. intros E. apply gives_ret. unfold opt, keeps_kernel. rewrite E. by intros a. Qed.

Lemma read_kept arg1 arg2 st : sys_typed st → u32 arg2 →
  (arg1 ≠ 0 → in_program arg1 arg2 ∧ position (y_file st) <= f_size (y_file st)) →
  gives (D := D) (sys_file_read fuel arg1 arg2 st) (opt (keeps_kernel st)).
Proof.
  intros Hs Hn Hu. unfold sys_file_read. destruct (Z.eqb_spec arg1 0) as [|Ha]; [by apply kept_done|].
  destruct (Hu Ha) as [Hb Hp]. cbn [orb]. destruct (negb _); [by apply kept_done|].
  eapply gives_obind; [apply gives_read_out; [apply Hs|done|done]|]. intros [[r out] f] Hl. apply gives_ret. cbn in *.
  intros a Haok Hr. unfold keeps_kernel, in_program, program_base, save_size, user_range in *. cbn.
  change (load8 (store_bytes (y_mem st) arg1 out) a = load8 (y_mem st) a).
  rewrite load8_store_bytes by (unfold addr_ok in *; lia). by rewrite decide_False by lia.
Qed.

Lemma list_kept arg1 arg2 st : u32 arg2 → (arg1 ≠ 0 → in_program arg1 (sizeof_dirinfo * arg2)) →
  gives (D := D) (sys_list_dir fuel arg1 arg2 st) (opt (keeps_kernel st)).
Proof.
  intros Hn Hu. unfold sys_list_dir. destruct (Z.eqb_spec arg1 0) as [|Ha]; [by apply kept_done|].
  specialize (Hu Ha). cbn [orb]. destruct (_ =? 0); [by apply kept_done|].
  eapply gives_obind; [apply gives_list_names|]. intros [n l] [Hl HF]. apply gives_ret. cbn in Hl, HF.
  intros a Haok Hr. unfold in_program, program_base, save_size, sizeof_dirinfo, user_range, u32 in *.
  assert (Z.max 0 (s32 arg2) <= arg2) by (unfold s32; rewrite w32_small by lia; bcase; lia).
  change (load8 (store_dirinfos (y_mem st) arg1 l) a = load8 (y_mem st) a).
  apply store_dirinfos_far; [done|unfold addr_ok in *; lia|done|lia].
Qed.

Lemma args_kept arg1 arg2 arg3 st : u32 arg3 → (arg2 ≠ 0 → in_program arg2 arg3) →
  gives (D := D) (sys_get_args arg1 arg2 arg3 st) (opt (keeps_kernel st)).
Proof.
  intros Hn Hu. unfold sys_get_args. destruct (_ =? -1); [by apply kept_done|].
  destruct (Z.eqb_spec arg2 0) as [|Ha]; [by apply kept_done|]. specialize (Hu Ha). cbn [orb].
  destruct (Z.eqb_spec arg3 0); [by apply kept_done|]. destruct (_ || _); [by apply kept_done|]. apply gives_ret.
  set (arg := nthZ _ _ _). intros a Haok Hr. unfold in_program, program_base, save_size, user_range, u32 in *.
  change (load8 (store_arg (y_mem st) arg2 arg (Z.to_nat (arg3 - 1))) a = load8 (y_mem st) a).
  rewrite store_arg_spec by (unfold addr_ok in *; lia).
  assert (Z.of_nat (length (take (Z.to_nat (arg3 - 1)) (c_string arg))) <= arg3 - 1) by (rewrite length_take; lia).
  by rewrite !decide_False by lia.
Qed.

Lemma getchar_kept wakes : ∀ st, gives (D := D) (getchar_loop fuel wakes st) (opt (keeps_kernel st)).
Proof.
  induction wakes as [|scs wakes IH]; intros st; cbn [getchar_loop];
    (destruct (keyboard_getchar (y_kbd st)) as [c k]; eapply gives_obind; [apply gives_opt|]; intros c' _;
     destruct (negb _); [by apply kept_done|]); [by apply gives_ret|exact (IH (with_kbd (with_kbd st k) _))].
Qed.

Lemma exit_kept arg1 st : gives (D := D) (sys_exit arg1 st) (opt (keeps_kernel st)).
Proof.
  unfold sys_exit. do 3 (eapply gives_obind; [apply gives_opt|]; intros ? _).
  unfold elf_return_to_kernel. destruct (_ <? _); by apply kept_done.
Qed.

Lemma handler_kept num arg1 arg2 arg3 eflags ctx saved current pname w st :
  sys_typed st → u32 arg2 → u32 arg3 → user_call st num arg1 arg2 arg3 →
  gives (D := D) (syscall_handler exec_buffer saved_program fuel num arg1 arg2 arg3 eflags ctx saved current pname w st)
    (opt (keeps_kernel st)).
Proof.
  intros Hs H2 H3 (He & Hr & Hl & Ha). unfold syscall_handler.
  destruct (num =? SYSCALL_PRINT).
  { unfold sys_print. destruct (_ =? 0); [by apply kept_done|].
    do 3 (eapply gives_obind; [apply gives_opt|]; intros ? _). by apply kept_done. }
  destruct (num =? SYSCALL_EXIT); [apply exit_kept|].
  destruct (num =? SYSCALL_FILE_OPEN).
  { unfold sys_file_open. destruct (_ =? 0); [by apply kept_done|].
    do 2 (eapply gives_obind; [apply gives_opt|]; intros ? _). case_match. apply kept_done. by destruct (current_file st). }
  destruct (Z.eqb_spec num SYSCALL_FILE_READ); [apply read_kept; auto|].
  destruct (num =? SYSCALL_FILE_CLOSE); [unfold sys_file_close; destruct (negb _); by apply kept_done|].
  destruct (Z.eqb_spec num SYSCALL_LIST_DIR); [apply list_kept; auto|].
  destruct (Z.eqb_spec num SYSCALL_GET_ARGS); [apply args_kept; auto|].
  destruct (num =? SYSCALL_GETCHAR); [apply getchar_kept|].
  destruct (Z.eqb_spec num SYSCALL_EXEC); [done|].
  destruct (num =? SYSCALL_CLEAR); [eapply gives_obind; [apply gives_opt|]; intros ? _; by apply kept_done|].
  destruct (num =? SYSCALL_SLEEP); [eapply gives_obind; [apply gives_opt|]; intros ? _; by apply kept_done|].
  destruct (num =? SYSCALL_UPTIME); [by apply kept_done|].
  destruct (num =? SYSCALL_MEMINFO); [by apply kept_done|].
  destruct (num =? SYSCALL_HEAP_STATS); [eapply gives_obind; [apply gives_opt|]; intros ? _; by apply kept_done|].
  destruct (num =? SYSCALL_GETPID); [by apply kept_done|].
  eapply gives_obind; [apply gives_opt|]; intros ? _; by apply kept_done.
Qed.

End Calls.

(** ** A concrete call *)

#[local] Instance script_image : BlockDevice script := image_device.

(** HELLO.TXT is open and 500 bytes of it are read. *)
Definition typed_sys : sys :=
  Sys (ExecState (x_pg exec0) vga0 (x_gdt exec0) (replicate 8 jmp0) 1 [0]) kb0 7 vol (seek vol [3; 4] hello 500) true
    (Args (replicate 16 (replicate 64 7)) 5) 0 0 [] None.

Lemma typed_sys_ok : sys_typed typed_sys.
Proof.
  split; [split; [exact boot_pmm_inv|exact vga0_inv|reflexivity|cbn; unfold MAX_EXEC_DEPTH; lia]|exact kb0_inv|unfold u32; cbn; lia|
    |split; [split; [reflexivity|by apply Forall_replicate]|cbn; unfold MAX_ARGS; lia]|constructor].
  split; vm_compute; split; congruence.
Qed.

Lemma typed_sys_call : user_call typed_sys SYSCALL_FILE_READ 0x205000 20 0.
Proof. split; [discriminate|]. split; [|split; discriminate]. intros _ _. vm_compute. repeat split; discriminate. Qed.

