(* ===== verification/IsrKernel.v ===== *)
(** * Interrupts on the kernel

    The stubs of isr.asm with the handlers they have in the kernel: [schedule]
    of process.c for the timer and [syscall_handler] of syscall.c for
    [int 0x80], over the one state [sys].  A system call that does not come back
    to the stub (the exit of a program, the start of another) is outside of what
    an interrupt returns to, and so is a switch to another process, which
    ProcessRun.v follows until the process is resumed. *)

From stdpp Require Import gmap.
From S2P Require Import Prelude Mem Pmm Heap Paging Process ProcessProps Io Keyboard Vga Args Fat32 Gdt Idt Isr IsrProps.
From S2P Require Import Serial Elf ElfProps Fat32Volume Syscall SyscallProps SyscallTypes.

(** ** The state as [isr_handler] has it *)

Definition to_sys (st : kernel (mem * sys)) : sys :=
  with_mem (with_ticks (with_kbd (with_vga (k_rest st).2 (k_vga st)) (k_kbd st)) (pit_ticks st)) (k_rest st).1.
Definition of_sys (y : sys) : kernel (mem * sys) := Kernel (x_vga (y_exec y)) (y_kbd y) (y_ticks y) (y_mem y, y).

Lemma to_of y : to_sys (of_sys y) = y.
Proof. by destruct y as [[[] ? ? ? ? ?] ? ? ? ? ? ? ? ? ? ?]. Qed.
Lemma to_set_kmem y m : to_sys (set_kmem (of_sys y) m) = with_mem y m.
Proof. by destruct y as [[[] ? ? ? ? ?] ? ? ? ? ? ? ? ? ? ?]. Qed.
Lemma kmem_to st : y_mem (to_sys st) = kmem st.
Proof. done. Qed.

Section Kernel.
Context {D : Type} `{PIO : PortIO D} `{BD : BlockDevice D}.
Context (exec_buffer saved_program : Z) (fuel : nat).
Context (eflags saved_esp0 current_esp : Z) (ctx : exec_jmp_buf) (program_name : list Z) (w : waits).
(** The process table, the pid to come, and the processor at the call of [schedule]. *)
Context (table_base next_pid : Z) (c0 : cpu) (sra : Z).

Definition procs_of (y : sys) : procs (list Z) :=
  Procs (y_procs y) (y_current y) next_pid (y_mem y) (pg_pa (y_pg y)).
Definition with_procs (y : sys) (p : procs (list Z)) : sys :=
  with_mem (Sys (y_exec y) (y_kbd y) (y_ticks y) (y_fs y) (y_file y) (current_file y) (current_program_args y)
    (y_free_list y) (y_heap_pages y) (proc_table p) (current_proc p)) (pr_mem p).

Definition timer_schedule (st : kernel (mem * sys)) : io D (kernel (mem * sys)) :=
  mret (of_sys (with_procs (to_sys st) (schedule table_base c0 (procs_of (to_sys st)) sra).2)).

Definition handle (num a1 a2 a3 : Z) (y : sys) : io D (option (outcome * sys)) :=
  syscall_handler exec_buffer saved_program fuel num a1 a2 a3 eflags ctx saved_esp0 current_esp program_name w y.
(** Only [Ret] comes back to [isr_handler]: a call that exits, starts a program
    or does not end leaves it for good, and the value here for these is nothing
    that a statement is about. *)
Definition int80 (num a1 a2 a3 : Z) (st : kernel (mem * sys)) : io D (Z * kernel (mem * sys)) :=
  r ← handle num a1 a2 a3 (to_sys st);
  mret match r with
       | Some (Syscall.Ret v, y) => (v, of_sys y)
       | _ => (0, st)
       end.

Definition kernel_interrupt (n err cr2 esp0 handler ra : Z) (scratch : regs) (c : icpu) (y : sys)
  : io D (option icpu * kernel (mem * sys)) :=
  interrupt timer_schedule int80 n err cr2 esp0 handler ra scratch c (of_sys y).

(** ** No switch *)

(** No process but the current one is ready, as in the kernel as it is
    compiled, which creates no other. *)
Definition alone (y : sys) : Prop :=
  match y_current y with
  | None => True
  | Some cur => 0 <= cur < MAX_PROCESSES ∧
      ∀ i, 0 <= i < MAX_PROCESSES → i ≠ cur → Process.state (nthZ proc0 (y_procs y) i) ≠ PROC_READY
  end.

Lemma schedule_alone y : alone y → schedule table_base c0 (procs_of y) sra = (c0, procs_of y).
Proof.
  unfold alone, schedule. cbn [current_proc procs_of]. destruct (y_current y) as [cur|]; [|done]. intros [Hc Ha].
  unfold MAX_PROCESSES in *.
  assert (find_first (λ i, i =? cur) (seqZ 0 16) = Some cur) as ->
    by (apply find_first_seqZ; [lia|apply Z.eqb_refl|intros i Hi; apply Z.eqb_neq; lia]). cbn [default].
  assert (next_slot (procs_of y) cur < 0 ∨ next_slot (procs_of y) cur = cur) as Hn.
  { unfold next_slot, MAX_PROCESSES. destruct (find_first _ _) as [i|] eqn:E; [right|left; cbn; lia].
    apply find_first_Some in E as [(k & -> & Hk%elem_of_seqZ)%list_elem_of_fmap Hr]. cbn [default].
    apply bool_decide_eq_true in Hr. pose proof (Z.rem_bound_pos (cur + k) 16 ltac:(lia) ltac:(lia)) as Hb.
    destruct (decide (Z.rem (cur + k) 16 = cur)) as [|Hne]; [done|]. destruct (Ha _ Hb Hne Hr). }
  cbv zeta. unfold id. assert ((next_slot (procs_of y) cur <? 0) || (next_slot (procs_of y) cur =? cur) = true) as -> by lia. done.
Qed.
Lemma with_procs_id y : with_procs y (procs_of y) = y.
Proof. by destruct y as [[[] ? ? ? ? ?] ? ? ? ? ? ? ? ? ? ?]. Qed.

(** An interrupt of the controllers touches no memory. *)
Lemma irq_keeps cr2 r st d : 32 <= int_no r → int_no r ≠ 128 → alone (to_sys st) →
  ∃ r' st' d', isr_handler timer_schedule int80 cr2 r st d = ((Some r', st'), d') ∧ kmem st' = kmem st.
Proof.
  intros Hn Hs Ha. unfold isr_handler. destruct (Z.ltb_spec (int_no r) 32); [lia|].
  destruct (Z.eqb_spec (int_no r) 128); [done|]. cbv zeta.
  assert (∀ k : kernel (mem * sys), to_sys k = with_ticks (to_sys st) (pit_ticks k) →
    (∀ d, (timer_schedule k d).1 = of_sys (to_sys k))) as Hsch.
  { intros k Ek d'. unfold timer_schedule. cbn [mret io_ret fst]. rewrite schedule_alone, with_procs_id; [done|].
    rewrite Ek. exact Ha. }
  unfold mbind, io_bind, mret, io_ret. cbn [pit_ticks Idt.k_vga k_kbd k_rest].
  repeat match goal with
  | |- context [if ?b then _ else _] => destruct b
  | |- context [outb ?p ?v ?d] => destruct (outb p v d)
  | |- context [keyboard_irq_handler ?k ?d] => destruct (keyboard_irq_handler k d)
  | |- context [timer_schedule ?k ?d] => specialize (Hsch k eq_refl d); destruct (timer_schedule k d) as [k' ?]; cbn in Hsch; subst k'
  end; (eexists _, _, _; split; [reflexivity|reflexivity]).
Qed.

(** A system call of a program on a kernel stack below its memory. *)
Lemma int80_keeps cr2 r y m d v y' d' lo hi : int_no r = 128 → 0 <= lo → hi <= program_base →
  sys_typed y → u32 (i_ecx r) → u32 (i_edx r) → user_call y (i_eax r) (i_ebx r) (i_ecx r) (i_edx r) →
  handle (i_eax r) (i_ebx r) (i_ecx r) (i_edx r) (with_mem y m) d = (Some (Syscall.Ret v, y'), d') →
  isr_handler timer_schedule int80 cr2 r (set_kmem (of_sys y) m) d = ((Some (set_eax r v), of_sys y'), d') ∧
  keeps lo hi m (y_mem y').
Proof.
  intros Hn Hlo Hhi Hs H2 H3 Hu E. split.
  - unfold isr_handler. rewrite Hn. cbn [Z.ltb Z.eqb Z.compare Pos.compare Pos.compare_cont Pos.eqb].
    unfold int80, mbind, io_bind. rewrite to_set_kmem, E. reflexivity.
  - pose proof (handler_kept exec_buffer saved_program fuel (i_eax r) (i_ebx r) (i_ecx r) (i_edx r) eflags ctx saved_esp0 current_esp
      program_name w (with_mem y m) (typed_mem y m Hs) H2 H3 Hu d) as Hk.
    unfold handle in E. rewrite E in Hk. cbn in Hk. intros b Hb. unfold program_base in Hhi.
    apply Hk; [unfold addr_ok; lia|unfold user_range; lia].
Qed.

End Kernel.

(** ** A program reads its file *)

#[local] Instance script_image : BlockDevice script := image_device.

(** The program of [typed_sys] at [int 0x80] with the registers of [file_read]. *)
Definition reading_cpu : icpu := ICpu (Regs 7 6 5 0x205000 0 20 4) 0x300FF0 0x200010 0x202 0x1B 0x23 0x23 0x23 0x23 0x23.
Lemma reading_cpu_ok : icpu_ok reading_cpu.
Proof. split; unfold regs_ok, u32, u16; cbn; lia. Qed.
Definition cpu_at_timer : cpu := Cpu (Regs 0 0 0 0 0 0 0) 0x1EFF00 0x101000 false.

