(* ===== verification/Kernel.v ===== *)
(** * Kernel start and kernel shell (kernel/kernel.c)

    [kernel_main] puts the components together: it initialises them in order
    over one memory, mounts the file system, starts the user shell, and falls
    back to a shell of its own.  A statement of [kernel_main] is a [cmd], a
    computation on the globals of the kernel that may wait for a device
    ([None] when the fuel does not cover the wait).  Starting a program leaves
    the kernel: [execute_command] then gives the context of ring 3 it enters,
    and the statements after it run when the program has exited.

    Addresses the linker gives, the registers at the calls of [exec_setjmp]
    and the uninitialised local array [program_name] are parameters. *)

From Stdlib Require Import String.
From S2P Require Import Prelude Mem Pmm Heap Paging Process Io Keyboard Vga Args Fat32 Fat32List Ide Gdt Idt Serial Elf Syscall.

(** The globals of the kernel and the statics of kernel.c; the bitmap of pages
    is in the paging state of [k_sys], and so is the memory. *)
Record kstate := KState {
  k_sys : sys;
  k_idt : idt_state;
  k_next_pid : Z;
  shell_cmd_buf : list Z;
  shell_cmd_pos : Z
}.

Definition k_mem (st : kstate) : mem := y_mem (k_sys st).
Definition k_pa (st : kstate) : list Z := pg_pa (y_pg (k_sys st)).
Definition k_vga (st : kstate) : vga := x_vga (y_exec (k_sys st)).
Definition k_heap (st : kstate) : heap (list Z) :=
  Heap (k_mem st) (y_free_list (k_sys st)) (y_heap_pages (k_sys st)) (k_pa st).
Definition k_procs (st : kstate) : procs (list Z) :=
  Procs (y_procs (k_sys st)) (y_current (k_sys st)) (k_next_pid st) (k_mem st) (k_pa st).

Definition set_sys (st : kstate) (y : sys) : kstate :=
  KState y (k_idt st) (k_next_pid st) (shell_cmd_buf st) (shell_cmd_pos st).
Definition set_idt (st : kstate) (i : idt_state) : kstate :=
  KState (k_sys st) i (k_next_pid st) (shell_cmd_buf st) (shell_cmd_pos st).
Definition set_line (st : kstate) (buf : list Z) (pos : Z) : kstate :=
  KState (k_sys st) (k_idt st) (k_next_pid st) buf pos.
Definition set_vga (st : kstate) (v : vga) : kstate := set_sys st (with_vga (k_sys st) v).
Definition set_kbd (st : kstate) (k : kbd) : kstate := set_sys st (with_kbd (k_sys st) k).
Definition set_pg (st : kstate) (pg : paging (list Z)) : kstate :=
  let x := y_exec (k_sys st) in
  set_sys st (set_exec (k_sys st)
    (ExecState pg (x_vga x) (x_gdt x) (exec_stack x) (exec_depth x) (x_saved x))).
Definition set_gdt (st : kstate) (g : gdt_state) : kstate :=
  let x := y_exec (k_sys st) in
  set_sys st (set_exec (k_sys st)
    (ExecState (x_pg x) (x_vga x) g (exec_stack x) (exec_depth x) (x_saved x))).
Definition set_fs (st : kstate) (fs : fat32_fs_t) : kstate :=
  let y := k_sys st in
  set_sys st (Sys (y_exec y) (y_kbd y) (y_ticks y) fs (y_file y) (current_file y)
    (current_program_args y) (y_free_list y) (y_heap_pages y) (y_procs y) (y_current y)).
(** Memory and pages, with the globals of the heap or of the processes. *)
Definition set_heap (st : kstate) (h : heap (list Z)) : kstate :=
  let st := set_pg st (set_pa (Paging.set_mem (y_pg (k_sys st)) (h_mem h)) (h_pa h)) in
  let y := k_sys st in
  set_sys st (Sys (y_exec y) (y_kbd y) (y_ticks y) (y_fs y) (y_file y) (current_file y)
    (current_program_args y) (free_list h) (heap_pages h) (y_procs y) (y_current y)).
Definition set_procs (st : kstate) (p : procs (list Z)) : kstate :=
  let st := set_pg st (set_pa (Paging.set_mem (y_pg (k_sys st)) (pr_mem p)) (pr_pa p)) in
  let y := k_sys st in
  KState (Sys (y_exec y) (y_kbd y) (y_ticks y) (y_fs y) (y_file y) (current_file y)
    (current_program_args y) (y_free_list y) (y_heap_pages y) (proc_table p) (current_proc p))
    (k_idt st) (next_pid p) (shell_cmd_buf st) (shell_cmd_pos st).

Definition VGA_MEMORY : Z := 0xB8000.
Definition sizeof_binary_buffer : Z := 65536.
Definition sizeof_cmd_buf : Z := 64.

(** The addresses of statics, stubs and functions. *)
Record layout := Layout {
  la_gdt : Z; la_tss : Z; la_idt : Z; la_isr : Z → Z; la_kernel_end : Z; la_proc_table : Z;
  la_kernel_main : Z; la_binary_buffer : Z
}.

(** What the compiler keeps around a call of [elf_load_and_exec]. *)
Record call_site := CallSite {
  cs_eflags : Z; cs_ctx : exec_jmp_buf; cs_saved_esp0 : Z; cs_current_esp : Z; cs_program_name : list Z
}.

Section Kernel.
Context {D : Type} `{PIO : PortIO D} `{BD : BlockDevice D}.
Context (la : layout) (site : call_site) (fuel : nat).

(** ** Statements *)

Definition cmd : Type := kstate → io D (option kstate).
Definition seq (a b : cmd) : cmd := λ st, st ←? a st; b st.

Definition set_color (fg : vga_color_t) : cmd := λ st,
  mret (Some (set_vga st (vga_set_color (k_vga st) fg VGA_COLOR_BLACK))).
Definition on_screen (f : vga → io D vga) : cmd := λ st, v ← f (k_vga st); mret (Some (set_vga st v)).
Definition puts (s : list Z) : cmd := on_screen (λ v, vga_puts v s).
Definition putchar (c : Z) : cmd := on_screen (λ v, vga_putchar v c).
Definition puthex (n : Z) : cmd := on_screen (λ v, vga_puthex v n).
Definition com1_puts (s : list Z) : cmd := λ st, _ ←? serial_puts fuel SERIAL_COM1 s; mret (Some st).
Definition com1_putchar (c : Z) : cmd := λ st, _ ←? serial_putchar fuel SERIAL_COM1 c; mret (Some st).
End Kernel.

Declare Scope cmd_scope.
Delimit Scope cmd_scope with cmd.
Notation "a >> b" := (seq a b) (at level 65, right associativity) : cmd_scope.
#[local] Open Scope cmd_scope.

Section Main.
Context {D : Type} `{PIO : PortIO D} `{BD : BlockDevice D}.
Context (la : layout) (site : call_site) (fuel : nat).

(** ** Starting the components *)

Definition start_console : cmd :=
  on_screen vga_init >>
  (λ st, _ ← serial_init SERIAL_COM1; mret (Some st)) >>
  set_color VGA_COLOR_LIGHT_CYAN >>
  puts (line "MagnOS v0.1") >>
  puts (line "===========" ++ [10]) >>
  set_color VGA_COLOR_LIGHT_GREY >>
  puts (line "Bootable x86 Operating System") >>
  puts (line "VGA Driver: OK") >>
  puts (line "Serial Driver: OK").

Definition start_cpu : cmd :=
  (λ st, mret (Some (set_gdt st (gdt_init (la_gdt la) (la_tss la) (x_gdt (y_exec (k_sys st))))))) >>
  puts (line "GDT/TSS: OK") >>
  (λ st, k ← keyboard_init (y_kbd (k_sys st)); mret (Some (set_kbd st k))) >>
  puts (line "Keyboard Driver: OK") >>
  (λ st, i ← idt_init (la_idt la) (la_isr la) (k_idt st); mret (Some (set_idt st i))) >>
  puts (line "IDT/Interrupts: OK").

Definition start_pmm : cmd :=
  (λ st, mret (Some (set_pg st (set_pa (y_pg (k_sys st)) (pmm_init (la_kernel_end la) (k_pa st)))))) >>
  puts (chars "PMM: ") >>
  (λ st, puthex (pmm_get_free_count (k_pa st) ⊗ 4) st) >>
  puts (chars " KB free (") >>
  (λ st, puthex (pmm_get_free_count (k_pa st)) st) >>
  puts (line " pages)").

Definition start_heap : cmd :=
  (λ st, h ←? mret (heap_init fuel (k_heap st)); mret (Some (set_heap st h))) >>
  (λ st,
    stats ←? mret (heap_get_stats fuel (k_heap st));
    (puts (chars "Heap: ") >>
     puthex (free_bytes stats / 1024) >>
     puts (line " KB free")) st).

Definition start_paging : cmd :=
  (λ st, mret (Some (set_pg st (paging_init (y_pg (k_sys st)))))) >>
  puts (line "Paging: OK").

Definition start_processes : cmd :=
  (λ st, mret (Some (set_procs st (process_init (la_proc_table la) (k_procs st))))) >>
  puts (line "Processes: OK").

Definition start_disk : cmd :=
  puts (chars "IDE Driver: ") >>
  (λ st,
    r ← ide_init;
    (if r =? 0 then
       set_color VGA_COLOR_LIGHT_GREEN >>
       puts (line "OK") >>
       set_color VGA_COLOR_LIGHT_GREY
     else
       set_color VGA_COLOR_LIGHT_RED >>
       puts (line "FAILED") >>
       set_color VGA_COLOR_LIGHT_GREY) st) >>
  puts [10].

Definition system_info : cmd :=
  com1_puts fuel (line "MagnOS v0.1 - Serial port initialized") >>
  com1_puts fuel (line "Kernel loaded successfully") >>
  set_color VGA_COLOR_LIGHT_GREEN >>
  puts (line "System initialized successfully!" ++ [10]) >>
  set_color VGA_COLOR_LIGHT_GREY >>
  puts (chars "Kernel at: ") >> puthex (la_kernel_main la) >> puts [10] >>
  puts (chars "VGA at: ") >> puthex VGA_MEMORY >> puts [10] >>
  puts (chars "Serial COM1: ") >> puthex SERIAL_COM1 >> puts ([10] ++ [10]).

Definition fs_failed : cmd :=
  set_color VGA_COLOR_LIGHT_RED >>
  puts (line "FAILED") >>
  set_color VGA_COLOR_LIGHT_GREY >>
  puts (line "(Disk may not be formatted as FAT32)" ++ [10]).

Definition system_ready : cmd :=
  set_color VGA_COLOR_YELLOW >>
  puts (line "System ready.") >>
  set_color VGA_COLOR_LIGHT_GREY.

(** The test code under [PRINT_HELLO_TXT] and [ENABLE_HELLO_BINARY] is not
    compiled: both flags are 0. *)
Definition start_fs : cmd :=
  set_color VGA_COLOR_LIGHT_CYAN >>
  puts (line "Initializing FAT32 Filesystem...") >>
  set_color VGA_COLOR_LIGHT_GREY >>
  puts (chars "FAT32: ") >>
  (λ st,
    '(r, fs) ← fat32_init (y_fs (k_sys st)) 0;
    (if r =? 0 then
       set_color VGA_COLOR_LIGHT_GREEN >>
       puts (line "OK" ++ [10]) >>
       set_color VGA_COLOR_LIGHT_GREY >>
       (λ st, p ←? fat32_list_root fuel (y_fs (k_sys st)) (k_vga st); mret (Some (set_vga st p.2))) >>
       puts [10]
     else fs_failed) (set_fs st fs)).

(** [kernel_main] up to the start of the file system. *)
Definition start_system : cmd :=
  start_console >> start_cpu >> start_pmm >> start_heap >> start_paging >>
  start_processes >> start_disk >> system_info.
Definition kernel_boot : cmd := start_system >> start_fs >> system_ready.

(** ** Commands *)

(** The message of a command that failed, on the screen and the port. *)
Definition complain (s : string) : cmd :=
  set_color VGA_COLOR_LIGHT_CYAN >>
  puts (line s) >>
  com1_puts fuel (chars s ++ [13; 10]).

Definition not_found (filename : list Z) : cmd :=
  set_color VGA_COLOR_LIGHT_CYAN >>
  puts (chars "Command not found: ") >>
  puts filename >>
  putchar 10 >>
  com1_puts fuel (chars "Command not found: ") >>
  com1_puts fuel filename >>
  com1_puts fuel [13; 10].

(** The user context when the command starts a program, [None] when it
    returns at once. *)
Definition done (c : cmd) (st : kstate) : io D (option (option user_ctx * kstate)) :=
  st ←? c st; mret (Some (None, st)).

Definition run_binary (st : kstate) : io D (option (option user_ctx * kstate)) :=
  '(r, x) ← elf_load_and_exec (la_binary_buffer la) (cs_eflags site) (cs_ctx site) (cs_saved_esp0 site)
             (cs_current_esp site) (y_exec (k_sys st));
  let st := set_sys st (set_exec (k_sys st) x) in
  match r with
  | Some uc => mret (Some (Some uc, st))
  | None => done (complain "Failed to execute binary") st
  end.

Definition execute_command (cmd : list Z) (st : kstate) : io D (option (option user_ctx * kstate)) :=
  let y := k_sys st in
  let '(program_name, a) := parse_command_line cmd (cs_program_name site) (current_program_args y) in
  let y := with_args y a in
  let filename := upper_name program_name 11 in
  p ←? fat32_open fuel (y_fs y) (y_file y) filename; let '(found, file) := p in
  let y := with_file y file (current_file y) in
  if found then
    if (0 <? f_size file) && (f_size file <=? sizeof_binary_buffer) then
      p ←? fat32_read fuel (y_fs y) true file (f_size file); let '(bytes_read, out, file) := p in
      let m := store_bytes (y_mem y) (la_binary_buffer la) out in
      let st := set_sys st (with_mem (with_file y (fat32_close file) (current_file y)) m) in
      if 0 <? bytes_read then
        if (load8 m (la_binary_buffer la) =? 0x7F) && (load8 m (la_binary_buffer la + 1) =? 69) &&
           (load8 m (la_binary_buffer la + 2) =? 76) && (load8 m (la_binary_buffer la + 3) =? 70)
        then run_binary st
        else done (complain "Not an ELF binary") st
      else done (complain "Failed to read file") st
    else done (complain "File too large") (set_sys st (with_file y (fat32_close file) (current_file y)))
  else done (not_found filename) (set_sys st y).

(** ** The kernel shell *)

Definition prompt : cmd :=
  set_color VGA_COLOR_LIGHT_CYAN >>
  puts (chars "MagnOS> ") >>
  com1_puts fuel (chars "MagnOS> ").

(** [kernel_main] after the user shell. *)
Definition fall_back : cmd :=
  set_color VGA_COLOR_YELLOW >>
  puts (line "Falling back to kernel shell.") >>
  set_color VGA_COLOR_LIGHT_GREY >>
  (λ st, mret (Some (set_line st (shell_cmd_buf st) 0))) >>
  prompt.

(** The character of a round of the loop, 0 when there is none. *)
Definition shell_poll (st : kstate) : io D (option (Z * kstate)) :=
  let '(c, k) := keyboard_getchar (y_kbd (k_sys st)) in
  let st := set_kbd st k in
  if c =? 0 then
    r ← serial_received SERIAL_COM1;
    if negb (r =? 0) then
      c ←? serial_getchar fuel SERIAL_COM1;
      let c := if c =? 13 then 10 else c in
      let c := if c =? 0x7F then 8 else c in
      mret (Some (c, st))
    else mret (Some (c, st))
  else mret (Some (c, st)).

(** The end of the branch of the enter key, when the command has returned. *)
Definition shell_next : cmd :=
  (λ st, mret (Some (set_line st (shell_cmd_buf st) 0))) >> prompt.

(** The rest of the round for a character that is not 0. *)
Definition shell_key (c : Z) (st : kstate) : io D (option (option user_ctx * kstate)) :=
  let pos := shell_cmd_pos st in
  if c =? 8 then
    if 0 <? pos then
      done (puts [8; 32; 8] >>
            com1_putchar fuel 8 >> com1_putchar fuel 32 >> com1_putchar fuel 8)
        (set_line st (shell_cmd_buf st) (pos - 1))
    else mret (Some (None, st))
  else if c =? 10 then
    st ←? (putchar 10 >> com1_puts fuel [13; 10]) st;
    let st := set_line st (updZ (shell_cmd_buf st) pos 0) pos in
    if 0 <? pos then
      p ←? execute_command (shell_cmd_buf st) st;
      match p with
      | (Some uc, st) => mret (Some (Some uc, st))
      | (None, st) => done shell_next st
      end
    else done shell_next st
  else if pos <? sizeof_cmd_buf - 1 then
    done (putchar c >> com1_putchar fuel c) (set_line st (updZ (shell_cmd_buf st) pos c) (pos + 1))
  else mret (Some (None, st)).

(** One round of the loop; [scs] are the scancodes of the keyboard interrupts
    since the last round. *)
Definition shell_round (scs : list Z) (st : kstate) : io D (option (option user_ctx * kstate)) :=
  let st := set_kbd st (fold_left kb_handle scs (y_kbd (k_sys st))) in
  p ←? shell_poll st; let '(c, st) := p in
  if c =? 0 then mret (Some (None, st)) else shell_key c st.

(** [kernel_main] until it enters the user shell, or has started its own, with
    no interrupt on the way. *)
Definition kernel_main (st : kstate) : io D (option (option user_ctx * kstate)) :=
  st ←? kernel_boot st;
  p ←? execute_command (chars "shell") st;
  match p with
  | (Some uc, st) => mret (Some (Some uc, st))
  | (None, st) => done fall_back st
  end.
End Main.
