(* ===== verification/KernelProps.v ===== *)
(** * Kernel start: theorems

    Starting the components in the order of [kernel_main] establishes the
    invariant of each of them in one memory, over one page allocator, with
    the pages of the heap, the page tables and the kernel image apart. *)

From Stdlib Require Import String.
From stdpp Require Import gmap.
From S2P Require Import Prelude Mem Pmm Heap HeapList HeapInv HeapProps Paging PagingProps Process ProcessProps ProcessRun.
From S2P Require Import Io Keyboard KeyboardProps Vga VgaProps Args ArgsProps Fat32 Fat32Names Fat32Dir Fat32Props Fat32List Ide.
From S2P Require Import Gdt Idt IdtProps Serial Elf ElfProps Syscall Kernel.

(** ** Computations that end

    The computation returns, whatever the state of the device, with a result
    in [Q]. *)
Definition ends {D A} (m : io D (option A)) (Q : A → Prop) : Prop :=
  ∀ d, ∃ a d', m d = (Some a, d') ∧ Q a.

Lemma ends_ret {D A} (a : A) (Q : A → Prop) : Q a → ends (D := D) (mret (Some a)) Q.
Proof. intros H d. by exists a, d. Qed.
Lemma ends_obind {D A B} (m : io D (option A)) (k : A → io D (option B)) P Q :
  ends m P → (∀ a, P a → ends (k a) Q) → ends (obind m k) Q.
Proof.
  intros Hm Hk d. destruct (Hm d) as (a & d' & E & Ha). unfold obind, mbind, io_bind. rewrite E. by apply Hk.
Qed.
Lemma ends_bind {D A B} (P : A → Prop) (m : io D A) (k : A → io D (option B)) Q :
  (∀ d, P (m d).1) → (∀ a, P a → ends (k a) Q) → ends (m ≫= k) Q.
Proof.
  intros Hm Hk d. unfold mbind, io_bind. specialize (Hm d). destruct (m d) as [a d']. by apply Hk.
Qed.
Lemma ends_returns {D A B} (m : io D A) (k : A → io D (option B)) a Q :
  returns m a → ends (k a) Q → ends (m ≫= k) Q.
Proof. intros Hm Hk. apply (ends_bind (λ x, x = a)); [exact Hm|]. by intros _ ->. Qed.
Lemma ends_mono {D A} (m : io D (option A)) (P Q : A → Prop) : ends m P → (∀ a, P a → Q a) → ends m Q.
Proof. intros Hm H d. destruct (Hm d) as (a & d' & E & Ha). exists a, d'. auto. Qed.

Section Triples.
Context {D : Type} `{PIO : PortIO D} `{BD : BlockDevice D} (fuel : nat).

(** From every state in [P] the statement ends in a state in [Q]. *)
Definition triple (P : kstate → Prop) (c : cmd (D := D)) (Q : kstate → Prop) : Prop :=
  ∀ st, P st → ends (c st) Q.

Lemma triple_seq P Q R a b : triple P a Q → triple Q b R → triple P (seq a b) R.
Proof. intros Ha Hb st Hp. eapply ends_obind; [by apply Ha|]. apply Hb. Qed.

(** The transmitter of the port empties within [fuel] polls. *)
Definition drains : Prop :=
  ∀ d : D, ∃ d', serial_wait fuel (serial_is_transmit_empty SERIAL_COM1) d = (Some tt, d').

Lemma ends_serial_putchar c : drains → ends (D := D) (serial_putchar fuel SERIAL_COM1 c) (λ _, True).
Proof.
  intros Hd d. destruct (Hd d) as (d1 & E). unfold serial_putchar, mbind, io_bind. rewrite E.
  destruct (outb _ _ d1) as [u d2]. by exists tt, d2.
Qed.

Lemma ends_serial_puts s : drains → ends (D := D) (serial_puts fuel SERIAL_COM1 s) (λ _, True).
Proof.
  intros Hd. pose proof (λ c, ends_serial_putchar c Hd) as Hp.
  induction s as [|c s IH]; intros d; cbn [serial_puts]; [by exists tt, d|].
  destruct (c =? 0); [by exists tt, d|]. unfold mbind, io_bind, mret, io_ret.
  destruct (c =? 10).
  - destruct (Hp 13 d) as ([] & d1 & -> & _). destruct (Hp c d1) as ([] & d2 & -> & _). apply IH.
  - destruct (Hp c d) as ([] & d2 & -> & _). apply IH.
Qed.

(** *** Output

    A predicate that does not look at the screen survives it. *)
Definition blind (P : kstate → Prop) : Prop := ∀ st v, P st → P (set_vga st v).
Definition screen (P : kstate → Prop) (st : kstate) : Prop := vga_inv (k_vga st) ∧ P st.

Lemma set_color_inv v fg : vga_inv v → vga_inv (vga_set_color v fg VGA_COLOR_BLACK).
Proof. intros []. split; [done..|]. by destruct fg; unfold u8; cbn. Qed.

Lemma triple_color P fg : blind P → triple (screen P) (set_color fg) (screen P).
Proof. intros HP st [Hv Hp]. apply ends_ret. split; [by apply set_color_inv|by apply HP]. Qed.
Lemma triple_screen P (f : vga → io D vga) g :
  blind P → (∀ v, returns (f v) (g v)) → (∀ v, vga_inv v → vga_inv (g v)) →
  triple (screen P) (on_screen f) (screen P).
Proof.
  intros HP Hr Hg st [Hv Hp]. eapply ends_returns; [apply Hr|]. apply ends_ret.
  split; [by apply Hg|by apply HP].
Qed.
Lemma triple_puts P s : blind P → triple (screen P) (puts s) (screen P).
Proof.
  intros HP. eapply triple_screen; [done|intros v; apply returns_puts|]. intros v. apply put_all_inv.
Qed.
Lemma triple_putchar P c : blind P → triple (screen P) (putchar c) (screen P).
Proof.
  intros HP. eapply triple_screen; [done|intros v; apply returns_putchar|]. intros v Hv. by apply (put_all_inv [c]).
Qed.
Lemma triple_puthex P n : blind P → triple (screen P) (puthex n) (screen P).
Proof.
  intros HP. eapply triple_screen; [done|intros v; apply returns_puthex|]. intros v. apply put_all_inv.
Qed.
Lemma triple_com1_puts (P : kstate → Prop) s : drains → triple P (com1_puts fuel s) P.
Proof. intros Hd st Hp. eapply ends_obind; [by apply ends_serial_puts|]. intros _ _. by apply ends_ret. Qed.
Lemma triple_com1_putchar (P : kstate → Prop) c : drains → triple P (com1_putchar fuel c) P.
Proof. intros Hd st Hp. eapply ends_obind; [by apply ends_serial_putchar|]. intros _ _. by apply ends_ret. Qed.
End Triples.

Create HintDb blind discriminated.
#[export] Hint Constants Opaque : blind.
(** Statements that only print. *)
Ltac say1 :=
  lazymatch goal with
  | |- triple _ (set_color _) _ => apply triple_color; solve [auto with blind]
  | |- triple _ (puts _) _ => apply triple_puts; solve [auto with blind]
  | |- triple _ (putchar _) _ => apply triple_putchar; solve [auto with blind]
  | |- triple _ (puthex _) _ => apply triple_puthex; solve [auto with blind]
  | |- triple _ (com1_puts _ _) _ => apply triple_com1_puts; assumption
  | |- triple _ (com1_putchar _ _) _ => apply triple_com1_putchar; assumption
  end.
Ltac says := repeat first [ say1 | eapply triple_seq; [say1|] ].

(** ** Memory changes a component does not notice *)

(** The heap depends on the bytes of its free segments. *)
Lemma heap_inv_ext {S} `{PageAllocator S} (st : heap S) l m pa :
  heap_inv st l ∅ → (∀ z, covers l z → load8 m z = load8 (h_mem st) z) →
  pa_inv pa → pa_free pa ⊆ pa_free (h_pa st) → heap_inv (Heap m (free_list st) (heap_pages st) pa) l ∅.
Proof.
  intros Hi Hm Hpa Hsub. pose proof (subseteq_size _ _ Hsub) as Hsz. pose proof (hi_count _ _ _ Hi) as Hc.
  split; cbn [h_pa h_mem free_list heap_pages]; try done; try apply Hi.
  - eapply freelist_ext; [|apply Hi]. intros y Hy.
    assert (seg_ok y) as Hok by (eapply wf_segs_ok; [|apply Hi|]; done).
    assert (∀ k, 0 <= k < 16 → load8 m (y.1 + k) = load8 (h_mem st) (y.1 + k)) as Hk.
    { intros k Hk. apply Hm. exists y. split; [done|]. destruct y. seg_lia. }
    unfold same_hdr, b_size, b_free, b_next. split_and!; apply load32_ext; intros a Ha;
      replace a with (y.1 + (a - y.1)) by lia; apply Hk; lia.
  - intros pg z Hp Hz. apply (hi_page _ _ _ Hi pg); set_solver.
  - lia.
Qed.

(** The page tables depend on their own bytes. *)
Lemma init_state_ext {S} `{PageAllocator S} k (pg : paging S) m :
  init_state k pg → (∀ a, addr_ok a 1 → table_byte pg a → load8 m a = load8 (pg_mem pg) a) →
  0 <= k → init_state k (Paging.set_mem pg m) ∧ (∀ a, table_byte (Paging.set_mem pg m) a → table_byte pg a).
Proof.
  intros [Hi Hm Hu Hp] Hb Hk. destruct (tables_ext pg m Hi Hb) as (Hpde & Hmap & Hi').
  split; [|intros a; by apply table_byte_ext].
  split; [done|intros v Hv; rewrite Hmap by done; auto..|]. intros i Hr. rewrite Hpde by lia. auto.
Qed.

(** What [process_init] does to memory and pages. *)
Lemma process_init_mem {S} `{PageAllocator S} base (st : procs S) :
  pr_mem (process_init base st) = set_esp base (pr_mem st) 0 0x1F0000 ∧ pr_pa (process_init base st) = pr_pa st.
Proof. done. Qed.

(** ** Starting the system *)

#[local] Opaque pmm_init paging_init process_init heap_get_stats.

Record at_reset (bm : list Z) (st : kstate) : Prop := {
  ar_bitmap : k_pa st = bm;
  ar_gdt : length (gdt (x_gdt (y_exec (k_sys st)))) = 6%nat;
  ar_idt : length (idt (k_idt st)) = 256%nat;
  ar_kbd : length (kb_buffer (y_kbd (k_sys st))) = 256%nat;
  ar_heap : y_free_list (k_sys st) = 0 ∧ y_heap_pages (k_sys st) = 0;
  ar_procs : length (y_procs (k_sys st)) = 16%nat ∧ k_next_pid st = 0;
  ar_depth : exec_depth (y_exec (k_sys st)) = 0 ∧ rows_ok (args (current_program_args (k_sys st)));
  ar_file : current_file (k_sys st) = false
}.

(** The kernel image, with the process table in it, ends below the kernel's
    stack, of which [k0] is the lowest byte used. *)
Record layout_fits (la : layout) (k0 : Z) : Prop := {
  lf_end : 1 <= la_kernel_end la <= k0;
  lf_stack : k0 <= 0x1F0000;
  lf_table : 0 <= la_proc_table la ∧ la_proc_table la + TABLE_BYTES <= la_kernel_end la;
  lf_binary : 0 <= la_binary_buffer la ∧ la_binary_buffer la + sizeof_binary_buffer <= la_kernel_end la;
  lf_tss : u32 (la_tss la);
  lf_isr i : u32 (la_isr la i)
}.

Section Boot.
Context {D : Type} `{PIO : PortIO D} `{BD : BlockDevice D}.
Context (la : layout) (fuel : nat) (k0 : Z) (bm : list Z).
Context (Hla : layout_fits la k0) (Hbm : length bm = 512%nat) (Hdrain : drains (D := D) fuel) (Hfuel : fuel_ok fuel).

(** The pages there are to give out. *)
Definition boot_pages : gset Z := pa_free (pmm_init (la_kernel_end la) bm).
Lemma boot_pages_eq : pa_free (pmm_init (la_kernel_end la) bm) = boot_pages.
Proof. reflexivity. Qed.

(** Segments, gates and keyboard after [start_cpu]. *)
Record cpu_ready (st : kstate) : Prop := {
  cr_gdt : ∃ g, length (gdt g) = 6%nat ∧ x_gdt (y_exec (k_sys st)) = gdt_init (la_gdt la) (la_tss la) g;
  cr_gates i : 0 <= i < 48 → gate (nthZ idt_entry0 (idt (k_idt st)) i) = Some (la_isr la i, 0x08, 0);
  cr_syscall : gate (nthZ idt_entry0 (idt (k_idt st)) 128) = Some (la_isr la 128, 0x08, 3);
  cr_if : if_flag (k_idt st) = true ∧ idtr (k_idt st) = IdtPtr 2047 (la_idt la);
  cr_kbd : kb_inv (y_kbd (k_sys st)) ∧ kb_chars (y_kbd (k_sys st)) = [];
  cr_depth : exec_depth (y_exec (k_sys st)) = 0 ∧ rows_ok (args (current_program_args (k_sys st)));
  cr_file : current_file (k_sys st) = false
}.
Lemma cpu_ready_ext st st' :
  x_gdt (y_exec (k_sys st')) = x_gdt (y_exec (k_sys st)) → k_idt st' = k_idt st →
  y_kbd (k_sys st') = y_kbd (k_sys st) → exec_depth (y_exec (k_sys st')) = exec_depth (y_exec (k_sys st)) →
  current_program_args (k_sys st') = current_program_args (k_sys st) →
  current_file (k_sys st') = current_file (k_sys st) → cpu_ready st → cpu_ready st'.
Proof. intros Eg Ei Ek Ed Ea Ef []. by split; rewrite ?Eg, ?Ei, ?Ek, ?Ed, ?Ea, ?Ef. Qed.

(** What is still as the loader left it: the pages, the globals of the heap,
    the process table. *)
Definition pages_are (pa : list Z) (st : kstate) : Prop := k_pa st = pa.
Definition heap_reset (st : kstate) : Prop := y_free_list (k_sys st) = 0 ∧ y_heap_pages (k_sys st) = 0.
Definition procs_reset (st : kstate) : Prop := length (y_procs (k_sys st)) = 16%nat ∧ k_next_pid st = 0.

(** The heap has its 16 pages, its free list is [l], and [n] pages of the
    start are gone, taken one after the other. *)
Definition heap_ready (n : nat) (l : list Heap.seg) (st : kstate) : Prop :=
  heap_inv (k_heap st) l ∅ ∧ y_heap_pages (k_sys st) = 16 ∧ (∀ z, covers l z → in_pages boot_pages z) ∧
  pa_free (k_pa st) ⊆ boot_pages ∧ size (pa_free (k_pa st)) = (size boot_pages - n)%nat ∧
  rtc takes (pmm_init (la_kernel_end la) bm) (k_pa st).

(** The identity map is on; the tables are in pages of the start and none of
    them in the heap. *)
Record paging_ready (l : list Heap.seg) (pg : paging (list Z)) : Prop := {
  pr_state : init_state 4 pg;
  pr_cr3 : cr3 pg = kernel_page_directory pg;
  pr_cr0 : Z.testbit (cr0 pg) 31 = true;
  pr_tlb : tlb pg = ∅;
  pr_tables a : table_byte pg a → in_pages boot_pages a;
  pr_heap a : table_byte pg a → ¬ covers l a
}.

Definition stage1 (st : kstate) : Prop := cpu_ready st ∧ procs_reset st ∧ heap_reset st ∧ pages_are bm st.
Definition stage2 (st : kstate) : Prop :=
  cpu_ready st ∧ procs_reset st ∧ heap_reset st ∧ pages_are (pmm_init (la_kernel_end la) bm) st.
Definition stage3 (st : kstate) : Prop := cpu_ready st ∧ procs_reset st ∧ ∃ l, heap_ready 16 l st.
Definition stage4 (st : kstate) : Prop :=
  cpu_ready st ∧ procs_reset st ∧ ∃ l, heap_ready 21 l st ∧ paging_ready l (y_pg (k_sys st)).
Definition stage5 (st : kstate) : Prop :=
  cpu_ready st ∧ proc_inv (la_proc_table la) k0 (k_procs st) ∅ ∧ (y_current (k_sys st) = Some 0) ∧
  ∃ l, heap_ready 21 l st ∧ paging_ready l (y_pg (k_sys st)).

Lemma blind_and P Q : blind P → blind Q → blind (λ st, P st ∧ Q st).
Proof. intros HP HQ st v []. split; auto. Qed.
Lemma blind_reset : blind (at_reset bm).
Proof. intros st v []. by split. Qed.
Lemma blind_cpu : blind cpu_ready.
Proof. intros st v. by apply cpu_ready_ext. Qed.
Lemma blind_stage1 : blind stage1.
Proof. intros st v (H & ? & ? & ?). split_and!; try assumption. by apply blind_cpu. Qed.
Lemma blind_stage2 : blind stage2.
Proof. intros st v (H & ? & ? & ?). split_and!; try assumption. by apply blind_cpu. Qed.
Lemma blind_stage3 : blind stage3.
Proof. intros st v (H & ? & ?). split_and!; try assumption. by apply blind_cpu. Qed.
Lemma blind_stage4 : blind stage4.
Proof. intros st v (H & ? & ?). split_and!; try assumption. by apply blind_cpu. Qed.
Lemma blind_stage5 : blind stage5.
Proof. intros st v (H & ? & ? & ?). split_and!; try assumption. by apply blind_cpu. Qed.
#[local] Hint Resolve blind_reset blind_cpu blind_stage1 blind_stage2 blind_stage3 blind_stage4 blind_stage5 : blind.

Lemma start_console_ok :
  triple (λ st, at_reset bm st ∧ length (vga_buffer (k_vga st)) = 2000%nat) (start_console (D := D))
    (screen (at_reset bm)).
Proof using Hdrain.
  apply (triple_seq _ (screen (at_reset bm))).
  - intros st [Hst Hl]. eapply (ends_bind vga_inv).
    + intros d. apply vga_init_inv. exact Hl.
    + intros v Hv. apply ends_ret. split; [exact Hv|]. by apply blind_reset.
  - apply (triple_seq _ (screen (at_reset bm))); [|says].
    intros st Hst. eapply (ends_bind (λ _, True)); [done|]. intros _ _. by apply ends_ret.
Qed.

(** The kernel in the middle of [start_cpu]. *)
Definition cpu_gdt (st : kstate) : Prop :=
  ∃ g, length (gdt g) = 6%nat ∧ x_gdt (y_exec (k_sys st)) = gdt_init (la_gdt la) (la_tss la) g.
Definition cpu_rest (st : kstate) : Prop :=
  (exec_depth (y_exec (k_sys st)) = 0 ∧ rows_ok (args (current_program_args (k_sys st)))) ∧
  current_file (k_sys st) = false ∧ length (idt (k_idt st)) = 256%nat ∧ procs_reset st ∧ heap_reset st ∧ pages_are bm st.
Definition cpu_kbd (st : kstate) : Prop := kb_inv (y_kbd (k_sys st)) ∧ kb_chars (y_kbd (k_sys st)) = [].

Lemma start_cpu_ok : triple (screen (at_reset bm)) (start_cpu (D := D) la) (screen stage1).
Proof using Hla.
  apply (triple_seq _ (screen (λ st, cpu_gdt st ∧ cpu_rest st ∧ length (kb_buffer (y_kbd (k_sys st))) = 256%nat))).
  { intros st [Hv [? Hg ? ? ? ? ? ?]]. apply ends_ret. split; [exact Hv|]. split; [|done].
    by exists (x_gdt (y_exec (k_sys st))). }
  eapply triple_seq; [apply triple_puts; by intros ? ? ?|].
  apply (triple_seq _ (screen (λ st, cpu_gdt st ∧ cpu_rest st ∧ cpu_kbd st))).
  { intros st (Hv & Hg & Hr & Hl). eapply (ends_bind (λ k, kb_inv k ∧ kb_chars k = [])).
    - intros d. by destruct (keyboard_init_resets (y_kbd (k_sys st)) d Hl) as (? & _ & ?).
    - intros k Hk. apply ends_ret. by split. }
  eapply triple_seq; [apply triple_puts; by intros ? ? ?|].
  eapply (triple_seq _ (screen stage1)); [|says].
  intros st (Hv & Hg & (Hd & Hcf & Hl & Hp & Hh & Hpg) & Hk). eapply ends_returns; [apply returns_idt_init|]. apply ends_ret.
  split; [exact Hv|]. destruct (idt_table_gates (la_isr la) _ Hl (lf_isr _ _ Hla)) as (? & ? & _).
  split; [by split|]. split; [exact Hp|]. split; [exact Hh|exact Hpg].
Qed.

(** *** Pages *)

Lemma start_pmm_ok : triple (screen stage1) (start_pmm (D := D) la) (screen stage2).
Proof.
  apply (triple_seq _ (screen stage2)).
  { intros st (Hv & Hc & Hp & Hh & Hpg). apply ends_ret. split; [exact Hv|]. split_and!; [|exact Hp|exact Hh|].
    - apply (cpu_ready_ext st); [reflexivity..|exact Hc].
    - unfold pages_are in *. change (pmm_init (la_kernel_end la) (k_pa st) = pmm_init (la_kernel_end la) bm).
      rewrite Hpg. reflexivity. }
  says.
  eapply triple_seq; [intros st Hst; by apply (triple_puthex stage2); [auto with blind|]|].
  says.
  eapply triple_seq; [intros st Hst; by apply (triple_puthex stage2); [auto with blind|]|].
  says.
Qed.

(** The pages are above the kernel image, and there are enough. *)
Lemma boot_pages_above a : a ∈ boot_pages →
  la_kernel_end la <= a ∧ ¬ (0x1F0000 <= a < 0x300000).
Proof using Hla Hbm.
  intros (p & -> & Hp)%elem_of_free_addrs. destruct Hla as [He Hs _ _ _ _].
  apply elem_of_free_pages in Hp as [Hp Hu]. change TOTAL_PAGES with 4096 in Hp.
  rewrite pmm_init_used in Hu by done. apply negb_false_iff, bool_decide_eq_true in Hu.
  unfold init_free in Hu. rewrite w32_small in Hu by lia. change PAGE_SIZE with 4096.
  destruct Hu as [[Hu _]|Hu]; [|lia]. Z.div_mod_to_equations. lia.
Qed.

Lemma boot_pages_many : (21 <= size boot_pages)%nat.
Proof using Hbm.
  set (l := (λ k, (0x300 + k) * PAGE_SIZE) <$> seqZ 0 21).
  assert (size (list_to_set l : gset Z) = 21%nat) as <-.
  { rewrite size_list_to_set; [reflexivity|]. apply NoDup_fmap_2; [|apply NoDup_seqZ].
    intros x y. change PAGE_SIZE with 4096. lia. }
  apply subseteq_size. intros a (k & -> & Hk%elem_of_seqZ)%elem_of_list_to_set%list_elem_of_fmap.
  apply elem_of_free_addrs. exists (0x300 + k). split; [done|]. apply elem_of_free_pages.
  change TOTAL_PAGES with 4096. split; [lia|]. rewrite pmm_init_used by (done || lia).
  rewrite bool_decide_eq_true_2; [done|]. right. lia.
Qed.

Lemma boot_pages_inv : pa_inv (pmm_init (la_kernel_end la) bm).
Proof using Hla Hbm. destruct Hla. apply pmm_init_inv; [done|lia]. Qed.

Lemma boot_pages_page a : a ∈ boot_pages → page_ok a.
Proof using Hla Hbm. rewrite <-boot_pages_eq. apply pa_page, boot_pages_inv. Qed.

(** *** Heap, page tables and processes *)

Lemma start_heap_ok : triple (screen stage2) (start_heap (D := D) fuel) (screen stage3).
Proof using Hla Hbm Hfuel.
  apply (triple_seq _ (screen stage3)).
  - intros st (Hv & Hc & Hp & [Hf Hn] & Hpg).
    destruct (heap_init_loop_spec fuel Hfuel boot_pages INITIAL_PAGES (k_heap st) [])
      as (h & l & E & Hi & Hpages & Hsub & Hsz & Hcov).
    + unfold k_heap. rewrite Hf, Hn, Hpg. apply heap0_inv, boot_pages_inv.
    + cbn [k_heap h_pa]. by rewrite Hpg, boot_pages_eq.
    + intros z []%covers_nil.
    + cbn [k_heap h_pa] in Hpages, Hsub, Hsz. rewrite Hpg in Hpages, Hsub, Hsz. rewrite boot_pages_eq in Hpages, Hsub, Hsz.
      pose proof boot_pages_many. unfold k_heap in Hpages. cbn [heap_pages] in Hpages. rewrite Hn in Hpages.
      eapply (ends_obind _ _ (λ x, x = h)); [unfold heap_init; rewrite E; apply ends_ret; reflexivity|]. intros ? ->.
      apply ends_ret. split; [exact Hv|]. split_and!; [apply (cpu_ready_ext st); [reflexivity..|exact Hc]|exact Hp|].
      exists l. unfold heap_ready. split_and!; [by destruct h| |exact Hcov|exact Hsub|exact Hsz|].
      * change (heap_pages h = 16). rewrite Hpages. unfold INITIAL_PAGES. lia.
      * change (rtc takes (pmm_init (la_kernel_end la) bm) (h_pa h)). rewrite <-Hpg.
        apply (heap_init_loop_takes fuel INITIAL_PAGES (k_heap st) h); [|exact E].
        cbn [k_heap h_pa]. rewrite Hpg. apply boot_pages_inv.
  - intros st (Hv & Hst). destruct Hst as (Hc & Hp & l & Hh & Hrest).
    pose proof (heap_get_stats_correct fuel (k_heap st) l ∅ Hfuel Hh) as E.
    eapply (ends_obind _ _ (λ _, True)); [rewrite E; by apply ends_ret|]. intros stats _.
    assert (triple (D := D) (screen stage3) (seq (puts (chars "Heap: "))
      (seq (puthex (free_bytes stats / 1024)) (puts (line " KB free")))) (screen stage3)) as Ht by says.
    apply Ht. split; [exact Hv|]. split_and!; [exact Hc|exact Hp|]. by exists l.
Qed.

Lemma start_paging_ok : triple (screen stage3) (start_paging (D := D)) (screen stage4).
Proof using Hla Hbm.
  apply (triple_seq _ (screen stage4)); [|says].
  intros st (Hv & Hc & Hp & l & Hh & Hpages & Hcov & Hsub & Hsz & Htk). apply ends_ret. split; [exact Hv|].
  pose proof boot_pages_many as Hmany.
  destruct (paging_init_spec (y_pg (k_sys st))) as (Hs & H3 & H0 & Ht & Hb & Hsub' & Hsz' & Hin);
    [apply (hi_pa _ _ _ Hh)|change (5 <= size (pa_free (k_pa st)))%nat; lia|].
  set (pg := paging_init _) in *. assert (∀ a, table_byte pg a → ¬ covers l a) as Happ.
  { intros a (p & Hp1 & Hp2)%Hin. by apply (hi_page _ _ _ Hh p a). }
  split_and!; [apply (cpu_ready_ext st); [reflexivity..|exact Hc]|exact Hp|]. exists l. unfold heap_ready. split_and!.
  - apply (heap_inv_ext (k_heap st) l (pg_mem pg) (pg_pa pg) Hh); [|apply (is_inv _ _ Hs)|exact Hsub'].
    intros z Hz. apply Hb; [|intros Hn; by apply (Happ z)].
    pose proof (wf_segs_covers PAGE_SIZE l z (hi_wf _ _ _ Hh) Hz). unfold addr_ok, TOTAL_MEMORY, PAGE_SIZE in *. lia.
  - exact Hpages.
  - exact Hcov.
  - etransitivity; [exact Hsub'|exact Hsub].
  - change (size (pa_free (pg_pa pg)) = (size boot_pages - 21)%nat). rewrite Hsz'.
    change (pg_pa (y_pg (k_sys st))) with (k_pa st). lia.
  - etransitivity; [exact Htk|]. apply (paging_init_takes (y_pg (k_sys st))). apply (hi_pa _ _ _ Hh).
  - split; [exact Hs|exact H3|change (Z.testbit (cr0 pg) 31 = true); rewrite H0, Z.lor_spec; apply orb_true_r|exact Ht| |exact Happ].
    intros a (p & Hp1 & Hp2)%Hin. exists p. split; [apply Hsub, Hp1|exact Hp2].
Qed.

Lemma esp_slot_low a : esp_addr (la_proc_table la) 0 <= a < esp_addr (la_proc_table la) 0 + 4 → ¬ in_pages boot_pages a.
Proof using Hla Hbm.
  intros Ha (p & [Hp _]%boot_pages_above & Hr). destruct Hla as [He Hs Ht _ _ _].
  unfold esp_addr, TABLE_BYTES, sizeof_process, offset_esp, MAX_PROCESSES in *. change PAGE_SIZE with 4096 in *. lia.
Qed.

Lemma start_processes_ok : triple (screen stage4) (start_processes (D := D) la) (screen stage5).
Proof using Hla Hbm.
  apply (triple_seq _ (screen stage5)); [|says].
  intros st (Hv & Hc & [Hl Hn] & l & (Hh & Hpages & Hcov & Hsub & Hsz & Htk) & [Hs H3 H0 Ht Htab Happ]).
  apply ends_ret. split; [exact Hv|].
  destruct (process_init_spec (la_proc_table la) k0 (k_procs st)) as (Hi & _ & Hcur); [|exact Hl|exact Hn|apply Hh| |].
  { destruct Hla as [He Hk Hp _ _ _]. unfold layout_ok, apart, TABLE_BYTES, sizeof_process, MAX_PROCESSES in *. lia. }
  { intros a [Ha _]%Hsub%boot_pages_above. destruct Hla as [He Hk Hp _ _ _]. unfold apart. lia. }
  pose proof (process_init_mem (la_proc_table la) (k_procs st)) as [Em Epa].
  set (p := process_init _ _) in *. cbn [k_procs pr_mem pr_pa] in Em, Epa.
  assert (∀ a, addr_ok a 1 → in_pages boot_pages a → load8 (pr_mem p) a = load8 (k_mem st) a) as Hmem.
  { intros a Ha Hin. rewrite Em. unfold set_esp. apply load8_store32_far; [|exact Ha|].
    - apply (esp_addr_ok (la_proc_table la) k0); [|unfold MAX_PROCESSES; lia]. destruct Hla as [He Hk Hp _ _ _].
      unfold layout_ok, apart, TABLE_BYTES, sizeof_process, MAX_PROCESSES in *. lia.
    - pose proof (esp_slot_low a) as Hlow. destruct (Z.le_gt_cases (esp_addr (la_proc_table la) 0) a); [|lia].
      destruct (Z.lt_ge_cases a (esp_addr (la_proc_table la) 0 + 4)); [|lia]. destruct Hlow; [lia|exact Hin]. }
  split_and!; [apply (cpu_ready_ext st); [reflexivity..|exact Hc]| |exact Hcur|].
  - destruct p. exact Hi.
  - exists l. unfold heap_ready. change (k_pa (set_procs st p)) with (pr_pa p). rewrite Epa. split_and!; try assumption.
    + change (k_heap (set_procs st p)) with (Heap (pr_mem p) (free_list (k_heap st)) (heap_pages (k_heap st)) (pr_pa p)).
      rewrite Epa. apply (heap_inv_ext (k_heap st) l (pr_mem p) (k_pa st) Hh); [|apply Hh|reflexivity].
      intros z Hz. apply Hmem; [|apply Hcov, Hz].
      pose proof (wf_segs_covers PAGE_SIZE l z (hi_wf _ _ _ Hh) Hz). unfold addr_ok, TOTAL_MEMORY, PAGE_SIZE in *. lia.
    + change (y_pg (k_sys (set_procs st p))) with (set_pa (Paging.set_mem (y_pg (k_sys st)) (pr_mem p)) (pr_pa p)).
      rewrite Epa. destruct (init_state_ext 4 (y_pg (k_sys st)) (pr_mem p) Hs) as [Hs' Hback]; [|lia|].
      { intros a Ha Hta. apply Hmem; [exact Ha|apply Htab, Hta]. }
      split; [destruct Hs' as [[] ? ? ?]; split; [split; assumption|assumption..]|exact H3|exact H0|exact Ht| |];
        intros a Hta; [apply Htab|apply Happ]; apply Hback, Hta.
Qed.

(** *** The whole *)

Lemma start_disk_ok : triple (screen stage5) (start_disk (D := D)) (screen stage5).
Proof.
  unfold start_disk. says. eapply triple_seq; [|says].
  intros st Hst. eapply (ends_bind (λ _, True)); [done|]. intros r _. revert st Hst.
  destruct (r =? 0); match goal with |- ∀ st, _ → ends (?c st) _ => change (triple (screen stage5) c (screen stage5)) end; says.
Qed.

Lemma system_info_ok : triple (screen stage5) (system_info (D := D) la fuel) (screen stage5).
Proof using Hdrain. unfold system_info. says. Qed.

Lemma start_system_ok :
  triple (λ st, at_reset bm st ∧ length (vga_buffer (k_vga st)) = 2000%nat) (start_system (D := D) la fuel)
    (screen stage5).
Proof using Hla Hbm Hdrain Hfuel.
  eapply triple_seq; [apply start_console_ok|]. eapply triple_seq; [apply start_cpu_ok|].
  eapply triple_seq; [apply start_pmm_ok|]. eapply triple_seq; [apply start_heap_ok|].
  eapply triple_seq; [apply start_paging_ok|]. eapply triple_seq; [apply start_processes_ok|].
  eapply triple_seq; [apply start_disk_ok|apply system_info_ok].
Qed.
End Boot.
