(* ===== verification/KernelRun.v ===== *)
(** * Kernel start: from reset to the shell

    [kernel_main] as a whole: after the components it mounts the volume, and
    then starts the user shell from the disk; commands that cannot be run are
    reported; the kernel's own shell edits a line and executes it. *)

From Stdlib Require Import String.
From stdpp Require Import gmap.
From S2P Require Import Prelude Mem Pmm Heap HeapList HeapInv HeapProps Paging PagingProps Process ProcessProps ProcessRun.
From S2P Require Import Io Keyboard KeyboardProps Vga VgaProps Args ArgsProps Fat32 Fat32Names Fat32Dir Fat32Props Fat32List Ide.
From S2P Require Import Gdt Idt IdtProps Serial Elf ElfProps Syscall Kernel KernelProps.

#[local] Opaque put_all.

(** ** Mounting *)

(** The volume of an image. *)
Definition boot_bpb (img : Z → list Z) : list Z := slice (img 0) 0 sizeof_bpb.
Definition mounted (img : Z → list Z) : fat32_fs_t :=
  let b := boot_bpb img in
  Fs 0 b (reserved_sectors b) (reserved_sectors b ⊕ (num_fats b ⊗ fat_size_32 b)) (root_cluster b) 1.

(** A FAT32 volume whose root directory is the chain [root]. *)
Record volume_ok (img : Z → list Z) (root : list Z) : Prop := {
  vo_image : image_ok img;
  vo_bps : bytes_per_sector (boot_bpb img) = 512;
  vo_fat16 : fat_size_16 (boot_bpb img) = 0;
  vo_spc : 0 < sectors_per_cluster (boot_bpb img) < 256;
  vo_root : chain img (mounted img) (root_cluster (boot_bpb img)) root
}.

Lemma mounted_ok img root : volume_ok img root → fs_ok 0 (mounted img).
Proof. intros []. by split. Qed.

Section Mount.
Context {D : Type} `{PIO : PortIO D} `{BD : BlockDevice D}.
Context (la : layout) (site : call_site) (fuel : nat) (k0 : Z) (bm : list Z).
Context (Hla : layout_fits la k0) (Hbm : length bm = 512%nat) (Hdrain : drains (D := D) fuel) (Hfuel : fuel_ok fuel).
Context (img : Z → list Z) (root : list Z) (Hdev : reads_image (D := D) 0 img) (Hvol : volume_ok img root).
Context (Hroot : (length root < fuel)%nat).

Lemma returns_mount fs : returns (D := D) (fat32_init fs 0) (0, mounted img).
Proof using Hdev Hvol.
  intros d. unfold fat32_init, mbind, io_bind. pose proof (Hdev 0 d ltac:(split; [discriminate|reflexivity])) as E.
  destruct (read_sector 0 0 d) as [r d1]. cbn [fst] in E. subst r. cbn [fst mret io_ret].
  fold (boot_bpb img). by rewrite (vo_bps _ _ Hvol), (vo_fat16 _ _ Hvol).
Qed.

(** The kernel when the system is ready: every component in its invariant. *)
Definition booted (st : kstate) : Prop := stage5 la k0 bm st ∧ y_fs (k_sys st) = mounted img.

Lemma blind_booted : blind booted.
Proof. intros st v [H E]. split; [by apply blind_stage5|exact E]. Qed.
Lemma blind_stage5' : blind (stage5 la k0 bm).
Proof. apply blind_stage5. Qed.
#[local] Hint Resolve blind_booted blind_stage5' : blind.

Lemma start_fs_ok : triple (screen (stage5 la k0 bm)) (start_fs (D := D) fuel) (screen booted).
Proof using Hdev Hvol Hroot.
  unfold start_fs. says.
  intros st (Hv & Hst). eapply ends_returns; [apply returns_mount|]. cbn beta iota zeta. cbn [Z.eqb].
  match goal with |- ends (?c ?s) _ => enough (triple (screen booted) c (screen booted)) as Ht end.
  { apply Ht. split; [exact Hv|]. split; [|reflexivity]. destruct Hst as (Hc & H & H' & H'').
    split_and!; [|exact H|exact H'|exact H'']. apply (cpu_ready_ext la st); [reflexivity..|exact Hc]. }
  says. eapply triple_seq; [|says]. intros st1 (Hv1 & Hst1 & Efs). rewrite Efs.
  eapply (ends_obind _ _ (λ p, vga_inv p.2)).
  - intros d. pose proof (fat32_list_root_correct 0 img (mounted img) root fuel (k_vga st1) d Hdev
      (mounted_ok _ _ Hvol) (vo_root _ _ Hvol) Hroot) as E.
    destruct (fat32_list_root _ _ _ d) as [r d']. cbn [fst] in E. subst r. eexists _, _. split; [reflexivity|].
    by apply put_all_inv.
  - intros p Hp. apply ends_ret. split; [exact Hp|]. by apply blind_booted.
Qed.

Lemma kernel_boot_ok :
  triple (λ st, at_reset bm st ∧ length (vga_buffer (k_vga st)) = 2000%nat) (kernel_boot (D := D) la fuel) (screen booted).
Proof using Hla Hbm Hdrain Hfuel Hdev Hvol Hroot.
  eapply triple_seq; [apply (start_system_ok la fuel k0 bm); assumption|].
  eapply triple_seq; [apply start_fs_ok|]. unfold system_ready. says.
Qed.
End Mount.

(** ** Commands *)

Lemma upper_name_spec n : ∀ s, upper_name s n = upper <$> take n (c_string s).
Proof.
  induction n as [|n IH]; intros [|c s]; cbn [upper_name c_string]; try done.
  destruct (c =? 0); [done|]. cbn [take fmap list_fmap]. by rewrite IH.
Qed.
Lemma upper_nonzero c : c ≠ 0 → upper c ≠ 0.
Proof. intros H. unfold upper. bcase; lia. Qed.
Lemma upper_name_nonzero s n : Forall (λ c, c ≠ 0) (upper_name s n).
Proof.
  rewrite upper_name_spec. apply Forall_fmap, Forall_take. eapply Forall_impl; [apply c_string_nonzero|].
  intros c. apply upper_nonzero.
Qed.

(** The file a command line names, and the arguments it gives. *)
Definition file_name (cmdline : list Z) : list Z := upper <$> take 11 (default [] (head (pieces cmdline))).

Lemma file_name_nonzero cmdline : nul_free cmdline → Forall (λ c, c ≠ 0) (file_name cmdline).
Proof.
  intros Hc. pose proof (parse_spec cmdline (replicate 64 0) (Args (replicate 16 (replicate 64 0)) 0) Hc eq_refl) as Hp.
  destruct (parse_command_line _ _ _) as [nm a]. destruct Hp as (_ & _ & E & _).
  { split; [reflexivity|]. by apply Forall_replicate. }
  unfold file_name. rewrite <-E. apply Forall_fmap, Forall_take.
  eapply Forall_impl; [apply c_string_nonzero|]. intros c. apply upper_nonzero.
Qed.

Section Commands.
Context {D : Type} `{PIO : PortIO D} `{BD : BlockDevice D}.
Context (la : layout) (site : call_site) (fuel : nat) (Hdrain : drains (D := D) fuel).

Lemma ends_seq (a b : cmd (D := D)) st st1 Q :
  ends (a st) (λ st', st' = st1) → ends (b st1) Q → ends (seq a b st) Q.
Proof. intros Ha Hb. eapply ends_obind; [exact Ha|]. by intros _ ->. Qed.

Lemma ends_color fg st :
  ends (D := D) (set_color fg st) (λ st', st' = set_vga st (vga_set_color (k_vga st) fg VGA_COLOR_BLACK)).
Proof. by apply ends_ret. Qed.
Lemma ends_puts s st :
  ends (D := D) (puts s st) (λ st', st' = set_vga st (put_all (k_vga st) (c_string s))).
Proof. eapply ends_returns; [apply returns_puts|]. by apply ends_ret. Qed.
Lemma ends_putchar c st :
  ends (D := D) (putchar c st) (λ st', st' = set_vga st (vga_put (k_vga st) c)).
Proof. eapply ends_returns; [apply returns_putchar|]. by apply ends_ret. Qed.
Lemma ends_com1_puts s st : ends (D := D) (com1_puts fuel s st) (λ st', st' = st).
Proof using Hdrain. by apply (triple_com1_puts fuel (λ st', st' = st) s Hdrain). Qed.
Lemma ends_com1_putchar c st : ends (D := D) (com1_putchar fuel c st) (λ st', st' = st).
Proof using Hdrain. by apply (triple_com1_putchar fuel (λ st', st' = st) c Hdrain). Qed.

Definition cyan (v : vga) : vga := vga_set_color v VGA_COLOR_LIGHT_CYAN VGA_COLOR_BLACK.

Lemma complain_ends s st : Forall (λ c, c ≠ 0) (chars s) →
  ends (D := D) (done (complain fuel s) st) (λ r, r = (None, set_vga st (put_all (cyan (k_vga st)) (line s)))).
Proof using Hdrain.
  intros Hs. eapply (ends_obind _ _ (λ st', st' = set_vga st (put_all (cyan (k_vga st)) (line s))));
    [|intros _ ->; by apply ends_ret].
  eapply ends_seq; [apply ends_color|]. eapply ends_seq; [apply ends_puts|].
  rewrite c_string_line by exact Hs. apply ends_com1_puts.
Qed.

Definition not_found_text (name : list Z) : list Z := chars "Command not found: " ++ name ++ [10].
Lemma not_found_ends name st : Forall (λ c, c ≠ 0) name →
  ends (D := D) (done (not_found fuel name) st)
    (λ r, r = (None, set_vga st (put_all (cyan (k_vga st)) (not_found_text name)))).
Proof using Hdrain.
  intros Hs. eapply (ends_obind _ _ (λ st', st' = set_vga st (put_all (cyan (k_vga st)) (not_found_text name))));
    [|intros _ ->; by apply ends_ret].
  unfold not_found_text. rewrite !put_all_app.
  eapply ends_seq; [apply ends_color|]. eapply ends_seq; [apply ends_puts|]. eapply ends_seq; [apply ends_puts|].
  eapply ends_seq; [apply ends_putchar|]. rewrite (c_string_id name) by exact Hs.
  eapply ends_seq; [apply ends_com1_puts|]. eapply ends_seq; [apply ends_com1_puts|].
  apply ends_com1_puts.
Qed.

(** *** On a volume *)

Context (img : Z → list Z) (root : list Z) (Hdev : reads_image (D := D) 0 img) (Himg : image_ok img).

(** A kernel that can execute commands: the volume is mounted, and the arrays
    of the command-line parser have their sizes. *)
Record shell_ready (st : kstate) : Prop := {
  sr_fs : fs_ok 0 (y_fs (k_sys st));
  sr_root : chain img (y_fs (k_sys st)) (root_dir_cluster (y_fs (k_sys st))) root;
  sr_fuel : (length root < fuel)%nat;
  sr_name : length (cs_program_name site) = 64%nat;
  sr_args : rows_ok (args (current_program_args (k_sys st)))
}.

(** The state when the command line is parsed. *)
Definition parsed (cmdline : list Z) (st : kstate) : program_args_t :=
  (parse_command_line cmdline (cs_program_name site) (current_program_args (k_sys st))).2.
Definition lookup_cmd (cmdline : list Z) (st : kstate) : option fat32_file_t :=
  lookup_file img (y_fs (k_sys st)) root (file_name cmdline).
Definition opened (cmdline : list Z) (st : kstate) (f : fat32_file_t) : sys :=
  with_file (with_args (k_sys st) (parsed cmdline st)) f (current_file (k_sys st)).

(** The state when the file [bs] is in the buffer. *)
Definition read_sys (cmdline : list Z) (st : kstate) (f f' : fat32_file_t) (bs : list Z) : sys :=
  with_mem (with_file (opened cmdline st f) (fat32_close f') (current_file (k_sys st)))
    (store_bytes (k_mem st) (la_binary_buffer la) bs).

(** [execute_command] after [fat32_open] has found the file. *)
Definition execute_file (y : sys) (file : fat32_file_t) (st : kstate) : io D (option (option user_ctx * kstate)) :=
  if (0 <? f_size file) && (f_size file <=? sizeof_binary_buffer) then
    p ←? fat32_read fuel (y_fs y) true file (f_size file); let '(bytes_read, out, file) := p in
    let m := store_bytes (y_mem y) (la_binary_buffer la) out in
    let st := set_sys st (with_mem (with_file y (fat32_close file) (current_file y)) m) in
    if 0 <? bytes_read then
      if (load8 m (la_binary_buffer la) =? 0x7F) && (load8 m (la_binary_buffer la + 1) =? 69) &&
         (load8 m (la_binary_buffer la + 2) =? 76) && (load8 m (la_binary_buffer la + 3) =? 70)
      then run_binary la site fuel st
      else done (complain fuel "Not an ELF binary") st
    else done (complain fuel "Failed to read file") st
  else done (complain fuel "File too large") (set_sys st (with_file y (fat32_close file) (current_file y))).

Lemma execute_open cmdline st Q :
  shell_ready st → nul_free cmdline →
  match lookup_cmd cmdline st with
  | None => ends (D := D) (done (not_found fuel (file_name cmdline)) (set_sys st (opened cmdline st (y_file (k_sys st))))) Q
  | Some f => ends (D := D) (execute_file (opened cmdline st f) f st) Q
  end →
  ends (D := D) (execute_command la site fuel cmdline st) Q.
Proof using Hdev Himg.
  intros [Hfs Hroot Hl Hn Ha] Hc H. unfold execute_command.
  pose proof (parse_spec cmdline (cs_program_name site) (current_program_args (k_sys st)) Hc Hn Ha) as Hp.
  unfold opened, parsed, lookup_cmd in *.
  destruct (parse_command_line cmdline _ _) as [nm a]. destruct Hp as (_ & _ & Hnm & _). cbn [snd] in H.
  cbn beta iota zeta. rewrite upper_name_spec, Hnm. fold (file_name cmdline).
  eapply (ends_obind _ _ (λ p, p = match lookup_file img (y_fs (k_sys st)) root (file_name cmdline) with
    | Some f => (true, f) | None => (false, y_file (k_sys st)) end)).
  - intros d. pose proof (fat32_open_spec 0 img Hdev Himg (y_fs (k_sys st)) root fuel (y_file (k_sys st))
      (file_name cmdline) Hfs Hroot Hl d) as E.
    change (y_fs (with_args (k_sys st) a)) with (y_fs (k_sys st)).
    change (y_file (with_args (k_sys st) a)) with (y_file (k_sys st)).
    destruct (fat32_open _ _ _ _ d) as [r d']. cbn [fst] in E.
    eexists _, d'. split; [|reflexivity]. rewrite E. by destruct (lookup_file _ _ _ _).
  - intros p ->. destruct (lookup_file _ _ _ _) as [f|]; exact H.
Qed.

(** [f_size] bytes are in the clusters [lf] of the file. *)
Record file_ok (fs : fat32_fs_t) (f : fat32_file_t) (lf : list Z) : Prop := {
  fo_chain : chain img fs (first_cluster f) lf;
  fo_size : 0 < f_size f <= sizeof_binary_buffer;
  fo_fits : f_size f <= cluster_size fs * Z.of_nat (length lf)
}.

(** The first four bytes are those of an ELF file. *)
Definition elf_magic (bs : list Z) : bool :=
  (nthZ 0 bs 0 =? 0x7F) && (nthZ 0 bs 1 =? 69) && (nthZ 0 bs 2 =? 76) && (nthZ 0 bs 3 =? 70).

Lemma length_content fs f lf : fs_ok 0 fs → file_ok fs f lf →
  Z.of_nat (length (content img fs lf f)) = f_size f.
Proof using Himg.
  intros Hfs [_ Hs Hf]. pose proof (length_chain_bytes 0 img Himg fs lf Hfs) as Hl.
  unfold content. rewrite length_take. lia.
Qed.

Lemma content_u8 fs lf f : Forall u8 (content img fs lf f).
Proof using Himg.
  apply Forall_take. unfold chain_bytes, chain_sectors. apply Forall_concat, Forall_concat, Forall_fmap, Forall_true.
  intros c. apply Forall_fmap, Forall_true. intros i. apply Himg.
Qed.

Lemma execute_read cmdline st f lf Q :
  shell_ready st → lookup_cmd cmdline st = Some f → file_ok (y_fs (k_sys st)) f lf →
  (Z.to_nat sizeof_binary_buffer < fuel)%nat → addr_ok (la_binary_buffer la) sizeof_binary_buffer → 4 <= f_size f →
  let bs := content img (y_fs (k_sys st)) lf f in
  let m := store_bytes (k_mem st) (la_binary_buffer la) bs in
  (∀ f', let y' := read_sys cmdline st f f' bs in
     if elf_magic bs then ends (D := D) (run_binary la site fuel (set_sys st y')) Q
     else ends (D := D) (done (complain fuel "Not an ELF binary") (set_sys st y')) Q) →
  ends (D := D) (execute_file (opened cmdline st f) f st) Q.
Proof using Hdev Himg.
  intros Hr Hlk Hf Hfu Hba H4 bs m Hk. pose proof (length_content _ f lf (sr_fs _ Hr) Hf) as Hlen. fold bs in Hlen.
  pose proof (fo_size _ _ _ Hf) as Hsz. destruct (lookup_file_at 0 img (y_fs (k_sys st)) root (file_name cmdline) f lf)
    as (Hat & Hpos & Hval); [apply Hr|exact Hlk|apply Hf|].
  unfold execute_file. destruct (Z.ltb_spec 0 (f_size f)); [|lia].
  destruct (Z.leb_spec (f_size f) sizeof_binary_buffer); [|lia]. cbn [andb].
  unfold sizeof_binary_buffer in *.
  eapply (ends_obind _ _ (λ p, ∃ f', p = (f_size f, bs, f'))).
  - intros d. destruct (fat32_read_spec 0 img Hdev Himg (y_fs (k_sys st)) lf f fuel (f_size f) d) as [E _];
      [apply Hr|exact Hat|lia|unfold u32; lia|lia|lia|lia|].
    assert (slice (content img (y_fs (k_sys st)) lf f) (position f) (f_size f) = bs) as Eb.
    { rewrite Hpos. unfold slice. cbn [Z.to_nat drop]. fold bs. apply firstn_all2. lia. }
    rewrite Eb in E. change (y_fs (opened cmdline st f)) with (y_fs (k_sys st)).
    destruct (fat32_read _ _ _ _ _ d) as [r d']. cbn [fst] in E. subst r.
    eexists _, _. split; [reflexivity|]. rewrite Hlen. by eexists.
  - intros p [f' ->]. cbn beta iota zeta. destruct (Z.ltb_spec 0 (f_size f)); [|lia].
    set (y' := with_mem _ _). change (y_mem (opened cmdline st f)) with (k_mem st). fold m.
    assert (∀ i, 0 <= i < 4 → load8 m (la_binary_buffer la + i) = w8 (nthZ 0 bs i)) as Hm.
    { intros i Hi. unfold m, addr_ok in *. rewrite load8_store_bytes by (unfold addr_ok; lia). rewrite decide_True by lia.
      f_equal. f_equal. lia. }
    pose proof (content_u8 (y_fs (k_sys st)) lf f) as Hu8. fold bs in Hu8.
    assert (∀ i, 0 <= i < 4 → load8 m (la_binary_buffer la + i) = nthZ 0 bs i) as Hm'.
    { intros i Hi. rewrite Hm by exact Hi. apply w8_small. apply (nthZ_Forall u8); [exact Hu8|unfold u8; lia]. }
    pose proof (Hm' 0 ltac:(lia)) as E0. rewrite Z.add_0_r in E0. rewrite E0, !Hm' by lia.
    fold (elf_magic bs). specialize (Hk f').
    destruct (elf_magic bs); exact Hk.
Qed.

(** The command is over at once, with [text] on the screen [v]. *)
Definition reports (cmdline : list Z) (st : kstate) (v : vga) (text : list Z) : Prop :=
  ends (D := D) (execute_command la site fuel cmdline st) (λ '(r, st'),
    r = None ∧ k_vga st' = put_all (cyan v) text ∧ current_program_args (k_sys st') = parsed cmdline st).

(** C34: On a volume that is read without error, a command that cannot be run is
    over at once and says why on the screen: "Command not found" when no file has
    that name (the first word of the line in upper case, cut to 11 characters),
    "File too large" for a file of more than 64 KB, "Not an ELF binary" for a
    file of at least four bytes that does not start like an ELF file, and
    "Failed to execute binary" for one whose ELF header is not that of a 32-bit
    x86 program.  (Nothing is said of empty files, which the code reports as too
    large, and of files of one to three bytes, of which it checks bytes that they
    do not have: [stale_binary_runs].) *)
Theorem execute_command_reports cmdline st :
  shell_ready st → nul_free cmdline → addr_ok (la_binary_buffer la) sizeof_binary_buffer →
  (Z.to_nat sizeof_binary_buffer < fuel)%nat →
  match lookup_cmd cmdline st with
  | None => reports cmdline st (k_vga st) (not_found_text (file_name cmdline))
  | Some f =>
      (sizeof_binary_buffer < f_size f → reports cmdline st (k_vga st) (line "File too large")) ∧
      ∀ lf, file_ok (y_fs (k_sys st)) f lf → 4 <= f_size f →
        let bs := content img (y_fs (k_sys st)) lf f in
        (elf_magic bs = false → reports cmdline st (k_vga st) (line "Not an ELF binary")) ∧
        (elf_magic bs = true →
         elf_validate_header (store_bytes (k_mem st) (la_binary_buffer la) bs) (la_binary_buffer la) ≠ 0 →
         reports cmdline st (put_all (k_vga st) (line "Invalid ELF header")) (line "Failed to execute binary"))
  end.
Proof using Hdrain Hdev Himg.
  intros Hr Hc Hba Hfu. pose proof (execute_open cmdline st) as Ho. destruct (lookup_cmd cmdline st) as [f|] eqn:Ef.
  - split.
    + intros Hsz. apply Ho; [exact Hr|exact Hc|]. unfold execute_file.
      destruct ((0 <? f_size f) && (f_size f <=? sizeof_binary_buffer)) eqn:E; [lia|].
      eapply ends_mono; [apply complain_ends; vm_compute; repeat constructor; discriminate|]. intros _ ->. split_and!; reflexivity.
    + intros lf Hf H4 bs. split; [intros Hmag|intros Hmag Hval]; (apply Ho; [exact Hr|exact Hc|]);
        apply (execute_read cmdline st f lf); try assumption; intros f' y'; fold bs; rewrite Hmag.
      * eapply ends_mono; [apply complain_ends; vm_compute; repeat constructor; discriminate|]. intros _ ->.
        split_and!; reflexivity.
      * unfold run_binary. eapply ends_returns.
        { unfold elf_load_and_exec.
          change (pg_mem (x_pg (y_exec (k_sys (set_sys st y'))))) with (store_bytes (k_mem st) (la_binary_buffer la) bs).
          rewrite (proj2 (Z.eqb_neq _ 0) Hval). cbn [negb].
          eapply returns_bind; [apply returns_puts|apply returns_ret]. }
        cbn beta iota zeta. eapply ends_mono; [apply complain_ends; vm_compute; repeat constructor; discriminate|].
        intros _ ->. split_and!; [reflexivity| |reflexivity].
        rewrite <-(c_string_line "Invalid ELF header") by (vm_compute; repeat constructor; discriminate).
        reflexivity.
  - apply Ho; [exact Hr|exact Hc|]. eapply ends_mono; [apply not_found_ends|].
    + by apply file_name_nonzero.
    + intros _ ->. split_and!; reflexivity.
Qed.
End Commands.

(** ** The whole of [kernel_main] *)

Section Main.
Context {D : Type} `{PIO : PortIO D} `{BD : BlockDevice D}.
Context (la : layout) (site : call_site) (fuel : nat) (k0 : Z) (bm : list Z).
Context (Hla : layout_fits la k0) (Hbm : length bm = 512%nat) (Hdrain : drains (D := D) fuel) (Hfuel : fuel_ok fuel).
Context (img : Z → list Z) (root : list Z) (Hdev : reads_image (D := D) 0 img) (Hvol : volume_ok img root).
Context (Hroot : (length root < fuel)%nat) (Hname : length (cs_program_name site) = 64%nat).

(** C33: On every machine whose serial port drains, [kernel_main] starts the
    system: it returns from the start of all its components with each in its
    invariant, in one memory and over one page allocator: a console with its
    cursor on the screen, the segments and gates in place and interrupts on, the
    keyboard queue empty, a heap of 16 pages, the identity map with page tables
    outside the heap, the kernel as the only process, 21 pages fewer than at the
    start, and the volume of the disk mounted. *)
Theorem kernel_boot_correct st :
  at_reset bm st → length (vga_buffer (k_vga st)) = 2000%nat →
  ends (D := D) (kernel_boot la fuel st) (λ st', vga_inv (k_vga st') ∧ booted la k0 bm img st').
Proof using Hla Hbm Hdrain Hfuel Hdev Hvol Hroot.
  intros Hst Hv. apply (kernel_boot_ok la fuel k0 bm Hla Hbm Hdrain Hfuel img root Hdev Hvol Hroot). done.
Qed.

Lemma booted_ready st : booted la k0 bm img st → shell_ready site fuel img root st.
Proof using Hvol Hroot Hname.
  intros [(Hc & _) E]. split; rewrite ?E; [by eapply mounted_ok|apply Hvol|exact Hroot|exact Hname|apply Hc].
Qed.

(** The page tables of a booted kernel are neither in its image nor in the
    memory of programs. *)
Lemma booted_tables st a : booted la k0 bm img st → table_byte (y_pg (k_sys st)) a →
  la_kernel_end la <= a ∧ ¬ (0x1F0000 <= a < 0x300000).
Proof using Hla Hbm.
  clear Hroot Hname. intros [(_ & _ & _ & l & _ & Hp) _] (p & Hin & Hr)%(pr_tables _ _ _ _ Hp).
  pose proof (boot_pages_above la k0 bm Hla Hbm p Hin) as [Hlo Hhi].
  destruct (boot_pages_page la k0 bm Hla Hbm p Hin) as (Hal & _).
  change PAGE_SIZE with 4096 in *. split; [lia|]. Z.div_mod_to_equations. lia.
Qed.

(** A program read into the binary buffer of a booted kernel can be loaded. *)
Lemma booted_loadable st x bs :
  booted la k0 bm img st → Z.of_nat (length bs) <= sizeof_binary_buffer →
  let buf := la_binary_buffer la in
  let m := store_bytes (k_mem st) buf bs in
  program_in (store_bytes ∅ buf bs) buf (Z.of_nat (length bs)) →
  x_pg x = Paging.set_mem (y_pg (k_sys st)) m → loadable x buf (Z.of_nat (length bs)).
Proof using Hla Hbm.
  clear Hroot Hname. intros Hb Hl buf m Hp Ex. pose proof (λ a, booted_tables st a Hb) as Htab.
  pose proof Hb as [(_ & _ & _ & l & _ & Hpr) _]. pose proof (pr_state _ _ _ _ Hpr) as Hs.
  pose proof (lf_binary _ _ Hla) as Hbuf. pose proof (lf_end _ _ Hla). pose proof (lf_stack _ _ Hla).
  unfold sizeof_binary_buffer in *.
  assert (addr_ok buf (Z.of_nat (length bs))) as Hao by (unfold addr_ok, buf; lia).
  assert (∀ a, addr_ok a 1 → table_byte (y_pg (k_sys st)) a → load8 m a = load8 (k_mem st) a) as Hm.
  { intros a Ha Ht%Htab. unfold m. rewrite load8_store_bytes by assumption. rewrite decide_False; [done|]. unfold buf. lia. }
  destruct (init_state_ext 4 _ m Hs Hm ltac:(lia)) as [Hs' Hback].
  destruct (program_in_ext (store_bytes ∅ buf bs) m buf (Z.of_nat (length bs)) Hp) as [Hh He Hse].
  { intros a Ha. unfold m. rewrite !load8_store_bytes by (unfold addr_ok in *; lia). by rewrite !decide_True by lia. }
  split; rewrite ?Ex; [apply Hs'| |exact Hh|exact He|exact Hse|].
  - apply (init_table _ 0 Hs'). lia.
  - intros a Ha%Hback%Htab. lia.
Qed.

(** Ring 3 runs the program [bs] from its entry point, alone in its memory. *)
Definition entered (bs : list Z) (p : option user_ctx * kstate) : Prop :=
  let buf := la_binary_buffer la in
  let m0 := store_bytes ∅ buf bs in
  let pg := y_pg (k_sys p.2) in
  p.1 = Some (UserCtx (e_entry m0 buf) 0x1B (cs_eflags site .| 0x200) 0x301000 0x23 0x23) ∧
  paging_inv pg ∧
  (∀ w, u32 w → user_accessible pg w = true ↔ user_range w) ∧
  (∀ w, u32 w → user_range w → paging_get_phys pg w = w) ∧
  ∃ m, same_file m0 m buf (Z.of_nat (length bs)) ∧
    ∀ a, addr_ok a 1 → ¬ table_byte pg a → load8 (pg_mem pg) a = image_byte m buf a.

(** The state in which [run_binary] enters ring 3. *)
Definition started_at (st : kstate) (x : sys) (bs : list Z) : option user_ctx * kstate :=
  let buf := la_binary_buffer la in
  (Some (UserCtx (e_entry (store_bytes ∅ buf bs) buf) 0x1B (cs_eflags site .| 0x200) 0x301000 0x23 0x23),
   set_sys st (set_exec x (started (y_exec x) buf (cs_ctx site) (cs_saved_esp0 site) (cs_current_esp site)))).

Lemma binary_same st bs : Z.of_nat (length bs) <= sizeof_binary_buffer →
  let buf := la_binary_buffer la in
  same_file (store_bytes ∅ buf bs) (store_bytes (k_mem st) buf bs) buf (Z.of_nat (length bs)).
Proof using Hla.
  clear Hroot Hname Hbm. intros Hl buf a Ha. pose proof (lf_binary _ _ Hla). pose proof (lf_end _ _ Hla). pose proof (lf_stack _ _ Hla).
  unfold sizeof_binary_buffer, buf in *.
  rewrite !load8_store_bytes by (unfold addr_ok; lia). by rewrite !decide_True by lia.
Qed.

(** Ring 3 entered in the state [x']. *)
Lemma entered_in st x x' bs :
  booted la k0 bm img st → Z.of_nat (length bs) <= sizeof_binary_buffer →
  let buf := la_binary_buffer la in
  let m := store_bytes (k_mem st) buf bs in
  paging_inv (x_pg x') →
  (∀ a, addr_ok a 1 → ¬ table_byte (x_pg x') a → load8 (pg_mem (x_pg x')) a = image_byte m buf a) →
  (∀ w, u32 w → user_range w → user_accessible (x_pg x') w = true ∧ paging_get_phys (x_pg x') w = w) →
  (∀ w, u32 w → ¬ user_range w → user_accessible (x_pg x') w = user_accessible (Paging.set_mem (y_pg (k_sys st)) m) w) →
  entered bs (Some (UserCtx (e_entry (store_bytes ∅ buf bs) buf) 0x1B (cs_eflags site .| 0x200) 0x301000 0x23 0x23),
    set_sys st (set_exec x x')).
Proof using Hla Hbm.
  clear Hroot Hname. intros Hb Hl buf m Hinv Hmem Hin Hout. pose proof Hb as [(_ & _ & _ & l & _ & Hpr) _].
  pose proof (lf_binary _ _ Hla) as Hbuf. pose proof (lf_end _ _ Hla). pose proof (lf_stack _ _ Hla).
  unfold sizeof_binary_buffer in *. split_and!; [reflexivity|exact Hinv| | |].
  - intros w Hw. destruct (decide (user_range w)) as [Hu|Hu]; [by split; [|intros; apply Hin]|].
    split; [|done]. intros Hacc. change (user_accessible (x_pg x') w = true) in Hacc. rewrite Hout in Hacc by assumption.
    assert (init_state 4 (Paging.set_mem (y_pg (k_sys st)) m)) as Hs.
    { apply (init_state_ext 4 _ m (pr_state _ _ _ _ Hpr)); [|lia]. intros a Ha Ht%(booted_tables st a Hb).
      unfold m. rewrite load8_store_bytes by (assumption || unfold addr_ok, buf in *; lia).
      rewrite decide_False; [reflexivity|]. unfold buf. lia. }
    by rewrite (init_user _ _ Hs Hw) in Hacc.
  - intros w Hw Hu. by apply Hin.
  - exists m. split; [by apply binary_same|exact Hmem].
Qed.

#[local] Opaque started.
Lemma run_binary_started st x bs :
  booted la k0 bm img st → Z.of_nat (length bs) <= sizeof_binary_buffer →
  let buf := la_binary_buffer la in
  let m0 := store_bytes ∅ buf bs in
  program_in m0 buf (Z.of_nat (length bs)) →
  x_pg (y_exec x) = Paging.set_mem (y_pg (k_sys st)) (store_bytes (k_mem st) buf bs) →
  exec_depth (y_exec x) = 0 →
  ends (D := D) (run_binary la site fuel (set_sys st x)) (λ p, p = started_at st x bs) ∧ entered bs (started_at st x bs).
Proof using Hla Hbm.
  clear Hroot Hname. intros Hb Hl buf m0 Hp Ex Ed.
  pose proof (booted_loadable st (y_exec x) bs Hb Hl Hp Ex) as Hld. pose proof (binary_same st bs Hl) as Hsame.
  pose proof (eo_hdr _ _ _ (pi_elf _ _ _ Hp)) as H52.
  destruct (elf_started_spec (D := D) (y_exec x) buf (Z.of_nat (length bs)) (cs_eflags site) (cs_ctx site)
    (cs_saved_esp0 site) (cs_current_esp site) Hld) as (Hret & Hinv & Hmem & Hin & Hout & _).
  { rewrite Ed. reflexivity. }
  assert (e_entry (pg_mem (x_pg (y_exec x))) buf = e_entry m0 buf) as Een.
  { rewrite Ex. unfold e_entry. apply load32_ext. intros a Ha. apply Hsame. unfold m0, buf in *. lia. }
  rewrite Een in Hret. rewrite Ex in Hmem, Hout.
  split; [unfold run_binary; eapply ends_returns; [exact Hret|]; by apply ends_ret|].
  exact (entered_in st x _ bs Hb Hl Hinv Hmem Hin Hout).
Qed.

(** An ELF file starts with the magic number. *)
Lemma program_magic bs buf : addr_ok buf (Z.of_nat (length bs)) → Forall u8 bs →
  program_in (store_bytes ∅ buf bs) buf (Z.of_nat (length bs)) → elf_magic bs = true.
Proof.
  intros Ha Hu [Hh He _]. pose proof (eo_hdr _ _ _ He) as H52.
  assert (∀ i, 0 <= i < 4 → e_ident (store_bytes ∅ buf bs) buf i = nthZ 0 bs i) as Hb.
  { intros i Hi. unfold e_ident, addr_ok in *. rewrite load8_store_bytes by (unfold addr_ok; lia).
    rewrite decide_True by lia. replace (buf + i - buf) with i by lia. apply w8_small.
    apply (nthZ_Forall u8); [exact Hu|unfold u8; lia]. }
  unfold elf_validate_header in Hh. rewrite !Hb in Hh by lia. unfold elf_magic.
  destruct (nthZ 0 bs 0 =? 127), (nthZ 0 bs 1 =? 69), (nthZ 0 bs 2 =? 76), (nthZ 0 bs 3 =? 70); done.
Qed.

Lemma kernel_main_spec st f lf :
  at_reset bm st → length (vga_buffer (k_vga st)) = 2000%nat → (Z.to_nat sizeof_binary_buffer < fuel)%nat →
  lookup_file img (mounted img) root (chars "SHELL") = Some f → file_ok img (mounted img) f lf →
  let bs := content img (mounted img) lf f in
  program_in (store_bytes ∅ (la_binary_buffer la) bs) (la_binary_buffer la) (Z.of_nat (length bs)) →
  ends (D := D) (kernel_main la site fuel st) (λ p, ∃ st1 f', vga_inv (k_vga st1) ∧ booted la k0 bm img st1 ∧
    p = started_at st1 (read_sys la site (chars "shell") st1 f f' bs) bs ∧ entered bs p).
Proof using Hla Hbm Hdrain Hfuel Hdev Hvol Hroot Hname.
  intros Hst Hv Hfu Hlk Hf bs Hp. pose proof (lf_binary _ _ Hla) as Hbuf.
  pose proof (lf_end _ _ Hla) as Hke. pose proof (lf_stack _ _ Hla) as Hks.
  pose proof (length_content img (vo_image _ _ Hvol) _ f lf (mounted_ok _ _ Hvol) Hf) as Hlen. fold bs in Hlen.
  pose proof (fo_size _ _ _ _ Hf) as Hsz. pose proof (eo_hdr _ _ _ (pi_elf _ _ _ Hp)) as H52.
  eapply ends_obind; [apply (kernel_boot_ok la fuel k0 bm Hla Hbm Hdrain Hfuel img root Hdev Hvol Hroot); by split|].
  intros st1 [Hv1 Hb]. pose proof (booted_ready st1 Hb) as Hr. pose proof Hb as [(Hc & _) Efs].
  set (Q := λ p : option user_ctx * kstate, ∃ st1 f', vga_inv (k_vga st1) ∧ booted la k0 bm img st1 ∧
    p = started_at st1 (read_sys la site (chars "shell") st1 f f' bs) bs ∧ entered bs p).
  apply (ends_obind _ _ Q).
  - apply (execute_open la site fuel img root Hdev (vo_image _ _ Hvol) _ _ _ Hr); [vm_compute; repeat constructor; discriminate|].
    assert (lookup_cmd img root (chars "shell") st1 = Some f) as E by (unfold lookup_cmd; rewrite Efs; exact Hlk).
    rewrite E. rewrite <-Efs in Hf. unfold sizeof_binary_buffer in *.
    apply (execute_read la site fuel img root Hdev (vo_image _ _ Hvol) _ st1 f lf _ Hr E Hf Hfu);
      [unfold addr_ok, sizeof_binary_buffer; lia|lia|]. rewrite Efs. fold bs.
    intros f' y'. rewrite (program_magic bs (la_binary_buffer la)); [|unfold addr_ok; lia| |exact Hp].
    + destruct (run_binary_started st1 y' bs) as [He Hen]; [exact Hb|unfold sizeof_binary_buffer; lia|exact Hp|reflexivity|apply Hc|].
      eapply ends_mono; [exact He|]. intros p ->. by exists st1, f'.
    + apply content_u8. apply Hvol.
  - intros [r st2] HQ. assert (∃ uc, r = Some uc) as [uc ->].
    { destruct HQ as (? & ? & _ & _ & E & _). unfold started_at in E. injection E as -> _. by eexists. }
    by apply ends_ret.
Qed.

(** When the disk holds a SHELL program, [kernel_main] ends by entering
    it: the processor goes to ring 3 at the program's entry point with the
    user stack, the program's segments are in memory as the file has them
    ([image_byte]), and of all memory ring 3 can use exactly the pages of the
    program and its stack, which are mapped to themselves. *)
Theorem kernel_main_enters_shell st f lf :
  at_reset bm st → length (vga_buffer (k_vga st)) = 2000%nat → (Z.to_nat sizeof_binary_buffer < fuel)%nat →
  lookup_file img (mounted img) root (chars "SHELL") = Some f → file_ok img (mounted img) f lf →
  let bs := content img (mounted img) lf f in
  program_in (store_bytes ∅ (la_binary_buffer la) bs) (la_binary_buffer la) (Z.of_nat (length bs)) →
  ends (D := D) (kernel_main la site fuel st) (entered bs).
Proof using Hla Hbm Hdrain Hfuel Hdev Hvol Hroot Hname.
  intros Hst Hv Hfu Hlk Hf bs Hp. eapply ends_mono; [exact (kernel_main_spec st f lf Hst Hv Hfu Hlk Hf Hp)|].
  intros p (? & ? & _ & _ & _ & He). exact He.
Qed.
End Main.
