(* ===== verification/Boot.v ===== *)
(** * Boot sector and entry of the kernel (bootloader/boot.asm, kernel/kernel_entry.asm)

    The boot sector prints a message, loads the kernel with three calls of the
    BIOS, switches to protected mode with two flat segments and calls the
    kernel, whose entry code takes the kernel's stack and calls [kernel_main].
    The BIOS is a parameter: [int13] is interrupt 0x13 (the carry flag and the
    memory), and [reads_track] what its function 2 is documented to do, within
    a track of a disk of 18 sectors and two heads. *)

From Stdlib Require Import String.
From stdpp Require Import gmap.
From S2P Require Import Prelude Mem Pmm Heap HeapInv HeapProps Process Io Keyboard Vga VgaProps Args Fat32 Fat32Names Fat32Dir Fat32Props.
From S2P Require Import Gdt Idt Serial Elf ElfProps Syscall SyscallProps Kernel KernelProps KernelRun.

Definition KERNEL_OFFSET : Z := 0x1000.

(** ** Loading the kernel *)

(** The registers of the call; es is 0. *)
Record int13_regs := Int13 { b_ah : Z; b_al : Z; b_ch : Z; b_cl : Z; b_dh : Z; b_dl : Z; b_bx : Z }.

Section Bios.
Context (int13 : int13_regs → mem → bool * mem) (boot_drive : Z).

(** [int 0x13; jc disk_error] *)
Definition disk_read (r : int13_regs) (m : mem) : option mem :=
  match int13 r m with (true, _) => None | (false, m) => Some m end.

Definition load_kernel (m : mem) : option mem :=
  let bx := KERNEL_OFFSET in
  m ← disk_read (Int13 0x02 17 0 2 0 boot_drive bx) m;
  let bx := w16 (bx + 17 * 512) in
  m ← disk_read (Int13 0x02 18 0 1 1 boot_drive bx) m;
  let bx := w16 (bx + 18 * 512) in
  disk_read (Int13 0x02 18 1 1 0 boot_drive bx) m.

Definition msg_loading : list Z := chars "Loading kernel..." ++ [13; 10; 0].
Definition msg_loaded : list Z := chars "MagnOS loaded" ++ [13; 10; 0].
Definition msg_disk_error : list Z := chars "Disk read error!" ++ [13; 10; 0].

(** [print_string]: the characters given to the BIOS. *)
Definition print_string (s : list Z) : list Z := c_string s.

(** [start], up to the switch: what is printed, and the memory when it did not
    stop at [disk_error]. *)
Definition boot_start (m : mem) : list Z * option mem :=
  match load_kernel m with
  | None => (print_string msg_loading ++ print_string msg_disk_error, None)
  | Some m => (print_string msg_loading ++ print_string msg_loaded, Some m)
  end.

(** ** What the BIOS does *)

Definition sectors (floppy : Z → list Z) (lba n : Z) : list Z := concat (floppy <$> seqZ lba n).
(** Function 2 reads [al] sectors of a track from sector [cl] on, counted from 1. *)
Definition reads_track (floppy : Z → list Z) : Prop :=
  ∀ al ch cl dh bx m, 0 < al → 1 <= cl → cl + al <= 19 → 0 <= bx → bx + 512 * al <= 65536 →
    int13 (Int13 0x02 al ch cl dh boot_drive bx) m =
      (false, store_bytes m bx (sectors floppy ((ch * 2 + dh) * 18 + cl - 1) al)).
End Bios.

Lemma sectors_app floppy lba n k : 0 <= n → 0 <= k → sectors floppy lba (n + k) = sectors floppy lba n ++ sectors floppy (lba + n) k.
Proof. intros Hn Hk. unfold sectors. by rewrite seqZ_app, fmap_app, concat_app by lia. Qed.
Lemma length_sectors floppy lba n : (∀ i, length (floppy i) = 512%nat) → 0 <= n →
  Z.of_nat (length (sectors floppy lba n)) = 512 * n.
Proof.
  intros Hf Hn. unfold sectors. replace n with (Z.of_nat (Z.to_nat n)) by lia. generalize (Z.to_nat n) as k.
  intros k. revert lba. induction k as [|k IH]; intros lba; [done|].
  rewrite seqZ_cons by lia. cbn [fmap list_fmap concat]. rewrite length_app, Nat2Z.inj_add, Hf.
  replace (Z.pred (Z.of_nat (S k))) with (Z.of_nat k) by lia. rewrite IH. lia.
Qed.

(** The three reads are one copy of the 53 sectors after the boot sector, in
    order, below the boot sector and its stack. *)
Theorem load_kernel_correct int13 drive floppy m :
  reads_track int13 drive floppy → (∀ i, length (floppy i) = 512%nat) →
  let image := sectors floppy 1 53 in
  load_kernel int13 drive m = Some (store_bytes m KERNEL_OFFSET image) ∧
  Z.of_nat (length image) = 27136 ∧ KERNEL_OFFSET + Z.of_nat (length image) <= 0x7C00 - 512.
Proof.
  intros Hr Hf image. assert (Z.of_nat (length image) = 27136) as Hl by (unfold image; rewrite length_sectors; [done|done|lia]).
  split; [|split; [exact Hl|rewrite Hl; unfold KERNEL_OFFSET; lia]].
  unfold load_kernel, KERNEL_OFFSET. change (w16 (0x1000 + 17 * 512)) with 0x3200. change (w16 (0x3200 + 18 * 512)) with 0x5600.
  unfold disk_read. do 3 (rewrite Hr by lia; cbn [mbind option_bind]). f_equal. unfold image.
  change 53 with (17 + (18 + 18)). rewrite !sectors_app by lia. rewrite !store_bytes_app, !length_sectors by (done || lia).
  reflexivity.
Qed.

(** ** Protected mode *)

(** The descriptors of the boot sector. *)
Definition boot_gdt : list gdt_entry :=
  [GdtEntry 0 0 0 0 0 0; GdtEntry 0xFFFF 0 0 0x9A 0xCF 0; GdtEntry 0xFFFF 0 0 0x92 0xCF 0].
Definition CODE_SEG : Z := 8.
Definition DATA_SEG : Z := 16.

(** [init_pm]: the stack, and the call of the kernel. *)
Definition init_pm (ra : Z) (x : cpu * mem) : cpu * mem :=
  let r := c_regs x.1 in
  let c := Cpu (Regs (r_edi r) (r_esi r) 0x90000 (r_ebx r) (r_edx r) (r_ecx r) (r_eax r)) 0x90000 (c_eip x.1) false in
  let '(c, m) := push (c, x.2) ra in
  (Cpu (c_regs c) (c_esp c) KERNEL_OFFSET (c_if c), m).

(** ** The entry of the kernel *)

(** The two cells at 0xB8000 are written with one store. *)
Definition entry_mark (v : vga) : vga :=
  let w := 0x0F540F4B in
  set_buffer v (updZ (updZ (vga_buffer v) 0 (w16 w)) 1 (w16 (w ≫ 16))).
Definition kernel_entry (kernel_main ra : Z) (x : cpu * mem) (v : vga) : cpu * mem * vga :=
  let r := c_regs x.1 in
  let c := Cpu (Regs 0xB8000 (r_esi r) 0x1F0000 (r_ebx r) (r_edx r) (r_ecx r) 0x0F540F4B) 0x1F0000 (c_eip x.1) false in
  let '(c, m) := push (c, x.2) ra in
  (Cpu (c_regs c) (c_esp c) kernel_main (c_if c), m, entry_mark v).

(** From the far jump of the boot sector to the first instruction of
    [kernel_main]: flat segments of ring 0, interrupts off, the stack below
    0x1F0000, and of all memory two return addresses written. *)
Theorem kernel_entered kernel_main ra1 ra2 c m v :
  decode (nthZ entry0 boot_gdt (CODE_SEG ≫ 3)) = Some (Segment SegCode 0 0 0xFFFFFFFF) ∧
  decode (nthZ entry0 boot_gdt (DATA_SEG ≫ 3)) = Some (Segment SegData 0 0 0xFFFFFFFF) ∧
  ∃ c' m' v', kernel_entry kernel_main ra2 (init_pm ra1 (c, m)) v = (c', m', v') ∧
    c_eip c' = kernel_main ∧ c_esp c' = 0x1F0000 - 4 ∧ c_if c' = false ∧
    (∀ b, addr_ok b 1 → ¬ 0x8FFFC <= b < 0x90000 → ¬ 0x1EFFFC <= b < 0x1F0000 → load8 m' b = load8 m b) ∧
    length (vga_buffer v') = length (vga_buffer v).
Proof.
  split; [reflexivity|]. split; [reflexivity|]. eexists _, (store32 (store32 m 0x8FFFC ra1) 0x1EFFFC ra2), _. split; [reflexivity|].
  split; [reflexivity|]. split; [reflexivity|]. split; [reflexivity|]. split.
  - intros b Hb H1 H2. rewrite !load8_store32_far by (unfold addr_ok in *; lia). reflexivity.
  - cbn [entry_mark vga_buffer set_buffer]. by rewrite !length_updZ.
Qed.

(** The mark on the screen is no obstacle: the kernel starts as from reset. *)
Theorem entered_kernel_boots {D} `{PIO : PortIO D} `{BD : BlockDevice D} la fuel k0 bm img root st :
  layout_fits la k0 → length bm = 512%nat → drains (D := D) fuel → fuel_ok fuel →
  reads_image (D := D) 0 img → volume_ok img root → (length root < fuel)%nat →
  at_reset bm st → length (vga_buffer (k_vga st)) = 2000%nat →
  ends (D := D) (kernel_boot la fuel (set_vga st (entry_mark (k_vga st)))) (screen (booted la k0 bm img)).
Proof.
  intros Hla Hbm Hd Hfu Hdev Hvol Hroot [] Hv. apply (kernel_boot_ok la fuel k0 bm Hla Hbm Hd Hfu img root Hdev Hvol Hroot).
  split; [split; assumption|]. cbn. by rewrite !length_updZ.
Qed.

(** ** Where the statics are

    The linker script puts the kernel at 0x1000 and the stack is below
    0x1F0000.  Wherever [saved_program] is between them, a part of it is in the
    addresses 0xA0000 to 0xFFFFF, where a PC has its screen and its ROM. *)
Theorem saved_program_in_hole saved_program :
  KERNEL_OFFSET <= saved_program → saved_program + save_size <= 0x1F0000 →
  ∃ a, 0xA0000 <= a < 0x100000 ∧ in_saved saved_program a.
Proof.
  unfold KERNEL_OFFSET, save_size, in_saved. intros. exists (Z.max saved_program 0xA0000). unfold save_size. lia.
Qed.

(** ** A BIOS that never fails *)

Definition floppy_bios (floppy : Z → list Z) (r : int13_regs) (m : mem) : bool * mem :=
  (false, store_bytes m (b_bx r) (sectors floppy ((b_ch r * 2 + b_dh r) * 18 + b_cl r - 1) (b_al r))).

Lemma load_kernel_correct_witness :
  load_kernel (floppy_bios (λ i, replicate 512 i)) 0 ∅ =
    Some (store_bytes ∅ KERNEL_OFFSET (sectors (λ i, replicate 512 i) 1 53)).
Proof. apply load_kernel_correct; [by intros ? ? ? ? ? ? ? ? ? ? ?|intros i; apply length_replicate]. Defined.
