(* ===== verification/LineEdit.v ===== *)
(** * Line editing

    The specification shared by the two shells (kernel/kernel.c,
    userspace/shell.c): a line is a list of at most 63 characters; a
    backspace removes the last one, any other character is added while there
    is room.  [line_ok] relates it to the 64-byte buffer and the position the
    code keeps. *)

From S2P Require Import Prelude Args ArgsProps.

Definition edit (l : list Z) (c : Z) : list Z :=
  if c =? 8 then removelast l else if Z.of_nat (length l) <? 63 then l ++ [c] else l.

(** What the character shows on the screen. *)
Definition echo (l : list Z) (c : Z) : list Z :=
  if c =? 8 then match l with [] => [] | _ => [8; 32; 8] end
  else if Z.of_nat (length l) <? 63 then [c] else [].
Fixpoint echo_all (l cs : list Z) : list Z :=
  match cs with
  | [] => []
  | c :: cs => echo l c ++ echo_all (edit l c) cs
  end.

(** A buffer whose first [pos] characters are the line. *)
Record line_ok (buf : list Z) (pos : Z) (l : list Z) : Prop := {
  lo_len : length buf = 64%nat;
  lo_pos : pos = Z.of_nat (length l);
  lo_max : (length l <= 63)%nat;
  lo_line : take (length l) buf = l;
  lo_nul : nul_free l
}.

Lemma take_updZ {A} (l : list A) (n : nat) x : (n < length l)%nat →
  take (S n) (updZ l (Z.of_nat n) x) = take n l ++ [x].
Proof.
  intros Hn. unfold updZ. rewrite decide_True by lia. rewrite Nat2Z.id.
  rewrite (take_S_r _ _ x); [|by apply list_lookup_insert_eq]. by rewrite take_insert_ge by lia.
Qed.

Lemma line_empty buf : length buf = 64%nat → line_ok buf 0 [].
Proof. intros Hb. split; [done|done|cbn; lia|done|constructor]. Qed.

Lemma line_back buf pos l : line_ok buf pos l → 0 < pos → line_ok buf (pos - 1) (edit l 8).
Proof.
  intros [Hb -> H63 Ht Hn] Hp. change (edit l 8) with (removelast l).
  destruct l as [|c l _] using rev_ind; [cbn in Hp; lia|].
  rewrite removelast_last. rewrite length_app in *. cbn [length] in *. split; [done|lia|lia| |apply Forall_app in Hn; apply Hn].
  apply (f_equal (take (length l))) in Ht. rewrite take_take, take_app_length in Ht. by rewrite Nat.min_l in Ht by lia.
Qed.

Lemma line_add buf pos l c : line_ok buf pos l → pos < 63 → c ≠ 0 → c ≠ 8 →
  line_ok (updZ buf pos c) (pos + 1) (edit l c).
Proof.
  intros [Hb -> H63 Ht Hn] Hp Hc H8. unfold edit. rewrite (proj2 (Z.eqb_neq c 8) H8).
  destruct (Z.ltb_spec (Z.of_nat (length l)) 63); [|lia].
  split; [by rewrite length_updZ|rewrite length_app; cbn; lia|rewrite length_app; cbn; lia| |].
  - rewrite length_app, Nat.add_1_r, take_updZ by lia. by rewrite Ht.
  - apply Forall_app. split; [done|]. by repeat constructor.
Qed.

(** With its NUL the buffer is the C string of the line. *)
Lemma line_string buf pos l : line_ok buf pos l →
  length (updZ buf pos 0) = 64%nat ∧ c_string (updZ buf pos 0) = l.
Proof.
  intros [Hb -> H63 Ht Hn]. split; [by rewrite length_updZ|].
  assert (updZ buf (Z.of_nat (length l)) 0 = l ++ 0 :: drop (S (length l)) buf) as ->.
  { rewrite <-(take_drop (S (length l)) (updZ _ _ _)). rewrite take_updZ, Ht, <-app_assoc by lia. do 2 f_equal.
    unfold updZ. rewrite decide_True by lia. rewrite Nat2Z.id. by rewrite drop_insert_lt by lia. }
  by apply c_string_app.
Qed.

Lemma edit_length l c : (length l <= 63)%nat → (length (edit l c) <= 63)%nat.
Proof.
  intros Hl. unfold edit. repeat bcase; [|rewrite length_app; cbn; lia|done].
  destruct l as [|x l _] using rev_ind; [done|]. rewrite removelast_last. rewrite length_app in Hl. lia.
Qed.
