(* ===== verification/KernelShell.v ===== *)
(** * The kernel shell

    The loop of [kernel_main] that reads characters, edits the command buffer
    and executes it refines the line editor: what is typed is echoed, and the
    command executed is the line as edited. *)

From Stdlib Require Import String.
From stdpp Require Import gmap.
From S2P Require Import Prelude Mem Pmm Paging Process Io Keyboard KeyboardProps Vga VgaProps Args ArgsProps Fat32 Fat32Names Fat32Dir Fat32Props.
From S2P Require Import Fat32List Fat32Volume Gdt Idt IdtProps Serial Elf ElfProps Syscall Kernel KernelProps KernelRun LineEdit.

#[local] Opaque put_all.

Section Shell.
Context {D : Type} `{PIO : PortIO D} `{BD : BlockDevice D}.
Context (la : layout) (site : call_site) (fuel : nat) (Hdrain : drains (D := D) fuel).

(** Rounds of the loop, with no key pressed meanwhile, until a program is
    entered. *)
Fixpoint shell_rounds (n : nat) (st : kstate) : io D (option (option user_ctx * kstate)) :=
  match n with
  | O => mret (Some (None, st))
  | S n =>
      p ←? shell_round la site fuel [] st;
      match p with
      | (Some uc, st) => mret (Some (Some uc, st))
      | (None, st) => shell_rounds n st
      end
  end.

(** The kernel [st] with screen [v], waiting characters [q] and line [l]. *)
Definition shell_at (st : kstate) (v : vga) (q l : list Z) (st' : kstate) : Prop :=
  ∃ k buf pos, st' = set_line (set_kbd (set_vga st v) k) buf pos ∧ kb_inv k ∧ kb_chars k = q ∧ line_ok buf pos l.

(** The next waiting character is the one of the round. *)
Lemma round_key st v c q l st1 :
  shell_at st v (c :: q) l st1 → c ≠ 0 →
  ∃ st2, shell_at st v q l st2 ∧
    ∀ d : D, shell_round la site fuel [] st1 d = shell_key la site fuel c st2 d.
Proof.
  intros (k & buf & pos & -> & Hk & Hq & Hl) Hc.
  destruct (getchar_spec k Hk) as (Hk' & _ & Ec & Eq). rewrite Hq in Ec, Eq. cbn [q_get fst snd] in Ec, Eq.
  exists (set_line (set_kbd (set_vga st v) (keyboard_getchar k).2) buf pos).
  split; [by exists (keyboard_getchar k).2, buf, pos|]. intros d. unfold shell_round, shell_poll. cbn [fold_left].
  change (y_kbd (k_sys (set_kbd (set_line (set_kbd (set_vga st v) k) buf pos) _))) with k.
  destruct (keyboard_getchar k) as [c' k']. cbn [fst snd] in *. subst c'.
  rewrite (proj2 (Z.eqb_neq c 0) Hc). unfold obind, mbind, io_bind, mret, io_ret.
  rewrite (proj2 (Z.eqb_neq c 0) Hc). reflexivity.
Qed.

(** Any key but enter edits the line. *)
Lemma key_edits st v c q l st1 :
  shell_at st v q l st1 → c ≠ 0 → c ≠ 10 →
  ends (D := D) (shell_key la site fuel c st1) (λ '(r, st2),
    r = None ∧ shell_at st (put_all v (echo l c)) q (edit l c) st2).
Proof using Hdrain.
  intros (k & buf & pos & -> & Hk & Hq & Hl) Hc Hn. unfold shell_key.
  change (shell_cmd_pos (set_line _ buf pos)) with pos. change (shell_cmd_buf (set_line _ buf pos)) with buf.
  pose proof (lo_pos _ _ _ Hl) as Ep. destruct (Z.eqb_spec c 8) as [->|H8].
  - destruct (Z.ltb_spec 0 pos) as [Hp|Hp].
    + eapply (ends_obind _ _ (λ st2, st2 = set_line (set_kbd (set_vga st (put_all v [8; 32; 8])) k) buf (pos - 1))).
      * eapply ends_seq; [apply ends_puts|]. do 2 (eapply ends_seq; [by apply ends_com1_putchar|]).
        by apply ends_com1_putchar.
      * intros _ ->. apply ends_ret. split; [done|]. assert (echo l 8 = [8; 32; 8]) as -> by (by destruct l; [cbn in Ep; lia|]).
        exists k, buf, (pos - 1). split_and!; try done. by apply line_back.
    + apply ends_ret. split; [done|]. destruct l as [|x l]; [|cbn in Ep; lia]. by exists k, buf, pos.
  - rewrite (proj2 (Z.eqb_neq c 10) Hn). unfold sizeof_cmd_buf, echo. rewrite (proj2 (Z.eqb_neq c 8) H8). rewrite <-Ep.
    change (64 - 1) with 63. destruct (Z.ltb_spec pos 63) as [Hp|Hp].
    + eapply (ends_obind _ _ (λ st2, st2 = set_line (set_kbd (set_vga st (vga_put v c)) k) (updZ buf pos c) (pos + 1))).
      * eapply ends_seq; [apply ends_putchar|]. by apply ends_com1_putchar.
      * intros _ ->. apply ends_ret. split; [done|]. exists k, (updZ buf pos c), (pos + 1). split_and!; try done.
        by apply line_add.
    + apply ends_ret. split; [done|]. exists k, buf, pos. split_and!; try done. unfold edit.
      rewrite (proj2 (Z.eqb_neq c 8) H8). destruct (Z.ltb_spec (Z.of_nat (length l)) 63); [lia|done].
Qed.

Lemma rounds_edit cs : ∀ st v q l st1,
  shell_at st v (cs ++ q) l st1 → Forall (λ c, c ≠ 0 ∧ c ≠ 10) cs →
  ends (D := D) (shell_rounds (length cs) st1) (λ '(r, st2),
    r = None ∧ shell_at st (put_all v (echo_all l cs)) q (fold_left edit cs l) st2).
Proof using Hdrain.
  induction cs as [|c cs IH]; intros st v q l st1 Hat HF; cbn [length shell_rounds echo_all fold_left].
  { apply ends_ret. done. }
  inversion_clear HF as [|? ? [Hc Hn] HF']. eapply ends_obind.
  - destruct (round_key _ _ _ _ _ _ Hat Hc) as (st2 & Hat2 & E). intros d. rewrite E. revert d. by apply key_edits.
  - intros [r st2] [-> Hat2]. rewrite put_all_app. by apply IH.
Qed.

(** What the enter key does with the line in the buffer. *)
Definition run_line (st : kstate) : io D (option (option user_ctx * kstate)) :=
  if decide (c_string (shell_cmd_buf st) = []) then done (shell_next fuel) st
  else
    p ←? execute_command la site fuel (shell_cmd_buf st) st;
    match p with
    | (Some uc, st) => mret (Some (Some uc, st))
    | (None, st) => done (shell_next fuel) st
    end.

Lemma enter_runs st v q l st1 (d : D) :
  shell_at st v q l st1 →
  ∃ st2 d2, shell_key la site fuel 10 st1 d = run_line st2 d2 ∧ c_string (shell_cmd_buf st2) = l ∧
    ∃ k buf pos, st2 = set_line (set_kbd (set_vga st (put_all v [10])) k) buf pos ∧ kb_chars k = q.
Proof using Hdrain.
  intros (k & buf & pos & -> & Hk & Hq & Hl). destruct (line_string _ _ _ Hl) as [_ El].
  set (st2 := set_line (set_kbd (set_vga st (put_all v [10])) k) (updZ buf pos 0) pos).
  assert (ends (D := D) (seq (putchar 10) (com1_puts fuel [13; 10]) (set_line (set_kbd (set_vga st v) k) buf pos))
    (λ s, s = set_line (set_kbd (set_vga st (put_all v [10])) k) buf pos)) as He.
  { eapply ends_seq; [apply ends_putchar|]. by apply ends_com1_puts. }
  destruct (He d) as (s & d2 & E & ->). exists st2, d2. split; [|split; [exact El|by exists k, (updZ buf pos 0), pos]].
  unfold shell_key. cbn [Z.eqb Pos.eqb]. unfold obind at 1, mbind at 1, io_bind at 1. rewrite E.
  unfold run_line. change (shell_cmd_buf st2) with (updZ buf pos 0). rewrite El. pose proof (lo_pos _ _ _ Hl).
  change (shell_cmd_pos (set_line (set_kbd (set_vga st v) k) buf pos)) with pos.
  destruct (Z.ltb_spec 0 pos); destruct (decide (l = [])) as [->|Hne]; [cbn in *; lia|reflexivity|reflexivity|].
  destruct l; [done|cbn in *; lia].
Qed.

(** C35: The kernel shell executes what was typed: with the characters [cs] and
    enter waiting at the keyboard and an empty line, the loop takes them one by
    one, echoes the edited line to the screen, and at enter runs
    [execute_command] on a buffer that holds, up to its NUL, exactly the line
    the editor makes of [cs]; nothing else of the kernel has changed. *)
Theorem kernel_shell_executes cs st d :
  kb_inv (y_kbd (k_sys st)) → kb_chars (y_kbd (k_sys st)) = cs ++ [10] → Forall (λ c, c ≠ 0 ∧ c ≠ 10) cs →
  length (shell_cmd_buf st) = 64%nat → shell_cmd_pos st = 0 →
  ∃ st1 d1 st2 d2,
    shell_rounds (length cs) st d = (Some (None, st1), d1) ∧
    shell_round la site fuel [] st1 d1 = run_line st2 d2 ∧
    c_string (shell_cmd_buf st2) = fold_left edit cs [] ∧
    k_vga st2 = put_all (k_vga st) (echo_all [] cs ++ [10]) ∧ kb_chars (y_kbd (k_sys st2)) = [] ∧
    y_pg (k_sys st2) = y_pg (k_sys st) ∧ y_fs (k_sys st2) = y_fs (k_sys st) ∧
    current_program_args (k_sys st2) = current_program_args (k_sys st).
Proof using Hdrain.
  intros Hk Hq HF Hb Hp.
  assert (shell_at st (k_vga st) (cs ++ [10]) [] st) as Hat.
  { exists (y_kbd (k_sys st)), (shell_cmd_buf st), 0. split_and!; [|done|done|by apply line_empty].
    destruct st as [[[]] ? ? ? ?]. cbn in *. by subst. }
  destruct (rounds_edit cs st (k_vga st) [10] [] st Hat HF d) as ([r st1] & d1 & E1 & -> & Hat1).
  destruct (round_key _ _ _ _ _ _ Hat1) as (st1' & Hat1' & E2); [done|].
  destruct (enter_runs _ _ _ _ _ d1 Hat1') as (st2 & d2 & E3 & El & k & buf & pos & -> & Hq2).
  exists st1, d1, (set_line (set_kbd (set_vga st (put_all (put_all (k_vga st) (echo_all [] cs)) [10])) k) buf pos), d2.
  split_and!; [exact E1|by rewrite E2|exact El|by rewrite put_all_app|exact Hq2|reflexivity..].
Qed.
End Shell.
