(* ===== verification/KernelExample.v ===== *)
(** * A machine

    A machine whose ports are always ready, with a disk that holds a SHELL
    program: the theorems on the start of the kernel and on its shell, on
    concrete data. *)

From Stdlib Require Import String.
From stdpp Require Import gmap.
From S2P Require Import Prelude Mem Pmm Heap HeapProps Paging PagingProps Process ProcessProps ProcessRun Io Keyboard KeyboardProps Vga VgaProps Args ArgsProps.
From S2P Require Import Fat32 Fat32Names Fat32Dir Fat32Props Fat32Volume Gdt Idt IdtProps Serial Elf ElfProps Syscall.
From S2P Require Import Kernel KernelProps KernelRun LineEdit KernelShell.

(** Every read of a byte answers 0x20: the transmitter is empty, nothing has
    been received. *)
#[program] Definition ready_io : PortIO unit :=
  {| inb p u := (0x20, u); outb p v u := (tt, u); insw p u := (0, u); outsw p v u := (tt, u) |}.
Next Obligation. intros p u. unfold u8. cbn. lia. Qed.
Next Obligation. intros p u. unfold u16. cbn. lia. Qed.
#[local] Existing Instance ready_io.

Lemma ready_drains n : drains (D := unit) (S n).
Proof. intros d. exists d. reflexivity. Qed.

(** The root directory has one entry, for the program of ElfProps.v in cluster 3. *)
Definition shell_root : list Z := set_bytes blank 0 (entry (fat_name (chars "SHELL") []) 0x20 3 88).
Definition shell_sector : list Z := elf_file ++ replicate 424 0.
Definition shell_img (lba : Z) : list Z :=
  if lba =? 0 then boot else if lba =? 1 then fat else if lba =? 2 then shell_root
  else if lba =? 3 then shell_sector else blank.

Lemma shell_img_ok : image_ok shell_img.
Proof. intros lba. unfold shell_img. repeat bcase; by apply sector_okb_ok. Qed.

#[program] Definition shell_disk : BlockDevice unit := {| read_sector drv lba := mret (Some (shell_img lba)) |}.
Next Obligation. intros drv lba d bs [= <-]. apply shell_img_ok. Qed.
#[local] Existing Instance shell_disk.

Lemma shell_disk_reads : reads_image (D := unit) 0 shell_img.
Proof. intros lba d _. reflexivity. Qed.

Lemma shell_mounted : mounted shell_img = vol.
Proof. vm_compute. reflexivity. Qed.
Lemma shell_chain : chain shell_img vol 2 [2].
Proof. apply chain_last; vm_compute; done. Qed.

Lemma shell_volume : volume_ok shell_img [2].
Proof.
  split; [exact shell_img_ok|vm_compute; reflexivity|vm_compute; reflexivity|vm_compute; split; reflexivity|].
  rewrite shell_mounted. replace (root_cluster (boot_bpb shell_img)) with 2 by (vm_compute; reflexivity).
  exact shell_chain.
Qed.

Definition lay0 : layout :=
  Layout 0x105000 0x106000 0x107000 (λ i, 0x101000 + i mod 256) 0x127000 0x110000 0x100010 0x112000.
Definition site0 : call_site := CallSite 0x2 (JmpBuf 0 0 0 0 0 0) 0x1F0000 0x1EFF00 (replicate 64 0).

Lemma lay0_fits : layout_fits lay0 0x1E0000.
Proof.
  split; unfold lay0, TABLE_BYTES, sizeof_process, MAX_PROCESSES, sizeof_binary_buffer, u32; cbn; try lia.
  intros i. pose proof (Z.mod_pos_bound i 256). lia.
Qed.

Definition rows0 : program_args_t := Args (replicate 16 (replicate 64 0)) 0.
Lemma rows0_ok : rows_ok (args rows0).
Proof. split; [reflexivity|]. by apply Forall_replicate. Qed.

(** The kernel at reset, and its keyboard buffer empty. *)
Definition reset_state : kstate :=
  KState (Sys (ExecState (Paging ∅ 0 0 0x11 ∅ bitmap0) vga0 gdt_state0 [] 0 []) kb0 0 fs0 file0 false rows0 0 0
    (replicate 16 proc0) None) idt_state0 0 (replicate 64 0) 0.

Lemma reset_ok : at_reset bitmap0 reset_state.
Proof. split; try done. split; [done|exact rows0_ok]. Qed.

Definition fuel0 : nat := LIST_FUEL.
Lemma fuel0_drains : drains (D := unit) fuel0.
Proof. unfold fuel0, LIST_FUEL. destruct (Z.to_nat 524288) as [|n] eqn:E; [lia|]. apply ready_drains. Qed.

Lemma kernel_boot_correct_witness :
  ends (D := unit) (kernel_boot lay0 fuel0 reset_state)
    (λ st', vga_inv (k_vga st') ∧ booted lay0 0x1E0000 bitmap0 shell_img st').
Proof.
  apply (kernel_boot_correct lay0 fuel0 0x1E0000 bitmap0 lay0_fits eq_refl fuel0_drains LIST_FUEL_ok
    shell_img [2] shell_disk_reads shell_volume).
  - unfold fuel0, LIST_FUEL. cbn [length]. lia.
  - exact reset_ok.
  - exact (vg_len _ vga0_inv).
Defined.

Definition shell_file : fat32_file_t := File 3 3 88 0 0x20 1.
Lemma shell_lookup : lookup_file shell_img (mounted shell_img) [2] (chars "SHELL") = Some shell_file.
Proof. vm_compute. reflexivity. Qed.
Lemma shell_file_ok : file_ok shell_img (mounted shell_img) shell_file [3; 4].
Proof.
  rewrite shell_mounted. split; [|vm_compute; split; congruence|vm_compute; congruence].
  apply chain_next; [vm_compute; done..|].
  replace (fat_entry shell_img vol 3) with 4 by (vm_compute; reflexivity). apply chain_last; vm_compute; done.
Qed.
Lemma shell_content : content shell_img (mounted shell_img) [3; 4] shell_file = elf_file.
Proof. vm_compute. reflexivity. Qed.
Lemma shell_program : program_in (store_bytes ∅ 0x112000 elf_file) 0x112000 88.
Proof.
  assert (segs (store_bytes ∅ 0x112000 elf_file) 0x112000 = [Seg true 84 0x200000 4 8]) as E by (vm_compute; reflexivity).
  split; [vm_compute; reflexivity| |].
  - split; [unfold addr_ok; lia|lia|vm_compute; congruence|]. rewrite E. constructor; [|constructor].
    intros _. unfold addr_ok, s_size. cbn. lia.
  - rewrite E. constructor; [|constructor]. intros _. unfold s_size. cbn. lia.
Qed.

Lemma kernel_main_enters_shell_witness :
  ends (D := unit) (kernel_main lay0 site0 fuel0 reset_state) (entered lay0 site0 elf_file) ∧
  e_entry (store_bytes ∅ 0x112000 elf_file) 0x112000 = 0x200000.
Proof.
  split; [|vm_compute; reflexivity]. rewrite <-shell_content.
  apply (kernel_main_enters_shell lay0 site0 fuel0 0x1E0000 bitmap0 lay0_fits eq_refl fuel0_drains LIST_FUEL_ok
    shell_img [2] shell_disk_reads shell_volume).
  - unfold fuel0, LIST_FUEL. cbn [length]. lia.
  - reflexivity.
  - exact reset_ok.
  - exact (vg_len _ vga0_inv).
  - unfold fuel0, LIST_FUEL, sizeof_binary_buffer. lia.
  - exact shell_lookup.
  - exact shell_file_ok.
  - rewrite shell_content. exact shell_program.
Defined.

(** The kernel with the volume mounted, "lx", a backspace, "s" and enter typed. *)
Definition typed_keys : kbd :=
  Kbd (Mods 0 0 0 0) ([108; 120; 8; 115; 10] ++ replicate 251 0) 5 0.
Definition shell_state : kstate :=
  KState (Sys (ExecState (Paging ∅ 0 0 0x11 ∅ bitmap0) vga0 gdt_state0 [] 0 []) typed_keys 0 vol file0 false rows0 0 0
    (replicate 16 proc0) None) idt_state0 0 (replicate 64 0) 0.

Lemma kernel_shell_executes_witness :
  ∃ st1 st2, (shell_rounds lay0 site0 1 4 shell_state tt).1 = Some (None, st1) ∧
    shell_round lay0 site0 1 [] st1 tt = run_line lay0 site0 1 st2 tt ∧
    c_string (shell_cmd_buf st2) = chars "ls".
Proof.
  destruct (kernel_shell_executes lay0 site0 1 (ready_drains 0) [108; 120; 8; 115] shell_state tt)
    as (st1 & [] & st2 & [] & E1 & E2 & E3 & _).
  - split; [reflexivity|cbn; lia|cbn; lia|by repeat split; left].
  - vm_compute. reflexivity.
  - repeat constructor; discriminate.
  - reflexivity.
  - reflexivity.
  - exists st1, st2. split; [|split; [exact E2|exact E3]]. cbn [length] in E1. rewrite E1. reflexivity.
Defined.

Lemma shell_state_ready : shell_ready site0 (Z.to_nat 65537) shell_img [2] shell_state.
Proof.
  split; [exact vol_ok|exact shell_chain| |reflexivity|exact rows0_ok]. cbn [length]. lia.
Qed.

Lemma execute_command_reports_witness :
  reports (D := unit) lay0 site0 (Z.to_nat 65537) (chars "ls -l") shell_state (k_vga shell_state)
    (not_found_text (chars "LS")).
Proof.
  assert (drains (D := unit) (Z.to_nat 65537)) as Hd.
  { destruct (Z.to_nat 65537) as [|n] eqn:E; [lia|]. apply ready_drains. }
  pose proof (execute_command_reports lay0 site0 (Z.to_nat 65537) Hd shell_img [2] shell_disk_reads shell_img_ok
    (chars "ls -l") shell_state shell_state_ready) as H.
  assert (lookup_cmd shell_img [2] (chars "ls -l") shell_state = None) as E by (vm_compute; reflexivity).
  rewrite E in H. apply H.
  - vm_compute. repeat constructor; discriminate.
  - unfold addr_ok, sizeof_binary_buffer. cbn. lia.
  - unfold sizeof_binary_buffer. lia.
Defined.

(** [execute_command] checks the first four bytes of the buffer, not of the
    file: after a program has been run, a file of the single byte 0x7F passes
    for an ELF file, and what is left of that program is started. *)
Definition stale_root : list Z := set_bytes blank 0 (entry (fat_name (chars "X") []) 0x20 3 1).
Definition stale_img (lba : Z) : list Z :=
  if lba =? 0 then boot else if lba =? 1 then fat else if lba =? 2 then stale_root
  else if lba =? 3 then 0x7F :: replicate 511 0 else blank.
Lemma stale_img_ok : image_ok stale_img.
Proof. intros lba. unfold stale_img. repeat bcase; by apply sector_okb_ok. Qed.
#[program] Definition stale_disk : BlockDevice unit := {| read_sector drv lba := mret (Some (stale_img lba)) |}.
Next Obligation. intros drv lba d bs [= <-]. apply stale_img_ok. Qed.

Example stale_binary_runs :
  let st := set_pg shell_state (Paging (store_bytes ∅ 0x112000 elf_file) 0x1000 0x1000 0x80000011 ∅ boot_pmm) in
  fst <$> (execute_command (BD := stale_disk) lay0 site0 100 (chars "x") st tt).1 =
    Some (Some (UserCtx 0x200000 0x1B 0x202 0x301000 0x23 0x23)).
Proof. vm_compute. reflexivity. Qed.
