(* ===== verification/User.v ===== *)
(** * User programs (userspace/*.c, userspace/libmagnos.h)

    A program of ring 3 talks to the machine through its memory and the
    [int 0x80] instruction: it is an interaction tree of these events.  Loops
    are [ITree.iter], so that the programs that run for ever are definitions
    too.  Scalars are values of the model; the arrays of a function live in
    memory, at addresses that are parameters (the compiler's stack frame), and
    so do the string literals ([lit]). *)

From Stdlib Require Import String.
From ITree Require Import ITree.
From S2P Require Import Prelude Syscall.

Inductive userE : Type → Type :=
  | Int80 (num a1 a2 a3 : Z) : userE Z
  | Load8 (a : Z) : userE Z
  | Load32 (a : Z) : userE Z
  | Store8 (a v : Z) : userE unit
  | Store32 (a v : Z) : userE unit.

Definition prog : Type → Type := itree userE.
#[global] Instance prog_ret : MRet prog := λ A a, ITreeDefinition.Ret a.
#[global] Instance prog_bind : MBind prog := λ A B f t, ITree.bind t f.

Definition ld8 (a : Z) : prog Z := ITree.trigger (Load8 a).
Definition ld32 (a : Z) : prog Z := ITree.trigger (Load32 a).
Definition st8 (a v : Z) : prog unit := ITree.trigger (Store8 a v).
Definition st32 (a v : Z) : prog unit := ITree.trigger (Store32 a v).

(** ** libmagnos.h *)

Definition __syscall (num a1 a2 a3 : Z) : prog Z := ITree.trigger (Int80 num a1 a2 a3).

Definition print (str : Z) : prog Z := r ← __syscall SYSCALL_PRINT str 0 0; mret (s32 r).
Definition exit (code : Z) : prog unit := _ ← __syscall SYSCALL_EXIT (w32 code) 0 0; mret tt.
Definition file_open (filename : Z) : prog Z := r ← __syscall SYSCALL_FILE_OPEN filename 0 0; mret (s32 r).
Definition file_read (buffer size : Z) : prog Z := r ← __syscall SYSCALL_FILE_READ buffer size 0; mret (s32 r).
Definition file_close : prog Z := r ← __syscall SYSCALL_FILE_CLOSE 0 0 0; mret (s32 r).
Definition list_dir (entries max_entries : Z) : prog Z :=
  r ← __syscall SYSCALL_LIST_DIR entries max_entries 0; mret (s32 r).
Definition get_argc : prog Z := r ← __syscall SYSCALL_GET_ARGS (w32 (-1)) 0 0; mret (s32 r).
Definition get_arg (index buffer buf_size : Z) : prog Z :=
  r ← __syscall SYSCALL_GET_ARGS (w32 index) buffer buf_size; mret (s32 r).
Definition getchar : prog Z := r ← __syscall SYSCALL_GETCHAR 0 0 0; mret (s8 r).
Definition clear : prog unit := _ ← __syscall SYSCALL_CLEAR 0 0 0; mret tt.
Definition exec (cmdline : Z) : prog Z := r ← __syscall SYSCALL_EXEC cmdline 0 0; mret (s32 r).
Definition meminfo (info_type : Z) : prog Z := __syscall SYSCALL_MEMINFO info_type 0 0.
Definition heap_stats (info_type : Z) : prog Z := __syscall SYSCALL_HEAP_STATS info_type 0 0.
Definition sleep (ms : Z) : prog unit := _ ← __syscall SYSCALL_SLEEP ms 0 0; mret tt.
Definition getpid : prog Z := __syscall SYSCALL_GETPID 0 0 0.
Definition uptime : prog Z := __syscall SYSCALL_UPTIME 0 0 0.

(** ** crt0.c *)

Definition _start (main : prog Z) : prog unit :=
  ret ← main;
  exit ret;;
  ITree.spin.

(** ** Numbers

    [uint_to_str]: the digits of the number go to [tmp], lowest first, and
    from there in reverse order to [buf]. *)

Definition put_digits (tmp val i : Z) : prog Z :=
  ITree.iter (λ '(val, i),
    if 0 <? val then
      st8 (tmp + i) (48 + val mod 10);;
      mret (inl (val / 10, i + 1))
    else mret (inr i)) (val, i).

Definition reverse (tmp buf i : Z) : prog unit :=
  j ← ITree.iter (λ '(i, j),
        if 0 <? i then
          let i := i - 1 in
          c ← ld8 (tmp + i);
          st8 (buf + j) c;;
          mret (inl (i, j + 1))
        else mret (inr j)) (i, 0);
  st8 (buf + j) 0.

Definition uint_to_str (tmp num buf : Z) : prog unit :=
  if num =? 0 then
    st8 buf 48;;
    st8 (buf + 1) 0
  else
    i ← put_digits tmp num 0;
    reverse tmp buf i.

(** ** The programs *)

Section Programs.
(** The address of a string literal. *)
Context (lit : list Z → Z).

(** *** hello.c, print.c, count.c *)

Definition hello_main : prog Z :=
  print (lit (line "Hello, world!"));;
  print (lit (line "This is a user-space program running on MagnOS!"));;
  mret 0.

Definition print_main : prog Z :=
  print (lit (line "Printer!"));;
  mret 0.

Definition count_main (buf : Z) : prog Z :=
  ITree.iter (λ i,
    if i <=? 5 then
      st8 buf (48 + i);;
      st8 (buf + 1) 0;;
      print buf;;
      print (lit [10]);;
      (if i <? 5 then sleep 1000 else mret tt);;
      mret (inl (i + 1))
    else mret (inr 0)) 1.

(** *** uptime.c *)

Definition print_num (tmp buf n : Z) : prog Z :=
  uint_to_str tmp n buf;;
  print buf.

Definition uptime_main (tmp buf : Z) : prog Z :=
  ms ← uptime;
  let seconds := ms / 1000 in
  let minutes := seconds / 60 in
  let hours := minutes / 60 in
  print (lit (chars "Uptime: "));;
  (if 0 <? hours then
     print_num tmp buf hours;;
     print (lit (chars "h "));;
     mret tt
   else mret tt);;
  print_num tmp buf (minutes mod 60);;
  print (lit (chars "m "));;
  print_num tmp buf (seconds mod 60);;
  print (lit (line "s"));;
  mret 0.

(** *** free.c *)

(** One line of the report: label, number, unit. *)
Definition print_field (tmp buf : Z) (label : list Z) (n : Z) (unit : list Z) : prog Z :=
  print (lit label);;
  print_num tmp buf n;;
  print (lit unit).

Definition free_main (tmp buf : Z) : prog Z :=
  free_pages ← meminfo 0;
  total_pages ← meminfo 1;
  page_size ← meminfo 2;
  let used_pages := total_pages ⊖ free_pages in
  let total_kb := total_pages ⊗ (page_size / 1024) in
  let free_kb := free_pages ⊗ (page_size / 1024) in
  let used_kb := used_pages ⊗ (page_size / 1024) in
  print (lit (line "Memory:"));;
  print_field tmp buf (chars "  Total: ") total_kb (line " KB");;
  print_field tmp buf (chars "  Used:  ") used_kb (line " KB");;
  print_field tmp buf (chars "  Free:  ") free_kb (line " KB");;
  print_field tmp buf (chars "  Pages: ") free_pages (chars "/");;
  print_num tmp buf total_pages;;
  print (lit (line " free"));;
  heap_free ← heap_stats 0;
  heap_used ← heap_stats 1;
  heap_total ← heap_stats 2;
  print (lit ([10] ++ line "Heap:"));;
  print_field tmp buf (chars "  Total: ") (heap_total / 1024) (line " KB");;
  print_field tmp buf (chars "  Used:  ") (heap_used / 1024) (line " KB");;
  print_field tmp buf (chars "  Free:  ") (heap_free / 1024) (line " KB");;
  let heap_pages_used := heap_total / page_size in
  let avail_kb := (free_pages ⊕ heap_pages_used) ⊗ (page_size / 1024) in
  print_field tmp buf ([10] ++ chars "Total available: ") avail_kb (line " KB");;
  mret 0.

(** *** ls.c *)

Definition print_padded (str width : Z) : prog unit :=
  len ← ITree.iter (λ len, c ← ld8 (str + len); mret (if negb (c =? 0) then inl (len + 1) else inr len)) 0;
  print str;;
  ITree.iter (λ i,
    if i <? width then
      print (lit [32]);;
      mret (inl (i + 1))
    else mret (inr tt)) len.

Definition rule : list Z := line "--------------------------------------------------".

(** The iteration of the loop over [entries]; [e] is the address of the entry. *)
Definition ls_entry (tmp size_buf e : Z) : prog Z :=
  print_padded e 16;;
  d ← ld8 (e + 20);
  (if c_true d then print (lit (chars "<DIR>   ")) else print (lit (chars "<FILE>  ")));;
  size ← ld32 (e + 16);
  print_num tmp size_buf size;;
  print (lit (line " bytes")).

Definition ls_main (entries tmp size_buf : Z) : prog Z :=
  print (lit (line "Directory listing:"));;
  print (lit rule);;
  print (lit (line "Name            Type    Size"));;
  print (lit rule);;
  count ← list_dir entries 64;
  if count <? 0 then
    print (lit (line "Error: Failed to read directory"));;
    mret 1
  else if count =? 0 then
    print (lit (line "(empty directory)"));;
    mret 0
  else
    ITree.iter (λ i,
      if i <? count then
        ls_entry tmp size_buf (entries + sizeof_dirinfo * i);;
        mret (inl (i + 1))
      else mret (inr tt)) 0;;
    print (lit rule);;
    print (lit (chars "Total entries: "));;
    print_num tmp size_buf (w32 count);;
    print (lit [10]);;
    mret 0.

(** *** cat.c *)

(** The loop; [Some r] when the program returns from it. *)
Definition cat_loop (buffer : Z) : prog (option Z) :=
  ITree.iter (λ _,
    bytes_read ← file_read buffer (1024 - 1);
    if bytes_read <? 0 then
      print (lit (line "cat: Error reading file"));;
      file_close;;
      mret (inr (Some 1))
    else if bytes_read =? 0 then mret (inr None)
    else
      st8 (buffer + bytes_read) 0;;
      print buffer;;
      mret (inl tt)) tt.

Definition cat_main (buffer filename : Z) : prog Z :=
  argc ← get_argc;
  if argc <? 1 then
    print (lit (line "Usage: cat <filename>"));;
    mret 1
  else
    r ← get_arg 0 filename 64;
    if negb (r =? 0) then
      print (lit (line "Error: Failed to get filename argument"));;
      mret 1
    else
      result ← file_open filename;
      if negb (result =? 0) then
        print (lit (chars "cat: "));;
        print filename;;
        print (lit (line ": No such file"));;
        mret 1
      else
        r ← cat_loop buffer;
        match r with
        | Some r => mret r
        | None =>
            file_close;;
            mret 0
        end.

(** *** shell.c *)

Definition shell_strncmp (a b n : Z) : prog Z :=
  p ← ITree.iter (λ '(a, b, n),
        if n =? 0 then mret (inr (a, b, n))
        else
          x ← ld8 a;
          if x =? 0 then mret (inr (a, b, n))
          else
            y ← ld8 b;
            mret (if x =? y then inl (a + 1, b + 1, n - 1) else inr (a, b, n))) (a, b, n);
  let '(a, b, n) := p in
  if n =? 0 then mret 0
  else
    x ← ld8 a;
    y ← ld8 b;
    mret (x - y).

Definition putchar_custom (buf c : Z) : prog unit :=
  st8 buf c;;
  st8 (buf + 1) 0;;
  print buf;;
  mret tt.

Definition shell_prompt : prog Z := print (lit (chars "MagnOS> ")).

(** The report on the result of [exec]. *)
Definition report (cmd_buf result : Z) : prog unit :=
  if result =? -1 then
    print (lit (chars "Command not found: "));;
    print cmd_buf;;
    print (lit [10]);;
    mret tt
  else if result =? -2 then print (lit (line "Error: File too large"));; mret tt
  else if result =? -3 then print (lit (line "Error: Failed to read file"));; mret tt
  else if result =? -4 then print (lit (line "Error: Not an ELF binary"));; mret tt
  else if result =? -5 then print (lit (line "Error: Failed to execute"));; mret tt
  else mret tt.

(** The enter key: [None] when the loop goes on, with an empty line, and
    otherwise what [main] returns. *)
Definition shell_enter (cmd_buf ch_buf cmd_pos : Z) : prog (option Z) :=
  putchar_custom ch_buf 10;;
  st8 (cmd_buf + cmd_pos) 0;;
  if 0 <? cmd_pos then
    r ← shell_strncmp cmd_buf (lit (chars "clear")) 64;
    if r =? 0 then
      clear;;
      shell_prompt;;
      mret None
    else
      r ← shell_strncmp cmd_buf (lit (chars "exit")) 64;
      if r =? 0 then mret (Some 0)
      else
        result ← exec cmd_buf;
        report cmd_buf result;;
        shell_prompt;;
        mret None
  else
    shell_prompt;;
    mret None.

(** One iteration of the loop of [main]. *)
Definition shell_step (cmd_buf ch_buf cmd_pos : Z) : prog (Z + Z) :=
  c ← getchar;
  if c =? 8 then
    if 0 <? cmd_pos then
      print (lit [8; 32; 8]);;
      mret (inl (cmd_pos - 1))
    else mret (inl cmd_pos)
  else if c =? 10 then
    r ← shell_enter cmd_buf ch_buf cmd_pos;
    mret (match r with None => inl 0 | Some r => inr r end)
  else if cmd_pos <? 64 - 1 then
    st8 (cmd_buf + cmd_pos) c;;
    putchar_custom ch_buf c;;
    mret (inl (cmd_pos + 1))
  else mret (inl cmd_pos).

Definition shell_main (cmd_buf ch_buf : Z) : prog Z :=
  print (lit ([10] ++ line "MagnOS Shell Started"));;
  shell_prompt;;
  ITree.iter (shell_step cmd_buf ch_buf) 0.

(** *** ring3.c, pftest.c *)

(** The number as [main] prints it, in place. *)
Definition ring3_num (tmp buf val : Z) : prog unit :=
  i ← (if val =? 0 then st8 tmp 48;; mret 1 else mret 0);
  i ← put_digits tmp val i;
  reverse tmp buf i.

Definition ring3_start (tmp buf : Z) : prog Z :=
  print (lit (line "Running in ring 3 (user mode)" ++ [10]));;
  print (lit (line "Test 1: Syscalls work from ring 3"));;
  print (lit (line "  print() via int 0x80: OK"));;
  print (lit ([10] ++ line "Test 2: Reading uptime via syscall"));;
  ms ← uptime;
  ring3_num tmp buf (ms / 1000);;
  print (lit (chars "  Uptime: "));;
  print buf;;
  print (lit (line "s OK"));;
  print (lit ([10] ++ line "Test 3: Attempting to read kernel memory (0x1000)..."));;
  print (lit (line "  This should cause a page fault:")).

Definition ring3_main (tmp buf : Z) : prog Z :=
  ring3_start tmp buf;;
  _ ← ld32 0x1000;
  print (lit (line "  ERROR: Should not reach here!"));;
  mret 0.

Definition pftest_main : prog Z :=
  print (lit (line "Triggering page fault (writing to 0x2000000 = 32MB)..."));;
  st32 0x2000000 0xDEAD;;
  print (lit (line "This should never be reached!"));;
  mret 0.
End Programs.
