(* ===== verification/UserRun.v ===== *)
(** * Running user programs

    A machine answers the events of a program.  [runs] is the run of a program
    on a machine to its end: it returned, left by the exit call, or was stopped
    by a page fault.  A machine that simulates another runs the same programs
    to related ends, so that programs are proved on a specification of the
    system and run on the kernel. *)

From ITree Require Import ITree Eq.Shallow.
From S2P Require Import Prelude User.

(** ** Machines *)

Inductive result (A W : Type) : Type :=
  | Done (a : A) (w : W)
  | Exited (w : W)
  | Halted (w : W).
Arguments Done {A W} _ _.
Arguments Exited {A W} _.
Arguments Halted {A W} _.

(** What an event does; [None] is outside what the machine covers. *)
Class Machine (W : Type) := m_step : ∀ T, userE T → W → option (result T W).
Arguments m_step {W _} {T} _ _.

Section Runs.
Context {W : Type} `{M : Machine W} {A : Type}.

Inductive runsF : itree' userE A → W → result A W → Prop :=
  | RunRet a w : runsF (RetF a) w (Done a w)
  | RunTau t w r : runsF (observe t) w r → runsF (TauF t) w r
  | RunVis T (e : userE T) k w x w' r :
      m_step e w = Some (Done x w') → runsF (observe (k x)) w' r → runsF (VisF e k) w r
  | RunExit T (e : userE T) k w w' : m_step e w = Some (Exited w') → runsF (VisF e k) w (Exited w')
  | RunHalt T (e : userE T) k w w' : m_step e w = Some (Halted w') → runsF (VisF e k) w (Halted w').

Definition runs (t : prog A) (w : W) (r : result A W) : Prop := runsF (observe t) w r.
End Runs.

(** ** Rules *)

Section Rules.
Context {W : Type} `{M : Machine W}.

Lemma runs_ret {A} (a : A) w : runs (mret a) w (Done a w).
Proof. constructor. Qed.

Lemma runs_trigger {T} (e : userE T) w r : m_step e w = Some r → runs (ITree.trigger e) w r.
Proof.
  intros E. unfold runs. cbn. destruct r; [|by constructor..]. econstructor; [exact E|constructor].
Qed.

Lemma runs_bind {A B} (t : prog A) (k : A → prog B) w a w' r :
  runs t w (Done a w') → runs (k a) w' r → runs (t ≫= k) w r.
Proof.
  unfold runs. intros Ht Hk. remember (observe t) as ot eqn:Et. remember (Done a w') as d eqn:Ed.
  revert t Et a w' Hk Ed. induction Ht as [b w|u w d Hu IH|T e j w x w1 d Es Hu IH|T e j w w1 Es|T e j w w1 Es];
    intros t Et a w' Hk Ed; try discriminate; unfold mbind, prog_bind; rewrite observe_bind, <-Et; cbn.
  - injection Ed as -> ->. exact Hk.
  - constructor. eapply IH; eauto.
  - econstructor; [exact Es|]. eapply IH; eauto.
Qed.

(** A program that does not come back. *)
Lemma runs_bind_stop {A B} (t : prog A) (k : A → prog B) w r :
  runs t w r →
  match r with
  | Done _ _ => True
  | Exited w' => runs (t ≫= k) w (Exited w')
  | Halted w' => runs (t ≫= k) w (Halted w')
  end.
Proof.
  unfold runs. intros Ht. remember (observe t) as ot eqn:Et. revert t Et.
  induction Ht as [b w|u w r Hu IH|T e j w x w1 r Es Hu IH|T e j w w1 Es|T e j w w1 Es]; intros t Et;
    unfold mbind, prog_bind in *; rewrite ?observe_bind, <-?Et; cbn; [done| | |by constructor..].
  - specialize (IH u eq_refl). destruct r; [done|by constructor..].
  - specialize (IH (j x) eq_refl). destruct r; [done|by econstructor..].
Qed.

Lemma runs_iter {I A} (body : I → prog (I + A)) i w r :
  runs (body i ≫= λ x, match x with inl j => Tau (ITree.iter body j) | inr a => mret a end) w r →
  runs (ITree.iter body i) w r.
Proof. exact id. Qed.
Lemma runs_tau {A} (t : prog A) w r : runs t w r → runs (Tau t) w r.
Proof. apply RunTau. Qed.

(** *** Total correctness

    The program returns, with a value and a state in [Q]. *)
Definition ok {A} (t : prog A) (w : W) (Q : A → W → Prop) : Prop := ∃ a w', runs t w (Done a w') ∧ Q a w'.

Lemma ok_ret {A} (a : A) w (Q : A → W → Prop) : Q a w → ok (mret a) w Q.
Proof. intros H. exists a, w. split; [apply runs_ret|exact H]. Qed.
Lemma ok_bind {A B} (t : prog A) (k : A → prog B) w P Q :
  ok t w P → (∀ a w', P a w' → ok (k a) w' Q) → ok (t ≫= k) w Q.
Proof.
  intros (a & w' & Ht & Hp) Hk. destruct (Hk a w' Hp) as (b & w2 & Hr & Hq).
  exists b, w2. split; [|exact Hq]. by eapply runs_bind.
Qed.
Lemma ok_mono {A} (t : prog A) w (P Q : A → W → Prop) : ok t w P → (∀ a w', P a w' → Q a w') → ok t w Q.
Proof. intros (a & w' & Ht & Hp) H. exists a, w'. auto. Qed.
Lemma ok_trigger {T} (e : userE T) w x w' (Q : T → W → Prop) :
  m_step e w = Some (Done x w') → Q x w' → ok (ITree.trigger e) w Q.
Proof. intros E H. exists x, w'. split; [by apply runs_trigger|exact H]. Qed.

(** An event before the rest of the program. *)
Lemma ok_event {T A} (e : userE T) (k : T → prog A) w x w' (Q : A → W → Prop) :
  m_step e w = Some (Done x w') → ok (k x) w' Q → ok (ITree.trigger e ≫= k) w Q.
Proof. intros E H. eapply ok_bind; [eapply (ok_trigger _ _ x w' (λ y u, y = x ∧ u = w')); done|]. by intros _ _ [-> ->]. Qed.

(** One iteration of a loop. *)
Lemma ok_iter {I A} (body : I → prog (I + A)) i w P (Q : A → W → Prop) :
  ok (body i) w P →
  (∀ x w', P x w' → match x with inl j => ok (ITree.iter body j) w' Q | inr a => Q a w' end) →
  ok (ITree.iter body i) w Q.
Proof.
  intros (x & w1 & Hr & Hp) Hx. specialize (Hx x w1 Hp). destruct x as [j|a].
  - destruct Hx as (a & w2 & Hr2 & Hq). exists a, w2. split; [|exact Hq].
    apply runs_iter. eapply runs_bind; [exact Hr|]. by apply runs_tau.
  - exists a, w1. split; [|exact Hx]. apply runs_iter. eapply runs_bind; [exact Hr|apply runs_ret].
Qed.

(** The exit call ends the program. *)
Lemma runs_start (main : prog Z) w r w1 w2 :
  runs main w (Done r w1) → runs (exit r) w1 (Exited w2) → runs (_start main) w (Exited w2).
Proof.
  intros Hm He. unfold _start. eapply runs_bind; [exact Hm|].
  apply (runs_bind_stop _ (λ _, ITree.spin) _ _ He).
Qed.
End Rules.

(** ** Simulation *)

(** States are related by [R] while the program runs and by [S] at its end. *)
Definition result_rel {A V W} (R S : V → W → Prop) (r : result A V) (s : result A W) : Prop :=
  match r, s with
  | Done a v, Done b w => a = b ∧ R v w
  | Exited v, Exited w | Halted v, Halted w => S v w
  | _, _ => False
  end.

(** Machine [W] answers every event that [V] covers, with the same value. *)
Class Simulates (V W : Type) `{Machine V} `{Machine W} (R S : V → W → Prop) : Prop :=
  simulates T (e : userE T) v w r : R v w → m_step e v = Some r →
    ∃ s, m_step e w = Some s ∧ result_rel R S r s.

Lemma runs_simulated {V W} `{Machine V} `{Machine W} (R S : V → W → Prop) `{!Simulates V W R S} {A} (t : prog A) v w r :
  R v w → runs t v r → ∃ s, runs t w s ∧ result_rel R S r s.
Proof.
  unfold runs. intros HR Hr. revert w HR.
  induction Hr as [a v|u v r Hu IH|T e k v x v1 r Es Hu IH|T e k v v1 Es|T e k v v1 Es]; intros w HR.
  - exists (Done a w). split; [constructor|done].
  - destruct (IH w HR) as (s & Hs & Hrel). exists s. split; [by constructor|done].
  - destruct (simulates T e v w _ HR Es) as ([x' w'|w'|w'] & Es' & Hrel); [|done..]. destruct Hrel as [<- HR'].
    destruct (IH w' HR') as (s & Hs & Hrel). exists s. split; [by econstructor|done].
  - destruct (simulates T e v w _ HR Es) as ([x' w'|w'|w'] & Es' & Hrel); try done. exists (Exited w').
    split; [by constructor|done].
  - destruct (simulates T e v w _ HR Es) as ([x' w'|w'|w'] & Es' & Hrel); try done. exists (Halted w').
    split; [by constructor|done].
Qed.
