(* ===== verification/UserOs.v ===== *)
(** * The system as a program sees it

    The specification of the kernel for its user programs: what each system
    call answers and does, with files as lists of bytes and the screen as what
    was printed, and no disk, device or table.  It is a machine: programs run
    on it, and the kernel simulates it. *)

From S2P Require Import Prelude Mem Args Fat32 Heap Idt Syscall KernelRun User UserRun.

(** What happened on the screen, the newest event first. *)
Inductive event : Type :=
  | Say (s : list Z)
  | Wipe
  | Bye (code : Z)
  | Fault (addr err : Z).

Definition add_text (s : list Z) (o : list event) : list event :=
  match o with
  | Say t :: o => Say (t ++ s) :: o
  | _ => Say s :: o
  end.

(** What changes while a program runs: memory, the screen, the bytes of the
    open file that are not read yet, the arguments, the characters to be typed,
    the clock and its values during the sleeps to come. *)
Record view := View {
  v_mem : mem;
  v_out : list event;
  v_open : option (list Z);
  v_args : program_args_t;
  v_keys : list Z;
  v_ticks : Z;
  v_sleeps : list (list Z)
}.

Definition set_mem (v : view) (m : mem) : view :=
  View m (v_out v) (v_open v) (v_args v) (v_keys v) (v_ticks v) (v_sleeps v).
Definition set_out (v : view) (o : list event) : view :=
  View (v_mem v) o (v_open v) (v_args v) (v_keys v) (v_ticks v) (v_sleeps v).
Definition set_open (v : view) (f : option (list Z)) : view :=
  View (v_mem v) (v_out v) f (v_args v) (v_keys v) (v_ticks v) (v_sleeps v).
Definition set_args (v : view) (a : program_args_t) : view :=
  View (v_mem v) (v_out v) (v_open v) a (v_keys v) (v_ticks v) (v_sleeps v).
Definition set_keys (v : view) (k : list Z) : view :=
  View (v_mem v) (v_out v) (v_open v) (v_args v) k (v_ticks v) (v_sleeps v).
Definition set_time (v : view) (t : Z) (ws : list (list Z)) : view :=
  View (v_mem v) (v_out v) (v_open v) (v_args v) (v_keys v) t ws.
Definition say (v : view) (s : list Z) : view := set_out v (add_text s (v_out v)).

(** What does not change: the files by their names in upper case ([Some None]
    is a name that is not on the disk, [None] one of which nothing is said),
    the entries of the directory, the free pages, the state of the heap, the
    process; [o_slen] bounds the strings and reads. *)
Record system := System {
  o_disk : list Z → option (option (list Z));
  o_dir : list fat32_dirinfo_t;
  o_free_pages : Z;
  o_heap : heap_stats_t;
  o_pid : Z;
  o_slen : nat;
  o_program_name : list Z
}.

(** [n] bytes at [a] are memory of the program. *)
Definition in_user (a n : Z) : bool := (0x200000 <=? a) && (0 <=? n) && (a + n <=? 0x301000).

(** The error code of a page fault of ring 3: the identity map covers 16 MB. *)
Definition fault_code (write : bool) (a : Z) : Z :=
  (if a <? 0x1000000 then 1 else 0) + (if write then 2 else 0) + 4.

Section Os.
Context (o : system).

Definition user_string (m : mem) (a : Z) : option (list Z) :=
  s ← load_str (o_slen o) m a;
  if in_user a (Z.of_nat (length s) + 1) then Some s else None.

Definition os_read (a1 a2 : Z) (v : view) : option (result Z view) :=
  match v_open v with
  | None => Some (Done (neg 1) v)
  | Some c =>
      if in_user a1 a2 && (a2 <? Z.of_nat (o_slen o)) then
        let out := take (Z.to_nat a2) c in
        Some (Done (Z.of_nat (length out))
          (set_open (set_mem v (store_bytes (v_mem v) a1 out)) (Some (drop (Z.to_nat a2) c))))
      else None
  end.

Definition os_args (a1 a2 a3 : Z) (v : view) : option (result Z view) :=
  let a := v_args v in
  if s32 a1 =? -1 then Some (Done (w32 (count a)) v)
  else if (a2 =? 0) || (a3 =? 0) || (s32 a1 <? 0) || (count a <=? s32 a1) then Some (Done (neg 1) v)
  else if in_user a2 a3 then
    Some (Done 0 (set_mem v (store_arg (v_mem v) a2 (nthZ [] (args a) (s32 a1)) (Z.to_nat (a3 - 1)))))
  else None.

(** [SYSCALL_EXEC] of a file that cannot be executed. *)
Definition os_exec (a1 : Z) (v : view) : option (result Z view) :=
  cmd ← user_string (v_mem v) a1;
  let v := set_args v (parse_command_line cmd (o_program_name o) (v_args v)).2 in
  file ← o_disk o (file_name cmd);
  match v_open v, file with
  | Some _, _ => None
  | None, None => Some (Done (neg 1) v)
  | None, Some c =>
      let n := Z.of_nat (length c) in
      if sizeof_exec_buffer <? n then Some (Done (neg 2) v)
      else if n =? 0 then Some (Done (neg 3) v)
      else if (n <? 4) || elf_magic c then None
      else Some (Done (neg 4) v)
  end.

Definition os_call (num a1 a2 a3 : Z) (v : view) : option (result Z view) :=
  if num =? SYSCALL_PRINT then
    if a1 =? 0 then Some (Done 0 v)
    else s ← user_string (v_mem v) a1; Some (Done 0 (say v s))
  else if num =? SYSCALL_EXIT then Some (Exited (set_out v (Bye a1 :: v_out v)))
  else if num =? SYSCALL_FILE_OPEN then
    if a1 =? 0 then Some (Done (neg 1) v)
    else
      name ← user_string (v_mem v) a1;
      file ← o_disk o (upper_name name 255);
      Some (Done (match file with Some _ => 0 | None => neg 1 end) (set_open v file))
  else if num =? SYSCALL_FILE_READ then
    if a1 =? 0 then Some (Done (neg 1) v) else os_read a1 a2 v
  else if num =? SYSCALL_FILE_CLOSE then
    Some (Done (match v_open v with Some _ => 0 | None => neg 1 end) (set_open v None))
  else if num =? SYSCALL_LIST_DIR then
    if (a1 =? 0) || (a2 =? 0) then Some (Done (neg 1) v)
    else if in_user a1 (sizeof_dirinfo * a2) then
      let l := take (Z.to_nat a2) (o_dir o) in
      Some (Done (Z.of_nat (length l)) (set_mem v (store_dirinfos (v_mem v) a1 l)))
    else None
  else if num =? SYSCALL_GET_ARGS then os_args a1 a2 a3 v
  else if num =? SYSCALL_GETCHAR then
    match v_keys v with
    | [] => None
    | c :: ks => Some (Done c (set_keys v ks))
    end
  else if num =? SYSCALL_EXEC then
    if a1 =? 0 then Some (Done (neg 1) v) else os_exec a1 v
  else if num =? SYSCALL_CLEAR then Some (Done 0 (set_out v (Wipe :: v_out v)))
  else if num =? SYSCALL_SLEEP then
    match v_sleeps v with
    | [] => None
    | w :: ws => t ← sleep_ms w (v_ticks v) a1; Some (Done 0 (set_time v t ws))
    end
  else if num =? SYSCALL_UPTIME then Some (Done (get_uptime_ms (v_ticks v)) v)
  else if num =? SYSCALL_MEMINFO then
    Some (Done (if a1 =? 0 then o_free_pages o else if a1 =? 1 then 4096 else if a1 =? 2 then 4096 else neg 1) v)
  else if num =? SYSCALL_HEAP_STATS then
    Some (Done (if a1 =? 0 then free_bytes (o_heap o) else if a1 =? 1 then used_bytes (o_heap o)
                else if a1 =? 2 then total_bytes (o_heap o) else neg 1) v)
  else if num =? SYSCALL_GETPID then Some (Done (o_pid o) v)
  else None.

(** An access outside the memory of the program is a page fault; words are
    aligned. *)
Definition os_fault {T} (write : bool) (a : Z) (v : view) : option (result T view) :=
  if bool_decide (u32 a) then Some (Halted (set_out v (Fault a (fault_code write a) :: v_out v))) else None.

Definition os_step T (e : userE T) (v : view) : option (result T view) :=
  match e in userE T return option (result T view) with
  | Int80 num a1 a2 a3 => os_call num a1 a2 a3 v
  | Load8 a => if in_user a 1 then Some (Done (load8 (v_mem v) a) v) else os_fault false a v
  | Load32 a =>
      if negb (a mod 4 =? 0) then None
      else if in_user a 4 then Some (Done (load32 (v_mem v) a) v) else os_fault false a v
  | Store8 a x => if in_user a 1 then Some (Done tt (set_mem v (store8 (v_mem v) a x))) else os_fault true a v
  | Store32 a x =>
      if negb (a mod 4 =? 0) then None
      else if in_user a 4 then Some (Done tt (set_mem v (store32 (v_mem v) a x))) else os_fault true a v
  end.
End Os.
