(* ===== verification/UserProps.v ===== *)
(** * User programs: memory, printing and numbers

    The rules for programs on the specification of the system: loads, stores,
    strings in memory, printing of literals and of decimal numbers. *)

From ITree Require Import ITree.
From S2P Require Import Prelude Mem Args ArgsProps Fat32List Syscall User UserRun UserOs.

(** ** Strings in memory *)

Fixpoint str_at (m : mem) (a : Z) (s : list Z) : Prop :=
  match s with
  | [] => load8 m a = 0
  | c :: s => c ≠ 0 ∧ load8 m a = c ∧ str_at m (a + 1) s
  end.
Definition bytes_at (m : mem) (a : Z) (l : list Z) : Prop :=
  ∀ i, 0 <= i < Z.of_nat (length l) → load8 m (a + i) = nthZ 0 l i.

Lemma load_str_at s : ∀ fuel m a, str_at m a s → (length s < fuel)%nat → load_str fuel m a = Some s.
Proof.
  induction s as [|c s IH]; intros [|fuel] m a Hs Hf; try (cbn in Hf; lia); cbn [load_str].
  - cbn in Hs. by rewrite Hs.
  - destruct Hs as (Hc & -> & Hs). rewrite (proj2 (Z.eqb_neq c 0) Hc). rewrite (IH fuel) by (done || cbn in Hf; lia). done.
Qed.
Lemma str_at_load fuel : ∀ m a s, load_str fuel m a = Some s → str_at m a s ∧ (length s < fuel)%nat.
Proof.
  induction fuel as [|fuel IH]; intros m a s E; [done|]. cbn [load_str] in E.
  destruct (Z.eqb_spec (load8 m a) 0) as [E0|E0].
  - injection E as <-. cbn. split; [done|lia].
  - apply bind_Some in E as (s' & [Hs Hl]%IH & [= <-]). cbn. split; [done|lia].
Qed.
Lemma str_at_ext m m' s : ∀ a,
  (∀ b, a <= b <= a + Z.of_nat (length s) → load8 m' b = load8 m b) → str_at m a s → str_at m' a s.
Proof.
  induction s as [|c s IH]; intros a Hm; cbn.
  - rewrite Hm by (cbn; lia). done.
  - intros (Hc & Hl & Hs). split_and!; [done|by rewrite Hm by lia|]. apply IH; [|done]. intros b Hb. apply Hm. cbn. lia.
Qed.
(** Bytes with a NUL after them are a string up to their first NUL. *)
Lemma str_at_c_string l : ∀ m a, bytes_at m a l → load8 m (a + Z.of_nat (length l)) = 0 → str_at m a (c_string l).
Proof.
  induction l as [|x l IH]; intros m a Hb H0; cbn; [by rewrite Z.add_0_r in H0|].
  pose proof (Hb 0 ltac:(cbn; lia)) as Hx. rewrite Z.add_0_r in Hx. cbn in Hx.
  destruct (Z.eqb_spec x 0) as [->|Hne]; [exact Hx|]. split_and!; [done|done|]. apply IH.
  - intros i Hi. replace (a + 1 + i) with (a + (i + 1)) by lia. rewrite Hb by (cbn; lia).
    unfold nthZ. rewrite !decide_True by lia. by replace (Z.to_nat (i + 1)) with (S (Z.to_nat i)) by lia.
  - by replace (a + 1 + Z.of_nat (length l)) with (a + Z.of_nat (length (x :: l))) by (cbn; lia).
Qed.
Lemma str_at_bytes s m a : bytes_at m a s → load8 m (a + Z.of_nat (length s)) = 0 → nul_free s → str_at m a s.
Proof. intros Hb H0 HF. rewrite <-(c_string_id s HF). by apply str_at_c_string. Qed.
Lemma str_at_drop l : ∀ m a r, str_at m a (l ++ r) → str_at m (a + Z.of_nat (length l)) r.
Proof.
  induction l as [|x l IH]; intros m a r; cbn; [by rewrite Z.add_0_r|]. intros (_ & _ & H%IH).
  by replace (a + Z.of_nat (S (length l))) with (a + 1 + Z.of_nat (length l)) by lia.
Qed.
Lemma str_at_nul_free s : ∀ m a, str_at m a s → nul_free s.
Proof. induction s as [|c s IH]; intros m a; [constructor|]. intros (Hc & _ & Hs). constructor; [done|by eapply IH]. Qed.

Lemma bytes_at_snoc m m' a l x :
  bytes_at m a l → load8 m' (a + Z.of_nat (length l)) = x →
  (∀ b, a <= b < a + Z.of_nat (length l) → load8 m' b = load8 m b) → bytes_at m' a (l ++ [x]).
Proof.
  intros Hl Hx Hm i Hi. rewrite length_app in Hi. cbn in Hi. unfold nthZ. rewrite decide_True by lia.
  destruct (decide (i < Z.of_nat (length l))) as [H|H].
  - rewrite lookup_app_l by lia. rewrite Hm by lia. rewrite Hl by lia. unfold nthZ. by rewrite decide_True by lia.
  - replace i with (Z.of_nat (length l)) by lia. rewrite Nat2Z.id, lookup_app_r, Nat.sub_diag by lia. by rewrite Hx.
Qed.

Lemma bytes_at_prefix m a l r : bytes_at m a (l ++ r) → bytes_at m a l.
Proof.
  intros H i Hi. rewrite H by (rewrite length_app; lia). unfold nthZ. rewrite !decide_True by lia.
  by rewrite lookup_app_l by lia.
Qed.
Lemma store_bytes_at m a l : Forall u8 l → addr_ok a (Z.of_nat (length l)) → bytes_at (store_bytes m a l) a l.
Proof.
  intros HF Ha i Hi. rewrite load8_store_bytes by (unfold addr_ok in *; lia). rewrite decide_True by lia.
  replace (a + i - a) with i by lia. apply w8_small. apply (nthZ_Forall u8); [done|unfold u8; lia].
Qed.
Lemma store_str_at m a s : nul_free s → Forall u8 s → addr_ok a (Z.of_nat (length s) + 1) →
  str_at (store_bytes m a (s ++ [0])) a s.
Proof.
  intros Hn HF Ha. assert (bytes_at (store_bytes m a (s ++ [0])) a (s ++ [0])) as Hb.
  { apply store_bytes_at; [apply Forall_app; split; [done|]; repeat constructor; lia|].
    rewrite length_app. cbn. by replace (Z.of_nat (length s + 1)) with (Z.of_nat (length s) + 1) by lia. }
  apply str_at_bytes; [by eapply bytes_at_prefix| |done].
  rewrite Hb by (rewrite length_app; cbn; lia). unfold nthZ. rewrite decide_True, Nat2Z.id by lia.
  by rewrite lookup_app_r, Nat.sub_diag by lia.
Qed.

(** ** Programs on the system *)

#[global] Instance os_machine (o : system) : Machine view := os_step o.

Definition user (a n : Z) : Prop := 0x200000 <= a ∧ 0 <= n ∧ a + n <= 0x301000.
Lemma in_user_true a n : user a n → in_user a n = true.
Proof. unfold user, in_user. lia. Qed.

Lemma user_string_at o m a s :
  str_at m a s → user a (Z.of_nat (length s) + 1) → (length s < o_slen o)%nat → user_string o m a = Some s.
Proof.
  intros Hs Hu Hl. unfold user_string. rewrite (load_str_at s) by done. cbn [mbind option_bind]. by rewrite in_user_true.
Qed.

(** Memory [m'] differs from [m] in the program's memory only in [P]. *)
Definition same_but (P : Z → Prop) (m m' : mem) : Prop := ∀ a, user a 1 → ¬ P a → load8 m' a = load8 m a.
Definition span (a n b : Z) : Prop := a <= b < a + n.

Lemma same_but_refl P m : same_but P m m.
Proof. by intros ? ? ?. Qed.
Lemma same_but_trans P m1 m2 m3 : same_but P m1 m2 → same_but P m2 m3 → same_but P m1 m3.
Proof. intros H1 H2 a Ha HP. by rewrite H2, H1. Qed.
Lemma same_but_mono (P Q : Z → Prop) m m' : (∀ a, P a → Q a) → same_but P m m' → same_but Q m m'.
Proof. intros HPQ H a Ha HQ. apply H; auto. Qed.
Lemma same_but_store8 m a x : user a 1 → same_but (span a 1) m (store8 m a x).
Proof.
  intros Ha b Hb Hs. apply load8_store8_far; unfold user, span, addr_ok in *; lia.
Qed.

Section Rules.
Context (o : system).
#[local] Existing Instance os_machine.
#[local] Notation ok := (ok (M := os_machine o)).

Lemma ok_st8 v a x (Q : unit → view → Prop) : user a 1 → Q tt (set_mem v (store8 (v_mem v) a x)) → ok (st8 a x) v Q.
Proof. intros Ha H. eapply ok_trigger; [|exact H]. cbn. by rewrite in_user_true. Qed.

Lemma do_ld8 {A} (k : Z → prog A) v a Q : user a 1 → ok (k (load8 (v_mem v) a)) v Q → ok (ld8 a ≫= k) v Q.
Proof. intros Ha H. eapply ok_event; [|exact H]. cbn. by rewrite in_user_true. Qed.
Lemma do_ld32 {A} (k : Z → prog A) v a Q :
  user a 4 → a mod 4 = 0 → ok (k (load32 (v_mem v) a)) v Q → ok (ld32 a ≫= k) v Q.
Proof. intros Ha E H. eapply ok_event; [|exact H]. cbn. by rewrite E, in_user_true. Qed.
Lemma do_st8 {A} (k : unit → prog A) v a x Q :
  user a 1 → ok (k tt) (set_mem v (store8 (v_mem v) a x)) Q → ok (st8 a x ≫= k) v Q.
Proof. intros Ha H. eapply ok_event; [|exact H]. cbn. by rewrite in_user_true. Qed.

(** *** [uint_to_str] *)

(** The digits are on the stack [temp] of the loop, its top at [i - 1]. *)
Definition stacked (m : mem) (tmp : Z) (temp : list Z) : Prop := bytes_at m tmp (rev temp).

Lemma ok_put_digits k : ∀ tmp n temp v,
  0 <= n < 10 ^ Z.of_nat k → user tmp (Z.of_nat (length temp + k)) → stacked (v_mem v) tmp temp →
  ok (put_digits tmp n (Z.of_nat (length temp))) v (λ i v',
    let ds := digits k n temp in
    i = Z.of_nat (length ds) ∧ ∃ m, v' = set_mem v m ∧ stacked m tmp ds ∧
      same_but (span tmp (Z.of_nat (length temp + k))) (v_mem v) m).
Proof.
  induction k as [|k IH]; intros tmp n temp v Hn Hu Hs; unfold put_digits.
  { eapply ok_iter; [|intros x w' H; exact H]. cbn beta iota. destruct (Z.ltb_spec 0 n); [cbn in Hn; lia|].
    apply ok_ret. cbn. split; [done|]. exists (v_mem v). by destruct v. }
  cbn [digits].
  eapply (ok_iter _ _ _ (λ x w', x = (if 0 <? n then inl (n / 10, Z.of_nat (length temp) + 1) else inr (Z.of_nat (length temp))) ∧
    w' = if 0 <? n then set_mem v (store8 (v_mem v) (tmp + Z.of_nat (length temp)) (48 + n mod 10)) else v)).
  { cbn beta iota. destruct (Z.ltb_spec 0 n).
    - apply do_st8; [unfold user in *; lia|]. by apply ok_ret.
    - apply ok_ret. done. }
  intros x w' [-> ->]. destruct (Z.ltb_spec 0 n) as [H0|H0].
  - set (m1 := store8 _ _ _). set (d := 48 + n mod 10) in *.
    replace (Z.of_nat (length temp) + 1) with (Z.of_nat (length (d :: temp))) by (cbn; lia).
    rewrite Nat2Z.inj_succ, Z.pow_succ_r in Hn by lia.
    eapply ok_mono; [apply (IH tmp (n / 10) (d :: temp) (set_mem v m1))|].
    + zdm.
    + cbn [length]. by replace (S (length temp) + k)%nat with (length temp + S k)%nat by lia.
    + unfold stacked in *. cbn [rev]. eapply bytes_at_snoc; [exact Hs| |].
      * rewrite length_rev. unfold m1. cbn. rewrite load8_store8_eq. apply w8_small. unfold d.
        pose proof (Z.mod_pos_bound n 10). lia.
      * intros b Hb. rewrite length_rev in Hb. apply load8_store8_far; unfold user, addr_ok in *; lia.
    + intros i w' (Hi & m & -> & Hst & Hsame). split; [exact Hi|]. exists m. split_and!; [done|exact Hst|].
      cbn [length] in Hsame. replace (S (length temp) + k)%nat with (length temp + S k)%nat in Hsame by lia.
      eapply same_but_trans; [|exact Hsame]. eapply same_but_mono; [|apply same_but_store8; unfold user in *; lia].
      unfold span. intros a. lia.
  - split; [done|]. exists (v_mem v). split_and!; [by destruct v|exact Hs|apply same_but_refl].
Qed.

Definition apart (a n b k : Z) : Prop := a + n <= b ∨ b + k <= a.

Lemma bytes_at_ext m m' a l : (∀ b, span a (Z.of_nat (length l)) b → load8 m' b = load8 m b) →
  bytes_at m a l → bytes_at m' a l.
Proof. intros Hm H i Hi. rewrite Hm by (unfold span; lia). by apply H. Qed.

(** The loop that reverses, with [pre] copied and [suf] on the stack. *)
Lemma ok_reverse_loop tmp buf suf : ∀ pre v,
  let n := Z.of_nat (length pre + length suf) in
  user tmp n → user buf n → apart tmp n buf n →
  bytes_at (v_mem v) buf pre → stacked (v_mem v) tmp suf → Forall u8 suf →
  ok (ITree.iter (λ '(i, j),
        if 0 <? i then
          let i := i - 1 in
          c ← ld8 (tmp + i);
          st8 (buf + j) c;;
          mret (inl (i, j + 1))
        else mret (inr j)) (Z.of_nat (length suf), Z.of_nat (length pre))) v (λ j v',
    j = n ∧ ∃ m, v' = set_mem v m ∧ bytes_at m buf (pre ++ suf) ∧ same_but (span buf n) (v_mem v) m).
Proof.
  induction suf as [|c suf IH]; intros pre v n Ht Hb Ha Hpre Hsuf HF.
  { eapply ok_iter; [|intros x w' H; exact H]. cbn. apply ok_ret. unfold n. rewrite Nat.add_0_r. split; [done|].
    exists (v_mem v). rewrite app_nil_r. by destruct v. }
  inversion_clear HF as [|? ? Hc HF']. set (m1 := store8 (v_mem v) (buf + Z.of_nat (length pre)) c).
  unfold user, apart in *. cbn [length] in *.
  assert (load8 (v_mem v) (tmp + Z.of_nat (length suf)) = c) as Ec.
  { unfold stacked in Hsuf. cbn [rev] in Hsuf. rewrite Hsuf by (rewrite length_app, length_rev; cbn; lia).
    unfold nthZ. rewrite decide_True, Nat2Z.id by lia. rewrite lookup_app_r, length_rev, Nat.sub_diag by (rewrite length_rev; lia). done. }
  eapply (ok_iter _ _ _ (λ x w', x = inl (Z.of_nat (length suf), Z.of_nat (length pre) + 1) ∧ w' = set_mem v m1)).
  { cbn beta iota zeta. destruct (Z.ltb_spec 0 (Z.of_nat (S (length suf)))); [|lia].
    replace (Z.of_nat (S (length suf)) - 1) with (Z.of_nat (length suf)) by lia.
    apply do_ld8; [unfold user; lia|]. rewrite Ec. apply do_st8; [unfold user; lia|]. by apply ok_ret. }
  intros x w' [-> ->].
  assert (Z.of_nat (length pre) + 1 = Z.of_nat (length (pre ++ [c]))) as El by (rewrite length_app; cbn; lia).
  assert (length (pre ++ [c]) + length suf = length pre + S (length suf))%nat as En by (rewrite length_app; cbn; lia).
  rewrite El. eapply ok_mono; [apply (IH (pre ++ [c]) (set_mem v m1)); rewrite ?En; try assumption|].
  - eapply bytes_at_snoc; [exact Hpre| |].
    + cbn. unfold m1. rewrite load8_store8_eq. by apply w8_small.
    + intros b Hb'. apply load8_store8_far; unfold addr_ok; lia.
  - unfold stacked in *. cbn [rev] in Hsuf. eapply bytes_at_ext; [|eapply bytes_at_prefix; exact Hsuf].
    intros b Hb'. unfold span in Hb'. rewrite length_rev in Hb'. apply load8_store8_far; unfold addr_ok; lia.
  - intros j w' (-> & m & -> & Hby & Hsame). rewrite En in *. split; [done|]. exists m. rewrite <-app_assoc in Hby.
    split_and!; [done|exact Hby|]. eapply same_but_trans; [|exact Hsame].
    eapply same_but_mono; [|apply same_but_store8; unfold user; lia]. unfold span. intros a. lia.
Qed.

Lemma ok_reverse tmp buf ds v :
  let n := Z.of_nat (length ds) in
  user tmp n → user buf (n + 1) → apart tmp n buf (n + 1) →
  stacked (v_mem v) tmp ds → Forall u8 ds → nul_free ds →
  ok (reverse tmp buf n) v (λ _ v',
    ∃ m, v' = set_mem v m ∧ str_at m buf ds ∧ same_but (span buf (n + 1)) (v_mem v) m).
Proof.
  intros n Ht Hb Ha Hs HF Hn. unfold reverse. eapply ok_bind.
  - apply (ok_reverse_loop tmp buf ds [] v); unfold user, apart in *; cbn [length app Nat.add]; fold n; try lia; try done.
    intros i. cbn. lia.
  - intros j w' (-> & m & -> & Hby & Hsame). cbn [length app Nat.add] in *. fold n. fold n in Hsame.
    apply ok_st8; [unfold user in *; lia|]. exists (store8 m (buf + n) 0). split_and!; [done| |].
    + apply str_at_bytes; [| |exact Hn].
      * eapply bytes_at_ext; [|exact Hby]. intros b Hb'. unfold span, user in *. apply load8_store8_far; unfold addr_ok; lia.
      * cbn. fold n. by rewrite load8_store8_eq.
    + eapply same_but_trans; [eapply same_but_mono; [|exact Hsame]|eapply same_but_mono; [|apply same_but_store8; unfold user in *; lia]];
        unfold span; intros a; lia.
Qed.

(** [uint_to_str] leaves the decimal text of the number in the buffer; it
    writes at most ten bytes of [tmp] and eleven of the buffer. *)
Definition num_bytes (tmp buf a : Z) : Prop := span tmp 10 a ∨ span buf 11 a.
Definition num_frame (tmp buf : Z) : Prop := user tmp 10 ∧ user buf 11 ∧ apart tmp 10 buf 11.

(** Both loops, from a stack [temp] of digits. *)
Lemma ok_digits k tmp buf n temp v :
  0 <= n < 10 ^ Z.of_nat k → (length temp + k <= 10)%nat → num_frame tmp buf →
  stacked (v_mem v) tmp temp → Forall (λ c, 48 <= c <= 57) temp →
  ok (i ← put_digits tmp n (Z.of_nat (length temp)); reverse tmp buf i) v (λ _ v',
    ∃ m, v' = set_mem v m ∧ str_at m buf (digits k n temp) ∧ same_but (num_bytes tmp buf) (v_mem v) m).
Proof.
  intros Hn Hk (Ht & Hb & Ha) Hst HF. unfold user, apart in *.
  destruct (digits_spec k n temp Hn) as (ds & E & _ & Hl & HF').
  assert (Forall (λ c, 48 <= c <= 57) (digits k n temp)) as Hd by (rewrite E; by apply Forall_app).
  assert (length (digits k n temp) <= 10)%nat as Hlen by (rewrite E, length_app; lia).
  eapply ok_bind; [apply (ok_put_digits k tmp n temp v); [done|unfold user; lia|done]|].
  intros i w (-> & m & -> & Hst' & Hsame). clear E. set (l := digits k n temp) in *.
  eapply ok_mono; [apply ok_reverse; unfold user, apart in *; try lia; try done|].
  - eapply Forall_impl; [exact Hd|]. unfold u8. cbn. lia.
  - eapply Forall_impl; [exact Hd|]. cbn. lia.
  - intros _ w (m' & -> & Hs' & Hsame'). exists m'. split_and!; [done|exact Hs'|].
    eapply same_but_trans; [eapply same_but_mono; [|exact Hsame]|eapply same_but_mono; [|exact Hsame']];
      unfold num_bytes, span; intros a; lia.
Qed.

Lemma ok_uint_to_str tmp buf n v : u32 n → num_frame tmp buf →
  ok (uint_to_str tmp n buf) v (λ _ v',
    ∃ m, v' = set_mem v m ∧ str_at m buf (num_text n) ∧ same_but (num_bytes tmp buf) (v_mem v) m).
Proof.
  intros Hn Hf. unfold uint_to_str, num_text. destruct (Z.eqb_spec n 0) as [->|Hne].
  - destruct Hf as (Ht & Hb & Ha). apply do_st8; [unfold user in *; lia|]. apply ok_st8; [unfold user in *; lia|].
    exists (store8 (store8 (v_mem v) buf 48) (buf + 1) 0). split_and!; [done| |].
    + cbn. split_and!; [done| |apply load8_store8_eq]. rewrite load8_store8_far by (unfold user, addr_ok in *; lia).
      apply load8_store8_eq.
    + intros a Hu Hn'. unfold user, num_bytes, span in *. rewrite !load8_store8_far by (unfold addr_ok; lia). done.
  - change 16%nat with (10 + 6)%nat. unfold u32 in Hn. rewrite digits_more by (cbn; lia).
    apply (ok_digits 10 tmp buf n []); [cbn; lia|cbn; lia|done|intros i; cbn; lia|constructor].
Qed.
End Rules.

(** ** Printing *)

Definition adds (ts : list (list Z)) (out : list event) : list event := fold_left (λ out s, add_text s out) ts out.

Lemma add_text_app s t out : add_text t (add_text s out) = add_text (s ++ t) out.
Proof. destruct out as [|[u| | |] out]; cbn; by rewrite ?app_assoc. Qed.
Lemma adds_app ts us out : adds (ts ++ us) out = adds us (adds ts out).
Proof. apply fold_left_app. Qed.
Lemma adds_concat ts : ∀ s out, adds ts (add_text s out) = add_text (s ++ concat ts) out.
Proof.
  induction ts as [|t ts IH]; intros s out; cbn; [by rewrite app_nil_r|].
  rewrite add_text_app. fold (adds ts (add_text (s ++ t) out)). by rewrite IH, app_assoc.
Qed.

Section Printing.
Context (o : system) (lit : list Z → Z).
#[local] Notation ok := (ok (M := os_machine o)).

(** The bytes a program may write, and the literals it has elsewhere. *)
Context (P : Z → Prop) (lits : list (list Z)).
Definition lit_at (m : mem) (s : list Z) : Prop :=
  user (lit s) (Z.of_nat (length s) + 1) ∧ (length s < o_slen o)%nat ∧ str_at m (lit s) s ∧
  ∀ a, span (lit s) (Z.of_nat (length s) + 1) a → ¬ P a.
Definition literals (m : mem) : Prop := Forall (lit_at m) lits.

(** The program has printed [ts] since the state [v0], and nothing else but
    its own memory has changed. *)
Definition said (v0 : view) (ts : list (list Z)) (v : view) : Prop :=
  same_but P (v_mem v0) (v_mem v) ∧ v = set_out (set_mem v0 (v_mem v)) (adds ts (v_out v0)).

Lemma said_refl v : said v [] v.
Proof. split; [apply same_but_refl|by destruct v]. Qed.
Lemma said_mem v0 ts v m : said v0 ts v → same_but P (v_mem v) m → said v0 ts (set_mem v m).
Proof. intros [Hs ->] Hm. split; [by eapply same_but_trans|done]. Qed.
Lemma said_say v0 ts v s : said v0 ts v → said v0 (ts ++ [s]) (say v s).
Proof. intros [Hs E]. split; [done|]. rewrite adds_app. cbn. rewrite E. done. Qed.

(** Several strings are one text. *)
Lemma said_merge v0 ts us v : us ≠ [] → said v0 (ts ++ us) v → said v0 (ts ++ [concat us]) v.
Proof.
  intros Hne [Hs E]. split; [exact Hs|]. rewrite E at 1. f_equal. rewrite !adds_app. destruct us as [|u us]; [done|].
  cbn [adds fold_left]. apply adds_concat.
Qed.
Lemma said_text v0 ts v : ts ≠ [] → said v0 ts v → said v0 [concat ts] v.
Proof. apply (said_merge v0 []). Qed.

Lemma ok_print v a s (Q : Z → view → Prop) :
  str_at (v_mem v) a s → user a (Z.of_nat (length s) + 1) → (length s < o_slen o)%nat →
  Q 0 (say v s) → ok (print a) v Q.
Proof.
  intros Hs Hu Hl HQ. eapply (ok_event _ _ _ 0 (say v s)); [|by apply ok_ret].
  cbn. unfold os_call. cbn [Z.eqb Pos.eqb SYSCALL_PRINT].
  destruct (Z.eqb_spec a 0); [unfold user in Hu; lia|]. by rewrite (user_string_at o _ _ s).
Qed.
Lemma do_print {A} (k : Z → prog A) v a s Q :
  str_at (v_mem v) a s → user a (Z.of_nat (length s) + 1) → (length s < o_slen o)%nat →
  ok (k 0) (say v s) Q → ok (print a ≫= k) v Q.
Proof. intros Hs Hu Hl Hk. eapply ok_bind; [by eapply (ok_print _ _ _ (λ x w, x = 0 ∧ w = say v s))|]. by intros _ _ [-> ->]. Qed.

Lemma lit_after v0 ts v s : literals (v_mem v0) → s ∈ lits → said v0 ts v → lit_at (v_mem v) s.
Proof.
  intros Hl Hs [Hsame _]. unfold literals in Hl. rewrite Forall_forall in Hl.
  destruct (Hl s Hs) as (Hu & Hlen & Hstr & HP). split_and!; [done|done| |done].
  eapply str_at_ext; [|exact Hstr]. intros b Hb. unfold user in Hu. apply Hsame; [unfold user; lia|].
  apply HP. unfold span. lia.
Qed.

(** Printing a literal. *)
Lemma said_lit {A} (k : Z → prog A) v0 ts v s Q :
  literals (v_mem v0) → s ∈ lits → said v0 ts v →
  (∀ v', said v0 (ts ++ [s]) v' → v_mem v' = v_mem v → ok (k 0) v' Q) → ok (print (lit s) ≫= k) v Q.
Proof.
  intros Hl Hs Hsaid Hk. destruct (lit_after v0 ts v s Hl Hs Hsaid) as (Hu & Hlen & Hstr & _).
  eapply ok_bind; [|intros a w' H; exact H]. eapply ok_print; [exact Hstr|exact Hu|exact Hlen|].
  apply Hk; [by apply said_say|reflexivity].
Qed.

(** Printing a number. *)
Lemma said_num {A} (k : Z → prog A) tmp buf n v0 ts v Q :
  u32 n → num_frame tmp buf → (10 < o_slen o)%nat → (∀ a, num_bytes tmp buf a → P a) → said v0 ts v →
  (∀ v', said v0 (ts ++ [num_text n]) v' → same_but (num_bytes tmp buf) (v_mem v) (v_mem v') → ok (k 0) v' Q) →
  ok (print_num tmp buf n ≫= k) v Q.
Proof.
  intros Hn Hf Hsl HP Hsaid Hk. eapply ok_bind; [|intros a w' H; exact H].
  unfold print_num. eapply ok_bind; [by apply ok_uint_to_str|]. intros _ w' (m & -> & Hs & Hsame).
  destruct (num_text_spec n Hn) as (_ & Hl & _). destruct Hf as (_ & Hb & _).
  eapply ok_print; [exact Hs|unfold user in *; lia|lia|]. apply Hk; [|exact Hsame].
  apply said_say, said_mem; [done|]. by eapply same_but_mono.
Qed.
End Printing.
