(* ===== verification/UserPrograms.v ===== *)
(** * User programs: theorems

    What the programs print and return, on the specification of the system:
    the report of uptime and of free, the listing of ls, the file of cat. *)

From Stdlib Require Import String.
From ITree Require Import ITree.
From S2P Require Import Prelude Mem Args ArgsProps Fat32 Fat32List Heap Idt Syscall SyscallProps User UserRun UserOs UserProps.

(** Membership in an explicit list of literals. *)
Ltac lit_in := repeat first [apply list_elem_of_here | apply list_elem_of_further].
(** The next statement prints a literal, or a number. *)
Ltac say_lit H := eapply said_lit; [eassumption|solve [lit_in]|exact H|]; clear H; intros ? H ?; cbn beta.
Ltac say_num H := eapply said_num; [| |eassumption| |exact H|]; [..|clear H; intros ? H ?; cbn beta].

Lemma u32_mod a b : 0 < b <= 4294967296 → u32 (a mod b).
Proof. intros Hb. unfold u32. pose proof (Z.mod_pos_bound a b). lia. Qed.
Lemma u32_div a b : u32 a → 0 < b → u32 (a / b).
Proof.
  unfold u32. intros Ha Hb. split; [apply Z.div_pos; lia|]. apply Z.le_lt_trans with a; [|lia].
  apply Z.div_le_upper_bound; nia.
Qed.

(** The program returns [r] after printing [text]; memory changes only in [P]. *)
Definition prints (o : system) (P : Z → Prop) (t : prog Z) (v : view) (r : Z) (text : list Z) : Prop :=
  ok (M := os_machine o) t v (λ r' v', r' = r ∧ said P v [text] v').

Section Reports.
Context (o : system) (lit : list Z → Z) (tmp buf : Z) (Hf : num_frame tmp buf) (Hsl : (10 < o_slen o)%nat).
#[local] Notation P := (num_bytes tmp buf).

(** ** uptime *)

Definition uptime_lits : list (list Z) := [chars "Uptime: "; chars "h "; chars "m "; line "s"].
Definition uptime_text (ms : Z) : list Z :=
  let s := ms / 1000 in
  chars "Uptime: " ++ (if 0 <? s / 3600 then num_text (s / 3600) ++ chars "h " else []) ++
  num_text (s / 60 mod 60) ++ chars "m " ++ num_text (s mod 60) ++ line "s".

Lemma uptime_prints v :
  literals o lit P uptime_lits (v_mem v) →
  prints o P (uptime_main lit tmp buf) v 0 (uptime_text (get_uptime_ms (v_ticks v))).
Proof using Hf Hsl.
  intros Hl. unfold prints, uptime_main. set (ms := get_uptime_ms (v_ticks v)).
  assert (u32 ms) as Hms by apply w32_range.
  eapply ok_event; [reflexivity|]. fold ms. cbn zeta. pose proof (said_refl P v) as H.
  say_lit H. set (s := ms / 1000). assert (u32 s) as Hs by (by apply u32_div).
  rewrite (Z.div_div s 60 60) by lia.
  assert (∀ w ts, said P v ts w → concat ts = chars "Uptime: " ++ (if 0 <? s / 3600 then num_text (s / 3600) ++ chars "h " else []) →
    ok (M := os_machine o) (print_num tmp buf (s / 60 mod 60);; print (lit (chars "m "));;
      print_num tmp buf (s mod 60);; print (lit (line "s"));; mret 0) w (λ r w, r = 0 ∧ said P v [uptime_text ms] w)) as Hrest.
  { intros w ts H' E. say_num H'; [by apply u32_mod|exact Hf|done|]. say_lit H'. say_num H'; [by apply u32_mod|exact Hf|done|].
    say_lit H'. apply ok_ret. split; [done|]. apply said_text in H'; [|by destruct ts].
    rewrite !concat_app in H'. cbn [concat] in H'. rewrite E, !app_nil_r, <-!app_assoc in H'. exact H'. }
  change (60 * 60) with 3600. destruct (0 <? s / 3600) eqn:Eh.
  - apply (ok_bind _ _ _ (λ _ w, said P v [chars "Uptime: "; num_text (s / 3600); chars "h "] w)).
    + say_num H; [by apply u32_div|exact Hf|done|]. say_lit H. apply ok_ret. exact H.
    + intros _ w Hw. eapply Hrest; [exact Hw|]. cbn [concat]. by rewrite app_nil_r.
  - apply (ok_bind _ _ _ (λ _ w, said P v [chars "Uptime: "] w)); [by apply ok_ret|].
    intros _ w Hw. by eapply Hrest.
Qed.

(** ** free *)

Definition free_lits : list (list Z) :=
  [line "Memory:"; chars "  Total: "; chars "  Used:  "; chars "  Free:  "; chars "  Pages: "; line " KB";
   chars "/"; line " free"; [10] ++ line "Heap:"; [10] ++ chars "Total available: "].
Definition field (label : list Z) (n : Z) (unit : list Z) : list Z := label ++ num_text n ++ unit.
Definition free_text : list Z :=
  let f := o_free_pages o in
  let h := o_heap o in
  line "Memory:" ++ field (chars "  Total: ") (4 * 4096) (line " KB") ++
  field (chars "  Used:  ") (4 * (4096 - f)) (line " KB") ++ field (chars "  Free:  ") (4 * f) (line " KB") ++
  field (chars "  Pages: ") f (chars "/") ++ num_text 4096 ++ line " free" ++
  [10] ++ line "Heap:" ++ field (chars "  Total: ") (total_bytes h / 1024) (line " KB") ++
  field (chars "  Used:  ") (used_bytes h / 1024) (line " KB") ++
  field (chars "  Free:  ") (free_bytes h / 1024) (line " KB") ++
  field ([10] ++ chars "Total available: ") (4 * (f + total_bytes h / 4096)) (line " KB").

Lemma said_field {A} (k : Z → prog A) lits label n unit v0 ts v Q :
  literals o lit P lits (v_mem v0) → label ∈ lits → unit ∈ lits → u32 n → said P v0 ts v →
  (∀ v', said P v0 (ts ++ [field label n unit]) v' → ok (M := os_machine o) (k 0) v' Q) →
  ok (M := os_machine o) (print_field lit tmp buf label n unit ≫= k) v Q.
Proof using Hf Hsl.
  intros Hl Hin1 Hin2 Hn H Hk.
  apply (ok_bind _ _ _ (λ x w, x = 0 ∧ said P v0 (ts ++ [field label n unit]) w)); [|intros _ w [-> Hw]; by apply Hk].
  unfold print_field. eapply said_lit; [exact Hl|exact Hin1|exact H|]. clear H. intros v1 H _.
  say_num H; [exact Hn|exact Hf|done|]. destruct (lit_after _ _ _ _ _ _ _ _ Hl Hin2 H) as (Hu & Hlen & Hs & _).
  eapply ok_print; [exact Hs|exact Hu|exact Hlen|]. split; [done|].
  apply (said_say _ _ _ _ unit) in H. rewrite <-!app_assoc in H. apply said_merge in H; [|done].
  cbn [app concat] in H. rewrite app_nil_r in H. exact H.
Qed.

Lemma free_prints v :
  0 <= o_free_pages o <= 4096 → u32 (total_bytes (o_heap o)) → u32 (used_bytes (o_heap o)) → u32 (free_bytes (o_heap o)) →
  literals o lit P free_lits (v_mem v) → prints o P (free_main lit tmp buf) v 0 free_text.
Proof using Hf Hsl.
  intros Hfp Ht Hu Hfr Hl. unfold prints, free_main. set (f := o_free_pages o) in *.
  do 3 (eapply ok_event; [reflexivity|]).
  fold f. cbn zeta. cbn [Z.eqb Pos.eqb].
  assert (∀ x, 0 <= x <= 4096 → x ⊗ (4096 / 1024) = 4 * x) as Hkb.
  { intros x Hx. change (4096 / 1024) with 4. rewrite w32_small by lia. lia. }
  rewrite (w32_small (4096 - f)) by lia. rewrite !Hkb by lia.
  assert (total_bytes (o_heap o) / 4096 < 1048576) as Hd by (unfold u32 in Ht; zdm).
  assert (0 <= total_bytes (o_heap o) / 4096) as Hd0 by (unfold u32 in Ht; zdm).
  pose proof (said_refl P v) as H. say_lit H.
  do 4 (eapply said_field; [exact Hl|solve [lit_in]|solve [lit_in]|unfold u32; lia|exact H|]; clear H; intros ? H; cbn beta).
  say_num H; [unfold u32; lia|exact Hf|done|]. say_lit H.
  do 3 (eapply ok_event; [reflexivity|]).
  cbn [Z.eqb Pos.eqb]. say_lit H.
  do 3 (eapply said_field; [exact Hl|solve [lit_in]|solve [lit_in]|by apply u32_div|exact H|]; clear H; intros ? H; cbn beta).
  cbn zeta. rewrite (w32_small (f + _)) by lia. change (4096 / 1024) with 4. rewrite w32_small, Z.mul_comm by lia.
  eapply said_field; [exact Hl|solve [lit_in]|solve [lit_in]|unfold u32; lia|exact H|]; clear H; intros ? H; cbn beta.
  apply ok_ret. split; [done|]. apply said_text in H; [|done]. cbn [app concat] in H. rewrite app_nil_r in H. exact H.
Qed.
End Reports.

(** ** ls *)

(** An entry of a directory has a name of at most 12 characters. *)
Definition dir_ok (i : fat32_dirinfo_t) : Prop :=
  nul_free (d_name i) ∧ Forall u8 (d_name i) ∧ (length (d_name i) <= 12)%nat ∧ u32 (d_size i) ∧ u8 (is_directory i).

Lemma dir_ok_length l : Forall dir_ok l → Forall (λ i, (length (d_name i) <= 12)%nat) l.
Proof. intros H. eapply Forall_impl; [exact H|]. by intros i (_ & _ & ? & _). Qed.

Definition dirinfo_at (m : mem) (a : Z) (i : fat32_dirinfo_t) : Prop :=
  str_at m a (d_name i) ∧ load32 m (a + 16) = d_size i ∧ load8 m (a + 20) = is_directory i.

(** *** The entries in memory *)

Lemma store_dirinfo_at m a i : dir_ok i → addr_ok a 24 → dirinfo_at (store_dirinfo m a i) a i.
Proof.
  intros (Hn & HF & Hl & Hsz & Hd) Ha. unfold dirinfo_at, store_dirinfo, addr_ok, u32, u8 in *. split_and!.
  - eapply str_at_ext; [|apply (store_str_at m a (d_name i) Hn HF); unfold addr_ok; lia].
    intros b Hb. rewrite load8_store8_far, load8_store32_far by (unfold addr_ok; lia). done.
  - erewrite load32_ext; [rewrite load32_store32_eq by (unfold addr_ok; lia); apply w32_small; lia|].
    intros b Hb. apply load8_store8_far; unfold addr_ok; lia.
  - rewrite load8_store8_eq. by apply w8_small.
Qed.
Lemma dirinfo_at_ext m m' a i : dir_ok i → (∀ b, span a 24 b → load8 m' b = load8 m b) →
  dirinfo_at m a i → dirinfo_at m' a i.
Proof.
  intros (_ & _ & Hl & _) Hm (Hs & H32 & H8). split_and!.
  - eapply str_at_ext; [|exact Hs]. intros b Hb. apply Hm. unfold span. lia.
  - rewrite <-H32. apply load32_ext. intros b Hb. apply Hm. unfold span. lia.
  - rewrite <-H8. apply Hm. unfold span. lia.
Qed.
Lemma store_dirinfos_at l : ∀ m a, Forall dir_ok l → addr_ok a (24 * Z.of_nat (length l)) →
  ∀ k i, l !! k = Some i → dirinfo_at (store_dirinfos m a l) (a + 24 * Z.of_nat k) i.
Proof.
  induction l as [|j l IH]; intros m a HF Ha k i Hk; [done|]. inversion_clear HF as [|? ? Hj HF'].
  cbn [store_dirinfos length] in *. unfold sizeof_dirinfo, addr_ok in *. destruct k as [|k].
  - injection Hk as ->. rewrite Z.add_0_r. eapply (dirinfo_at_ext (store_dirinfo m a i)); [done| |apply store_dirinfo_at; [done|unfold addr_ok; lia]].
    intros b Hb. unfold span in Hb. apply store_dirinfos_far; [by apply dir_ok_length|unfold addr_ok, span; lia..].
  - replace (a + 24 * Z.of_nat (S k)) with (a + 24 + 24 * Z.of_nat k) by lia. apply IH; [done|unfold addr_ok; lia|done].
Qed.

Section Ls.
Context (o : system) (lit : list Z → Z) (entries tmp buf : Z).
#[local] Notation ok := (ok (M := os_machine o)).
Definition ls_bytes (a : Z) : Prop := num_bytes tmp buf a ∨ span entries (24 * 64) a.
#[local] Notation P := ls_bytes.

(** The frame of [main]: the entries, apart from the buffers of numbers. *)
Record ls_frame : Prop := {
  lf_num : num_frame tmp buf;
  lf_entries : user entries (24 * 64) ∧ entries mod 4 = 0;
  lf_tmp : apart entries (24 * 64) tmp 10;
  lf_buf : apart entries (24 * 64) buf 11
}.
Context (Hf : ls_frame) (Hsl : (16 < o_slen o)%nat).

Definition ls_lits : list (list Z) :=
  [line "Directory listing:"; rule; line "Name            Type    Size"; line "Error: Failed to read directory";
   line "(empty directory)"; [32]; chars "<DIR>   "; chars "<FILE>  "; line " bytes"; chars "Total entries: "; [10]].
Definition pad (s : list Z) : list Z := s ++ replicate (16 - length s) 32.
Definition ls_line (i : fat32_dirinfo_t) : list Z :=
  pad (d_name i) ++ (if c_true (is_directory i) then chars "<DIR>   " else chars "<FILE>  ") ++
  num_text (d_size i) ++ line " bytes".
Definition ls_header : list Z := line "Directory listing:" ++ rule ++ line "Name            Type    Size" ++ rule.
Definition ls_text (l : list fat32_dirinfo_t) : list Z :=
  ls_header ++
  if decide (l = []) then line "(empty directory)"
  else concat (ls_line <$> l) ++ rule ++ chars "Total entries: " ++ num_text (Z.of_nat (length l)) ++ [10].

(** *** Printing an entry *)

Lemma ok_strlen a s n : ∀ pre v, s = pre ++ n → str_at (v_mem v) a s → user a (Z.of_nat (length s) + 1) →
  ok (ITree.iter (λ len, c ← ld8 (a + len); mret (if negb (c =? 0) then inl (len + 1) else inr len)) (Z.of_nat (length pre))) v
    (λ len v', len = Z.of_nat (length s) ∧ v' = v).
Proof.
  induction n as [|c n IH]; intros pre v E Hs Hu; pose proof Hs as Hd; rewrite E in Hd; apply str_at_drop in Hd;
    pose proof (f_equal length E) as El; rewrite length_app in El; cbn in El, Hd; unfold user in *.
  - eapply (ok_iter _ _ _ (λ x w, x = inr (Z.of_nat (length pre)) ∧ w = v)).
    + apply do_ld8; [unfold user; lia|]. rewrite Hd. by apply ok_ret.
    + intros _ _ [-> ->]. split; [lia|done].
  - destruct Hd as (Hc & Hl & _). eapply (ok_iter _ _ _ (λ x w, x = inl (Z.of_nat (length pre) + 1) ∧ w = v)).
    + apply do_ld8; [unfold user; lia|]. rewrite Hl, (proj2 (Z.eqb_neq c 0) Hc). by apply ok_ret.
    + intros _ _ [-> ->]. replace (Z.of_nat (length pre) + 1) with (Z.of_nat (length (pre ++ [c]))) by (rewrite length_app; cbn; lia).
      apply IH; [by rewrite <-app_assoc|done|unfold user; lia].
Qed.

Lemma ok_spaces n : ∀ i v0 ts v,
  n = (16 - i)%nat → literals o lit P ls_lits (v_mem v0) → said P v0 ts v →
  ok (ITree.iter (λ i, if i <? 16 then print (lit [32]);; mret (inl (i + 1)) else mret (inr tt)) (Z.of_nat i)) v
    (λ _ v', said P v0 (ts ++ replicate n [32]) v' ∧ v_mem v' = v_mem v).
Proof.
  induction n as [|n IH]; intros i v0 ts v En Hl H.
  - eapply (ok_iter _ _ _ (λ x w, x = inr tt ∧ w = v)).
    + destruct (Z.ltb_spec (Z.of_nat i) 16); [lia|]. by apply ok_ret.
    + intros _ _ [-> ->]. rewrite app_nil_r. done.
  - eapply (ok_iter _ _ _ (λ x w, x = inl (Z.of_nat i + 1) ∧ said P v0 (ts ++ [[32]]) w ∧ v_mem w = v_mem v)).
    + destruct (Z.ltb_spec (Z.of_nat i) 16); [|lia]. eapply said_lit; [exact Hl|solve [lit_in]|exact H|].
      intros v' H' Hm. by apply ok_ret.
    + intros _ w (-> & H' & Hm). replace (Z.of_nat i + 1) with (Z.of_nat (S i)) by lia.
      eapply ok_mono; [apply (IH (S i) v0 (ts ++ [[32]]) w); [lia|done|done]|].
      intros _ w' [Hw' Hm']. rewrite <-app_assoc in Hw'. split; [exact Hw'|congruence].
Qed.

Lemma concat_spaces n : concat (replicate n [32]) = replicate n 32.
Proof. induction n as [|n IH]; cbn; [done|]. by rewrite IH. Qed.

Lemma ok_padded a s v0 ts v :
  literals o lit P ls_lits (v_mem v0) → said P v0 ts v → str_at (v_mem v) a s → user a (Z.of_nat (length s) + 1) →
  (length s < o_slen o)%nat →
  ok (print_padded lit a 16) v (λ _ v', said P v0 (ts ++ [pad s]) v' ∧ v_mem v' = v_mem v).
Proof.
  intros Hl H Hs Hu Hlen. unfold print_padded. eapply ok_bind; [by apply (ok_strlen a s s [] v)|]. intros _ _ [-> ->].
  eapply do_print; [done..|].
  eapply ok_mono; [apply (ok_spaces (16 - length s) (length s) v0 (ts ++ [s])); [done|done|by apply said_say]|].
  intros _ w [Hw Hm]. split; [|exact Hm]. rewrite <-app_assoc in Hw. apply said_merge in Hw; [|done].
  cbn [app concat] in Hw. by rewrite concat_spaces in Hw.
Qed.

Lemma said_entry {A} (k : Z → prog A) e i v0 ts v Q :
  literals o lit P ls_lits (v_mem v0) → said P v0 ts v → dirinfo_at (v_mem v) e i → dir_ok i → user e 24 → e mod 4 = 0 →
  (∀ v', said P v0 (ts ++ [ls_line i]) v' → same_but (num_bytes tmp buf) (v_mem v) (v_mem v') → ok (k 0) v' Q) →
  ok (ls_entry lit tmp buf e ≫= k) v Q.
Proof using Hf Hsl.
  intros Hl H (Hs & H32 & H8) (_ & _ & Hlen & Hsz & _) Hu Hal Hk. unfold user in Hu.
  apply (ok_bind _ _ _ (λ x w, x = 0 ∧ said P v0 (ts ++ [ls_line i]) w ∧ same_but (num_bytes tmp buf) (v_mem v) (v_mem w)));
    [|intros _ w (-> & Hw & Hm); by apply Hk].
  unfold ls_entry. eapply ok_bind; [apply (ok_padded e (d_name i) v0 ts v); [done..|unfold user; lia|lia]|].
  clear H. intros _ v1 [H Hm1]. apply do_ld8; [unfold user; lia|]. rewrite Hm1, H8.
  eapply (ok_bind _ _ _ (λ _ w, said P v0 ((ts ++ [pad (d_name i)]) ++ [if c_true (is_directory i) then chars "<DIR>   " else chars "<FILE>  "]) w ∧ v_mem w = v_mem v)).
  { destruct (c_true (is_directory i));
      [destruct (lit_after _ _ _ _ _ _ _ (chars "<DIR>   ") Hl ltac:(lit_in) H) as (Hu' & Hl' & Hs' & _)
      |destruct (lit_after _ _ _ _ _ _ _ (chars "<FILE>  ") Hl ltac:(lit_in) H) as (Hu' & Hl' & Hs' & _)];
      (eapply ok_print; [exact Hs'|exact Hu'|exact Hl'|]; split; [by apply said_say|exact Hm1]). }
  clear H. intros _ v2 [H Hm2]. apply do_ld32; [unfold user; lia|zdm|]. rewrite Hm2, H32. eapply said_num; [exact Hsz|apply Hf|lia| |exact H|]; [by left|]. clear H. intros v3 H Hm3.
  destruct (lit_after _ _ _ _ _ _ _ (line " bytes") Hl ltac:(lit_in) H) as (Hu' & Hl' & Hs' & _).
  eapply ok_print; [exact Hs'|exact Hu'|exact Hl'|]. split_and!; [done| |by rewrite Hm2 in Hm3].
  apply (said_say _ _ _ _ (line " bytes")) in H. rewrite <-!app_assoc in H. apply said_merge in H; [|done].
  cbn [app concat] in H. rewrite app_nil_r in H. exact H.
Qed.

(** *** The listing *)

Lemma ok_entries l n : ∀ pre v0 ts v,
  l = pre ++ n → (length l <= 64)%nat → Forall dir_ok l → literals o lit P ls_lits (v_mem v0) → said P v0 ts v →
  (∀ k i, l !! k = Some i → dirinfo_at (v_mem v) (entries + 24 * Z.of_nat k) i) →
  ok (ITree.iter (λ i,
        if i <? Z.of_nat (length l) then
          ls_entry lit tmp buf (entries + sizeof_dirinfo * i);;
          mret (inl (i + 1))
        else mret (inr tt)) (Z.of_nat (length pre))) v
    (λ _ v', said P v0 (ts ++ (ls_line <$> n)) v').
Proof using Hf Hsl.
  induction n as [|i n IH]; intros pre v0 ts v E H64 HF Hl H Hat; pose proof (f_equal length E) as El;
    rewrite length_app in El; cbn in El.
  - eapply (ok_iter _ _ _ (λ x w, x = inr tt ∧ w = v)).
    + destruct (Z.ltb_spec (Z.of_nat (length pre)) (Z.of_nat (length l))); [lia|]. by apply ok_ret.
    + intros _ _ [-> ->]. by rewrite app_nil_r.
  - assert (l !! length pre = Some i) as Hi by (rewrite E, lookup_app_r, Nat.sub_diag by lia; done).
    destruct Hf as [_ [Hue Hal] Hat' Hab]. unfold user, apart in *. change sizeof_dirinfo with 24.
    eapply (ok_iter _ _ _ (λ x w, x = inl (Z.of_nat (length pre) + 1) ∧ said P v0 (ts ++ [ls_line i]) w ∧
      same_but (num_bytes tmp buf) (v_mem v) (v_mem w))).
    + destruct (Z.ltb_spec (Z.of_nat (length pre)) (Z.of_nat (length l))); [|lia].
      eapply said_entry; [exact Hl|exact H|by apply Hat|by eapply Forall_lookup_1|unfold user; lia|zdm|].
      intros w Hw Hm. by apply ok_ret.
    + intros _ w (-> & Hw & Hm). replace (Z.of_nat (length pre) + 1) with (Z.of_nat (length (pre ++ [i]))) by (rewrite length_app; cbn; lia).
      eapply ok_mono; [apply (IH (pre ++ [i]) v0 (ts ++ [ls_line i]) w); [by rewrite <-app_assoc|done..|]|].
      * intros k j Hk. pose proof (lookup_lt_Some _ _ _ Hk). eapply dirinfo_at_ext; [by eapply Forall_lookup_1| |by apply Hat].
        intros b Hb. unfold span in Hb. apply Hm; [unfold user; lia|]. unfold num_bytes, span. lia.
      * intros ? w' Hw'. by rewrite <-app_assoc in Hw'.
Qed.

Lemma do_list_dir {A} (k : Z → prog A) v Q :
  let l := take 64 (o_dir o) in
  ok (k (Z.of_nat (length l))) (set_mem v (store_dirinfos (v_mem v) entries l)) Q → ok (list_dir entries 64 ≫= k) v Q.
Proof using Hf.
  clear Hsl. intros l Hk. destruct Hf as [_ [Hue _] _ _]. assert (length l <= 64)%nat by (unfold l; rewrite length_take; lia).
  eapply (ok_bind _ _ _ (λ x w, x = Z.of_nat (length l) ∧ w = set_mem v (store_dirinfos (v_mem v) entries l)));
    [|by intros _ _ [-> ->]].
  eapply ok_event.
  - cbn. unfold os_call. cbn [Z.eqb Pos.eqb SYSCALL_LIST_DIR SYSCALL_PRINT SYSCALL_EXIT SYSCALL_FILE_OPEN SYSCALL_FILE_READ SYSCALL_FILE_CLOSE].
    destruct (Z.eqb_spec entries 0); [unfold user in Hue; lia|]. cbn [orb].
    rewrite in_user_true by (unfold sizeof_dirinfo; exact Hue). reflexivity.
  - apply ok_ret. split; [|done]. unfold s32. change (Z.to_nat 64) with 64%nat. fold l. rewrite w32_small by lia. bcase; lia.
Qed.

Lemma ls_prints v :
  Forall dir_ok (o_dir o) → literals o lit P ls_lits (v_mem v) →
  prints o P (ls_main lit entries tmp buf) v 0 (ls_text (take 64 (o_dir o))).
Proof using Hf Hsl.
  intros HF Hl. unfold prints, ls_main, ls_text. pose proof (said_refl P v) as H. do 4 say_lit H.
  apply do_list_dir. set (l := take 64 (o_dir o)). assert (length l <= 64)%nat as H64 by (unfold l; rewrite length_take; lia).
  assert (Forall dir_ok l) as HFl by (by apply Forall_take). pose proof (lf_entries Hf) as [Hue _]. unfold user in Hue.
  match type of H with said _ _ ?ts ?w => rename w into v1;
    assert (said P v ts (set_mem v1 (store_dirinfos (v_mem v1) entries l))) as H' end.
  { eapply said_mem; [exact H|]. intros a Ha HP. apply store_dirinfos_far; [by apply dir_ok_length|unfold addr_ok, user in *; lia..|].
    intros Hs. apply HP. right. unfold span in *. lia. }
  pose proof (store_dirinfos_at l (v_mem v1) entries HFl ltac:(unfold addr_ok; lia)) as Hat.
  destruct (Z.ltb_spec (Z.of_nat (length l)) 0); [lia|]. destruct (Z.eqb_spec (Z.of_nat (length l)) 0) as [E0|E0].
  - rewrite decide_True by (destruct l; [done|cbn in E0; lia]). say_lit H'. apply ok_ret. split; [done|].
    apply said_text in H'; [|done]. cbn [app concat] in H'. rewrite app_nil_r in H'. unfold ls_header. by rewrite <-!app_assoc.
  - rewrite decide_False by (intros ->; done).
    eapply ok_bind; [apply (ok_entries l l [] v _ _ eq_refl H64 HFl Hl H' Hat)|].
    clear H'. intros ? w H'. do 2 say_lit H'.
    eapply said_num; [apply w32_range|apply Hf|lia| |exact H'|]; [by left|]. clear H'. intros w' H' _. say_lit H'.
    apply ok_ret. split; [done|]. apply said_text in H'; [|done]. rewrite !concat_app in H'. cbn [app concat] in H'.
    rewrite !app_nil_r, w32_small, <-!app_assoc in H' by lia. unfold ls_header. by rewrite <-!app_assoc.
Qed.
End Ls.

(** ** cat *)

Fixpoint chunks_of (fuel : nat) (n : nat) (l : list Z) : list (list Z) :=
  match fuel, l with
  | S fuel, _ :: _ => take n l :: chunks_of fuel n (drop n l)
  | _, _ => []
  end.
(** The list in pieces of [n]. *)
Definition chunks (n : nat) (l : list Z) : list (list Z) := chunks_of (length l) n l.

Lemma chunks_of_fuel n : (0 < n)%nat → ∀ f g l, (length l <= f)%nat → (length l <= g)%nat → chunks_of f n l = chunks_of g n l.
Proof.
  intros Hn. induction f as [|f IH]; intros g l Hf Hg; destruct l as [|x l]; try (cbn in Hf; lia); [by destruct g..|].
  destruct g as [|g]; [cbn in Hg; lia|]. cbn [chunks_of]. f_equal. apply IH; rewrite length_drop; cbn in *; lia.
Qed.
Lemma chunks_cons n l : (0 < n)%nat → l ≠ [] → chunks n l = take n l :: chunks n (drop n l).
Proof.
  intros Hn Hl. destruct l as [|x l]; [done|]. unfold chunks at 1. cbn [length chunks_of]. f_equal.
  apply chunks_of_fuel; [done| |done]. rewrite length_drop. cbn. lia.
Qed.
Lemma concat_chunks n l : (0 < n)%nat → nul_free l → concat (c_string <$> chunks n l) = l.
Proof.
  intros Hn. unfold chunks. generalize (le_n (length l)). generalize (length l) at 2 3 as f. intros f. revert l.
  induction f as [|f IH]; intros l Hf HF; destruct l as [|x l]; try done; [cbn in Hf; lia|].
  cbn [chunks_of fmap list_fmap concat]. rewrite (c_string_id (take n (x :: l))) by (by apply Forall_take).
  etransitivity; [|apply (take_drop n)]. f_equal. apply IH; [rewrite length_drop; cbn in *; lia|by apply Forall_drop].
Qed.

(** *** File calls *)

Section Files.
Context (o : system).
#[local] Notation ok := (ok (M := os_machine o)).

(** [file_read] of at most [n] bytes into [a]. *)
Lemma do_read {A} (k : Z → prog A) v a n c Q :
  v_open v = Some c → user a (Z.of_nat n) → (n < o_slen o)%nat →
  ok (k (Z.of_nat (length (take n c))))
    (set_open (set_mem v (store_bytes (v_mem v) a (take n c))) (Some (drop n c))) Q →
  ok (file_read a (Z.of_nat n) ≫= k) v Q.
Proof.
  intros Ho Hu Hl Hk. pose proof Hu as Hu'. unfold user in Hu'.
  eapply (ok_bind _ _ _ (λ x w, x = Z.of_nat (length (take n c)) ∧
    w = set_open (set_mem v (store_bytes (v_mem v) a (take n c))) (Some (drop n c)))); [|by intros _ _ [-> ->]].
  eapply ok_event.
  - cbn. unfold os_call. cbn [Z.eqb Pos.eqb SYSCALL_PRINT SYSCALL_EXIT SYSCALL_FILE_OPEN SYSCALL_FILE_READ].
    destruct (Z.eqb_spec a 0); [lia|]. unfold os_read. rewrite Ho, in_user_true by exact Hu.
    destruct (Z.ltb_spec (Z.of_nat n) (Z.of_nat (o_slen o))); [|lia]. cbn [andb]. rewrite Nat2Z.id. reflexivity.
  - apply ok_ret. split; [|done]. unfold s32.
    assert (length (take n c) <= n)%nat by (rewrite length_take; lia). rewrite w32_small by lia. bcase; lia.
Qed.

(** [file_open] of the name at [a]. *)
Lemma ok_open v a s file :
  str_at (v_mem v) a s → user a (Z.of_nat (length s) + 1) → (length s < o_slen o)%nat →
  o_disk o (upper_name s 255) = Some file →
  ok (file_open a) v (λ x w, x = (match file with Some _ => 0 | None => -1 end) ∧ w = set_open v file).
Proof.
  intros Hs Hu Hl Hd. pose proof Hu as Hu'. unfold user in Hu'.
  eapply (ok_event _ _ _ (match file with Some _ => 0 | None => neg 1 end) (set_open v file)); [|by apply ok_ret; destruct file].
  cbn. unfold os_call. cbn [Z.eqb Pos.eqb SYSCALL_PRINT SYSCALL_EXIT SYSCALL_FILE_OPEN].
  destruct (Z.eqb_spec a 0); [lia|]. rewrite (user_string_at o _ _ s) by (done || unfold user; lia).
  cbn [mbind option_bind]. by rewrite Hd.
Qed.
Lemma do_open {A} (k : Z → prog A) v a s file Q :
  str_at (v_mem v) a s → user a (Z.of_nat (length s) + 1) → (length s < o_slen o)%nat →
  o_disk o (upper_name s 255) = Some file →
  ok (k (match file with Some _ => 0 | None => -1 end)) (set_open v file) Q → ok (file_open a ≫= k) v Q.
Proof. intros Hs Hu Hl Hd Hk. eapply ok_bind; [by eapply ok_open|]. by intros _ _ [-> ->]. Qed.

Lemma do_close {A} (k : Z → prog A) v c Q :
  v_open v = Some c → ok (k 0) (set_open v None) Q → ok (file_close ≫= k) v Q.
Proof.
  intros Ho Hk. eapply (ok_bind _ _ _ (λ x w, x = 0 ∧ w = set_open v None)); [|by intros _ _ [-> ->]].
  eapply (ok_event _ _ _ 0 (set_open v None)); [|by apply ok_ret]. cbn. unfold os_call. cbn. by rewrite Ho.
Qed.
End Files.

Section Cat.
Context (o : system) (lit : list Z → Z) (buffer filename : Z).
#[local] Notation ok := (ok (M := os_machine o)).
Definition cat_bytes (a : Z) : Prop := span buffer 1024 a ∨ span filename 64 a.
#[local] Notation P := cat_bytes.
Record cat_frame : Prop := {
  cf_buffer : user buffer 1024;
  cf_filename : user filename 64;
  cf_apart : apart buffer 1024 filename 64
}.
Context (Hf : cat_frame) (Hsl : (1023 < o_slen o)%nat).

Definition cat_lits : list (list Z) :=
  [line "Usage: cat <filename>"; line "Error: Failed to get filename argument"; chars "cat: "; line ": No such file";
   line "cat: Error reading file"].

Lemma do_file_read {A} (k : Z → prog A) v c Q :
  v_open v = Some c →
  ok (k (Z.of_nat (length (take 1023 c))))
    (set_open (set_mem v (store_bytes (v_mem v) buffer (take 1023 c))) (Some (drop 1023 c))) Q →
  ok (file_read buffer (1024 - 1) ≫= k) v Q.
Proof using Hf Hsl.
  intros Ho Hk. pose proof (cf_buffer Hf) as Hu. unfold user in Hu. change (1024 - 1) with (Z.of_nat 1023).
  apply (do_read o k v buffer 1023 c Q); [exact Ho|unfold user; lia|lia|exact Hk].
Qed.

(** The loop prints what is left of the file. *)
Lemma ok_cat_loop n : ∀ c v0 ts v,
  length c = n → Forall u8 c → said P (set_open v0 (Some c)) ts v →
  ok (cat_loop lit buffer) v (λ r v', r = None ∧ said P (set_open v0 (Some [])) (ts ++ (c_string <$> chunks 1023 c)) v').
Proof using Hf Hsl.
  induction (lt_wf n) as [n _ IH]. intros c v0 ts v Hn HF H. pose proof (cf_buffer Hf) as Hu. unfold user in Hu.
  assert (v_open v = Some c) as Ho by (destruct H as [_ ->]; done).
  destruct (decide (c = [])) as [->|Hc].
  { eapply (ok_iter _ _ _ (λ x w, x = inr None ∧ said P (set_open v0 (Some [])) ts w)).
    - eapply do_file_read; [exact Ho|]. cbn. apply ok_ret. split; [done|]. destruct H as [Hs ->]. by split.
    - intros _ w [-> Hw]. cbn. by rewrite app_nil_r. }
  set (p := take 1023 c) in *. assert (0 < length p <= 1023)%nat as Hp.
  { unfold p. rewrite length_take. destruct c; [done|]. cbn [length]. lia. }
  set (m := store8 (store_bytes (v_mem v) buffer p) (buffer + Z.of_nat (length p)) 0).
  assert (str_at m buffer (c_string p)) as Hstr.
  { apply str_at_c_string.
    - eapply bytes_at_ext; [|apply (store_bytes_at (v_mem v) buffer p); [by apply Forall_take|unfold addr_ok; lia]].
      intros b Hb. unfold span in Hb. apply load8_store8_far; unfold addr_ok; lia.
    - unfold m. apply load8_store8_eq. }
  assert (length (c_string p) <= length p)%nat as Hlp.
  { clear. induction p as [|x p IH]; cbn; [lia|]. destruct (x =? 0); cbn; lia. }
  eapply (ok_iter _ _ _ (λ x w, x = inl tt ∧ said P (set_open v0 (Some (drop 1023 c))) (ts ++ [c_string p]) w)).
  - eapply do_file_read; [exact Ho|]. fold p. destruct (Z.ltb_spec (Z.of_nat (length p)) 0); [lia|].
    destruct (Z.eqb_spec (Z.of_nat (length p)) 0); [lia|]. apply do_st8; [unfold user; lia|].
    eapply do_print; [exact Hstr|unfold user; lia|lia|]. apply ok_ret. split; [done|]. apply said_say.
    destruct H as [Hs ->]. split; [|done]. cbn. eapply same_but_trans; [exact Hs|]. intros a Ha HP.
    unfold m, user, cat_bytes, span in *.
    rewrite load8_store8_far, load8_store_bytes by (unfold addr_ok; lia). by rewrite decide_False by lia.
  - intros _ w [-> Hw]. rewrite chunks_cons by (done || lia). cbn [fmap list_fmap]. fold p.
    eapply ok_mono; [apply (IH (length (drop 1023 c))) with (ts := ts ++ [c_string p]) (v0 := v0); [|done|by apply Forall_drop|exact Hw]|].
    + rewrite length_drop. unfold p in Hp. rewrite length_take in Hp. lia.
    + intros r w' [-> Hw']. split; [done|]. by rewrite <-app_assoc in Hw'.
Qed.

(** *** The calls before the loop *)

Definition args_ok (a : program_args_t) : Prop := 0 <= count a < 2147483648 ∧ Forall (Forall u8) (args a).
(** The name [main] gets: the first argument, cut to the buffer. *)
Definition cat_name (v : view) : list Z := take 63 (c_string (nthZ [] (args (v_args v)) 0)).

Lemma do_get_argc {A} (k : Z → prog A) v Q : args_ok (v_args v) → ok (k (count (v_args v))) v Q → ok (get_argc ≫= k) v Q.
Proof.
  clear Hsl Hf. intros [Hc _] Hk. eapply (ok_bind _ _ _ (λ x w, x = count (v_args v) ∧ w = v)); [|by intros _ _ [-> ->]].
  eapply ok_event; [reflexivity|]. apply ok_ret. split; [|done]. unfold s32. rewrite w32_idemp, w32_small by lia. bcase; lia.
Qed.
Lemma do_get_arg {A} (k : Z → prog A) v Q :
  args_ok (v_args v) → 0 < count (v_args v) →
  (∀ m, str_at m filename (cat_name v) → same_but (span filename 64) (v_mem v) m → ok (k 0) (set_mem v m) Q) →
  ok (get_arg 0 filename 64 ≫= k) v Q.
Proof using Hf.
  clear Hsl. intros [Hc HF] Hc0 Hk. pose proof (cf_filename Hf) as Hu. unfold user in Hu.
  set (arg := nthZ [] (args (v_args v)) 0). set (m := store_arg (v_mem v) filename arg 63).
  assert (length (cat_name v) <= 63)%nat as Hl by (unfold cat_name; rewrite length_take; lia).
  assert (∀ b, addr_ok b 1 → load8 m b = if decide (filename <= b < filename + Z.of_nat (length (cat_name v)))
    then w8 (nthZ 0 (cat_name v) (b - filename))
    else if decide (b = filename + Z.of_nat (length (cat_name v))) then 0 else load8 (v_mem v) b) as Hm
    by (apply store_arg_spec; unfold addr_ok; lia).
  eapply (ok_bind _ _ _ (λ x w, x = 0 ∧ w = set_mem v m)); [|intros _ _ [-> ->]; apply Hk].
  - eapply (ok_event _ _ _ 0 (set_mem v m)); [|by apply ok_ret]. cbn. unfold os_call.
    cbn [Z.eqb Pos.eqb SYSCALL_PRINT SYSCALL_EXIT SYSCALL_FILE_OPEN SYSCALL_FILE_READ SYSCALL_FILE_CLOSE SYSCALL_LIST_DIR SYSCALL_GET_ARGS].
    unfold os_args. change (s32 (w32 0)) with 0. cbn [Z.eqb Z.ltb Z.compare].
    destruct (Z.eqb_spec filename 0); [lia|]. destruct (Z.leb_spec (count (v_args v)) 0); [lia|]. cbn [orb].
    by rewrite in_user_true by (unfold user; lia).
  - apply str_at_bytes; [| |apply Forall_take, c_string_nonzero].
    + intros i Hi. rewrite Hm by (unfold addr_ok; lia). rewrite decide_True by lia. replace (filename + i - filename) with i by lia.
      apply w8_small. apply (nthZ_Forall u8); [|unfold u8; lia]. apply Forall_take.
      assert (Forall u8 arg) as Ha by (apply (nthZ_Forall (Forall u8)); [done|constructor]).
      fold arg. clear -Ha. induction Ha as [|x l Hx Hl IH]; cbn; [constructor|]. destruct (x =? 0); [constructor|by constructor].
    + rewrite Hm by (unfold addr_ok; lia). by rewrite decide_False, decide_True by lia.
  - intros a Ha HP. unfold user, span in *. rewrite Hm by (unfold addr_ok; lia). by rewrite !decide_False by lia.
Qed.

Definition no_file_text (name : list Z) : list Z := chars "cat: " ++ name ++ line ": No such file".

Lemma cat_spec v :
  args_ok (v_args v) → literals o lit P cat_lits (v_mem v) →
  if count (v_args v) <? 1 then prints o P (cat_main lit buffer filename) v 1 (line "Usage: cat <filename>")
  else
    match o_disk o (upper_name (cat_name v) 255) with
    | None => True
    | Some None => ok (cat_main lit buffer filename) v (λ r v',
        r = 1 ∧ said P (set_open v None) [no_file_text (cat_name v)] v')
    | Some (Some c) => Forall u8 c → ok (cat_main lit buffer filename) v (λ r v',
        r = 0 ∧ said P (set_open v None) (c_string <$> chunks 1023 c) v')
    end.
Proof using Hf Hsl.
  intros Ha Hl. destruct (Z.ltb_spec (count (v_args v)) 1) as [Hc|Hc].
  { unfold prints, cat_main. apply do_get_argc; [done|]. rewrite (proj2 (Z.ltb_lt _ _) Hc).
    pose proof (said_refl P v) as H. say_lit H. by apply ok_ret. }
  destruct (o_disk o (upper_name (cat_name v) 255)) as [file|] eqn:Hd; [|done].
  assert (length (cat_name v) <= 63)%nat as Hln by (unfold cat_name; rewrite length_take; lia).
  assert (∀ k Q, (∀ m, str_at m filename (cat_name v) → said P (set_open v file) [] (set_open (set_mem v m) file) →
    ok (k (match file with Some _ => 0 | None => -1 end)) (set_open (set_mem v m) file) Q) →
    ok (argc ← get_argc; if argc <? 1 then print (lit (line "Usage: cat <filename>"));; mret 1 else
        r ← get_arg 0 filename 64;
        if negb (r =? 0) then print (lit (line "Error: Failed to get filename argument"));; mret 1
        else file_open filename ≫= k) v Q) as Hpre.
  { intros k Q Hk. apply do_get_argc; [done|]. rewrite (proj2 (Z.ltb_ge _ _) Hc). apply do_get_arg; [done|lia|].
    intros m Hs Hm. cbn [Z.eqb negb]. pose proof (cf_filename Hf) as Hu. unfold user in Hu.
    eapply (do_open _ _ _ _ (cat_name v) file); [exact Hs|unfold user; lia|lia|exact Hd|]. apply Hk; [exact Hs|].
    split; [|done]. cbn. eapply same_but_mono; [|exact Hm]. by right. }
  unfold cat_main. destruct file as [c|]; [intros HF|]; apply Hpre; intros m Hs H; cbn [Z.eqb negb].
  - eapply ok_bind; [eapply (ok_cat_loop (length c) c v []); done|]. intros _ w [-> Hw].
    assert (v_open w = Some []) as Ho by (destruct Hw as [_ ->]; done).
    eapply do_close; [exact Ho|]. apply ok_ret. split; [done|]. destruct Hw as [Hsm ->]. by split.
  - change (v_mem v) with (v_mem (set_open v None)) in Hl. say_lit H. eapply do_print.
    + eapply str_at_ext; [|exact Hs]. intros b _. by rewrite H0.
    + pose proof (cf_filename Hf). unfold user in *. lia.
    + lia.
    + apply (said_say _ _ _ _ (cat_name v)) in H. say_lit H. apply ok_ret. split; [done|].
      apply said_text in H; [|done]. cbn [app concat] in H. rewrite app_nil_r in H. exact H.
Qed.
End Cat.

(** ** Page faults: ring3 and pftest *)

(** The program is stopped by a page fault, with the screen in [Q]. *)
Definition halts {A} (o : system) (t : prog A) (v : view) (Q : list event → Prop) : Prop :=
  ∃ v', runs (M := os_machine o) t v (Halted v') ∧ Q (v_out v').

Lemma halts_bind {A B} o (t : prog A) (k : A → prog B) v P Q :
  ok (M := os_machine o) t v P → (∀ a v', P a v' → halts o (k a) v' Q) → halts o (t ≫= k) v Q.
Proof.
  intros (a & v1 & Hr & Hp) Hk. destruct (Hk a v1 Hp) as (v' & Hr' & Hq). exists v'. split; [|exact Hq].
  by eapply runs_bind.
Qed.
Lemma halts_event {T B} o (e : userE T) (k : T → prog B) v v' (Q : list event → Prop) :
  os_step o T e v = Some (Halted v') → Q (v_out v') → halts o (ITree.trigger e ≫= k) v Q.
Proof.
  intros E HQ. exists v'. split; [|exact HQ]. apply (runs_bind_stop _ k _ (Halted v')). by apply runs_trigger.
Qed.

Section Faults.
Context (o : system) (lit : list Z → Z) (tmp buf : Z) (Hf : num_frame tmp buf) (Hsl : (10 < o_slen o)%nat).
#[local] Notation P := (num_bytes tmp buf).

Definition pftest_text : list Z := line "Triggering page fault (writing to 0x2000000 = 32MB)...".
Definition ring3_lits : list (list Z) :=
  [line "Running in ring 3 (user mode)" ++ [10]; line "Test 1: Syscalls work from ring 3"; line "  print() via int 0x80: OK";
   [10] ++ line "Test 2: Reading uptime via syscall"; chars "  Uptime: "; line "s OK";
   [10] ++ line "Test 3: Attempting to read kernel memory (0x1000)..."; line "  This should cause a page fault:"].
Definition ring3_text (ms : Z) : list Z :=
  line "Running in ring 3 (user mode)" ++ [10] ++ line "Test 1: Syscalls work from ring 3" ++
  line "  print() via int 0x80: OK" ++ [10] ++ line "Test 2: Reading uptime via syscall" ++
  chars "  Uptime: " ++ num_text (ms / 1000) ++ line "s OK" ++
  [10] ++ line "Test 3: Attempting to read kernel memory (0x1000)..." ++ line "  This should cause a page fault:".

(** [pftest] writes to a page that is not mapped. *)
Lemma pftest_halts v :
  literals o lit (λ _, False) [pftest_text] (v_mem v) →
  halts o (pftest_main lit) v (λ out, out = Fault 0x2000000 6 :: add_text pftest_text (v_out v)).
Proof.
  intros Hl. apply Forall_cons in Hl as [(Hu & Hlen & Hs & _) _].
  eapply halts_bind; [eapply (ok_print o v _ _ (λ _ w, w = say v pftest_text)); done|]. intros _ _ ->.
  eapply halts_event; reflexivity.
Qed.

Lemma ok_ring3_num n v : u32 n →
  ok (M := os_machine o) (ring3_num tmp buf n) v (λ _ v',
    ∃ m, v' = set_mem v m ∧ str_at m buf (num_text n) ∧ same_but P (v_mem v) m).
Proof using Hf.
  clear Hsl. intros Hn. unfold ring3_num, num_text. destruct (Z.eqb_spec n 0) as [->|Hne].
  - pose proof Hf as (Ht & _ & _). unfold user in Ht.
    eapply (ok_bind _ _ _ (λ i w, i = 1 ∧ w = set_mem v (store8 (v_mem v) tmp 48))).
    { apply do_st8; [unfold user; lia|]. by apply ok_ret. }
    intros _ _ [-> ->]. eapply ok_mono; [apply (ok_digits o 0 tmp buf 0 [48]); [cbn; lia|cbn; lia|done| |by repeat constructor]|].
    + intros i Hi. cbn in Hi. assert (i = 0) as -> by lia. rewrite Z.add_0_r. cbn. by rewrite load8_store8_eq.
    + intros _ w (m & -> & Hs & Hm). exists m. split_and!; [done|exact Hs|]. eapply same_but_trans; [|exact Hm].
      eapply same_but_mono; [|apply same_but_store8; unfold user; lia]. unfold num_bytes, span. intros a; lia.
  - eapply (ok_bind _ _ _ (λ i w, i = 0 ∧ w = v)); [by apply ok_ret|]. intros _ _ [-> ->].
    change 16%nat with (10 + 6)%nat. unfold u32 in Hn. rewrite digits_more by (cbn; lia).
    apply (ok_digits o 10 tmp buf n []); [cbn; lia|cbn; lia|done|intros i; cbn; lia|constructor].
Qed.

(** [ring3] reads a page of the kernel. *)
Lemma ring3_halts v :
  literals o lit P ring3_lits (v_mem v) →
  halts o (ring3_main lit tmp buf) v (λ out,
    out = Fault 0x1000 5 :: add_text (ring3_text (get_uptime_ms (v_ticks v))) (v_out v)).
Proof using Hf Hsl.
  intros Hl. set (ms := get_uptime_ms (v_ticks v)).
  eapply (halts_bind _ _ _ _ (λ _ w, said P v [ring3_text ms] w)).
  - unfold ring3_start. pose proof (said_refl P v) as H. do 4 say_lit H.
    eapply ok_event; [reflexivity|]. destruct Hf as (_ & Hb & _).
    match goal with |- ok (ring3_num _ _ ?x ≫= _) ?w _ => assert (x = ms / 1000) as -> by (destruct H as [_ ->]; reflexivity) end.
    assert (u32 (ms / 1000)) as Hu by (apply u32_div; [apply w32_range|lia]).
    eapply ok_bind; [by apply ok_ring3_num|]. intros _ w (m & -> & Hs & Hm).
    apply (said_mem _ _ _ _ m) in H; [|exact Hm]. destruct (num_text_spec _ Hu) as (_ & Hlen & _). unfold user in Hb.
    say_lit H. eapply (do_print _ _ _ _ (num_text (ms / 1000))); [|unfold user; lia|lia|].
    { match goal with E : v_mem _ = v_mem (set_mem _ m) |- _ => rewrite E end. exact Hs. }
    apply (said_say _ _ _ _ (num_text (ms / 1000))) in H. do 2 say_lit H.
    destruct (lit_after _ _ _ _ _ _ _ (line "  This should cause a page fault:") Hl ltac:(lit_in) H) as (Hu1 & Hl1 & Hs1 & _).
    eapply ok_print; [exact Hs1|exact Hu1|exact Hl1|]. apply (said_say _ _ _ _ (line "  This should cause a page fault:")) in H.
    apply said_text in H; [|done]. cbn [app concat] in H. rewrite app_nil_r, <-app_assoc in H. exact H.
  - intros _ w [_ ->]. eapply halts_event; reflexivity.
Qed.
End Faults.
