(* ===== verification/UserTests.v ===== *)
(** * User programs: the small ones and the tests of the file system

    hello.c, print.c and count.c, and the two programs of userspace/tests/,
    which open a file of the disk and report on it. *)

From Stdlib Require Import String.
From ITree Require Import ITree.
From S2P Require Import Prelude Mem Args Fat32 Fat32List Heap Idt Syscall User UserRun UserOs UserProps UserPrograms.

(** ** tests/casetest.c, tests/filetest.c *)

Section Tests.
Context (lit : list Z → Z).

(** The first test, with a look at the contents. *)
Definition case_read (buf : Z) : prog unit :=
  r ← file_open (lit (chars "hello.txt"));
  if r =? 0 then
    print (lit (line "   SUCCESS: Opened HELLO.TXT"));;
    bytes ← file_read buf (64 - 1);
    (if 0 <? bytes then
       st8 (buf + bytes) 0;;
       print (lit (chars "   Content: "));;
       print buf;;
       mret tt
     else mret tt);;
    file_close;;
    mret tt
  else
    print (lit (line "   FAILED"));;
    mret tt.

(** The other two. *)
Definition case_try (name : list Z) : prog unit :=
  r ← file_open (lit name);
  if r =? 0 then
    print (lit (line "   SUCCESS: Opened HELLO.TXT"));;
    file_close;;
    mret tt
  else
    print (lit (line "   FAILED"));;
    mret tt.

Definition casetest_main (buf : Z) : prog Z :=
  print (lit (line "Testing case-insensitive file operations:" ++ [10]));;
  print (lit (line "1. Opening 'hello.txt' (lowercase)..."));;
  case_read buf;;
  print (lit [10]);;
  print (lit (line "2. Opening 'HELLO.TXT' (uppercase)..."));;
  case_try (chars "HELLO.TXT");;
  print (lit [10]);;
  print (lit (line "3. Opening 'HeLLo.TxT' (mixed case)..."));;
  case_try (chars "HeLLo.TxT");;
  print (lit ([10] ++ line "All tests passed! Filenames are case-insensitive."));;
  mret 0.

(** The number of bytes, in up to three digits. *)
Definition put_count (buffer bytes_read : Z) : prog unit :=
  if 100 <=? bytes_read then
    st8 buffer (48 + bytes_read / 100);;
    st8 (buffer + 1) (48 + (bytes_read / 10) mod 10);;
    st8 (buffer + 2) (48 + bytes_read mod 10);;
    st8 (buffer + 3) 0
  else if 10 <=? bytes_read then
    st8 buffer (48 + bytes_read / 10);;
    st8 (buffer + 1) (48 + bytes_read mod 10);;
    st8 (buffer + 2) 0
  else
    st8 buffer (48 + bytes_read);;
    st8 (buffer + 1) 0.

Definition filetest_main (buffer : Z) : prog Z :=
  print (lit (line "FileTest: Opening HELLO.TXT..."));;
  result ← file_open (lit (chars "HELLO.TXT"));
  (if negb (result =? 0) then
     print (lit (line "FileTest: Failed to open file!"));;
     exit 1
   else mret tt);;
  print (lit (line "FileTest: File opened successfully!"));;
  print (lit (line "FileTest: Reading file contents..." ++ [10]));;
  bytes_read ← file_read buffer (512 - 1);
  (if bytes_read <? 0 then
     print (lit (line "FileTest: Failed to read file!"));;
     file_close;;
     exit 1
   else mret tt);;
  (if bytes_read <? 512 then st8 (buffer + bytes_read) 0 else st8 (buffer + (512 - 1)) 0);;
  print (lit (line "--- File Contents ---"));;
  print buffer;;
  print (lit ([10] ++ line "--- End of File ---" ++ [10]));;
  print (lit (chars "FileTest: Read "));;
  put_count buffer bytes_read;;
  print buffer;;
  print (lit (line " bytes"));;
  result ← file_close;
  (if negb (result =? 0) then print (lit (line "FileTest: Warning - failed to close file"))
   else print (lit (line "FileTest: File closed successfully")));;
  print (lit ([10] ++ line "FileTest: All tests passed!"));;
  mret 0.
End Tests.

(** ** File calls of a program that prints *)

Section Rules.
Context (o : system) (lit : list Z → Z) (P : Z → Prop) (lits : list (list Z)).
#[local] Notation ok := (ok (M := os_machine o)).
#[local] Notation said := (said P).

Lemma said_open v0 ts v f : said v0 ts v → said (set_open v0 f) ts (set_open v f).
Proof. intros [Hs E]. split; [exact Hs|]. by rewrite E at 1. Qed.

Lemma said_file_open {A} (k : Z → prog A) v0 ts v s file Q :
  literals o lit P lits (v_mem v0) → s ∈ lits → said v0 ts v → o_disk o (upper_name s 255) = Some file →
  (∀ v', said (set_open v0 file) ts v' → ok (k (match file with Some _ => 0 | None => -1 end)) v' Q) →
  ok (file_open (lit s) ≫= k) v Q.
Proof.
  intros Hl Hs H Hd Hk. destruct (lit_after o lit P lits v0 ts v s Hl Hs H) as (Hu & Hlen & Hstr & _).
  eapply do_open; [exact Hstr|exact Hu|exact Hlen|exact Hd|]. by apply Hk, said_open.
Qed.

Lemma said_close {A} (k : Z → prog A) v0 ts v c Q :
  said (set_open v0 (Some c)) ts v → (∀ v', said (set_open v0 None) ts v' → ok (k 0) v' Q) → ok (file_close ≫= k) v Q.
Proof.
  intros H Hk. eapply (do_close o _ _ c); [by destruct H as [_ ->]|]. apply Hk. by apply (said_open _ _ _ None) in H.
Qed.

Lemma said_read {A} (k : Z → prog A) v0 ts v a n c Q :
  said (set_open v0 (Some c)) ts v → user a (Z.of_nat n) → (n < o_slen o)%nat → Forall u8 c →
  (∀ x, span a (Z.of_nat n) x → P x) →
  (∀ v', said (set_open v0 (Some (drop n c))) ts v' → bytes_at (v_mem v') a (take n c) →
     ok (k (Z.of_nat (length (take n c)))) v' Q) →
  ok (file_read a (Z.of_nat n) ≫= k) v Q.
Proof.
  intros H Hu Hn HF HP Hk. pose proof Hu as Hu'. unfold user in Hu'.
  assert (length (take n c) <= n)%nat as Hl by (rewrite length_take; lia).
  eapply (do_read o _ _ _ _ c); [by destruct H as [_ ->]|exact Hu|exact Hn|]. apply Hk.
  - apply (said_open _ _ _ (Some (drop n c))) in H. apply (said_mem _ _ _ _ (store_bytes (v_mem v) a (take n c))) in H; [exact H|].
    intros b Hb Hp. cbn [v_mem set_open]. unfold user in Hb. rewrite load8_store_bytes by (unfold addr_ok; lia).
    rewrite decide_False; [done|]. intros Hr. apply Hp, HP. unfold span. lia.
  - apply store_bytes_at; [by apply Forall_take|unfold addr_ok; lia].
Qed.

(** The NUL after [l]. *)
Lemma said_end {A} (k : unit → prog A) v0 ts v a l Q :
  said v0 ts v → bytes_at (v_mem v) a l → user a (Z.of_nat (length l) + 1) →
  (∀ x, span a (Z.of_nat (length l) + 1) x → P x) →
  (∀ v', said v0 ts v' → str_at (v_mem v') a (c_string l) → ok (k tt) v' Q) →
  ok (st8 (a + Z.of_nat (length l)) 0 ≫= k) v Q.
Proof.
  intros H Hb Hu HP Hk. unfold user in Hu. apply do_st8; [unfold user; lia|]. apply Hk.
  - eapply said_mem; [exact H|]. eapply same_but_mono; [|apply same_but_store8; unfold user; lia].
    intros x Hx. apply HP. unfold span in *. lia.
  - apply str_at_c_string; [|cbn; apply load8_store8_eq]. eapply bytes_at_ext; [|exact Hb].
    intros b Hb'. cbn. unfold span in Hb'. apply load8_store8_far; unfold addr_ok; lia.
Qed.

Lemma said_str {A} (k : Z → prog A) v0 ts v a s Q :
  said v0 ts v → str_at (v_mem v) a s → user a (Z.of_nat (length s) + 1) → (length s < o_slen o)%nat →
  (∀ v', said v0 (ts ++ [s]) v' → v_mem v' = v_mem v → ok (k 0) v' Q) → ok (print a ≫= k) v Q.
Proof. intros H Hs Hu Hl Hk. eapply do_print; [exact Hs|exact Hu|exact Hl|]. by apply Hk; [apply said_say|]. Qed.
End Rules.

(** ** hello, print, count *)

Definition hello_text : list Z := line "Hello, world!" ++ line "This is a user-space program running on MagnOS!".

Lemma hello_prints o lit v :
  literals o lit (λ _, False) [line "Hello, world!"; line "This is a user-space program running on MagnOS!"] (v_mem v) →
  prints o (λ _, False) (hello_main lit) v 0 hello_text.
Proof.
  intros Hl. unfold prints, hello_main. pose proof (said_refl (λ _, False) v) as H. do 2 say_lit H.
  apply ok_ret. split; [done|]. by apply said_text in H.
Qed.

Lemma print_prints o lit v :
  literals o lit (λ _, False) [line "Printer!"] (v_mem v) → prints o (λ _, False) (print_main lit) v 0 (line "Printer!").
Proof.
  intros Hl. unfold prints, print_main. pose proof (said_refl (λ _, False) v) as H. say_lit H. by apply ok_ret.
Qed.

(** [n] sleeps of a second from the time [t]: the time after them. *)
Fixpoint naps (n : nat) (t : Z) (ws : list (list Z)) : option (Z * list (list Z)) :=
  match n, ws with
  | O, _ => Some (t, ws)
  | S n, w :: ws => t ← sleep_ms w t 1000; naps n t ws
  | S _, [] => None
  end.

Section Count.
Context (o : system) (lit : list Z → Z) (buf : Z) (Hu : user buf 2) (Hsl : (1 < o_slen o)%nat).
#[local] Notation P := (span buf 2).
#[local] Notation ok := (ok (M := os_machine o)).

(** [n] lines from [i] on. *)
Fixpoint count_lines (n : nat) (i : Z) : list (list Z) :=
  match n with
  | O => []
  | S n => [48 + i; 10] :: count_lines n (i + 1)
  end.

Lemma said_time v0 ts v t ws : said P v0 ts v → said P (set_time v0 t ws) ts (set_time v t ws).
Proof. intros [Hs E]. split; [exact Hs|]. by rewrite E at 1. Qed.

(** One line. *)
Lemma ok_count_line {A} (k : Z → prog A) i v0 ts v Q :
  1 <= i <= 5 → literals o lit P [[10]] (v_mem v0) → said P v0 ts v →
  (∀ v', said P v0 (ts ++ [[48 + i; 10]]) v' → ok (k 0) v' Q) →
  ok (st8 buf (48 + i);; st8 (buf + 1) 0;; print buf;; print (lit [10]) ≫= k) v Q.
Proof using Hu Hsl.
  intros Hi Hl H Hk. pose proof Hu as Hu'. unfold user in Hu'.
  apply do_st8; [unfold user; lia|]. change (buf + 1) with (buf + Z.of_nat (length [48 + i])).
  set (v1 := set_mem v _). assert (said P v0 ts v1) as H1.
  { eapply said_mem; [exact H|]. eapply same_but_mono; [|apply same_but_store8; unfold user; lia]. unfold span. intros a; lia. }
  assert (bytes_at (v_mem v1) buf [48 + i]) as Hb.
  { intros j Hj. cbn in Hj. assert (j = 0) as -> by lia. rewrite Z.add_0_r.
    change (load8 (store8 (v_mem v) buf (48 + i)) buf = 48 + i). rewrite load8_store8_eq. apply w8_small. lia. }
  apply (said_end o P _ v0 ts v1 buf [48 + i]); [exact H1|exact Hb|exact Hu|done|]. intros v2 H2 Hs.
  assert (c_string [48 + i] = [48 + i]) as Ec by (apply c_string_id; repeat constructor; lia). rewrite Ec in Hs.
  eapply said_str; [exact H2|exact Hs|exact Hu|exact Hsl|]. clear H2. intros v3 H3 _. say_lit H3. apply Hk.
  apply (said_merge P v0 ts [[48 + i]; [10]]); [done|]. by rewrite <-app_assoc in H3.
Qed.
Lemma ok_count n : ∀ i v0 ts v t ws,
  1 <= i → i + Z.of_nat n = 6 → literals o lit P [[10]] (v_mem v0) → said P v0 ts v →
  naps (n - 1) (v_ticks v0) (v_sleeps v0) = Some (t, ws) →
  ok (ITree.iter (λ i,
    if i <=? 5 then
      st8 buf (48 + i);; st8 (buf + 1) 0;; print buf;; print (lit [10]);;
      (if i <? 5 then sleep 1000 else mret tt);;
      mret (inl (i + 1))
    else mret (inr 0)) i) v (λ r v', r = 0 ∧ said P (set_time v0 t ws) (ts ++ count_lines n i) v').
Proof using Hu Hsl.
  induction n as [|n IH]; intros i v0 ts v t ws Hi Hn Hl H Ht.
  - eapply (ok_iter _ _ _ (λ x w, x = inr 0 ∧ w = v)).
    + destruct (Z.leb_spec i 5); [lia|]. by apply ok_ret.
    + intros _ _ [-> ->]. injection Ht as <- <-. split; [done|]. cbn. rewrite app_nil_r. by destruct v0.
  - destruct (Z.leb_spec i 5) as [Hi5|]; [|lia].
    destruct (Z.ltb_spec i 5) as [Hlt|Hge].
    + destruct n as [|n]; [lia|]. cbn [Nat.sub naps] in Ht. destruct (v_sleeps v0) as [|w ws'] eqn:Ew; [done|].
      apply bind_Some in Ht as (t1 & Ht1 & Ht).
      eapply (ok_iter _ _ _ (λ x u, x = inl (i + 1) ∧ said P (set_time v0 t1 ws') (ts ++ [[48 + i; 10]]) u)).
      * rewrite (proj2 (Z.leb_le i 5) Hi5), (proj2 (Z.ltb_lt i 5) Hlt).
        eapply ok_count_line; [lia|exact Hl|exact H|]. intros v1 H1. pose proof H1 as [_ E1].
        eapply (ok_bind _ _ _ (λ _ v', v' = set_time v1 t1 ws')).
        { eapply (ok_event _ _ _ 0 (set_time v1 t1 ws')); [|by apply ok_ret]. rewrite E1. cbn. unfold os_call. cbn.
          by rewrite Ew, Ht1. }
        intros _ _ ->. apply ok_ret. split; [done|]. by apply said_time.
      * intros _ u [-> H1]. eapply ok_mono; [eapply (IH (i + 1) (set_time v0 t1 ws')); [lia|lia|exact Hl|exact H1|]|].
        { cbn [v_ticks v_sleeps set_time]. by replace (S n - 1)%nat with n by lia. }
        intros r u' [-> H2]. split; [done|]. rewrite <-app_assoc in H2. exact H2.
    + assert (n = 0%nat) as -> by lia. injection Ht as <- <-.
      eapply (ok_iter _ _ _ (λ x u, x = inl (i + 1) ∧ said P v0 (ts ++ [[48 + i; 10]]) u)).
      * rewrite (proj2 (Z.leb_le i 5) Hi5), (proj2 (Z.ltb_ge i 5) Hge).
        eapply ok_count_line; [lia|exact Hl|exact H|]. intros v1 H1.
        eapply (ok_bind _ _ _ (λ _ v', v' = v1)); [by apply ok_ret|]. intros _ _ ->. by apply ok_ret.
      * intros _ u [-> H1]. eapply ok_mono; [apply (IH (i + 1) v0 (ts ++ [[48 + i; 10]]) u (v_ticks v0) (v_sleeps v0)); [lia|lia|exact Hl|exact H1|done]|].
        intros r u' [-> H2]. split; [done|]. cbn [count_lines] in *. by rewrite app_nil_r in H2.
Qed.

(** [count] prints the numbers up to 5, with four sleeps of a second between. *)
Lemma count_prints v t ws :
  literals o lit P [[10]] (v_mem v) → naps 4 (v_ticks v) (v_sleeps v) = Some (t, ws) →
  ok (count_main lit buf) v (λ r v', r = 0 ∧ said P (set_time v t ws) [[49; 10; 50; 10; 51; 10; 52; 10; 53; 10]] v').
Proof using Hu Hsl.
  intros Hl Ht. eapply ok_mono; [apply (ok_count 5 1 v [] v t ws); [lia|lia|exact Hl|apply said_refl|exact Ht]|].
  intros r v' [-> H]. split; [done|]. by apply said_text in H.
Qed.
End Count.

(** ** casetest *)

Section Casetest.
Context (o : system) (lit : list Z → Z) (buf : Z) (Hu : user buf 64) (Hsl : (64 < o_slen o)%nat).
Context (file : option (list Z)) (Hfile : o_disk o (chars "HELLO.TXT") = Some file) (HF : Forall u8 (default [] file)).
#[local] Notation P := (span buf 64).
#[local] Notation ok := (ok (M := os_machine o)).

Definition casetest_lits : list (list Z) :=
  [line "Testing case-insensitive file operations:" ++ [10]; line "1. Opening 'hello.txt' (lowercase)...";
   line "2. Opening 'HELLO.TXT' (uppercase)..."; line "3. Opening 'HeLLo.TxT' (mixed case)...";
   chars "hello.txt"; chars "HELLO.TXT"; chars "HeLLo.TxT"; line "   SUCCESS: Opened HELLO.TXT"; line "   FAILED";
   chars "   Content: "; [10]; [10] ++ line "All tests passed! Filenames are case-insensitive."].

Definition case_result : list Z :=
  match file with Some _ => line "   SUCCESS: Opened HELLO.TXT" | None => line "   FAILED" end.
Definition case_content : list Z :=
  match file with Some ((_ :: _) as c) => chars "   Content: " ++ c_string (take 63 c) | _ => [] end.
Definition casetest_text : list Z :=
  line "Testing case-insensitive file operations:" ++ [10] ++
  line "1. Opening 'hello.txt' (lowercase)..." ++ case_result ++ case_content ++ [10] ++
  line "2. Opening 'HELLO.TXT' (uppercase)..." ++ case_result ++ [10] ++
  line "3. Opening 'HeLLo.TxT' (mixed case)..." ++ case_result ++
  [10] ++ line "All tests passed! Filenames are case-insensitive.".

Lemma ok_case_try name v0 ts v :
  literals o lit P casetest_lits (v_mem v0) → name ∈ casetest_lits → upper_name name 255 = chars "HELLO.TXT" →
  said P v0 ts v → ok (case_try lit name) v (λ _ v', said P (set_open v0 None) (ts ++ [case_result]) v').
Proof using Hfile.
  clear Hu Hsl HF. intros Hl Hn Hup H. unfold case_try, case_result.
  eapply said_file_open; [exact Hl|exact Hn|exact H|rewrite Hup; exact Hfile|]. clear H. intros v1 H.
  change (v_mem v0) with (v_mem (set_open v0 file)) in Hl. destruct file as [c|]; cbn [Z.eqb]; say_lit H.
  - eapply said_close; [exact H|]. clear H. intros v2 H. by apply ok_ret.
  - by apply ok_ret.
Qed.

Lemma ok_case_read v0 ts v :
  literals o lit P casetest_lits (v_mem v0) → said P v0 ts v →
  ok (case_read lit buf) v (λ _ v', said P (set_open v0 None) (ts ++ [case_result ++ case_content]) v').
Proof using Hu Hsl Hfile HF.
  intros Hl H. unfold case_read, case_result, case_content. pose proof Hu as Hu'. unfold user in Hu'.
  eapply said_file_open; [exact Hl|lit_in|exact H|exact Hfile|]. clear H. intros v1 H.
  change (v_mem v0) with (v_mem (set_open v0 file)) in Hl. destruct file as [c|]; cbn [Z.eqb]; say_lit H.
  - change (64 - 1) with (Z.of_nat 63). eapply said_read; [exact H|unfold user; lia|lia|exact HF|unfold span; intros; lia|].
    clear H. intros v2 H Hb. assert (length (take 63 c) <= 63)%nat as Hlen by (rewrite length_take; lia).
    assert (length (c_string (take 63 c)) <= length (take 63 c))%nat as Hc.
    { clear. induction (take 63 c) as [|x l IH]; cbn; [lia|]. destruct (x =? 0); cbn; lia. }
    destruct c as [|x c].
    + cbn [take length Z.of_nat Z.ltb Z.compare]. eapply (ok_bind _ _ _ (λ _ w, w = v2)); [by apply ok_ret|]. intros _ _ ->.
      eapply said_close; [exact H|]. clear H. intros v3 H. apply ok_ret. rewrite app_nil_r. exact H.
    + set (l := take 63 (x :: c)) in *. destruct (Z.ltb_spec 0 (Z.of_nat (length l))) as [_|Hz]; [|cbn in Hz; lia].
      eapply (ok_bind _ _ _ (λ _ w, said P (set_open v0 (Some (drop 63 (x :: c))))
        (ts ++ [line "   SUCCESS: Opened HELLO.TXT"; chars "   Content: "; c_string l]) w)).
      * eapply said_end; [exact H|exact Hb|unfold user; lia|unfold span; intros; lia|]. clear H. intros v3 H Hs.
        change (v_mem (set_open v0 _)) with (v_mem (set_open v0 (Some (drop 63 (x :: c))))) in Hl. say_lit H.
        eapply said_str; [exact H|match goal with E : v_mem _ = v_mem v3 |- _ => rewrite E end; exact Hs|unfold user; lia|lia|].
        clear H. intros v4 H _. apply ok_ret.
        by rewrite <-!app_assoc in H.
      * clear H. intros _ w H. eapply said_close; [exact H|]. clear H. intros v3 H. apply ok_ret.
        apply said_merge in H; [|done]. cbn [concat] in H. rewrite app_nil_r in H. exact H.
  - apply ok_ret. by rewrite app_nil_r.
Qed.

(** [casetest] says for each spelling whether it found the file; but it ends
    with the same line whatever it found. *)
Lemma casetest_prints v : literals o lit P casetest_lits (v_mem v) →
  ok (casetest_main lit buf) v (λ r v', r = 0 ∧ said P (set_open v None) [casetest_text] v').
Proof using Hu Hsl Hfile HF.
  intros Hl. unfold casetest_main. pose proof (said_refl P v) as H. do 2 say_lit H.
  eapply ok_bind; [eapply ok_case_read; [exact Hl|exact H]|]. clear H. intros ? v1 H. cbn beta in H.
  change (v_mem v) with (v_mem (set_open v None)) in Hl. do 2 say_lit H.
  eapply ok_bind; [eapply ok_case_try; [exact Hl|lit_in|reflexivity|exact H]|]. clear H. intros ? v2 H. cbn beta in H. cbn [set_open] in H.
  do 2 say_lit H. eapply ok_bind; [eapply ok_case_try; [exact Hl|lit_in|reflexivity|exact H]|]. clear H. intros ? v3 H. cbn beta in H.
  say_lit H. apply ok_ret. split; [done|]. apply said_text in H; [|by destruct case_result].
  rewrite !concat_app in H. cbn [concat] in H. rewrite !app_nil_r, <-!app_assoc in H. exact H.
Qed.
End Casetest.

(** ** filetest *)

Lemma num_text_small n : 0 <= n < 1000 →
  num_text n = if 100 <=? n then [48 + n / 100; 48 + (n / 10) mod 10; 48 + n mod 10]
               else if 10 <=? n then [48 + n / 10; 48 + n mod 10] else [48 + n].
Proof.
  intros Hn. unfold num_text. destruct (Z.eqb_spec n 0) as [->|H0]; [reflexivity|]. cbn [digits].
  rewrite (Z.div_div n 10 10) by lia. change (10 * 10) with 100.
  assert (n / 100 / 10 = 0) as E3 by (rewrite Z.div_div by lia; apply Z.div_small; lia). rewrite E3.
  destruct (Z.leb_spec 100 n); [|destruct (Z.leb_spec 10 n)].
  - assert (0 < n / 100 < 10 /\ 0 < n / 10) as [? ?] by (Z.div_mod_to_equations; lia).
    rewrite !(proj2 (Z.ltb_lt 0 _)) by lia. cbn [Z.ltb Z.compare]. by rewrite (Z.mod_small (n / 100) 10) by lia.
  - assert (n / 100 = 0 /\ 0 < n / 10 < 10) as [-> ?] by (Z.div_mod_to_equations; lia).
    rewrite !(proj2 (Z.ltb_lt 0 _)) by lia. cbn [Z.ltb Z.compare]. by rewrite (Z.mod_small (n / 10) 10) by lia.
  - assert (n / 10 = 0) as -> by (Z.div_mod_to_equations; lia). rewrite (proj2 (Z.ltb_lt 0 n)) by lia. cbn [Z.ltb Z.compare].
    by rewrite Z.mod_small by lia.
Qed.

Section Filetest.
Context (o : system) (lit : list Z → Z) (buffer : Z) (Hu : user buffer 512) (Hsl : (512 < o_slen o)%nat).
#[local] Notation P := (span buffer 512).
#[local] Notation ok := (ok (M := os_machine o)).

Lemma ok_put_count n v : 0 <= n < 1000 →
  ok (put_count buffer n) v (λ _ v', ∃ m, v' = set_mem v m ∧ str_at m buffer (num_text n) ∧ same_but P (v_mem v) m).
Proof using Hu.
  clear Hsl. intros Hn. pose proof Hu as Hu'. unfold user in Hu'. rewrite num_text_small by exact Hn. unfold put_count.
  assert (∀ x, 0 <= x < 10 → w8 (48 + x) = 48 + x) as Hw by (intros x Hx; apply w8_small; lia).
  destruct (Z.leb_spec 100 n); [|destruct (Z.leb_spec 10 n)];
    repeat (apply do_st8; [unfold user; lia|]); (apply ok_st8; [unfold user; lia|]); (eexists; split; [reflexivity|]);
    cbn [v_mem set_mem]; (split; [|intros a Ha HP; unfold user, span in *; rewrite !load8_store8_far by (unfold addr_ok; lia); done]);
    cbn [str_at]; rewrite <-?Z.add_assoc; cbn [Z.add Pos.add]; split_and!;
    first [ rewrite ?load8_store8_far by (unfold addr_ok; lia); rewrite load8_store8_eq; (done || (apply Hw; Z.div_mod_to_equations; lia))
          | Z.div_mod_to_equations; lia ].
Qed.

Definition filetest_lits : list (list Z) :=
  [line "FileTest: Opening HELLO.TXT..."; chars "HELLO.TXT"; line "FileTest: Failed to open file!";
   line "FileTest: File opened successfully!"; line "FileTest: Reading file contents..." ++ [10];
   line "FileTest: Failed to read file!"; line "--- File Contents ---"; [10] ++ line "--- End of File ---" ++ [10];
   chars "FileTest: Read "; line " bytes"; line "FileTest: Warning - failed to close file";
   line "FileTest: File closed successfully"; [10] ++ line "FileTest: All tests passed!"].
Definition filetest_text (c : list Z) : list Z :=
  let read := take 511 c in
  line "FileTest: Opening HELLO.TXT..." ++ line "FileTest: File opened successfully!" ++
  line "FileTest: Reading file contents..." ++ [10] ++ line "--- File Contents ---" ++ c_string read ++
  [10] ++ line "--- End of File ---" ++ [10] ++ chars "FileTest: Read " ++ num_text (Z.of_nat (length read)) ++
  line " bytes" ++ line "FileTest: File closed successfully" ++ [10] ++ line "FileTest: All tests passed!".

(** [filetest] shows the first 511 bytes of the file and their number. *)
Lemma filetest_prints c v :
  literals o lit P filetest_lits (v_mem v) → o_disk o (chars "HELLO.TXT") = Some (Some c) → Forall u8 c →
  ok (filetest_main lit buffer) v (λ r v', r = 0 ∧ said P (set_open v None) [filetest_text c] v').
Proof using Hu Hsl.
  intros Hl Hd HF. unfold filetest_main, filetest_text. pose proof Hu as Hu'. unfold user in Hu'.
  pose proof (said_refl P v) as H. say_lit H. eapply said_file_open; [exact Hl|lit_in|exact H|exact Hd|]. clear H. intros v1 H.
  cbn [Z.eqb negb]. eapply (ok_bind _ _ _ (λ _ w, w = v1)); [by apply ok_ret|]. intros _ _ ->.
  change (v_mem v) with (v_mem (set_open v (Some c))) in Hl. do 2 say_lit H. change (512 - 1) with (Z.of_nat 511).
  eapply said_read; [exact H|unfold user; lia|lia|exact HF|unfold span; intros; lia|]. clear H. intros v2 H Hb.
  set (l := take 511 c) in *. assert (length l <= 511)%nat as Hlen by (unfold l; rewrite length_take; lia).
  assert (length (c_string l) <= length l)%nat as Hc.
  { clear. induction l as [|x l IH]; cbn; [lia|]. destruct (x =? 0); cbn; lia. }
  destruct (Z.ltb_spec (Z.of_nat (length l)) 0); [lia|]. destruct (Z.ltb_spec (Z.of_nat (length l)) 512); [|lia].
  eapply (ok_bind _ _ _ (λ _ w, w = v2)); [by apply ok_ret|]. intros _ _ ->.
  change (v_mem (set_open v (Some c))) with (v_mem (set_open v (Some (drop 511 c)))) in Hl.
  eapply said_end; [exact H|exact Hb|unfold user; lia|unfold span; intros; lia|]. clear H. intros v3 H Hs. say_lit H.
  eapply said_str; [exact H|match goal with E : v_mem _ = v_mem v3 |- _ => rewrite E end; exact Hs|unfold user; lia|lia|].
  clear H. intros v4 H _. do 2 say_lit H.
  eapply ok_bind; [apply (ok_put_count (Z.of_nat (length l))); lia|]. intros _ w (m & -> & Hn & Hm).
  apply (said_mem _ _ _ _ m) in H; [|exact Hm].
  destruct (num_text_spec (Z.of_nat (length l)) ltac:(unfold u32; lia)) as (_ & Hnl & _).
  eapply said_str; [exact H|exact Hn|unfold user; lia|lia|]. clear H. intros v5 H _. say_lit H.
  eapply said_close; [exact H|]. clear H. intros v6 H. cbn [Z.eqb negb].
  change (v_mem (set_open v (Some (drop 511 c)))) with (v_mem (set_open v None)) in Hl.
  do 2 say_lit H. apply ok_ret. split; [done|]. apply said_text in H; [|by destruct l].
  rewrite !concat_app in H. cbn [concat] in H. rewrite !app_nil_r, <-!app_assoc in H. exact H.
Qed.

(** Without the file it says so and exits with 1. *)
Lemma filetest_exits v :
  literals o lit P filetest_lits (v_mem v) → o_disk o (chars "HELLO.TXT") = Some None →
  ∃ v', runs (M := os_machine o) (filetest_main lit buffer) v (Exited v') ∧
    v_out v' = Bye 1 :: add_text (line "FileTest: Opening HELLO.TXT..." ++ line "FileTest: Failed to open file!") (v_out v).
Proof.
  clear Hu Hsl. intros Hl Hd. set (s1 := line "FileTest: Opening HELLO.TXT..."). set (s2 := line "FileTest: Failed to open file!").
  pose proof (lit_after _ _ _ _ v [] v s1 Hl ltac:(lit_in) (said_refl P v)) as (Hu1 & Hl1 & Hs1 & _).
  pose proof (lit_after _ _ _ _ v [] v s2 Hl ltac:(lit_in) (said_refl P v)) as (Hu2 & Hl2 & Hs2 & _).
  pose proof (lit_after _ _ _ _ v [] v (chars "HELLO.TXT") Hl ltac:(lit_in) (said_refl P v)) as (Hu3 & Hl3 & Hs3 & _).
  destruct (ok_print o v _ s1 (λ x w, x = 0 ∧ w = say v s1) Hs1 Hu1 Hl1) as (r1 & w1 & Hr1 & -> & ->); [done|].
  destruct (ok_open o (say v s1) _ _ None Hs3 Hu3 Hl3 Hd) as (r2 & w2 & Hr2 & -> & ->).
  set (w2 := set_open (say v s1) None) in *.
  destruct (ok_print o w2 _ s2 (λ x w, x = 0 ∧ w = say w2 s2) Hs2 Hu2 Hl2) as (r3 & w3 & Hr3 & -> & ->); [done|].
  exists (set_out (say w2 s2) (Bye 1 :: v_out (say w2 s2))). split; [|cbn; by rewrite add_text_app].
  eapply runs_bind; [exact Hr1|]. eapply runs_bind; [exact Hr2|]. cbn [Z.eqb negb].
  refine (runs_bind_stop _ _ _ (Exited _) _). eapply runs_bind; [exact Hr3|].
  refine (runs_bind_stop _ _ _ (Exited _) _). by apply runs_trigger.
Qed.
End Filetest.
