(* ===== verification/UserShell.v ===== *)
(** * The user shell: theorems

    The shell of userspace/shell.c on the specification of the system: it
    edits lines like LineEdit.v says, and answers each of them. *)

From Stdlib Require Import String.
From ITree Require Import ITree.
From S2P Require Import Prelude Mem Args ArgsProps Syscall KernelRun LineEdit User UserRun UserOs UserProps UserPrograms.

Section Shell.
Context (o : system) (lit : list Z → Z) (cmd_buf ch_buf : Z).
#[local] Notation ok := (ok (M := os_machine o)).
Definition shell_bytes (a : Z) : Prop := span cmd_buf 64 a ∨ span ch_buf 2 a.
#[local] Notation P := shell_bytes.
Record shell_frame : Prop := {
  sf_cmd : user cmd_buf 64;
  sf_ch : user ch_buf 2;
  sf_apart : apart cmd_buf 64 ch_buf 2
}.
Context (Hf : shell_frame) (Hsl : (64 < o_slen o)%nat).

Definition prompt_text : list Z := chars "MagnOS> ".
Definition started_text : list Z := [10] ++ line "MagnOS Shell Started".
Definition shell_lits : list (list Z) :=
  [started_text; prompt_text; [8; 32; 8]; chars "clear"; chars "exit"; chars "Command not found: "; [10];
   line "Error: File too large"; line "Error: Failed to read file"; line "Error: Not an ELF binary";
   line "Error: Failed to execute"].

(** ** Specification *)

(** What the shell says to a command that cannot be executed. *)
Definition reply (l : list Z) (file : option (list Z)) : option (list Z) :=
  match file with
  | None => Some (chars "Command not found: " ++ l ++ [10])
  | Some c =>
      let n := Z.of_nat (length c) in
      if sizeof_exec_buffer <? n then Some (line "Error: File too large")
      else if n =? 0 then Some (line "Error: Failed to read file")
      else if (n <? 4) || elf_magic c then None
      else Some (line "Error: Not an ELF binary")
  end.

(** The screen and the arguments after the line [l] was entered. *)
Definition answer (l : list Z) (s : list event * program_args_t) : option (list event * program_args_t) :=
  let '(out, a) := s in
  if decide (l = []) then Some (add_text prompt_text out, a)
  else if decide (l = chars "clear") then Some (add_text prompt_text (Wipe :: out), a)
  else
    file ← o_disk o (file_name l);
    text ← reply l file;
    Some (add_text (text ++ prompt_text) out, (parse_command_line l (o_program_name o) a).2).

(** The keys [cs] and enter. *)
Definition type_line (cs : list Z) (s : list event * program_args_t) : option (list event * program_args_t) :=
  answer (fold_left edit cs []) (add_text (echo_all [] cs ++ [10]) s.1, s.2).
Fixpoint session (css : list (list Z)) (s : list event * program_args_t) : option (list event * program_args_t) :=
  match css with
  | [] => Some s
  | cs :: css => s ← type_line cs s; session css s
  end.

(** ** Statements *)

(** The shell with the line [l], the keys [ks] to come, the screen [out]. *)
Record at_line (v0 : view) (s : list event * program_args_t) (ks l : list Z) (v : view) : Prop := {
  al_mem : same_but P (v_mem v0) (v_mem v);
  al_view : v = View (v_mem v) s.1 None s.2 ks (v_ticks v0) (v_sleeps v0);
  al_line : bytes_at (v_mem v) cmd_buf l;
  al_len : (length l <= 63)%nat;
  al_chars : Forall (λ c, 0 < c < 256) l
}.

Lemma at_line_lit v0 s ks l v t :
  literals o lit P shell_lits (v_mem v0) → t ∈ shell_lits → at_line v0 s ks l v → lit_at o lit P (v_mem v) t.
Proof.
  intros Hl Ht Hat. apply (lit_after o lit P shell_lits v0 []%list (set_out (set_mem v0 (v_mem v)) (v_out v0))); [done|done|].
  split; [apply Hat|by destruct v0].
Qed.

Lemma at_line_say v0 out a ks l v t : at_line v0 (out, a) ks l v → at_line v0 (add_text t out, a) ks l (say v t).
Proof. intros [Hm Hv Hl Hn Hc]. split; try done. cbn in *. unfold say, set_out. rewrite Hv. reflexivity. Qed.

Lemma do_lit {A} (k : Z → prog A) v0 out a ks l v t Q :
  literals o lit P shell_lits (v_mem v0) → t ∈ shell_lits → at_line v0 (out, a) ks l v →
  (∀ v', at_line v0 (add_text t out, a) ks l v' → ok (k 0) v' Q) → ok (print (lit t) ≫= k) v Q.
Proof.
  intros Hl Ht Hat Hk. destruct (at_line_lit _ _ _ _ _ _ Hl Ht Hat) as (Hu & Hlen & Hs & _).
  eapply do_print; [exact Hs|exact Hu|exact Hlen|]. by apply Hk, at_line_say.
Qed.

(** A store to the second buffer, or to the first after the line. *)
Lemma at_line_store v0 s ks l v a x :
  at_line v0 s ks l v → (span cmd_buf 64 a ∧ cmd_buf + Z.of_nat (length l) <= a ∨ span ch_buf 2 a) →
  at_line v0 s ks l (set_mem v (store8 (v_mem v) a x)).
Proof using Hf.
  clear Hsl. destruct Hf as [Hu1 Hu2 Ha]. unfold user, apart in *. intros [Hm Hv Hl Hn Hc] Hsp. split; try done.
  - eapply same_but_trans; [exact Hm|]. eapply same_but_mono; [|apply same_but_store8].
    + intros b Hb. unfold P, span in *. lia.
    + unfold user, span in *. lia.
  - cbn. rewrite Hv at 1. reflexivity.
  - eapply bytes_at_ext; [|exact Hl]. intros b Hb. unfold span in *. cbn. apply load8_store8_far; unfold addr_ok; lia.
Qed.

Lemma str_at_one m m' x : 0 < x < 256 → m' = store8 (store8 m ch_buf x) (ch_buf + 1) 0 → str_at m' ch_buf [x].
Proof using Hf.
  clear Hsl. pose proof (sf_ch Hf) as Hu. unfold user in Hu. intros Hx ->. cbn. split_and!; [lia| |].
  - rewrite load8_store8_far by (unfold addr_ok; lia). rewrite load8_store8_eq. apply w8_small. lia.
  - apply load8_store8_eq.
Qed.

Lemma do_putchar {A} (k : unit → prog A) v0 out a ks l v c x Q :
  at_line v0 (out, a) ks l v → w8 c = x → 0 < x < 256 →
  (∀ v', at_line v0 (add_text [x] out, a) ks l v' → ok (k tt) v' Q) → ok (putchar_custom ch_buf c ≫= k) v Q.
Proof using Hf Hsl.
  intros Hat Ex Hx Hk. pose proof (sf_ch Hf) as Hu. unfold user in Hu.
  eapply (ok_bind _ _ _ (λ _ w, at_line v0 (add_text [x] out, a) ks l w)); [|intros [] w; apply Hk].
  unfold putchar_custom. apply do_st8; [unfold user; lia|]. apply do_st8; [unfold user; lia|]. cbn [set_mem v_mem].
  assert (at_line v0 (out, a) ks l (set_mem v (store8 (store8 (v_mem v) ch_buf c) (ch_buf + 1) 0))) as Hat2.
  { apply (at_line_store v0 (out, a) ks l (set_mem v (store8 (v_mem v) ch_buf c)));
      [apply at_line_store; [done|]|]; right; unfold span; lia. }
  eapply (do_print _ _ _ _ [x]); [|unfold user; cbn; lia|cbn; lia|apply ok_ret; by apply at_line_say].
  apply (str_at_one (v_mem v)); [done|]. cbn. f_equal. unfold store8. by rewrite <-Ex, w8_idemp.
Qed.

(** A character is added to the line. *)
Lemma at_line_add v0 s ks l v c x :
  at_line v0 s ks l v → (length l < 63)%nat → w8 c = x → 0 < x < 256 →
  at_line v0 s ks (l ++ [x]) (set_mem v (store8 (v_mem v) (cmd_buf + Z.of_nat (length l)) c)).
Proof using Hf.
  clear Hsl. intros Hat Hlen Ex Hx. pose proof (sf_cmd Hf) as Hu. unfold user in Hu.
  pose proof (at_line_store v0 s ks l v (cmd_buf + Z.of_nat (length l)) c Hat) as [Hm Hv _ _ _]; [left; unfold span; lia|].
  destruct Hat as [_ _ Hl _ Hc]. split; [done|done| |rewrite length_app; cbn; lia|].
  - eapply bytes_at_snoc; [exact Hl|cbn; by rewrite load8_store8_eq|].
    intros b Hb. apply load8_store8_far; unfold addr_ok; lia.
  - apply Forall_app. split; [done|]. by repeat constructor; lia.
Qed.

Lemma s8_u8 c : 0 < c < 256 → w8 (s8 c) = c ∧ (s8 c = 8 ↔ c = 8) ∧ (s8 c = 10 ↔ c = 10).
Proof. intros Hc. unfold s8. rewrite (w8_small c) by lia. destruct (Z.ltb_spec c 128); unfold w8; split; zdm. Qed.

(** The string in the buffer once its NUL is stored. *)
Lemma line_str v0 s ks l v :
  at_line v0 s ks l v → load8 (v_mem v) (cmd_buf + Z.of_nat (length l)) = 0 → str_at (v_mem v) cmd_buf l.
Proof.
  intros [_ _ Hl _ Hc] H0. apply str_at_bytes; [done|done|]. eapply Forall_impl; [exact Hc|]. cbn. lia.
Qed.

(** ** [shell_strncmp] *)

(** Where the loop stops: at the strings [s'] and [t'] that are left, which are
    equal exactly when the whole strings are, and when they start alike. *)
Definition cmp_stop (v : view) (s t : list Z) (p : Z * Z * Z) : Prop :=
  ∃ a b m s' t', p = (a, b, Z.of_nat m) ∧ (0 < m)%nat ∧ str_at (v_mem v) a s' ∧ str_at (v_mem v) b t' ∧
    user a 1 ∧ user b 1 ∧ (s' = t' ↔ s = t) ∧ (head s' = head t' → s' = t').

Lemma ok_cmp_loop v s : ∀ t n a b,
  str_at (v_mem v) a s → str_at (v_mem v) b t → user a (Z.of_nat (length s) + 1) → user b (Z.of_nat (length t) + 1) →
  (length s < n)%nat → (length t < n)%nat →
  ok (ITree.iter (λ '(a, b, n),
        if n =? 0 then mret (inr (a, b, n))
        else
          x ← ld8 a;
          if x =? 0 then mret (inr (a, b, n))
          else
            y ← ld8 b;
            mret (if x =? y then inl (a + 1, b + 1, n - 1) else inr (a, b, n))) (a, b, Z.of_nat n)) v
    (λ p v', v' = v ∧ cmp_stop v s t p).
Proof.
  clear Hf Hsl. induction s as [|x s IH]; intros t n a b Hs Ht Hua Hub Hls Hlt; (destruct n as [|n]; [lia|]).
  - cbn in Hs. eapply (ok_iter _ _ _ (λ x w, x = inr (a, b, Z.of_nat (S n)) ∧ w = v)).
    + cbn beta iota. destruct (Z.eqb_spec (Z.of_nat (S n)) 0); [lia|]. apply do_ld8; [unfold user in *; cbn in *; lia|].
      rewrite Hs. by apply ok_ret.
    + intros _ _ [-> ->]. split; [done|]. exists a, b, (S n), [], t. unfold user in *. cbn [length] in *.
      split_and!; try done; try lia. by destruct t.
  - destruct Hs as (Hx & Ea & Hs). assert (Hu1 : user a 1) by (unfold user in *; cbn in *; lia).
    assert (Hu2 : user b 1) by (unfold user in *; cbn in *; lia).
    destruct t as [|y t].
    + cbn in Ht. eapply (ok_iter _ _ _ (λ q w, q = inr (a, b, Z.of_nat (S n)) ∧ w = v)).
      * cbn beta iota. destruct (Z.eqb_spec (Z.of_nat (S n)) 0); [lia|]. apply do_ld8; [done|]. rewrite Ea.
        rewrite (proj2 (Z.eqb_neq _ _) Hx). apply do_ld8; [done|]. rewrite Ht, (proj2 (Z.eqb_neq _ _) Hx). by apply ok_ret.
      * intros _ _ [-> ->]. split; [done|]. exists a, b, (S n), (x :: s), []. split_and!; try done; lia.
    + destruct Ht as (Hy & Eb & Ht). destruct (decide (x = y)) as [<-|Hxy].
      * eapply (ok_iter _ _ _ (λ q w, q = inl (a + 1, b + 1, Z.of_nat n) ∧ w = v)).
        -- cbn beta iota. destruct (Z.eqb_spec (Z.of_nat (S n)) 0); [lia|]. apply do_ld8; [done|]. rewrite Ea.
           rewrite (proj2 (Z.eqb_neq _ _) Hx). apply do_ld8; [done|]. rewrite Eb, Z.eqb_refl. apply ok_ret.
           by replace (Z.of_nat (S n) - 1) with (Z.of_nat n) by lia.
        -- intros _ _ [-> ->]. eapply ok_mono; [apply (IH t n (a + 1) (b + 1)); try done; unfold user in *; cbn in *; lia|].
           intros p w (-> & a' & b' & m & s' & t' & -> & Hm & Hs' & Ht' & Hua' & Hub' & Heq & Hhd).
           split; [done|]. exists a', b', m, s', t'. split_and!; try done. rewrite Heq. naive_solver.
      * eapply (ok_iter _ _ _ (λ q w, q = inr (a, b, Z.of_nat (S n)) ∧ w = v)).
        -- cbn beta iota. destruct (Z.eqb_spec (Z.of_nat (S n)) 0); [lia|]. apply do_ld8; [done|]. rewrite Ea.
           rewrite (proj2 (Z.eqb_neq _ _) Hx). apply do_ld8; [done|]. rewrite Eb, (proj2 (Z.eqb_neq _ _) Hxy). by apply ok_ret.
        -- intros _ _ [-> ->]. split; [done|]. exists a, b, (S n), (x :: s), (y :: t).
           split_and!; try done; [lia|]. cbn. naive_solver.
Qed.

Lemma str_at_head m a s : str_at m a s → load8 m a = default 0 (head s) ∧ (∀ x, head s = Some x → x ≠ 0).
Proof. destruct s as [|x s]; cbn; [done|]. intros (Hx & Hl & _). split; [done|]. by intros y [= <-]. Qed.

Lemma ok_strncmp n a b s t v :
  str_at (v_mem v) a s → str_at (v_mem v) b t → user a (Z.of_nat (length s) + 1) → user b (Z.of_nat (length t) + 1) →
  (length s < n)%nat → (length t < n)%nat →
  ok (shell_strncmp a b (Z.of_nat n)) v (λ r v', v' = v ∧ (r = 0 ↔ s = t)).
Proof.
  clear Hf Hsl. intros Hs Ht Hua Hub Hls Hlt. unfold shell_strncmp. eapply ok_bind; [by apply (ok_cmp_loop v s t n)|].
  intros p w (-> & a' & b' & m & s' & t' & -> & Hm & Hs' & Ht' & Hua' & Hub' & Heq & Hhd).
  destruct (Z.eqb_spec (Z.of_nat m) 0); [lia|]. do 2 (apply do_ld8; [done|]). apply ok_ret. split; [done|].
  destruct (str_at_head _ _ _ Hs') as [-> Hx]. destruct (str_at_head _ _ _ Ht') as [-> Hy]. rewrite <-Heq.
  split; [|intros ->; lia]. intros E. apply Hhd.
  destruct (head s') as [x|] eqn:E1, (head t') as [y|] eqn:E2; cbn in E; try done; [f_equal; lia| |]; exfalso;
    [apply (Hx x)|apply (Hy y)]; done || lia.
Qed.

(** ** The enter key *)

Lemma at_line_empty v0 s ks l v : at_line v0 s ks l v → at_line v0 s ks [] v.
Proof. intros [Hm Hv _ _ _]. split; try done; [intros i; cbn; lia|cbn; lia]. Qed.

Lemma do_prompt v0 out a ks l v :
  literals o lit P shell_lits (v_mem v0) → at_line v0 (out, a) ks l v →
  ok (shell_prompt lit;; mret (None : option Z)) v (λ r w, r = None ∧ at_line v0 (add_text prompt_text out, a) ks [] w).
Proof.
  intros Hl Hat. eapply do_lit; [exact Hl|solve [lit_in]|exact Hat|]. intros w Hw. apply ok_ret.
  split; [done|]. by eapply at_line_empty.
Qed.

(** The code [exec] returns for a file that cannot be executed. *)
Definition exec_code (file : option (list Z)) : Z :=
  match file with
  | None => -1
  | Some c =>
      let n := Z.of_nat (length c) in
      if sizeof_exec_buffer <? n then -2 else if n =? 0 then -3 else -4
  end.

Lemma do_exec {A} (k : Z → prog A) v0 out a ks l v file text Q :
  at_line v0 (out, a) ks l v → str_at (v_mem v) cmd_buf l →
  o_disk o (file_name l) = Some file → reply l file = Some text →
  (∀ v', at_line v0 (out, (parse_command_line l (o_program_name o) a).2) ks l v' → v_mem v' = v_mem v →
     ok (k (exec_code file)) v' Q) →
  ok (exec cmd_buf ≫= k) v Q.
Proof using Hf Hsl.
  intros Hat Hs Hd Hr Hk. pose proof (sf_cmd Hf) as Hu. unfold user in Hu. pose proof (al_len _ _ _ _ _ Hat) as Hlen.
  set (a' := (parse_command_line l (o_program_name o) a).2) in *.
  assert (at_line v0 (out, a') ks l (set_args v a')) as Hat'.
  { destruct Hat as [Hm Hv Hl Hn Hc]. split; try done. cbn. rewrite Hv. done. }
  eapply (ok_bind _ _ _ (λ x w, x = exec_code file ∧ w = set_args v a')); [|intros _ _ [-> ->]; by apply Hk].
  assert (v_args v = a ∧ v_open v = None) as [Ea Ev] by (rewrite (al_view _ _ _ _ _ Hat); done).
  eapply (ok_event _ _ _ (neg (- exec_code file)) (set_args v a')).
  - cbn. unfold os_call. cbn [Z.eqb Pos.eqb SYSCALL_PRINT SYSCALL_EXIT SYSCALL_FILE_OPEN SYSCALL_FILE_READ SYSCALL_FILE_CLOSE
      SYSCALL_LIST_DIR SYSCALL_GET_ARGS SYSCALL_GETCHAR SYSCALL_EXEC].
    destruct (Z.eqb_spec cmd_buf 0); [lia|]. unfold os_exec. rewrite (user_string_at o _ _ l) by (done || unfold user; lia).
    cbn [mbind option_bind]. rewrite Hd. cbn [mbind option_bind]. rewrite Ea. fold a'.
    change (v_open (set_args v a')) with (v_open v). rewrite Ev. unfold exec_code, reply in *. destruct file as [c|]; [|done].
    cbv zeta in *. destruct (sizeof_exec_buffer <? Z.of_nat (length c)); [done|].
    destruct (Z.of_nat (length c) =? 0); [done|]. by destruct ((Z.of_nat (length c) <? 4) || elf_magic c).
  - apply ok_ret. split; [|done]. unfold exec_code, reply in *. destruct file as [c|]; [|done].
    cbv zeta in *. destruct (sizeof_exec_buffer <? Z.of_nat (length c)); [done|]. by destruct (Z.of_nat (length c) =? 0).
Qed.

Lemma do_report {A} (k : unit → prog A) v0 out a ks l v file text Q :
  literals o lit P shell_lits (v_mem v0) → at_line v0 (out, a) ks l v → str_at (v_mem v) cmd_buf l → reply l file = Some text →
  (∀ v', at_line v0 (add_text text out, a) ks l v' → ok (k tt) v' Q) → ok (report lit cmd_buf (exec_code file) ≫= k) v Q.
Proof using Hf Hsl.
  intros Hl Hat Hs Hr Hk. pose proof (sf_cmd Hf) as Hu. unfold user in Hu. pose proof (al_len _ _ _ _ _ Hat) as Hlen.
  eapply (ok_bind _ _ _ (λ _ w, at_line v0 (add_text text out, a) ks l w)); [|intros [] w; apply Hk].
  unfold exec_code, reply, report in *. destruct file as [c|].
  - cbv zeta in *. destruct (sizeof_exec_buffer <? Z.of_nat (length c)); [|destruct (Z.of_nat (length c) =? 0)];
      [injection Hr as <-|injection Hr as <-|destruct (_ || _); [done|injection Hr as <-]];
      cbn [Z.eqb Z.opp Pos.eqb]; (eapply do_lit; [exact Hl|solve [lit_in]|exact Hat|]; intros w Hw; by apply ok_ret).
  - injection Hr as <-. cbn [Z.eqb Z.opp Pos.eqb].
    destruct (at_line_lit _ _ _ _ _ (chars "Command not found: ") Hl ltac:(lit_in) Hat) as (Hu1 & Hlen1 & Hs1 & _).
    eapply do_print; [exact Hs1|exact Hu1|exact Hlen1|]. apply (at_line_say _ _ _ _ _ _ (chars "Command not found: ")) in Hat.
    eapply (do_print _ _ _ _ l); [exact Hs|unfold user; lia|lia|]. apply (at_line_say _ _ _ _ _ _ l) in Hat.
    eapply do_lit; [exact Hl|solve [lit_in]|exact Hat|]. intros w Hw. apply ok_ret.
    by rewrite 2!add_text_app in Hw.
Qed.

Lemma Forall_u8 l : Forall (λ c, 0 < c < 256) l → Forall u8 l.
Proof. intros H. eapply Forall_impl; [exact H|]. unfold u8. cbn. lia. Qed.

(** Comparing the line with a built-in command. *)
Lemma do_strncmp {A} (k : Z → prog A) v0 s ks l v t Q :
  literals o lit P shell_lits (v_mem v0) → t ∈ shell_lits → (length t < 64)%nat →
  at_line v0 s ks l v → str_at (v_mem v) cmd_buf l →
  (∀ r, (r = 0 ↔ l = t) → ok (k r) v Q) → ok (shell_strncmp cmd_buf (lit t) 64 ≫= k) v Q.
Proof using Hf.
  clear Hsl. intros Hl Ht Hlt Hat Hs Hk. pose proof (sf_cmd Hf) as Hu. unfold user in Hu.
  pose proof (al_len _ _ _ _ _ Hat) as Hlen. destruct (at_line_lit _ _ _ _ _ t Hl Ht Hat) as (Hu1 & _ & Hs1 & _).
  eapply ok_bind; [apply (ok_strncmp 64 cmd_buf (lit t) l t v); [done|done|unfold user; lia|done|lia|done]|].
  intros r w [-> Hr]. by apply Hk.
Qed.

(** Enter on any line but "exit" answers it and starts a new one; on "exit" the
    shell is over. *)
Lemma ok_enter v0 out a ks l v :
  literals o lit P shell_lits (v_mem v0) → at_line v0 (out, a) ks l v →
  if decide (l = chars "exit") then
    ok (shell_enter lit cmd_buf ch_buf (Z.of_nat (length l))) v (λ r w, r = Some 0 ∧ at_line v0 (add_text [10] out, a) ks l w)
  else ∀ s', answer l (add_text [10] out, a) = Some s' →
    ok (shell_enter lit cmd_buf ch_buf (Z.of_nat (length l))) v (λ r w, r = None ∧ at_line v0 s' ks [] w).
Proof using Hf Hsl.
  intros Hl Hat. pose proof (sf_cmd Hf) as Hu. unfold user in Hu. pose proof (al_len _ _ _ _ _ Hat) as Hlen.
  assert (∀ (k : unit → prog (option Z)) Q, (∀ w, at_line v0 (add_text [10] out, a) ks l w → str_at (v_mem w) cmd_buf l → ok (k tt) w Q) →
    ok (putchar_custom ch_buf 10;; st8 (cmd_buf + Z.of_nat (length l)) 0 ≫= k) v Q) as Hpre.
  { intros k Q Hk. eapply (do_putchar _ v0 out a ks l v 10 10); [done|done|lia|]. intros w Hw. apply do_st8; [unfold user; lia|].
    apply (at_line_store _ _ _ _ _ (cmd_buf + Z.of_nat (length l)) 0) in Hw; [|left; unfold span; lia].
    apply Hk; [exact Hw|]. eapply line_str; [exact Hw|]. cbn. apply load8_store8_eq. }
  unfold shell_enter. case_decide as Hexit.
  - apply Hpre. intros w Hw Hs. destruct (Z.ltb_spec 0 (Z.of_nat (length l))); [|by subst].
    eapply do_strncmp; [exact Hl|solve [lit_in]|cbn; lia|exact Hw|exact Hs|]. intros r Hr.
    destruct (Z.eqb_spec r 0) as [E|_]; [apply Hr in E; by subst|].
    eapply do_strncmp; [exact Hl|solve [lit_in]|cbn; lia|exact Hw|exact Hs|]. intros r' Hr'.
    rewrite (proj2 (Z.eqb_eq r' 0)) by (by apply Hr'). by apply ok_ret.
  - intros s' Ha. apply Hpre. intros w Hw Hs. unfold answer in Ha. destruct (Z.ltb_spec 0 (Z.of_nat (length l))) as [H0|H0].
    2:{ rewrite decide_True in Ha by (destruct l; [done|cbn in H0; lia]). injection Ha as <-. by eapply do_prompt. }
    rewrite decide_False in Ha by (intros ->; cbn in H0; lia).
    eapply do_strncmp; [exact Hl|solve [lit_in]|cbn; lia|exact Hw|exact Hs|]. intros r Hr.
    case_decide as Hclear.
    + injection Ha as <-. rewrite (proj2 (Z.eqb_eq r 0)) by (by apply Hr).
      eapply (ok_bind _ _ _ (λ _ u, at_line v0 (Wipe :: add_text [10] out, a) ks l u)).
      * eapply ok_event; [reflexivity|]. apply ok_ret. destruct Hw as [Hm Hv Hb Hn Hc]. split; try done.
        unfold set_out. rewrite Hv. reflexivity.
      * intros _ u Hu'. apply (do_prompt v0 (Wipe :: add_text [10] out) a ks l u Hl Hu').
    + rewrite (proj2 (Z.eqb_neq r 0)) by (by rewrite Hr).
      eapply do_strncmp; [exact Hl|solve [lit_in]|cbn; lia|exact Hw|exact Hs|]. intros r' Hr'.
      rewrite (proj2 (Z.eqb_neq r' 0)) by (by rewrite Hr').
      apply bind_Some in Ha as (file & Hd & Ha). apply bind_Some in Ha as (text & Hrep & [= <-]).
      eapply do_exec; [exact Hw|exact Hs|exact Hd|exact Hrep|]. intros u Hu' Em.
      eapply do_report; [exact Hl|exact Hu'|by rewrite Em|exact Hrep|]. intros u' Hu''. rewrite <-add_text_app. by eapply do_prompt.
Qed.

(** ** The loop *)

Lemma at_line_key v0 s c ks l v : at_line v0 s (c :: ks) l v → at_line v0 s ks l (set_keys v ks) ∧ v_keys v = c :: ks.
Proof. intros [Hm Hv Hl Hn Hc]. split; [split; try done|by rewrite Hv]. unfold set_keys. by rewrite Hv. Qed.

Lemma do_getchar {A} (k : Z → prog A) v0 s c ks l v Q :
  at_line v0 s (c :: ks) l v → (∀ w, at_line v0 s ks l w → ok (k (s8 c)) w Q) → ok (getchar ≫= k) v Q.
Proof.
  intros Hat Hk. destruct (at_line_key _ _ _ _ _ _ Hat) as [Hat' Ek].
  eapply (ok_bind _ _ _ (λ x w, x = s8 c ∧ w = set_keys v ks)); [|intros _ _ [-> ->]; by apply Hk].
  eapply ok_event; [cbn; rewrite Ek; reflexivity|]. by apply ok_ret.
Qed.

(** Any key but enter edits the line and echoes it. *)
Lemma ok_key v0 out a c ks l v :
  literals o lit P shell_lits (v_mem v0) → at_line v0 (out, a) (c :: ks) l v → 0 < c < 256 → c ≠ 10 →
  ok (shell_step lit cmd_buf ch_buf (Z.of_nat (length l))) v (λ x w,
    x = inl (Z.of_nat (length (edit l c))) ∧
    at_line v0 (match echo l c with [] => out | e => add_text e out end, a) ks (edit l c) w).
Proof using Hf Hsl.
  intros Hl Hat Hc Hn. unfold shell_step. eapply do_getchar; [exact Hat|]. clear Hat. intros w Hat.
  destruct (s8_u8 c Hc) as (E8 & Eb & Ee). pose proof (al_len _ _ _ _ _ Hat) as Hlen. unfold edit, echo.
  destruct (Z.eqb_spec (s8 c) 8) as [H8|H8].
  - rewrite (proj2 (Z.eqb_eq c 8)) by (by apply Eb). destruct (Z.ltb_spec 0 (Z.of_nat (length l))) as [H0|H0].
    2:{ destruct l; [|cbn in H0; lia]. by apply ok_ret. }
    eapply do_lit; [exact Hl|solve [lit_in]|exact Hat|]. intros u Hu. apply ok_ret.
    destruct l as [|x l _] using rev_ind; [cbn in H0; lia|]. rewrite removelast_last. split.
    + rewrite length_app. cbn. f_equal. lia.
    + destruct Hu as [Hm Hv Hb Hn' Hch]. destruct (l ++ [x]) as [|y r] eqn:El; [by destruct l|]. rewrite <-El in *.
      split; try done; [by eapply bytes_at_prefix|rewrite length_app in Hn'; lia|by apply Forall_app in Hch as [? _]].
  - rewrite (proj2 (Z.eqb_neq c 8)) by (by rewrite <-Eb).
    rewrite (proj2 (Z.eqb_neq (s8 c) 10)) by (by rewrite Ee).
    change (64 - 1) with 63. destruct (Z.ltb_spec (Z.of_nat (length l)) 63) as [H63|H63]; [|by apply ok_ret].
    pose proof (sf_cmd Hf) as Hu. unfold user in Hu. apply do_st8; [unfold user; lia|].
    eapply do_putchar; [apply (at_line_add v0 (out, a) ks l w (s8 c) c); [exact Hat|lia|exact E8|exact Hc]|exact E8|exact Hc|].
    intros u Hu'. apply ok_ret. split; [|exact Hu']. rewrite length_app. cbn. f_equal. lia.
Qed.

(** The screen after the keys of a line; keys that show nothing print nothing. *)
Fixpoint echoed (l cs : list Z) (out : list event) : list event :=
  match cs with
  | [] => out
  | c :: cs => echoed (edit l c) cs (match echo l c with [] => out | e => add_text e out end)
  end.
Lemma echoed_text cs : ∀ l out, add_text [10] (echoed l cs out) = add_text (echo_all l cs ++ [10]) out.
Proof.
  induction cs as [|c cs IH]; intros l out; cbn [echoed echo_all]; [done|]. rewrite IH.
  destruct (echo l c) as [|e es]; [done|]. by rewrite add_text_app, <-app_assoc.
Qed.

(** The loop from the line [l]: the keys of the rest of the line are taken in
    turn. *)
Lemma ok_keys cs : ∀ v0 out a ks l v Q,
  literals o lit P shell_lits (v_mem v0) → at_line v0 (out, a) (cs ++ ks) l v →
  Forall (λ c, 0 < c < 256 ∧ c ≠ 10) cs →
  (∀ w, at_line v0 (echoed l cs out, a) ks (fold_left edit cs l) w →
     ok (ITree.iter (shell_step lit cmd_buf ch_buf) (Z.of_nat (length (fold_left edit cs l)))) w Q) →
  ok (ITree.iter (shell_step lit cmd_buf ch_buf) (Z.of_nat (length l))) v Q.
Proof using Hf Hsl.
  induction cs as [|c cs IH]; intros v0 out a ks l v Q Hl Hat HF Hk; [by apply Hk|].
  apply Forall_cons in HF as [[Hc Hn] HF']. eapply ok_iter; [by apply (ok_key v0 out a c (cs ++ ks) l v)|].
  intros ? w [-> Hw]. by eapply (IH v0 _ a ks (edit l c) w).
Qed.

(** Enter, in the loop. *)
Lemma ok_line v0 out a ks l v s' Q :
  literals o lit P shell_lits (v_mem v0) → at_line v0 (out, a) (10 :: ks) l v → l ≠ chars "exit" →
  answer l (add_text [10] out, a) = Some s' →
  (∀ w, at_line v0 s' ks [] w → ok (ITree.iter (shell_step lit cmd_buf ch_buf) 0) w Q) →
  ok (ITree.iter (shell_step lit cmd_buf ch_buf) (Z.of_nat (length l))) v Q.
Proof using Hf Hsl.
  intros Hl Hat Hne Ha Hk. eapply (ok_iter _ _ _ (λ x w, x = inl 0 ∧ at_line v0 s' ks [] w)).
  - unfold shell_step. eapply do_getchar; [exact Hat|]. clear Hat. intros w Hat. change (s8 10) with 10. cbn [Z.eqb Pos.eqb].
    pose proof (ok_enter v0 out a ks l w Hl Hat) as He. rewrite decide_False in He by exact Hne.
    eapply ok_bind; [exact (He s' Ha)|]. intros _ u [-> Hu]. by apply ok_ret.
  - intros _ w [-> Hw]. by apply Hk.
Qed.

Definition enter_all (css : list (list Z)) : list Z := concat ((λ cs, cs ++ [10]) <$> css).

Lemma ok_session css : ∀ v0 out a ks v s' Q,
  literals o lit P shell_lits (v_mem v0) → at_line v0 (out, a) (enter_all css ++ ks) [] v →
  Forall (λ cs, Forall (λ c, 0 < c < 256 ∧ c ≠ 10) cs ∧ fold_left edit cs [] ≠ chars "exit") css →
  session css (out, a) = Some s' →
  (∀ w, at_line v0 s' ks [] w → ok (ITree.iter (shell_step lit cmd_buf ch_buf) 0) w Q) →
  ok (ITree.iter (shell_step lit cmd_buf ch_buf) 0) v Q.
Proof using Hf Hsl.
  induction css as [|cs css IH]; intros v0 out a ks v s' Q Hl Hat HF Hs Hk.
  { injection Hs as <-. by apply Hk. }
  inversion_clear HF as [|? ? [Hcs Hne] HF']. cbn [session] in Hs. apply bind_Some in Hs as ([out1 a1] & Ha & Hs).
  unfold enter_all in Hat. cbn [fmap list_fmap concat] in Hat. rewrite <-!app_assoc in Hat.
  apply (ok_keys cs v0 out a _ [] v Q Hl Hat Hcs). intros w Hw.
  unfold type_line in Ha. cbn [fst snd] in Ha. rewrite <-echoed_text in Ha.
  eapply (ok_line v0 _ a _ _ w (out1, a1)); [exact Hl|exact Hw|exact Hne|exact Ha|]. intros u Hu.
  by apply (IH v0 out1 a1 ks u s' Q Hl Hu HF' Hs).
Qed.

(** The whole of [main]: after the lines [css], and a line that is "exit", it
    returns 0. *)
Lemma shell_spec css cs v s' :
  literals o lit P shell_lits (v_mem v) → v_open v = None →
  v_keys v = enter_all (css ++ [cs]) →
  Forall (λ cs, Forall (λ c, 0 < c < 256 ∧ c ≠ 10) cs ∧ fold_left edit cs [] ≠ chars "exit") css →
  Forall (λ c, 0 < c < 256 ∧ c ≠ 10) cs → fold_left edit cs [] = chars "exit" →
  session css (add_text (started_text ++ prompt_text) (v_out v), v_args v) = Some s' →
  ok (shell_main lit cmd_buf ch_buf) v (λ r w,
    r = 0 ∧ v_out w = add_text (echo_all [] cs ++ [10]) s'.1 ∧ v_args w = s'.2 ∧ v_keys w = []).
Proof using Hf Hsl.
  intros Hl Ho Hk HF Hcs He Hs. assert (at_line v (v_out v, v_args v) (v_keys v) [] v) as Hat.
  { split; [apply same_but_refl|destruct v; cbn in *; by subst|intros i; cbn; lia|cbn; lia|constructor]. }
  unfold shell_main. eapply do_lit; [exact Hl|solve [lit_in]|exact Hat|]. clear Hat. intros w1 Hat.
  eapply do_lit; [exact Hl|solve [lit_in]|exact Hat|]. clear Hat. intros w2 Hat. rewrite add_text_app in Hat.
  rewrite Hk in Hat. unfold enter_all in Hat. rewrite fmap_app, concat_app in Hat. fold (enter_all css) in Hat.
  destruct s' as [out a]. eapply ok_session; [exact Hl|exact Hat|exact HF|exact Hs|].
  clear Hat. intros w3 Hat. cbn [fmap list_fmap concat] in Hat. rewrite app_nil_r in Hat.
  apply (ok_keys cs v out a [10] [] w3 _ Hl Hat Hcs). clear Hat. intros w4 Hat. set (l := fold_left edit cs []) in *.
  eapply (ok_iter _ _ _ (λ x w, x = inr 0 ∧ at_line v (add_text [10] (echoed [] cs out), a) [] l w)).
  - unfold shell_step. eapply do_getchar; [exact Hat|]. clear Hat. intros w Hat. change (s8 10) with 10. cbn [Z.eqb Pos.eqb].
    pose proof (ok_enter v _ a [] l w Hl Hat) as Hen. rewrite decide_True in Hen by exact He.
    eapply ok_bind; [exact Hen|]. intros _ u [-> Hu]. by apply ok_ret.
  - intros _ w [-> Hw]. rewrite (al_view _ _ _ _ _ Hw). cbn [v_out v_args v_keys fst snd]. by rewrite echoed_text.
Qed.
End Shell.
