(* ===== verification/UserKernel.v ===== *)
(** * User programs on the kernel

    The kernel as a machine for user programs: [int 0x80] is
    [syscall_handler], the memory of a program is what the page tables let
    ring 3 use, and any other access is a page fault, which the kernel reports
    before it halts.  It simulates the specification of UserOs.v. *)

From Stdlib Require Import String.
From stdpp Require Import gmap.
From S2P Require Import Prelude Mem Pmm Heap HeapList HeapInv HeapProps Paging PagingProps Io Keyboard KeyboardProps Vga VgaProps.
From S2P Require Import Args ArgsProps Fat32 Fat32Dir Fat32Props Fat32List Process Gdt Idt Serial Elf ElfProps Syscall SyscallProps.
From S2P Require Import KernelProps KernelRun User UserRun UserOs UserProps.

(** The kernel, its devices, and what will happen during its waits: the
    interrupts of each [hlt] of each [SYSCALL_GETCHAR] to come, and the values
    of the clock after each [hlt] of each [SYSCALL_SLEEP]. *)
Record world (D : Type) := World {
  u_sys : sys;
  u_dev : D;
  u_keys : list (list (list Z));
  u_sleeps : list (list Z)
}.
Arguments World {D} _ _ _ _.
Arguments u_sys {D} _.
Arguments u_dev {D} _.
Arguments u_keys {D} _.
Arguments u_sleeps {D} _.

(** What a call of [exec] leaves to the compiler, and the instruction that
    faults. *)
Record user_site := UserSite { us_site : Kernel.call_site; us_eip : Z }.

Section Machine.
Context {D : Type} `{PIO : PortIO D} `{BD : BlockDevice D}.
Context (exec_buffer saved_program : Z) (fuel : nat) (site : user_site).

Definition k_call (num a1 a2 a3 : Z) (w : world D) : option (result Z (world D)) :=
  let s := us_site site in
  let wait := Waits (default [] (head (u_keys w))) (default [] (head (u_sleeps w))) in
  let keys := if num =? SYSCALL_GETCHAR then tail (u_keys w) else u_keys w in
  let sleeps := if num =? SYSCALL_SLEEP then tail (u_sleeps w) else u_sleeps w in
  match syscall_handler exec_buffer saved_program fuel num a1 a2 a3 (Kernel.cs_eflags s) (Kernel.cs_ctx s)
          (Kernel.cs_saved_esp0 s) (Kernel.cs_current_esp s) (Kernel.cs_program_name s) wait (u_sys w) (u_dev w) with
  | (Some (Syscall.Ret r, st), d) => Some (Done r (World st d keys sleeps))
  | (Some (Resume _, st), d) => Some (Exited (World st d keys sleeps))
  | (Some (Enter _, _), _) => None
  | (None, _) => None
  end.

(** The page fault exception; the pages of ring 3 are writable, so that a
    fault is an access to a page that is absent or not its own. *)
Definition k_fault {T} (write : bool) (a : Z) (w : world D) : option (result T (world D)) :=
  let pg := y_pg (u_sys w) in
  let code := (match mapping pg a with Some _ => 1 | None => 0 end) + (if write then 2 else 0) + 4 in
  let regs := IsrRegs 0x23 0 0 0 0 0 0 0 0 14 code (us_eip site) 0x1B 0 0 0x23 in
  let '(v, d) := page_fault_report a regs (x_vga (y_exec (u_sys w))) (u_dev w) in
  Some (Halted (World (with_vga (u_sys w) v) d (u_keys w) (u_sleeps w))).

Definition set_memory (w : world D) (m : mem) : world D :=
  World (with_mem (u_sys w) m) (u_dev w) (u_keys w) (u_sleeps w).

(** The access to [n] bytes of ring 3 at [a], within one page: at the physical
    address of the tables, or a page fault. *)
Definition k_access {T} (write : bool) (a n : Z) (w : world D) (f : Z → option (result T (world D))) :
    option (result T (world D)) :=
  let pg := y_pg (u_sys w) in
  if a / PAGE_SIZE =? (a + n - 1) / PAGE_SIZE then
    if user_accessible pg a then f (paging_get_phys pg a) else k_fault write a w
  else None.

Definition k_step T (e : userE T) (w : world D) : option (result T (world D)) :=
  let m := y_mem (u_sys w) in
  match e in userE T return option (result T (world D)) with
  | Int80 num a1 a2 a3 => k_call num a1 a2 a3 w
  | Load8 a => k_access false a 1 w (λ p, Some (Done (load8 m p) w))
  | Load32 a => k_access false a 4 w (λ p, Some (Done (load32 m p) w))
  | Store8 a x => k_access true a 1 w (λ p, Some (Done tt (set_memory w (store8 m p x))))
  | Store32 a x => k_access true a 4 w (λ p, Some (Done tt (set_memory w (store32 m p x))))
  end.
End Machine.

(** ** The screen *)

Definition white (v : vga) : vga := vga_set_color v VGA_COLOR_WHITE VGA_COLOR_BLACK.
Definition red (v : vga) : vga := vga_set_color v VGA_COLOR_LIGHT_RED VGA_COLOR_BLACK.
Definition hex (n : Z) : list Z := 48 :: 120 :: hex8 n.

Definition fault_text (eip a err : Z) : list Z :=
  chars "Address: " ++ hex a ++ [10] ++ chars "EIP: " ++ hex eip ++ [10] ++ chars "  " ++
  chars (if c_true (err .& 0x1) then "Page-protection" else "Non-present page") ++ chars ", " ++
  chars (if c_true (err .& 0x2) then "Write" else "Read") ++ chars ", " ++
  chars (if c_true (err .& 0x4) then "User-mode" else "Kernel-mode") ++ [10].

Definition show (eip : Z) (e : event) (v : vga) : vga :=
  match e with
  | Say s => put_all (white v) s
  | Wipe => vga_fill v
  | Bye code => put_all (cyan v) ([10] ++ chars "[Program exited with code: " ++ hex code ++ line "]")
  | Fault a err =>
      put_all (red (put_all (white (put_all (red v) ([10] ++ line "*** PAGE FAULT ***"))) (fault_text eip a err)))
        (line "System halted.")
  end.
Definition shown (eip : Z) (v : vga) (out : list event) : vga := foldr (show eip) v out.

Lemma vga_newline_color v : vga_color (vga_newline v) = vga_color v.
Proof. unfold vga_newline. by bcase. Qed.
Lemma vga_put_color v c : vga_color (vga_put v c) = vga_color v.
Proof. unfold vga_put. cbv zeta. repeat bcase; rewrite ?vga_newline_color; reflexivity. Qed.
Lemma put_all_color s : ∀ v, vga_color (put_all v s) = vga_color v.
Proof. induction s as [|c s IH]; intros v; [done|]. cbn [put_all fold_left]. rewrite <-(vga_put_color v c). apply IH. Qed.

#[local] Opaque put_all vga_fill.

Lemma white_color v : vga_color v = vga_color (white v) → white v = v.
Proof. destruct v as [b r c col]. unfold white, vga_set_color. cbn. by intros <-. Qed.
Lemma white_put v s : white (put_all (white v) s) = put_all (white v) s.
Proof. apply white_color. rewrite put_all_color. reflexivity. Qed.
Lemma shown_add eip v s out : shown eip v (add_text s out) = put_all (white (shown eip v out)) s.
Proof.
  destruct out as [|[t| | |] out]; cbn [shown add_text foldr show]; [reflexivity| |reflexivity..].
  by rewrite put_all_app, white_put.
Qed.

Lemma returns_eq {D A} (m : io D A) a b : returns m a → a = b → returns m b.
Proof. by intros H <-. Qed.
Ltac prints_screen :=
  repeat (eapply returns_bind; [first [apply returns_puts|apply returns_puthex]|]); apply returns_puts.

Lemma returns_fault {D} `{PortIO D} eip a code v :
  let regs := IsrRegs 0x23 0 0 0 0 0 0 0 0 14 code eip 0x1B 0 0 0x23 in
  returns (D := D) (page_fault_report a regs v) (show eip (Fault a code) v).
Proof.
  intros regs. unfold page_fault_report. eapply returns_eq; [cbv zeta; prints_screen|].
  cbn [err_code i_eip regs show]. rewrite <-!put_all_app. unfold fault_text, hex.
  destruct (c_true (code .& 1)), (c_true (code .& 2)), (c_true (code .& 4));
    rewrite !c_string_id by (vm_compute; repeat constructor; discriminate);
    rewrite <-!app_assoc; reflexivity.
Qed.

(** ** What the kernel keeps of the specification *)

(** The tables give ring 3 exactly its memory, at its own addresses, and map
    16 MB in all. *)
Record user_map (pg : paging (list Z)) : Prop := {
  um_inv : paging_inv pg;
  um_tables a : table_byte pg a → ¬ user_range a;
  um_user a : u32 a → user_accessible pg a = true ↔ user_range a;
  um_phys a : user_range a → paging_get_phys pg a = a;
  um_map a : u32 a → ¬ user_range a → is_Some (mapping pg a) ↔ a < 0x1000000
}.

Lemma user_map_ext pg m : user_map pg →
  (∀ a, addr_ok a 1 → table_byte pg a → load8 m a = load8 (pg_mem pg) a) → user_map (Paging.set_mem pg m).
Proof.
  intros [Hi Ht Hu Hp Hm] Hb. destruct (tables_ext pg m Hi Hb) as (Hpde & Hmap & Hi').
  assert (∀ a, user_range a → u32 a) as Hr by (unfold user_range, u32; lia).
  split; [done| | | |].
  - intros a Ha%table_byte_ext; [by apply Ht|done].
  - intros a Ha. rewrite user_accessible_spec, Hmap by done. rewrite <-user_accessible_spec by done. by apply Hu.
  - intros a Ha. rewrite paging_get_phys_spec, Hmap by auto. rewrite <-paging_get_phys_spec by auto. by apply Hp.
  - intros a Ha Hn. rewrite Hmap by done. by apply Hm.
Qed.

(** The identity map with the pages of a program. *)
Lemma user_map_init (pg : paging (list Z)) :
  init_state 4 pg → (∀ a, table_byte pg a → ¬ user_range a) → user_map (map_user_pages pg).
Proof.
  intros Hi Ht. pose proof (init_table pg 0 Hi ltac:(lia)) as Hp.
  destruct (map_user_pages_spec pg (is_inv _ _ Hi) Hp) as (Hinv & _ & Hm). cbv zeta in Hinv, Hm.
  destruct (map_user_pages_keeps pg (is_inv _ _ Hi) Hp) as [_ Hback].
  assert (∀ a, table_byte (map_user_pages pg) a → ¬ user_range a) as Hta by auto.
  clear Ht Hp Hback. split; [exact Hinv|exact Hta| | |].
  - intros a Ha. rewrite user_accessible_spec, Hm by done. case_decide as Hr.
    + destruct (user_entry a Ha) as [-> _]. done.
    + rewrite <-user_accessible_spec by (done || apply Hi). rewrite (init_user _ _ Hi Ha). done.
  - intros a Hr. assert (u32 a) as Ha by (unfold user_range, u32 in *; lia).
    rewrite paging_get_phys_spec, Hm, decide_True by done. apply (user_entry a Ha).
  - intros a Ha Hr. rewrite Hm, decide_False by done. destruct (decide (a < 16777216)).
    + rewrite (is_mapped _ _ Hi a Ha) by lia. split; [done|by eexists].
    + rewrite (is_unmapped _ _ Hi a Ha) by lia. split; [intros [? ?]; done|lia].
Qed.

(** The character the next [SYSCALL_GETCHAR] returns when nothing comes over
    the serial line. *)
Fixpoint next_char (k : kbd) (wakes : list (list Z)) : option (Z * kbd) :=
  let '(c, k) := keyboard_getchar k in
  if negb (c =? 0) then Some (c, k)
  else match wakes with
       | [] => None
       | scs :: wakes => next_char (fold_left kb_handle scs k) wakes
       end.
(** The calls to come return the characters [cs]. *)
Fixpoint typed (k : kbd) (keys : list (list (list Z))) (cs : list Z) : Prop :=
  match cs with
  | [] => True
  | c :: cs => ∃ k', next_char k (default [] (head keys)) = Some (c, k') ∧ u8 c ∧ typed k' (tail keys) cs
  end.

Section Sees.
Context {D : Type} `{PIO : PortIO D} `{BD : BlockDevice D}.
Context (exec_buffer saved_program : Z) (fuel : nat) (site : user_site).
Context (img : Z → list Z) (root : list Z) (o : system) (v0 : vga).

(** The files of the volume that the specification speaks of. *)
Definition disk_ok (fs : fat32_fs_t) : Prop := ∀ nm file, o_disk o nm = Some file →
  match lookup_file img fs root nm, file with
  | None, None => True
  | Some f, Some c => ∃ lf, chain img fs (first_cluster f) lf ∧ 0 <= f_size f < 2147483648 ∧
      f_size f <= cluster_size fs * Z.of_nat (length lf) ∧ c = content img fs lf f
  | _, _ => False
  end.
(** The open file and the bytes of it that are left. *)
Definition open_ok (fs : fat32_fs_t) (cur : bool) (f : fat32_file_t) (rest : option (list Z)) : Prop :=
  match rest with
  | None => cur = false
  | Some c => cur = true ∧ ∃ lf, file_at img fs lf f ∧ valid f ≠ 0 ∧ position f <= f_size f < 2147483648 ∧
      c = drop (Z.to_nat (position f)) (content img fs lf f)
  end.

(** Kernel structures that system calls rely on, apart from the memory of
    programs and from the buffer of [SYSCALL_EXEC]. *)
Record kernel_ok (st : sys) : Prop := {
  ko_map : user_map (y_pg st);
  ko_fs : fs_ok 0 (y_fs st);
  ko_root : chain img (y_fs st) (root_dir_cluster (y_fs st)) root;
  ko_disk : disk_ok (y_fs st);
  ko_dir : o_dir o = dirinfo <$> filter (λ e, listed e = true) (live_entries (dir_entries img (y_fs st) root));
  ko_heap : ∃ l, heap_inv (Heap (y_mem st) (y_free_list st) (y_heap_pages st) (pg_pa (y_pg st))) l ∅ ∧
    (∀ z, covers l z → ¬ user_range z ∧ ¬ span exec_buffer sizeof_exec_buffer z) ∧
    o_heap o = {|
      total_bytes := PAGE_SIZE * y_heap_pages st; free_bytes := sum_sizes l;
      used_bytes := live_total ∅ + HEADER_SIZE * Z.of_nat (length l);
      num_free_blocks := Z.of_nat (length l); num_pages := y_heap_pages st |};
  ko_pages : pmm_get_free_count (pg_pa (y_pg st)) = o_free_pages o;
  ko_pid : sys_getpid st = o_pid o;
  ko_depth : 0 < exec_depth (y_exec st);
  ko_buffer : addr_ok exec_buffer sizeof_exec_buffer ∧
    ∀ a, span exec_buffer sizeof_exec_buffer a → ¬ user_range a ∧ ¬ table_byte (y_pg st) a
}.

Record sees (v : view) (w : world D) : Prop := {
  se_ok : kernel_ok (u_sys w);
  se_mem a : user_range a → load8 (y_mem (u_sys w)) a = load8 (v_mem v) a;
  se_vga : x_vga (y_exec (u_sys w)) = shown (us_eip site) v0 (v_out v);
  se_open : open_ok (y_fs (u_sys w)) (current_file (u_sys w)) (y_file (u_sys w)) (v_open v);
  se_args : current_program_args (u_sys w) = v_args v ∧ rows_ok (args (v_args v));
  se_keys : typed (y_kbd (u_sys w)) (u_keys w) (v_keys v);
  se_time : y_ticks (u_sys w) = v_ticks v ∧ u_sleeps w = v_sleeps v
}.
(** When the program is over. *)
Definition ended (v : view) (w : world D) : Prop :=
  x_vga (y_exec (u_sys w)) = shown (us_eip site) v0 (v_out v).
End Sees.
