(* ===== verification/UserSim.v ===== *)
(** * The kernel implements the specification of its system calls

    The simulation of UserOs.v by the kernel, call by call, and what it gives
    for the programs. *)

From Stdlib Require Import String.
From stdpp Require Import gmap.
From S2P Require Import Prelude Mem Pmm Heap HeapList HeapInv HeapProps Paging PagingProps Io Keyboard KeyboardProps Vga VgaProps.
From S2P Require Import Args ArgsProps Fat32 Fat32Names Fat32Dir Fat32Props Fat32List Process Gdt Idt Serial Elf ElfProps Syscall SyscallProps.
From S2P Require Import KernelProps KernelRun User UserRun UserOs UserProps UserPrograms UserKernel.

#[local] Opaque put_all vga_fill.

(** ** Two memories *)

(** A store makes the byte it writes the same and leaves the others as equal as
    they were. *)
Lemma store8_agree m m' a x b : load8 m b = load8 m' b → load8 (store8 m a x) b = load8 (store8 m' a x) b.
Proof.
  intros H. destruct (decide (w32 a = w32 b)) as [E|E].
  - unfold load8, store8. rewrite E. by rewrite !lookup_insert_eq.
  - by rewrite !load8_store8_ne.
Qed.
Lemma store32_agree m m' a x b : load8 m b = load8 m' b → load8 (store32 m a x) b = load8 (store32 m' a x) b.
Proof. intros H. unfold store32. by repeat apply store8_agree. Qed.
Lemma store_bytes_agree l : ∀ m m' a b, load8 m b = load8 m' b → load8 (store_bytes m a l) b = load8 (store_bytes m' a l) b.
Proof. induction l as [|x l IH]; intros m m' a b H; [done|]. apply IH. by apply store8_agree. Qed.
Lemma store_arg_agree l : ∀ n m m' a b, load8 m b = load8 m' b → load8 (store_arg m a l n) b = load8 (store_arg m' a l n) b.
Proof.
  induction l as [|x l IH]; intros [|n] m m' a b H; cbn [store_arg]; try by apply store8_agree.
  destruct (x =? 0); [by apply store8_agree|]. apply IH. by apply store8_agree.
Qed.
Lemma store_dirinfos_agree l : ∀ m m' a b,
  load8 m b = load8 m' b → load8 (store_dirinfos m a l) b = load8 (store_dirinfos m' a l) b.
Proof.
  induction l as [|i l IH]; intros m m' a b H; [done|]. apply IH. unfold store_dirinfo.
  by apply store8_agree, store32_agree, store_bytes_agree.
Qed.

(** The branch of a call number. *)
Ltac dispatch :=
  cbn [Z.eqb Pos.eqb SYSCALL_PRINT SYSCALL_EXIT SYSCALL_FILE_OPEN SYSCALL_FILE_READ SYSCALL_FILE_CLOSE
    SYSCALL_LIST_DIR SYSCALL_GET_ARGS SYSCALL_GETCHAR SYSCALL_EXEC SYSCALL_CLEAR SYSCALL_SLEEP SYSCALL_UPTIME
    SYSCALL_MEMINFO SYSCALL_HEAP_STATS SYSCALL_GETPID] in *.

Section Sim.
Context {D : Type} `{PIO : PortIO D} `{BD : BlockDevice D}.
Context (exec_buffer saved_program : Z) (fuel : nat) (site : user_site).
Context (img : Z → list Z) (root : list Z) (o : system) (v0 : vga).
Context (Hdrain : drains (D := D) fuel) (Hquiet : ∀ d : D, (serial_received SERIAL_COM1 d).1 = 0).
Context (Hdev : reads_image (D := D) 0 img) (Himg : image_ok img).
Context (Hfuel : fuel_ok fuel) (Hroot : (length root < fuel)%nat) (Hslen : (o_slen o <= fuel)%nat).
Context (Hname : o_program_name o = Kernel.cs_program_name (us_site site) ∧ length (o_program_name o) = 64%nat).

#[local] Notation kernel_ok := (kernel_ok exec_buffer img root o).
#[local] Notation sees := (sees (D := D) exec_buffer site img root o v0).
#[local] Notation k_call := (k_call exec_buffer saved_program fuel site).

(** The handler as [k_call] calls it. *)
Definition handler (num a1 a2 a3 : Z) (w : world D) : io D (option (outcome * sys)) :=
  let s := us_site site in
  syscall_handler exec_buffer saved_program fuel num a1 a2 a3 (Kernel.cs_eflags s) (Kernel.cs_ctx s)
    (Kernel.cs_saved_esp0 s) (Kernel.cs_current_esp s) (Kernel.cs_program_name s)
    (Waits (default [] (head (u_keys w))) (default [] (head (u_sleeps w)))) (u_sys w).

Definition next_world (num : Z) (w : world D) (st : sys) (d : D) : world D :=
  World st d (if num =? SYSCALL_GETCHAR then tail (u_keys w) else u_keys w)
    (if num =? SYSCALL_SLEEP then tail (u_sleeps w) else u_sleeps w).

Lemma call_returns num a1 a2 a3 w r st :
  ends (D := D) (handler num a1 a2 a3 w) (λ p, p = (Syscall.Ret r, st)) →
  ∃ d, k_call num a1 a2 a3 w = Some (Done r (next_world num w st d)).
Proof.
  intros H. destruct (H (u_dev w)) as (p & d & E & ->). exists d. unfold UserKernel.k_call. cbv zeta.
  unfold handler in E. cbv zeta in E. rewrite E. reflexivity.
Qed.

(** *** States *)

Lemma kernel_ok_mem st m : kernel_ok st →
  (∀ a, addr_ok a 1 → ¬ user_range a → ¬ span exec_buffer sizeof_exec_buffer a → load8 m a = load8 (y_mem st) a) →
  kernel_ok (with_mem st m).
Proof.
  intros [Hm Hfs Hr Hd Hdir (l & Hh & Hl & Hst) Hp Hpid Hdep [Hb Hbuf]] E.
  assert (∀ a, addr_ok a 1 → table_byte (y_pg st) a → load8 m a = load8 (y_mem st) a) as Et.
  { intros a Ha Ht. apply E; [done|by apply (um_tables _ Hm)|]. intros Hs. by destruct (Hbuf a Hs). }
  destruct (tables_ext (y_pg st) m (um_inv _ Hm) Et) as (Hpde & _ & _).
  split; [by apply user_map_ext|done..| |done|done|done|].
  - exists l. split; [|done]. apply (heap_inv_ext _ _ m (pg_pa (y_pg st)) Hh); [|apply Hh|done].
    intros z Hz. destruct (Hl z Hz) as [Hz1 Hz2]. apply E; [|done|done]. destruct Hz as (y & Hy & Hz).
    pose proof (wf_segs_ok PAGE_SIZE l y ltac:(done) (hi_wf _ _ _ Hh) Hy) as Hok. destruct y.
    unfold addr_ok, in_seg in *. change TOTAL_MEMORY with 16777216 in *. seg_lia.
  - split; [done|]. intros a Ha. destruct (Hbuf a Ha) as [H1 H2]. split; [done|].
    intros Ht. apply H2. by eapply table_byte_ext.
Qed.

(** A store in the memory of the program. *)
Lemma sees_store v w d m vm keys sleeps :
  sees v w → keys = u_keys w → sleeps = u_sleeps w →
  (∀ a, user_range a → load8 m a = load8 vm a) →
  (∀ a, addr_ok a 1 → ¬ user_range a → ¬ span exec_buffer sizeof_exec_buffer a → load8 m a = load8 (y_mem (u_sys w)) a) →
  sees (set_mem v vm) (World (with_mem (u_sys w) m) d keys sleeps).
Proof.
  intros [Hok Hm Hv Ho Ha Hk Ht] -> -> Hu Hn. split; try done. by apply kernel_ok_mem.
Qed.

(** *** The calls *)

(** Call [num] does what the specification says it does. *)
Definition implements (num a1 a2 a3 : Z) : Prop := ∀ v w r,
  sees v w → os_call o num a1 a2 a3 v = Some r →
  ∃ s, k_call num a1 a2 a3 w = Some s ∧ result_rel sees (ended (D := D) site v0) r s.

Lemma implements_done num a1 a2 a3 w r v' st :
  ends (D := D) (handler num a1 a2 a3 w) (λ p, p = (Syscall.Ret r, st)) → (∀ d, sees v' (next_world num w st d)) →
  ∃ s, k_call num a1 a2 a3 w = Some s ∧ result_rel sees (ended (D := D) site v0) (Done r v') s.
Proof. intros He Hs. destruct (call_returns _ _ _ _ _ _ _ He) as (d & E). eexists. split; [exact E|]. by split. Qed.

(** The state of the kernel does not change. *)
Lemma sees_same num v w d : num ≠ SYSCALL_GETCHAR → num ≠ SYSCALL_SLEEP → sees v w → sees v (next_world num w (u_sys w) d).
Proof.
  intros H1 H2 []. unfold next_world. rewrite (proj2 (Z.eqb_neq _ _) H1), (proj2 (Z.eqb_neq _ _) H2). by split.
Qed.

Lemma user_string_str v w a s : sees v w → user_string o (v_mem v) a = Some s →
  user a (Z.of_nat (length s) + 1) ∧ load_str fuel (y_mem (u_sys w)) a = Some s ∧ nul_free s.
Proof.
  intros Hs E. unfold user_string in E. apply bind_Some in E as (s' & [Hstr Hl]%str_at_load & E).
  destruct (in_user a (Z.of_nat (length s') + 1)) eqn:Hu; [|done]. injection E as ->.
  assert (user a (Z.of_nat (length s) + 1)) as Hua by (unfold in_user in Hu; unfold user; lia).
  split; [done|]. split; [|by eapply str_at_nul_free]. apply load_str_at; [|lia].
  eapply str_at_ext; [|exact Hstr]. intros b Hb. apply (se_mem _ _ _ _ _ _ _ _ Hs). unfold user, user_range in *. lia.
Qed.

Lemma sees_say v w d s : sees v w →
  sees (say v s) (World (with_vga (u_sys w) (put_all (white (x_vga (y_exec (u_sys w)))) s)) d (u_keys w) (u_sleeps w)).
Proof.
  intros [Hok Hm Hv Ho Ha Hk Ht]. split; try done; [by destruct Hok; split|].
  cbn [u_sys with_vga set_exec y_exec x_vga say set_out v_out]. by rewrite shown_add, <-Hv.
Qed.

Lemma implements_print a1 a2 a3 : implements SYSCALL_PRINT a1 a2 a3.
Proof.
  intros v w r Hs E. unfold os_call in E. dispatch. destruct (Z.eqb_spec a1 0) as [->|Hne].
  { injection E as <-. eapply implements_done; [|intros d; by apply sees_same].
    unfold handler, syscall_handler. dispatch. by apply ends_ret. }
  apply bind_Some in E as (s & Es & [= <-]). destruct (user_string_str v w a1 s Hs Es) as (_ & El & Hn).
  eapply implements_done; [|intros d; by apply sees_say].
  unfold handler, syscall_handler. dispatch. unfold sys_print. rewrite (proj2 (Z.eqb_neq _ _) Hne), El.
  eapply (ends_obind _ _ (λ x, x = s)); [by apply ends_ret|]. intros _ ->.
  eapply (ends_obind _ _ (λ x, x = put_all (white (x_vga (y_exec (u_sys w)))) s)).
  - unfold lift. eapply ends_returns; [apply returns_puts|]. apply ends_ret. by rewrite c_string_id.
  - intros _ ->. eapply ends_obind; [by apply ends_serial_puts|]. intros _ _. by apply ends_ret.
Qed.

Lemma implements_exit a1 a2 a3 : implements SYSCALL_EXIT a1 a2 a3.
Proof.
  intros v w r Hs E. unfold os_call in E. dispatch. injection E as <-.
  set (scr := show (us_eip site) (Bye a1) (x_vga (y_exec (u_sys w)))).
  assert (ends (D := D) (handler SYSCALL_EXIT a1 a2 a3 w) (λ p, ∃ ctx st, p = (Resume ctx, st) ∧ x_vga (y_exec st) = scr)) as He.
  { unfold handler, syscall_handler. dispatch. unfold sys_exit. cbv zeta. fold (cyan (x_vga (y_exec (u_sys w)))).
    eapply (ends_obind _ _ (λ x, x = _)); [unfold lift; eapply ends_returns; [apply returns_puts|]; by apply ends_ret|]. intros _ ->.
    eapply (ends_obind _ _ (λ x, x = _)); [unfold lift; eapply ends_returns; [apply returns_puthex|]; by apply ends_ret|]. intros _ ->.
    eapply (ends_obind _ _ (λ x, x = scr)).
    - unfold lift. eapply ends_returns; [apply returns_puts|]. apply ends_ret. rewrite <-!put_all_app.
      unfold scr, show, hex. rewrite !c_string_id by (vm_compute; repeat constructor; discriminate).
      by rewrite <-!app_assoc.
    - intros _ ->. unfold elf_return_to_kernel. cbn [exec_depth with_vga set_exec y_exec].
      rewrite (proj2 (Z.ltb_lt _ _) (ko_depth _ _ _ _ _ (se_ok _ _ _ _ _ _ _ _ Hs))). apply ends_ret. by eexists _, _. }
  destruct (He (u_dev w)) as (p & d & Eh & ctx & st & -> & Hv). eexists. split.
  - unfold UserKernel.k_call. cbv zeta. unfold handler in Eh. cbv zeta in Eh. rewrite Eh. reflexivity.
  - cbn [result_rel]. unfold ended. cbn [u_sys set_out v_out shown foldr]. rewrite Hv. unfold scr.
    rewrite (se_vga _ _ _ _ _ _ _ _ Hs). reflexivity.
Qed.

Lemma implements_clear a1 a2 a3 : implements SYSCALL_CLEAR a1 a2 a3.
Proof.
  intros v w r Hs E. unfold os_call in E. dispatch. injection E as <-.
  eapply (implements_done _ _ _ _ w 0 _ (with_vga (u_sys w) (vga_fill (x_vga (y_exec (u_sys w)))))).
  - unfold handler, syscall_handler. dispatch. eapply (ends_obind _ _ (λ x, x = vga_fill (x_vga (y_exec (u_sys w))))).
    + unfold lift. eapply ends_returns; [|by apply ends_ret]. intros d. unfold vga_clear, mbind, io_bind.
      by destruct (vga_update_cursor _ d).
    + intros _ ->. by apply ends_ret.
  - intros d. destruct Hs as [Hok Hm Hv Ho Ha Hk Ht]. split; try done; [by destruct Hok; split|].
    cbn [next_world u_sys with_vga set_exec y_exec x_vga set_out v_out shown foldr show]. rewrite Hv. reflexivity.
Qed.

(** Calls that only answer. *)
Lemma implements_uptime a1 a2 a3 : implements SYSCALL_UPTIME a1 a2 a3.
Proof.
  intros v w r Hs E. unfold os_call in E. dispatch. injection E as <-.
  eapply implements_done; [|intros d; by apply sees_same]. unfold handler, syscall_handler. dispatch.
  apply ends_ret. by rewrite (proj1 (se_time _ _ _ _ _ _ _ _ Hs)).
Qed.
Lemma implements_meminfo a1 a2 a3 : implements SYSCALL_MEMINFO a1 a2 a3.
Proof.
  intros v w r Hs E. unfold os_call in E. dispatch. injection E as <-.
  eapply implements_done; [|intros d; by apply sees_same]. unfold handler, syscall_handler. dispatch.
  apply ends_ret. unfold sys_meminfo. rewrite <-(ko_pages _ _ _ _ _ (se_ok _ _ _ _ _ _ _ _ Hs)). reflexivity.
Qed.
Lemma implements_getpid a1 a2 a3 : implements SYSCALL_GETPID a1 a2 a3.
Proof.
  intros v w r Hs E. unfold os_call in E. dispatch. injection E as <-.
  eapply implements_done; [|intros d; by apply sees_same]. unfold handler, syscall_handler. dispatch.
  apply ends_ret. by rewrite (ko_pid _ _ _ _ _ (se_ok _ _ _ _ _ _ _ _ Hs)).
Qed.
Lemma implements_heap_stats a1 a2 a3 : implements SYSCALL_HEAP_STATS a1 a2 a3.
Proof.
  intros v w r Hs E. unfold os_call in E. dispatch. injection E as <-.
  eapply implements_done; [|intros d; by apply sees_same]. unfold handler, syscall_handler. dispatch.
  destruct (ko_heap _ _ _ _ _ (se_ok _ _ _ _ _ _ _ _ Hs)) as (l & Hh & _ & Est).
  unfold sys_heap_stats. rewrite (heap_get_stats_correct fuel _ l ∅ Hfuel Hh). cbn [mbind option_bind heap_pages].
  rewrite <-Est. by apply ends_ret.
Qed.
Lemma implements_sleep a1 a2 a3 : implements SYSCALL_SLEEP a1 a2 a3.
Proof.
  intros v w r Hs E. unfold os_call in E. dispatch. destruct (v_sleeps v) as [|ws sl] eqn:Esl; [done|].
  apply bind_Some in E as (t & Et & [= <-]). destruct Hs as [Hok Hm Hv Ho Ha Hk [Ht Hsl]]. rewrite Esl in Hsl.
  eapply (implements_done _ _ _ _ w 0 _ (with_ticks (u_sys w) t)).
  - unfold handler, syscall_handler. dispatch. rewrite Hsl, Ht. cbn [hd_error from_option id w_ticks]. rewrite Et.
    eapply (ends_obind _ _ (λ x, x = t)); [by apply ends_ret|]. intros _ ->. by apply ends_ret.
  - intros d. split; try done; [by destruct Hok; split|]. cbn. by rewrite Hsl.
Qed.

(** *** Files *)

(** The handle changes. *)
Lemma sees_file v w d f cur rest :
  sees v w → open_ok img (y_fs (u_sys w)) cur f rest →
  sees (set_open v rest) (World (with_file (u_sys w) f cur) d (u_keys w) (u_sleeps w)).
Proof. intros [Hok Hm Hv Ho Ha Hk Ht] Ho'. split; try done. by destruct Hok; split. Qed.

Lemma implements_close a1 a2 a3 : implements SYSCALL_FILE_CLOSE a1 a2 a3.
Proof.
  intros v w r Hs E. unfold os_call in E. dispatch. injection E as <-. pose proof (se_open _ _ _ _ _ _ _ _ Hs) as Ho.
  destruct (v_open v) as [c|] eqn:Ev.
  - destruct Ho as [Hc _]. eapply implements_done; [|intros d; apply sees_file; [exact Hs|reflexivity]].
    unfold handler, syscall_handler. dispatch. unfold sys_file_close. rewrite Hc. apply ends_ret. reflexivity.
  - cbn in Ho. eapply implements_done.
    + unfold handler, syscall_handler. dispatch. unfold sys_file_close. rewrite Ho. apply ends_ret. reflexivity.
    + intros d. replace (set_open v None) with v by (destruct v; cbn in *; by subst). by apply sees_same.
Qed.

(** What [fat32_open] does on the volume. *)
Lemma ends_open fs file nm : fs_ok 0 fs → chain img fs (root_dir_cluster fs) root →
  ends (D := D) (fat32_open fuel fs file nm) (λ p,
    p = match lookup_file img fs root nm with Some f => (true, f) | None => (false, file) end).
Proof.
  intros Hfs Hch d. pose proof (fat32_open_spec 0 img Hdev Himg fs root fuel file nm Hfs Hch Hroot d) as E.
  destruct (fat32_open _ _ _ _ d) as [r d']. cbn [fst] in E. eexists _, d'. split; [|reflexivity].
  rewrite E. by destruct (lookup_file _ _ _ _).
Qed.

Lemma implements_open a1 a2 a3 : implements SYSCALL_FILE_OPEN a1 a2 a3.
Proof.
  intros v w r Hs E. unfold os_call in E. dispatch. destruct (Z.eqb_spec a1 0) as [->|Hne].
  { injection E as <-. eapply implements_done; [|intros d; by apply sees_same].
    unfold handler, syscall_handler. dispatch. by apply ends_ret. }
  apply bind_Some in E as (s & Es & E). apply bind_Some in E as (file & Ed & [= <-]).
  destruct (user_string_str v w a1 s Hs Es) as (_ & El & Hn).
  pose proof (se_ok _ _ _ _ _ _ _ _ Hs) as Hok. destruct Hok as [_ Hfs Hch Hdk _ _ _ _ _ _].
  specialize (Hdk _ _ Ed). set (nm := upper_name s 255) in *. set (st := u_sys w) in *.
  set (st1 := if current_file st then with_file st (fat32_close (y_file st)) false else st).
  assert (y_fs st1 = y_fs st ∧ y_mem st1 = y_mem st) as [Efs Em] by (unfold st1; by destruct (current_file st)).
  assert (∀ f cur, with_file st1 f cur = with_file st f cur) as Ew by (unfold st1; by destruct (current_file st)).
  set (f := match lookup_file img (y_fs st) root nm with Some f => f | None => y_file st1 end).
  set (found := match lookup_file img (y_fs st) root nm with Some _ => true | None => false end).
  eapply (implements_done _ _ _ _ w _ _ (with_file st f found)).
  - unfold handler, syscall_handler. dispatch. unfold sys_file_open. rewrite (proj2 (Z.eqb_neq _ _) Hne). fold st. fold st1.
    cbv zeta. rewrite Em. fold st in El. rewrite El. eapply (ends_obind _ _ (λ x, x = s)); [by apply ends_ret|]. intros _ ->.
    fold nm. rewrite Efs. eapply ends_obind; [by apply ends_open|]. intros p ->. rewrite <-Ew. unfold f, found.
    destruct (lookup_file img (y_fs st) root nm), file; try done; apply ends_ret; reflexivity.
  - intros d. apply sees_file; [done|]. unfold f, found. destruct (lookup_file img (y_fs st) root nm) as [g|] eqn:Elk, file as [c|]; try done.
    destruct Hdk as (lf & Hlf & Hsz & Hfit & ->). destruct (lookup_file_at 0 img (y_fs st) root nm g lf Hfs Elk Hlf) as (Hat & Hp & Hval).
    cbn. split; [done|]. exists lf. rewrite Hp. split_and!; [done|lia..|done].
Qed.

Lemma in_user_user a n : in_user a n = true → user a n.
Proof. unfold in_user, user. lia. Qed.

Lemma implements_read a1 a2 a3 : implements SYSCALL_FILE_READ a1 a2 a3.
Proof.
  intros v w r Hs E. unfold os_call in E. dispatch. destruct (Z.eqb_spec a1 0) as [->|Hne].
  { injection E as <-. eapply implements_done; [|intros d; by apply sees_same].
    unfold handler, syscall_handler. dispatch. by apply ends_ret. }
  unfold os_read in E. pose proof (se_open _ _ _ _ _ _ _ _ Hs) as Ho. destruct (v_open v) as [c|] eqn:Ev.
  2:{ injection E as <-. eapply implements_done; [|intros d; by apply sees_same].
    unfold handler, syscall_handler. dispatch. unfold sys_file_read. cbn in Ho. rewrite Ho, orb_true_r. by apply ends_ret. }
  destruct (in_user a1 a2) eqn:Hu; [apply in_user_user in Hu|done]. cbn [andb] in E. unfold user in Hu.
  destruct (Z.ltb_spec a2 (Z.of_nat (o_slen o))) as [Ha2|]; [|done]. injection E as <-.
  destruct Ho as (Hcur & lf & Hat & Hval & Hpos & ->). set (st := u_sys w) in *.
  pose proof (se_ok _ _ _ _ _ _ _ _ Hs) as Hok. destruct Hok as [_ Hfs _ _ _ _ _ _ _ _].
  set (s0 := us_site site).
  destruct (read_call 0 img Hdev Himg exec_buffer saved_program fuel (Kernel.cs_eflags s0) (Kernel.cs_saved_esp0 s0)
    (Kernel.cs_current_esp s0) (Kernel.cs_ctx s0) (Kernel.cs_program_name s0)
    (Waits (default [] (head (u_keys w))) (default [] (head (u_sleeps w)))) st lf a1 a2) as (Hret & Hat' & Hle);
    [done..|lia|lia|lia|].
  set (out := slice _ _ a2) in *. set (f' := seek _ lf _ _) in *.
  pose proof (fa_pos _ _ _ _ Hat) as Hp0. set (cont := content img (y_fs st) lf (y_file st)) in *.
  eapply (implements_done _ _ _ _ w (Z.of_nat (length out)) _ (with_mem (with_file st f' true) (store_bytes (y_mem st) a1 out))).
  - intros d. specialize (Hret d). unfold handler. fold s0 st. unfold syscall_handler in Hret |- *. dispatch.
    destruct (sys_file_read _ _ _ _ _) as [q d']. cbn [fst] in Hret. subst q. eexists _, d'. split; reflexivity.
  - intros d. pose proof (length_slice cont (position (y_file st)) a2 ltac:(lia) ltac:(lia)) as Hlo. fold out in Hlo.
    apply (sees_store (set_open v (Some (drop (Z.to_nat a2) (drop (Z.to_nat (position (y_file st))) cont))))
      (World (with_file st f' true) d (u_keys w) (u_sleeps w)) d); [|done|done| |].
    + apply sees_file; [exact Hs|]. cbn. split; [done|]. exists lf. split_and!; [done|done|cbn in *; lia|cbn in *; lia|].
      transitivity (drop (Z.to_nat (position (y_file st) + Z.of_nat (length out))) cont); [|reflexivity].
      rewrite drop_drop. destruct (decide (Z.of_nat (length out) = a2)) as [Ea|Ea]; [f_equal; lia|].
      rewrite !drop_ge; [done|lia|lia].
    + intros a Ha. apply store_bytes_agree. by apply (se_mem _ _ _ _ _ _ _ _ Hs).
    + intros a Ha Hn _. rewrite load8_store_bytes by (unfold addr_ok in *; lia).
      rewrite decide_False; [done|]. unfold user_range in Hn. lia.
Qed.

(** *** The directory, the arguments *)

Lemma implements_list_dir a1 a2 a3 : implements SYSCALL_LIST_DIR a1 a2 a3.
Proof.
  intros v w r Hs E. unfold os_call in E. dispatch.
  destruct ((a1 =? 0) || (a2 =? 0)) eqn:E0.
  { injection E as <-. eapply implements_done; [|intros d; by apply sees_same].
    unfold handler, syscall_handler. dispatch. unfold sys_list_dir. rewrite E0. by apply ends_ret. }
  destruct (in_user a1 _) eqn:Hu; [apply in_user_user in Hu|done]. injection E as <-. unfold user, sizeof_dirinfo in Hu.
  pose proof (se_ok _ _ _ _ _ _ _ _ Hs) as Hok. destruct Hok as [_ Hfs Hch _ Hdir _ _ _ _ _]. set (st := u_sys w) in *.
  set (l := take (Z.to_nat a2) (o_dir o)). assert (s32 a2 = a2) as Es by (unfold s32; rewrite w32_small by lia; bcase; lia).
  pose proof (λ d, fat32_list_dir_spec 0 img Hdev (y_fs st) root fuel a2 d Hfs Hch ltac:(lia) Hroot) as Hls.
  cbv zeta in Hls. rewrite <-Hdir in Hls. fold l in Hls.
  assert (Forall (λ i, (length (d_name i) <= 12)%nat) l) as Hnm.
  { eapply Forall_impl; [apply (Hls (u_dev w))|]. cbn. intros i; lia. }
  assert (Z.of_nat (length l) <= a2) as Hl by (unfold l; rewrite length_take; lia).
  eapply (implements_done _ _ _ _ w (Z.of_nat (length l)) _ (with_mem st (store_dirinfos (y_mem st) a1 l))).
  - unfold handler, syscall_handler. dispatch. unfold sys_list_dir. rewrite E0, Es. fold st.
    eapply (ends_obind _ _ (λ p, p = (Z.of_nat (length l), l))).
    + intros d. destruct (Hls d) as [El _]. destruct (fat32_list_dir _ _ _ _ d) as [q d']. cbn [fst] in El. subst q.
      eexists _, d'. split; reflexivity.
    + intros _ ->. destruct (Z.ltb_spec (Z.of_nat (length l)) 0); [lia|]. by apply ends_ret.
  - intros d. apply (sees_store v w d); [done|done|done| |].
    + intros a Ha. apply store_dirinfos_agree. by apply (se_mem _ _ _ _ _ _ _ _ Hs).
    + intros a Ha Hn _. apply store_dirinfos_far; [done|unfold addr_ok; lia|done|]. unfold span, user_range in *. lia.
Qed.

Lemma implements_get_args a1 a2 a3 : implements SYSCALL_GET_ARGS a1 a2 a3.
Proof.
  intros v w r Hs E. unfold os_call in E. dispatch. unfold os_args in E. cbv zeta in E.
  pose proof (proj1 (se_args _ _ _ _ _ _ _ _ Hs)) as Ea.
  assert (handler SYSCALL_GET_ARGS a1 a2 a3 w = sys_get_args a1 a2 a3 (u_sys w)) as Eh by reflexivity.
  unfold sys_get_args in Eh. rewrite Ea in Eh. cbv zeta in Eh. destruct (s32 a1 =? -1).
  { injection E as <-. eapply implements_done; [rewrite Eh; by apply ends_ret|intros d; by apply sees_same]. }
  destruct ((a2 =? 0) || (a3 =? 0)) eqn:E0; cbn [orb] in E.
  { injection E as <-. eapply implements_done; [rewrite Eh; by apply ends_ret|intros d; by apply sees_same]. }
  destruct ((s32 a1 <? 0) || (count (v_args v) <=? s32 a1)) eqn:E1; cbn [orb] in E.
  { injection E as <-. eapply implements_done; [rewrite Eh; by apply ends_ret|intros d; by apply sees_same]. }
  destruct (in_user a2 a3) eqn:Hu; [apply in_user_user in Hu|done]. injection E as <-. unfold user in Hu.
  eapply implements_done; [rewrite Eh; apply ends_ret; reflexivity|]. intros d. apply (sees_store v w d); [done|done|done| |].
  - intros a Ha. apply store_arg_agree. by apply (se_mem _ _ _ _ _ _ _ _ Hs).
  - intros a Ha Hn _. rewrite store_arg_spec by (unfold addr_ok in *; lia).
    set (arg := take _ _). assert (Z.of_nat (length arg) <= a3 - 1) by (unfold arg; rewrite length_take; lia).
    unfold user_range in Hn. by rewrite !decide_False by lia.
Qed.

(** *** The keyboard *)

Lemma getchar_next wakes : ∀ st c k, next_char (y_kbd st) wakes = Some (c, k) → u8 c →
  ends (D := D) (getchar_loop fuel wakes st) (λ p, p = (Syscall.Ret c, with_kbd st k)).
Proof.
  induction wakes as [|scs wakes IH]; intros st c k E Hc; cbn [next_char getchar_loop] in *;
    destruct (keyboard_getchar (y_kbd st)) as [c1 k1] eqn:Eg;
    (eapply (ends_obind _ _ (λ x, x = c1));
      [destruct (Z.eqb_spec c1 0) as [->|Hne]; [|by apply ends_ret];
       eapply ends_returns; [exact Hquiet|]; by apply ends_ret|]);
    intros _ ->; destruct (Z.eqb_spec c1 0) as [->|Hne]; cbn [negb] in *; try discriminate E;
    try (injection E as -> ->; apply ends_ret; by rewrite w8_small).
  apply (IH (with_kbd (with_kbd st k1) (fold_left kb_handle scs k1)) c k E Hc).
Qed.

Lemma implements_getchar a1 a2 a3 : implements SYSCALL_GETCHAR a1 a2 a3.
Proof.
  intros v w r Hs E. unfold os_call in E. dispatch. destruct (v_keys v) as [|c ks] eqn:Ek; [done|]. injection E as <-.
  destruct Hs as [Hok Hm Hv Ho Ha Hk Ht]. rewrite Ek in Hk. destruct Hk as (k & Hn & Hc & Hk).
  eapply (implements_done _ _ _ _ w c _ (with_kbd (u_sys w) k)).
  - unfold handler, syscall_handler. dispatch. by apply getchar_next.
  - intros d. split; try done. by destruct Hok; split.
Qed.

(** *** Commands that cannot be executed *)

Lemma sees_args v w d a : sees v w → rows_ok (args a) →
  sees (set_args v a) (World (with_args (u_sys w) a) d (u_keys w) (u_sleeps w)).
Proof. intros [Hok Hm Hv Ho Ha Hk Ht] Hr. split; try done. by destruct Hok; split. Qed.

(** The handle changes while no file is open. *)
Lemma sees_handle v w d f : sees v w → v_open v = None →
  sees v (World (with_file (u_sys w) f (current_file (u_sys w))) d (u_keys w) (u_sleeps w)).
Proof.
  intros Hs Ev. pose proof (se_open _ _ _ _ _ _ _ _ Hs) as Ho. rewrite Ev in Ho.
  replace v with (set_open v None) by (destruct v; cbn in *; by subst). by apply sees_file.
Qed.

(** The file [f] found, with the contents [c]. *)
Lemma ends_read_all fs nm f lf :
  fs_ok 0 fs → lookup_file img fs root nm = Some f → chain img fs (first_cluster f) lf →
  0 <= f_size f <= sizeof_exec_buffer → f_size f <= cluster_size fs * Z.of_nat (length lf) →
  (Z.to_nat sizeof_exec_buffer < fuel)%nat →
  let c := content img fs lf f in
  Z.of_nat (length c) = f_size f ∧
  ends (D := D) (fat32_read fuel fs true f (f_size f)) (λ p, ∃ f', p = (f_size f, c, f')).
Proof.
  intros Hfs Hlk Hlf Hsz Hfit Hfu c. unfold sizeof_exec_buffer in *.
  pose proof (length_chain_bytes 0 img Himg fs lf Hfs) as Hlb.
  assert (Z.of_nat (length c) = f_size f) as Hlc by (unfold c, content; rewrite length_take; lia).
  split; [done|]. destruct (lookup_file_at 0 img fs root nm f lf Hfs Hlk Hlf) as (Hat & Hpos & Hval).
  intros d. destruct (fat32_read_spec 0 img Hdev Himg fs lf f fuel (f_size f) d) as [E _];
    [done|done|lia|unfold u32; lia|lia|lia|lia|].
  fold c in E. assert (slice c (position f) (f_size f) = c) as Eb.
  { rewrite Hpos. unfold slice. cbn [Z.to_nat drop]. apply firstn_all2. lia. }
  rewrite Eb, Hlc in E. destruct (fat32_read _ _ _ _ _ d) as [q d']. cbn [fst] in E. subst q.
  eexists _, d'. split; [reflexivity|]. by eexists.
Qed.

(** The magic number in the buffer is that of the file. *)
Lemma buffer_magic m c : addr_ok exec_buffer sizeof_exec_buffer → 4 <= Z.of_nat (length c) <= sizeof_exec_buffer → Forall u8 c →
  let m' := store_bytes m exec_buffer c in
  (negb (load8 m' exec_buffer =? 0x7F) || negb (load8 m' (exec_buffer + 1) =? 69) ||
   negb (load8 m' (exec_buffer + 2) =? 76) || negb (load8 m' (exec_buffer + 3) =? 70)) = negb (elf_magic c).
Proof.
  intros Ha Hl HF m'. unfold addr_ok, sizeof_exec_buffer in *.
  pose proof (store_bytes_at m exec_buffer c HF ltac:(unfold addr_ok; lia)) as Hb. fold m' in Hb.
  pose proof (Hb 0 ltac:(lia)) as H0. rewrite Z.add_0_r in H0. rewrite H0, !Hb by lia.
  unfold elf_magic. by rewrite !negb_andb.
Qed.

Lemma implements_exec a1 a2 a3 : (Z.to_nat sizeof_exec_buffer < fuel)%nat → implements SYSCALL_EXEC a1 a2 a3.
Proof.
  intros Hbf v w r Hs E. unfold os_call in E. dispatch. destruct (Z.eqb_spec a1 0) as [->|Hne].
  { injection E as <-. eapply implements_done; [|intros d; by apply sees_same].
    unfold handler, syscall_handler. dispatch. by apply ends_ret. }
  unfold os_exec in E. apply bind_Some in E as (cmd & Ecmd & E). apply bind_Some in E as (file & Ed & E).
  destruct (user_string_str v w a1 cmd Hs Ecmd) as (_ & El & Hnf).
  pose proof (se_args _ _ _ _ _ _ _ _ Hs) as [Ea Hrows]. destruct Hname as [En Hnl].
  pose proof (parse_spec cmd (o_program_name o) (v_args v) Hnf Hnl Hrows) as Hp.
  destruct (parse_command_line cmd (o_program_name o) (v_args v)) as [nm a] eqn:Ep.
  destruct Hp as (_ & Hr' & Hnm & _). cbn [snd] in E. change (v_open (set_args v a)) with (v_open v) in E.
  destruct (v_open v) as [c|] eqn:Ev; [done|].
  set (w1 := World (with_args (u_sys w) a) (u_dev w) (u_keys w) (u_sleeps w)).
  assert (sees (set_args v a) w1) as Hs1 by (by apply sees_args).
  set (st1 := with_args (u_sys w) a) in *.
  assert (ends (D := D) (handler SYSCALL_EXEC a1 a2 a3 w) (λ p, ∃ r' st', p = (Syscall.Ret r', st') ∧
    ∃ v', r = Done r' v' ∧ ∀ d, sees v' (World st' d (u_keys w) (u_sleeps w)))) as He.
  2:{ destruct (He (u_dev w)) as (p & d & Eh & r' & st' & -> & v' & -> & Hs'). eexists. split.
    - unfold UserKernel.k_call. cbv zeta. unfold handler in Eh. cbv zeta in Eh. rewrite Eh. reflexivity.
    - split; [done|]. apply Hs'. }
  unfold handler, syscall_handler. dispatch. unfold sys_exec. rewrite (proj2 (Z.eqb_neq _ _) Hne), El.
  eapply (ends_obind _ _ (λ x, x = cmd)); [by apply ends_ret|]. intros _ ->. rewrite <-En, Ea, Ep. cbv zeta. fold st1.
  rewrite upper_name_spec, Hnm. fold (file_name cmd).
  destruct (se_ok _ _ _ _ _ _ _ _ Hs) as [_ Hfs Hch Hdk _ _ _ _ _ [Hba Hbuf]]. specialize (Hdk _ _ Ed).
  eapply ends_obind; [apply ends_open; [exact Hfs|exact Hch]|]. intros p ->.
  change (y_fs st1) with (y_fs (u_sys w)) in *. change (y_file st1) with (y_file (u_sys w)).
  destruct (lookup_file img (y_fs (u_sys w)) root (file_name cmd)) as [f|] eqn:Elk, file as [c|]; try done; cbn [negb].
  2:{ injection E as <-. apply ends_ret. eexists _, _. split; [reflexivity|]. eexists. split; [reflexivity|].
    intros d. apply (sees_handle (set_args v a) w1 d (y_file (u_sys w)) Hs1 Ev). }
  destruct Hdk as (lf & Hlf & Hsz & Hfit & ->). set (c := content img (y_fs (u_sys w)) lf f) in *.
  assert (Z.of_nat (length c) = f_size f) as Hlc.
  { pose proof (length_chain_bytes 0 img Himg (y_fs (u_sys w)) lf Hfs). unfold c, content. rewrite length_take. lia. }
  rewrite Hlc in E. destruct (Z.ltb_spec sizeof_exec_buffer (f_size f)) as [Hbig|Hbig].
  { injection E as <-. apply ends_ret. eexists _, _. split; [reflexivity|]. eexists. split; [reflexivity|].
    intros d. apply (sees_handle (set_args v a) w1 d (fat32_close f) Hs1 Ev). }
  destruct (ends_read_all (y_fs (u_sys w)) (file_name cmd) f lf Hfs Elk Hlf ltac:(lia) Hfit Hbf) as [_ Hrd].
  eapply ends_obind; [exact Hrd|]. intros _ [f' ->]. fold c.
  set (m := store_bytes _ exec_buffer c). change (y_mem (with_file st1 f (current_file st1))) with (y_mem (u_sys w)) in m.
  assert (∀ d, sees (set_args v a) (World (with_mem (with_file st1 (fat32_close f') (current_file st1)) m) d (u_keys w) (u_sleeps w))) as Hs2.
  { intros d. apply (sees_store (set_args v a) (World (with_file st1 (fat32_close f') (current_file st1)) d (u_keys w) (u_sleeps w)) d m (v_mem v));
      [by apply (sees_handle (set_args v a) w1)|done|done| |].
    - intros b Hb. rewrite <-(se_mem _ _ _ _ _ _ _ _ Hs b Hb). unfold m, addr_ok, user_range in *.
      rewrite load8_store_bytes by (unfold addr_ok; lia). rewrite decide_False; [done|].
      intros Hin. destruct (Hbuf b) as [Hx _]; [unfold span; lia|]. apply Hx. lia.
    - intros b Hb Hn Hsp. unfold m, addr_ok, span in *. rewrite load8_store_bytes by (unfold addr_ok; lia).
      rewrite decide_False; [done|]. lia. }
  destruct (Z.leb_spec (f_size f) 0) as [H0|H0].
  { destruct (Z.eqb_spec (f_size f) 0); [|lia]. injection E as <-. apply ends_ret. eexists _, _. split; [reflexivity|].
    eexists. split; [reflexivity|exact Hs2]. }
  destruct (Z.eqb_spec (f_size f) 0); [lia|]. destruct (Z.ltb_spec (f_size f) 4); [done|]. cbn [orb] in E.
  destruct (elf_magic c) eqn:Em; [done|]. injection E as <-.
  unfold m. rewrite buffer_magic; [|done|lia|by apply content_u8]. rewrite Em. cbn [negb]. fold m.
  apply ends_ret. eexists _, _. split; [reflexivity|]. eexists. split; [reflexivity|exact Hs2].
Qed.

(** *** Memory *)

#[local] Notation ended := (ended (D := D) site v0).

Lemma fault_ends {T} write a v w r : sees v w → ¬ user_range a → os_fault (T := T) write a v = Some r →
  ∃ s, k_fault (T := T) site write a w = Some s ∧ result_rel sees ended r s.
Proof.
  intros Hs Hn E. unfold os_fault in E. case_bool_decide as Hu; [|done]. injection E as <-.
  unfold k_fault. pose proof (um_map _ (ko_map _ _ _ _ _ (se_ok _ _ _ _ _ _ _ _ Hs)) a Hu Hn) as Hmap.
  assert ((match mapping (y_pg (u_sys w)) a with Some _ => 1 | None => 0 end) + (if write then 2 else 0) + 4 = fault_code write a) as ->.
  { unfold fault_code. destruct (Z.ltb_spec a 0x1000000), (mapping (y_pg (u_sys w)) a); try done; exfalso.
    - destruct Hmap as [_ Hm]. destruct (Hm ltac:(lia)) as [? Hx]. discriminate Hx.
    - assert (a < 0x1000000) by (apply Hmap; by eexists). lia. }
  cbv zeta. pose proof (returns_fault (D := D) (us_eip site) a (fault_code write a) (x_vga (y_exec (u_sys w))) (u_dev w)) as Hr.
  destruct (page_fault_report _ _ _ _) as [scr d]. cbn [fst] in Hr. subst scr. eexists. split; [reflexivity|].
  cbn [result_rel]. unfold UserKernel.ended. cbn [u_sys with_vga set_exec y_exec x_vga set_out v_out].
  rewrite (se_vga _ _ _ _ _ _ _ _ Hs). reflexivity.
Qed.

(** An access is either inside the program's memory, at its own address, or a
    fault. *)
Lemma access_ends {T} write a n v w f x r :
  sees v w → (n = 1 ∨ n = 4 ∧ a mod 4 = 0) →
  (if in_user a n then x else os_fault (T := T) write a v) = Some r →
  (x = Some r → user a n → ∃ s, f a = Some s ∧ result_rel sees ended r s) →
  ∃ s, k_access (T := T) site write a n w f = Some s ∧ result_rel sees ended r s.
Proof.
  intros Hs Hn E Hf. pose proof (ko_map _ _ _ _ _ (se_ok _ _ _ _ _ _ _ _ Hs)) as Hm.
  assert (a / PAGE_SIZE = (a + n - 1) / PAGE_SIZE) as Ep by (change PAGE_SIZE with 4096; destruct Hn as [->|[-> Ha]]; zdm).
  unfold k_access. rewrite (proj2 (Z.eqb_eq _ _) Ep). destruct (in_user a n) eqn:Hu.
  - apply in_user_user in Hu. assert (user_range a) as Hr by (unfold user, user_range in *; lia).
    rewrite (proj2 (um_user _ Hm a ltac:(unfold user_range, u32 in *; lia)) Hr), (um_phys _ Hm a Hr). by apply Hf.
  - assert (u32 a) as Hua by (unfold os_fault in E; by case_bool_decide).
    assert (¬ user_range a) as Hr.
    { intros Hr. unfold in_user, user_range in *. destruct Hn as [->|[-> Ha]]; [lia|]. zdm. }
    destruct (user_accessible (y_pg (u_sys w)) a) eqn:Ha; [by apply (um_user _ Hm) in Ha|]. by eapply fault_ends.
Qed.

Lemma load32_agree v w a : sees v w → user a 4 → load32 (y_mem (u_sys w)) a = load32 (v_mem v) a.
Proof.
  intros Hs Hu. apply load32_ext. intros b Hb. apply (se_mem _ _ _ _ _ _ _ _ Hs). unfold user, user_range in *. lia.
Qed.

Lemma user_store v w a n m vm : sees v w → user a n →
  (∀ b, load8 (y_mem (u_sys w)) b = load8 (v_mem v) b → load8 m b = load8 vm b) →
  (∀ b, addr_ok b 1 → ¬ span a n b → load8 m b = load8 (y_mem (u_sys w)) b) →
  sees (set_mem v vm) (set_memory w m).
Proof.
  intros Hs Hu Hag Hfar. unfold set_memory. apply (sees_store v w); [done|done|done| |].
  - intros b Hb. by apply Hag, (se_mem _ _ _ _ _ _ _ _ Hs).
  - intros b Hb Hn _. apply Hfar; [done|]. unfold span, user, user_range in *. lia.
Qed.

(** *** The simulation *)

Context (Hbf : (Z.to_nat sizeof_exec_buffer < fuel)%nat).

Lemma implements_all num a1 a2 a3 : implements num a1 a2 a3.
Proof.
  intros v w r Hs E. pose proof E as E'. unfold os_call in E'.
  repeat lazymatch type of E' with
  | (if Z.eqb num ?n then _ else _) = _ => destruct (Z.eqb_spec num n) as [->|?]; [clear E'|]
  end; [by eapply implements_print|by eapply implements_exit|by eapply implements_open|by eapply implements_read
    |by eapply implements_close|by eapply implements_list_dir|by eapply implements_get_args|by eapply implements_getchar
    |by eapply implements_exec|by eapply implements_clear|by eapply implements_sleep|by eapply implements_uptime
    |by eapply implements_meminfo|by eapply implements_heap_stats|by eapply implements_getpid|discriminate E'].
Qed.

#[local] Instance k_machine : Machine (world D) := k_step exec_buffer saved_program fuel site.

Lemma kernel_simulates : Simulates (H := os_machine o) view (world D) sees ended.
Proof.
  intros T e v w r Hs E. destruct e as [num a1 a2 a3|a|a|a x|a x]; cbn in E |- *.
  - by apply implements_all with (v := v).
  - eapply access_ends; [exact Hs|by left|exact E|]. intros [= <-] Hu. eexists. split; [reflexivity|].
    split; [|exact Hs]. symmetry. apply (se_mem _ _ _ _ _ _ _ _ Hs). unfold user, user_range in *. lia.
  - destruct (Z.eqb_spec (a mod 4) 0) as [Ha|]; [|done]. cbn [negb] in E.
    eapply access_ends; [exact Hs|by right|exact E|]. intros [= <-] Hu. eexists. split; [reflexivity|].
    split; [|exact Hs]. symmetry. by apply load32_agree.
  - eapply access_ends; [exact Hs|by left|exact E|]. intros [= <-] Hu. eexists. split; [reflexivity|]. split; [done|].
    eapply user_store; [exact Hs|exact Hu|intros b; apply store8_agree|].
    intros b Hb Hsp. unfold user, span, addr_ok in *. apply load8_store8_far; unfold addr_ok; lia.
  - destruct (Z.eqb_spec (a mod 4) 0) as [Ha|]; [|done]. cbn [negb] in E.
    eapply access_ends; [exact Hs|by right|exact E|]. intros [= <-] Hu. eexists. split; [reflexivity|]. split; [done|].
    eapply user_store; [exact Hs|exact Hu|intros b; apply store32_agree|].
    intros b Hb Hsp. unfold user, span, addr_ok in *. apply load8_store32_far; unfold addr_ok; lia.
Qed.
End Sim.
