(* ===== verification/UserTop.v ===== *)
(** * What the programs show on the machine

    The programs of userspace/ on the kernel: from the state in which a program
    starts in ring 3 to the screen the user sees when it is over. *)

From Stdlib Require Import String.
From stdpp Require Import gmap.
From ITree Require Import ITree.
From S2P Require Import Prelude Mem Heap Paging Io Vga VgaProps Args ArgsProps Fat32 Fat32Names Fat32Dir Fat32Props Fat32List.
From S2P Require Import Idt Serial Elf ElfProps Syscall KernelProps KernelRun LineEdit.
From S2P Require Import User UserRun UserOs UserProps UserPrograms UserTests UserShell UserKernel UserSim.

#[local] Opaque put_all vga_fill.

(** C40: [uint_to_str] of ls, free and uptime: on every 32-bit number it returns
    with a NUL-terminated string of at most ten decimal digits in the buffer
    that denotes the number, and has written nothing outside ten bytes of its
    array and eleven of the buffer. *)
Theorem uint_to_str_correct o tmp buf n v : u32 n → num_frame tmp buf →
  ok (M := os_machine o) (uint_to_str tmp n buf) v (λ _ v',
    ∃ s, str_at (v_mem v') buf s ∧ undec s = n ∧ (length s <= 10)%nat ∧ Forall (λ c, 48 <= c <= 57) s ∧
      ∀ a, 0x200000 <= a < 0x301000 → ¬ (tmp <= a < tmp + 10) → ¬ (buf <= a < buf + 11) →
        load8 (v_mem v') a = load8 (v_mem v) a).
Proof.
  intros Hn Hf. eapply ok_mono; [by apply ok_uint_to_str|]. intros _ w (m & -> & Hs & Hsame).
  destruct (num_text_spec n Hn) as (Hv & Hl & HF). exists (num_text n). split_and!; try done.
  intros a Ha H1 H2. apply Hsame; [unfold user; lia|]. unfold num_bytes, span. lia.
Qed.

Section Top.
Context {D : Type} `{PIO : PortIO D} `{BD : BlockDevice D}.
Context (exec_buffer saved_program : Z) (fuel : nat) (site : user_site).
Context (img : Z → list Z) (root : list Z) (o : system) (v0 : vga).
Context (Hdrain : drains (D := D) fuel) (Hquiet : ∀ d : D, (serial_received SERIAL_COM1 d).1 = 0).
Context (Hdev : reads_image (D := D) 0 img) (Himg : image_ok img).
Context (Hfuel : fuel_ok fuel) (Hroot : (length root < fuel)%nat) (Hslen : (1023 < o_slen o <= fuel)%nat).
Context (Hname : o_program_name o = Kernel.cs_program_name (us_site site) ∧ length (o_program_name o) = 64%nat).
Context (lit : list Z → Z).

#[local] Notation sees := (sees (D := D) exec_buffer site img root o v0).
#[local] Instance on_kernel : Machine (world D) := k_step exec_buffer saved_program fuel site.

Definition screen_of (w : world D) : vga := x_vga (y_exec (u_sys w)).

Lemma exec_fuel : (Z.to_nat sizeof_exec_buffer < fuel)%nat.
Proof using Hfuel. clear -Hfuel. unfold fuel_ok, sizeof_exec_buffer in *. lia. Qed.

Lemma kernel_runs {A} (t : prog A) v w r : sees v w → runs (M := os_machine o) t v r →
  ∃ s, runs t w s ∧ result_rel sees (ended site v0) r s.
Proof using Hdrain Hquiet Hdev Himg Hfuel Hroot Hslen Hname.
  intros Hs Hr. eapply runs_simulated; [|exact Hs|exact Hr].
  apply (kernel_simulates exec_buffer saved_program fuel site img root o v0); try assumption; [lia|exact exec_fuel].
Qed.

(** C1: The kernel refines the specification of its system calls: a user program
    that runs on the specification, to its return, its exit or a page fault,
    runs on the kernel to the same end, with the same value, and with screen,
    memory, open file, arguments, keyboard and clock as the specification has
    them. *)
Theorem kernel_refines_os {A} (t : prog A) v w r : sees v w → runs (M := os_machine o) t v r →
  ∃ s, runs (M := k_step exec_buffer saved_program fuel site) t w s ∧ result_rel sees (ended site v0) r s.
Proof using Hdrain Hquiet Hdev Himg Hfuel Hroot Hslen Hname. apply kernel_runs. Qed.

(** A program that returns on the specification exits on the kernel. *)
Lemma main_exits main v w r out :
  sees v w → ok (M := os_machine o) main v (λ r' v', r' = r ∧ v_out v' = out) →
  ∃ w', runs (_start main) w (Exited w') ∧ screen_of w' = show (us_eip site) (Bye (w32 r)) (shown (us_eip site) v0 out).
Proof using Hdrain Hquiet Hdev Himg Hfuel Hroot Hslen Hname.
  intros Hs (r' & v' & Hr & -> & Ho).
  assert (runs (M := os_machine o) (exit r) v' (Exited (set_out v' (Bye (w32 r) :: v_out v')))) as He.
  { eapply (runs_bind_stop _ _ _ (Exited _)). by apply runs_trigger. }
  destruct (kernel_runs _ v w _ Hs (runs_start main v r v' _ Hr He)) as ([x w'|w'|w'] & Hr' & Hrel); [done| |done].
  exists w'. split; [exact Hr'|]. unfold screen_of. rewrite Hrel. rewrite <-Ho. reflexivity.
Qed.

Lemma prints_exits P main v w r text :
  sees v w → prints o P main v r text →
  ∃ w', runs (_start main) w (Exited w') ∧
    screen_of w' = show (us_eip site) (Bye (w32 r)) (put_all (white (screen_of w)) text).
Proof using Hdrain Hquiet Hdev Himg Hfuel Hroot Hslen Hname.
  intros Hs Hp. destruct (main_exits main v w r (add_text text (v_out v)) Hs) as (w' & Hr & Hv).
  { eapply ok_mono; [exact Hp|]. intros r' v' [-> [_ ->]]. split; reflexivity. }
  exists w'. split; [exact Hr|]. rewrite Hv, shown_add, <-(se_vga _ _ _ _ _ _ _ _ Hs). reflexivity.
Qed.

(** ** cat *)

Lemma disk_u8 v w nm c : sees v w → o_disk o nm = Some (Some c) → Forall u8 c.
Proof using Himg.
  intros Hs Hd. pose proof (ko_disk _ _ _ _ _ (se_ok _ _ _ _ _ _ _ _ Hs) _ _ Hd) as H.
  destruct (lookup_file _ _ _ _); [|done]. destruct H as (lf & _ & _ & _ & ->). by apply content_u8.
Qed.

(** What [cat] prints of a file: it reads 1023 bytes at a time and prints each
    piece as a C string. *)
Definition cat_text (c : list Z) : list Z := concat (c_string <$> chunks 1023 c).

(** C36: [cat] shows the file: started with the name of a file of the volume as
    its argument, it prints the file to the screen in pieces of 1023 bytes, each
    up to its first NUL, so all of it when the file has no NUL, and exits with
    0; of a name that is not on the volume it says that there is no such file,
    and exits with 1; without an argument it prints its usage. *)
Theorem cat_shows_file buffer filename v w :
  sees v w → cat_frame buffer filename → literals o lit (cat_bytes buffer filename) cat_lits (v_mem v) →
  args_ok (v_args v) →
  let exits r text := ∃ w', runs (M := k_step exec_buffer saved_program fuel site)
      (_start (cat_main lit buffer filename)) w (Exited w') ∧
    screen_of w' = show (us_eip site) (Bye r) (put_all (white (screen_of w)) text) in
  if count (v_args v) <? 1 then exits 1 (line "Usage: cat <filename>")
  else
    match o_disk o (upper_name (cat_name v) 255) with
    | Some (Some c) => exits 0 (cat_text c) ∧ (nul_free c → cat_text c = c)
    | Some None => exits 1 (no_file_text (cat_name v))
    | None => True
    end.
Proof using Hdrain Hquiet Hdev Himg Hfuel Hroot Hslen Hname.
  intros Hs Hf Hl Ha exits. pose proof (cat_spec o lit buffer filename Hf ltac:(lia) v Ha Hl) as Hc.
  assert (∀ r out, ok (M := os_machine o) (cat_main lit buffer filename) v (λ r' v', r' = r ∧ v_out v' = add_text out (v_out v)) →
    0 <= r < 2 → exits r out) as He.
  { intros r out Hok Hr. destruct (main_exits _ v w r _ Hs Hok) as (w' & Hr' & Hv). exists w'. split; [exact Hr'|].
    rewrite Hv, shown_add, <-(se_vga _ _ _ _ _ _ _ _ Hs), w32_small by lia. reflexivity. }
  destruct (count (v_args v) <? 1).
  { apply He; [|lia]. eapply ok_mono; [exact Hc|]. intros r' v' [-> [_ ->]]. split; reflexivity. }
  destruct (o_disk o _) as [[c|]|] eqn:Ed; [|apply He; [|lia]|done].
  - split; [|by apply concat_chunks; lia]. specialize (Hc ltac:(by eapply disk_u8)). destruct c as [|x c].
    { destruct (main_exits (cat_main lit buffer filename) v w 0 (v_out v) Hs) as (w' & Hr & Hv).
      - eapply ok_mono; [exact Hc|]. intros r' v' [-> [_ ->]]. split; reflexivity.
      - exists w'. split; [exact Hr|]. rewrite Hv, <-(se_vga _ _ _ _ _ _ _ _ Hs). reflexivity. }
    apply He; [|lia]. eapply ok_mono; [exact Hc|]. intros r' v' [-> [_ ->]]. split; [reflexivity|].
    unfold cat_text. cbn [set_out set_mem set_open v_out]. rewrite (chunks_cons 1023 (x :: c)) by (done || lia).
    cbn [fmap list_fmap adds fold_left concat]. apply adds_concat.
  - eapply ok_mono; [exact Hc|]. intros r' v' [-> [_ ->]]. split; reflexivity.
Qed.

(** ** ls, uptime, free *)

(** C37: [ls] lists the root directory: from the sectors of the disk, through the
    system call and its buffer, to the screen, each of the first 64 visible
    entries is a line with its name padded to 16 columns, its type and its size
    in decimal, between the rules of the table and before the total. *)
Theorem ls_lists_directory entries tmp buf v w :
  sees v w → ls_frame entries tmp buf → literals o lit (ls_bytes entries tmp buf) ls_lits (v_mem v) →
  let es := filter (λ e, listed e = true) (live_entries (dir_entries img (y_fs (u_sys w)) root)) in
  Forall dir_ok (dirinfo <$> es) →
  ∃ w', runs (M := k_step exec_buffer saved_program fuel site) (_start (ls_main lit entries tmp buf)) w (Exited w') ∧
    screen_of w' = show (us_eip site) (Bye 0) (put_all (white (screen_of w)) (ls_text (take 64 (dirinfo <$> es)))).
Proof using Hdrain Hquiet Hdev Himg Hfuel Hroot Hslen Hname.
  intros Hs Hf Hl es HF. pose proof (ko_dir _ _ _ _ _ (se_ok _ _ _ _ _ _ _ _ Hs)) as Hd. fold es in Hd. rewrite <-Hd in *.
  apply (prints_exits (ls_bytes entries tmp buf) _ v w 0 _ Hs). apply ls_prints; [done|lia|done|done].
Qed.

(** [uptime] shows the time since the start in hours, minutes and seconds,
    the hours only when there are some. *)
Theorem uptime_shows_time tmp buf v w :
  sees v w → num_frame tmp buf → literals o lit (num_bytes tmp buf) uptime_lits (v_mem v) →
  ∃ w', runs (M := k_step exec_buffer saved_program fuel site) (_start (uptime_main lit tmp buf)) w (Exited w') ∧
    screen_of w' = show (us_eip site) (Bye 0)
      (put_all (white (screen_of w)) (uptime_text (get_uptime_ms (y_ticks (u_sys w))))).
Proof using Hdrain Hquiet Hdev Himg Hfuel Hroot Hslen Hname.
  intros Hs Hf Hl. rewrite (proj1 (se_time _ _ _ _ _ _ _ _ Hs)).
  apply (prints_exits (num_bytes tmp buf) _ v w 0 _ Hs). apply uptime_prints; [done|lia|done].
Qed.

(** [free] shows the pages and the heap of the kernel. *)
Theorem free_shows_memory tmp buf v w :
  sees v w → num_frame tmp buf → literals o lit (num_bytes tmp buf) free_lits (v_mem v) → 0 <= o_free_pages o <= 4096 →
  u32 (total_bytes (o_heap o)) → u32 (used_bytes (o_heap o)) → u32 (free_bytes (o_heap o)) →
  ∃ w', runs (M := k_step exec_buffer saved_program fuel site) (_start (free_main lit tmp buf)) w (Exited w') ∧
    screen_of w' = show (us_eip site) (Bye 0) (put_all (white (screen_of w)) (free_text o)).
Proof using Hdrain Hquiet Hdev Himg Hfuel Hroot Hslen Hname.
  intros Hs Hf Hl Hfp Ht Hu Hfr. apply (prints_exits (num_bytes tmp buf) _ v w 0 _ Hs).
  apply free_prints; [done|lia|done|done|done|done|done].
Qed.

(** ** The small programs and the tests *)

(** The program says [text] and exits with [r]. *)
Definition shows (main : prog Z) (w : world D) (r : Z) (text : list Z) : Prop :=
  ∃ w', runs (_start main) w (Exited w') ∧
    screen_of w' = show (us_eip site) (Bye r) (put_all (white (screen_of w)) text).

Lemma said_shows main v w P u r text :
  sees v w → ok (M := os_machine o) main v (λ r' v', r' = r ∧ said P u [text] v') → v_out u = v_out v → u32 r →
  shows main w r text.
Proof using Hdrain Hquiet Hdev Himg Hfuel Hroot Hslen Hname.
  intros Hs Hok E Hr. destruct (main_exits main v w r (add_text text (v_out v)) Hs) as (w' & Hr' & Hv).
  { eapply ok_mono; [exact Hok|]. intros r' v' [-> [_ ->]]. cbn. by rewrite E. }
  exists w'. split; [exact Hr'|]. rewrite Hv, shown_add, <-(se_vga _ _ _ _ _ _ _ _ Hs), w32_small by exact Hr. reflexivity.
Qed.

(** [hello] and [count]; the clock of [count] is four seconds of sleep on. *)
Theorem hello_shows v w : sees v w →
  literals o lit (λ _, False) [line "Hello, world!"; line "This is a user-space program running on MagnOS!"] (v_mem v) →
  shows (hello_main lit) w 0 hello_text.
Proof using Hdrain Hquiet Hdev Himg Hfuel Hroot Hslen Hname.
  intros Hs Hl. eapply said_shows; [exact Hs|by apply hello_prints|done|done].
Qed.
Theorem count_shows buf v w t ws : sees v w → user buf 2 → literals o lit (span buf 2) [[10]] (v_mem v) →
  naps 4 (y_ticks (u_sys w)) (u_sleeps w) = Some (t, ws) →
  shows (count_main lit buf) w 0 [49; 10; 50; 10; 51; 10; 52; 10; 53; 10].
Proof using Hdrain Hquiet Hdev Himg Hfuel Hroot Hslen Hname.
  intros Hs Hu Hl Hn. destruct (se_time _ _ _ _ _ _ _ _ Hs) as [Et Ew]. rewrite Et, Ew in Hn.
  eapply said_shows; [exact Hs|by apply (count_prints o lit buf Hu ltac:(lia) v t ws)|done|done].
Qed.

(** The tests of the file system find the file under every spelling, and show
    the first bytes of it. *)
Theorem casetest_shows buf v w file : sees v w → user buf 64 → literals o lit (span buf 64) casetest_lits (v_mem v) →
  o_disk o (chars "HELLO.TXT") = Some file → shows (casetest_main lit buf) w 0 (casetest_text file).
Proof using Hdrain Hquiet Hdev Himg Hfuel Hroot Hslen Hname.
  intros Hs Hu Hl Hd. eapply said_shows; [exact Hs| |by instantiate (1 := set_open v None)|done].
  apply casetest_prints; [exact Hu|lia|exact Hd| |exact Hl].
  destruct file as [c|]; [by eapply disk_u8|constructor].
Qed.
Theorem filetest_shows buffer v w c : sees v w → user buffer 512 → literals o lit (span buffer 512) filetest_lits (v_mem v) →
  o_disk o (chars "HELLO.TXT") = Some (Some c) → shows (filetest_main lit buffer) w 0 (filetest_text c).
Proof using Hdrain Hquiet Hdev Himg Hfuel Hroot Hslen Hname.
  intros Hs Hu Hl Hd. eapply said_shows; [exact Hs| |by instantiate (1 := set_open v None)|done].
  apply filetest_prints; [exact Hu|lia|exact Hl|exact Hd|by eapply disk_u8].
Qed.

(** ** Page faults *)

Lemma halts_on_kernel {A} (t : prog A) v w out :
  sees v w → halts o t v (λ out', out' = out) →
  ∃ w', runs t w (Halted w') ∧ screen_of w' = shown (us_eip site) v0 out.
Proof using Hdrain Hquiet Hdev Himg Hfuel Hroot Hslen Hname.
  intros Hs (v' & Hr & Ho). destruct (kernel_runs t v w _ Hs Hr) as ([x w'|w'|w'] & Hr' & Hrel); [done|done|].
  exists w'. split; [exact Hr'|]. rewrite <-Ho. exact Hrel.
Qed.

(** C39: Memory protection seen from ring 3: [ring3] runs up to its read of
    kernel memory and no further, the kernel reports a protection fault of a
    read in user mode at 0x1000 and halts; [pftest] likewise at its write to
    0x2000000, which no page table maps.  What both programs would print after
    the access is never printed. *)
Theorem ring3_is_stopped tmp buf v w :
  sees v w → num_frame tmp buf → literals o lit (num_bytes tmp buf) ring3_lits (v_mem v) →
  literals o lit (λ _, False) [pftest_text] (v_mem v) →
  let halts_at (main : prog Z) text a err := ∃ w',
    runs (M := k_step exec_buffer saved_program fuel site) (_start main) w (Halted w') ∧
    screen_of w' = show (us_eip site) (Fault a err) (put_all (white (screen_of w)) text) in
  halts_at (ring3_main lit tmp buf) (ring3_text (get_uptime_ms (y_ticks (u_sys w)))) 0x1000 5 ∧
  halts_at (pftest_main lit) pftest_text 0x2000000 6.
Proof using Hdrain Hquiet Hdev Himg Hfuel Hroot Hslen Hname.
  intros Hs Hf Hl Hl' halts_at. rewrite (proj1 (se_time _ _ _ _ _ _ _ _ Hs)).
  assert (∀ main text a err, halts o main v (λ out, out = Fault a err :: add_text text (v_out v)) → halts_at main text a err) as Hh.
  { intros main text a err (v' & Hr & Ho).
    destruct (halts_on_kernel (_start main) v w (Fault a err :: add_text text (v_out v)) Hs) as (w' & Hr' & Hv).
    - exists v'. split; [|exact Ho]. exact (runs_bind_stop _ (λ ret, exit ret;; ITree.spin) _ _ Hr).
    - exists w'. split; [exact Hr'|]. rewrite Hv. cbn [shown foldr]. fold (shown (us_eip site) v0 (add_text text (v_out v))).
      rewrite shown_add, <-(se_vga _ _ _ _ _ _ _ _ Hs). reflexivity. }
  split; apply Hh; [apply ring3_halts; [done|lia|done]|by apply pftest_halts].
Qed.

(** ** The shell *)

(** C38: A session of the user shell in which no line starts a program: every
    line of [css] is empty, "clear", or a command that [exec] refuses (no such
    file, a file of more than 64 KB, an empty one, or one of four bytes or more
    that is no ELF file; otherwise [session] is [None]).  For these lines typed
    at the keyboard, each edited like [edit] and entered, and then a line that is
    "exit", the screen shows the greeting, the echo of each line and the answer
    to it (a new prompt, the cleared screen, or why the command cannot be
    executed), and the shell exits with 0.  What happens once a program is
    started is not part of this statement. *)
Theorem shell_session_correct cmd_buf ch_buf css cs v w s' :
  sees v w → shell_frame cmd_buf ch_buf → literals o lit (shell_bytes cmd_buf ch_buf) shell_lits (v_mem v) →
  v_open v = None → v_keys v = enter_all (css ++ [cs]) →
  Forall (λ cs, Forall (λ c, 0 < c < 256 ∧ c ≠ 10) cs ∧ fold_left edit cs [] ≠ chars "exit") css →
  Forall (λ c, 0 < c < 256 ∧ c ≠ 10) cs → fold_left edit cs [] = chars "exit" →
  session o css (add_text (started_text ++ prompt_text) (v_out v), v_args v) = Some s' →
  ∃ w', runs (M := k_step exec_buffer saved_program fuel site) (_start (shell_main lit cmd_buf ch_buf)) w (Exited w') ∧
    screen_of w' = show (us_eip site) (Bye 0) (shown (us_eip site) v0 (add_text (echo_all [] cs ++ [10]) s'.1)).
Proof using Hdrain Hquiet Hdev Himg Hfuel Hroot Hslen Hname.
  intros Hs Hf Hl Ho Hk HF Hcs He Hse.
  apply (main_exits _ v w 0 _ Hs). eapply ok_mono; [eapply shell_spec; try done; lia|]. intros r v' (-> & Hv & _). done.
Qed.
End Top.
