(* ===== verification/UserExample.v ===== *)
(** * User programs: a concrete machine

    A kernel with the identity map and the pages of a program, the volume of
    Fat32Volume.v and no other state, in which the theorems on programs apply:
    the literals of the programs are placed one after the other from 0x200000,
    and their frames are in the stack page. *)

From Stdlib Require Import String.
From stdpp Require Import gmap.
From S2P Require Import Prelude Mem Pmm Heap HeapList HeapInv HeapProps Paging PagingProps Io Keyboard KeyboardProps Vga VgaProps.
From S2P Require Import Args ArgsProps Fat32 Fat32Names Fat32Dir Fat32Props Fat32Volume Fat32List Process Gdt Idt Serial Elf ElfProps Syscall SyscallProps.
From S2P Require Import Kernel KernelProps KernelRun KernelExample LineEdit.
From S2P Require Import User UserRun UserOs UserProps UserPrograms UserShell UserKernel UserSim UserTop.

(** ** Placing literals *)

Fixpoint place (base : Z) (lits : list (list Z)) (s : list Z) : Z :=
  match lits with
  | [] => base
  | t :: lits => if decide (s = t) then base else place (base + Z.of_nat (length t) + 1) lits s
  end.
Definition literal_bytes (lits : list (list Z)) : list Z := concat ((λ s, s ++ [0]) <$> lits).

Lemma place_at lits : ∀ base m s, s ∈ lits →
  Forall (λ t, nul_free t ∧ Forall u8 t) lits → addr_ok base (Z.of_nat (length (literal_bytes lits))) →
  let a := place base lits s in
  base <= a ∧ a + Z.of_nat (length s) + 1 <= base + Z.of_nat (length (literal_bytes lits)) ∧
  str_at (store_bytes m base (literal_bytes lits)) a s.
Proof.
  induction lits as [|t lits IH]; intros base m s Hs HF Ha a; [by apply elem_of_nil in Hs|].
  apply Forall_cons in HF as [[Hn Hu] HF].
  change (literal_bytes (t :: lits)) with ((t ++ [0]) ++ literal_bytes lits) in *.
  rewrite store_bytes_app. rewrite !length_app in *. cbn [length] in *. unfold a, addr_ok in *. cbn [place].
  destruct (decide (s = t)) as [->|Hne].
  - split_and!; [lia|lia|]. eapply str_at_ext; [|apply (store_str_at m base t Hn Hu); unfold addr_ok; lia].
    intros b Hb. rewrite load8_store_bytes by (unfold addr_ok; lia). by rewrite decide_False by lia.
  - apply elem_of_cons in Hs as [->|Hs]; [done|].
    replace (base + Z.of_nat (length t) + 1) with (base + Z.of_nat (length t + 1)) by lia.
    destruct (IH (base + Z.of_nat (length t + 1)) (store_bytes m base (t ++ [0])) s Hs HF) as (H1 & H2 & H3);
      [unfold addr_ok; lia|]. split_and!; [lia|lia|exact H3].
Qed.

Definition all_lits : list (list Z) :=
  cat_lits ++ ls_lits ++ uptime_lits ++ ring3_lits ++ [pftest_text] ++ shell_lits.
Definition lit0 : list Z → Z := place 0x200000 all_lits.

Definition lit_okb (s : list Z) : bool := forallb (λ c, (0 <? c) && (c <? 256)) s && (Z.of_nat (length s) <? 1000).
Lemma all_lits_ok : Forall (λ s, (nul_free s ∧ Forall u8 s) ∧ (length s < 1000)%nat) all_lits.
Proof.
  assert (forallb lit_okb all_lits = true) as H by (vm_compute; reflexivity).
  apply Is_true_true, forallb_True in H. eapply Forall_impl; [exact H|]. intros s Hs%Is_true_true. unfold lit_okb in Hs.
  apply andb_true_iff in Hs as [Hc Hl]. apply Is_true_true, forallb_True in Hc.
  assert (Forall (λ c, 0 < c < 256) s) as Hc' by (eapply Forall_impl; [exact Hc|]; intros c Hx%Is_true_true; lia).
  split; [split; (eapply Forall_impl; [exact Hc'|]); unfold u8; intros; lia|lia].
Qed.
Lemma all_lits_size : Z.of_nat (length (literal_bytes all_lits)) < 4096.
Proof. vm_compute. reflexivity. Qed.

(** Any part of the literals, for a program that writes only its stack. *)
Lemma placed o m lits P : lits ⊆ all_lits → (1000 <= o_slen o)%nat → (∀ a, P a → 0x300000 <= a) →
  literals o lit0 P lits (store_bytes m 0x200000 (literal_bytes all_lits)).
Proof.
  intros Hsub Hsl HP. apply Forall_forall. intros s Hs%Hsub. pose proof all_lits_ok as Hok. pose proof all_lits_size as Hsz.
  pose proof (proj1 (Forall_forall _ _) Hok s Hs) as [_ Hlen].
  destruct (place_at all_lits 0x200000 m s Hs) as (H1 & H2 & H3).
  - eapply Forall_impl; [exact Hok|]. by intros t [? _].
  - unfold addr_ok. lia.
  - fold lit0 in *. split_and!; [unfold user; lia|lia|exact H3|]. intros a Ha Hp%HP. unfold span in Ha. lia.
Qed.

(** ** The kernel *)

#[local] Notation pg_user := (map_user_pages (paging_init paging0)).

Definition tables_okb (pg : paging (list Z)) : bool :=
  let okb p := p <? 0x1FF000 in
  okb (kernel_page_directory pg) &&
  forallb (λ i, negb (present (pde pg i)) || okb (PAGE_FRAME (pde pg i))) (seqZ 0 1024).

Lemma tables_apart pg a : tables_okb pg = true → table_byte pg a → a < 0x200000.
Proof.
  intros [H1 H2]%andb_true_iff (p & Hp & Hr). change PAGE_SIZE with 4096 in Hr.
  apply Is_true_true, forallb_True in H2. destruct Hp as [->|(i & Hi & Hpr & <-)]; [lia|].
  rewrite Forall_forall in H2. specialize (H2 i ltac:(by apply elem_of_seqZ)). cbv beta in H2.
  rewrite Hpr in H2. cbn [negb orb] in H2. apply Is_true_true in H2. lia.
Qed.

Lemma pg_user_tables : tables_okb (paging_init paging0) = true.
Proof. vm_compute. reflexivity. Qed.
Lemma pg_user_tab a : table_byte pg_user a → a < 0x200000.
Proof.
  intros Ha%(map_user_pages_keeps _ (is_inv _ _ paging0_init) (init_table _ 0 paging0_init ltac:(lia))).
  exact (tables_apart _ a pg_user_tables Ha).
Qed.
Lemma pg_user_map : user_map pg_user.
Proof.
  apply (user_map_init (paging_init paging0) paging0_init).
  intros a Ha%(tables_apart _ _ pg_user_tables). unfold user_range. lia.
Qed.

(** The kernel that has these pages; [pg] stands for them, which keeps the
    tables out of the proofs. *)
Section World.
Context (pg : paging (list Z)) (Hmap : user_map pg) (Htab : ∀ a, table_byte pg a → a < 0x200000).

Definition mem0 : mem := store_bytes (pg_mem pg) 0x200000 (literal_bytes all_lits).
Definition row0 (s : list Z) : list Z := s ++ replicate (64 - length s) 0.
Definition args1 : program_args_t := Args (row0 (chars "hello.txt") :: replicate 15 (replicate 64 0)) 1.
(** The keys "nope", enter, "exit", enter are waiting. *)
Definition keys0 : list Z := chars "nope" ++ [10] ++ chars "exit" ++ [10].
Definition kbd1 : kbd := Kbd (Mods 0 0 0 0) (keys0 ++ replicate 246 0) 10 0.
Definition user_sys : sys :=
  Sys (ExecState (Paging.set_mem pg mem0) vga0 gdt_state0 [jmp0] 1 [0]) kbd1 366100 vol file0 false args1 0 0 [] None.
Definition world0 : world unit := World user_sys tt [] [].
Definition site1 : user_site := UserSite site0 0x200040.

Definition hello_bytes : list Z := replicate 512 3 ++ replicate 88 4.
Definition disk0 (nm : list Z) : option (option (list Z)) :=
  if decide (nm = chars "HELLO.TXT") then Some (Some hello_bytes)
  else if decide (nm = chars "NOPE") then Some None else None.
Definition os0 : system := {|
  o_disk := disk0;
  o_dir := dirinfo <$> filter (λ e, listed e = true) (live_entries (dir_entries img vol [2]));
  o_free_pages := pmm_get_free_count (pg_pa pg);
  o_heap := {| total_bytes := 0; free_bytes := 0; used_bytes := 0; num_free_blocks := 0; num_pages := 0 |};
  o_pid := 0; o_slen := Z.to_nat 2000; o_program_name := replicate 64 0
|}.
Definition view0 : view := View mem0 [] None args1 keys0 366100 [].

Lemma mem0_tables a : addr_ok a 1 → table_byte pg a → load8 mem0 a = load8 (pg_mem pg) a.
Proof.
  intros Ha Ht%Htab. pose proof all_lits_size. unfold mem0.
  rewrite load8_store_bytes by (unfold addr_ok in *; lia). by rewrite decide_False by lia.
Qed.

Lemma user_sys_map : user_map (y_pg user_sys).
Proof. exact (user_map_ext pg mem0 Hmap mem0_tables). Qed.

Lemma user_sys_table a : table_byte (y_pg user_sys) a → a < 0x200000.
Proof.
  intros Ht. apply Htab. eapply table_byte_ext; [|exact Ht].
  apply (tables_ext pg mem0 (um_inv _ Hmap) mem0_tables).
Qed.

Lemma disk0_ok : disk_ok img [2] os0 vol.
Proof.
  intros nm file E. cbn [o_disk os0] in E. unfold disk0 in E. case_decide as H1; [|case_decide as H2; [|done]].
  - injection E as <-. subst nm.
    replace (lookup_file img vol [2] (chars "HELLO.TXT")) with (Some hello) by (vm_compute; reflexivity).
    exists [3; 4]. split_and!; [exact hello_chain|vm_compute; congruence..|vm_compute; reflexivity].
  - injection E as <-. subst nm.
    by replace (lookup_file img vol [2] (chars "NOPE")) with (@None fat32_file_t) by (vm_compute; reflexivity).
Qed.

Lemma user_sys_ok : kernel_ok 0x400000 img [2] os0 user_sys.
Proof.
  split.
  - exact user_sys_map.
  - exact vol_ok.
  - exact root_chain.
  - exact disk0_ok.
  - reflexivity.
  - exists []. split; [|split; [|reflexivity]].
    + apply (heap0_inv mem0 (pg_pa pg)). apply (um_inv _ Hmap).
    + intros z (y & Hy & _). by apply elem_of_nil in Hy.
  - reflexivity.
  - reflexivity.
  - reflexivity.
  - unfold addr_ok, sizeof_exec_buffer. split; [lia|]. intros a Ha. unfold span, user_range in *.
    split; [lia|]. intros Ht%user_sys_table. lia.
Qed.

(** The characters of the queue are those to be typed. *)
Lemma typed_queue cs : ∀ k, kb_inv k → kb_chars k = cs → Forall (λ c, 0 < c < 256) cs → typed k [] cs.
Proof.
  induction cs as [|c cs IH]; intros k Hk Hc HF; [done|]. apply Forall_cons in HF as [Hc0 HF].
  destruct (getchar_spec k Hk) as (Hk' & _ & E1 & E2). rewrite Hc in E1, E2. cbn [q_get fst snd] in E1, E2.
  exists (keyboard_getchar k).2. split_and!; [|unfold u8; lia|by apply IH].
  cbn [head default from_option next_char hd_error id]. destruct (keyboard_getchar k) as [c' k']. cbn [fst snd] in *. subst c'.
  by destruct (Z.eqb_spec c 0); [lia|].
Qed.

Lemma world0_sees : sees (D := unit) 0x400000 site1 img [2] os0 vga0 view0 world0.
Proof.
  split.
  - exact user_sys_ok.
  - reflexivity.
  - reflexivity.
  - reflexivity.
  - split; [reflexivity|]. split; [reflexivity|]. repeat constructor.
  - apply typed_queue; [|vm_compute; reflexivity|].
    + split; [reflexivity|cbn; lia|cbn; lia|vm_compute; tauto].
    + apply (Forall_impl (λ c, (0 <? c) && (c <? 256) = true)); [|cbn; lia]. vm_compute. repeat constructor.
  - split; reflexivity.
Qed.

Lemma view0_args : args_ok (v_args view0).
Proof.
  split; [cbn; lia|]. apply (Forall_impl (Forall (λ c, (0 <=? c) && (c <? 256) = true))).
  - repeat constructor.
  - intros r Hr. eapply Forall_impl; [exact Hr|]. unfold u8. cbn. lia.
Qed.
Lemma view0_file : o_disk os0 (upper_name (cat_name view0) 255) = Some (Some hello_bytes).
Proof. vm_compute. reflexivity. Qed.
Lemma view0_dir : dirinfo <$> filter (λ e, listed e = true) (live_entries (dir_entries img vol [2])) =
  [DirInfo (chars "HELLO.TXT") 600 0; DirInfo (chars "BIN") 0 1].
Proof. vm_compute. reflexivity. Qed.
Lemma view0_slen : (1023 < o_slen os0 <= fuel0)%nat.
Proof. unfold fuel0, LIST_FUEL. cbn [o_slen os0]. lia. Qed.
Lemma view0_lits lits P : lits ⊆ all_lits → (∀ a, P a → 0x300000 <= a) → literals os0 lit0 P lits (v_mem view0).
Proof. intros Hs HP. apply (placed os0 (pg_mem pg) lits P Hs); [cbn; lia|exact HP]. Qed.
(** What the shell answers to "nope". *)
Definition nope_text : list Z :=
  started_text ++ prompt_text ++ chars "nope" ++ [10] ++ chars "Command not found: " ++ chars "nope" ++ [10] ++ prompt_text.
Lemma view0_session : session os0 [chars "nope"] (add_text (started_text ++ prompt_text) [], args1) =
  Some (add_text nope_text [], (parse_command_line (chars "nope") (replicate 64 0) args1).2).
Proof. vm_compute. reflexivity. Qed.
End World.

(** ** Witnesses *)

#[local] Existing Instance ready_io.
#[local] Existing Instance disk.
Lemma ready_quiet (d : unit) : (serial_received SERIAL_COM1 d).1 = 0.
Proof. reflexivity. Qed.
Lemma root_fuel : (length [2%Z] < fuel0)%nat.
Proof. unfold fuel0, LIST_FUEL. cbn [length]. lia. Qed.

Definition os1 : system := os0 pg_user.
Definition view1 : view := view0 pg_user.
Definition world1 : world unit := world0 pg_user.
Lemma world1_sees : sees (D := unit) 0x400000 site1 img [2] os1 vga0 view1 world1.
Proof. exact (world0_sees pg_user pg_user_map pg_user_tab). Qed.
Lemma os1_slen : (1023 < o_slen os1 <= fuel0)%nat.
Proof. exact (view0_slen pg_user). Qed.
Lemma os1_name : o_program_name os1 = Kernel.cs_program_name (us_site site1) ∧ length (o_program_name os1) = 64%nat.
Proof. split; reflexivity. Qed.
Lemma view1_lits lits P : lits ⊆ all_lits → (∀ a, P a → 0x300000 <= a) → literals os1 lit0 P lits (v_mem view1).
Proof. exact (view0_lits pg_user lits P). Qed.
Lemma view1_file : o_disk os1 (upper_name (cat_name view1) 255) = Some (Some hello_bytes).
Proof. exact (view0_file pg_user). Qed.
Lemma view1_args : args_ok (v_args view1).
Proof. exact (view0_args pg_user). Qed.
#[local] Opaque map_user_pages paging_init put_all vga_fill.

Ltac sublits := intros ? ?; unfold all_lits; rewrite ?elem_of_app; tauto.

Lemma cat_shows_file_witness :
  ∃ w', runs (M := k_step (D := unit) 0x400000 0x500000 fuel0 site1) (_start (cat_main lit0 0x300100 0x300600)) world1 (Exited w') ∧
    screen_of w' = show 0x200040 (Bye 0) (put_all (white vga0) hello_bytes).
Proof.
  pose proof (cat_shows_file 0x400000 0x500000 fuel0 site1 img [2] os1 vga0 fuel0_drains ready_quiet disk_reads img_ok
    LIST_FUEL_ok root_fuel os1_slen os1_name lit0 0x300100 0x300600 view1 world1 world1_sees) as H.
  cbv zeta in H. change (count (v_args view1) <? 1) with false in H. cbv iota in H.
  rewrite view1_file in H. destruct H as [H E].
  - split; unfold user, apart; lia.
  - apply view1_lits; [sublits|]. unfold cat_bytes, span. lia.
  - exact view1_args.
  - rewrite E in H; [exact H|]. unfold nul_free, hello_bytes. apply Forall_app. split; apply Forall_replicate; discriminate.
Defined.

Lemma ls_lists_directory_witness :
  ∃ w', runs (M := k_step (D := unit) 0x400000 0x500000 fuel0 site1) (_start (ls_main lit0 0x300100 0x300800 0x300810)) world1 (Exited w') ∧
    screen_of w' = show 0x200040 (Bye 0) (put_all (white vga0)
      (ls_text [DirInfo (chars "HELLO.TXT") 600 0; DirInfo (chars "BIN") 0 1])).
Proof.
  pose proof (ls_lists_directory 0x400000 0x500000 fuel0 site1 img [2] os1 vga0 fuel0_drains ready_quiet disk_reads img_ok
    LIST_FUEL_ok root_fuel os1_slen os1_name lit0 0x300100 0x300800 0x300810 view1 world1 world1_sees) as H.
  cbv zeta in H. change (y_fs (u_sys world1)) with vol in H. rewrite view0_dir in H. apply H; clear H.
  - split; [split_and!|split|..]; unfold user, apart; lia || reflexivity.
  - apply view1_lits; [sublits|]. unfold ls_bytes, num_bytes, span. lia.
  - repeat constructor; cbn; unfold u32, u8; lia || discriminate.
Defined.

Lemma frame0 : num_frame 0x300100 0x300110.
Proof. unfold num_frame, user, apart. lia. Qed.
Lemma frame0_stack a : num_bytes 0x300100 0x300110 a → 0x300000 <= a.
Proof. unfold num_bytes, span. lia. Qed.

Lemma uptime_shows_time_witness :
  ∃ w', runs (M := k_step (D := unit) 0x400000 0x500000 fuel0 site1) (_start (uptime_main lit0 0x300100 0x300110)) world1 (Exited w') ∧
    screen_of w' = show 0x200040 (Bye 0) (put_all (white vga0) (line "Uptime: 1h 1m 1s")).
Proof.
  pose proof (uptime_shows_time 0x400000 0x500000 fuel0 site1 img [2] os1 vga0 fuel0_drains ready_quiet disk_reads img_ok
    LIST_FUEL_ok root_fuel os1_slen os1_name lit0 0x300100 0x300110 view1 world1 world1_sees) as H.
  change (y_ticks (u_sys world1)) with 366100 in H.
  replace (uptime_text (get_uptime_ms 366100)) with (line "Uptime: 1h 1m 1s") in H by (vm_compute; reflexivity).
  apply H; [exact frame0|]. apply view1_lits; [sublits|exact frame0_stack].
Defined.

Lemma ring3_is_stopped_witness :
  ∃ w', runs (M := k_step (D := unit) 0x400000 0x500000 fuel0 site1) (_start (ring3_main lit0 0x300100 0x300110)) world1 (Halted w') ∧
    screen_of w' = show 0x200040 (Fault 0x1000 5) (put_all (white vga0) (ring3_text 3661000)).
Proof.
  apply (ring3_is_stopped 0x400000 0x500000 fuel0 site1 img [2] os1 vga0 fuel0_drains ready_quiet disk_reads img_ok
    LIST_FUEL_ok root_fuel os1_slen os1_name lit0 0x300100 0x300110 view1 world1 world1_sees).
  - exact frame0.
  - apply view1_lits; [sublits|exact frame0_stack].
  - apply view1_lits; [sublits|tauto].
Defined.

Lemma uint_to_str_correct_witness :
  ok (M := os_machine os1) (uint_to_str 0x300100 4294967295 0x300110) view1 (λ _ v', ∃ s,
    str_at (v_mem v') 0x300110 s ∧ undec s = 4294967295).
Proof.
  eapply ok_mono; [apply (uint_to_str_correct os1 0x300100 0x300110 4294967295 view1); [unfold u32; lia|exact frame0]|].
  intros _ v' (s & Hs & Hv & _). exists s. split; assumption.
Defined.

(** [uptime] returns to [_start] on the kernel as it does on the specification. *)
Lemma kernel_refines_os_witness :
  ∃ v' w', runs (M := k_step (D := unit) 0x400000 0x500000 fuel0 site1) (uptime_main lit0 0x300100 0x300110) world1 (Done 0 w') ∧
    sees (D := unit) 0x400000 site1 img [2] os1 vga0 v' w' ∧ v_out v' = add_text (uptime_text 3661000) [].
Proof.
  destruct (uptime_prints os1 lit0 0x300100 0x300110 frame0 ltac:(pose proof os1_slen; lia) view1
    ltac:(apply view1_lits; [sublits|exact frame0_stack])) as (r & v' & Hr & -> & _ & Ho).
  destruct (kernel_refines_os 0x400000 0x500000 fuel0 site1 img [2] os1 vga0 fuel0_drains ready_quiet disk_reads img_ok
    LIST_FUEL_ok root_fuel os1_slen os1_name _ view1 world1 _ world1_sees Hr) as ([x w'|w'|w'] & Hr' & Hrel);
    [destruct Hrel as [<- Hs]|destruct Hrel..].
  exists v', w'. split; [exact Hr'|]. split; [exact Hs|]. rewrite Ho. reflexivity.
Defined.

Lemma shell_session_correct_witness :
  ∃ w', runs (M := k_step (D := unit) 0x400000 0x500000 fuel0 site1) (_start (shell_main lit0 0x300100 0x300200)) world1 (Exited w') ∧
    screen_of w' = show 0x200040 (Bye 0) (shown 0x200040 vga0 (add_text (line "exit") (add_text nope_text []))).
Proof.
  apply (shell_session_correct 0x400000 0x500000 fuel0 site1 img [2] os1 vga0 fuel0_drains ready_quiet disk_reads img_ok
    LIST_FUEL_ok root_fuel os1_slen os1_name lit0 0x300100 0x300200 [chars "nope"] (chars "exit") view1 world1
    (add_text nope_text [], (parse_command_line (chars "nope") (replicate 64 0) args1).2) world1_sees).
  - split; unfold user, apart; lia.
  - apply view1_lits; [sublits|]. unfold shell_bytes, span. lia.
  - reflexivity.
  - vm_compute. reflexivity.
  - repeat constructor; vm_compute; congruence.
  - repeat constructor; vm_compute; congruence.
  - vm_compute. reflexivity.
  - exact (view0_session pg_user).
Defined.
