(* ===== verification/UserBoot.v ===== *)
(** * From reset to the system calls of programs

    The state in which [kernel_main] enters the first program is one in which
    the kernel implements the specification of its system calls: the start of
    the system (KernelProps.v, KernelRun.v) composed with the refinement of
    UserSim.v. *)

From Stdlib Require Import String.
From stdpp Require Import gmap.
From S2P Require Import Prelude Mem Pmm Heap HeapList HeapInv HeapProps Paging PagingProps Process ProcessProps ProcessRun.
From S2P Require Import Io Keyboard KeyboardProps Vga VgaProps Args ArgsProps Fat32 Fat32Names Fat32Dir Fat32Props Fat32List Ide.
From S2P Require Import Gdt Idt IdtProps Serial Elf ElfProps Syscall SyscallProps Kernel KernelProps KernelRun LineEdit.
From S2P Require Import User UserRun UserOs UserProps UserPrograms UserShell UserKernel UserSim UserTop.

#[local] Opaque put_all vga_fill map_user_pages load_segments pmm_init.

Section Boot.
Context {D : Type} `{PIO : PortIO D} `{BD : BlockDevice D}.
Context (la : layout) (site : Kernel.call_site) (fuel : nat) (k0 : Z) (bm : list Z).
Context (Hla : layout_fits la k0) (Hbm : length bm = 512%nat).
Context (img : Z → list Z) (root : list Z).
(** The image ends below 0x1DB000, so that the 21 pages of the start fit below
    the kernel's stack, and contains the buffer of [SYSCALL_EXEC]. *)
Context (exec_buffer : Z) (Hend : la_kernel_end la <= 0x1DB000).
Context (Hexec : 0 <= exec_buffer ∧ exec_buffer + sizeof_exec_buffer <= la_kernel_end la).

Lemma boot_page_in p : 0 <= p < 4096 → init_free (la_kernel_end la) p → p * PAGE_SIZE ∈ boot_pages la bm.
Proof using Hbm.
  clear Hla Hend Hexec. intros Hp Hi. change (p * PAGE_SIZE ∈ pmm_free_addrs (pmm_init (la_kernel_end la) bm)).
  apply elem_of_free_addrs. exists p. split; [reflexivity|]. apply elem_of_free_pages.
  change TOTAL_PAGES with 4096. split; [exact Hp|]. rewrite pmm_init_used by assumption.
  by rewrite bool_decide_eq_true_2.
Qed.

(** The pages taken at the start are the lowest: the page of the user stack is
    not one of them. *)
Lemma stack_page_free st : booted la k0 bm img st → 0x300000 ∈ pa_free (k_pa st).
Proof using Hla Hbm Hend.
  clear Hexec. intros [(_ & _ & _ & l & (_ & _ & _ & Hsub & Hsz & Htk) & _) _].
  pose proof (takes_lowest _ _ Htk (boot_pages_inv la k0 bm Hla Hbm)) as [_ Hlow].
  rewrite boot_pages_eq in Hlow.
  destruct (decide (0x300000 ∈ pa_free (k_pa st))) as [|Hn]; [assumption|exfalso].
  set (us := 0x300000 :: ((λ k, (0x1DB + k) * PAGE_SIZE) <$> seqZ 0 21)).
  assert (∀ u, u ∈ us → u <= 0x300000 ∧ u ∈ boot_pages la bm) as Hus.
  { pose proof (lf_end _ _ Hla) as Hke. intros u [->|(k & -> & Hk%elem_of_seqZ)%list_elem_of_fmap]%elem_of_cons.
    - split; [lia|]. change 0x300000 with (0x300 * PAGE_SIZE). apply boot_page_in; [lia|]. right. lia.
    - split; [unfold PAGE_SIZE; lia|]. apply boot_page_in; [lia|]. left. rewrite w32_small by lia.
      assert ((la_kernel_end la + 4095) / 4096 < 0x1DB + k + 1) by (apply Z.div_lt_upper_bound; lia). lia. }
  assert (size (list_to_set us : gset Z) = 22%nat) as Hs22.
  { rewrite size_list_to_set; [reflexivity|]. unfold us. constructor.
    - intros (k & E & Hk%elem_of_seqZ)%list_elem_of_fmap. unfold PAGE_SIZE in E. lia.
    - apply NoDup_fmap_2; [|apply NoDup_seqZ]. intros x y. unfold PAGE_SIZE. lia. }
  assert ((list_to_set us : gset Z) ⊆ boot_pages la bm ∖ pa_free (k_pa st)) as Hdiff.
  { intros u Hu%elem_of_list_to_set. destruct (Hus u Hu) as [Hle Hin]. apply elem_of_difference. split; [exact Hin|].
    intros Hf. assert (0x300000 ∈ boot_pages la bm) as H3 by (apply Hus; left).
    pose proof (Hlow 0x300000 u H3 Hn Hf). lia. }
  apply subseteq_size in Hdiff. rewrite size_difference, Hs22, Hsz in Hdiff by exact Hsub.
  pose proof (boot_pages_many la bm Hbm). lia.
Qed.

(** Heap and page tables are above the image and apart from programs. *)
Lemma booted_apart st : booted la k0 bm img st →
  (∀ a, table_byte (y_pg (k_sys st)) a → la_kernel_end la <= a ∧ ¬ user_range a) ∧
  ∃ l, heap_ready la bm 21 l st ∧ paging_ready la bm l (y_pg (k_sys st)) ∧
    ∀ z, covers l z → la_kernel_end la <= z ∧ ¬ user_range z.
Proof using Hla Hbm Hend.
  clear Hexec. intros Hb. pose proof (stack_page_free st Hb) as Hst.
  pose proof Hb as [(_ & _ & _ & l & Hh & Hp) _]. split.
  - intros a Ha. pose proof (booted_tables la k0 bm Hla Hbm img st a Hb Ha) as [Hlo Hhi]. split; [exact Hlo|].
    intros Hu. unfold user_range in Hu. pose proof (is_inv _ _ (pr_state _ _ _ _ Hp)) as Hi.
    destruct Ha as (p & Hpt & Hr). change PAGE_SIZE with 4096 in Hr.
    assert (page_ok p ∧ p ∉ pa_free (k_pa st)) as [[Hal _] Hnf].
    { destruct Hpt as [->|[i Ht]]; [split; [apply Hi|apply (pi_pd_used _ Hi)]|].
      destruct (pi_table _ Hi i p Ht) as (? & ? & _). split; assumption. }
    assert (p = 0x300000) as -> by (change PAGE_SIZE with 4096 in Hal; Z.div_mod_to_equations; lia). exact (Hnf Hst).
  - exists l. split; [exact Hh|]. split; [exact Hp|]. intros z Hz. destruct Hh as (Hi & _ & Hcov & _).
    destruct (Hcov z Hz) as (p & Hpb & Hr). pose proof (boot_pages_above la k0 bm Hla Hbm p Hpb) as [Hlo Hhi].
    destruct (boot_pages_page la k0 bm Hla Hbm p Hpb) as (Hal & _). change PAGE_SIZE with 4096 in *.
    split; [lia|]. intros Hu. unfold user_range in Hu.
    assert (p = 0x300000) as -> by (Z.div_mod_to_equations; lia).
    destruct (hi_page _ _ _ Hi 0x300000 z Hst) as [Hn _]; [exact Hr|]. exact (Hn Hz).
Qed.
(** A memory that agrees with that of the booted kernel on the pages it has
    taken. *)
Definition keeps_kernel (st : kstate) (m : mem) : Prop :=
  ∀ a, addr_ok a 1 → la_kernel_end la <= a → ¬ user_range a → load8 m a = load8 (k_mem st) a.

(** Opening the pages of a program in such a memory. *)
Lemma entry_pages st m : booted la k0 bm img st → keeps_kernel st m →
  let pg := map_user_pages (Paging.set_mem (y_pg (k_sys st)) m) in
  user_map pg ∧ (∀ a, table_byte pg a → la_kernel_end la <= a) ∧
  ∃ l, heap_inv (Heap (pg_mem pg) (y_free_list (k_sys st)) (y_heap_pages (k_sys st)) (pg_pa pg)) l ∅ ∧
    ∀ z, covers l z → la_kernel_end la <= z ∧ ¬ user_range z.
Proof using Hla Hbm Hend.
  clear Hexec. intros Hb Hm pg. destruct (booted_apart st Hb) as (Htab & l & (Hh & _) & Hp & Hcov).
  destruct (init_state_ext 4 _ m (pr_state _ _ _ _ Hp)) as [Hs Hback]; [|lia|].
  { intros a Ha Ht. destruct (Htab a Ht). by apply Hm. }
  set (pg2 := Paging.set_mem (y_pg (k_sys st)) m) in *. pose proof (init_table pg2 0 Hs ltac:(lia)) as Hpr.
  destruct (map_user_pages_keeps pg2 (is_inv _ _ Hs) Hpr) as [Epa Hback2].
  destruct (map_user_pages_spec pg2 (is_inv _ _ Hs) Hpr) as (_ & Hfr & _). fold pg in Epa, Hback2, Hfr.
  split; [apply (user_map_init pg2 Hs); intros a Ha%Hback; apply (Htab a Ha)|].
  split; [intros a Ha%Hback2%Hback; apply (Htab a Ha)|]. exists l. split; [|exact Hcov].
  rewrite Epa. apply (heap_inv_ext (k_heap st) l (pg_mem pg) (pg_pa pg2) Hh); [|apply (hi_pa _ _ _ Hh)|reflexivity].
  intros z Hz. destruct (Hcov z Hz) as [Hlo Hnu].
  assert (addr_ok z 1) as Hz1.
  { pose proof (wf_segs_covers PAGE_SIZE l z (hi_wf _ _ _ Hh) Hz). unfold addr_ok, TOTAL_MEMORY, PAGE_SIZE in *. lia. }
  rewrite (fr_bytes _ _ Hfr z Hz1); [by apply Hm|]. intros Ha%Hback2%Hback. exact (pr_heap _ _ _ _ Hp z Ha Hz).
Qed.

(** ** The specification of the booted system *)

Definition booted_os (dsk : list Z → option (option (list Z))) (n : nat) (name : list Z) (l : list Heap.seg) (st : sys) : system := {|
  o_disk := dsk;
  o_dir := dirinfo <$> filter (λ e, listed e = true) (live_entries (dir_entries img (mounted img) root));
  o_free_pages := pmm_get_free_count (pg_pa (y_pg st));
  o_heap := {| total_bytes := PAGE_SIZE * y_heap_pages st; free_bytes := sum_sizes l;
    used_bytes := live_total ∅ + HEADER_SIZE * Z.of_nat (length l);
    num_free_blocks := Z.of_nat (length l); num_pages := y_heap_pages st |};
  o_pid := sys_getpid st; o_slen := n; o_program_name := name
|}.

Lemma entry_kernel_ok st m y dsk n name :
  booted la k0 bm img st → keeps_kernel st m → volume_ok img root →
  y_pg y = map_user_pages (Paging.set_mem (y_pg (k_sys st)) m) →
  y_free_list y = y_free_list (k_sys st) → y_heap_pages y = y_heap_pages (k_sys st) → y_fs y = mounted img →
  0 < exec_depth (y_exec y) → disk_ok img root (booted_os dsk n name [] y) (mounted img) →
  ∃ l, kernel_ok exec_buffer img root (booted_os dsk n name l y) y.
Proof using Hla Hbm Hend Hexec.
  intros Hb Hm Hvol Epg Efl Ehp Efs Hd Hdisk. destruct (entry_pages st m Hb Hm) as (Hu & Htab & l & Hh & Hcov).
  pose proof (lf_end _ _ Hla) as Hke. pose proof (lf_stack _ _ Hla) as Hks.
  rewrite <-Epg in Hu, Htab, Hh. exists l. split.
  - exact Hu.
  - rewrite Efs. by eapply mounted_ok.
  - rewrite Efs. apply Hvol.
  - rewrite Efs. exact Hdisk.
  - rewrite Efs. reflexivity.
  - exists l. rewrite Efl, Ehp. split; [exact Hh|]. split; [|cbn [o_heap booted_os]; by rewrite Ehp].
    intros z Hz. destruct (Hcov z Hz) as [Hlo Hnu]. split; [exact Hnu|]. unfold span. lia.
  - reflexivity.
  - reflexivity.
  - exact Hd.
  - unfold addr_ok, sizeof_exec_buffer in *. split; [lia|]. intros a Ha. unfold span in Ha. unfold user_range.
    split; [lia|]. intros Ht%Htab. lia.
Qed.
End Boot.

Section Top.
Context {D : Type} `{PIO : PortIO D} `{BD : BlockDevice D}.
Context (la : layout) (site : Kernel.call_site) (fuel : nat) (k0 : Z) (bm : list Z).
Context (Hla : layout_fits la k0) (Hbm : length bm = 512%nat) (Hdrain : drains (D := D) fuel) (Hfuel : fuel_ok fuel).
Context (img : Z → list Z) (root : list Z) (Hdev : reads_image (D := D) 0 img) (Hvol : volume_ok img root).
Context (Hroot : (length root < fuel)%nat) (Hname : length (Kernel.cs_program_name site) = 64%nat).
Context (exec_buffer saved_program : Z) (Hend : la_kernel_end la <= 0x1DB000).
Context (Hexec : 0 <= exec_buffer ∧ exec_buffer + sizeof_exec_buffer <= la_kernel_end la).
(** The first program, and the site of its system calls. *)
Context (f : fat32_file_t) (lf : list Z) (usite : user_site).
Context (Hshell : lookup_file img (mounted img) root (chars "SHELL") = Some f) (Hfile : file_ok img (mounted img) f lf).
Context (Huname : length (Kernel.cs_program_name (us_site usite)) = 64%nat).
#[local] Notation bs := (content img (mounted img) lf f).
#[local] Notation buf := (la_binary_buffer la).
Context (Hprog : program_in (store_bytes ∅ buf bs) buf (Z.of_nat (length bs))).

(** What the first program sees when it starts. *)
Definition first_view (y : sys) (ks : list Z) (sl : list (list Z)) : view :=
  View (y_mem y) [] None (current_program_args y) ks (y_ticks y) sl.

Lemma read_sys_args st f' : booted la k0 bm img st →
  rows_ok (args (current_program_args (read_sys la site (chars "shell") st f f' bs))).
Proof using Hname.
  intros [(Hc & _) _]. change (rows_ok (args (parsed site (chars "shell") st))). unfold parsed.
  pose proof (parse_spec (chars "shell") (Kernel.cs_program_name site) (current_program_args (k_sys st))) as Hp.
  destruct (parse_command_line _ _ _) as [nm a]. cbn [snd]. apply Hp; [|exact Hname|apply Hc].
  vm_compute. repeat constructor; discriminate.
Qed.

Lemma loaded_keeps st x : booted la k0 bm img st → Z.of_nat (length bs) <= sizeof_binary_buffer →
  let m := store_bytes (k_mem st) buf bs in
  x_pg x = Paging.set_mem (y_pg (k_sys st)) m →
  keeps_kernel la st (load_segments (Z.to_nat 65536) m buf (buf ⊕ e_phoff m buf) 0).
Proof using Hla Hbm Hprog.
  clear Hname Huname Hexec Hroot Hend. intros Hb Hl m Ex a Ha Hlo Hnu. unfold user_range in Hnu.
  pose proof (booted_loadable la k0 bm Hla Hbm img st x bs Hb Hl Hprog Ex) as Hld.
  pose proof (loaded_outside x buf (Z.of_nat (length bs)) a Hld Ha ltac:(lia)) as E. rewrite Ex in E.
  etransitivity; [exact E|]. change (load8 m a = load8 (k_mem st) a). unfold m.
  pose proof (lf_binary _ _ Hla). pose proof (lf_end _ _ Hla). pose proof (lf_stack _ _ Hla). unfold sizeof_binary_buffer in *.
  rewrite load8_store_bytes by (unfold addr_ok in *; lia). rewrite decide_False by lia. reflexivity.
Qed.

(** The state in which the program starts. *)
Lemma entry_sees st f' dsk n : booted la k0 bm img st →
  Z.of_nat (length bs) <= sizeof_binary_buffer →
  let y := k_sys (started_at la site st (read_sys la site (chars "shell") st f f' bs) bs).2 in
  disk_ok img root (booted_os img root dsk n (Kernel.cs_program_name (us_site usite)) [] y) (mounted img) →
  ∃ l, ∀ d ks cs sl, typed (y_kbd y) ks cs →
    sees (D := D) exec_buffer usite img root (booted_os img root dsk n (Kernel.cs_program_name (us_site usite)) l y)
      (x_vga (y_exec y)) (first_view y cs sl) (World y d ks sl).
Proof using Hla Hbm Hvol Hname Hend Hexec Hprog.
  clear Hroot Huname. intros Hb Hl y Hdisk. set (x := read_sys la site (chars "shell") st f f' bs) in *.
  pose proof (loaded_keeps st (y_exec x) Hb Hl eq_refl) as Hm. pose proof (read_sys_args st f' Hb) as Hargs.
  pose proof Hb as [(Hc & _) Efs].
  destruct (entry_kernel_ok la k0 bm Hla Hbm img root exec_buffer Hend Hexec st _ y dsk n
    (Kernel.cs_program_name (us_site usite)) Hb Hm Hvol) as [l Hok]; [reflexivity|reflexivity|reflexivity|exact Efs| |exact Hdisk|].
  { change (0 < exec_depth (y_exec (k_sys st)) + 1). destruct (cr_depth _ _ Hc) as [-> _]. lia. }
  exists l. intros d ks cs sl Hk. split.
  - exact Hok.
  - reflexivity.
  - reflexivity.
  - exact (cr_file _ _ Hc).
  - split; [reflexivity|exact Hargs].
  - exact Hk.
  - split; reflexivity.
Qed.

Context (Hquiet : ∀ d : D, (serial_received SERIAL_COM1 d).1 = 0).
(** The files that the specification speaks of are those of the disk. *)
Context (dsk : list Z → option (option (list Z))) (n : nat) (Hn : (1023 < n <= fuel)%nat).
Context (Hdsk : ∀ o, o_disk o = dsk → disk_ok img root o (mounted img)).
Context (Hfu : (Z.to_nat sizeof_binary_buffer < fuel)%nat).

(** After the start of the system the kernel meets the specification [o]. *)
Definition serves (o : system) (y : sys) : Prop :=
  o_disk o = dsk ∧ o_slen o = n ∧ o_program_name o = Kernel.cs_program_name (us_site usite) ∧
  ∀ d ks cs sl, typed (y_kbd y) ks cs →
    sees (D := D) exec_buffer usite img root o (x_vga (y_exec y)) (first_view y cs sl) (World y d ks sl).

Lemma boot_serves st : at_reset bm st → length (vga_buffer (k_vga st)) = 2000%nat →
  ends (D := D) (kernel_main la site fuel st) (λ p, entered la site bs p ∧ ∃ o, serves o (k_sys p.2)).
Proof using Hla Hbm Hdrain Hfuel Hdev Hvol Hroot Hname Hend Hexec Hshell Hfile Huname Hprog Hn Hdsk Hfu.
  intros Hst Hv. eapply ends_mono; [exact (kernel_main_spec la site fuel k0 bm Hla Hbm Hdrain Hfuel img root Hdev Hvol
    Hroot Hname st f lf Hst Hv Hfu Hshell Hfile Hprog)|].
  intros p (st1 & f' & _ & Hb & -> & He). split; [exact He|]. pose proof (fo_size _ _ _ _ Hfile) as Hsz.
  pose proof (length_content img (vo_image _ _ Hvol) _ f lf (mounted_ok _ _ Hvol) Hfile) as Hlen.
  destruct (entry_sees st1 f' dsk n Hb) as [l Hs]; [lia|by apply Hdsk|].
  eexists. split; [|split; [|split; [|exact Hs]]]; reflexivity.
Qed.

(** C2: From reset to ring 3: [kernel_main] starts the system and enters the
    SHELL program of the disk, in a state in which the kernel implements the
    specification of its system calls over the files of the disk: every program
    that runs on the specification, from what the first program sees and for
    any keys and interrupts to come, runs on the kernel to the same end.  In
    particular neither the heap nor a page table is in the memory of programs,
    although the page of their stack is one the page allocator may hand out:
    the start takes the 21 lowest pages. *)
Theorem boot_serves_programs st : at_reset bm st → length (vga_buffer (k_vga st)) = 2000%nat →
  ends (D := D) (kernel_main la site fuel st) (λ p, entered la site bs p ∧
    let y := k_sys p.2 in
    ∃ o, o_disk o = dsk ∧ ∀ d ks cs sl, typed (y_kbd y) ks cs →
      ∀ A (t : prog A) r, runs (M := os_machine o) t (first_view y cs sl) r →
      ∃ s, runs (M := k_step exec_buffer saved_program fuel usite) t (World y d ks sl) s ∧
        result_rel (sees (D := D) exec_buffer usite img root o (x_vga (y_exec y)))
          (ended usite (x_vga (y_exec y))) r s).
Proof using Hla Hbm Hdrain Hfuel Hdev Hvol Hroot Hname Hend Hexec Hshell Hfile Huname Hprog Hquiet Hn Hdsk Hfu.
  intros Hst Hv. eapply ends_mono; [by apply boot_serves|]. intros p [He (o & Ed & En & Enm & Hs)]. split; [exact He|].
  exists o. split; [exact Ed|]. intros d ks cs sl Hk A t r Hr.
  apply (kernel_runs exec_buffer saved_program fuel usite img root o _ Hdrain Hquiet Hdev (vo_image _ _ Hvol) Hfuel Hroot)
    with (v := first_view (k_sys p.2) cs sl); [lia|by rewrite Enm|by apply Hs|exact Hr].
Qed.

(** A session of the shell after the start, when the literals of shell.c are in
    the image that was loaded. *)
Theorem boot_shell_session st : at_reset bm st → length (vga_buffer (k_vga st)) = 2000%nat →
  ends (D := D) (kernel_main la site fuel st) (λ p,
    let y := k_sys p.2 in
    ∃ o, o_disk o = dsk ∧ ∀ d ks sl lit cmd_buf ch_buf css cs s',
      shell_frame cmd_buf ch_buf → literals o lit (shell_bytes cmd_buf ch_buf) shell_lits (y_mem y) →
      typed (y_kbd y) ks (enter_all (css ++ [cs])) →
      Forall (λ cs, Forall (λ c, 0 < c < 256 ∧ c ≠ 10) cs ∧ fold_left edit cs [] ≠ chars "exit") css →
      Forall (λ c, 0 < c < 256 ∧ c ≠ 10) cs → fold_left edit cs [] = chars "exit" →
      session o css (add_text (started_text ++ prompt_text) [], current_program_args y) = Some s' →
      ∃ w', runs (M := k_step exec_buffer saved_program fuel usite) (_start (shell_main lit cmd_buf ch_buf))
          (World y d ks sl) (Exited w') ∧
        screen_of w' = show (us_eip usite) (Bye 0)
          (shown (us_eip usite) (x_vga (y_exec y)) (add_text (echo_all [] cs ++ [10]) s'.1))).
Proof using Hla Hbm Hdrain Hfuel Hdev Hvol Hroot Hname Hend Hexec Hshell Hfile Huname Hprog Hquiet Hn Hdsk Hfu.
  intros Hst Hv. eapply ends_mono; [by apply boot_serves|]. intros p [_ (o & Ed & En & Enm & Hs)].
  exists o. split; [exact Ed|]. intros d ks sl lit cmd_buf ch_buf css cs s' Hf Hl Hk HF Hcs He Hse.
  set (v := first_view (k_sys p.2) (enter_all (css ++ [cs])) sl).
  assert (1023 < o_slen o <= fuel)%nat as Hsl by (rewrite En; exact Hn). assert (64 < o_slen o)%nat as Hsl' by (rewrite En; lia).
  assert (ok (M := os_machine o) (shell_main lit cmd_buf ch_buf) v (λ r v', r = 0 ∧ v_out v' = add_text (echo_all [] cs ++ [10]) s'.1)) as Hok.
  { eapply ok_mono; [exact (shell_spec o lit cmd_buf ch_buf Hf Hsl' css cs v s' Hl eq_refl eq_refl HF Hcs He Hse)|].
    intros r v' (-> & Hvo & _). split; [reflexivity|exact Hvo]. }
  rewrite <-Enm in Huname.
  destruct (main_exits exec_buffer saved_program fuel usite img root o (x_vga (y_exec (k_sys p.2))) Hdrain Hquiet Hdev (vo_image _ _ Hvol)
    Hfuel Hroot Hsl (conj Enm Huname) (shell_main lit cmd_buf ch_buf) v (World (k_sys p.2) d ks sl) 0 _ (Hs d ks _ sl Hk) Hok) as (w' & Hr & Hw).
  exists w'. split; [exact Hr|exact Hw].
Qed.
End Top.
