(* ===== verification/UserBootExample.v ===== *)
(** * The start of the system: a concrete machine

    The image and the disk of KernelExample.v, with room for the buffer of
    [SYSCALL_EXEC], on which the kernel serves its first program. *)

From Stdlib Require Import String.
From stdpp Require Import gmap.
From S2P Require Import Prelude Mem Pmm Heap HeapList HeapInv HeapProps Paging PagingProps Process ProcessProps Io Keyboard Vga VgaProps.
From S2P Require Import Fat32 Fat32Names Fat32Dir Fat32Props Fat32Volume Fat32List Gdt Idt Serial Elf ElfProps Syscall.
From S2P Require Import Kernel KernelProps KernelRun KernelExample.
From S2P Require Import User UserRun UserOs UserProps UserKernel UserSim UserTop UserBoot.

#[local] Existing Instance ready_io.
#[local] Existing Instance shell_disk.
Lemma com1_quiet (d : unit) : (serial_received SERIAL_COM1 d).1 = 0.
Proof. reflexivity. Qed.
Lemma shell_root_fuel : (length [2%Z] < fuel0)%nat.
Proof. unfold fuel0, LIST_FUEL. cbn [length]. lia. Qed.
Definition shell_site : user_site := UserSite site0 0x200040.

(** A kernel image with both 64 KB buffers, that ends at 0x140000. *)
Definition lay1 : layout :=
  Layout 0x105000 0x106000 0x107000 (λ i, 0x101000 + i mod 256) 0x140000 0x110000 0x100010 0x112000.
Lemma lay1_fits : layout_fits lay1 0x1E0000.
Proof.
  split; unfold lay1, TABLE_BYTES, sizeof_process, MAX_PROCESSES, sizeof_binary_buffer, u32; cbn; try lia.
  intros i. pose proof (Z.mod_pos_bound i 256). lia.
Qed.

Definition shell_dsk (nm : list Z) : option (option (list Z)) :=
  if decide (nm = chars "SHELL") then Some (Some elf_file) else None.
Lemma shell_dsk_ok o : o_disk o = shell_dsk → disk_ok shell_img [2] o (mounted shell_img).
Proof.
  intros Ho nm file E. rewrite Ho in E. unfold shell_dsk in E. case_decide as Hn; [|discriminate E]. injection E as <-. subst nm.
  rewrite shell_lookup. exists [3; 4]. split; [apply shell_file_ok|]. split; [vm_compute; split; congruence|].
  split; [apply shell_file_ok|]. rewrite shell_content. reflexivity.
Qed.

Lemma boot_serves_programs_witness :
  ends (D := unit) (kernel_main lay1 site0 fuel0 reset_state) (λ p, ∃ o, o_disk o = shell_dsk ∧
    ∃ s, runs (M := k_step (D := unit) 0x125000 0x500000 fuel0 shell_site) getpid (World (k_sys p.2) tt [] []) s).
Proof.
  eapply ends_mono.
  - apply (boot_serves_programs lay1 site0 fuel0 0x1E0000 bitmap0 lay1_fits eq_refl fuel0_drains LIST_FUEL_ok
      shell_img [2] shell_disk_reads shell_volume shell_root_fuel eq_refl 0x125000 0x500000) with
      (usite := shell_site) (dsk := shell_dsk) (n := Z.to_nat 2000).
    + cbn. lia.
    + cbn. unfold sizeof_exec_buffer. lia.
    + exact shell_lookup.
    + exact shell_file_ok.
    + reflexivity.
    + rewrite shell_content. exact shell_program.
    + exact com1_quiet.
    + unfold fuel0, LIST_FUEL. lia.
    + exact shell_dsk_ok.
    + unfold fuel0, LIST_FUEL, sizeof_binary_buffer. lia.
    + exact reset_ok.
    + exact (vg_len _ vga0_inv).
  - intros p [_ (o & Ed & Hrun)]. exists o. split; [exact Ed|].
    destruct (Hrun tt [] [] [] I Z getpid (Done (o_pid o) (first_view (k_sys p.2) [] []))) as (s & Hs & _).
    + by apply runs_trigger.
    + exists s. exact Hs.
Defined.
